(* ===== verification/_CoqProject ===== *)
-Q . S2P
Prelude.v
Mem.v
KString.v
Riscv.v
State.v
Spinlock.v
SpinRace.v
Kalloc.v
Vm.v
PageTable.v
Uvm.v
CopyUser.v
UvmCopy.v
Freewalk.v
Proc.v
Sched.v
ProcSpec.v
SchedSpec.v
Uart.v
Printf.v
PrintSpec.v
Console.v
Sleeplock.v
SleepSpec.v
Pipe.v
PipeSpec.v
Bio.v
Blocks.v
BioSpec.v
Log.v
LogSpec.v
Virtio.v
Fs.v
FsSpec.v
InodeSpec.v
ContentSpec.v
DirSpec.v
File.v
ProcLife.v
Args.v
Exec.v
Sysproc.v
Sysfile.v
Syscall.v
Trap.v
SchedLive.v
Main.v
User.v
Ulib.v
UprintSpec.v
Grep.v
Umalloc.v
UmallocSpec.v
Sh.v
ShSpec.v
Programs.v
Utools.v
UtFiles.v
UtProcs.v
UtMem.v
Usertests.v
Grind.v
Mkfs.v
MkfsSpec.v
