(* ===== verification/Prelude.v ===== *)
(** * xv6-riscv with CFS and priority scheduling: a Rocq verification library

    The program is a small operating system: the xv6 kernel for RISC-V (kernel/), extended
    with a choice of three scheduling policies, system calls to set and read their
    parameters, memsize() and an exit() message; the user programs (user/), which see the
    kernel only through system calls; and mkfs (mkfs/), which builds the disk the kernel
    boots from.

    ** How the code is modelled

    A C integer is a [Z] with the wrap-around of its type written out.  Kernel code is a
    computation of one hart, [M kstate] (State.v), on the registers and locks ([sync]) and
    everything else ([data]); a C struct is a record, a pointer into a kernel table is an
    index, a pointer into memory an address.  The monad's outcomes are a return, a panic,
    the point at which the hart gives the CPU away in swtch() (with the rest of the
    computation, for any state it is resumed in), a lock that is never released, and a
    loop whose bound was too small.  C behaviour that is not defined is [undef].  A user
    program is a computation on an abstract world with the system calls as an interface
    ([Sys] of User.v, and [Wild] of Utools.v for calls with wild pointers).

    ** Files

    - Prelude, Mem, Riscv, State: integers, the monad and its tactics; byte-addressed
      memory; riscv.h, memlayout.h and param.h; the C structures as records.
    - KString: kernel/string.c.  memmove() is a copy also when the areas overlap.
    - Spinlock, SpinRace: spinlock.c, as one hart runs it and as several interleave, one
      memory access at a time; no two harts hold a lock.
    - Kalloc: kalloc.c.  No page is handed out twice, and kinit() frees every page.
    - Vm, PageTable, Uvm, CopyUser, UvmCopy, Freewalk: vm.c.  The tree of page tables in
      memory is a finite map; mappages(), uvmalloc(), uvmcopy() and uvmfree() change it as
      they should and lose no page; copyout(), copyin() and copyinstr() refine accesses to
      a flat user memory.
    - Proc, ProcLife, ProcSpec: proc.c but for the scheduler.  sleep(), wakeup() and kill()
      as changes of the process table.
    - Sched, SchedSpec, SchedLive: scheduler() and its policies.  Which process each policy
      runs; round-robin reaches every runnable process, the priority policy can starve one.
    - Uart, Printf, PrintSpec, Console: uart.c, printf.c, console.c.  Printed numbers read
      back.
    - Sleeplock, SleepSpec, Pipe, PipeSpec: sleeplock.c, pipe.c.  A pipe is a queue of at
      most 512 bytes.
    - Bio, Blocks, BioSpec: bio.c.  bread() and brelse() keep the invariant of the cache.
    - Log, LogSpec: log.c.  A crash at any block write of a commit leaves the disk before
      or after the transaction; recovery may itself be interrupted.
    - Virtio: virtio_disk.c.
    - Fs, FsSpec, InodeSpec, ContentSpec, DirSpec: fs.c.  Block allocation; the disk inode
      written is the one read; readi() and writei() refine a sequence of bytes; a directory
      is a map from names.
    - File, Args, Exec, Sysproc, Sysfile, Syscall: file.c, syscall.c, exec.c, sysproc.c,
      sysfile.c.
    - Trap, Main: trap.c, plic.c, start.c, main.c.
    - User, Ulib, UprintSpec: user/printf.c and ulib.c.  vprintf() prints every format
      whose arguments have its types.
    - Grep: grep.c.  match() decides the regular expressions' language, and grep() prints
      the matching lines.
    - Umalloc, UmallocSpec: umalloc.c.  Blocks that are handed out never overlap.
    - Sh, ShSpec: sh.c.  parsecmd() builds the command the grammar assigns to a line.
    - Programs: the small programs of user/.
    - Utools, UtFiles, UtProcs, UtMem, Usertests: usertests.c, one definition per test,
      the tables and the driver; runtests() runs the selected tests up to the first failure.
    - Grind: grind.c.  do_rand() is multiplication by 7^5 modulo 2^31 - 1.
    - Mkfs, MkfsSpec: mkfs.c.  The image satisfies what the kernel's file system relies on
      and holds every file.

    ** Bounds

    Loops over tables are recursions over lists of indices, and need no bound.  A loop
    that ends by what memory or a system call contains takes a number of rounds: the
    theorems about such loops either give a number that is enough (searches of lists, the
    parser, grep()) or have the bound as a parameter that only has to be large enough.
    Endless loops (the scheduler, the shell, init, grind) are modelled by their round.

    ** Not modelled

    - entry.S, kernelvec.S, trampoline.S, swtch.S, initcode.S and usys.pl: assembly.  What
      they save and restore is a field of the state, and [swtch] an outcome.
    - ramdisk.c: not part of the build, and it refers to fields that do not exist.
    - Interleaving of harts inside kernel code, but for spin locks (SpinRace): elsewhere
      what others do happens at [swtch] and while a lock is waited for.
    - Devices: the readings of the UART and what the virtio device does while a process
      sleeps are the environment's.
    - The instructions user programs run between system calls: what a fork() returns, and
      what a load, a store or an instruction fetch finds, is the interface's. *)

From Stdlib Require Export ZArith Lia.
From stdpp Require Export base gmap strings numbers list.

#[global] Open Scope Z_scope.
#[global] Set Default Goal Selector "!".

(** ** Machine integers

    C integers are [Z] with the wrap-around of their type written out.
    [char] is unsigned on RISC-V. *)

Definition wrapu (w z : Z) : Z := z mod 2 ^ w.
Definition wraps (w z : Z) : Z := (z + 2 ^ (w - 1)) mod 2 ^ w - 2 ^ (w - 1).

Abbreviation u8 := (wrapu 8).
Abbreviation u16 := (wrapu 16).
Abbreviation u32 := (wrapu 32).
Abbreviation u64 := (wrapu 64).
Abbreviation s16 := (wraps 16).
Abbreviation s32 := (wraps 32).
Abbreviation s64 := (wraps 64).

Definition INT_MAX : Z := 2 ^ 31 - 1.
Definition LLONG_MAX : Z := 2 ^ 63 - 1.

Lemma wrapu_range w z : 0 <= w -> 0 <= wrapu w z < 2 ^ w.
Proof. intros. apply Z.mod_pos_bound. lia. Qed.

Lemma wrapu_small w z : 0 <= z < 2 ^ w -> wrapu w z = z.
Proof. apply Z.mod_small. Qed.

Lemma wrapu_idemp w z : 0 <= w -> wrapu w (wrapu w z) = wrapu w z.
Proof. intros. apply wrapu_small, wrapu_range. lia. Qed.

Lemma wraps_range w z : 0 < w -> - 2 ^ (w - 1) <= wraps w z < 2 ^ (w - 1).
Proof.
  intros. unfold wraps.
  pose proof (Z.mod_pos_bound (z + 2 ^ (w - 1)) (2 ^ w) ltac:(lia)).
  assert (2 ^ w = 2 * 2 ^ (w - 1)) as E.
  { rewrite <- Z.pow_succ_r by lia. f_equal. lia. }
  lia.
Qed.

Lemma wraps_small w z : 0 < w -> - 2 ^ (w - 1) <= z < 2 ^ (w - 1) -> wraps w z = z.
Proof.
  intros. unfold wraps.
  assert (2 ^ w = 2 * 2 ^ (w - 1)) as E.
  { rewrite <- Z.pow_succ_r by lia. f_equal. lia. }
  rewrite Z.mod_small by lia. lia.
Qed.

Lemma wrapu_add_l w a b : wrapu w (wrapu w a + b) = wrapu w (a + b).
Proof. apply Zplus_mod_idemp_l. Qed.

Lemma wrapu_add_r w a b : wrapu w (a + wrapu w b) = wrapu w (a + b).
Proof. apply Zplus_mod_idemp_r. Qed.

(** C truth values. *)
Definition b2z (b : bool) : Z := if b then 1 else 0.
Definition nz (z : Z) : bool := negb (z =? 0).

(** The byte of a character literal ([ch "a"] is 'a'), the bytes of a string
    literal, and those of a character array up to its terminating 0. *)
Definition byte_of (c : Ascii.ascii) : Z := Z.of_N (Ascii.N_of_ascii c).
Definition ch (s : string) : Z := match s with String c _ => byte_of c | EmptyString => 0 end.
Fixpoint str (s : string) : list Z :=
  match s with EmptyString => [] | String c s' => byte_of c :: str s' end.
Fixpoint cstr (l : list Z) : list Z :=
  match l with [] => [] | c :: l' => if c =? 0 then [] else c :: cstr l' end.

(** ** The kernel monad

    A computation of one hart on a state [S].  [Swtch] is the point at which
    the hart gives the CPU away in [swtch()]: the computation continues from
    whatever state the rest of the system has produced when it is resumed.
    [Panic] and [Spin] are the two ways in which kernel code never returns. *)

Inductive out (S A : Type) : Type :=
  | Ret (a : A) (s : S)
  | Panic (msg : string) (s : S)
  | Swtch (s : S) (resume : S -> out S A)
  | Spin (s : S)
  | OutOfFuel (s : S).
Arguments Ret {S A} a s.
Arguments Panic {S A} msg s.
Arguments Swtch {S A} s resume.
Arguments Spin {S A} s.
Arguments OutOfFuel {S A} s.

Fixpoint obind {S A B} (o : out S A) (f : A -> S -> out S B) : out S B :=
  match o with
  | Ret a s => f a s
  | Panic m s => Panic m s
  | Swtch s k => Swtch s (fun s' => obind (k s') f)
  | Spin s => Spin s
  | OutOfFuel s => OutOfFuel s
  end.

Definition M (S A : Type) : Type := S -> out S A.

#[global] Instance M_ret S : MRet (M S) := fun A a s => Ret a s.
#[global] Instance M_bind S : MBind (M S) := fun A B f m s => obind (m s) f.

Definition panic {S A} (msg : string) : M S A := fun s => Panic msg s.
Definition spin {S A} : M S A := fun s => Spin s.
(** The bound of a loop was too small. *)
Definition nofuel {S A} : M S A := fun s => OutOfFuel s.
(** A C program has no defined behaviour here. *)
Definition undef {S A} : M S A := fun s => Panic "undefined behaviour" s.
Definition gets {S A} (f : S -> A) : M S A := fun s => Ret (f s) s.
Definition modify {S} (f : S -> S) : M S unit := fun s => Ret tt (f s).
Definition when {S} (b : bool) (m : M S unit) : M S unit :=
  if b then m else mret tt.
(** [for (x in xs) body], without [break]. *)
Fixpoint for_each {S A} (xs : list A) (body : A -> M S unit) : M S unit :=
  match xs with
  | [] => mret tt
  | x :: xs' => body x;; for_each xs' body
  end.
Definition swtch {S} : M S unit := fun s => Swtch s (fun s' => Ret tt s').

Lemma bind_unfold {S A B} (m : M S A) (f : A -> M S B) s :
  (m ≫= f) s = obind (m s) f.
Proof. reflexivity. Qed.

Lemma bind_Ret {S A B} (m : M S A) (f : A -> M S B) s a s' :
  m s = Ret a s' -> (m ≫= f) s = f a s'.
Proof. intros H. rewrite bind_unfold, H. reflexivity. Qed.

Lemma obind_Ret_inv {S A B} (o : out S A) (f : A -> S -> out S B) b s :
  obind o f = Ret b s -> exists a s1, o = Ret a s1 /\ f a s1 = Ret b s.
Proof. destruct o; cbn; try done. eauto. Qed.

Lemma bind_Panic {S A B} (m : M S A) (f : A -> M S B) s msg s' :
  m s = Panic msg s' -> (m ≫= f) s = Panic msg s'.
Proof. intros H. rewrite bind_unfold, H. reflexivity. Qed.

Lemma bind_mret {S A B} (a : A) (f : A -> M S B) s : (mret a ≫= f) s = f a s.
Proof. reflexivity. Qed.

Lemma bind_gets {S A B} (g : S -> A) (f : A -> M S B) s : (gets g ≫= f) s = f (g s) s.
Proof. reflexivity. Qed.

Lemma bind_modify {S B} (g : S -> S) (f : unit -> M S B) s :
  (modify g ≫= f) s = f tt (g s).
Proof. reflexivity. Qed.

Lemma bind_assoc {S A B C} (m : M S A) (f : A -> M S B) (g : B -> M S C) s a s' :
  m s = Ret a s' -> ((m ≫= f) ≫= g) s = (f a ≫= g) s'.
Proof. intros H. rewrite !bind_unfold, H. reflexivity. Qed.

Lemma bind_run {S A B} (m : M S A) (f : A -> M S B) s a s' b s'' :
  m s = Ret a s' -> f a s' = Ret b s'' -> (m ≫= f) s = Ret b s''.
Proof. intros H <-. by apply bind_Ret. Qed.

(** ** Automation *)

(** Case analysis on the integer comparisons of the goal. *)
Ltac zcases :=
  repeat match goal with
  | |- context [?a <=? ?b] => destruct (Z.leb_spec a b)
  | |- context [?a <? ?b] => destruct (Z.ltb_spec a b)
  | |- context [?a =? ?b] => destruct (Z.eqb_spec a b)
  end; cbn [andb orb negb].

(** Turn boolean hypotheses into propositions for [lia]. *)
Ltac zify_bool :=
  repeat match goal with
  | H : andb _ _ = true |- _ => apply andb_true_iff in H as [? ?]
  | H : orb _ _ = false |- _ => apply orb_false_iff in H as [? ?]
  | H : andb _ _ = false |- _ => apply andb_false_iff in H
  | H : orb _ _ = true |- _ => apply orb_true_iff in H
  | H : negb _ = true |- _ => apply negb_true_iff in H
  | H : negb _ = false |- _ => apply negb_false_iff in H
  end.

(** Compute the monad away in a computation of a few primitive steps. *)
Ltac kcompute :=
  unfold mbind, M_bind, mret, M_ret, gets, modify, when, panic, spin; cbn.

(** A property of all elements of a concrete list, by evaluation. *)
Lemma Forall_compute {A} (f : A -> bool) (P : A -> Prop) l :
  (forall x, f x = true -> P x) -> forallb f l = true -> Forall P l.
Proof. intros Hf. rewrite forallb_forall, Forall_forall. intros H x Hx. by apply Hf, H, list_elem_of_In. Qed.
