(* ===== verification/Mem.v ===== *)
(** * Byte-addressed memory

    Physical memory as the C code sees it: a byte at every address.  Reads
    normalise to a byte, so every [mem] is a memory and no side condition on
    stored values is needed.  64-bit and 32-bit accesses are little-endian, as
    on RISC-V. *)

From S2P Require Import Prelude.

Definition mem : Type := Z -> Z.

Definition load8 (m : mem) (a : Z) : Z := u8 (m a).
Definition store8 (m : mem) (a v : Z) : mem := fun x => if x =? a then v else m x.

(** [load_n n] reads [n] bytes at [a], least significant byte first. *)
Fixpoint load_n (n : nat) (m : mem) (a : Z) : Z :=
  match n with
  | O => 0
  | S n' => load8 m a + 256 * load_n n' m (a + 1)
  end.

Definition store_n (n : nat) (m : mem) (a v : Z) : mem :=
  fun x => if (a <=? x) && (x <? a + Z.of_nat n) then Z.shiftr v (8 * (x - a)) else m x.

Abbreviation load64 := (load_n 8).
Abbreviation store64 := (store_n 8).
Abbreviation load32 := (load_n 4).
Abbreviation store32 := (store_n 4).

(** The [n] bytes at [a], and writing a list of bytes at [a]. *)
Fixpoint read_bytes (m : mem) (a : Z) (n : nat) : list Z :=
  match n with
  | O => []
  | S n' => load8 m a :: read_bytes m (a + 1) n'
  end.

Fixpoint write_bytes (m : mem) (a : Z) (bs : list Z) : mem :=
  match bs with
  | [] => m
  | b :: bs' => write_bytes (store8 m a b) (a + 1) bs'
  end.

(** The bytes of a C object of [n] bytes with integer value [v]. *)
Fixpoint le_bytes (n : nat) (v : Z) : list Z :=
  match n with
  | O => []
  | S n' => u8 v :: le_bytes n' (Z.shiftr v 8)
  end.

(** ** Facts *)

(** Two memories with the same contents. *)
Definition mem_eq (m1 m2 : mem) : Prop := forall a, load8 m1 a = load8 m2 a.

#[export] Instance mem_eq_equiv : Equivalence mem_eq.
Proof.
  split.
  - intros m a. done.
  - intros m1 m2 H a. by rewrite (H a).
  - intros m1 m2 m3 H1 H2 a. by rewrite (H1 a), (H2 a).
Qed.

#[export] Instance load8_proper : Proper (mem_eq ==> eq ==> eq) load8.
Proof. intros m1 m2 H a ? <-. apply H. Qed.

#[export] Instance load_n_proper n : Proper (mem_eq ==> eq ==> eq) (load_n n).
Proof.
  intros m1 m2 H a ? <-. revert a.
  induction n as [|n IH]; intros a; cbn; [done|]. by rewrite (H a), IH.
Qed.

#[export] Instance store8_proper : Proper (mem_eq ==> eq ==> eq ==> mem_eq) store8.
Proof.
  intros m1 m2 H a ? <- v ? <- x. unfold load8, store8.
  destruct (x =? a); [done | apply H].
Qed.

#[export] Instance store_n_proper n : Proper (mem_eq ==> eq ==> eq ==> mem_eq) (store_n n).
Proof.
  intros m1 m2 H a ? <- v ? <- x. unfold load8, store_n.
  case_match; [done | apply H].
Qed.

Lemma load8_range m a : 0 <= load8 m a < 256.
Proof. apply (wrapu_range 8). lia. Qed.

Lemma load8_store8 m a v x :
  load8 (store8 m a v) x = if x =? a then u8 v else load8 m x.
Proof. unfold load8, store8. by destruct (x =? a). Qed.

Lemma load8_store8_eq m a v : load8 (store8 m a v) a = u8 v.
Proof. by rewrite load8_store8, Z.eqb_refl. Qed.

Lemma load8_store8_ne m a v x : x <> a -> load8 (store8 m a v) x = load8 m x.
Proof. intros. rewrite load8_store8. case_match; [lia | done]. Qed.

Lemma load8_store_n n m a v x :
  load8 (store_n n m a v) x =
  if (a <=? x) && (x <? a + Z.of_nat n) then u8 (Z.shiftr v (8 * (x - a))) else load8 m x.
Proof. unfold load8, store_n. by case_match. Qed.

Lemma load_n_range n m a : 0 <= load_n n m a < 256 ^ Z.of_nat n.
Proof.
  revert a. induction n as [|n IH]; intros a; cbn [load_n]; [cbn; lia|].
  rewrite Nat2Z.inj_succ, Z.pow_succ_r by lia.
  specialize (IH (a + 1)). pose proof (load8_range m a). lia.
Qed.

Lemma load64_range m a : 0 <= load64 m a < 2 ^ 64.
Proof. apply (load_n_range 8). Qed.

Lemma load_n_ext n m1 m2 a :
  (forall i, 0 <= i < Z.of_nat n -> load8 m1 (a + i) = load8 m2 (a + i)) ->
  load_n n m1 a = load_n n m2 a.
Proof.
  revert a. induction n as [|n IH]; intros a H; cbn [load_n]; [done|].
  rewrite (IH (a + 1)).
  - specialize (H 0 ltac:(lia)). rewrite !Z.add_0_r in H. by rewrite H.
  - intros i Hi. replace (a + 1 + i) with (a + (i + 1)) by lia. apply H. lia.
Qed.

(** A little-endian read of bytes that are the digits of [v] gives [v]. *)
Lemma load_n_digits n m a v :
  (forall i, 0 <= i < Z.of_nat n -> load8 m (a + i) = u8 (Z.shiftr v (8 * i))) ->
  load_n n m a = v mod 256 ^ Z.of_nat n.
Proof.
  revert a v. induction n as [|n IH]; intros a v H; cbn [load_n].
  { by rewrite Z.mod_1_r. }
  rewrite (IH (a + 1) (Z.shiftr v 8)).
  - specialize (H 0 ltac:(lia)). rewrite Z.add_0_r in H. rewrite H. clear H.
    rewrite Z.shiftr_0_r, Nat2Z.inj_succ, Z.pow_succ_r by lia.
    rewrite Z.shiftr_div_pow2 by lia. unfold wrapu. change (2 ^ 8) with 256.
    rewrite Z.rem_mul_r by lia. lia.
  - intros i Hi. replace (a + 1 + i) with (a + (i + 1)) by lia.
    rewrite H by lia. rewrite Z.shiftr_shiftr by lia. do 2 f_equal. lia.
Qed.

Lemma load_n_store_n_eq n m a v :
  load_n n (store_n n m a v) a = v mod 256 ^ Z.of_nat n.
Proof.
  apply load_n_digits. intros i Hi. rewrite load8_store_n.
  replace (a + i - a) with i by lia.
  zcases; done || lia.
Qed.

Lemma load64_store64_eq m a v : 0 <= v < 2 ^ 64 -> load64 (store64 m a v) a = v.
Proof. intros. rewrite load_n_store_n_eq. by apply Z.mod_small. Qed.

Lemma load_n_store_n_ne n k m a b v :
  a + Z.of_nat k <= b \/ b + Z.of_nat n <= a ->
  load_n n (store_n k m a v) b = load_n n m b.
Proof.
  intros H. apply load_n_ext. intros i Hi. rewrite load8_store_n.
  zcases; done || lia.
Qed.

Lemma load8_store_n_ne k m a b v :
  b < a \/ a + Z.of_nat k <= b -> load8 (store_n k m a v) b = load8 m b.
Proof.
  intros H. rewrite load8_store_n. zcases; done || lia.
Qed.

Lemma length_read_bytes m a n : length (read_bytes m a n) = n.
Proof. revert a. induction n; intros; cbn; [done | f_equal; auto]. Qed.

Lemma lookup_read_bytes m a n (i : nat) :
  (i < n)%nat -> read_bytes m a n !! i = Some (load8 m (a + Z.of_nat i)).
Proof.
  revert a i. induction n as [|n IH]; intros a i Hi; [lia|].
  destruct i as [|i]; cbn; [by rewrite Z.add_0_r|].
  rewrite IH by lia. do 2 f_equal. lia.
Qed.

Lemma load8_write_bytes m a bs x :
  load8 (write_bytes m a bs) x =
  if (a <=? x) && (x <? a + Z.of_nat (length bs))
  then u8 (nth (Z.to_nat (x - a)) bs 0) else load8 m x.
Proof.
  revert m a. induction bs as [|b bs IH]; intros m a; cbn [write_bytes length].
  { zcases; try done. lia. }
  rewrite IH, load8_store8. zcases; try lia; try done.
  - replace (Z.to_nat (x - a)) with (S (Z.to_nat (x - (a + 1)))) by lia. done.
  - replace (Z.to_nat (x - a)) with O by lia. done.
Qed.

Lemma read_bytes_ext m1 m2 a n :
  (forall i, 0 <= i < Z.of_nat n -> load8 m1 (a + i) = load8 m2 (a + i)) ->
  read_bytes m1 a n = read_bytes m2 a n.
Proof.
  revert a. induction n as [|n IH]; intros a H; cbn; [done|]. f_equal.
  - specialize (H 0 ltac:(lia)). by rewrite !Z.add_0_r in H.
  - apply IH. intros i Hi. replace (a + 1 + i) with (a + (i + 1)) by lia. apply H. lia.
Qed.

(** Reading back a list of bytes just written. *)
Lemma read_write_bytes m a bs :
  Forall (fun b => 0 <= b < 256) bs -> read_bytes (write_bytes m a bs) a (length bs) = bs.
Proof.
  intros Hb. apply list_eq. intros i.
  destruct (decide (i < length bs)%nat) as [Hi|Hi].
  - rewrite lookup_read_bytes by done. rewrite load8_write_bytes.
    zcases; try lia.
    destruct (lookup_lt_is_Some_2 bs i Hi) as [b Hl]. rewrite Hl. f_equal.
    replace (Z.to_nat (a + Z.of_nat i - a)) with i by lia.
    rewrite (nth_lookup_Some _ _ _ _ Hl). apply wrapu_small.
    by eapply Forall_lookup_1 in Hb.
  - rewrite !lookup_ge_None_2; [done | lia | rewrite length_read_bytes; lia].
Qed.

Lemma length_le_bytes n v : length (le_bytes n v) = n.
Proof. revert v. induction n; intros; cbn; [done | f_equal; auto]. Qed.

Lemma le_bytes_range n v : Forall (fun b => 0 <= b < 256) (le_bytes n v).
Proof.
  revert v. induction n; intros; cbn; constructor; [|done].
  apply (wrapu_range 8). lia.
Qed.

Lemma nth_le_bytes n v (i : nat) :
  (i < n)%nat -> nth i (le_bytes n v) 0 = u8 (Z.shiftr v (8 * Z.of_nat i)).
Proof.
  revert v i. induction n as [|n IH]; intros v i Hi; [lia|].
  destruct i as [|i]; cbn [le_bytes nth]; [by rewrite Z.mul_0_r, Z.shiftr_0_r|].
  rewrite IH by lia. rewrite Z.shiftr_shiftr by lia. do 2 f_equal. lia.
Qed.

(** Storing the bytes of an integer and loading the integer back. *)
Lemma load_n_write_le_bytes n m a v :
  load_n n (write_bytes m a (le_bytes n v)) a = v mod 256 ^ Z.of_nat n.
Proof.
  apply load_n_digits. intros i Hi. rewrite load8_write_bytes, length_le_bytes.
  zcases; try lia.
  rewrite nth_le_bytes by lia. unfold wrapu. rewrite Z.mod_mod by lia.
  do 3 f_equal. lia.
Qed.
