(* ===== verification/KString.v ===== *)
(** * kernel/string.c

    The byte-string routines of the kernel, each loop written as the C code
    runs it, on a byte-addressed memory.  Pointers are addresses; [memset],
    [memmove] and the string copies return the updated memory (the C functions
    return their first argument). *)

From S2P Require Import Prelude Mem.

(** ** Definitions *)

(** [for(i = 0; i < n; i++) cdst[i] = c;] *)
Fixpoint memset_loop (m : mem) (cdst c : Z) (n : nat) : mem :=
  match n with
  | O => m
  | S n' => memset_loop (store8 m cdst (u8 c)) (cdst + 1) c n'
  end.

Definition memset (m : mem) (dst c n : Z) : mem := memset_loop m dst c (Z.to_nat n).

(** [while(n-- > 0){ if( *s1 != *s2) return *s1 - *s2; s1++, s2++; }] *)
Fixpoint memcmp_loop (m : mem) (s1 s2 : Z) (n : nat) : Z :=
  match n with
  | O => 0
  | S n' =>
      if negb (load8 m s1 =? load8 m s2) then load8 m s1 - load8 m s2
      else memcmp_loop m (s1 + 1) (s2 + 1) n'
  end.

Definition memcmp (m : mem) (v1 v2 n : Z) : Z := memcmp_loop m v1 v2 (Z.to_nat n).

(** [while(n-- > 0) *--d = *--s;] *)
Fixpoint move_backward (m : mem) (d s : Z) (n : nat) : mem :=
  match n with
  | O => m
  | S n' => move_backward (store8 m (d - 1) (load8 m (s - 1))) (d - 1) (s - 1) n'
  end.

(** [while(n-- > 0) *d++ = *s++;] *)
Fixpoint move_forward (m : mem) (d s : Z) (n : nat) : mem :=
  match n with
  | O => m
  | S n' => move_forward (store8 m d (load8 m s)) (d + 1) (s + 1) n'
  end.

Definition memmove (m : mem) (dst src n : Z) : mem :=
  if n =? 0 then m
  else if (src <? dst) && (dst <? src + n)
  then move_backward m (dst + n) (src + n) (Z.to_nat n)
  else move_forward m dst src (Z.to_nat n).

Definition memcpy (m : mem) (dst src n : Z) : mem := memmove m dst src n.

(** [while(n > 0 && *p && *p == *q) n--, p++, q++;] then compare. *)
Fixpoint strncmp_loop (m : mem) (p q : Z) (n : nat) : Z :=
  match n with
  | O => 0
  | S n' =>
      if nz (load8 m p) && (load8 m p =? load8 m q)
      then strncmp_loop m (p + 1) (q + 1) n'
      else load8 m p - load8 m q
  end.

Definition strncmp (m : mem) (p q n : Z) : Z := strncmp_loop m p q (Z.to_nat n).

(** [while(n-- > 0) *s++ = 0;] *)
Fixpoint strncpy_pad (m : mem) (s : Z) (n : nat) : mem :=
  match n with
  | O => m
  | S n' => strncpy_pad (store8 m s 0) (s + 1) n'
  end.

(** [while(n-- > 0 && ( *s++ = *t++ ) != 0) ;] *)
Fixpoint strncpy_copy (m : mem) (s t : Z) (n : nat) : mem :=
  match n with
  | O => m
  | S n' =>
      let c := load8 m t in
      let m' := store8 m s c in
      if c =? 0 then strncpy_pad m' (s + 1) n'
      else strncpy_copy m' (s + 1) (t + 1) n'
  end.

Definition strncpy (m : mem) (s t n : Z) : mem := strncpy_copy m s t (Z.to_nat n).

(** [while(--n > 0 && ( *s++ = *t++ ) != 0) ; *s = 0;] with [k] copies left. *)
Fixpoint safestrcpy_loop (m : mem) (s t : Z) (k : nat) : mem :=
  match k with
  | O => store8 m s 0
  | S k' =>
      let c := load8 m t in
      let m' := store8 m s c in
      if c =? 0 then store8 m' (s + 1) 0
      else safestrcpy_loop m' (s + 1) (t + 1) k'
  end.

Definition safestrcpy (m : mem) (s t n : Z) : mem :=
  if n <=? 0 then m else safestrcpy_loop m s t (Z.to_nat (n - 1)).

(** [for(n = 0; s[n]; n++) ;] with at most [fuel] bytes inspected. *)
Fixpoint strlen_loop (fuel : nat) (m : mem) (s n : Z) : option Z :=
  match fuel with
  | O => None
  | S fuel' =>
      if nz (load8 m (s + n)) then strlen_loop fuel' m s (n + 1) else Some n
  end.

Definition strlen (fuel : nat) (m : mem) (s : Z) : option Z := strlen_loop fuel m s 0.

(** The same routines on two separate kernel objects, given by their bytes:
    the destination object [dst] lies at address 0 and the source at an address
    beyond it.  Used for the character arrays inside kernel structures. *)
Definition obj_mem (dst src : list Z) : mem :=
  write_bytes (write_bytes (fun _ => 0) 0 dst) (Z.of_nat (length dst)) src.

Definition safestrcpy_obj (dst src : list Z) (n : Z) : list Z :=
  read_bytes (safestrcpy (obj_mem dst src) 0 (Z.of_nat (length dst)) n) 0 (length dst).

(** ** Lemmas *)

Lemma load8_memset_loop m d c n x :
  load8 (memset_loop m d c n) x =
  if (d <=? x) && (x <? d + Z.of_nat n) then u8 c else load8 m x.
Proof.
  revert m d. induction n as [|n IH]; intros m d; cbn [memset_loop].
  { zcases; done || lia. }
  rewrite IH, load8_store8, wrapu_idemp by lia. zcases; try done; lia.
Qed.

Lemma load8_memset m d c n x :
  load8 (memset m d c n) x = if (d <=? x) && (x <? d + n) then u8 c else load8 m x.
Proof. unfold memset. rewrite load8_memset_loop. zcases; try done; lia. Qed.

(** A word outside the filled range is untouched; a word inside a zeroed range is 0. *)
Lemma load_n_memset_ne k m d c n a :
  a + Z.of_nat k <= d \/ d + n <= a -> load_n k (memset m d c n) a = load_n k m a.
Proof.
  intros H. apply load_n_ext. intros i Hi. rewrite load8_memset. zcases; done || lia.
Qed.

Lemma load_n_memset_0 k m d n a :
  d <= a -> a + Z.of_nat k <= d + n -> load_n k (memset m d 0 n) a = 0.
Proof.
  intros H1 H2. rewrite (load_n_digits k _ a 0).
  - by rewrite Z.mod_0_l by lia.
  - intros i Hi. rewrite load8_memset, Z.shiftr_0_l. zcases; done || lia.
Qed.

Lemma load8_move_backward m d s n x :
  s <= d ->
  load8 (move_backward m d s n) x =
  if (d - Z.of_nat n <=? x) && (x <? d) then load8 m (s + (x - d)) else load8 m x.
Proof.
  revert m d s. induction n as [|n IH]; intros m d s Hsd; cbn [move_backward].
  { zcases; done || lia. }
  rewrite IH by lia. rewrite !load8_store8.
  assert (forall a, u8 (load8 m a) = load8 m a) as Hu
    by (intros; apply wrapu_idemp; lia).
  rewrite Hu. zcases; try done; try lia; f_equal; lia.
Qed.

Lemma load8_move_forward m d s n x :
  d <= s \/ s + Z.of_nat n <= d ->
  load8 (move_forward m d s n) x =
  if (d <=? x) && (x <? d + Z.of_nat n) then load8 m (s + (x - d)) else load8 m x.
Proof.
  revert m d s. induction n as [|n IH]; intros m d s Hsd; cbn [move_forward].
  { zcases; done || lia. }
  rewrite IH by lia. rewrite !load8_store8.
  assert (forall a, u8 (load8 m a) = load8 m a) as Hu
    by (intros; apply wrapu_idemp; lia).
  rewrite Hu. zcases; try done; try lia; f_equal; lia.
Qed.

Lemma load8_memmove m dst src n x :
  0 <= n ->
  load8 (memmove m dst src n) x =
  if (dst <=? x) && (x <? dst + n) then load8 m (src + (x - dst)) else load8 m x.
Proof.
  intros Hn. unfold memmove.
  destruct (Z.eqb_spec n 0) as [->|Hn0]; [zcases; done || lia|].
  destruct (Z.ltb_spec src dst); [destruct (Z.ltb_spec dst (src + n))|]; cbn [andb].
  - rewrite load8_move_backward by lia. zcases; try done; try lia. f_equal. lia.
  - rewrite load8_move_forward by lia. zcases; try done; lia.
  - rewrite load8_move_forward by lia. zcases; try done; lia.
Qed.

Lemma load_n_memmove_ne k m dst src n a :
  0 <= n -> a + Z.of_nat k <= dst \/ dst + n <= a ->
  load_n k (memmove m dst src n) a = load_n k m a.
Proof.
  intros Hn H. apply load_n_ext. intros i Hi. rewrite load8_memmove by done.
  zcases; done || lia.
Qed.

Lemma read_bytes_memmove m dst src n :
  read_bytes (memmove m dst src (Z.of_nat n)) dst n = read_bytes m src n.
Proof.
  apply list_eq. intros i. destruct (decide (i < n)%nat).
  - rewrite !lookup_read_bytes by done. rewrite load8_memmove by lia.
    zcases; try lia. do 2 f_equal. lia.
  - by rewrite !lookup_ge_None_2 by (rewrite length_read_bytes; lia).
Qed.

Lemma load8_strncpy_pad m s n x :
  load8 (strncpy_pad m s n) x =
  if (s <=? x) && (x <? s + Z.of_nat n) then 0 else load8 m x.
Proof.
  revert m s. induction n as [|n IH]; intros m s; cbn [strncpy_pad].
  { zcases; done || lia. }
  rewrite IH, load8_store8. zcases; try done; lia.
Qed.

Lemma safestrcpy_loop_spec m s t k :
  s + Z.of_nat k < t \/ t + Z.of_nat k < s ->
  exists j, 0 <= j <= Z.of_nat k
    /\ (forall i, 0 <= i < j ->
          load8 (safestrcpy_loop m s t k) (s + i) = load8 m (t + i) /\ load8 m (t + i) <> 0)
    /\ load8 (safestrcpy_loop m s t k) (s + j) = 0
    /\ (j = Z.of_nat k \/ load8 m (t + j) = 0)
    /\ (forall x, x < s \/ s + Z.of_nat k < x ->
          load8 (safestrcpy_loop m s t k) x = load8 m x).
Proof.
  assert (forall m a, u8 (load8 m a) = load8 m a) as Hu by (intros; apply wrapu_idemp; lia).
  revert m s t. induction k as [|k IH]; intros m s t Hd; cbn [safestrcpy_loop].
  { exists 0. rewrite Z.add_0_r, load8_store8_eq. repeat split; try lia.
    intros x Hx. apply load8_store8_ne. lia. }
  destruct (Z.eqb_spec (load8 m t) 0) as [E|E].
  - exists 0. rewrite !Z.add_0_r. repeat split; try lia.
    + rewrite load8_store8_ne, load8_store8_eq, E by lia. done.
    + intros x Hx. rewrite !load8_store8_ne by lia. done.
  - destruct (IH (store8 m s (load8 m t)) (s + 1) (t + 1)) as (j & Hj & Hc & Hz & He & Hf);
      [lia|].
    assert (forall i, 0 <= i <= Z.of_nat k ->
              load8 (store8 m s (load8 m t)) (t + 1 + i) = load8 m (t + 1 + i)) as Hsame.
    { intros i Hi. apply load8_store8_ne. lia. }
    exists (j + 1). split; [lia|]. split; [|split; [|split]].
    + intros i Hi. destruct (Z.eq_dec i 0) as [->|Hi0].
      * rewrite !Z.add_0_r, Hf, load8_store8_eq, Hu by lia. done.
      * specialize (Hc (i - 1) ltac:(lia)). rewrite Hsame in Hc by lia.
        replace (s + i) with (s + 1 + (i - 1)) by lia.
        by replace (t + i) with (t + 1 + (i - 1)) by lia.
    + by replace (s + (j + 1)) with (s + 1 + j) by lia.
    + rewrite Hsame in He by lia. replace (t + (j + 1)) with (t + 1 + j) by lia.
      destruct He; [left | right]; [lia | done].
    + intros x Hx. rewrite Hf by lia. apply load8_store8_ne. lia.
Qed.

(** ** Properties *)

(** C30: [memmove] copies the [n] bytes at [src], as they were before the call, to
    [dst] and changes nothing else, however the two ranges overlap. *)
Theorem memmove_correct m dst src n x :
  0 <= n ->
  load8 (memmove m dst src n) x =
  if (dst <=? x) && (x <? dst + n) then load8 m (src + (x - dst)) else load8 m x.
Proof. apply load8_memmove. Qed.

Lemma memmove_correct_witness :
  load8 (memmove (fun a => a) 2 0 5) 5 = 3 /\ load8 (memmove (fun a => a) 0 2 5) 3 = 5.
Proof. rewrite !memmove_correct by lia. split; reflexivity. Defined.

(** [safestrcpy] copies the longest prefix of the source string that fits in
    [n - 1] bytes, always NUL-terminates it within the [n] bytes of the
    destination, and writes nothing outside them. *)
Theorem safestrcpy_spec m s t n :
  0 < n -> s + n <= t \/ t + n <= s ->
  exists k, 0 <= k < n
    /\ (forall i, 0 <= i < k ->
          load8 (safestrcpy m s t n) (s + i) = load8 m (t + i) /\ load8 m (t + i) <> 0)
    /\ load8 (safestrcpy m s t n) (s + k) = 0
    /\ (k = n - 1 \/ load8 m (t + k) = 0)
    /\ (forall x, x < s \/ s + n <= x -> load8 (safestrcpy m s t n) x = load8 m x).
Proof.
  intros Hn Hd. unfold safestrcpy. destruct (Z.leb_spec n 0); [lia|].
  destruct (safestrcpy_loop_spec m s t (Z.to_nat (n - 1))) as (k & Hk & Hc & Hz & He & Hf);
    [lia|].
  exists k. split; [lia|]. do 2 (split; [done|]). split.
  - destruct He; [left | right]; [lia | done].
  - intros x Hx. apply Hf. lia.
Qed.

Lemma safestrcpy_spec_witness :
  let m := write_bytes (fun _ => 0) 100 [105; 110; 105; 116] in
  exists k, 0 <= k < 16
    /\ (forall i, 0 <= i < k ->
          load8 (safestrcpy m 0 100 16) (0 + i) = load8 m (100 + i)
          /\ load8 m (100 + i) <> 0)
    /\ load8 (safestrcpy m 0 100 16) (0 + k) = 0
    /\ (k = 16 - 1 \/ load8 m (100 + k) = 0)
    /\ (forall x, x < 0 \/ 0 + 16 <= x -> load8 (safestrcpy m 0 100 16) x = load8 m x).
Proof. intros m. apply safestrcpy_spec; lia. Defined.
