(* ===== verification/State.v ===== *)
(** * The kernel state

    The C structures of kernel/proc.h, spinlock.h, sleeplock.h, file.h, buf.h, fs.h,
    log.c, pipe.c, console.c, uart.c and virtio_disk.c as records, and the state of the machine one hart works on.  The
    state has two parts: [sync], the registers, per-CPU counters and spin locks
    that acquire() and release() change, and [data], everything else.

    Pointers into the kernel's tables are indices ([option nat], [None] for a
    null pointer); pointers to pages are physical addresses ([0] for null).
    The setters [set_f] are the assignments [x.f = v]. *)

From S2P Require Import Prelude Mem Riscv.

(** ** Locks, channels, process states *)

(** The sleep locks: one per buffer and per inode table entry. *)
Inductive slkid : Type := SBuf (i : nat) | SInode (i : nat).

#[export] Instance slkid_eq_dec : EqDecision slkid.
Proof. solve_decision. Defined.

#[export] Instance slkid_countable : Countable slkid.
Proof.
  refine (inj_countable
    (fun l => match l with SBuf i => (0, i) | SInode i => (1, i) end)
    (fun p => match p with (0, i) => Some (SBuf i) | (1, i) => Some (SInode i) | _ => None end) _).
  by intros [].
Defined.

(** One constructor per spin lock of the kernel; [LCounter h] is the local lock
    of scheduler() on hart [h], [LPipe a] the lock of the pipe in page [a], [LSleep l]
    the spin lock inside sleep lock [l]. *)
Inductive lockid : Type :=
  | LProc (i : nat) | LWait | LPid | LTicks | LKmem | LFtable | LCons | LUartTx | LPr
  | LCounter (h : nat) | LPipe (a : Z) | LSleep (l : slkid) | LBcache | LItable | LLog | LVdisk.

#[export] Instance lockid_eq_dec : EqDecision lockid.
Proof. solve_decision. Defined.

#[export] Instance lockid_countable : Countable lockid.
Proof.
  refine (inj_countable
    (fun l => match l with
       | LProc i => (0, Z.of_nat i) | LWait => (1, 0) | LPid => (2, 0) | LTicks => (3, 0)
       | LKmem => (4, 0) | LFtable => (5, 0) | LCons => (6, 0) | LUartTx => (7, 0)
       | LPr => (8, 0) | LCounter h => (9, Z.of_nat h) | LPipe a => (10, a)
       | LSleep (SBuf i) => (11, Z.of_nat i) | LSleep (SInode i) => (12, Z.of_nat i)
       | LBcache => (13, 0) | LItable => (14, 0) | LLog => (15, 0) | LVdisk => (16, 0)
       end)
    (fun p => match p with
       | (0, i) => Some (LProc (Z.to_nat i)) | (1, _) => Some LWait | (2, _) => Some LPid
       | (3, _) => Some LTicks | (4, _) => Some LKmem | (5, _) => Some LFtable
       | (6, _) => Some LCons | (7, _) => Some LUartTx | (8, _) => Some LPr
       | (9, h) => Some (LCounter (Z.to_nat h)) | (10, a) => Some (LPipe a)
       | (11, i) => Some (LSleep (SBuf (Z.to_nat i))) | (12, i) => Some (LSleep (SInode (Z.to_nat i)))
       | (13, _) => Some LBcache | (14, _) => Some LItable | (15, _) => Some LLog
       | (16, _) => Some LVdisk | _ => None
       end) _).
  intros [| | | | | | | | | | |[]| | | |]; by rewrite ?Nat2Z.id.
Defined.

(** The addresses processes sleep on; [CNull] is a null [chan]. *)
Inductive chan : Type :=
  | CNull | CProc (i : nat) | CTicks | CPipeRead (a : Z) | CPipeWrite (a : Z)
  | CConsR | CUartTxR | CSleep (l : slkid) | CLog | CDiskFree | CBuf (i : nat).

#[export] Instance chan_eq_dec : EqDecision chan.
Proof. solve_decision. Defined.

(** [enum procstate] *)
Inductive procstate : Type := UNUSED | USED | SLEEPING | RUNNABLE | RUNNING | ZOMBIE.

#[export] Instance procstate_eq_dec : EqDecision procstate.
Proof. solve_decision. Defined.

(** [struct file]'s type tag. *)
Inductive filetype : Type := FD_NONE | FD_PIPE | FD_INODE | FD_DEVICE.

#[export] Instance filetype_eq_dec : EqDecision filetype.
Proof. solve_decision. Defined.

(** The character devices of [devsw]. *)
Inductive device : Type := ConsoleDev.

(** What a virtio descriptor points to: a request header, a buffer's data or a
    status byte. *)
Inductive vaddr : Type := VNull | VOps (i : Z) | VData (b : nat) | VStatus (i : Z).

(** ** Structures *)

(** [struct spinlock] *)
Record spinlock : Type := Spinlock {
  lk_locked : Z;
  lk_name : string;
  lk_cpu : option nat
}.

(** [struct context]: the registers swtch() saves. *)
Record context : Type := Context {
  ctx_ra : Z;
  ctx_sp : Z;
  ctx_s0 : Z;
  ctx_s1 : Z;
  ctx_s2 : Z;
  ctx_s3 : Z;
  ctx_s4 : Z;
  ctx_s5 : Z;
  ctx_s6 : Z;
  ctx_s7 : Z;
  ctx_s8 : Z;
  ctx_s9 : Z;
  ctx_s10 : Z;
  ctx_s11 : Z
}.

(** [struct proc]; its spin lock is [LProc i]. *)
Record proc : Type := Proc {
  p_state : procstate;
  p_chan : chan;
  p_killed : Z;
  p_xstate : Z;
  p_pid : Z;
  p_parent : option nat;
  p_exit_msg : list Z;
  p_accumulator : Z;
  p_ps_priority : Z;
  p_cfs_priority : Z;
  p_rtime : Z;
  p_stime : Z;
  p_retime : Z;
  p_kstack : Z;
  p_sz : Z;
  p_pagetable : Z;
  p_trapframe : Z;
  p_context : context;
  p_ofile : list (option nat);
  p_cwd : option nat;
  p_name : list Z
}.

Definition set_p_state (v : procstate) (r : proc) : proc :=
    Proc v (p_chan r) (p_killed r) (p_xstate r) (p_pid r) (p_parent r) (p_exit_msg r)
    (p_accumulator r) (p_ps_priority r) (p_cfs_priority r) (p_rtime r) (p_stime r) (p_retime r)
    (p_kstack r) (p_sz r) (p_pagetable r) (p_trapframe r) (p_context r) (p_ofile r) (p_cwd r)
    (p_name r).
Definition set_p_chan (v : chan) (r : proc) : proc :=
    Proc (p_state r) v (p_killed r) (p_xstate r) (p_pid r) (p_parent r) (p_exit_msg r)
    (p_accumulator r) (p_ps_priority r) (p_cfs_priority r) (p_rtime r) (p_stime r) (p_retime r)
    (p_kstack r) (p_sz r) (p_pagetable r) (p_trapframe r) (p_context r) (p_ofile r) (p_cwd r)
    (p_name r).
Definition set_p_killed (v : Z) (r : proc) : proc :=
    Proc (p_state r) (p_chan r) v (p_xstate r) (p_pid r) (p_parent r) (p_exit_msg r)
    (p_accumulator r) (p_ps_priority r) (p_cfs_priority r) (p_rtime r) (p_stime r) (p_retime r)
    (p_kstack r) (p_sz r) (p_pagetable r) (p_trapframe r) (p_context r) (p_ofile r) (p_cwd r)
    (p_name r).
Definition set_p_xstate (v : Z) (r : proc) : proc :=
    Proc (p_state r) (p_chan r) (p_killed r) v (p_pid r) (p_parent r) (p_exit_msg r)
    (p_accumulator r) (p_ps_priority r) (p_cfs_priority r) (p_rtime r) (p_stime r) (p_retime r)
    (p_kstack r) (p_sz r) (p_pagetable r) (p_trapframe r) (p_context r) (p_ofile r) (p_cwd r)
    (p_name r).
Definition set_p_pid (v : Z) (r : proc) : proc :=
    Proc (p_state r) (p_chan r) (p_killed r) (p_xstate r) v (p_parent r) (p_exit_msg r)
    (p_accumulator r) (p_ps_priority r) (p_cfs_priority r) (p_rtime r) (p_stime r) (p_retime r)
    (p_kstack r) (p_sz r) (p_pagetable r) (p_trapframe r) (p_context r) (p_ofile r) (p_cwd r)
    (p_name r).
Definition set_p_parent (v : option nat) (r : proc) : proc :=
    Proc (p_state r) (p_chan r) (p_killed r) (p_xstate r) (p_pid r) v (p_exit_msg r)
    (p_accumulator r) (p_ps_priority r) (p_cfs_priority r) (p_rtime r) (p_stime r) (p_retime r)
    (p_kstack r) (p_sz r) (p_pagetable r) (p_trapframe r) (p_context r) (p_ofile r) (p_cwd r)
    (p_name r).
Definition set_p_exit_msg (v : list Z) (r : proc) : proc :=
    Proc (p_state r) (p_chan r) (p_killed r) (p_xstate r) (p_pid r) (p_parent r) v
    (p_accumulator r) (p_ps_priority r) (p_cfs_priority r) (p_rtime r) (p_stime r) (p_retime r)
    (p_kstack r) (p_sz r) (p_pagetable r) (p_trapframe r) (p_context r) (p_ofile r) (p_cwd r)
    (p_name r).
Definition set_p_accumulator (v : Z) (r : proc) : proc :=
    Proc (p_state r) (p_chan r) (p_killed r) (p_xstate r) (p_pid r) (p_parent r) (p_exit_msg r)
    v (p_ps_priority r) (p_cfs_priority r) (p_rtime r) (p_stime r) (p_retime r) (p_kstack r)
    (p_sz r) (p_pagetable r) (p_trapframe r) (p_context r) (p_ofile r) (p_cwd r) (p_name r).
Definition set_p_ps_priority (v : Z) (r : proc) : proc :=
    Proc (p_state r) (p_chan r) (p_killed r) (p_xstate r) (p_pid r) (p_parent r) (p_exit_msg r)
    (p_accumulator r) v (p_cfs_priority r) (p_rtime r) (p_stime r) (p_retime r) (p_kstack r)
    (p_sz r) (p_pagetable r) (p_trapframe r) (p_context r) (p_ofile r) (p_cwd r) (p_name r).
Definition set_p_cfs_priority (v : Z) (r : proc) : proc :=
    Proc (p_state r) (p_chan r) (p_killed r) (p_xstate r) (p_pid r) (p_parent r) (p_exit_msg r)
    (p_accumulator r) (p_ps_priority r) v (p_rtime r) (p_stime r) (p_retime r) (p_kstack r)
    (p_sz r) (p_pagetable r) (p_trapframe r) (p_context r) (p_ofile r) (p_cwd r) (p_name r).
Definition set_p_rtime (v : Z) (r : proc) : proc :=
    Proc (p_state r) (p_chan r) (p_killed r) (p_xstate r) (p_pid r) (p_parent r) (p_exit_msg r)
    (p_accumulator r) (p_ps_priority r) (p_cfs_priority r) v (p_stime r) (p_retime r) (p_kstack
    r) (p_sz r) (p_pagetable r) (p_trapframe r) (p_context r) (p_ofile r) (p_cwd r) (p_name r).
Definition set_p_stime (v : Z) (r : proc) : proc :=
    Proc (p_state r) (p_chan r) (p_killed r) (p_xstate r) (p_pid r) (p_parent r) (p_exit_msg r)
    (p_accumulator r) (p_ps_priority r) (p_cfs_priority r) (p_rtime r) v (p_retime r) (p_kstack
    r) (p_sz r) (p_pagetable r) (p_trapframe r) (p_context r) (p_ofile r) (p_cwd r) (p_name r).
Definition set_p_retime (v : Z) (r : proc) : proc :=
    Proc (p_state r) (p_chan r) (p_killed r) (p_xstate r) (p_pid r) (p_parent r) (p_exit_msg r)
    (p_accumulator r) (p_ps_priority r) (p_cfs_priority r) (p_rtime r) (p_stime r) v (p_kstack
    r) (p_sz r) (p_pagetable r) (p_trapframe r) (p_context r) (p_ofile r) (p_cwd r) (p_name r).
Definition set_p_kstack (v : Z) (r : proc) : proc :=
    Proc (p_state r) (p_chan r) (p_killed r) (p_xstate r) (p_pid r) (p_parent r) (p_exit_msg r)
    (p_accumulator r) (p_ps_priority r) (p_cfs_priority r) (p_rtime r) (p_stime r) (p_retime r)
    v (p_sz r) (p_pagetable r) (p_trapframe r) (p_context r) (p_ofile r) (p_cwd r) (p_name r).
Definition set_p_sz (v : Z) (r : proc) : proc :=
    Proc (p_state r) (p_chan r) (p_killed r) (p_xstate r) (p_pid r) (p_parent r) (p_exit_msg r)
    (p_accumulator r) (p_ps_priority r) (p_cfs_priority r) (p_rtime r) (p_stime r) (p_retime r)
    (p_kstack r) v (p_pagetable r) (p_trapframe r) (p_context r) (p_ofile r) (p_cwd r) (p_name
    r).
Definition set_p_pagetable (v : Z) (r : proc) : proc :=
    Proc (p_state r) (p_chan r) (p_killed r) (p_xstate r) (p_pid r) (p_parent r) (p_exit_msg r)
    (p_accumulator r) (p_ps_priority r) (p_cfs_priority r) (p_rtime r) (p_stime r) (p_retime r)
    (p_kstack r) (p_sz r) v (p_trapframe r) (p_context r) (p_ofile r) (p_cwd r) (p_name r).
Definition set_p_trapframe (v : Z) (r : proc) : proc :=
    Proc (p_state r) (p_chan r) (p_killed r) (p_xstate r) (p_pid r) (p_parent r) (p_exit_msg r)
    (p_accumulator r) (p_ps_priority r) (p_cfs_priority r) (p_rtime r) (p_stime r) (p_retime r)
    (p_kstack r) (p_sz r) (p_pagetable r) v (p_context r) (p_ofile r) (p_cwd r) (p_name r).
Definition set_p_context (v : context) (r : proc) : proc :=
    Proc (p_state r) (p_chan r) (p_killed r) (p_xstate r) (p_pid r) (p_parent r) (p_exit_msg r)
    (p_accumulator r) (p_ps_priority r) (p_cfs_priority r) (p_rtime r) (p_stime r) (p_retime r)
    (p_kstack r) (p_sz r) (p_pagetable r) (p_trapframe r) v (p_ofile r) (p_cwd r) (p_name r).
Definition set_p_ofile (v : list (option nat)) (r : proc) : proc :=
    Proc (p_state r) (p_chan r) (p_killed r) (p_xstate r) (p_pid r) (p_parent r) (p_exit_msg r)
    (p_accumulator r) (p_ps_priority r) (p_cfs_priority r) (p_rtime r) (p_stime r) (p_retime r)
    (p_kstack r) (p_sz r) (p_pagetable r) (p_trapframe r) (p_context r) v (p_cwd r) (p_name r).
Definition set_p_cwd (v : option nat) (r : proc) : proc :=
    Proc (p_state r) (p_chan r) (p_killed r) (p_xstate r) (p_pid r) (p_parent r) (p_exit_msg r)
    (p_accumulator r) (p_ps_priority r) (p_cfs_priority r) (p_rtime r) (p_stime r) (p_retime r)
    (p_kstack r) (p_sz r) (p_pagetable r) (p_trapframe r) (p_context r) (p_ofile r) v (p_name
    r).
Definition set_p_name (v : list Z) (r : proc) : proc :=
    Proc (p_state r) (p_chan r) (p_killed r) (p_xstate r) (p_pid r) (p_parent r) (p_exit_msg r)
    (p_accumulator r) (p_ps_priority r) (p_cfs_priority r) (p_rtime r) (p_stime r) (p_retime r)
    (p_kstack r) (p_sz r) (p_pagetable r) (p_trapframe r) (p_context r) (p_ofile r) (p_cwd r) v.
(** [struct cpu]; the saved scheduler context is the resumption of [Swtch]. *)
Record cpu : Type := Cpu {
  c_proc : option nat;
  c_noff : Z;
  c_intena : Z
}.

Definition set_c_proc (v : option nat) (r : cpu) : cpu :=
    Cpu v (c_noff r) (c_intena r).
Definition set_c_noff (v : Z) (r : cpu) : cpu :=
    Cpu (c_proc r) v (c_intena r).
Definition set_c_intena (v : Z) (r : cpu) : cpu :=
    Cpu (c_proc r) (c_noff r) v.
(** [struct pipe]; its lock is [LPipe a] for the pipe in page [a]. *)
Record pipe : Type := Pipe {
  pi_data : list Z;
  pi_nread : Z;
  pi_nwrite : Z;
  pi_readopen : Z;
  pi_writeopen : Z
}.

Definition set_pi_data (v : list Z) (r : pipe) : pipe :=
    Pipe v (pi_nread r) (pi_nwrite r) (pi_readopen r) (pi_writeopen r).
Definition set_pi_nread (v : Z) (r : pipe) : pipe :=
    Pipe (pi_data r) v (pi_nwrite r) (pi_readopen r) (pi_writeopen r).
Definition set_pi_nwrite (v : Z) (r : pipe) : pipe :=
    Pipe (pi_data r) (pi_nread r) v (pi_readopen r) (pi_writeopen r).
Definition set_pi_readopen (v : Z) (r : pipe) : pipe :=
    Pipe (pi_data r) (pi_nread r) (pi_nwrite r) v (pi_writeopen r).
Definition set_pi_writeopen (v : Z) (r : pipe) : pipe :=
    Pipe (pi_data r) (pi_nread r) (pi_nwrite r) (pi_readopen r) v.
(** The console input buffer [cons]. *)
Record cons : Type := Cons {
  cons_buf : list Z;
  cons_r : Z;
  cons_w : Z;
  cons_e : Z
}.

Definition set_cons_buf (v : list Z) (r : cons) : cons :=
    Cons v (cons_r r) (cons_w r) (cons_e r).
Definition set_cons_r (v : Z) (r : cons) : cons :=
    Cons (cons_buf r) v (cons_w r) (cons_e r).
Definition set_cons_w (v : Z) (r : cons) : cons :=
    Cons (cons_buf r) (cons_r r) v (cons_e r).
Definition set_cons_e (v : Z) (r : cons) : cons :=
    Cons (cons_buf r) (cons_r r) (cons_w r) v.
(** The UART transmit buffer and the device: [uart_idle] are the readings of
    the line-status bit TX_IDLE still to come, [uart_rx] the received bytes not yet
    read, [uart_out] the bytes written to the transmit register, last first. *)
Record uart : Type := Uart {
  uart_tx_buf : list Z;
  uart_tx_w : Z;
  uart_tx_r : Z;
  uart_idle : list bool;
  uart_rx : list Z;
  uart_out : list Z
}.

Definition set_uart_tx_buf (v : list Z) (r : uart) : uart :=
    Uart v (uart_tx_w r) (uart_tx_r r) (uart_idle r) (uart_rx r) (uart_out r).
Definition set_uart_tx_w (v : Z) (r : uart) : uart :=
    Uart (uart_tx_buf r) v (uart_tx_r r) (uart_idle r) (uart_rx r) (uart_out r).
Definition set_uart_tx_r (v : Z) (r : uart) : uart :=
    Uart (uart_tx_buf r) (uart_tx_w r) v (uart_idle r) (uart_rx r) (uart_out r).
Definition set_uart_idle (v : list bool) (r : uart) : uart :=
    Uart (uart_tx_buf r) (uart_tx_w r) (uart_tx_r r) v (uart_rx r) (uart_out r).
Definition set_uart_rx (v : list Z) (r : uart) : uart :=
    Uart (uart_tx_buf r) (uart_tx_w r) (uart_tx_r r) (uart_idle r) v (uart_out r).
Definition set_uart_out (v : list Z) (r : uart) : uart :=
    Uart (uart_tx_buf r) (uart_tx_w r) (uart_tx_r r) (uart_idle r) (uart_rx r) v.
(** [struct file] *)
Record file : Type := File {
  f_type : filetype;
  f_ref : Z;
  f_readable : Z;
  f_writable : Z;
  f_pipe : Z;
  f_ip : option nat;
  f_off : Z;
  f_major : Z
}.

Definition set_f_type (v : filetype) (r : file) : file :=
    File v (f_ref r) (f_readable r) (f_writable r) (f_pipe r) (f_ip r) (f_off r) (f_major r).
Definition set_f_ref (v : Z) (r : file) : file :=
    File (f_type r) v (f_readable r) (f_writable r) (f_pipe r) (f_ip r) (f_off r) (f_major r).
Definition set_f_readable (v : Z) (r : file) : file :=
    File (f_type r) (f_ref r) v (f_writable r) (f_pipe r) (f_ip r) (f_off r) (f_major r).
Definition set_f_writable (v : Z) (r : file) : file :=
    File (f_type r) (f_ref r) (f_readable r) v (f_pipe r) (f_ip r) (f_off r) (f_major r).
Definition set_f_pipe (v : Z) (r : file) : file :=
    File (f_type r) (f_ref r) (f_readable r) (f_writable r) v (f_ip r) (f_off r) (f_major r).
Definition set_f_ip (v : option nat) (r : file) : file :=
    File (f_type r) (f_ref r) (f_readable r) (f_writable r) (f_pipe r) v (f_off r) (f_major r).
Definition set_f_off (v : Z) (r : file) : file :=
    File (f_type r) (f_ref r) (f_readable r) (f_writable r) (f_pipe r) (f_ip r) v (f_major r).
Definition set_f_major (v : Z) (r : file) : file :=
    File (f_type r) (f_ref r) (f_readable r) (f_writable r) (f_pipe r) (f_ip r) (f_off r) v.
(** [struct sleeplock]; its spin lock is [LSleep l]. *)
Record sleeplock : Type := Sleeplock {
  slk_locked : Z;
  slk_name : string;
  slk_pid : Z
}.

Definition set_slk_locked (v : Z) (r : sleeplock) : sleeplock :=
    Sleeplock v (slk_name r) (slk_pid r).
Definition set_slk_name (v : string) (r : sleeplock) : sleeplock :=
    Sleeplock (slk_locked r) v (slk_pid r).
Definition set_slk_pid (v : Z) (r : sleeplock) : sleeplock :=
    Sleeplock (slk_locked r) (slk_name r) v.
(** [struct buf]; its sleep lock is [SBuf i].  [prev] and [next] are indices into
    the buffers, the list head being number [NBUF]. *)
Record buf : Type := Buf {
  b_valid : Z;
  b_disk : Z;
  b_dev : Z;
  b_blockno : Z;
  b_refcnt : Z;
  b_prev : nat;
  b_next : nat;
  b_data : list Z
}.

Definition set_b_valid (v : Z) (r : buf) : buf :=
    Buf v (b_disk r) (b_dev r) (b_blockno r) (b_refcnt r) (b_prev r) (b_next r) (b_data r).
Definition set_b_disk (v : Z) (r : buf) : buf :=
    Buf (b_valid r) v (b_dev r) (b_blockno r) (b_refcnt r) (b_prev r) (b_next r) (b_data r).
Definition set_b_dev (v : Z) (r : buf) : buf :=
    Buf (b_valid r) (b_disk r) v (b_blockno r) (b_refcnt r) (b_prev r) (b_next r) (b_data r).
Definition set_b_blockno (v : Z) (r : buf) : buf :=
    Buf (b_valid r) (b_disk r) (b_dev r) v (b_refcnt r) (b_prev r) (b_next r) (b_data r).
Definition set_b_refcnt (v : Z) (r : buf) : buf :=
    Buf (b_valid r) (b_disk r) (b_dev r) (b_blockno r) v (b_prev r) (b_next r) (b_data r).
Definition set_b_prev (v : nat) (r : buf) : buf :=
    Buf (b_valid r) (b_disk r) (b_dev r) (b_blockno r) (b_refcnt r) v (b_next r) (b_data r).
Definition set_b_next (v : nat) (r : buf) : buf :=
    Buf (b_valid r) (b_disk r) (b_dev r) (b_blockno r) (b_refcnt r) (b_prev r) v (b_data r).
Definition set_b_data (v : list Z) (r : buf) : buf :=
    Buf (b_valid r) (b_disk r) (b_dev r) (b_blockno r) (b_refcnt r) (b_prev r) (b_next r) v.
(** [struct logheader] *)
Record logheader : Type := Logheader {
  lh_n : Z;
  lh_block : list Z
}.

Definition set_lh_n (v : Z) (r : logheader) : logheader :=
    Logheader v (lh_block r).
Definition set_lh_block (v : list Z) (r : logheader) : logheader :=
    Logheader (lh_n r) v.
(** [struct log]; its lock is [LLog]. *)
Record log : Type := Log {
  lg_start : Z;
  lg_size : Z;
  lg_outstanding : Z;
  lg_committing : Z;
  lg_dev : Z;
  lg_lh : logheader
}.

Definition set_lg_start (v : Z) (r : log) : log :=
    Log v (lg_size r) (lg_outstanding r) (lg_committing r) (lg_dev r) (lg_lh r).
Definition set_lg_size (v : Z) (r : log) : log :=
    Log (lg_start r) v (lg_outstanding r) (lg_committing r) (lg_dev r) (lg_lh r).
Definition set_lg_outstanding (v : Z) (r : log) : log :=
    Log (lg_start r) (lg_size r) v (lg_committing r) (lg_dev r) (lg_lh r).
Definition set_lg_committing (v : Z) (r : log) : log :=
    Log (lg_start r) (lg_size r) (lg_outstanding r) v (lg_dev r) (lg_lh r).
Definition set_lg_dev (v : Z) (r : log) : log :=
    Log (lg_start r) (lg_size r) (lg_outstanding r) (lg_committing r) v (lg_lh r).
Definition set_lg_lh (v : logheader) (r : log) : log :=
    Log (lg_start r) (lg_size r) (lg_outstanding r) (lg_committing r) (lg_dev r) v.
(** [struct superblock] *)
Record superblock : Type := Superblock {
  sb_magic : Z;
  sb_size : Z;
  sb_nblocks : Z;
  sb_ninodes : Z;
  sb_nlog : Z;
  sb_logstart : Z;
  sb_inodestart : Z;
  sb_bmapstart : Z
}.

(** [struct inode]; its sleep lock is [SInode i]. *)
Record inode : Type := Inode {
  i_dev : Z;
  i_inum : Z;
  i_ref : Z;
  i_valid : Z;
  i_type : Z;
  i_major : Z;
  i_minor : Z;
  i_nlink : Z;
  i_size : Z;
  i_addrs : list Z
}.

Definition set_i_dev (v : Z) (r : inode) : inode :=
    Inode v (i_inum r) (i_ref r) (i_valid r) (i_type r) (i_major r) (i_minor r) (i_nlink r)
    (i_size r) (i_addrs r).
Definition set_i_inum (v : Z) (r : inode) : inode :=
    Inode (i_dev r) v (i_ref r) (i_valid r) (i_type r) (i_major r) (i_minor r) (i_nlink r)
    (i_size r) (i_addrs r).
Definition set_i_ref (v : Z) (r : inode) : inode :=
    Inode (i_dev r) (i_inum r) v (i_valid r) (i_type r) (i_major r) (i_minor r) (i_nlink r)
    (i_size r) (i_addrs r).
Definition set_i_valid (v : Z) (r : inode) : inode :=
    Inode (i_dev r) (i_inum r) (i_ref r) v (i_type r) (i_major r) (i_minor r) (i_nlink r)
    (i_size r) (i_addrs r).
Definition set_i_type (v : Z) (r : inode) : inode :=
    Inode (i_dev r) (i_inum r) (i_ref r) (i_valid r) v (i_major r) (i_minor r) (i_nlink r)
    (i_size r) (i_addrs r).
Definition set_i_major (v : Z) (r : inode) : inode :=
    Inode (i_dev r) (i_inum r) (i_ref r) (i_valid r) (i_type r) v (i_minor r) (i_nlink r)
    (i_size r) (i_addrs r).
Definition set_i_minor (v : Z) (r : inode) : inode :=
    Inode (i_dev r) (i_inum r) (i_ref r) (i_valid r) (i_type r) (i_major r) v (i_nlink r)
    (i_size r) (i_addrs r).
Definition set_i_nlink (v : Z) (r : inode) : inode :=
    Inode (i_dev r) (i_inum r) (i_ref r) (i_valid r) (i_type r) (i_major r) (i_minor r) v
    (i_size r) (i_addrs r).
Definition set_i_size (v : Z) (r : inode) : inode :=
    Inode (i_dev r) (i_inum r) (i_ref r) (i_valid r) (i_type r) (i_major r) (i_minor r) (i_nlink
    r) v (i_addrs r).
Definition set_i_addrs (v : list Z) (r : inode) : inode :=
    Inode (i_dev r) (i_inum r) (i_ref r) (i_valid r) (i_type r) (i_major r) (i_minor r) (i_nlink
    r) (i_size r) v.
(** [struct virtq_desc] *)
Record vdesc : Type := Vdesc {
  vd_addr : vaddr;
  vd_len : Z;
  vd_flags : Z;
  vd_next : Z
}.

(** [struct virtio_blk_req] *)
Record vreq : Type := Vreq {
  vr_type : Z;
  vr_reserved : Z;
  vr_sector : Z
}.

(** [struct disk] of virtio_disk.c with the rings it points to: [v_avail_idx] and
    [v_avail_ring] are [*avail], [v_dev_idx] and [v_used_ring] are [*used]. *)
Record vdisk : Type := Vdisk {
  v_desc : list vdesc;
  v_avail_idx : Z;
  v_avail_ring : list Z;
  v_dev_idx : Z;
  v_used_ring : list Z;
  v_free : list Z;
  v_used_idx : Z;
  v_info_b : list (option nat);
  v_info_status : list Z;
  v_ops : list vreq
}.

Definition set_v_desc (v : list vdesc) (r : vdisk) : vdisk :=
    Vdisk v (v_avail_idx r) (v_avail_ring r) (v_dev_idx r) (v_used_ring r) (v_free r)
    (v_used_idx r) (v_info_b r) (v_info_status r) (v_ops r).
Definition set_v_avail_idx (v : Z) (r : vdisk) : vdisk :=
    Vdisk (v_desc r) v (v_avail_ring r) (v_dev_idx r) (v_used_ring r) (v_free r) (v_used_idx r)
    (v_info_b r) (v_info_status r) (v_ops r).
Definition set_v_avail_ring (v : list Z) (r : vdisk) : vdisk :=
    Vdisk (v_desc r) (v_avail_idx r) v (v_dev_idx r) (v_used_ring r) (v_free r) (v_used_idx r)
    (v_info_b r) (v_info_status r) (v_ops r).
Definition set_v_dev_idx (v : Z) (r : vdisk) : vdisk :=
    Vdisk (v_desc r) (v_avail_idx r) (v_avail_ring r) v (v_used_ring r) (v_free r) (v_used_idx
    r) (v_info_b r) (v_info_status r) (v_ops r).
Definition set_v_used_ring (v : list Z) (r : vdisk) : vdisk :=
    Vdisk (v_desc r) (v_avail_idx r) (v_avail_ring r) (v_dev_idx r) v (v_free r) (v_used_idx r)
    (v_info_b r) (v_info_status r) (v_ops r).
Definition set_v_free (v : list Z) (r : vdisk) : vdisk :=
    Vdisk (v_desc r) (v_avail_idx r) (v_avail_ring r) (v_dev_idx r) (v_used_ring r) v
    (v_used_idx r) (v_info_b r) (v_info_status r) (v_ops r).
Definition set_v_used_idx (v : Z) (r : vdisk) : vdisk :=
    Vdisk (v_desc r) (v_avail_idx r) (v_avail_ring r) (v_dev_idx r) (v_used_ring r) (v_free r) v
    (v_info_b r) (v_info_status r) (v_ops r).
Definition set_v_info_b (v : list (option nat)) (r : vdisk) : vdisk :=
    Vdisk (v_desc r) (v_avail_idx r) (v_avail_ring r) (v_dev_idx r) (v_used_ring r) (v_free r)
    (v_used_idx r) v (v_info_status r) (v_ops r).
Definition set_v_info_status (v : list Z) (r : vdisk) : vdisk :=
    Vdisk (v_desc r) (v_avail_idx r) (v_avail_ring r) (v_dev_idx r) (v_used_ring r) (v_free r)
    (v_used_idx r) (v_info_b r) v (v_ops r).
Definition set_v_ops (v : list vreq) (r : vdisk) : vdisk :=
    Vdisk (v_desc r) (v_avail_idx r) (v_avail_ring r) (v_dev_idx r) (v_used_ring r) (v_free r)
    (v_used_idx r) (v_info_b r) (v_info_status r) v.
(** The disk: its blocks, and the blocks written to it, last first. *)
Record disk : Type := Disk {
  dk_blocks : Z -> list Z;
  dk_trace : list (Z * list Z)
}.

Definition set_dk_blocks (v : Z -> list Z) (r : disk) : disk :=
    Disk v (dk_trace r).
Definition set_dk_trace (v : list (Z * list Z)) (r : disk) : disk :=
    Disk (dk_blocks r) v.
(** The supervisor registers trap.c uses, and the interrupt controller:
    [r_plic_claim] are the interrupts pending in the PLIC, [r_plic_done] those completed. *)
Record csr : Type := Csr {
  r_stvec : Z;
  r_satp : Z;
  r_sepc : Z;
  r_scause : Z;
  r_stval : Z;
  r_sip : Z;
  r_plic_claim : list Z;
  r_plic_done : list Z
}.

Definition set_r_stvec (v : Z) (r : csr) : csr :=
    Csr v (r_satp r) (r_sepc r) (r_scause r) (r_stval r) (r_sip r) (r_plic_claim r) (r_plic_done
    r).
Definition set_r_satp (v : Z) (r : csr) : csr :=
    Csr (r_stvec r) v (r_sepc r) (r_scause r) (r_stval r) (r_sip r) (r_plic_claim r)
    (r_plic_done r).
Definition set_r_sepc (v : Z) (r : csr) : csr :=
    Csr (r_stvec r) (r_satp r) v (r_scause r) (r_stval r) (r_sip r) (r_plic_claim r)
    (r_plic_done r).
Definition set_r_scause (v : Z) (r : csr) : csr :=
    Csr (r_stvec r) (r_satp r) (r_sepc r) v (r_stval r) (r_sip r) (r_plic_claim r) (r_plic_done
    r).
Definition set_r_stval (v : Z) (r : csr) : csr :=
    Csr (r_stvec r) (r_satp r) (r_sepc r) (r_scause r) v (r_sip r) (r_plic_claim r) (r_plic_done
    r).
Definition set_r_sip (v : Z) (r : csr) : csr :=
    Csr (r_stvec r) (r_satp r) (r_sepc r) (r_scause r) (r_stval r) v (r_plic_claim r)
    (r_plic_done r).
Definition set_r_plic_claim (v : list Z) (r : csr) : csr :=
    Csr (r_stvec r) (r_satp r) (r_sepc r) (r_scause r) (r_stval r) (r_sip r) v (r_plic_done r).
Definition set_r_plic_done (v : list Z) (r : csr) : csr :=
    Csr (r_stvec r) (r_satp r) (r_sepc r) (r_scause r) (r_stval r) (r_sip r) (r_plic_claim r) v.
(** The hart's thread pointer and status register, the per-CPU structures and the
    spin locks. *)
Record sync : Type := Sync {
  y_tp : Z;
  y_sstatus : Z;
  y_cpus : list cpu;
  y_locks : gmap lockid spinlock
}.

Definition set_y_tp (v : Z) (r : sync) : sync :=
    Sync v (y_sstatus r) (y_cpus r) (y_locks r).
Definition set_y_sstatus (v : Z) (r : sync) : sync :=
    Sync (y_tp r) v (y_cpus r) (y_locks r).
Definition set_y_cpus (v : list cpu) (r : sync) : sync :=
    Sync (y_tp r) (y_sstatus r) v (y_locks r).
Definition set_y_locks (v : gmap lockid spinlock) (r : sync) : sync :=
    Sync (y_tp r) (y_sstatus r) (y_cpus r) v.
(** Everything else. *)
Record data : Type := Data {
  d_mem : mem;
  d_freelist : Z;
  d_kernel_pagetable : Z;
  d_procs : list proc;
  d_initproc : option nat;
  d_nextpid : Z;
  d_sched_policy : Z;
  d_min_accumulator : Z;
  d_first : Z;
  d_ticks : Z;
  d_csr : csr;
  d_pipes : gmap Z pipe;
  d_cons : cons;
  d_uart : uart;
  d_panicked : Z;
  d_pr_locking : Z;
  d_ftable : list file;
  d_slocks : gmap slkid sleeplock;
  d_bufs : list buf;
  d_log : log;
  d_sb : superblock;
  d_inodes : list inode;
  d_devsw : list (option device);
  d_vdisk : vdisk;
  d_disk : disk;
  d_started : Z
}.

Definition set_d_mem (v : mem) (r : data) : data :=
    Data v (d_freelist r) (d_kernel_pagetable r) (d_procs r) (d_initproc r) (d_nextpid r)
    (d_sched_policy r) (d_min_accumulator r) (d_first r) (d_ticks r) (d_csr r) (d_pipes r)
    (d_cons r) (d_uart r) (d_panicked r) (d_pr_locking r) (d_ftable r) (d_slocks r) (d_bufs r)
    (d_log r) (d_sb r) (d_inodes r) (d_devsw r) (d_vdisk r) (d_disk r) (d_started r).
Definition set_d_freelist (v : Z) (r : data) : data :=
    Data (d_mem r) v (d_kernel_pagetable r) (d_procs r) (d_initproc r) (d_nextpid r)
    (d_sched_policy r) (d_min_accumulator r) (d_first r) (d_ticks r) (d_csr r) (d_pipes r)
    (d_cons r) (d_uart r) (d_panicked r) (d_pr_locking r) (d_ftable r) (d_slocks r) (d_bufs r)
    (d_log r) (d_sb r) (d_inodes r) (d_devsw r) (d_vdisk r) (d_disk r) (d_started r).
Definition set_d_kernel_pagetable (v : Z) (r : data) : data :=
    Data (d_mem r) (d_freelist r) v (d_procs r) (d_initproc r) (d_nextpid r) (d_sched_policy r)
    (d_min_accumulator r) (d_first r) (d_ticks r) (d_csr r) (d_pipes r) (d_cons r) (d_uart r)
    (d_panicked r) (d_pr_locking r) (d_ftable r) (d_slocks r) (d_bufs r) (d_log r) (d_sb r)
    (d_inodes r) (d_devsw r) (d_vdisk r) (d_disk r) (d_started r).
Definition set_d_procs (v : list proc) (r : data) : data :=
    Data (d_mem r) (d_freelist r) (d_kernel_pagetable r) v (d_initproc r) (d_nextpid r)
    (d_sched_policy r) (d_min_accumulator r) (d_first r) (d_ticks r) (d_csr r) (d_pipes r)
    (d_cons r) (d_uart r) (d_panicked r) (d_pr_locking r) (d_ftable r) (d_slocks r) (d_bufs r)
    (d_log r) (d_sb r) (d_inodes r) (d_devsw r) (d_vdisk r) (d_disk r) (d_started r).
Definition set_d_initproc (v : option nat) (r : data) : data :=
    Data (d_mem r) (d_freelist r) (d_kernel_pagetable r) (d_procs r) v (d_nextpid r)
    (d_sched_policy r) (d_min_accumulator r) (d_first r) (d_ticks r) (d_csr r) (d_pipes r)
    (d_cons r) (d_uart r) (d_panicked r) (d_pr_locking r) (d_ftable r) (d_slocks r) (d_bufs r)
    (d_log r) (d_sb r) (d_inodes r) (d_devsw r) (d_vdisk r) (d_disk r) (d_started r).
Definition set_d_nextpid (v : Z) (r : data) : data :=
    Data (d_mem r) (d_freelist r) (d_kernel_pagetable r) (d_procs r) (d_initproc r) v
    (d_sched_policy r) (d_min_accumulator r) (d_first r) (d_ticks r) (d_csr r) (d_pipes r)
    (d_cons r) (d_uart r) (d_panicked r) (d_pr_locking r) (d_ftable r) (d_slocks r) (d_bufs r)
    (d_log r) (d_sb r) (d_inodes r) (d_devsw r) (d_vdisk r) (d_disk r) (d_started r).
Definition set_d_sched_policy (v : Z) (r : data) : data :=
    Data (d_mem r) (d_freelist r) (d_kernel_pagetable r) (d_procs r) (d_initproc r) (d_nextpid
    r) v (d_min_accumulator r) (d_first r) (d_ticks r) (d_csr r) (d_pipes r) (d_cons r) (d_uart
    r) (d_panicked r) (d_pr_locking r) (d_ftable r) (d_slocks r) (d_bufs r) (d_log r) (d_sb r)
    (d_inodes r) (d_devsw r) (d_vdisk r) (d_disk r) (d_started r).
Definition set_d_min_accumulator (v : Z) (r : data) : data :=
    Data (d_mem r) (d_freelist r) (d_kernel_pagetable r) (d_procs r) (d_initproc r) (d_nextpid
    r) (d_sched_policy r) v (d_first r) (d_ticks r) (d_csr r) (d_pipes r) (d_cons r) (d_uart r)
    (d_panicked r) (d_pr_locking r) (d_ftable r) (d_slocks r) (d_bufs r) (d_log r) (d_sb r)
    (d_inodes r) (d_devsw r) (d_vdisk r) (d_disk r) (d_started r).
Definition set_d_first (v : Z) (r : data) : data :=
    Data (d_mem r) (d_freelist r) (d_kernel_pagetable r) (d_procs r) (d_initproc r) (d_nextpid
    r) (d_sched_policy r) (d_min_accumulator r) v (d_ticks r) (d_csr r) (d_pipes r) (d_cons r)
    (d_uart r) (d_panicked r) (d_pr_locking r) (d_ftable r) (d_slocks r) (d_bufs r) (d_log r)
    (d_sb r) (d_inodes r) (d_devsw r) (d_vdisk r) (d_disk r) (d_started r).
Definition set_d_ticks (v : Z) (r : data) : data :=
    Data (d_mem r) (d_freelist r) (d_kernel_pagetable r) (d_procs r) (d_initproc r) (d_nextpid
    r) (d_sched_policy r) (d_min_accumulator r) (d_first r) v (d_csr r) (d_pipes r) (d_cons r)
    (d_uart r) (d_panicked r) (d_pr_locking r) (d_ftable r) (d_slocks r) (d_bufs r) (d_log r)
    (d_sb r) (d_inodes r) (d_devsw r) (d_vdisk r) (d_disk r) (d_started r).
Definition set_d_csr (v : csr) (r : data) : data :=
    Data (d_mem r) (d_freelist r) (d_kernel_pagetable r) (d_procs r) (d_initproc r) (d_nextpid
    r) (d_sched_policy r) (d_min_accumulator r) (d_first r) (d_ticks r) v (d_pipes r) (d_cons r)
    (d_uart r) (d_panicked r) (d_pr_locking r) (d_ftable r) (d_slocks r) (d_bufs r) (d_log r)
    (d_sb r) (d_inodes r) (d_devsw r) (d_vdisk r) (d_disk r) (d_started r).
Definition set_d_pipes (v : gmap Z pipe) (r : data) : data :=
    Data (d_mem r) (d_freelist r) (d_kernel_pagetable r) (d_procs r) (d_initproc r) (d_nextpid
    r) (d_sched_policy r) (d_min_accumulator r) (d_first r) (d_ticks r) (d_csr r) v (d_cons r)
    (d_uart r) (d_panicked r) (d_pr_locking r) (d_ftable r) (d_slocks r) (d_bufs r) (d_log r)
    (d_sb r) (d_inodes r) (d_devsw r) (d_vdisk r) (d_disk r) (d_started r).
Definition set_d_cons (v : cons) (r : data) : data :=
    Data (d_mem r) (d_freelist r) (d_kernel_pagetable r) (d_procs r) (d_initproc r) (d_nextpid
    r) (d_sched_policy r) (d_min_accumulator r) (d_first r) (d_ticks r) (d_csr r) (d_pipes r) v
    (d_uart r) (d_panicked r) (d_pr_locking r) (d_ftable r) (d_slocks r) (d_bufs r) (d_log r)
    (d_sb r) (d_inodes r) (d_devsw r) (d_vdisk r) (d_disk r) (d_started r).
Definition set_d_uart (v : uart) (r : data) : data :=
    Data (d_mem r) (d_freelist r) (d_kernel_pagetable r) (d_procs r) (d_initproc r) (d_nextpid
    r) (d_sched_policy r) (d_min_accumulator r) (d_first r) (d_ticks r) (d_csr r) (d_pipes r)
    (d_cons r) v (d_panicked r) (d_pr_locking r) (d_ftable r) (d_slocks r) (d_bufs r) (d_log r)
    (d_sb r) (d_inodes r) (d_devsw r) (d_vdisk r) (d_disk r) (d_started r).
Definition set_d_panicked (v : Z) (r : data) : data :=
    Data (d_mem r) (d_freelist r) (d_kernel_pagetable r) (d_procs r) (d_initproc r) (d_nextpid
    r) (d_sched_policy r) (d_min_accumulator r) (d_first r) (d_ticks r) (d_csr r) (d_pipes r)
    (d_cons r) (d_uart r) v (d_pr_locking r) (d_ftable r) (d_slocks r) (d_bufs r) (d_log r)
    (d_sb r) (d_inodes r) (d_devsw r) (d_vdisk r) (d_disk r) (d_started r).
Definition set_d_pr_locking (v : Z) (r : data) : data :=
    Data (d_mem r) (d_freelist r) (d_kernel_pagetable r) (d_procs r) (d_initproc r) (d_nextpid
    r) (d_sched_policy r) (d_min_accumulator r) (d_first r) (d_ticks r) (d_csr r) (d_pipes r)
    (d_cons r) (d_uart r) (d_panicked r) v (d_ftable r) (d_slocks r) (d_bufs r) (d_log r) (d_sb
    r) (d_inodes r) (d_devsw r) (d_vdisk r) (d_disk r) (d_started r).
Definition set_d_ftable (v : list file) (r : data) : data :=
    Data (d_mem r) (d_freelist r) (d_kernel_pagetable r) (d_procs r) (d_initproc r) (d_nextpid
    r) (d_sched_policy r) (d_min_accumulator r) (d_first r) (d_ticks r) (d_csr r) (d_pipes r)
    (d_cons r) (d_uart r) (d_panicked r) (d_pr_locking r) v (d_slocks r) (d_bufs r) (d_log r)
    (d_sb r) (d_inodes r) (d_devsw r) (d_vdisk r) (d_disk r) (d_started r).
Definition set_d_slocks (v : gmap slkid sleeplock) (r : data) : data :=
    Data (d_mem r) (d_freelist r) (d_kernel_pagetable r) (d_procs r) (d_initproc r) (d_nextpid
    r) (d_sched_policy r) (d_min_accumulator r) (d_first r) (d_ticks r) (d_csr r) (d_pipes r)
    (d_cons r) (d_uart r) (d_panicked r) (d_pr_locking r) (d_ftable r) v (d_bufs r) (d_log r)
    (d_sb r) (d_inodes r) (d_devsw r) (d_vdisk r) (d_disk r) (d_started r).
Definition set_d_bufs (v : list buf) (r : data) : data :=
    Data (d_mem r) (d_freelist r) (d_kernel_pagetable r) (d_procs r) (d_initproc r) (d_nextpid
    r) (d_sched_policy r) (d_min_accumulator r) (d_first r) (d_ticks r) (d_csr r) (d_pipes r)
    (d_cons r) (d_uart r) (d_panicked r) (d_pr_locking r) (d_ftable r) (d_slocks r) v (d_log r)
    (d_sb r) (d_inodes r) (d_devsw r) (d_vdisk r) (d_disk r) (d_started r).
Definition set_d_log (v : log) (r : data) : data :=
    Data (d_mem r) (d_freelist r) (d_kernel_pagetable r) (d_procs r) (d_initproc r) (d_nextpid
    r) (d_sched_policy r) (d_min_accumulator r) (d_first r) (d_ticks r) (d_csr r) (d_pipes r)
    (d_cons r) (d_uart r) (d_panicked r) (d_pr_locking r) (d_ftable r) (d_slocks r) (d_bufs r) v
    (d_sb r) (d_inodes r) (d_devsw r) (d_vdisk r) (d_disk r) (d_started r).
Definition set_d_sb (v : superblock) (r : data) : data :=
    Data (d_mem r) (d_freelist r) (d_kernel_pagetable r) (d_procs r) (d_initproc r) (d_nextpid
    r) (d_sched_policy r) (d_min_accumulator r) (d_first r) (d_ticks r) (d_csr r) (d_pipes r)
    (d_cons r) (d_uart r) (d_panicked r) (d_pr_locking r) (d_ftable r) (d_slocks r) (d_bufs r)
    (d_log r) v (d_inodes r) (d_devsw r) (d_vdisk r) (d_disk r) (d_started r).
Definition set_d_inodes (v : list inode) (r : data) : data :=
    Data (d_mem r) (d_freelist r) (d_kernel_pagetable r) (d_procs r) (d_initproc r) (d_nextpid
    r) (d_sched_policy r) (d_min_accumulator r) (d_first r) (d_ticks r) (d_csr r) (d_pipes r)
    (d_cons r) (d_uart r) (d_panicked r) (d_pr_locking r) (d_ftable r) (d_slocks r) (d_bufs r)
    (d_log r) (d_sb r) v (d_devsw r) (d_vdisk r) (d_disk r) (d_started r).
Definition set_d_devsw (v : list (option device)) (r : data) : data :=
    Data (d_mem r) (d_freelist r) (d_kernel_pagetable r) (d_procs r) (d_initproc r) (d_nextpid
    r) (d_sched_policy r) (d_min_accumulator r) (d_first r) (d_ticks r) (d_csr r) (d_pipes r)
    (d_cons r) (d_uart r) (d_panicked r) (d_pr_locking r) (d_ftable r) (d_slocks r) (d_bufs r)
    (d_log r) (d_sb r) (d_inodes r) v (d_vdisk r) (d_disk r) (d_started r).
Definition set_d_vdisk (v : vdisk) (r : data) : data :=
    Data (d_mem r) (d_freelist r) (d_kernel_pagetable r) (d_procs r) (d_initproc r) (d_nextpid
    r) (d_sched_policy r) (d_min_accumulator r) (d_first r) (d_ticks r) (d_csr r) (d_pipes r)
    (d_cons r) (d_uart r) (d_panicked r) (d_pr_locking r) (d_ftable r) (d_slocks r) (d_bufs r)
    (d_log r) (d_sb r) (d_inodes r) (d_devsw r) v (d_disk r) (d_started r).
Definition set_d_disk (v : disk) (r : data) : data :=
    Data (d_mem r) (d_freelist r) (d_kernel_pagetable r) (d_procs r) (d_initproc r) (d_nextpid
    r) (d_sched_policy r) (d_min_accumulator r) (d_first r) (d_ticks r) (d_csr r) (d_pipes r)
    (d_cons r) (d_uart r) (d_panicked r) (d_pr_locking r) (d_ftable r) (d_slocks r) (d_bufs r)
    (d_log r) (d_sb r) (d_inodes r) (d_devsw r) (d_vdisk r) v (d_started r).
Definition set_d_started (v : Z) (r : data) : data :=
    Data (d_mem r) (d_freelist r) (d_kernel_pagetable r) (d_procs r) (d_initproc r) (d_nextpid
    r) (d_sched_policy r) (d_min_accumulator r) (d_first r) (d_ticks r) (d_csr r) (d_pipes r)
    (d_cons r) (d_uart r) (d_panicked r) (d_pr_locking r) (d_ftable r) (d_slocks r) (d_bufs r)
    (d_log r) (d_sb r) (d_inodes r) (d_devsw r) (d_vdisk r) (d_disk r) v.
Record kstate : Type := KState {
  k_sync : sync;
  k_data : data
}.

Definition set_k_sync (v : sync) (r : kstate) : kstate :=
    KState v (k_data r).
Definition set_k_data (v : data) (r : kstate) : kstate :=
    KState (k_sync r) v.

(** A kernel computation. *)
Abbreviation K := (M kstate).

(** ** Access to the state *)

#[export] Instance context_inhabited : Inhabited context :=
  populate (Context 0 0 0 0 0 0 0 0 0 0 0 0 0 0).

Definition zero_proc : proc :=
  Proc UNUSED CNull 0 0 0 None (replicate 32 0) 0 0 0 0 0 0 0 0 0 0 inhabitant
    (replicate NOFILE None) None (replicate 16 0).
#[export] Instance proc_inhabited : Inhabited proc := populate zero_proc.

Definition zero_cpu : cpu := Cpu None 0 0.
#[export] Instance cpu_inhabited : Inhabited cpu := populate zero_cpu.

Definition zero_file : file := File FD_NONE 0 0 0 0 None 0 0.
#[export] Instance file_inhabited : Inhabited file := populate zero_file.

Definition zero_pipe : pipe := Pipe (replicate 512 0) 0 0 0 0.
#[export] Instance pipe_inhabited : Inhabited pipe := populate zero_pipe.

Definition zero_slk : sleeplock := Sleeplock 0 EmptyString 0.

Definition zero_buf : buf := Buf 0 0 0 0 0 O O (replicate (Z.to_nat BSIZE) 0).
#[export] Instance buf_inhabited : Inhabited buf := populate zero_buf.

Definition zero_inode : inode := Inode 0 0 0 0 0 0 0 0 0 (replicate 13 0).
#[export] Instance inode_inhabited : Inhabited inode := populate zero_inode.

#[export] Instance vdesc_inhabited : Inhabited vdesc := populate (Vdesc VNull 0 0 0).
#[export] Instance vreq_inhabited : Inhabited vreq := populate (Vreq 0 0 0).
Definition zero_vdisk : vdisk :=
  Vdisk (replicate 8 inhabitant) 0 (replicate 8 0) 0 (replicate 8 0) (replicate 8 0) 0
    (replicate 8 None) (replicate 8 0) (replicate 8 inhabitant).

(** A lock that was never initialised is zeroed memory. *)
Definition zero_lock : spinlock := Spinlock 0 EmptyString None.

(** Zeroed memory: the state the kernel's data starts from. *)
Definition zero_sync : sync := Sync 0 0 (replicate NCPU zero_cpu) ∅.
Definition zero_data : data :=
  Data (fun _ => 0) 0 0 (replicate NPROC zero_proc) None 1 0 INT_MAX 1 0
    (Csr 0 0 0 0 0 0 [] []) ∅ (Cons (replicate 128 0) 0 0 0)
    (Uart (replicate 32 0) 0 0 [] [] []) 0 0 (replicate NFILE zero_file)
    ∅ (replicate (S NBUF) zero_buf) (Log 0 0 0 0 0 (Logheader 0 (replicate (Z.to_nat LOGSIZE) 0)))
    (Superblock 0 0 0 0 0 0 0 0) (replicate NINODE zero_inode) (replicate NDEV None)
    zero_vdisk (Disk (fun _ => replicate (Z.to_nat BSIZE) 0) []) 0.

Definition getd {A} (f : data -> A) : K A := gets (fun s => f (k_data s)).
Definition modd (f : data -> data) : K unit :=
  modify (fun s => set_k_data (f (k_data s)) s).
Definition gety {A} (f : sync -> A) : K A := gets (fun s => f (k_sync s)).
Definition mody (f : sync -> sync) : K unit :=
  modify (fun s => set_k_sync (f (k_sync s)) s).

(** [p->f] and [p->f = v] for a process [p]. *)
Definition proc_of (d : data) (i : nat) : proc := d_procs d !!! i.
Definition getp {A} (i : nat) (f : proc -> A) : K A := getd (fun d => f (proc_of d i)).
Definition upd_proc (i : nat) (f : proc -> proc) (d : data) : data :=
  set_d_procs (alter f i (d_procs d)) d.
Definition modp (i : nat) (f : proc -> proc) : K unit := modd (upd_proc i f).

(** A load or store through a null pointer faults, and kerneltrap() panics. *)
Definition deref {A} (p : option A) : K A :=
  match p with Some x => mret x | None => panic "kerneltrap" end.

(** The primitive steps on a state given by its two parts. *)
Lemma getd_run {A} (f : data -> A) y d : getd f (KState y d) = Ret (f d) (KState y d).
Proof. reflexivity. Qed.
Lemma modd_run f y d : modd f (KState y d) = Ret tt (KState y (f d)).
Proof. reflexivity. Qed.
Lemma gety_run {A} (f : sync -> A) y d : gety f (KState y d) = Ret (f y) (KState y d).
Proof. reflexivity. Qed.
Lemma mody_run f y d : mody f (KState y d) = Ret tt (KState (f y) d).
Proof. reflexivity. Qed.
Lemma getp_run {A} i (f : proc -> A) y d :
  getp i f (KState y d) = Ret (f (proc_of d i)) (KState y d).
Proof. reflexivity. Qed.
Lemma modp_run i f y d : modp i f (KState y d) = Ret tt (KState y (upd_proc i f d)).
Proof. reflexivity. Qed.
Lemma mret_run {A} (a : A) (s : kstate) : mret (M := K) a s = Ret a s.
Proof. reflexivity. Qed.
Lemma deref_run {A} (a : A) (s : kstate) : deref (Some a) s = Ret a s.
Proof. reflexivity. Qed.
Lemma when_false (m : K unit) s : when false m s = Ret tt s.
Proof. reflexivity. Qed.
Lemma when_true (m : K unit) s a s' : m s = Ret a s' -> when true m s = Ret a s'.
Proof. done. Qed.

(** Memory updates collapse. *)
Lemma set_mem_mem m m' d : set_d_mem m (set_d_mem m' d) = set_d_mem m d.
Proof. reflexivity. Qed.
Lemma mem_set_mem m d : d_mem (set_d_mem m d) = m.
Proof. reflexivity. Qed.

(** Compute a short run on a state given by its two parts. *)
Ltac krun :=
  unfold getd, modd, gety, mody, getp, modp, set_k_data, set_k_sync; kcompute.
