(* ===== verification/Spinlock.v ===== *)
(** * kernel/spinlock.c and the per-CPU part of kernel/proc.c

    Interrupt masking, push_off/pop_off nesting and spin locks.  Every function
    is modelled as one hart runs it; a spin lock held by another hart makes
    acquire() [Spin].  Each operation comes with a pure function on [sync] that
    describes what it does when it succeeds. *)

From S2P Require Import Prelude Mem Riscv State.

(** ** Definitions *)

Definition r_sstatus : K Z := gety y_sstatus.
Definition w_sstatus (x : Z) : K unit := mody (set_y_sstatus x).
Definition intr_on : K unit := x ← r_sstatus; w_sstatus (Z.lor x SSTATUS_SIE).
Definition intr_off : K unit := x ← r_sstatus; w_sstatus (Z.land x (Z.lnot SSTATUS_SIE)).
Definition intr_get : K Z := x ← r_sstatus; mret (b2z (nz (Z.land x SSTATUS_SIE))).

Definition r_tp : K Z := gety y_tp.
Definition cpuid : K Z := x ← r_tp; mret (s32 x).

(** [mycpu()] is the index in [cpus] of this hart's structure. *)
Definition mycpu : K nat := id ← cpuid; mret (Z.to_nat id).
Definition getc {A} (f : cpu -> A) : K A := c ← mycpu; gety (fun y => f (y_cpus y !!! c)).
Definition modc (f : cpu -> cpu) : K unit :=
  c ← mycpu; mody (fun y => set_y_cpus (alter f c (y_cpus y)) y).

Definition push_off : K unit :=
  old ← intr_get;
  intr_off;;
  n ← getc c_noff;
  when (n =? 0) (modc (set_c_intena old));;
  modc (fun c => set_c_noff (c_noff c + 1) c).

Definition pop_off : K unit :=
  i ← intr_get;
  if nz i then panic "pop_off - interruptible"
  else
    n ← getc c_noff;
    if n <? 1 then panic "pop_off"
    else
      modc (fun c => set_c_noff (c_noff c - 1) c);;
      n' ← getc c_noff;
      e ← getc c_intena;
      when ((n' =? 0) && nz e) intr_on.

Definition get_lock (l : lockid) : K spinlock :=
  gety (fun y => default zero_lock (y_locks y !! l)).
Definition put_lock (l : lockid) (lk : spinlock) : K unit :=
  mody (fun y => set_y_locks (<[l := lk]> (y_locks y)) y).

Definition initlock (l : lockid) (name : string) : K unit :=
  put_lock l (Spinlock 0 name None).

Definition holding (l : lockid) : K bool :=
  lk ← get_lock l;
  c ← mycpu;
  mret (nz (lk_locked lk) && bool_decide (lk_cpu lk = Some c)).

(** The [while(test_and_set)] loop ends at once when the lock is free; a lock
    that another hart holds keeps this hart spinning. *)
Definition acquire (l : lockid) : K unit :=
  push_off;;
  h ← holding l;
  if (h : bool) then panic "acquire"
  else
    lk ← get_lock l;
    if nz (lk_locked lk) then spin
    else
      put_lock l (Spinlock 1 (lk_name lk) (lk_cpu lk));;
      c ← mycpu;
      put_lock l (Spinlock 1 (lk_name lk) (Some c)).

Definition release (l : lockid) : K unit :=
  h ← holding l;
  if negb h then panic "release"
  else
    lk ← get_lock l;
    put_lock l (Spinlock (lk_locked lk) (lk_name lk) None);;
    put_lock l (Spinlock 0 (lk_name lk) None);;
    pop_off.

(** [myproc()]: the process running on this hart, if any. *)
Definition myproc : K (option nat) :=
  push_off;;
  p ← getc c_proc;
  pop_off;;
  mret p.

(** ** Pure descriptions *)

Definition cur (y : sync) : nat := Z.to_nat (s32 (y_tp y)).
Definition curcpu (y : sync) : cpu := y_cpus y !!! cur y.
Definition intr (y : sync) : Z := b2z (nz (Z.land (y_sstatus y) SSTATUS_SIE)).
Definition y_setc (f : cpu -> cpu) (y : sync) : sync :=
  set_y_cpus (alter f (cur y) (y_cpus y)) y.
Definition y_intr_off (y : sync) : sync :=
  set_y_sstatus (Z.land (y_sstatus y) (Z.lnot SSTATUS_SIE)) y.
Definition y_intr_on (y : sync) : sync :=
  set_y_sstatus (Z.lor (y_sstatus y) SSTATUS_SIE) y.

Definition y_push (y : sync) : sync :=
  y_setc (fun c => Cpu (c_proc c) (c_noff c + 1)
                     (if c_noff c =? 0 then intr y else c_intena c)) (y_intr_off y).

Definition y_pop (y : sync) : sync :=
  let c := curcpu y in
  let y1 := y_setc (fun c => set_c_noff (c_noff c - 1) c) y in
  if (c_noff c - 1 =? 0) && nz (c_intena c) then y_intr_on y1 else y1.

Definition lock_name (l : lockid) (y : sync) : string :=
  lk_name (default zero_lock (y_locks y !! l)).
Definition y_acq (l : lockid) (y : sync) : sync :=
  set_y_locks (<[l := Spinlock 1 (lock_name l y) (Some (cur y))]> (y_locks y)) (y_push y).
Definition y_rel (l : lockid) (y : sync) : sync :=
  y_pop (set_y_locks (<[l := Spinlock 0 (lock_name l y) None]> (y_locks y)) y).

(** A lock that is initialised and free, and one this hart holds. *)
Definition free (l : lockid) (y : sync) : Prop :=
  exists nm, y_locks y !! l = Some (Spinlock 0 nm None).
Definition held (l : lockid) (y : sync) : Prop :=
  exists nm, y_locks y !! l = Some (Spinlock 1 nm (Some (cur y))).

(** The hart is one of the CPUs, and its interrupt state is the one push_off()
    and pop_off() maintain: interrupts are off while the nesting depth is
    positive, and at depth 0 [intena] is the value push_off() would save. *)
Record sync_ok (y : sync) : Prop := {
  ok_cur : (cur y < length (y_cpus y))%nat;
  ok_noff : 0 <= c_noff (curcpu y);
  ok_off : 0 < c_noff (curcpu y) -> intr y = 0;
  ok_intena : c_noff (curcpu y) = 0 -> c_intena (curcpu y) = intr y
}.

(** ** Lemmas *)

Lemma curcpu_setc f y :
  (cur y < length (y_cpus y))%nat -> curcpu (y_setc f y) = f (curcpu y).
Proof.
  intros H. unfold curcpu, y_setc. cbn [y_cpus set_y_cpus].
  change (cur (set_y_cpus _ y)) with (cur y).
  destruct (lookup_lt_is_Some_2 _ _ H) as [c Hc].
  erewrite !list_lookup_total_correct; [done | exact Hc |].
  by rewrite list_lookup_alter_eq, Hc.
Qed.

Lemma intr_off_bit s : Z.land (Z.land s (Z.lnot SSTATUS_SIE)) SSTATUS_SIE = 0.
Proof. rewrite <- Z.land_assoc. apply Z.land_0_r. Qed.

Lemma intr_on_off_bit s :
  nz (Z.land s SSTATUS_SIE) = true ->
  Z.lor (Z.land s (Z.lnot SSTATUS_SIE)) SSTATUS_SIE = s.
Proof.
  intros H. assert (Z.testbit s 1 = true) as Hb.
  { destruct (Z.testbit s 1) eqn:E; [done|]. exfalso.
    unfold nz, SSTATUS_SIE in H. apply negb_true_iff, Z.eqb_neq in H. apply H.
    apply Z.bits_inj'. intros n Hn. rewrite Z.land_spec, Z.bits_0, Z.shiftl_spec by done.
    destruct (Z.eq_dec n 1) as [->|]; [by rewrite E|].
    destruct (Z.testbit s n); [|done]. cbn [andb].
    destruct (Z.eq_dec n 0) as [->|]; [done|]. rewrite Z.bits_above_log2; cbn; lia || done. }
  apply Z.bits_inj'. intros n Hn.
  rewrite Z.lor_spec, Z.land_spec, Z.lnot_spec by done. unfold SSTATUS_SIE.
  destruct (Z.eq_dec n 1) as [->|]; [by rewrite Hb|].
  replace (Z.testbit (Z.shiftl 1 1) n) with false.
  - by rewrite andb_true_r, orb_false_r.
  - symmetry. change (Z.shiftl 1 1) with (2 ^ 1). apply Z.pow2_bits_false. lia.
Qed.

Lemma intr_off_id s : nz (Z.land s SSTATUS_SIE) = false -> Z.land s (Z.lnot SSTATUS_SIE) = s.
Proof.
  intros H. unfold nz in H. apply negb_false_iff, Z.eqb_eq in H.
  rewrite <- Z.ldiff_land. apply Z.bits_inj'. intros n Hn. rewrite Z.ldiff_spec.
  apply (f_equal (fun z => Z.testbit z n)) in H. rewrite Z.land_spec, Z.bits_0 in H.
  by destruct (Z.testbit s n), (Z.testbit SSTATUS_SIE n).
Qed.

Lemma b2z_nz b : nz (b2z b) = b.
Proof. by destruct b. Qed.

Lemma alter_comp {A} (f g : A -> A) i (l : list A) :
  alter f i (alter g i l) = alter (fun x => f (g x)) i l.
Proof. revert i. induction l as [|x l IH]; intros [|i]; cbn; [done..|]. f_equal. apply IH. Qed.

Lemma alter_eq_id {A} `{!Inhabited A} (f : A -> A) i (l : list A) :
  f (l !!! i) = l !!! i -> alter f i l = l.
Proof.
  revert i. induction l as [|x l IH]; intros [|i] H; cbn in *; [done..|by rewrite H|].
  f_equal. by apply IH.
Qed.

Lemma alter_ext_at {A} `{!Inhabited A} (f g : A -> A) i (l : list A) :
  f (l !!! i) = g (l !!! i) -> alter f i l = alter g i l.
Proof.
  revert i. induction l as [|x l IH]; intros [|i] H; cbn in *; [done..|by rewrite H|].
  f_equal. by apply IH.
Qed.

Lemma push_off_run y d : push_off (KState y d) = Ret tt (KState (y_push y) d).
Proof.
  unfold push_off, y_push, getc, modc, mycpu, cpuid, intr_get, intr_off. krun.
  fold (cur y). fold (curcpu y). unfold y_setc, y_intr_off.
  destruct (c_noff (curcpu y) =? 0) eqn:E; cbn; do 2 f_equal;
    unfold set_y_cpus; cbn; f_equal; rewrite ?alter_comp; apply alter_ext_at;
    change (y_cpus y !!! _) with (curcpu y); cbn; rewrite E; [done|].
  by destruct (curcpu y).
Qed.

Lemma pop_off_run y d :
  (cur y < length (y_cpus y))%nat -> intr y = 0 -> 1 <= c_noff (curcpu y) ->
  pop_off (KState y d) = Ret tt (KState (y_pop y) d).
Proof.
  intros Hc Hi Hn. unfold pop_off, y_pop, getc, modc, mycpu, cpuid, intr_get, intr_on.
  krun. unfold intr in Hi. rewrite Hi. cbn.
  change (y_cpus y !!! Z.to_nat (s32 (y_tp y))) with (curcpu y).
  destruct (Z.ltb_spec (c_noff (curcpu y)) 1); [lia|]. cbn.
  change (alter (λ c : cpu, set_c_noff (c_noff c - 1) c) (Z.to_nat (s32 (y_tp y)))
            (y_cpus y) !!! Z.to_nat (s32 (y_tp y)))
    with (curcpu (y_setc (fun c => set_c_noff (c_noff c - 1) c) y)).
  rewrite curcpu_setc by done. cbn.
  by destruct ((c_noff (curcpu y) - 1 =? 0) && nz (c_intena (curcpu y))).
Qed.

Lemma cur_push y : cur (y_push y) = cur y.
Proof. done. Qed.

Lemma intr_push y : intr (y_push y) = 0.
Proof. unfold intr, y_push. cbn. by rewrite intr_off_bit. Qed.

Lemma curcpu_push y :
  (cur y < length (y_cpus y))%nat ->
  curcpu (y_push y) = Cpu (c_proc (curcpu y)) (c_noff (curcpu y) + 1)
    (if c_noff (curcpu y) =? 0 then intr y else c_intena (curcpu y)).
Proof. intros. unfold y_push. by rewrite curcpu_setc. Qed.

(** push_off() and pop_off() cancel out. *)
Lemma y_pop_push y : sync_ok y -> y_pop (y_push y) = y.
Proof.
  intros [Hc Hn Ho Hi]. unfold y_pop. rewrite curcpu_push by done. cbn [c_noff c_intena].
  replace (c_noff (curcpu y) + 1 - 1) with (c_noff (curcpu y)) by lia.
  assert (alter (λ c : cpu, set_c_noff (c_noff c - 1) c) (cur y)
            (y_cpus (y_push y)) = y_cpus y) as Hcpus.
  { unfold y_push, y_setc. cbn. rewrite alter_comp. apply alter_eq_id.
    change (y_cpus y !!! _) with (curcpu y). destruct (curcpu y) as [p n e] eqn:E.
    cbn in *. unfold set_c_noff. cbn. f_equal; [lia|].
    destruct (Z.eqb_spec n 0); [symmetry; auto | done]. }
  unfold y_setc at 1 2. rewrite cur_push, Hcpus.
  destruct y as [tp st cpus locks]. cbn in *.
  unfold y_push, y_intr_on, set_y_cpus, set_y_sstatus, intr in *. cbn in *.
  destruct (Z.eqb_spec (c_noff (curcpu (Sync tp st cpus locks))) 0) as [E|E]; cbn.
  - rewrite b2z_nz. destruct (nz (Z.land st SSTATUS_SIE)) eqn:Eb; cbn; f_equal.
    + by apply intr_on_off_bit.
    + by apply intr_off_id.
  - specialize (Ho ltac:(lia)). f_equal. apply intr_off_id.
    by destruct (nz (Z.land st SSTATUS_SIE)).
Qed.

Lemma getc_run {A} (f : cpu -> A) y d :
  getc f (KState y d) = Ret (f (curcpu y)) (KState y d).
Proof. reflexivity. Qed.

Lemma myproc_run y d :
  sync_ok y -> myproc (KState y d) = Ret (c_proc (curcpu y)) (KState y d).
Proof.
  intros Hok. unfold myproc.
  rewrite (bind_Ret _ _ _ _ _ (push_off_run y d)).
  rewrite (bind_Ret _ _ _ _ _ (getc_run _ _ _)), curcpu_push by apply Hok.
  erewrite bind_Ret; [reflexivity|]. rewrite pop_off_run.
  - by rewrite y_pop_push.
  - cbn. rewrite length_alter. apply Hok.
  - apply intr_push.
  - rewrite curcpu_push by apply Hok. cbn. pose proof (ok_noff y Hok). lia.
Qed.

Lemma acquire_run l y d :
  free l y -> acquire l (KState y d) = Ret tt (KState (y_acq l y) d).
Proof.
  intros [nm Hl]. unfold acquire.
  rewrite (bind_Ret _ _ _ _ _ (push_off_run y d)).
  unfold holding, get_lock, put_lock, mycpu, cpuid. krun.
  rewrite Hl. cbn. rewrite Hl. cbn.
  unfold y_acq, lock_name. rewrite Hl. cbn. unfold set_k_sync, set_y_locks. cbn.
  rewrite insert_insert_eq. reflexivity.
Qed.

Lemma release_run l y d :
  (cur y < length (y_cpus y))%nat -> intr y = 0 -> 1 <= c_noff (curcpu y) -> held l y ->
  release l (KState y d) = Ret tt (KState (y_rel l y) d).
Proof.
  intros Hc Hi Hn [nm Hl]. unfold release, holding, get_lock, put_lock, mycpu, cpuid.
  krun. rewrite Hl. cbn.
  rewrite bool_decide_eq_true_2 by done. cbn. rewrite Hl. cbn.
  unfold set_k_sync, set_y_locks. cbn. rewrite insert_insert_eq.
  rewrite pop_off_run; [|done..]. unfold y_rel, lock_name. by rewrite Hl.
Qed.

Lemma sync_ok_acq l y : sync_ok y -> sync_ok (y_acq l y).
Proof.
  intros [Hc Hn Ho Hi]. unfold y_acq.
  assert (curcpu (set_y_locks (<[l := Spinlock 1 (lock_name l y) (Some (cur y))]> (y_locks y))
            (y_push y)) = curcpu (y_push y)) as E by done.
  split; rewrite ?E, ?curcpu_push by done; cbn [c_noff c_intena].
  - cbn. rewrite length_alter. done.
  - lia.
  - intros _. apply intr_push.
  - lia.
Qed.

Lemma curcpu_acq l y :
  sync_ok y -> c_proc (curcpu (y_acq l y)) = c_proc (curcpu y).
Proof. intros Hok. change (curcpu (y_acq l y)) with (curcpu (y_push y)).
  by rewrite curcpu_push by apply Hok. Qed.

Lemma noff_acq l y : sync_ok y -> c_noff (curcpu (y_acq l y)) = c_noff (curcpu y) + 1.
Proof. intros Hok. change (curcpu (y_acq l y)) with (curcpu (y_push y)).
  by rewrite curcpu_push by apply Hok. Qed.

Lemma free_acq l l' y : l <> l' -> free l y -> free l (y_acq l' y).
Proof. intros Hne [nm H]. exists nm. cbn. by rewrite lookup_insert_ne. Qed.

Lemma held_acq l y : held l (y_acq l y).
Proof. eexists. cbn. rewrite lookup_insert_eq. done. Qed.

Lemma held_acq_ne l l' y : l <> l' -> held l y -> held l (y_acq l' y).
Proof. intros Hne [nm H]. exists nm. cbn. by rewrite lookup_insert_ne. Qed.

Lemma y_push_locks L y : y_push (set_y_locks L y) = set_y_locks L (y_push y).
Proof. done. Qed.

Lemma y_pop_locks L y : y_pop (set_y_locks L y) = set_y_locks L (y_pop y).
Proof.
  unfold y_pop. change (curcpu (set_y_locks L y)) with (curcpu y).
  by destruct ((c_noff (curcpu y) - 1 =? 0) && nz (c_intena (curcpu y))).
Qed.

Lemma set_locks_locks L L' y : set_y_locks L (set_y_locks L' y) = set_y_locks L y.
Proof. done. Qed.

Lemma set_locks_id y : set_y_locks (y_locks y) y = y.
Proof. by destruct y. Qed.

(** Releasing the lock just acquired restores the synchronisation state. *)
Lemma y_rel_acq l y : sync_ok y -> free l y -> y_rel l (y_acq l y) = y.
Proof.
  intros Hok [nm H]. unfold y_rel, y_acq, lock_name. cbn [y_locks set_y_locks].
  rewrite H, lookup_insert_eq. cbn [default lk_name].
  rewrite insert_insert_eq, insert_id, set_locks_locks, y_pop_locks, y_pop_push by done.
  apply set_locks_id.
Qed.

(** Releasing the outer of two locks leaves the inner one held. *)
Lemma y_rel_acq_outer l1 l2 y :
  sync_ok y -> free l1 y -> free l2 y -> l1 <> l2 ->
  y_rel l1 (y_acq l2 (y_acq l1 y)) = y_acq l2 y.
Proof.
  intros Hok [n1 H1] [n2 H2] Hne. unfold y_rel, y_acq, lock_name. cbn [y_locks set_y_locks].
  rewrite (lookup_insert_ne _ l2 l1), lookup_insert_eq, (lookup_insert_ne _ l1 l2) by done.
  rewrite H1, H2. cbn [default lk_name].
  rewrite (insert_insert_ne _ l1 l2), insert_insert_eq by done.
  rewrite (insert_id (y_locks y) l1 (Spinlock 0 n1 None)) by done.
  rewrite set_locks_locks, y_push_locks, set_locks_locks, y_pop_locks, y_pop_push; [done|].
  by destruct (sync_ok_acq l1 y Hok).
Qed.

Lemma release_acq l y d :
  sync_ok y -> free l y -> release l (KState (y_acq l y) d) = Ret tt (KState y d).
Proof.
  intros Hok Hf. pose proof (sync_ok_acq l y Hok) as Hok'.
  pose proof (noff_acq l y Hok). pose proof (ok_noff y Hok).
  rewrite release_run; [by rewrite y_rel_acq | apply Hok' | | lia | apply held_acq].
  apply Hok'. lia.
Qed.

Lemma release_acq_outer l1 l2 y d :
  sync_ok y -> free l1 y -> free l2 y -> l1 <> l2 ->
  release l1 (KState (y_acq l2 (y_acq l1 y)) d) = Ret tt (KState (y_acq l2 y) d).
Proof.
  intros Hok Hf1 Hf2 Hne.
  pose proof (sync_ok_acq l1 y Hok) as Hok1. pose proof (sync_ok_acq l2 _ Hok1) as Hok2.
  pose proof (noff_acq l2 _ Hok1). pose proof (ok_noff _ Hok1).
  rewrite release_run; [by rewrite y_rel_acq_outer | apply Hok2 | | lia |].
  - apply Hok2. lia.
  - apply held_acq_ne; [done | apply held_acq].
Qed.

Lemma holding_acq l y d : holding l (KState (y_acq l y) d) = Ret true (KState (y_acq l y) d).
Proof.
  unfold holding, get_lock, mycpu, cpuid. krun. rewrite lookup_insert_eq. cbn.
  by rewrite bool_decide_true.
Qed.

Lemma intr_get_run y d : intr_get (KState y d) = Ret (intr y) (KState y d).
Proof. reflexivity. Qed.

(** ** Symbolic execution

    [kstep] runs the first computation of a bind with the [krun] lemmas. *)

Create HintDb krun discriminated.
#[export] Hint Constants Opaque : krun.
#[export] Hint Resolve acquire_run release_acq release_acq_outer myproc_run push_off_run
  sync_ok_acq free_acq : krun.
#[export] Hint Extern 5 (_ <> _) => discriminate : krun.
#[export] Hint Extern 5 (_ <> _) => congruence : krun.
#[export] Hint Resolve getd_run modd_run gety_run mody_run getp_run modp_run mret_run
  deref_run when_false when_true getc_run bind_run holding_acq intr_get_run : krun.

Ltac kstep :=
  match goal with
  | |- context [@mbind _ _ _ _ ?f ?m ?s] =>
      erewrite (bind_Ret m f s); [| solve [eauto 12 with krun nocore]]
  end; cbv beta.

Ltac ksteps := repeat kstep.
