(* ===== verification/SpinRace.v ===== *)
(** * kernel/spinlock.c under interleaving

    acquire() and release() of one spin lock as several harts run them, one
    atomic memory access at a time: the two reads of holding(), the atomic swap
    of [lk->locked], the write of [lk->cpu], its clearing and the releasing
    store.  The debugging field [lk->cpu] is written outside the swap, so that
    it never makes holding() wrong is part of what is shown. *)

From S2P Require Import Prelude.
From stdpp Require Import functions.
#[local] Open Scope Z_scope.

(** ** Definitions *)

(** Where a hart is: outside, in acquire() (lines 25, 32, 42), in its critical
    section, or in release() (lines 49, 52, 69). *)
Inductive pc : Type :=
  | Idle
  | AcqLocked | AcqCpu | AcqSwap | AcqSetCpu
  | Crit
  | RelLocked | RelCpu | RelClear | RelUnlock
  | Panicked.

Record lockst : Type := LockSt {
  ls_locked : Z;
  ls_cpu : option nat;
  ls_pc : nat -> pc
}.

(** One atomic access by hart [h]. *)
Definition hart_step (h : nat) (s : lockst) : lockst :=
  let goto p := LockSt (ls_locked s) (ls_cpu s) (<[h := p]> (ls_pc s)) in
  match ls_pc s h with
  | Idle => goto AcqLocked                                   (* call acquire() *)
  | AcqLocked => goto (if nz (ls_locked s) then AcqCpu else AcqSwap)
  | AcqCpu => goto (if decide (ls_cpu s = Some h) then Panicked else AcqSwap)
  | AcqSwap =>
      LockSt 1 (ls_cpu s) (<[h := if nz (ls_locked s) then AcqSwap else AcqSetCpu]> (ls_pc s))
  | AcqSetCpu => LockSt (ls_locked s) (Some h) (<[h := Crit]> (ls_pc s))
  | Crit => goto RelLocked                                   (* call release() *)
  | RelLocked => goto (if nz (ls_locked s) then RelCpu else Panicked)
  | RelCpu => goto (if decide (ls_cpu s = Some h) then RelClear else Panicked)
  | RelClear => LockSt (ls_locked s) None (<[h := RelUnlock]> (ls_pc s))
  | RelUnlock => LockSt 0 (ls_cpu s) (<[h := Idle]> (ls_pc s))
  | Panicked => s
  end.

Inductive race : lockst -> lockst -> Prop :=
  | race_step h s : race s (hart_step h s).

(** initlock() *)
Definition race_init : lockst := LockSt 0 None (fun _ => Idle).

(** What holding() would return to hart [h], reading both fields in [s]. *)
Definition race_holding (h : nat) (s : lockst) : bool :=
  nz (ls_locked s) && bool_decide (ls_cpu s = Some h).

(** ** Invariant *)

(** The hart's swap returned 0 and it has not yet released the lock. *)
Definition owner (p : pc) : bool :=
  match p with
  | AcqSetCpu | Crit | RelLocked | RelCpu | RelClear | RelUnlock => true
  | _ => false
  end.

(** The hart is between its write of [lk->cpu] and the clearing of it. *)
Definition marked (p : pc) : bool :=
  match p with Crit | RelLocked | RelCpu | RelClear => true | _ => false end.

Record race_inv (s : lockst) : Prop := {
  ri_one : forall h h', owner (ls_pc s h) -> owner (ls_pc s h') -> h = h';
  ri_locked : forall h, owner (ls_pc s h) -> ls_locked s = 1;
  ri_bit : ls_locked s = 0 \/ (ls_locked s = 1 /\ exists h, owner (ls_pc s h));
  ri_cpu : forall h, ls_cpu s = Some h <-> marked (ls_pc s h);
  ri_ok : forall h, ls_pc s h <> Panicked
}.

Lemma marked_owner p : marked p -> owner p.
Proof. by destruct p. Qed.

Ltac fn_cases h :=
  repeat match goal with
  | |- context [<[h := _]> _ ?h'] =>
      destruct (decide (h = h')) as [<-|?];
      [rewrite ?fn_lookup_insert | rewrite ?fn_lookup_insert_ne by done]
  | H : context [<[h := _]> _ ?h'] |- _ =>
      destruct (decide (h = h')) as [<-|?];
      [rewrite ?fn_lookup_insert in H | rewrite ?fn_lookup_insert_ne in H by done]
  end.

(** Moving one hart without touching the lock, when its ownership is unchanged. *)
Lemma race_inv_goto h p s :
  race_inv s -> owner p = owner (ls_pc s h) -> marked p = marked (ls_pc s h) ->
  p <> Panicked -> race_inv (LockSt (ls_locked s) (ls_cpu s) (<[h := p]> (ls_pc s))).
Proof.
  intros [H1 H2 H3 H4 H5] Ho Hm Hp.
  assert (forall h', owner (<[h := p]> (ls_pc s) h') = owner (ls_pc s h')) as Ho'
    by (intros h'; fn_cases h; done).
  assert (forall h', marked (<[h := p]> (ls_pc s) h') = marked (ls_pc s h')) as Hm'
    by (intros h'; fn_cases h; done).
  split; cbn; intros.
  - rewrite Ho' in *. eauto.
  - rewrite Ho' in *. eauto.
  - destruct H3 as [H3|[H3 [h' H3']]]; [by left|right]. split; [done|].
    exists h'. by rewrite Ho'.
  - rewrite Hm'. apply H4.
  - fn_cases h; auto.
Qed.

(** Refute that a hart is an owner with a lemma that says it is not. *)
Ltac not_owner L :=
  match goal with H : Is_true (owner _) |- _ => rewrite L in H by done; done end.

Lemma race_inv_step h s : race_inv s -> race_inv (hart_step h s).
Proof.
  intros HI. pose proof HI as [H1 H2 H3 H4 H5]. unfold hart_step.
  pose proof (H1 h) as H1h. pose proof (H2 h) as H2h. pose proof (H4 h) as H4h.
  pose proof (H5 h) as H5h.
  assert (forall h', owner (ls_pc s h) -> h' <> h -> owner (ls_pc s h') = false) as Hother.
  { intros h' Ho Hne. destruct (owner (ls_pc s h')) eqn:Eo; [|done].
    destruct Hne. symmetry. apply H1; [done | by rewrite Eo]. }
  assert (forall h', owner (ls_pc s h) -> h' <> h -> marked (ls_pc s h') = false) as Hmark.
  { intros h' Ho Hne. specialize (Hother h' Ho Hne). by destruct (ls_pc s h'). }
  destruct (ls_pc s h) eqn:E; cbn in *; try done;
    try (apply race_inv_goto; rewrite ?E; repeat case_match; done).
  - (* AcqCpu: lk->cpu is not this hart, which is not marked *)
    rewrite decide_False by (intros Hc; apply H4h in Hc; done).
    apply race_inv_goto; by rewrite ?E.
  - (* AcqSwap *) destruct (nz (ls_locked s)) eqn:El.
    + destruct H3 as [H3|[H3 _]]; [by rewrite H3 in El|].
      pose proof (race_inv_goto h AcqSwap s HI) as G. rewrite E, H3 in G. by apply G.
    + assert (forall h', owner (ls_pc s h') = false) as Hno.
      { intros h'. destruct (owner (ls_pc s h')) eqn:Eo; [|done].
        specialize (H2 h'). rewrite Eo in H2. by rewrite H2 in El. }
      split; cbn; intros.
      * fn_cases h; auto; by not_owner Hno.
      * done.
      * right. split; [done|]. exists h. by rewrite fn_lookup_insert.
      * fn_cases h; [|done]. split; [|done]. intros Hc. by apply H4h in Hc.
      * fn_cases h; auto.
  - (* AcqSetCpu *) split; cbn; intros.
    + fn_cases h; auto; by not_owner Hother.
    + auto.
    + right. split; [auto|]. exists h. by rewrite fn_lookup_insert.
    + fn_cases h; [done|]. rewrite Hmark by done. split; [congruence | done].
    + fn_cases h; auto.
  - (* RelLocked *) apply race_inv_goto; rewrite ?E; try done; by rewrite H2h.
  - (* RelCpu *) rewrite decide_True by (by apply H4h).
    apply race_inv_goto; by rewrite ?E.
  - (* RelClear *) split; cbn; intros.
    + fn_cases h; auto; by not_owner Hother.
    + auto.
    + right. split; [auto|]. exists h. by rewrite fn_lookup_insert.
    + fn_cases h; [done|]. rewrite Hmark by done. done.
    + fn_cases h; auto.
  - (* RelUnlock *)
    assert (forall h', owner (<[h := Idle]> (ls_pc s) h') = false) as Hno
      by (intros h'; fn_cases h; auto).
    split; cbn; intros.
    + by not_owner Hno.
    + by not_owner Hno.
    + by left.
    + fn_cases h; [done|apply H4].
    + fn_cases h; auto.
Qed.

Lemma race_inv_init : race_inv race_init.
Proof. split; cbn; try done. by left. Qed.

Lemma race_inv_reach s : rtc race race_init s -> race_inv s.
Proof.
  intros H. remember race_init as s0 eqn:E. assert (race_inv s0) as HI
    by (subst; apply race_inv_init). clear E.
  induction H as [|s1 s2 s3 [h s1'] _ IH]; [done|]. apply IH. by apply race_inv_step.
Qed.

(** ** Properties *)

(** C3: In every interleaving of the harts' memory accesses, at most one hart is in
    the critical section, no hart panics in acquire() or release(), and a hart
    in its critical section is exactly one for which holding() is true (outside
    the few instructions of acquire() and release() that change the fields). *)
Theorem spinlock_mutual_exclusion s h h' :
  rtc race race_init s ->
  (ls_pc s h = Crit -> ls_pc s h' = Crit -> h = h')
  /\ ls_pc s h <> Panicked
  /\ (ls_pc s h = Crit -> race_holding h s = true)
  /\ (ls_pc s h = Idle \/ ls_pc s h = AcqSwap -> race_holding h s = false).
Proof.
  intros Hr. destruct (race_inv_reach s Hr) as [H1 H2 H3 H4 H5]. unfold race_holding.
  split; [|split; [|split]].
  - intros E E'. apply H1; [by rewrite E | by rewrite E'].
  - apply H5.
  - intros E. rewrite (H2 h) by (by rewrite E).
    rewrite bool_decide_eq_true_2; [done|]. apply H4. by rewrite E.
  - intros E. apply andb_false_intro2, bool_decide_eq_false_2. intros Hc.
    apply H4 in Hc. by destruct E as [E|E]; rewrite E in Hc.
Qed.

(** A schedule: the harts in the order in which they take their steps. *)
Definition race_run (hs : list nat) : lockst := foldl (fun s h => hart_step h s) race_init hs.

Lemma race_run_reach hs : rtc race race_init (race_run hs).
Proof.
  unfold race_run. generalize race_init. induction hs as [|h hs IH]; intros s; cbn.
  - apply rtc_refl.
  - eapply rtc_l; [constructor | apply IH].
Qed.

(** Hart 0 acquires the lock while hart 1 spins on the swap. *)
Lemma spinlock_mutual_exclusion_witness :
  let s := race_run [0; 0; 1; 0; 1; 0; 1; 1]%nat in
  ls_pc s 0%nat = Crit /\ ls_pc s 1%nat = AcqSwap /\ race_holding 0 s = true.
Proof.
  intros s. split; [done|]. split; [done|].
  apply (spinlock_mutual_exclusion s 0 1 (race_run_reach _)). reflexivity.
Defined.
