(* ===== verification/Kalloc.v ===== *)
(** * kernel/kalloc.c

    The physical page allocator: a free list threaded through the free pages
    themselves, under [kmem.lock].  The list head is [d_freelist]; the [next]
    field of a free page is the 64-bit word at its start. *)

From S2P Require Import Prelude Mem KString Riscv State Spinlock.

(** The addresses the linker script and the assembly files define. *)
Class Image : Type := {
  kend : Z;                (* end[]: first address after the kernel *)
  etext : Z;               (* etext[]: end of the kernel's code *)
  trampoline : Z;          (* trampoline[] in trampoline.S *)
  uservec : Z;             (* uservec[] in trampoline.S *)
  userret : Z;             (* userret[] in trampoline.S *)
  kernelvec : Z;           (* kernelvec in kernelvec.S *)
  usertrap_addr : Z;       (* the address of usertrap() *)
  forkret_addr : Z         (* the address of forkret() *)
}.

(** What kernel.ld guarantees of [end]. *)
Class ImageOk (I : Image) : Prop := {
  kend_range : KERNBASE <= kend <= PHYSTOP
}.

Section Kalloc.
Context {I : Image}.

(** ** Definitions *)

Definition kfree (pa : Z) : K unit :=
  if negb (pa mod PGSIZE =? 0) || (pa <? kend) || (PHYSTOP <=? pa)
  then panic "kfree"
  else
    modd (fun d => set_d_mem (memset (d_mem d) pa 1 PGSIZE) d);;
    acquire LKmem;;
    modd (fun d => set_d_mem (store64 (d_mem d) pa (d_freelist d)) d);;
    modd (set_d_freelist pa);;
    release LKmem.

Definition kalloc : K Z :=
  acquire LKmem;;
  r ← getd d_freelist;
  when (nz r) (modd (fun d => set_d_freelist (load64 (d_mem d) r) d));;
  release LKmem;;
  when (nz r) (modd (fun d => set_d_mem (memset (d_mem d) r 5 PGSIZE) d));;
  mret r.

(** [for(; p + PGSIZE <= pa_end; p += PGSIZE) kfree(p);] *)
Fixpoint freerange_loop (fuel : nat) (p pa_end : Z) : K unit :=
  match fuel with
  | O => fun s => OutOfFuel s
  | S fuel' =>
      if p + PGSIZE <=? pa_end
      then kfree p;; freerange_loop fuel' (p + PGSIZE) pa_end
      else mret tt
  end.

Definition freerange (pa_start pa_end : Z) : K unit :=
  let p := PGROUNDUP pa_start in
  freerange_loop (S (Z.to_nat ((pa_end - p) / PGSIZE))) p pa_end.

Definition kinit : K unit :=
  initlock LKmem "kmem";;
  freerange kend PHYSTOP.

(** ** The free list as a list of pages *)

Definition page_ok (p : Z) : Prop := p mod PGSIZE = 0 /\ kend <= p < PHYSTOP.

Fixpoint linked (m : mem) (r : Z) (L : list Z) : Prop :=
  match L with
  | [] => r = 0
  | p :: L' => r = p /\ linked m (load64 m p) L'
  end.

(** [L] are the free pages, in the order in which kalloc() hands them out. *)
Record freelist (d : data) (L : list Z) : Prop := {
  fl_linked : linked (d_mem d) (d_freelist d) L;
  fl_pages : Forall page_ok L;
  fl_nodup : NoDup L
}.

(** ** Lemmas *)

Context {IOk : ImageOk I}.

Ltac Zify.zify_post_hook ::= Z.to_euclidean_division_equations.

Lemma page_ok_pos p : page_ok p -> 0 < p < 2 ^ 64.
Proof.
  intros [_ H]. pose proof kend_range. unfold PHYSTOP, KERNBASE in *. lia.
Qed.

Lemma pages_disjoint p q :
  p mod PGSIZE = 0 -> q mod PGSIZE = 0 -> p <> q -> p + PGSIZE <= q \/ q + PGSIZE <= p.
Proof. unfold PGSIZE. lia. Qed.

(** The list survives writes outside its pages. *)
Lemma linked_frame m m' r L :
  (forall p i, p ∈ L -> 0 <= i < 8 -> load8 m' (p + i) = load8 m (p + i)) ->
  linked m r L -> linked m' r L.
Proof.
  revert r. induction L as [|p L IH]; intros r Hm; [done|].
  intros [-> Hl]. split; [done|].
  rewrite (load_n_ext 8 m' m) by (intros; apply Hm; [left | lia]).
  apply IH; [|done]. intros q i Hq Hi. apply Hm; [by right | done].
Qed.

Lemma freelist_frame d d' L :
  d_freelist d' = d_freelist d ->
  (forall p i, p ∈ L -> 0 <= i < PGSIZE -> load8 (d_mem d') (p + i) = load8 (d_mem d) (p + i)) ->
  freelist d L -> freelist d' L.
Proof.
  intros Hf Hm [H1 H2 H3]. split; [|done|done]. rewrite Hf.
  eapply linked_frame; [|exact H1]. intros p i Hp Hi. apply Hm; [done|].
  unfold PGSIZE. lia.
Qed.

Lemma linked_other m m' r L p :
  page_ok p -> Forall page_ok L -> p ∉ L ->
  (forall x, x < p \/ p + PGSIZE <= x -> load8 m' x = load8 m x) ->
  linked m r L -> linked m' r L.
Proof.
  intros [Hp _] HL Hn Hm. apply linked_frame. intros q i Hq Hi. apply Hm.
  rewrite Forall_forall in HL. destruct (HL q Hq) as [Hq' _].
  assert (p <> q) by (intros ->; done).
  pose proof (pages_disjoint p q Hp Hq'). unfold PGSIZE in *. lia.
Qed.

(** The state kfree() leaves. *)
Definition freed (p : Z) (d : data) : data :=
  set_d_freelist p
    (set_d_mem (store64 (memset (d_mem d) p 1 PGSIZE) p (d_freelist d)) d).

Lemma kfree_run p y d :
  sync_ok y -> free LKmem y -> page_ok p ->
  kfree p (KState y d) = Ret tt (KState y (freed p d)).
Proof.
  intros Hy Hf [Hp Hr]. unfold kfree. rewrite Hp.
  destruct (Z.ltb_spec p kend); [lia|]. destruct (Z.leb_spec PHYSTOP p); [lia|]. cbn.
  ksteps. by rewrite release_acq.
Qed.

Lemma freed_other p d x :
  x < p \/ p + PGSIZE <= x -> load8 (d_mem (freed p d)) x = load8 (d_mem d) x.
Proof.
  intros H. cbn. unfold PGSIZE in *. rewrite load8_store_n_ne by lia.
  rewrite load8_memset. zcases; done || lia.
Qed.

Lemma linked_range m r L : Forall page_ok L -> linked m r L -> 0 <= r < 2 ^ 64.
Proof.
  intros HL. destruct L as [|p L]; [intros ->; lia|]. intros [-> _].
  apply Forall_cons in HL as [Hp _]. apply page_ok_pos in Hp. lia.
Qed.

Lemma freed_freelist p d L :
  page_ok p -> p ∉ L -> freelist d L -> freelist (freed p d) (p :: L).
Proof.
  intros Hp Hn [H1 H2 H3]. split; [|by constructor|by constructor].
  split; [done|]. cbn -[load_n store_n].
  rewrite load64_store64_eq by (by eapply linked_range).
  eapply (linked_other (d_mem d)); [done..| |done].
  intros x Hx. apply (freed_other p d x Hx).
Qed.

(** The state kalloc() leaves when it returns page [p]. *)
Definition alloced (p : Z) (d : data) : data :=
  set_d_mem (memset (d_mem d) p 5 PGSIZE) (set_d_freelist (load64 (d_mem d) p) d).

Lemma kalloc_run y d p L :
  sync_ok y -> free LKmem y -> freelist d (p :: L) ->
  kalloc (KState y d) = Ret p (KState y (alloced p d)).
Proof.
  intros Hy Hf [[H1 _] H2 _]. apply Forall_cons in H2 as [Hp _].
  pose proof (page_ok_pos p Hp). unfold kalloc. ksteps. rewrite H1.
  assert (nz p = true) as -> by (unfold nz; destruct (Z.eqb_spec p 0); [lia | done]).
  cbn [when]. ksteps. reflexivity.
Qed.

Lemma kalloc_empty_run y d :
  sync_ok y -> free LKmem y -> freelist d [] ->
  kalloc (KState y d) = Ret 0 (KState y d).
Proof.
  intros Hy Hf [H1 _ _]. cbn in H1. unfold kalloc. ksteps. rewrite H1.
  change (nz 0) with false. ksteps. done.
Qed.

Lemma alloced_other p d x :
  x < p \/ p + PGSIZE <= x -> load8 (d_mem (alloced p d)) x = load8 (d_mem d) x.
Proof. intros H. cbn. rewrite load8_memset. zcases; done || lia. Qed.

Lemma alloced_freelist p d L : freelist d (p :: L) -> freelist (alloced p d) L.
Proof.
  intros [[H1 H1'] H2 H3]. apply Forall_cons in H2 as [Hp HL].
  apply NoDup_cons in H3 as [Hn Hnd]. split; [|done|done].
  eapply (linked_other (d_mem d)); [done..| |exact H1'].
  intros x Hx. apply (alloced_other p d x Hx).
Qed.

(** ** kinit *)

(** The pages of [p .. p + n * PGSIZE), the one freed last first. *)
Fixpoint pages_from (p : Z) (n : nat) : list Z :=
  match n with
  | O => []
  | S n' => pages_from (p + PGSIZE) n' ++ [p]
  end.

Lemma elem_pages_from p n q :
  q ∈ pages_from p n <-> exists i, 0 <= i < Z.of_nat n /\ q = p + i * PGSIZE.
Proof.
  revert p. induction n as [|n IH]; intros p; cbn [pages_from].
  - rewrite elem_of_nil. split; [done|]. intros (i & Hi & _). lia.
  - rewrite elem_of_app, IH, list_elem_of_singleton. unfold PGSIZE. split.
    + intros [(i & Hi & ->)| ->]; [exists (i + 1) | exists 0]; lia.
    + intros (i & Hi & ->). destruct (Z.eq_dec i 0) as [->|]; [right; lia|].
      left. exists (i - 1). lia.
Qed.

Lemma freerange_loop_run n p pa_end y d L :
  sync_ok y -> free LKmem y -> p mod PGSIZE = 0 -> kend <= p -> pa_end <= PHYSTOP ->
  pa_end - PGSIZE < p + Z.of_nat n * PGSIZE <= pa_end -> freelist d L ->
  (forall q, q ∈ L -> q < p) ->
  exists d', freerange_loop (S n) p pa_end (KState y d) = Ret tt (KState y d')
    /\ freelist d' (pages_from p n ++ L).
Proof.
  intros Hy Hf. revert p d L. induction n as [|n IH]; intros p d L Hp Hk He Hn HL Hlt.
  - exists d. split; [|done]. cbn [freerange_loop].
    destruct (Z.leb_spec (p + PGSIZE) pa_end); [lia | done].
  - assert (page_ok p) as Hok by (split; [done | unfold PGSIZE in *; lia]).
    assert (p ∉ L) as Hnin by (intros Hin; specialize (Hlt p Hin); lia).
    destruct (IH (p + PGSIZE) (freed p d) (p :: L)) as (d' & Hr & Hfl).
    + unfold PGSIZE in *. lia.
    + unfold PGSIZE in *. lia.
    + done.
    + unfold PGSIZE in *. lia.
    + by apply freed_freelist.
    + intros q [->|Hq]%elem_of_cons; unfold PGSIZE in *; [lia|]. specialize (Hlt q Hq). lia.
    + exists d'. split.
      * change (freerange_loop (S (S n)) p pa_end) with
          (if p + PGSIZE <=? pa_end
           then kfree p;; freerange_loop (S n) (p + PGSIZE) pa_end else mret tt).
        destruct (Z.leb_spec (p + PGSIZE) pa_end); [|unfold PGSIZE in *; lia].
        by rewrite (bind_Ret _ _ _ _ _ (kfree_run p y d Hy Hf Hok)).
      * cbn [pages_from]. by rewrite <- app_assoc.
Qed.

Lemma kinit_run y d :
  sync_ok y -> freelist d [] ->
  exists d', kinit (KState y d)
      = Ret tt (KState (set_y_locks (<[LKmem := Spinlock 0 "kmem" None]> (y_locks y)) y) d')
    /\ freelist d' (pages_from (PGROUNDUP kend)
                     (Z.to_nat ((PHYSTOP - PGROUNDUP kend) / PGSIZE))).
Proof.
  intros Hy Hfl. pose proof kend_range as Hk.
  destruct (PGROUNDUP_spec kend) as [Ha Hb];
    [unfold KERNBASE in *; lia | unfold PHYSTOP, KERNBASE, PGSIZE in *; lia |].
  assert (PHYSTOP mod PGSIZE = 0) as Hal by done.
  destruct (freerange_loop_run (Z.to_nat ((PHYSTOP - PGROUNDUP kend) / PGSIZE))
    (PGROUNDUP kend) PHYSTOP
    (set_y_locks (<[LKmem := Spinlock 0 "kmem" None]> (y_locks y)) y) d []) as (d' & Hr & Hl).
  - by destruct Hy.
  - eexists. cbn. by rewrite lookup_insert_eq.
  - done.
  - lia.
  - lia.
  - unfold PGSIZE in *. lia.
  - done.
  - intros q Hq. by apply elem_of_nil in Hq.
  - rewrite app_nil_r in Hl. exists d'. split; [|done].
    unfold kinit, initlock, put_lock, freerange. kstep. done.
Qed.

(** ** Properties *)

(** kfree() refuses every address that is not a page of the allocator. *)
Theorem kfree_bad_panics p s : ~ page_ok p -> kfree p s = Panic "kfree" s.
Proof.
  intros Hn. unfold kfree.
  assert (negb (p mod PGSIZE =? 0) || (p <? kend) || (PHYSTOP <=? p) = true) as ->; [|done].
  zcases; try done. destruct Hn. split; lia.
Qed.

(** The calls the rest of the kernel can make, with the pages it holds: kalloc(),
    kfree() of a page it holds, and any write to the pages it holds. *)
Inductive kmem_step (y : sync) : data * list Z -> data * list Z -> Prop :=
  | ks_alloc d A p d' :
      kalloc (KState y d) = Ret p (KState y d') ->
      kmem_step y (d, A) (d', if nz p then p :: A else A)
  | ks_free d A1 p A2 d' :
      kfree p (KState y d) = Ret tt (KState y d') ->
      kmem_step y (d, A1 ++ p :: A2) (d', A1 ++ A2)
  | ks_write d A m' :
      (forall x, (forall p, p ∈ A -> x < p \/ p + PGSIZE <= x) ->
         load8 m' x = load8 (d_mem d) x) ->
      kmem_step y (d, A) (set_d_mem m' d, A).

Lemma kmem_step_inv y L0 d A d' A' L :
  sync_ok y -> free LKmem y -> Forall page_ok L0 -> NoDup L0 ->
  freelist d L -> L ++ A ≡ₚ L0 -> kmem_step y (d, A) (d', A') ->
  exists L', freelist d' L' /\ L' ++ A' ≡ₚ L0.
Proof.
  intros Hy Hf HF0 HN0 Hfl HP Hs. inversion Hs; subst; clear Hs.
  - destruct L as [|q L].
    + rewrite kalloc_empty_run in * by done. simplify_eq. by exists [].
    + erewrite kalloc_run in * by done. simplify_eq.
      assert (page_ok p) as Hp by (by destruct Hfl as [_ [? _]%Forall_cons _]).
      assert (nz p = true) as ->.
      { apply page_ok_pos in Hp. unfold nz. destruct (Z.eqb_spec p 0); [lia | done]. }
      exists L. split; [by apply alloced_freelist|]. rewrite <- HP. by rewrite <- Permutation_middle.
  - assert (page_ok p) as Hp.
    { rewrite Forall_forall in HF0. apply HF0. rewrite <- HP. set_solver. }
    rewrite kfree_run in * by done. simplify_eq.
    exists (p :: L). split.
    + apply freed_freelist; [done| |done]. rewrite <- HP in HN0.
      apply NoDup_app in HN0 as (_ & Hd & _). intros Hin. apply (Hd p Hin). set_solver.
    + rewrite <- HP. cbn. by rewrite <- Permutation_middle, Permutation_middle.
  - exists L. split; [|done]. apply (freelist_frame d); [done| |done].
    intros p i Hp Hi. cbn. match goal with H : forall x, _ |- _ => apply H end.
    intros q Hq. rewrite <- HP in HN0. apply NoDup_app in HN0 as (_ & Hd & _).
    assert (p <> q) by (intros ->; by apply (Hd q)).
    rewrite Forall_forall in HF0. setoid_rewrite <- HP in HF0.
    destruct (HF0 p) as [Hp' _]; [set_solver|]. destruct (HF0 q) as [Hq' _]; [set_solver|].
    pose proof (pages_disjoint p q Hp' Hq'). unfold PGSIZE in *. lia.
Qed.

(** C2: Whatever sequence of calls and writes the kernel makes, starting from an
    allocator that holds the pages [L0]: the free pages [L] and the pages in use
    [A] partition [L0], so kalloc() never returns a page in use; kalloc() always
    returns, with the first free page filled with junk or 0 if none is left; and
    kfree() of every page in use returns. *)
Theorem kmem_no_double_allocation y L0 d0 d A :
  sync_ok y -> free LKmem y -> freelist d0 L0 -> rtc (kmem_step y) (d0, []) (d, A) ->
  exists L, L ++ A ≡ₚ L0 /\ NoDup (L ++ A)
    /\ (exists d', kalloc (KState y d) = Ret (default 0 (head L)) (KState y d')
          /\ match L with
             | [] => d' = d
             | p :: L' => freelist d' L'
                 /\ (forall i, 0 <= i < PGSIZE -> load8 (d_mem d') (p + i) = 5)
                 /\ (forall x, x < p \/ p + PGSIZE <= x -> load8 (d_mem d') x = load8 (d_mem d) x)
             end)
    /\ (forall p, p ∈ A -> exists d', kfree p (KState y d) = Ret tt (KState y d')
          /\ freelist d' (p :: L)).
Proof.
  intros Hy Hf Hfl Hr. pose proof Hfl as [_ HF0 HN0].
  assert (exists L, freelist d L /\ L ++ A ≡ₚ L0) as (L & HL & HP).
  { remember (d0, []) as s0 eqn:E0. remember (d, A) as s1 eqn:E1.
    assert (exists L, freelist (fst s0) L /\ L ++ snd s0 ≡ₚ L0) as H0.
    { subst. exists L0. by rewrite app_nil_r. }
    clear E0. revert H0. induction Hr as [|[d1 A1] [d2 A2] s3 Hs _ IH]; [by subst|].
    intros (L & HL & HP). apply IH; [done|]. by eapply kmem_step_inv. }
  exists L. split; [done|]. split; [by rewrite HP|]. split.
  - destruct L as [|p L].
    + exists d. split; [by apply kalloc_empty_run | done].
    + exists (alloced p d). split; [by eapply kalloc_run|].
      split; [by apply alloced_freelist|]. split; [|by apply alloced_other].
      intros i Hi. cbn. rewrite load8_memset. zcases; done || lia.
  - intros p Hp. rewrite Forall_forall in HF0.
    assert (page_ok p) as Hok by (apply HF0; rewrite <- HP; set_solver).
    exists (freed p d). split; [by apply kfree_run|]. apply freed_freelist; [done| |done].
    rewrite <- HP in HN0. apply NoDup_app in HN0 as (_ & Hd & _). intros Hin. by apply (Hd p).
Qed.

(** kinit() terminates with every whole page between [end] and PHYSTOP on the
    free list, once each, and with [kmem.lock] initialised and free. *)
Theorem kinit_frees_all_pages y d :
  sync_ok y -> d_freelist d = 0 ->
  exists y' d' L, kinit (KState y d) = Ret tt (KState y' d')
    /\ sync_ok y' /\ free LKmem y' /\ freelist d' L
    /\ (forall p, p ∈ L <-> p mod PGSIZE = 0 /\ kend <= p /\ p + PGSIZE <= PHYSTOP).
Proof.
  intros Hy H0. destruct (kinit_run y d Hy) as (d' & Hr & Hl).
  { split; [done | constructor | constructor]. }
  eexists _, d', _. split; [exact Hr|]. split; [by destruct Hy|]. split.
  { eexists. cbn. by rewrite lookup_insert_eq. }
  split; [done|]. intros p. rewrite elem_pages_from. pose proof kend_range as Hk.
  destruct (PGROUNDUP_spec kend) as [Ha Hb];
    [unfold KERNBASE in *; lia | unfold PHYSTOP, KERNBASE, PGSIZE in *; lia |].
  assert (PHYSTOP mod PGSIZE = 0) as Hal by done. unfold PGSIZE in *. split.
  - intros (i & Hi & ->). lia.
  - intros (Hp & Hp1 & Hp2). exists ((p - PGROUNDUP kend) / 4096). lia.
Qed.
End Kalloc.

(** ** Witnesses

    A kernel image that leaves eight pages to the allocator, on an otherwise
    zeroed machine. *)
Definition demo_image : Image := {|
  kend := PHYSTOP - 8 * PGSIZE; etext := KERNBASE + 0x8000; trampoline := KERNBASE + 0x7000;
  uservec := KERNBASE + 0x7000; userret := KERNBASE + 0x7090; kernelvec := KERNBASE + 0x5000;
  usertrap_addr := KERNBASE + 0x2a00; forkret_addr := KERNBASE + 0x1900 |}.

Lemma demo_image_ok : ImageOk demo_image.
Proof. by repeat split. Qed.

Lemma zero_sync_ok : sync_ok zero_sync.
Proof. split; vm_compute; try done. lia. Qed.

Definition demo_sync : sync :=
  set_y_locks {[LKmem := Spinlock 0 "kmem" None]} zero_sync.

Lemma demo_sync_ok : sync_ok demo_sync.
Proof. split; vm_compute; try done. lia. Qed.

Lemma kfree_bad_panics_witness :
  let s := KState demo_sync zero_data in
  @kfree demo_image (PHYSTOP - 2 * PGSIZE + 8) s = Panic "kfree" s.
Proof.
  intros s. apply kfree_bad_panics. intros [H _]. by vm_compute in H.
Defined.

(** One page: allocate it, allocate again (none left), then free it. *)
Definition demo_freed : data := @freed (PHYSTOP - PGSIZE) zero_data.

Lemma demo_freed_list : @freelist demo_image demo_freed [PHYSTOP - PGSIZE].
Proof.
  apply (@freed_freelist demo_image demo_image_ok); [done | by intros ?%elem_of_nil |].
  split; [done | constructor | constructor].
Qed.

Lemma kmem_no_double_allocation_witness :
  exists d A L, rtc (@kmem_step demo_image demo_sync) (demo_freed, []) (d, A)
    /\ A = [PHYSTOP - PGSIZE] /\ L ++ A ≡ₚ [PHYSTOP - PGSIZE].
Proof.
  assert (free LKmem demo_sync) as Hf by (by eexists).
  assert (rtc (@kmem_step demo_image demo_sync) (demo_freed, [])
            (@alloced (PHYSTOP - PGSIZE) demo_freed, [PHYSTOP - PGSIZE])) as Hr.
  { eapply rtc_l; [|apply rtc_refl].
    apply (ks_alloc demo_sync demo_freed [] (PHYSTOP - PGSIZE)).
    apply (@kalloc_run demo_image demo_image_ok _ _ _ []);
      [apply demo_sync_ok | done | apply demo_freed_list]. }
  destruct (@kmem_no_double_allocation demo_image demo_image_ok demo_sync _ _ _ _
    demo_sync_ok Hf demo_freed_list Hr) as (L & HP & _).
  eexists _, _, L. split; [exact Hr|]. split; [done | exact HP].
Defined.

Lemma kinit_frees_all_pages_witness :
  exists y' d' L, @kinit demo_image (KState zero_sync zero_data) = Ret tt (KState y' d')
    /\ sync_ok y' /\ free LKmem y' /\ @freelist demo_image d' L
    /\ (forall p, p ∈ L <-> p mod PGSIZE = 0 /\ PHYSTOP - 8 * PGSIZE <= p /\ p + PGSIZE <= PHYSTOP).
Proof.
  apply (@kinit_frees_all_pages demo_image demo_image_ok);
    [apply zero_sync_ok | reflexivity].
Defined.
