(* ===== verification/Vm.v ===== *)
(** * kernel/vm.c: definitions

    The Sv39 page tables, in physical memory as the C code keeps them: a
    [pagetable_t] is the address of a page of 512 64-bit entries.  A pointer to
    an entry is its address; [0] is the null pointer.  Kernel buffers that
    copyout() reads and copyin() fills are given by their bytes.  The theorems
    are in PageTable.v. *)

From S2P Require Import Prelude Mem KString Riscv State Spinlock Kalloc.

Section Vm.
Context {I : Image}.

Definition ldpte (pte : Z) : K Z := getd (fun d => load64 (d_mem d) pte).
Definition stpte (pte v : Z) : K unit :=
  modd (fun d => set_d_mem (store64 (d_mem d) pte v) d).
Definition kmemset (a c n : Z) : K unit :=
  modd (fun d => set_d_mem (memset (d_mem d) a c n) d).
Definition kmemmove (dst src n : Z) : K unit :=
  modd (fun d => set_d_mem (memmove (d_mem d) dst src n) d).
Definition kwrite (a : Z) (bs : list Z) : K unit :=
  modd (fun d => set_d_mem (write_bytes (d_mem d) a bs) d).

(** [for(int level = 2; level > 0; level--) ...] *)
Fixpoint walk_loop (levels : list Z) (pagetable va alloc : Z) : K Z :=
  match levels with
  | [] => mret (pagetable + 8 * PX 0 va)
  | level :: levels' =>
      let pte := pagetable + 8 * PX level va in
      e ← ldpte pte;
      if nz (Z.land e PTE_V) then walk_loop levels' (PTE2PA e) va alloc
      else if negb (nz alloc) then mret 0
      else
        pg ← kalloc;
        if pg =? 0 then mret 0
        else
          kmemset pg 0 PGSIZE;;
          stpte pte (Z.lor (PA2PTE pg) PTE_V);;
          walk_loop levels' pg va alloc
  end.

Definition walk (pagetable va alloc : Z) : K Z :=
  if MAXVA <=? va then panic "walk" else walk_loop [2; 1] pagetable va alloc.

Definition walkaddr (pagetable va : Z) : K Z :=
  if MAXVA <=? va then mret 0
  else
    pte ← walk pagetable va 0;
    if pte =? 0 then mret 0
    else
      e ← ldpte pte;
      if Z.land e PTE_V =? 0 then mret 0
      else if Z.land e PTE_U =? 0 then mret 0
      else mret (PTE2PA e).

(** [for(;;){ ... if(a == last) break; a += PGSIZE; pa += PGSIZE; }] *)
Fixpoint mappages_loop (fuel : nat) (pagetable a last pa perm : Z) : K Z :=
  match fuel with
  | O => fun s => OutOfFuel s
  | S fuel' =>
      pte ← walk pagetable a 1;
      if pte =? 0 then mret (-1)
      else
        e ← ldpte pte;
        if nz (Z.land e PTE_V) then panic "mappages: remap"
        else
          stpte pte (Z.lor (Z.lor (PA2PTE pa) perm) PTE_V);;
          if a =? last then mret 0
          else mappages_loop fuel' pagetable (u64 (a + PGSIZE)) last (u64 (pa + PGSIZE)) perm
  end.

(** The loop ends at [last] or, when [va + size] wraps around, in walk()'s
    panic at MAXVA. *)
Definition mappages (pagetable va size pa perm : Z) : K Z :=
  if size =? 0 then panic "mappages: size"
  else
    let a := PGROUNDDOWN va in
    let last := PGROUNDDOWN (u64 (va + size - 1)) in
    let n := if a <=? last then (last - a) / PGSIZE else (MAXVA - a) / PGSIZE in
    mappages_loop (S (S (Z.to_nat n))) pagetable a last pa perm.

Definition kvmmap (kpgtbl va pa sz perm : Z) : K unit :=
  r ← mappages kpgtbl va sz pa perm;
  when (nz r) (panic "kvmmap").

(** [for(a = va; a < va + npages*PGSIZE; a += PGSIZE) ...] *)
Fixpoint uvmunmap_loop (fuel : nat) (pagetable a last do_free : Z) : K unit :=
  match fuel with
  | O => fun s => OutOfFuel s
  | S fuel' =>
      if a <? last then
        pte ← walk pagetable a 0;
        if pte =? 0 then panic "uvmunmap: walk"
        else
          e ← ldpte pte;
          if Z.land e PTE_V =? 0 then panic "uvmunmap: not mapped"
          else if PTE_FLAGS e =? PTE_V then panic "uvmunmap: not a leaf"
          else
            when (nz do_free) (kfree (PTE2PA e));;
            stpte pte 0;;
            uvmunmap_loop fuel' pagetable (u64 (a + PGSIZE)) last do_free
      else mret tt
  end.

(** A page is visited at most once below MAXVA, where walk() panics. *)
Definition uvmunmap (pagetable va npages do_free : Z) : K unit :=
  if negb (va mod PGSIZE =? 0) then panic "uvmunmap: not aligned"
  else
    let last := u64 (va + npages * PGSIZE) in
    uvmunmap_loop (S (S (Z.to_nat ((Z.min last MAXVA - va) / PGSIZE))))
      pagetable va last do_free.

Definition uvmcreate : K Z :=
  pagetable ← kalloc;
  if pagetable =? 0 then mret 0
  else kmemset pagetable 0 PGSIZE;; mret pagetable.

Definition uvmfirst (pagetable : Z) (src : list Z) (sz : Z) : K unit :=
  if PGSIZE <=? sz then panic "uvmfirst: more than a page"
  else
    mem ← kalloc;
    kmemset mem 0 PGSIZE;;
    mappages pagetable 0 PGSIZE mem (Z.lor (Z.lor (Z.lor PTE_W PTE_R) PTE_X) PTE_U);;
    kwrite mem (take (Z.to_nat sz) src).

Definition uvmdealloc (pagetable oldsz newsz : Z) : K Z :=
  if oldsz <=? newsz then mret oldsz
  else
    when (PGROUNDUP newsz <? PGROUNDUP oldsz)
      (let npages := s32 ((PGROUNDUP oldsz - PGROUNDUP newsz) / PGSIZE) in
       uvmunmap pagetable (PGROUNDUP newsz) (u64 npages) 1);;
    mret newsz.

(** [for(a = oldsz; a < newsz; a += PGSIZE) ...] *)
Fixpoint uvmalloc_loop (fuel : nat) (pagetable oldsz a newsz xperm : Z) : K Z :=
  match fuel with
  | O => fun s => OutOfFuel s
  | S fuel' =>
      if a <? newsz then
        mem ← kalloc;
        if mem =? 0 then uvmdealloc pagetable a oldsz;; mret 0
        else
          kmemset mem 0 PGSIZE;;
          r ← mappages pagetable a PGSIZE mem (Z.lor (Z.lor PTE_R PTE_U) xperm);
          if nz r then
            kfree mem;;
            uvmdealloc pagetable a oldsz;;
            mret 0
          else uvmalloc_loop fuel' pagetable oldsz (u64 (a + PGSIZE)) newsz xperm
      else mret newsz
  end.

(** At MAXVA mappages() panics in walk(). *)
Definition uvmalloc (pagetable oldsz newsz xperm : Z) : K Z :=
  if newsz <? oldsz then mret oldsz
  else
    let oldsz := PGROUNDUP oldsz in
    uvmalloc_loop (S (S (Z.to_nat ((Z.min newsz MAXVA - oldsz) / PGSIZE))))
      pagetable oldsz oldsz newsz xperm.

(** [for(int i = 0; i < 512; i++) ...] over the entries [ixs], with the
    recursive call as a parameter. *)
Fixpoint freewalk_loop (fw : Z -> K unit) (pagetable : Z) (ixs : list Z) : K unit :=
  match ixs with
  | [] => mret tt
  | i :: ixs' =>
      pte ← ldpte (pagetable + 8 * i);
      if nz (Z.land pte PTE_V) && (Z.land pte (Z.lor (Z.lor PTE_R PTE_W) PTE_X) =? 0) then
        let child := PTE2PA pte in
        fw child;;
        stpte (pagetable + 8 * i) 0;;
        freewalk_loop fw pagetable ixs'
      else if nz (Z.land pte PTE_V) then panic "freewalk: leaf"
      else freewalk_loop fw pagetable ixs'
  end.

(** Page tables have three levels, the recursion is at most three deep. *)
Fixpoint freewalk (depth : nat) (pagetable : Z) : K unit :=
  match depth with
  | O => fun s => OutOfFuel s
  | S depth' =>
      freewalk_loop (freewalk depth') pagetable (seqZ 0 512);;
      kfree pagetable
  end.

Definition uvmfree (pagetable sz : Z) : K unit :=
  when (0 <? sz) (uvmunmap pagetable 0 (PGROUNDUP sz / PGSIZE) 1);;
  freewalk 3 pagetable.

(** [for(i = 0; i < sz; i += PGSIZE) ...]; [inl i] is [goto err] at [i]. *)
Fixpoint uvmcopy_loop (fuel : nat) (old new sz i : Z) : K (Z + unit) :=
  match fuel with
  | O => fun s => OutOfFuel s
  | S fuel' =>
      if i <? sz then
        pte ← walk old i 0;
        if pte =? 0 then panic "uvmcopy: pte should exist"
        else
          e ← ldpte pte;
          if Z.land e PTE_V =? 0 then panic "uvmcopy: page not present"
          else
            let pa := PTE2PA e in
            let flags := u32 (PTE_FLAGS e) in
            mem ← kalloc;
            if mem =? 0 then mret (inl i)
            else
              kmemmove mem pa PGSIZE;;
              r ← mappages new i PGSIZE mem flags;
              if nz r then kfree mem;; mret (inl i)
              else uvmcopy_loop fuel' old new sz (u64 (i + PGSIZE))
      else mret (inr tt)
  end.

Definition uvmcopy (old new sz : Z) : K Z :=
  r ← uvmcopy_loop (S (S (Z.to_nat (Z.min sz MAXVA / PGSIZE)))) old new sz 0;
  match r with
  | inr _ => mret 0
  | inl i => uvmunmap new 0 (i / PGSIZE) 1;; mret (-1)
  end.

Definition uvmclear (pagetable va : Z) : K unit :=
  pte ← walk pagetable va 0;
  if pte =? 0 then panic "uvmclear"
  else
    e ← ldpte pte;
    stpte pte (Z.land e (Z.lnot PTE_U)).

(** [while(len > 0) ...]: every round copies at least one byte. *)
Fixpoint copyout_loop (fuel : nat) (pagetable dstva : Z) (src : list Z) : K Z :=
  match fuel with
  | O => fun s => OutOfFuel s
  | S fuel' =>
      if 0 <? Z.of_nat (length src) then
        let va0 := PGROUNDDOWN dstva in
        pa0 ← walkaddr pagetable va0;
        if pa0 =? 0 then mret (-1)
        else
          let n := Z.min (PGSIZE - (dstva - va0)) (Z.of_nat (length src)) in
          kwrite (pa0 + (dstva - va0)) (take (Z.to_nat n) src);;
          copyout_loop fuel' pagetable (u64 (va0 + PGSIZE)) (drop (Z.to_nat n) src)
      else mret 0
  end.

Definition copyout (pagetable dstva : Z) (src : list Z) : K Z :=
  copyout_loop (S (length src)) pagetable dstva src.

(** The result is the return value and the bytes stored at [dst]. *)
Fixpoint copyin_loop (fuel : nat) (pagetable : Z) (dst : list Z) (srcva len : Z)
    : K (Z * list Z) :=
  match fuel with
  | O => fun s => OutOfFuel s
  | S fuel' =>
      if 0 <? len then
        let va0 := PGROUNDDOWN srcva in
        pa0 ← walkaddr pagetable va0;
        if pa0 =? 0 then mret (-1, dst)
        else
          let n := Z.min (PGSIZE - (srcva - va0)) len in
          bs ← getd (fun d => read_bytes (d_mem d) (pa0 + (srcva - va0)) (Z.to_nat n));
          copyin_loop fuel' pagetable (dst ++ bs) (u64 (va0 + PGSIZE)) (len - n)
      else mret (0, dst)
  end.

Definition copyin (pagetable srcva len : Z) : K (Z * list Z) :=
  copyin_loop (S (Z.to_nat len)) pagetable [] srcva len.

(** The inner loop of copyinstr() over the [n] bytes at [p]: the bytes stored,
    and whether a NUL was found. *)
Fixpoint copystr_page (m : mem) (p : Z) (n : nat) : list Z * bool :=
  match n with
  | O => ([], false)
  | S n' =>
      if load8 m p =? 0 then ([0], true)
      else let (bs, got) := copystr_page m (p + 1) n' in (load8 m p :: bs, got)
  end.

Fixpoint copyinstr_loop (fuel : nat) (pagetable : Z) (dst : list Z) (srcva max : Z)
    : K (Z * list Z) :=
  match fuel with
  | O => fun s => OutOfFuel s
  | S fuel' =>
      if 0 <? max then
        let va0 := PGROUNDDOWN srcva in
        pa0 ← walkaddr pagetable va0;
        if pa0 =? 0 then mret (-1, dst)
        else
          let n := Z.min (PGSIZE - (srcva - va0)) max in
          '(bs, got_null) ← getd (fun d =>
             copystr_page (d_mem d) (pa0 + (srcva - va0)) (Z.to_nat n));
          if (got_null : bool) then mret (0, dst ++ bs)
          else copyinstr_loop fuel' pagetable (dst ++ bs) (u64 (va0 + PGSIZE)) (max - n)
      else mret (-1, dst)
  end.

Definition copyinstr (pagetable srcva max : Z) : K (Z * list Z) :=
  copyinstr_loop (S (Z.to_nat max)) pagetable [] srcva max.

(** proc_mapstacks() of proc.c: one guarded stack page per process. *)
Fixpoint proc_mapstacks_loop (ps : list nat) (kpgtbl : Z) : K unit :=
  match ps with
  | [] => mret tt
  | p :: ps' =>
      pa ← kalloc;
      if pa =? 0 then panic "kalloc"
      else
        kvmmap kpgtbl (KSTACK (Z.of_nat p)) pa PGSIZE (Z.lor PTE_R PTE_W);;
        proc_mapstacks_loop ps' kpgtbl
  end.

Definition proc_mapstacks (kpgtbl : Z) : K unit :=
  proc_mapstacks_loop (seq 0 NPROC) kpgtbl.

Definition kvmmake : K Z :=
  kpgtbl ← kalloc;
  kmemset kpgtbl 0 PGSIZE;;
  kvmmap kpgtbl UART0 UART0 PGSIZE (Z.lor PTE_R PTE_W);;
  kvmmap kpgtbl VIRTIO0 VIRTIO0 PGSIZE (Z.lor PTE_R PTE_W);;
  kvmmap kpgtbl PLIC PLIC 0x400000 (Z.lor PTE_R PTE_W);;
  kvmmap kpgtbl KERNBASE KERNBASE (etext - KERNBASE) (Z.lor PTE_R PTE_X);;
  kvmmap kpgtbl etext etext (PHYSTOP - etext) (Z.lor PTE_R PTE_W);;
  kvmmap kpgtbl TRAMPOLINE trampoline PGSIZE (Z.lor PTE_R PTE_X);;
  proc_mapstacks kpgtbl;;
  mret kpgtbl.

Definition kvminit : K unit :=
  p ← kvmmake;
  modd (set_d_kernel_pagetable p).

Definition w_satp (x : Z) : K unit := modd (fun d => set_d_csr (set_r_satp x (d_csr d)) d).

Definition kvminithart : K unit :=
  p ← getd d_kernel_pagetable;
  w_satp (MAKE_SATP p).
End Vm.
