(* ===== verification/PageTable.v ===== *)
(** * Page tables: the invariant behind vm.c

    The tree of page-table pages in memory is described by a finite map [T]
    from (root, level, prefix) to the page that holds that table, for all page
    tables of the system at once, and the user memory by a map [U] from (root,
    virtual page number) to the physical page.  [vmem] ties both to memory and
    to the free list; walk() and mappages() are specified against it. *)

From S2P Require Import Prelude Mem KString Riscv State Spinlock Kalloc Vm.

#[local] Ltac Zify.zify_post_hook ::= Z.to_euclidean_division_equations.

(** ** Page-table entries *)

#[local] Opaque memset memmove store_n load_n.

Definition mkpte (pa perm : Z) : Z := Z.lor (Z.lor (PA2PTE pa) perm) PTE_V.
Definition pte_valid (e : Z) : bool := nz (Z.land e PTE_V).

Lemma lor_low x y n : 0 <= n -> 0 <= y < 2 ^ n -> Z.lor (x * 2 ^ n) y = x * 2 ^ n + y.
Proof.
  intros Hn Hy. symmetry. apply Z.add_nocarry_lor. apply Z.bits_inj'. intros i Hi.
  rewrite Z.land_spec, Z.bits_0. destruct (Z.ltb_spec i n).
  - rewrite Z.mul_pow2_bits_low by lia. done.
  - rewrite <- (Z.mod_small y (2 ^ n)) by done.
    rewrite Z.mod_pow2_bits_high by lia. apply andb_false_r.
Qed.

Lemma lor_bound x y n : 0 <= n -> 0 <= x < 2 ^ n -> 0 <= y < 2 ^ n -> 0 <= Z.lor x y < 2 ^ n.
Proof.
  intros Hn Hx Hy. replace (Z.lor x y) with (Z.lor x y mod 2 ^ n).
  { apply Z.mod_pos_bound. lia. }
  rewrite <- !Z.land_ones, Z.land_lor_distr_l, !Z.land_ones by done.
  by rewrite !Z.mod_small.
Qed.

Lemma PA2PTE_eq pa : 0 <= pa < 2 ^ 56 -> PA2PTE pa = pa / 4096 * 2 ^ 10.
Proof.
  intros H. unfold PA2PTE. rewrite Z.shiftl_mul_pow2, Z.shiftr_div_pow2 by lia.
  apply wrapu_small. change (2 ^ 12) with 4096. lia.
Qed.

Lemma mkpte_eq pa perm :
  0 <= pa < 2 ^ 56 -> 0 <= perm < 1024 ->
  mkpte pa perm = pa / 4096 * 2 ^ 10 + Z.lor perm 1 /\ 0 <= Z.lor perm 1 < 1024.
Proof.
  intros Hp Hq. pose proof (lor_bound perm 1 10 ltac:(lia) ltac:(lia) ltac:(lia)) as Hb.
  split; [|lia]. unfold mkpte. rewrite <- Z.lor_assoc, PA2PTE_eq by done.
  change PTE_V with 1. by rewrite lor_low by lia.
Qed.

Lemma mkpte_range pa perm :
  0 <= pa < 2 ^ 56 -> 0 <= perm < 1024 -> 0 <= mkpte pa perm < 2 ^ 64.
Proof. intros Hp Hq. destruct (mkpte_eq pa perm Hp Hq) as [-> ?]. lia. Qed.

Lemma PTE2PA_mkpte pa perm :
  0 <= pa < 2 ^ 56 -> pa mod PGSIZE = 0 -> 0 <= perm < 1024 -> PTE2PA (mkpte pa perm) = pa.
Proof.
  intros Hp Ha Hq. destruct (mkpte_eq pa perm Hp Hq) as [-> ?]. unfold PTE2PA, PGSIZE in *.
  rewrite Z.shiftl_mul_pow2, Z.shiftr_div_pow2 by lia.
  rewrite Z.div_add_l, (Z.div_small (Z.lor perm 1)) by lia.
  rewrite wrapu_small; lia.
Qed.

Lemma PTE_FLAGS_mkpte pa perm :
  0 <= pa < 2 ^ 56 -> 0 <= perm < 1024 -> PTE_FLAGS (mkpte pa perm) = Z.lor perm PTE_V.
Proof.
  intros Hp Hq. destruct (mkpte_eq pa perm Hp Hq) as [-> ?]. unfold PTE_FLAGS.
  change 0x3FF with (Z.ones 10). rewrite Z.land_ones by lia.
  change PTE_V with 1. rewrite Z.add_comm, Z.mod_add by lia. by apply Z.mod_small.
Qed.

(** The flag bits of an entry are those of its low ten bits. *)
Lemma land_flags e f : 0 <= f < 1024 -> Z.land e f = Z.land (PTE_FLAGS e) f.
Proof.
  intros Hf. unfold PTE_FLAGS. rewrite <- Z.land_assoc. f_equal. symmetry. rewrite Z.land_comm.
  change 0x3FF with (Z.ones 10). rewrite Z.land_ones by lia. by apply Z.mod_small.
Qed.

Lemma mkpte_flag pa perm f :
  0 <= pa < 2 ^ 56 -> 0 <= perm < 1024 -> 0 <= f < 1024 ->
  Z.land (mkpte pa perm) f = Z.land (Z.lor perm PTE_V) f.
Proof. intros. by rewrite land_flags, PTE_FLAGS_mkpte. Qed.

Lemma mkpte_valid pa perm :
  0 <= pa < 2 ^ 56 -> 0 <= perm < 1024 -> pte_valid (mkpte pa perm) = true.
Proof.
  intros Hp Hq. unfold pte_valid. rewrite mkpte_flag by (done || (cbn; lia)).
  rewrite Z.land_comm, Z.land_lor_distr_r.
  change (Z.land PTE_V PTE_V) with 1. change PTE_V with 1.
  unfold nz. destruct (Z.eqb_spec (Z.lor (Z.land 1 perm) 1) 0) as [E|]; [|done].
  apply Z.lor_eq_0_iff in E as [_ E]. done.
Qed.

(** Entries of interior tables. *)
Lemma table_pte p : Z.lor (PA2PTE p) PTE_V = mkpte p 0.
Proof. unfold mkpte. by rewrite Z.lor_0_r. Qed.

(** ** The invariant *)

Abbreviation tabmap := (gmap (Z * Z * Z) Z).
Abbreviation usermap := (gmap (Z * Z) Z).

(** The index of virtual page [v] in the table at [level]. *)
Definition ix (level v : Z) : Z := (v / 512 ^ level) mod 512.
Definition pfx (level v : Z) : Z := v / 512 ^ (level + 1).

(** The leaf entry of virtual page [v], zero where there is no leaf table. *)
Definition pte_at (m : mem) (T : tabmap) (r v : Z) : Z :=
  match T !! (r, 0, v / 512) with
  | Some a => load64 m (a + 8 * (v mod 512))
  | None => 0
  end.

(** Ranges of virtual pages, extended by one page at the front. *)
Lemma range_step {A} (f : Z -> A) (r v n r' v' : Z) (z : A) :
  0 <= n ->
  (if decide (r' = r /\ v + 1 <= v' < v + 1 + n) then f v'
   else if decide ((r', v') = (r, v)) then f v else z)
  = (if decide (r' = r /\ v <= v' < v + (n + 1)) then f v' else z).
Proof.
  intros Hn. destruct (decide (r' = r /\ v + 1 <= v' < v + 1 + n)) as [[-> ?]|N1].
  { by rewrite decide_True by lia. }
  destruct (decide ((r', v') = (r, v))) as [E|N2].
  { simplify_eq. by rewrite decide_True by lia. }
  rewrite decide_False; [done|]. intros [-> ?].
  destruct (decide (v' = v)) as [->|]; [done | lia].
Qed.

Lemma lookup_delete_if {A} (U : gmap (Z * Z) A) k k' :
  delete k U !! k' = if decide (k' = k) then None else U !! k'.
Proof. case_decide; [subst; apply lookup_delete_eq | by apply lookup_delete_ne]. Qed.

Section PageTable.
Context {I : Image} {IOk : ImageOk I}.

Record pt_ok (m : mem) (T : tabmap) : Prop := {
  pt_key r l p a : T !! (r, l, p) = Some a -> 0 <= l <= 2 /\ 0 <= p /\ page_ok a;
  pt_top r p a : T !! (r, 2, p) = Some a -> p = 0 /\ a = r;
  pt_inj k1 k2 a : T !! k1 = Some a -> T !! k2 = Some a -> k1 = k2;
  pt_child r l p a i : T !! (r, l, p) = Some a -> 0 < l -> 0 <= i < 512 ->
    match T !! (r, l - 1, p * 512 + i) with
    | Some b => load64 m (a + 8 * i) = mkpte b 0
    | None => pte_valid (load64 m (a + 8 * i)) = false
    end;
  pt_parent r l p a : T !! (r, l, p) = Some a -> l < 2 -> is_Some (T !! (r, l + 1, p / 512))
}.

Definition is_table (T : tabmap) (a : Z) : Prop := exists k, T !! k = Some a.
Definition is_user (U : usermap) (a : Z) : Prop := exists k, U !! k = Some a.

(** A page-sized block. *)
Definition in_page (a x : Z) : Prop := a <= x < a + PGSIZE.
#[export] Instance in_page_dec a x : Decision (in_page a x).
Proof. unfold in_page. apply _. Defined.

(** Tables, user pages and free pages are pairwise different pages, and each
    user page is mapped by the entry of its virtual page. *)
Record vmem (d : data) (T : tabmap) (U : usermap) (L : list Z) : Prop := {
  vm_pt : pt_ok (d_mem d) T;
  vm_free : freelist d L;
  vm_tl a : is_table T a -> a ∉ L;
  vm_page r v a : U !! (r, v) = Some a ->
    page_ok a /\ 0 <= v < MAXVA / PGSIZE /\ is_Some (T !! (r, 2, 0)) /\
    pte_valid (pte_at (d_mem d) T r v) = true /\ PTE2PA (pte_at (d_mem d) T r v) = a /\
    PTE_FLAGS (pte_at (d_mem d) T r v) <> PTE_V;
  vm_uinj k1 k2 a : U !! k1 = Some a -> U !! k2 = Some a -> k1 = k2;
  vm_ul a : is_user U a -> a ∉ L;
  vm_ut a : is_user U a -> is_table T a -> False
}.

Lemma page_ok_phys p : page_ok p -> 0 <= p < 2 ^ 56 /\ p mod PGSIZE = 0.
Proof.
  intros [Ha Hr]. pose proof kend_range. unfold PHYSTOP, KERNBASE in *. lia.
Qed.

Lemma page_eq a b x : page_ok a -> page_ok b -> in_page a x -> in_page b x -> a = b.
Proof. intros [Ha _] [Hb _]. unfold in_page, PGSIZE in *. lia. Qed.

(** ** Indices *)

Lemma pow512_pos l : 0 <= l -> 0 < 512 ^ l.
Proof. intros. apply Z.pow_pos_nonneg; lia. Qed.

Lemma ix_range l v : 0 <= ix l v < 512.
Proof. apply Z.mod_pos_bound. lia. Qed.

Lemma pfx_step l v : 0 <= l -> pfx (l - 1) v = pfx l v * 512 + ix l v.
Proof.
  intros Hl. unfold pfx, ix. replace (l - 1 + 1) with l by lia.
  rewrite Z.pow_add_r, <- Z.div_div by (lia || apply Z.pow_nonzero; lia). lia.
Qed.

Lemma PX_ix l va : 0 <= l -> PX l va = ix l (va / PGSIZE).
Proof.
  intros Hl. rewrite PX_eq by done. unfold ix, PGSIZE. rewrite Z.div_div.
  - rewrite Z.pow_add_r, Z.pow_mul_r by lia. done.
  - lia.
  - pose proof (pow512_pos l Hl). lia.
Qed.

Lemma pfx_0 v : pfx 0 v = v / 512.
Proof. reflexivity. Qed.
Lemma ix_0 v : ix 0 v = v mod 512.
Proof. unfold ix. by rewrite Z.pow_0_r, Z.div_1_r. Qed.
Lemma pfx_2 v : 0 <= v < MAXVA / PGSIZE -> pfx 2 v = 0.
Proof.
  intros H. apply Z.div_small. change (MAXVA / PGSIZE) with (2 ^ 26) in H.
  change (512 ^ (2 + 1)) with (2 ^ 27). lia.
Qed.

(** ** Frame *)

Lemma slot_in_page a i k : 0 <= i < 512 -> 0 <= k < 8 -> in_page a (a + 8 * i + k).
Proof. unfold in_page, PGSIZE. lia. Qed.

Lemma load64_slot_frame m m' a i :
  (forall x, in_page a x -> load8 m' x = load8 m x) -> 0 <= i < 512 ->
  load64 m' (a + 8 * i) = load64 m (a + 8 * i).
Proof. intros Hm Hi. apply load_n_ext. intros k Hk. by apply Hm, slot_in_page. Qed.

Definition keeps_tables (T : tabmap) (m m' : mem) : Prop :=
  forall a x, is_table T a -> in_page a x -> load8 m' x = load8 m x.

Lemma pt_ok_frame m m' T : keeps_tables T m m' -> pt_ok m T -> pt_ok m' T.
Proof.
  intros Hm [H1 H2 H3 H4 H5]. split; [done..| |done].
  intros r l p a i Ha Hl Hi. rewrite (load64_slot_frame m); [by apply H4| |done].
  intros x Hx. eapply Hm; [by eexists | done].
Qed.

Lemma pte_at_frame m m' T r v : keeps_tables T m m' -> pte_at m' T r v = pte_at m T r v.
Proof.
  intros Hm. unfold pte_at. destruct (T !! _) as [a|] eqn:Ha; [|done].
  apply load64_slot_frame; [|lia]. intros x Hx. eapply Hm; [by eexists | done].
Qed.

(** Writes that miss the tables and the free pages keep the invariant. *)
Lemma vmem_frame d d' T U L :
  d_freelist d' = d_freelist d ->
  keeps_tables T (d_mem d) (d_mem d') ->
  (forall p x, p ∈ L -> in_page p x -> load8 (d_mem d') x = load8 (d_mem d) x) ->
  vmem d T U L -> vmem d' T U L.
Proof.
  intros Hf Ht Hl [H1 H2 H3 H4 H5 H6 H7]. split; try done.
  - by eapply pt_ok_frame.
  - eapply freelist_frame; [done| |done].
    intros p i Hp Hi. eapply Hl; [done|]. unfold in_page. lia.
  - intros r v a Ha. rewrite (pte_at_frame (d_mem d)) by done. by apply H4.
Qed.

Lemma table_ok d T U L a : vmem d T U L -> is_table T a -> page_ok a.
Proof. intros H [[[r l] p] Ha]. by destruct (pt_key _ _ (vm_pt _ _ _ _ H) _ _ _ _ Ha) as (_ & _ & ?). Qed.

Lemma user_ok d T U L a : vmem d T U L -> is_user U a -> page_ok a.
Proof. intros H [[r v] Ha]. by destruct (vm_page _ _ _ _ H _ _ _ Ha). Qed.

Lemma free_ok d T U L a : vmem d T U L -> a ∈ L -> page_ok a.
Proof. intros H Ha. pose proof (fl_pages _ _ (vm_free _ _ _ _ H)) as HL. rewrite Forall_forall in HL. by apply HL. Qed.

(** A write inside a page that is neither a table nor free. *)
Lemma vmem_write d m' T U L p :
  page_ok p -> ~ is_table T p -> p ∉ L ->
  (forall x, ~ in_page p x -> load8 m' x = load8 (d_mem d) x) ->
  vmem d T U L -> vmem (set_d_mem m' d) T U L.
Proof.
  intros Hp Ht Hl Hm H. apply (vmem_frame d); [done| | |done].
  - intros a x Ha Hx. apply Hm. intros Hx'. apply Ht.
    by rewrite (page_eq p a x) by eauto using table_ok.
  - intros q x Hq Hx. apply Hm. intros Hx'. apply Hl.
    by rewrite (page_eq p q x) by eauto using free_ok.
Qed.

(** ** A new table *)

Definition newtab (pte p : Z) (d : data) : data :=
  set_d_mem (store64 (memset (d_mem (alloced p d)) p 0 PGSIZE) pte (mkpte p 0)) (alloced p d).

Lemma newtab_load8 pte p d x :
  load8 (d_mem (newtab pte p d)) x =
  if (pte <=? x) && (x <? pte + 8) then u8 (Z.shiftr (mkpte p 0) (8 * (x - pte)))
  else if (p <=? x) && (x <? p + PGSIZE) then 0 else load8 (d_mem d) x.
Proof.
  unfold newtab. cbn [set_d_mem d_mem alloced]. rewrite load8_store_n. change (Z.of_nat 8) with 8.
  case_match; [done|]. rewrite !load8_memset.
  change (u8 0) with 0. zcases; done || lia.
Qed.

Lemma newtab_other pte p d x :
  ~ (pte <= x < pte + 8) -> ~ in_page p x ->
  load8 (d_mem (newtab pte p d)) x = load8 (d_mem d) x.
Proof. intros H1 H2. rewrite newtab_load8. unfold in_page in *. zcases; done || lia. Qed.

Lemma newtab_fresh a i p d j :
  page_ok p -> page_ok a -> a <> p -> 0 <= i < 512 -> 0 <= j < 512 ->
  load64 (d_mem (newtab (a + 8 * i) p d)) (p + 8 * j) = 0.
Proof.
  intros [Hp _] [Ha _] Hne Hi Hj.
  transitivity (0 mod 256 ^ Z.of_nat 8); [|done]. apply load_n_digits. intros k Hk.
  rewrite newtab_load8. unfold PGSIZE in *. change (Z.of_nat 8) with 8 in *.
  rewrite Z.shiftr_0_l. zcases; done || lia.
Qed.

Lemma newtab_slot a i p d : page_ok p -> load64 (d_mem (newtab (a + 8 * i) p d)) (a + 8 * i) = mkpte p 0.
Proof.
  intros Hp. apply load64_store64_eq. destruct (page_ok_phys p Hp). apply mkpte_range; lia.
Qed.

Lemma newtab_same a i p d b j :
  page_ok p -> page_ok a -> page_ok b -> b <> p -> 0 <= i < 512 -> 0 <= j < 512 ->
  (b, j) <> (a, i) ->
  load64 (d_mem (newtab (a + 8 * i) p d)) (b + 8 * j) = load64 (d_mem d) (b + 8 * j).
Proof.
  intros [Hp _] [Ha _] [Hb _] Hne Hi Hj Hs. apply load_n_ext. intros k Hk.
  change (Z.of_nat 8) with 8 in *. apply newtab_other; unfold in_page, PGSIZE in *; [|lia].
  destruct (decide (b = a)) as [->|]; [|lia]. assert (j <> i) by congruence. lia.
Qed.

(** A fresh table below slot [i] of table [a]: the tree grows by one node, no
    leaf entry changes. *)
Lemma grow_pt_ok d T r l q a i p :
  pt_ok (d_mem d) T -> page_ok p -> ~ is_table T p ->
  T !! (r, l, q) = Some a -> 0 < l -> 0 <= i < 512 ->
  T !! (r, l - 1, q * 512 + i) = None ->
  pt_ok (d_mem (newtab (a + 8 * i) p d)) (<[(r, l - 1, q * 512 + i) := p]> T).
Proof.
  intros H Hp Hnt Ha Hl Hi Hn.
  assert (page_ok a) as Hpa by (by destruct (pt_key _ _ H _ _ _ _ Ha) as (_ & _ & ?)).
  destruct (pt_key _ _ H _ _ _ _ Ha) as (Hlr & Hq & _).
  assert (forall k b, T !! k = Some b -> b <> p) as Hnp by (intros k b Hk ->; apply Hnt; by eexists).
  split.
  - intros r' l' p' a'. rewrite lookup_insert_Some. intros [[E <-]|[_ H']].
    + simplify_eq. split; [lia | split; [lia | done]].
    + by eapply pt_key.
  - intros r' p' a'. rewrite lookup_insert_Some. intros [[E <-]|[_ H']]; [|by eapply pt_top].
    simplify_eq. lia.
  - intros k1 k2 b. rewrite !lookup_insert_Some. intros [[<- <-]|[? H1]] [[<- E]|[? H2]]; try done.
    + by destruct (Hnp _ _ H2).
    + subst b. by destruct (Hnp _ _ H1).
    + by eapply pt_inj.
  - intros r' l' p' a' j. rewrite lookup_insert_Some. intros [[E <-]|[Hne H']] Hl' Hj.
    + simplify_eq. rewrite newtab_fresh by (done || by eapply Hnp).
      rewrite lookup_insert_ne by (intros E; simplify_eq; lia).
      destruct (T !! (r', l - 1 - 1, _)) as [b|] eqn:Hb; [|done].
      destruct (pt_parent _ _ H _ _ _ _ Hb ltac:(lia)) as [c Hc].
      replace (l - 1 - 1 + 1) with (l - 1) in Hc by lia.
      replace (((q * 512 + i) * 512 + j) / 512) with (q * 512 + i) in Hc by lia. congruence.
    + destruct (decide ((a', j) = (a, i))) as [E|Hs].
      * simplify_eq. pose proof (pt_inj _ _ H _ _ _ H' Ha). simplify_eq.
        by rewrite lookup_insert_eq, newtab_slot.
      * destruct (pt_key _ _ H _ _ _ _ H') as (_ & _ & ?).
        rewrite newtab_same by (done || by eapply Hnp).
        rewrite lookup_insert_ne; [by apply (pt_child _ _ H)|].
        intros E. apply Hs. injection E as -> El Eq. assert (l' = l) as -> by lia.
        assert (p' = q /\ j = i) as [-> ->] by lia. congruence.
  - intros r' l' p' a'. rewrite lookup_insert_Some. intros [[E <-]|[_ H']] Hl'.
    + simplify_eq. replace (l - 1 + 1) with l by lia.
      replace ((q * 512 + i) / 512) with q by lia.
      rewrite lookup_insert_ne by (intros E; simplify_eq; lia). by rewrite Ha.
    + apply lookup_insert_is_Some'. right. by eapply pt_parent.
Qed.

Lemma grow_pte_at d T r l q a i p r' v :
  pt_ok (d_mem d) T -> page_ok p -> ~ is_table T p ->
  T !! (r, l, q) = Some a -> 0 < l -> 0 <= i < 512 ->
  T !! (r, l - 1, q * 512 + i) = None ->
  pte_at (d_mem (newtab (a + 8 * i) p d)) (<[(r, l - 1, q * 512 + i) := p]> T) r' v
  = pte_at (d_mem d) T r' v.
Proof.
  intros H Hp Hnt Ha Hl Hi Hn. unfold pte_at.
  destruct (pt_key _ _ H _ _ _ _ Ha) as (_ & _ & Hpa).
  assert (forall k b, T !! k = Some b -> b <> p) as Hnp by (intros k b Hk ->; apply Hnt; by eexists).
  destruct (decide ((r, l - 1, q * 512 + i) = (r', 0, v / 512))) as [E|Hne].
  - rewrite <- E, lookup_insert_eq, Hn, newtab_fresh; try done; [by eapply Hnp | lia].
  - rewrite lookup_insert_ne by done. destruct (T !! (r', 0, v / 512)) as [b|] eqn:Hb; [|done].
    destruct (pt_key _ _ H _ _ _ _ Hb) as (_ & _ & Hpb).
    apply newtab_same; try done; [by eapply Hnp | lia |].
    intros E. simplify_eq. by pose proof (pt_inj _ _ H _ _ _ Ha Hb); simplify_eq.
Qed.

(** ** What walk() and mappages() may change

    [grows r]: page table [r] may have got new tables, taken from the front of
    the free list, and nothing but table pages has been written. *)

Definition memchange (d d' : data) : Prop :=
  exists m f, d' = set_d_mem m (set_d_freelist f d).

Record grows (r : Z) (d d' : data) (T T' : tabmap) (L L' : list Z) : Prop := {
  g_data : memchange d d';
  g_sub : T ⊆ T';
  g_new r' l p a : T' !! (r', l, p) = Some a -> T !! (r', l, p) = Some a \/ r' = r /\ l < 2;
  g_free : exists L0, L = L0 ++ L' /\ forall a, is_table T' a <-> is_table T a \/ a ∈ L0;
  g_mem x : (forall a, is_table T' a -> ~ in_page a x) -> load8 (d_mem d') x = load8 (d_mem d) x
}.

Lemma memchange_refl d : memchange d d.
Proof. exists (d_mem d), (d_freelist d). by destruct d. Qed.

Lemma memchange_trans d1 d2 d3 : memchange d1 d2 -> memchange d2 d3 -> memchange d1 d3.
Proof. intros (m & f & ->) (m' & f' & ->). by exists m', f'. Qed.

Lemma memchange_mem d d' m : memchange d d' -> memchange d (set_d_mem m d').
Proof. intros (m' & f & ->). by exists m, f. Qed.

Lemma memchange_freelist d f : memchange d (set_d_freelist f d).
Proof. exists (d_mem d), f. by destruct d. Qed.

Lemma grows_refl r d T L : grows r d d T T L L.
Proof.
  split; [apply memchange_refl | done | auto | | done].
  exists []. split; [done|]. intros a. rewrite elem_of_nil. tauto.
Qed.

Lemma grows_trans r d1 d2 d3 T1 T2 T3 L1 L2 L3 :
  grows r d1 d2 T1 T2 L1 L2 -> grows r d2 d3 T2 T3 L2 L3 -> grows r d1 d3 T1 T3 L1 L3.
Proof.
  intros [A1 B1 C1 (La & D1 & E1) F1] [A2 B2 C2 (Lb & D2 & E2) F2]. split.
  - by eapply memchange_trans.
  - by etrans.
  - intros r' l p a H. destruct (C2 _ _ _ _ H) as [H'|]; [|by right]. by apply C1.
  - exists (La ++ Lb). split; [by rewrite <- app_assoc, D1, D2|].
    intros a. rewrite E2, E1, elem_of_app. tauto.
  - intros x Hx. rewrite F2 by done. apply F1. intros a Ha. apply Hx. rewrite E2. by left.
Qed.

Lemma grows_table r d d' T T' L L' a : grows r d d' T T' L L' -> is_table T a -> is_table T' a.
Proof. intros [_ _ _ (L0 & _ & E) _] Ha. apply E. by left. Qed.

Lemma grow_vmem d T U L r l q a i p :
  vmem d T U (p :: L) -> T !! (r, l, q) = Some a -> 0 < l -> 0 <= i < 512 ->
  T !! (r, l - 1, q * 512 + i) = None ->
  vmem (newtab (a + 8 * i) p d) (<[(r, l - 1, q * 512 + i) := p]> T) U L.
Proof.
  intros H Ha Hl Hi Hn.
  assert (page_ok p) as Hp by (eapply free_ok; [done|left]).
  assert (~ is_table T p) as Hnt by (intros Ht; eapply (vm_tl _ _ _ _ H); [done|left]).
  pose proof (fl_nodup _ _ (vm_free _ _ _ _ H)) as [Hpl Hnd]%NoDup_cons.
  assert (page_ok a) as Hpa by (eapply table_ok; [done|by eexists]).
  assert (forall b, is_table (<[(r, l - 1, q * 512 + i) := p]> T) b -> b = p \/ is_table T b) as Ht.
  { intros b [k Hk]. rewrite lookup_insert_Some in Hk.
    destruct Hk as [[_ <-]|[_ Hk]]; [by left | right; by eexists]. }
  split.
  - apply grow_pt_ok; auto. apply H.
  - eapply (freelist_frame (alloced p d)); [done| |by eapply alloced_freelist, H].
    intros b k Hb Hk. assert (page_ok b) as H0 by (eapply free_ok; [done|by right]).
    rewrite newtab_other.
    + symmetry. apply alloced_other. assert (p <> b) by (by intros ->).
      pose proof (pages_disjoint p b (proj1 Hp) (proj1 H0) ltac:(done)). lia.
    + intros Hx. assert (a = b) as ->.
      { eapply (page_eq a b (b + k)); try done; unfold in_page, PGSIZE in *; lia. }
      eapply (vm_tl _ _ _ _ H); [by eexists | by right].
    + intros Hx. assert (p = b) as ->; [|done].
      eapply (page_eq p b (b + k)); try done; unfold in_page in *; lia.
  - intros b Hb Hb'. destruct (Ht b Hb) as [->|Hb'']; [done|].
    eapply (vm_tl _ _ _ _ H); [done | by right].
  - intros r' v b Hb. destruct (vm_page _ _ _ _ H _ _ _ Hb) as (? & ? & ? & ? & ? & ?).
    rewrite grow_pte_at by (auto; apply H). split_and!; try done; try lia.
    apply lookup_insert_is_Some'. by right.
  - apply H.
  - intros b Hb Hb'. eapply (vm_ul _ _ _ _ H); [done | by right].
  - intros b Hb Hb'. destruct (Ht b Hb') as [->|Hb'']; [|by eapply (vm_ut _ _ _ _ H)].
    eapply (vm_ul _ _ _ _ H); [done | left].
Qed.

Lemma grow_grows d T U L r l q a i p :
  vmem d T U (p :: L) -> T !! (r, l, q) = Some a -> 0 < l -> 0 <= i < 512 ->
  T !! (r, l - 1, q * 512 + i) = None ->
  grows r d (newtab (a + 8 * i) p d) T (<[(r, l - 1, q * 512 + i) := p]> T) (p :: L) L.
Proof.
  intros H Ha Hl Hi Hn.
  assert (forall b, is_table (<[(r, l - 1, q * 512 + i) := p]> T) b <-> is_table T b \/ b = p) as Ht.
  { intros b. split.
    - intros [k Hk]. rewrite lookup_insert_Some in Hk.
      destruct Hk as [[_ <-]|[_ Hk]]; [by right | left; by eexists].
    - intros [[k Hk]| ->]; [exists k; by rewrite lookup_insert_ne by congruence|].
      eexists. apply lookup_insert_eq. }
  destruct (pt_key _ _ (vm_pt _ _ _ _ H) _ _ _ _ Ha) as (Hlr & _ & _).
  split.
  - apply memchange_mem, memchange_mem, memchange_freelist.
  - by apply insert_subseteq.
  - intros r' l' q' b. rewrite lookup_insert_Some. intros [[E _]|[_ ?]]; [|by left].
    right. simplify_eq. lia.
  - exists [p]. split; [done|]. intros b. rewrite Ht, list_elem_of_singleton. done.
  - intros x Hx. apply newtab_other.
    + intros Hx'. eapply (Hx a); [apply Ht; left; by eexists|]. unfold in_page, PGSIZE. lia.
    + apply Hx, Ht. by right.
Qed.

(** ** walk *)

Lemma ldpte_run pte y d : ldpte pte (KState y d) = Ret (load64 (d_mem d) pte) (KState y d).
Proof. reflexivity. Qed.
Lemma stpte_run pte v y d :
  stpte pte v (KState y d) = Ret tt (KState y (set_d_mem (store64 (d_mem d) pte v) d)).
Proof. reflexivity. Qed.
Lemma kmemset_run a c n y d :
  kmemset a c n (KState y d) = Ret tt (KState y (set_d_mem (memset (d_mem d) a c n) d)).
Proof. reflexivity. Qed.

Lemma valid_table b : page_ok b -> nz (Z.land (mkpte b 0) PTE_V) = true /\ PTE2PA (mkpte b 0) = b.
Proof.
  intros Hb. destruct (page_ok_phys b Hb). split; [apply mkpte_valid | apply PTE2PA_mkpte]; lia.
Qed.

Lemma nz_page p : page_ok p -> (p =? 0) = false.
Proof. intros Hp. pose proof (page_ok_pos p Hp). apply Z.eqb_neq. lia. Qed.

Section Walk.
Context (y : sync) (Hy : sync_ok y) (Hk : free LKmem y).
Context (va v : Z) (Hv : v = va / PGSIZE).

Lemma vpage_range : 0 <= va < MAXVA -> 0 <= v < MAXVA / PGSIZE.
Proof.
  intros. subst v. change MAXVA with (2 ^ 38) in *. change (2 ^ 38 / PGSIZE) with (2 ^ 26).
  unfold PGSIZE. lia.
Qed.

Lemma walk_loop_hit d T r l ls a b alloc :
  pt_ok (d_mem d) T -> T !! (r, l, pfx l v) = Some a -> 0 < l ->
  T !! (r, l - 1, pfx (l - 1) v) = Some b ->
  walk_loop (l :: ls) a va alloc (KState y d) = walk_loop ls b va alloc (KState y d).
Proof.
  intros H Ha Hl Hb. cbn [walk_loop]. erewrite bind_Ret by apply ldpte_run. cbv beta.
  rewrite PX_ix, <- Hv by lia.
  pose proof (pt_child _ _ H _ _ _ _ _ Ha Hl (ix_range l v)) as Hc.
  rewrite <- pfx_step, Hb in Hc by lia. rewrite Hc.
  destruct (pt_key _ _ H _ _ _ _ Hb) as (_ & _ & Hpb).
  by destruct (valid_table b Hpb) as [-> ->].
Qed.

Lemma walk_loop_miss d T r l ls a alloc :
  pt_ok (d_mem d) T -> T !! (r, l, pfx l v) = Some a -> 0 < l ->
  T !! (r, l - 1, pfx (l - 1) v) = None ->
  walk_loop (l :: ls) a va alloc (KState y d) =
  (if negb (nz alloc) then mret 0
   else
     pg ← kalloc;
     if pg =? 0 then mret 0
     else kmemset pg 0 PGSIZE;; stpte (a + 8 * ix l v) (Z.lor (PA2PTE pg) PTE_V);;
          walk_loop ls pg va alloc)
  (KState y d).
Proof.
  intros H Ha Hl Hb. cbn [walk_loop]. erewrite bind_Ret by apply ldpte_run. cbv beta.
  rewrite PX_ix, <- Hv by lia.
  pose proof (pt_child _ _ H _ _ _ _ _ Ha Hl (ix_range l v)) as Hc.
  rewrite <- pfx_step, Hb in Hc by lia. unfold pte_valid in Hc. by rewrite Hc.
Qed.

Lemma walk_loop_grow d T U L r l ls a :
  vmem d T U L -> T !! (r, l, pfx l v) = Some a -> 0 < l ->
  T !! (r, l - 1, pfx (l - 1) v) = None ->
  match L with
  | [] => walk_loop (l :: ls) a va 1 (KState y d) = Ret 0 (KState y d)
  | p :: L' =>
      let d' := newtab (a + 8 * ix l v) p d in
      let T' := <[(r, l - 1, pfx (l - 1) v) := p]> T in
      walk_loop (l :: ls) a va 1 (KState y d) = walk_loop ls p va 1 (KState y d')
      /\ vmem d' T' U L' /\ grows r d d' T T' L L'
      /\ forall r' v', pte_at (d_mem d') T' r' v' = pte_at (d_mem d) T r' v'
  end.
Proof.
  intros H Ha Hl Hn. pose proof (walk_loop_miss d T r l ls a 1 (vm_pt _ _ _ _ H) Ha Hl Hn) as ->.
  cbn [nz negb]. change (nz 1) with true. cbn [negb]. destruct L as [|p L'].
  { erewrite bind_Ret by (apply kalloc_empty_run; [done..|by eapply vm_free]). done. }
  assert (page_ok p) as Hp by (eapply free_ok; [done|left]).
  assert (~ is_table T p) as Hnt by (intros Ht; eapply (vm_tl _ _ _ _ H); [done|left]).
  assert (page_ok a) as Hpa by (eapply table_ok; [done|by eexists]).
  pose proof Hn as Hn'. rewrite pfx_step in Hn' by lia. rewrite pfx_step by lia.
  cbv zeta. split; [|split; [|split]].
  - erewrite bind_Ret by (eapply kalloc_run; [done..|by eapply vm_free]).
    rewrite nz_page by done. rewrite (bind_Ret _ _ _ _ _ (kmemset_run _ _ _ _ _)).
    rewrite (bind_Ret _ _ _ _ _ (stpte_run _ _ _ _)). rewrite table_pte, set_mem_mem, mem_set_mem. done.
  - apply grow_vmem; auto using ix_range.
  - eapply grow_grows; eauto using ix_range.
  - intros r' v'. apply grow_pte_at; auto using ix_range. apply H.
Qed.

(** Where the leaf table exists walk() finds the entry and changes nothing. *)
Lemma walk_hit d T r alloc a :
  pt_ok (d_mem d) T -> T !! (r, 2, 0) = Some r -> T !! (r, 0, v / 512) = Some a -> 0 <= va < MAXVA ->
  walk r va alloc (KState y d) = Ret (a + 8 * (v mod 512)) (KState y d).
Proof.
  intros H Hr Ha Hva. unfold walk. destruct (Z.leb_spec MAXVA va); [lia|].
  rewrite <- (pfx_2 v) in Hr by by apply vpage_range.
  destruct (pt_parent _ _ H _ _ _ _ Ha ltac:(lia)) as [c Hc].
  replace (v / 512 / 512) with (pfx 1 v) in Hc by (unfold pfx; by rewrite Z.div_div).
  rewrite (walk_loop_hit d T r 2 [1] r c) by (done || lia).
  rewrite (walk_loop_hit d T r 1 [] c a) by (done || lia). cbn [walk_loop].
  by rewrite PX_ix, <- Hv, ix_0 by lia.
Qed.

(** walk() without [alloc] finds the entry exactly when the leaf table is there. *)
Lemma walk_find d T r :
  pt_ok (d_mem d) T -> T !! (r, 2, 0) = Some r -> 0 <= va < MAXVA ->
  walk r va 0 (KState y d) =
  Ret (match T !! (r, 0, v / 512) with Some a => a + 8 * (v mod 512) | None => 0 end) (KState y d).
Proof.
  intros H Hr Hva.
  pose proof (vpage_range Hva) as Hvr.
  unfold walk. destruct (Z.leb_spec MAXVA va); [lia|].
  rewrite <- (pfx_2 v) in Hr by done. rewrite <- pfx_0.
  destruct (T !! (r, 1, pfx 1 v)) as [a|] eqn:Ha.
  - rewrite (walk_loop_hit d T r 2 [1] r a) by (done || lia).
    destruct (T !! (r, 0, pfx 0 v)) as [b|] eqn:Hb.
    + rewrite (walk_loop_hit d T r 1 [] a b) by (done || lia). cbn [walk_loop].
      by rewrite PX_ix, <- Hv, ix_0 by lia.
    + by rewrite (walk_loop_miss d T r 1 [] a) by (done || lia).
  - rewrite (walk_loop_miss d T r 2 [1] r) by (done || lia).
    destruct (T !! (r, 0, pfx 0 v)) as [b|] eqn:Hb; [|done].
    destruct (pt_parent _ _ H _ _ _ _ Hb ltac:(lia)) as [c Hc].
    replace (pfx 0 v / 512) with (pfx 1 v) in Hc by (unfold pfx; by rewrite Z.div_div).
    change (0 + 1) with 1 in Hc. congruence.
Qed.

(** The outcome of walk() with [alloc]: the address of the leaf entry, or null
    and an exhausted free list; no leaf entry has changed. *)
Definition walked (r : Z) (d : data) (T : tabmap) (U : usermap) (L : list Z)
    (o : out kstate Z) : Prop :=
  exists res d' T' L', o = Ret res (KState y d') /\ vmem d' T' U L' /\ grows r d d' T T' L L'
    /\ (forall r' v', pte_at (d_mem d') T' r' v' = pte_at (d_mem d) T r' v')
    /\ (res = 0 /\ L' = [] \/
        exists a, T' !! (r, 0, v / 512) = Some a /\ res = a + 8 * (v mod 512)).

Lemma walked_after r d T U L d1 T1 L1 o :
  grows r d d1 T T1 L L1 ->
  (forall r' v', pte_at (d_mem d1) T1 r' v' = pte_at (d_mem d) T r' v') ->
  walked r d1 T1 U L1 o -> walked r d T U L o.
Proof.
  intros Hg Hp (res & d' & T' & L' & -> & H1 & H2 & H3 & H4). exists res, d', T', L'.
  split_and!; try done; [by eapply grows_trans|]. intros. by rewrite H3.
Qed.

Lemma walked_down d T U L r l ls a :
  vmem d T U L -> T !! (r, l, pfx l v) = Some a -> 0 < l ->
  (forall d T L b, vmem d T U L -> T !! (r, l - 1, pfx (l - 1) v) = Some b ->
     walked r d T U L (walk_loop ls b va 1 (KState y d))) ->
  walked r d T U L (walk_loop (l :: ls) a va 1 (KState y d)).
Proof.
  intros H Ha Hl Hnext. destruct (T !! (r, l - 1, pfx (l - 1) v)) as [b|] eqn:Hb.
  { erewrite walk_loop_hit by (done || apply H). by apply Hnext. }
  pose proof (walk_loop_grow d T U L r l ls a H Ha Hl Hb) as Hg. destruct L as [|p L'].
  - rewrite Hg. exists 0, d, T, []. split_and!; auto using grows_refl.
  - destruct Hg as (-> & Hv' & Hg & Hp). eapply walked_after; [done..|].
    apply Hnext; [done|]. apply lookup_insert_eq.
Qed.

Lemma walk_alloc d T U L r :
  vmem d T U L -> T !! (r, 2, 0) = Some r -> 0 <= va < MAXVA ->
  walked r d T U L (walk r va 1 (KState y d)).
Proof.
  intros H Hr Hva. unfold walk. destruct (Z.leb_spec MAXVA va); [lia|].
  rewrite <- (pfx_2 v) in Hr by by apply vpage_range.
  eapply walked_down; [done..|]. intros d1 T1 L1 a H1 Ha.
  eapply walked_down; [done..|]. intros d2 T2 L2 b H2 Hb. cbn [walk_loop].
  rewrite PX_ix, <- Hv, ix_0 by lia. exists (b + 8 * (v mod 512)), d2, T2, L2.
  split_and!; auto using grows_refl. right. by exists b.
Qed.

Lemma walkaddr_run d T r :
  pt_ok (d_mem d) T -> T !! (r, 2, 0) = Some r -> 0 <= va < MAXVA ->
  walkaddr r va (KState y d) =
  Ret (let e := pte_at (d_mem d) T r v in
       if pte_valid e && nz (Z.land e PTE_U) then PTE2PA e else 0) (KState y d).
Proof.
  intros H Hr Hva. unfold walkaddr. destruct (Z.leb_spec MAXVA va); [lia|].
  erewrite bind_Ret by by eapply walk_find. unfold pte_at.
  destruct (T !! (r, 0, v / 512)) as [a|] eqn:Ha; [|done].
  destruct (pt_key _ _ H _ _ _ _ Ha) as (_ & _ & Hp). pose proof (page_ok_pos a Hp).
  destruct (Z.eqb_spec (a + 8 * (v mod 512)) 0); [lia|].
  rewrite (bind_Ret _ _ _ _ _ (ldpte_run _ _ _)). cbv zeta. unfold pte_valid, nz.
  destruct (_ =? 0); [done|]. by destruct (_ =? 0).
Qed.
End Walk.

(** ** Setting a leaf entry *)

Definition setpte (a v e : Z) (d : data) : data :=
  set_d_mem (store64 (d_mem d) (a + 8 * (v mod 512)) e) d.

Lemma setpte_same a i b j m e :
  page_ok a -> page_ok b -> 0 <= i < 512 -> 0 <= j < 512 -> (b, j) <> (a, i) ->
  load64 (store64 m (a + 8 * i) e) (b + 8 * j) = load64 m (b + 8 * j).
Proof.
  intros [Ha _] [Hb _] Hi Hj Hne. apply load_n_store_n_ne. change (Z.of_nat 8) with 8.
  unfold PGSIZE in *. destruct (decide (b = a)) as [->|]; [|lia].
  assert (j <> i) by congruence. lia.
Qed.

Lemma pte_at_set d T r v a e r' v' :
  pt_ok (d_mem d) T -> T !! (r, 0, v / 512) = Some a -> 0 <= e < 2 ^ 64 ->
  pte_at (d_mem (setpte a v e d)) T r' v' =
  if decide ((r', v') = (r, v)) then e else pte_at (d_mem d) T r' v'.
Proof.
  intros H Ha He. destruct (pt_key _ _ H _ _ _ _ Ha) as (_ & _ & Hpa).
  unfold pte_at, setpte. rewrite mem_set_mem. case_decide as E.
  - simplify_eq. rewrite Ha. by apply load64_store64_eq.
  - destruct (T !! (r', 0, v' / 512)) as [b|] eqn:Hb; [|done].
    destruct (pt_key _ _ H _ _ _ _ Hb) as (_ & _ & Hpb).
    apply setpte_same; [done..|lia|lia|]. intros E'. apply E. injection E' as -> Ei.
    pose proof (pt_inj _ _ H _ _ _ Ha Hb). simplify_eq. f_equal. lia.
Qed.

Lemma setpte_pt_ok d T r v a e :
  pt_ok (d_mem d) T -> T !! (r, 0, v / 512) = Some a -> pt_ok (d_mem (setpte a v e d)) T.
Proof.
  intros H Ha. destruct (pt_key _ _ H _ _ _ _ Ha) as (_ & _ & Hpa).
  pose proof H as [H1 H2 H3 H4 H5]. split; [done..| |done]. intros r' l q b i Hb Hl Hi.
  destruct (pt_key _ _ H _ _ _ _ Hb) as (_ & _ & Hpb).
  unfold setpte. rewrite mem_set_mem, setpte_same; [by apply H4|done..|lia|done|].
  intros E. simplify_eq. pose proof (H3 _ _ _ Ha Hb). simplify_eq. lia.
Qed.

Lemma setpte_other a v e d x :
  ~ in_page a x -> load8 (d_mem (setpte a v e d)) x = load8 (d_mem d) x.
Proof.
  intros Hx. apply load8_store_n_ne. unfold in_page, PGSIZE in *. change (Z.of_nat 8) with 8. lia.
Qed.

Lemma setpte_free d T U L r v a e :
  vmem d T U L -> T !! (r, 0, v / 512) = Some a -> freelist (setpte a v e d) L.
Proof.
  intros H Ha. eapply (freelist_frame d); [done| |apply H]. intros p i Hp Hi.
  apply setpte_other. intros Hx. assert (is_table T a) as Ht by by eexists.
  assert (a = p) as ->; [|by eapply (vm_tl _ _ _ _ H)].
  eapply (page_eq a p (p + i)); eauto using table_ok, free_ok. unfold in_page. lia.
Qed.

Lemma setpte_vmem d T U L r v a e :
  vmem d T U L -> T !! (r, 0, v / 512) = Some a -> 0 <= e < 2 ^ 64 -> U !! (r, v) = None ->
  vmem (setpte a v e d) T U L.
Proof.
  intros H Ha He Hu. pose proof H as [H1 H2 H3 H4 H5 H6 H7]. split; try done.
  - eapply setpte_pt_ok; [apply H | done].
  - by eapply setpte_free.
  - intros r' v' b Hb. erewrite pte_at_set by (done || apply H).
    rewrite decide_False by congruence. by apply H4.
Qed.

Lemma setpte_grows d T r v a e L :
  T !! (r, 0, v / 512) = Some a -> grows r d (setpte a v e d) T T L L.
Proof.
  intros Ha. split.
  - apply memchange_mem, memchange_refl.
  - done.
  - auto.
  - exists []. split; [done|]. intros b. rewrite elem_of_nil. tauto.
  - intros x Hx. apply setpte_other, Hx. by eexists.
Qed.

Lemma unmapped_user d T U L r v :
  vmem d T U L -> pte_valid (pte_at (d_mem d) T r v) = false -> U !! (r, v) = None.
Proof.
  intros H Hv. destruct (U !! (r, v)) as [a|] eqn:Hu; [|done].
  destruct (vm_page _ _ _ _ H _ _ _ Hu) as (_ & _ & _ & ? & _). congruence.
Qed.

(** ** mappages *)

Section Mappages.
Context (y : sync) (Hy : sync_ok y) (Hk : free LKmem y).
Context (r perm : Z) (U : usermap) (Hperm : 0 <= perm < 1024).

(** The first [j] of the [n] pages from [v] have been mapped, all of them when
    the result is 0. *)
Definition mapped (v n pa : Z) (d : data) (T : tabmap) (L : list Z) (o : out kstate Z) : Prop :=
  exists res d' T' L' j, o = Ret res (KState y d') /\ vmem d' T' U L' /\ grows r d d' T T' L L'
    /\ (res = 0 /\ j = n \/ res = -1 /\ 0 <= j < n /\ L' = [])
    /\ forall r' v', pte_at (d_mem d') T' r' v' =
         if decide (r' = r /\ v <= v' < v + j) then mkpte (pa + (v' - v) * PGSIZE) perm
         else pte_at (d_mem d) T r' v'.

(** One round of the loop: out of memory, or page [v] mapped. *)
Lemma mappages_one fuel v last pa d T L :
  vmem d T U L -> T !! (r, 2, 0) = Some r -> 0 <= v < MAXVA / PGSIZE -> 0 <= pa < 2 ^ 56 ->
  pte_valid (pte_at (d_mem d) T r v) = false ->
  exists d' T' L', vmem d' T' U L' /\ grows r d d' T T' L L' /\
   ((mappages_loop (S fuel) r (v * PGSIZE) last pa perm (KState y d) = Ret (-1) (KState y d')
     /\ L' = [] /\ forall r' v', pte_at (d_mem d') T' r' v' = pte_at (d_mem d) T r' v') \/
    (mappages_loop (S fuel) r (v * PGSIZE) last pa perm (KState y d) =
     (if v * PGSIZE =? last then mret 0
      else mappages_loop fuel r (u64 (v * PGSIZE + PGSIZE)) last (u64 (pa + PGSIZE)) perm)
      (KState y d')
     /\ forall r' v', pte_at (d_mem d') T' r' v' =
         if decide ((r', v') = (r, v)) then mkpte pa perm else pte_at (d_mem d) T r' v')).
Proof.
  intros H Hr Hv Hpa Hn. cbn [mappages_loop].
  destruct (walk_alloc y Hy Hk (v * PGSIZE) v ltac:(unfold PGSIZE; lia) d T U L r H Hr)
    as (res & d1 & T1 & L1 & E & H1 & Hg & Hp & Hres).
  { change (MAXVA / PGSIZE) with (2 ^ 26) in Hv. change MAXVA with (2 ^ 38). unfold PGSIZE. lia. }
  rewrite (bind_Ret _ _ _ _ _ E). destruct Hres as [[-> ->]|(a & Ha & ->)].
  { exists d1, T1, []. split_and!; [done..|]. by left. }
  pose proof (page_ok_pos a ltac:(eapply table_ok; [exact H1|by eexists])).
  destruct (Z.eqb_spec (a + 8 * (v mod 512)) 0); [lia|].
  rewrite (bind_Ret _ _ _ _ _ (ldpte_run _ _ _)).
  rewrite <- Hp in Hn. pose proof Hn as Hn'. unfold pte_at in Hn'. rewrite Ha in Hn'.
  unfold pte_valid in Hn'. rewrite Hn'. rewrite (bind_Ret _ _ _ _ _ (stpte_run _ _ _ _)).
  pose proof (mkpte_range pa perm Hpa Hperm).
  exists (setpte a v (mkpte pa perm) d1), T1, L1. split_and!.
  - eapply setpte_vmem; try done. by eapply unmapped_user.
  - eapply grows_trans; [done|]. by apply setpte_grows.
  - right. split; [done|]. intros r' v'. erewrite pte_at_set by (done || apply H1).
    by rewrite Hp.
Qed.

Lemma mappages_loop_run n : forall fuel v pa d T L,
  vmem d T U L -> T !! (r, 2, 0) = Some r ->
  0 <= v -> v + Z.of_nat n < MAXVA / PGSIZE -> 0 <= pa -> pa + Z.of_nat n * PGSIZE < 2 ^ 56 ->
  (forall i, v <= i <= v + Z.of_nat n -> pte_valid (pte_at (d_mem d) T r i) = false) ->
  (n < fuel)%nat ->
  mapped v (Z.of_nat n + 1) pa d T L
    (mappages_loop fuel r (v * PGSIZE) ((v + Z.of_nat n) * PGSIZE) pa perm (KState y d)).
Proof.
  induction n as [|n IH]; intros fuel v pa d T L H Hr Hv Hvn Hpa Hpan Hun Hf;
    (destruct fuel as [|fuel]; [lia|]);
    edestruct (mappages_one fuel v) as (d1 & T1 & L1 & H1 & Hg & [(-> & -> & Hp)|(-> & Hp)]);
    try done; try (apply Hun; lia); try (unfold PGSIZE in *; lia).
  - exists (-1), d1, T1, [], 0. split_and!; try done; [right; split_and!; done || lia|].
    intros. by rewrite decide_False by lia.
  - rewrite Z.add_0_r, Z.eqb_refl. exists 0, d1, T1, L1, 1. split_and!; try done; [by left|].
    intros r' v'. rewrite Hp. destruct (decide ((r', v') = (r, v))) as [E|E].
    + simplify_eq. rewrite decide_True by lia. f_equal. lia.
    + rewrite decide_False; [done|]. intros [-> ?]. apply E. f_equal. lia.
  - exists (-1), d1, T1, [], 0. split_and!; try done; [right; split_and!; done || lia|].
    intros. by rewrite decide_False by lia.
  - destruct (Z.eqb_spec (v * PGSIZE) ((v + Z.of_nat (S n)) * PGSIZE)) as [E|_]; [unfold PGSIZE in *; lia|].
    change (MAXVA / PGSIZE) with (2 ^ 26) in Hvn.
    rewrite !wrapu_small by (unfold PGSIZE in *; lia).
    replace (v * PGSIZE + PGSIZE) with ((v + 1) * PGSIZE) by lia.
    replace (v + Z.of_nat (S n)) with ((v + 1) + Z.of_nat n) by lia.
    destruct (IH fuel (v + 1) (pa + PGSIZE) d1 T1 L1)
      as (res & d2 & T2 & L2 & j & -> & H2 & Hg2 & Hj & Hp2); try done; try lia.
    + eapply lookup_weaken; [done | apply Hg].
    + change (MAXVA / PGSIZE) with (2 ^ 26). lia.
    + unfold PGSIZE. lia.
    + intros i Hi. rewrite Hp, decide_False by (intros ?; simplify_eq; lia). apply Hun. lia.
    + exists res, d2, T2, L2, (j + 1). split_and!; try done; [by eapply grows_trans | |].
      { destruct Hj as [[??]|(? & ? & ?)]; [left|right]; split_and!; done || lia. }
      intros r' v'. rewrite Hp2, Hp. assert (0 <= j) by (destruct Hj; lia).
      rewrite <- (range_step (fun v' => mkpte (pa + (v' - v) * PGSIZE) perm)) by done.
      replace (pa + (v - v) * PGSIZE) with pa by lia.
      replace (pa + PGSIZE + (v' - (v + 1)) * PGSIZE) with (pa + (v' - v) * PGSIZE) by lia. done.
Qed.

Lemma mappages_run v n pa d T L :
  vmem d T U L -> T !! (r, 2, 0) = Some r ->
  0 <= v -> 0 < n -> v + n <= MAXVA / PGSIZE -> 0 <= pa -> pa + n * PGSIZE <= 2 ^ 56 ->
  (forall i, v <= i < v + n -> pte_valid (pte_at (d_mem d) T r i) = false) ->
  mapped v n pa d T L (mappages r (v * PGSIZE) (n * PGSIZE) pa perm (KState y d)).
Proof.
  intros H Hr Hv Hn Hvn Hpa Hpan Hun. unfold mappages.
  destruct (Z.eqb_spec (n * PGSIZE) 0) as [E|_]; [unfold PGSIZE in E; lia|].
  pose proof Hvn as Hvn'. change (MAXVA / PGSIZE) with (2 ^ 26) in Hvn.
  rewrite wrapu_small by (unfold PGSIZE in *; lia).
  replace (PGROUNDDOWN (v * PGSIZE)) with (v * PGSIZE)
    by (rewrite PGROUNDDOWN_eq; unfold PGSIZE; lia).
  replace (PGROUNDDOWN (v * PGSIZE + n * PGSIZE - 1)) with ((v + (n - 1)) * PGSIZE)
    by (rewrite PGROUNDDOWN_eq; unfold PGSIZE; lia).
  destruct (Z.leb_spec (v * PGSIZE) ((v + (n - 1)) * PGSIZE)) as [_|E]; [|unfold PGSIZE in E; lia].
  replace (((v + (n - 1)) * PGSIZE - v * PGSIZE) / PGSIZE) with (n - 1) by (unfold PGSIZE; lia).
  pose proof (mappages_loop_run (Z.to_nat (n - 1)) (S (S (Z.to_nat (n - 1)))) v pa d T L) as Hm.
  rewrite Z2Nat.id in Hm by lia. replace (n - 1 + 1) with n in Hm by lia.
  apply Hm; try done; try lia.
  - unfold PGSIZE in *. lia.
  - intros i Hi. apply Hun. lia.
Qed.
End Mappages.


(** Mapping over a page that is already mapped panics, leaving the page table
    as it was. *)
Theorem mappages_remap_panics y r v n pa perm d T U L :
  sync_ok y -> free LKmem y -> vmem d T U L -> T !! (r, 2, 0) = Some r ->
  0 <= v -> 0 < n -> v + n <= MAXVA / PGSIZE ->
  pte_valid (pte_at (d_mem d) T r v) = true ->
  mappages r (v * PGSIZE) (n * PGSIZE) pa perm (KState y d) = Panic "mappages: remap" (KState y d).
Proof.
  intros Hy Hk H Hr Hv Hn Hvn Hval. unfold pte_at in Hval.
  destruct (T !! (r, 0, v / 512)) as [a|] eqn:Ha; [|done].
  pose proof (page_ok_pos a ltac:(eapply table_ok; [done|by eexists])).
  change (MAXVA / PGSIZE) with (2 ^ 26) in Hvn. unfold mappages.
  destruct (Z.eqb_spec (n * PGSIZE) 0) as [E|_]; [unfold PGSIZE in E; lia|].
  replace (PGROUNDDOWN (v * PGSIZE)) with (v * PGSIZE)
    by (rewrite PGROUNDDOWN_eq; unfold PGSIZE; lia).
  cbv zeta. cbn [mappages_loop].
  erewrite bind_Ret; [|eapply (walk_hit y (v * PGSIZE) v); [unfold PGSIZE; lia|apply H|done..|]].
  2: { change MAXVA with (2 ^ 38). unfold PGSIZE. lia. }
  destruct (Z.eqb_spec (a + 8 * (v mod 512)) 0); [lia|].
  rewrite (bind_Ret _ _ _ _ _ (ldpte_run _ _ _)). unfold pte_valid in Hval. by rewrite Hval.
Qed.
End PageTable.
