(* ===== verification/Uvm.v ===== *)
(** * User memory: uvmalloc, uvmdealloc, uvmunmap, uvmcopy, copyin and copyout

    The operations of vm.c on user memory, against the invariant [vmem] of
    PageTable.v: which virtual pages are mapped to which pages, what they
    contain, and that no page is lost or shared. *)

From S2P Require Import Prelude Mem KString Riscv State Spinlock Kalloc Vm PageTable.

#[local] Ltac Zify.zify_post_hook ::= Z.to_euclidean_division_equations.
#[local] Opaque memset memmove store_n load_n write_bytes read_bytes.

Section Uvm.
Context {I : Image} {IOk : ImageOk I}.

(** The pages the invariant accounts for. *)
Definition managed (T : tabmap) (U : usermap) (L : list Z) (a : Z) : Prop :=
  a ∈ L \/ is_user U a \/ is_table T a.

(** What an operation on page table [r] leaves alone: no page is lost or
    gained, other page tables keep their tables, the user pages that stay
    mapped keep their contents, and so does everything unmanaged. *)
Record uvmrel (r : Z) (d d' : data) (T T' : tabmap) (U U' : usermap) (L L' : list Z) : Prop := {
  u_data : memchange d d';
  u_sub : T ⊆ T';
  u_new r' l p a : T' !! (r', l, p) = Some a -> T !! (r', l, p) = Some a \/ r' = r /\ l < 2;
  u_managed a : managed T' U' L' a <-> managed T U L a;
  u_mem x : (forall a, managed T U L a -> ~ in_page a x) ->
    load8 (d_mem d') x = load8 (d_mem d) x;
  u_keep k a x : U !! k = Some a -> U' !! k = Some a -> in_page a x ->
    load8 (d_mem d') x = load8 (d_mem d) x
}.

Lemma uvmrel_refl r d T U L : uvmrel r d d T T U U L L.
Proof. split; auto using memchange_refl. Qed.

(** User mappings that both sides share are also in the middle. *)
Lemma uvmrel_trans r d1 d2 d3 T1 T2 T3 U1 U2 U3 L1 L2 L3 :
  (forall k a, U1 !! k = Some a -> U3 !! k = Some a -> U2 !! k = Some a) ->
  uvmrel r d1 d2 T1 T2 U1 U2 L1 L2 -> uvmrel r d2 d3 T2 T3 U2 U3 L2 L3 ->
  uvmrel r d1 d3 T1 T3 U1 U3 L1 L3.
Proof.
  intros Hu [A1 B1 C1 D1 E1 F1] [A2 B2 C2 D2 E2 F2]. split.
  - by eapply memchange_trans.
  - by etrans.
  - intros r' l p a H. destruct (C2 _ _ _ _ H) as [H'|]; [|by right]. by apply C1.
  - intros a. by rewrite D2, D1.
  - intros x Hx. rewrite E2, E1; [done..|]. intros a Ha. apply Hx. by apply D1.
  - intros k a x H1 H3 Hx. rewrite (F2 k a), (F1 k a); eauto.
Qed.

(** ** The invariant under allocation and mapping of one page *)

Lemma vmem_udelete d T U L k : vmem d T U L -> vmem d T (delete k U) L.
Proof.
  intros [H1 H2 H3 H4 H5 H6 H7].
  assert (forall a, is_user (delete k U) a -> is_user U a) as Hu.
  { intros a [k' Hk]. apply lookup_delete_Some in Hk as [_ Hk]. by eexists. }
  split; try done.
  - intros r v a Ha. apply lookup_delete_Some in Ha as [_ Ha]. by apply H4.
  - intros k1 k2 a Ha Hb. apply lookup_delete_Some in Ha as [_ Ha].
    apply lookup_delete_Some in Hb as [_ Hb]. by eapply H5.
  - auto.
  - eauto.
Qed.

Lemma vmem_uinsert d T U L r v p :
  vmem d T U L -> page_ok p -> p ∉ L -> ~ is_table T p -> ~ is_user U p ->
  0 <= v < MAXVA / PGSIZE -> is_Some (T !! (r, 2, 0)) ->
  pte_valid (pte_at (d_mem d) T r v) = true -> PTE2PA (pte_at (d_mem d) T r v) = p ->
  PTE_FLAGS (pte_at (d_mem d) T r v) <> PTE_V ->
  vmem d T (<[(r, v) := p]> U) L.
Proof.
  intros [H1 H2 H3 H4 H5 H6 H7] Hp Hl Ht Hu Hv Hr E1 E2 E3.
  assert (forall a, is_user (<[(r, v) := p]> U) a -> a = p \/ is_user U a) as Hi.
  { intros a [k Hk]. apply lookup_insert_Some in Hk as [[_ <-]|[_ Hk]]; [by left|].
    right. by eexists. }
  split; try done.
  - intros r' v' a Ha. apply lookup_insert_Some in Ha as [[E <-]|[_ Ha]]; [|by apply H4].
    simplify_eq. by split_and!; try lia.
  - intros k1 k2 a Ha Hb. apply lookup_insert_Some in Ha as [[<- <-]|[Hk1 Ha]];
      apply lookup_insert_Some in Hb as [[<- E]|[Hk2 Hb]]; try done.
    + destruct Hu. by eexists.
    + subst a. destruct Hu. by eexists.
    + by eapply H5.
  - intros a Ha. destruct (Hi a Ha) as [->|]; auto.
  - intros a Ha Ht'. destruct (Hi a Ha) as [->|]; eauto.
Qed.

Lemma vmem_alloc d T U L p :
  vmem d T U (p :: L) ->
  vmem (alloced p d) T U L /\ page_ok p /\ (p ∉ L) /\ ~ is_table T p /\ ~ is_user U p.
Proof.
  intros H. assert (page_ok p) as Hp by (eapply free_ok; [done|left]).
  pose proof (fl_nodup _ _ (vm_free _ _ _ _ H)) as [Hpl _]%NoDup_cons.
  assert (~ is_table T p) as Ht by (intros Ht; eapply (vm_tl _ _ _ _ H); [done|left]).
  assert (~ is_user U p) as Hu by (intros Hu; eapply (vm_ul _ _ _ _ H); [done|left]).
  split; [|done]. pose proof H as [H1 H2 H3 H4 H5 H6 H7].
  assert (keeps_tables T (d_mem d) (d_mem (alloced p d))) as Hk.
  { intros a x Ha Hx. apply alloced_other. destruct (decide (in_page p x)) as [Hx'|];
      [|unfold in_page in *; lia]. destruct Ht. rewrite (page_eq p a x); eauto using table_ok. }
  split; try done.
  - by eapply pt_ok_frame.
  - by apply alloced_freelist.
  - intros a Ha Ha'. eapply (H3 a); [done|by right].
  - intros r v a Ha. rewrite (pte_at_frame (d_mem d)) by done. by apply H4.
  - intros a Ha Ha'. eapply (H6 a); [done|by right].
Qed.

Lemma vmem_free_page d T U L p :
  vmem d T U L -> page_ok p -> p ∉ L -> ~ is_table T p -> ~ is_user U p ->
  vmem (freed p d) T U (p :: L).
Proof.
  intros H Hp Hl Ht Hu. pose proof H as [H1 H2 H3 H4 H5 H6 H7].
  assert (keeps_tables T (d_mem d) (d_mem (freed p d))) as Hk.
  { intros a x Ha Hx. apply freed_other. destruct (decide (in_page p x)) as [Hx'|];
      [|unfold in_page in *; lia]. destruct Ht. rewrite (page_eq p a x); eauto using table_ok. }
  split; try done.
  - by eapply pt_ok_frame.
  - by apply freed_freelist.
  - intros a Ha Ha'. apply elem_of_cons in Ha' as [->|Ha']; [done|]. by eapply H3.
  - intros r v a Ha. rewrite (pte_at_frame (d_mem d)) by done. by apply H4.
  - intros a Ha Ha'. apply elem_of_cons in Ha' as [->|Ha']; [done|]. by eapply H6.
Qed.

Lemma managed_user T U L k a : U !! k = Some a -> managed T U L a.
Proof. intros. right. left. by eexists. Qed.

Lemma managed_ok d T U L a : vmem d T U L -> managed T U L a -> page_ok a.
Proof. intros H [?|[?|?]]; eauto using free_ok, user_ok, table_ok. Qed.

Lemma user_leaf d T U L r v p :
  vmem d T U L -> U !! (r, v) = Some p ->
  exists a, T !! (r, 0, v / 512) = Some a /\ T !! (r, 2, 0) = Some r.
Proof.
  intros H Hp. destruct (vm_page _ _ _ _ H _ _ _ Hp) as (_ & _ & [b Hb] & Hval & _).
  destruct (pt_top _ _ (vm_pt _ _ _ _ H) _ _ _ Hb) as [_ ->].
  unfold pte_at in Hval. destruct (T !! (r, 0, v / 512)) as [a|] eqn:Ha; [|done]. by exists a.
Qed.

(** ** uvmunmap *)

(** [U'] is [U] without the [n] pages from [v] of [r]. *)
Definition uminus (r v n : Z) (U U' : usermap) : Prop :=
  forall r' v', U' !! (r', v') = if decide (r' = r /\ v <= v' < v + n) then None else U !! (r', v').

(** The state after page [v] has been freed and unmapped. *)
Lemma unmap_vmem d T U L r v p a :
  vmem d T U L -> U !! (r, v) = Some p -> T !! (r, 0, v / 512) = Some a ->
  let d' := setpte a v 0 (freed p d) in
  vmem d' T (delete (r, v) U) (p :: L)
  /\ uvmrel r d d' T T U (delete (r, v) U) L (p :: L)
  /\ forall r' v', pte_at (d_mem d') T r' v' =
       if decide ((r', v') = (r, v)) then 0 else pte_at (d_mem d) T r' v'.
Proof.
  intros H Hp Ha d'. destruct (vm_page _ _ _ _ H _ _ _ Hp) as (Hpk & _).
  assert (is_user U p) as Hpu by by eexists.
  assert (~ is_table T p) as Hpt by (intros Ht; by eapply (vm_ut _ _ _ _ H)).
  assert (~ is_user (delete (r, v) U) p) as Hpu'.
  { intros [k Hk]. apply lookup_delete_Some in Hk as [Hne Hk].
    destruct Hne. by eapply (vm_uinj _ _ _ _ H). }
  assert (vmem (freed p d) T (delete (r, v) U) (p :: L)) as H'.
  { apply vmem_free_page; auto using vmem_udelete. by eapply (vm_ul _ _ _ _ H). }
  assert (is_table T a) as Hat by by eexists.
  assert (forall x, ~ in_page a x -> ~ in_page p x -> load8 (d_mem d') x = load8 (d_mem d) x) as Hmem.
  { intros x H1 H2. unfold d'. rewrite setpte_other by done. apply freed_other. unfold in_page in *. lia. }
  split_and!.
  - eapply setpte_vmem; [done..|lia|]. apply lookup_delete_eq.
  - split; [|done|auto| | |].
    + apply memchange_mem. exists (store64 (memset (d_mem d) p 1 PGSIZE) p (d_freelist d)), p. by destruct d.
    + intros b. unfold managed. rewrite elem_of_cons. split.
      * intros [[->|?]|[[k Hk]|?]]; eauto.
        apply lookup_delete_Some in Hk as [_ Hk]. right. left. by eexists.
      * intros [?|[[k Hk]|?]]; eauto. destruct (decide (k = (r, v))) as [->|].
        { left. left. congruence. }
        right. left. exists k. by rewrite lookup_delete_ne.
    + intros x Hx. apply Hmem; apply Hx; unfold managed; auto.
    + intros k b x Hk Hk' Hx. apply lookup_delete_Some in Hk' as [Hne _].
      assert (is_user U b) as Hub by by eexists. apply Hmem; intros Hx'.
      * eapply (vm_ut _ _ _ _ H b); [done|]. by rewrite <- (page_eq a b x) by eauto using table_ok, user_ok.
      * destruct Hne. eapply (vm_uinj _ _ _ _ H); [exact Hp|].
        by rewrite (page_eq p b x) by eauto using user_ok.
  - intros r' v'. unfold d'. erewrite pte_at_set; [|apply H'|done|lia].
    case_decide; [done|]. apply pte_at_frame. intros b x Hb Hx. apply freed_other.
    destruct (decide (in_page p x)); [|unfold in_page in *; lia].
    destruct Hpt. by rewrite (page_eq p b x) by eauto using table_ok.
Qed.

Section Ops.
Context (y : sync) (Hy : sync_ok y) (Hk : free LKmem y) (r : Z).

Definition unmapped (v n : Z) (d : data) (T : tabmap) (U : usermap) (L : list Z)
    (o : out kstate unit) : Prop :=
  exists d' U' L', o = Ret tt (KState y d') /\ vmem d' T U' L'
    /\ uvmrel r d d' T T U U' L L' /\ uminus r v n U U'
    /\ forall r' v', pte_at (d_mem d') T r' v' =
         if decide (r' = r /\ v <= v' < v + n) then 0 else pte_at (d_mem d) T r' v'.

Lemma uvmunmap_step fuel v last d T U L p :
  vmem d T U L -> U !! (r, v) = Some p -> v * PGSIZE < last ->
  exists a, T !! (r, 0, v / 512) = Some a /\
    uvmunmap_loop (S fuel) r (v * PGSIZE) last 1 (KState y d) =
    uvmunmap_loop fuel r (u64 (v * PGSIZE + PGSIZE)) last 1
      (KState y (setpte a v 0 (freed p d))).
Proof.
  intros H Hp Hlast. destruct (user_leaf _ _ _ _ _ _ _ H Hp) as (a & Ha & Hr). exists a.
  split; [done|]. destruct (vm_page _ _ _ _ H _ _ _ Hp) as (Hpk & Hv & _ & Hval & Hpa & Hfl).
  unfold pte_at in Hval, Hpa, Hfl. rewrite Ha in Hval, Hpa, Hfl.
  pose proof (page_ok_pos a ltac:(eapply table_ok; [done|by eexists])).
  cbn [uvmunmap_loop]. destruct (Z.ltb_spec (v * PGSIZE) last); [|lia].
  erewrite bind_Ret; [|eapply (walk_find y (v * PGSIZE) v); [unfold PGSIZE; lia|apply H|done|]].
  2: { change (MAXVA / PGSIZE) with (2 ^ 26) in Hv. change MAXVA with (2 ^ 38). unfold PGSIZE. lia. }
  rewrite Ha. destruct (Z.eqb_spec (a + 8 * (v mod 512)) 0); [lia|].
  rewrite (bind_Ret _ _ _ _ _ (ldpte_run _ _ _)).
  unfold pte_valid, nz in Hval. apply negb_true_iff in Hval. rewrite Hval.
  destruct (Z.eqb_spec (PTE_FLAGS (load64 (d_mem d) (a + 8 * (v mod 512)))) PTE_V); [done|].
  change (nz 1) with true. unfold when.
  erewrite bind_Ret by (rewrite Hpa; by apply kfree_run).
  rewrite (bind_Ret _ _ _ _ _ (stpte_run _ _ _ _)). done.
Qed.

Lemma uvmunmap_loop_run n : forall fuel v d T U L,
  vmem d T U L -> 0 <= v -> v + Z.of_nat n <= MAXVA / PGSIZE ->
  (forall i, v <= i < v + Z.of_nat n -> is_Some (U !! (r, i))) -> (n < fuel)%nat ->
  unmapped v (Z.of_nat n) d T U L
    (uvmunmap_loop fuel r (v * PGSIZE) ((v + Z.of_nat n) * PGSIZE) 1 (KState y d)).
Proof.
  induction n as [|n IH]; intros fuel v d T U L H Hv Hvn Hu Hf; (destruct fuel as [|fuel]; [lia|]).
  - cbn [uvmunmap_loop]. destruct (Z.ltb_spec (v * PGSIZE) ((v + Z.of_nat 0) * PGSIZE)); [unfold PGSIZE in *; lia|].
    exists d, U, L. split_and!; try done; [apply uvmrel_refl|..];
      intros r' v'; by rewrite decide_False by lia.
  - destruct (Hu v ltac:(lia)) as [p Hp].
    destruct (uvmunmap_step fuel v ((v + Z.of_nat (S n)) * PGSIZE) d T U L p H Hp)
      as (a & Ha & ->); [unfold PGSIZE; lia|].
    destruct (unmap_vmem d T U L r v p a H Hp Ha) as (H1 & Hrel & Hpte).
    pose proof Hvn as Hvn'. change (MAXVA / PGSIZE) with (2 ^ 26) in Hvn'.
    rewrite wrapu_small by (unfold PGSIZE in *; lia).
    replace (v * PGSIZE + PGSIZE) with ((v + 1) * PGSIZE) by lia.
    replace (v + Z.of_nat (S n)) with (v + 1 + Z.of_nat n) by lia.
    edestruct (IH fuel (v + 1)) as (d' & U' & L' & -> & H2 & Hrel2 & Hm & Hpte2); [exact H1|lia..| |lia|].
    { intros i Hi. rewrite lookup_delete_ne by (intros ?; simplify_eq; lia). apply Hu. lia. }
    replace (Z.of_nat (S n)) with (Z.of_nat n + 1) by lia.
    exists d', U', L'. split_and!; try done.
    + eapply uvmrel_trans; [|exact Hrel|exact Hrel2]. intros [r' v'] b Hb Hb'.
      rewrite Hm in Hb'. by case_decide.
    + intros r' v'. rewrite Hm, lookup_delete_if. apply (range_step (fun _ => None)). lia.
    + intros r' v'. rewrite Hpte2, Hpte. apply (range_step (fun _ => 0)). lia.
Qed.

Lemma uvmunmap_run v n d T U L :
  vmem d T U L -> 0 <= v -> 0 <= n -> v + n <= MAXVA / PGSIZE ->
  (forall i, v <= i < v + n -> is_Some (U !! (r, i))) ->
  unmapped v n d T U L (uvmunmap r (v * PGSIZE) n 1 (KState y d)).
Proof.
  intros H Hv Hn Hvn Hu. unfold uvmunmap.
  pose proof Hvn as Hvn'. change (MAXVA / PGSIZE) with (2 ^ 26) in Hvn'.
  destruct (Z.eqb_spec (v * PGSIZE mod PGSIZE) 0) as [_|E]; [|unfold PGSIZE in E; lia]. cbn [negb].
  rewrite wrapu_small by (unfold PGSIZE; lia).
  replace (v * PGSIZE + n * PGSIZE) with ((v + n) * PGSIZE) by lia.
  rewrite Z.min_l by (change MAXVA with (2 ^ 38); unfold PGSIZE; lia).
  replace (((v + n) * PGSIZE - v * PGSIZE) / PGSIZE) with n by (unfold PGSIZE; lia).
  pose proof (uvmunmap_loop_run (Z.to_nat n) (S (S (Z.to_nat n))) v d T U L) as Hm.
  rewrite Z2Nat.id in Hm by lia. apply Hm; try done; lia.
Qed.
End Ops.

(** ** A freshly allocated page, filled with [m1], under mappages() *)

Section Fresh.
Context (r v p perm : Z) (d d2 : data) (m1 : mem) (T T2 : tabmap) (U : usermap) (L L2 : list Z).
Context (H : vmem d T U (p :: L)).
Context (Hm1 : forall x, ~ in_page p x -> load8 m1 x = load8 (d_mem d) x).
Let d1 := set_d_mem m1 (alloced p d).
Context (H2 : vmem d2 T2 U L2) (Hg : grows r d1 d2 T T2 L L2).

Lemma fresh_vmem : vmem d1 T U L.
Proof.
  destruct (vmem_alloc _ _ _ _ _ H) as (H1 & Hp & Hl & Ht & Hu).
  eapply (vmem_write (alloced p d)); [done..| |done].
  intros x Hx. rewrite Hm1 by done. symmetry. apply alloced_other. unfold in_page in *. lia.
Qed.

Lemma fresh_pte_at r' v' : pte_at (d_mem d1) T r' v' = pte_at (d_mem d) T r' v'.
Proof.
  destruct (vmem_alloc _ _ _ _ _ H) as (_ & Hp & _ & Ht & _).
  apply pte_at_frame. intros b x Hb Hx. apply Hm1. intros Hx'. destruct Ht.
  by rewrite (page_eq p b x) by eauto using table_ok.
Qed.

Lemma fresh_page : page_ok p /\ (p ∉ L2) /\ ~ is_table T2 p /\ ~ is_user U p.
Proof.
  destruct (vmem_alloc _ _ _ _ _ H) as (H1 & Hp & Hl & Ht & Hu).
  destruct Hg as [_ _ _ (L0 & -> & Htab) _]. rewrite not_elem_of_app in Hl.
  split_and!; try done; [tauto|]. rewrite Htab. tauto.
Qed.

Lemma fresh_content x : in_page p x -> load8 (d_mem d2) x = load8 m1 x.
Proof.
  intros Hx. destruct fresh_page as (Hp & _ & Ht & _). rewrite (g_mem _ _ _ _ _ _ _ Hg); [done|].
  intros a Ha Hx'. destruct Ht. by rewrite (page_eq p a x) by eauto using table_ok.
Qed.

Lemma fresh_other x :
  (forall a, is_table T2 a -> ~ in_page a x) -> ~ in_page p x ->
  load8 (d_mem d2) x = load8 (d_mem d) x.
Proof. intros Hx Hp. rewrite (g_mem _ _ _ _ _ _ _ Hg) by done. by apply Hm1. Qed.

Lemma fresh_data : memchange d d2.
Proof.
  eapply memchange_trans; [|apply Hg]. apply memchange_mem, memchange_mem, memchange_freelist.
Qed.

Lemma fresh_user_kept k a x :
  U !! k = Some a -> in_page a x -> load8 (d_mem d2) x = load8 (d_mem d) x.
Proof.
  intros Hk Hx. assert (is_user U a) as Hu by by eexists.
  destruct fresh_page as (Hp & _ & _ & Hpu). apply fresh_other.
  - intros b Hb Hx'. eapply (vm_ut _ _ _ _ H2 a); [done|].
    by rewrite <- (page_eq b a x) by eauto using table_ok, user_ok.
  - intros Hx'. destruct Hpu. by rewrite (page_eq p a x) by eauto using user_ok.
Qed.

Lemma fresh_tables a : is_table T2 a -> managed T U (p :: L) a.
Proof.
  destruct Hg as [_ _ _ (L0 & -> & Htab) _]. rewrite Htab. unfold managed.
  rewrite elem_of_cons, elem_of_app. tauto.
Qed.

Lemma fresh_unmanaged x :
  (forall a, managed T U (p :: L) a -> ~ in_page a x) -> load8 (d_mem d2) x = load8 (d_mem d) x.
Proof.
  intros Hx. apply fresh_other; [eauto using fresh_tables|]. apply Hx. left. left.
Qed.

(** mappages() failed and the page is freed again. *)
Lemma fresh_undo :
  vmem (freed p d2) T2 U (p :: L2) /\
  uvmrel r d (freed p d2) T T2 U U (p :: L) (p :: L2) /\
  forall r' v', pte_at (d_mem (freed p d2)) T2 r' v' = pte_at (d_mem d2) T2 r' v'.
Proof.
  destruct fresh_page as (Hp & Hpl & Hpt & Hpu). split_and!.
  - by apply vmem_free_page.
  - split.
    + eapply memchange_trans; [apply fresh_data|].
      exists (store64 (memset (d_mem d2) p 1 PGSIZE) p (d_freelist d2)), p. by destruct d2.
    + apply Hg.
    + apply Hg.
    + intros a. destruct Hg as [_ _ _ (L0 & -> & Htab) _]. unfold managed.
      rewrite Htab, !elem_of_cons, elem_of_app. tauto.
    + intros x Hx. rewrite freed_other; [by apply fresh_unmanaged|].
      assert (~ in_page p x) by (apply Hx; left; left). unfold in_page in *. lia.
    + intros k a x Hk _ Hx. rewrite freed_other; [by eapply fresh_user_kept|].
      assert (~ in_page p x); [|unfold in_page in *; lia]. intros Hx'. destruct Hpu.
      assert (is_user U a) by by eexists. by rewrite (page_eq p a x) by eauto using user_ok.
  - intros r' v'. apply pte_at_frame. intros b x Hb Hx. apply freed_other.
    assert (~ in_page p x); [|unfold in_page in *; lia]. intros Hx'. destruct Hpt.
    by rewrite (page_eq p b x) by eauto using table_ok.
Qed.

(** mappages() mapped it at [v]. *)
Lemma fresh_mapped :
  0 <= v < MAXVA / PGSIZE -> T !! (r, 2, 0) = Some r -> U !! (r, v) = None ->
  0 <= perm < 1024 -> Z.lor perm PTE_V <> PTE_V ->
  pte_at (d_mem d2) T2 r v = mkpte p perm ->
  vmem d2 T2 (<[(r, v) := p]> U) L2 /\
  uvmrel r d d2 T T2 U (<[(r, v) := p]> U) (p :: L) L2.
Proof.
  intros Hv Hr Hn Hperm Hfl Hpte. destruct fresh_page as (Hp & Hpl & Hpt & Hpu).
  destruct (page_ok_phys p Hp) as [Hp1 Hp2]. split.
  - apply vmem_uinsert; try done; rewrite ?Hpte.
    + exists r. eapply lookup_weaken; [done | apply Hg].
    + by apply mkpte_valid.
    + by apply PTE2PA_mkpte.
    + by rewrite PTE_FLAGS_mkpte.
  - split; [apply fresh_data | apply Hg | apply Hg | | apply fresh_unmanaged |].
    + assert (forall a, is_user (<[(r, v) := p]> U) a <-> is_user U a \/ a = p) as Hi.
      { intros a. split.
        - intros [k Hk]. apply lookup_insert_Some in Hk as [[_ <-]|[_ Hk]]; [by right|].
          left. by eexists.
        - intros [[k Hk]| ->]; [exists k; by rewrite lookup_insert_ne by congruence|].
          eexists. apply lookup_insert_eq. }
      intros a. destruct Hg as [_ _ _ (L0 & -> & Htab) _]. unfold managed.
      rewrite Htab, Hi, elem_of_cons, elem_of_app. tauto.
    + intros k a x Hk _ Hx. by eapply fresh_user_kept.
Qed.
End Fresh.

(** Map the fresh page [p], filled with [m1], at [v]; [freed] is what the
    caller does when that fails. *)
Lemma map_fresh y r v p perm d m1 T U L :
  sync_ok y -> free LKmem y -> vmem d T U (p :: L) ->
  (forall x, ~ in_page p x -> load8 m1 x = load8 (d_mem d) x) ->
  T !! (r, 2, 0) = Some r -> 0 <= v < MAXVA / PGSIZE -> 0 <= perm < 1024 ->
  Z.lor perm PTE_V <> PTE_V -> pte_valid (pte_at (d_mem d) T r v) = false ->
  exists d2 T2 L2,
   (mappages r (v * PGSIZE) PGSIZE p perm (KState y (set_d_mem m1 (alloced p d))) = Ret (-1) (KState y d2)
    /\ page_ok p /\ vmem (freed p d2) T2 U (p :: L2)
    /\ uvmrel r d (freed p d2) T T2 U U (p :: L) (p :: L2)
    /\ forall r' v', pte_at (d_mem (freed p d2)) T2 r' v' = pte_at (d_mem d) T r' v') \/
   (mappages r (v * PGSIZE) PGSIZE p perm (KState y (set_d_mem m1 (alloced p d))) = Ret 0 (KState y d2)
    /\ vmem d2 T2 (<[(r, v) := p]> U) L2 /\ uvmrel r d d2 T T2 U (<[(r, v) := p]> U) (p :: L) L2
    /\ (forall x, in_page p x -> load8 (d_mem d2) x = load8 m1 x)
    /\ forall r' v', pte_at (d_mem d2) T2 r' v' =
         if decide ((r', v') = (r, v)) then mkpte p perm else pte_at (d_mem d) T r' v').
Proof.
  intros Hy Hk H Hm1 Hr Hv Hp3 Hp4 Hn. pose proof (fresh_vmem p d m1 T U L H Hm1) as H1.
  pose proof (fresh_pte_at p d m1 T U L H Hm1) as Hpt1.
  destruct (vmem_alloc _ _ _ _ _ H) as (_ & Hp & _). destruct (page_ok_phys p Hp) as [Hp1 Hp2].
  assert (forall i, v <= i < v + 1 ->
    pte_valid (pte_at (d_mem (set_d_mem m1 (alloced p d))) T r i) = false) as Hn1.
  { intros i Hi. assert (i = v) as -> by lia. by rewrite Hpt1. }
  pose proof (mappages_run y Hy Hk r perm U Hp3 v 1 p _ T L H1 Hr ltac:(lia) ltac:(lia) ltac:(lia)
    ltac:(lia) ltac:(unfold PGSIZE in *; lia) Hn1) as (res & d2 & T2 & L2 & j & E & H2 & Hg & Hj & Hpte).
  rewrite Z.mul_1_l in E. exists d2, T2, L2. destruct Hj as [[-> ->]|(-> & Hj & ->)].
  - right. assert (pte_at (d_mem d2) T2 r v = mkpte p perm) as Hpv.
    { rewrite Hpte, decide_True by lia. f_equal. lia. }
    destruct (fresh_mapped r v p perm d d2 m1 T T2 U L L2 H Hm1 H2 Hg) as [H3 Hrel]; try done.
    { exact (unmapped_user _ _ _ _ _ _ H Hn). }
    split_and!; try done; [by eapply fresh_content|].
    intros r' v'. rewrite Hpte, Hpt1. case_decide as E1; case_decide as E2; try done.
    + simplify_eq. f_equal. lia.
    + destruct E2. destruct E1 as [-> ?]. f_equal. lia.
    + destruct E1. simplify_eq. lia.
  - left. destruct (fresh_undo r p d d2 m1 T T2 U L [] H Hm1 H2 Hg) as (H3 & Hrel & Hpt).
    split_and!; try done. intros r' v'. by rewrite Hpt, Hpte, decide_False by lia.
Qed.

(** ** uvmcreate *)

(** Every table hangs below the root of its page table. *)
Lemma table_root m T r l q a : pt_ok m T -> T !! (r, l, q) = Some a -> is_Some (T !! (r, 2, 0)).
Proof.
  intros H Ha. assert (forall q a, T !! (r, 2, q) = Some a -> is_Some (T !! (r, 2, 0))) as H2.
  { intros q' a' Ha'. destruct (pt_top _ _ H _ _ _ Ha') as [-> _]. by eexists. }
  assert (forall q a, T !! (r, 1, q) = Some a -> is_Some (T !! (r, 2, 0))) as H1.
  { intros q' a' Ha'. destruct (pt_parent _ _ H _ _ _ _ Ha' ltac:(lia)) as [b Hb]. by eapply H2. }
  destruct (pt_key _ _ H _ _ _ _ Ha) as (Hl & _).
  assert (l = 0 \/ l = 1 \/ l = 2) as [->|[->| ->]] by lia; eauto.
  destruct (pt_parent _ _ H _ _ _ _ Ha ltac:(lia)) as [b Hb]. by eapply H1.
Qed.

Definition newroot (p : Z) (d : data) : data :=
  set_d_mem (memset (d_mem (alloced p d)) p 0 PGSIZE) (alloced p d).

Lemma newroot_vmem d T U L p :
  vmem d T U (p :: L) ->
  vmem (newroot p d) (<[(p, 2, 0) := p]> T) U L /\
  (forall r v, pte_at (d_mem (newroot p d)) (<[(p, 2, 0) := p]> T) r v = pte_at (d_mem d) T r v) /\
  (forall x, ~ in_page p x -> load8 (d_mem (newroot p d)) x = load8 (d_mem d) x) /\
  (forall l q, T !! (p, l, q) = None).
Proof.
  intros H. destruct (vmem_alloc _ _ _ _ _ H) as (_ & Hp & Hl & Ht & Hu).
  assert (forall x, ~ in_page p x -> load8 (d_mem (newroot p d)) x = load8 (d_mem d) x) as Hm.
  { intros x Hx. unfold newroot. rewrite mem_set_mem, load8_memset.
    rewrite alloced_other by (unfold in_page in *; lia). unfold in_page in *. zcases; done || lia. }
  pose proof (fresh_vmem p d _ T U L H Hm) as H1.
  pose proof (fresh_pte_at p d _ T U L H Hm) as Hpt.
  change (set_d_mem (d_mem (newroot p d)) (alloced p d)) with (newroot p d) in *.
  pose proof H1 as [[K1 K2 K3 K4 K5] F1 F2 F3 F4 F5 F6].
  assert (forall l q, T !! (p, l, q) = None) as Hno.
  { intros l q. destruct (T !! (p, l, q)) as [a|] eqn:Ha; [|done]. destruct Ht.
    destruct (table_root _ _ _ _ _ _ (vm_pt _ _ _ _ H) Ha) as [b Hb]. exists (p, 2, 0).
    by destruct (pt_top _ _ (vm_pt _ _ _ _ H) _ _ _ Hb) as [_ ->]. }
  assert (forall b, is_table (<[(p, 2, 0) := p]> T) b -> b = p \/ is_table T b) as Hi.
  { intros b [k Hk]. apply lookup_insert_Some in Hk as [[_ <-]|[_ Hk]]; [by left|right; by eexists]. }
  assert (forall r v, pte_at (d_mem (newroot p d)) (<[(p, 2, 0) := p]> T) r v =
                      pte_at (d_mem (newroot p d)) T r v) as Hpt2.
  { intros r v. unfold pte_at. by rewrite lookup_insert_ne by (intros ?; simplify_eq; lia). }
  split_and!; [|intros; by rewrite Hpt2, Hpt|done|done].
  split; [split| |..]; try done.
  - intros r l q a Ha. apply lookup_insert_Some in Ha as [[E <-]|[_ Ha]]; [|by eapply K1].
    simplify_eq. split_and!; done || lia.
  - intros r q a Ha. apply lookup_insert_Some in Ha as [[E <-]|[_ Ha]]; [|by eapply K2]. by simplify_eq.
  - intros k1 k2 a Ha Hb. apply lookup_insert_Some in Ha as [[<- <-]|[? Ha]];
      apply lookup_insert_Some in Hb as [[<- E]|[? Hb]]; try done.
    + destruct Ht. by eexists.
    + subst a. destruct Ht. by eexists.
    + by eapply K3.
  - intros r l q a i Ha Hl' Hi'.
    assert (l <= 2) as Hl2.
    { apply lookup_insert_Some in Ha as [[E <-]|[_ Ha]]; [by simplify_eq|].
      destruct (K1 _ _ _ _ Ha). lia. }
    rewrite lookup_insert_ne by (intros ?; simplify_eq; lia).
    apply lookup_insert_Some in Ha as [[E <-]|[_ Ha]]; [|by apply K4]. simplify_eq.
    rewrite Hno. unfold newroot. rewrite mem_set_mem.
    rewrite load_n_memset_0 by (unfold PGSIZE; lia). done.
  - intros r l q a Ha Hl'. apply lookup_insert_Some in Ha as [[E <-]|[_ Ha]]; [simplify_eq; lia|].
    apply lookup_insert_is_Some'. right. by eapply K5.
  - intros a Ha. destruct (Hi a Ha) as [->|]; auto.
  - intros r v a Ha. rewrite Hpt2. destruct (F3 _ _ _ Ha) as (? & ? & ? & ? & ? & ?).
    split_and!; try done; try lia. apply lookup_insert_is_Some'. by right.
  - intros a Ha Ha'. destruct (Hi a Ha') as [->|]; eauto.
Qed.

Lemma uvmcreate_run y d T U L :
  sync_ok y -> free LKmem y -> vmem d T U L ->
  uvmcreate (KState y d) =
  match L with
  | [] => Ret 0 (KState y d)
  | p :: _ => Ret p (KState y (newroot p d))
  end.
Proof.
  intros Hy Hk H. unfold uvmcreate. destruct L as [|p L].
  { by erewrite bind_Ret by (apply kalloc_empty_run; [done..|apply H]). }
  erewrite bind_Ret by (eapply kalloc_run; [done..|apply H]).
  destruct (vmem_alloc _ _ _ _ _ H) as (_ & Hp & _). rewrite nz_page by done.
  by rewrite (bind_Ret _ _ _ _ _ (kmemset_run _ _ _ _ _)).
Qed.

(** ** Sizes *)

(** The number of pages of an address space of [sz] bytes. *)
Definition npg (sz : Z) : Z := (sz + PGSIZE - 1) / PGSIZE.

Lemma PGROUNDUP_npg sz : 0 <= sz <= MAXVA -> PGROUNDUP sz = npg sz * PGSIZE.
Proof.
  change MAXVA with (2 ^ 38). intros Hs. rewrite PGROUNDUP_eq by (unfold PGSIZE; lia).
  unfold npg, PGSIZE. lia.
Qed.

Lemma npg_range sz : 0 <= sz <= MAXVA -> 0 <= npg sz <= MAXVA / PGSIZE.
Proof.
  change MAXVA with (2 ^ 38). change (2 ^ 38 / PGSIZE) with (2 ^ 26). unfold npg, PGSIZE. lia.
Qed.

Lemma npg_mono a b : a <= b -> npg a <= npg b.
Proof. unfold npg, PGSIZE. lia. Qed.

(** User memory of [r] is exactly the pages below [sz]. *)
Definition uspace (U : usermap) (r sz : Z) : Prop :=
  forall v, is_Some (U !! (r, v)) <-> 0 <= v < npg sz.

Lemma npg_mul v : npg (v * PGSIZE) = v.
Proof. unfold npg, PGSIZE. lia. Qed.

(** ** Growing user memory page by page

    The state of a loop that maps fresh pages at [v0], [v0 + 1], ... below
    [v1]: page [v'] gets the bytes [content v'] and the permissions [pf v']. *)

Section Grow.
Context (y : sync) (r v0 v1 : Z) (content : Z -> Z -> Z) (pf : Z -> Z).

Record grown (v : Z) (d0 d : data) (T0 T : tabmap) (U0 U : usermap) (L0 L : list Z) : Prop := {
  gr_vmem : vmem d T U L;
  gr_rel : uvmrel r d0 d T0 T U0 U L0 L;
  gr_new v' : v0 <= v' < v -> exists p, U !! (r, v') = Some p
    /\ (forall i, 0 <= i < PGSIZE -> load8 (d_mem d) (p + i) = content v' i)
    /\ pte_at (d_mem d) T r v' = mkpte p (pf v');
  gr_old r' v' : ~ (r' = r /\ v0 <= v' < v) ->
    U !! (r', v') = U0 !! (r', v') /\ pte_at (d_mem d) T r' v' = pte_at (d_mem d0) T0 r' v'
}.

(** The pages are unmapped again: memory is as before, but for new tables. *)
Record undone (d0 d : data) (T0 T : tabmap) (U0 : usermap) (L0 L : list Z) : Prop := {
  un_vmem : vmem d T U0 L;
  un_rel : uvmrel r d0 d T0 T U0 U0 L0 L;
  un_new v' : v0 <= v' < v1 -> pte_valid (pte_at (d_mem d) T r v') = false;
  un_old r' v' : ~ (r' = r /\ v0 <= v' < v1) ->
    pte_at (d_mem d) T r' v' = pte_at (d_mem d0) T0 r' v'
}.

Context (d0 : data) (T0 : tabmap) (U0 : usermap) (L0 : list Z).
Context (H0 : vmem d0 T0 U0 L0).
Context (Hun : forall v', v0 <= v' < v1 -> pte_valid (pte_at (d_mem d0) T0 r v') = false).

Lemma unmapped0 v : v0 <= v < v1 -> U0 !! (r, v) = None.
Proof. intros Hv. exact (unmapped_user _ _ _ _ _ _ H0 (Hun v Hv)). Qed.

Lemma grown_refl : grown v0 d0 d0 T0 T0 U0 U0 L0 L0.
Proof. split; [done|apply uvmrel_refl|intros; lia|done]. Qed.

Lemma grown_step v d d' T T' U L L' p :
  v0 <= v < v1 -> grown v d0 d T0 T U0 U L0 L ->
  vmem d' T' (<[(r, v) := p]> U) L' -> uvmrel r d d' T T' U (<[(r, v) := p]> U) L L' ->
  (forall i, 0 <= i < PGSIZE -> load8 (d_mem d') (p + i) = content v i) ->
  (forall r' v', pte_at (d_mem d') T' r' v' =
     if decide ((r', v') = (r, v)) then mkpte p (pf v) else pte_at (d_mem d) T r' v') ->
  grown (v + 1) d0 d' T0 T' U0 (<[(r, v) := p]> U) L0 L'.
Proof.
  intros Hv [H Hrel Hnew Hold] H' Hrel' Hz Hpte. split; [done|..].
  - eapply uvmrel_trans; [|exact Hrel|exact Hrel']. intros k a Hk1 Hk2.
    apply lookup_insert_Some in Hk2 as [[<- _]|[_ Hk2]]; [|done].
    rewrite unmapped0 in Hk1 by lia. done.
  - intros v' Hv'. destruct (decide (v' = v)) as [->|Hne].
    + exists p. rewrite lookup_insert_eq, Hpte, decide_True by done. done.
    + destruct (Hnew v' ltac:(lia)) as (q & Hq & Hqz & Hqp). exists q.
      assert (<[(r, v) := p]> U !! (r, v') = Some q) as Hq'
        by (rewrite lookup_insert_ne by congruence; done).
      split_and!; [done| |by rewrite Hpte, decide_False by congruence].
      intros i Hi. rewrite (u_keep _ _ _ _ _ _ _ _ _ Hrel' _ _ (q + i) Hq Hq') by (unfold in_page; lia).
      by apply Hqz.
  - intros r' v' Hn. assert ((r', v') <> (r, v)) by (intros ?; simplify_eq; lia).
    rewrite lookup_insert_ne, Hpte, decide_False by congruence. apply Hold. lia.
Qed.

(** A failed round keeps what has been mapped. *)
Lemma grown_keep v d d' T T' U L L' :
  grown v d0 d T0 T U0 U L0 L -> vmem d' T' U L' -> uvmrel r d d' T T' U U L L' ->
  (forall r' v', pte_at (d_mem d') T' r' v' = pte_at (d_mem d) T r' v') ->
  grown v d0 d' T0 T' U0 U L0 L'.
Proof.
  intros [H Hrel0 Hnew Hold] H1 Hrel Hpte. split; [done| |..].
  - eapply uvmrel_trans; [|exact Hrel0|exact Hrel]. auto.
  - intros v' Hv'. destruct (Hnew v' Hv') as (q & Hq & Hqz & Hqp). exists q.
    split_and!; [done| |by rewrite Hpte]. intros i Hi.
    rewrite (u_keep _ _ _ _ _ _ _ _ _ Hrel _ _ (q + i) Hq Hq) by (unfold in_page; lia).
    by apply Hqz.
  - intros r' v' Hn'. rewrite Hpte. by apply Hold.
Qed.

Lemma grown_undone v d d' T U U' L L' :
  v0 <= v <= v1 -> grown v d0 d T0 T U0 U L0 L ->
  vmem d' T U' L' -> uvmrel r d d' T T U U' L L' -> uminus r v0 (v - v0) U U' ->
  (forall r' v', pte_at (d_mem d') T r' v' =
     if decide (r' = r /\ v0 <= v' < v0 + (v - v0)) then 0 else pte_at (d_mem d) T r' v') ->
  undone d0 d' T0 T U0 L0 L'.
Proof.
  intros Hv [H Hrel Hnew Hold] H' Hrel' Hm Hpte.
  unfold uminus in Hm. replace (v0 + (v - v0)) with v in * by lia.
  assert (U' = U0) as ->.
  { apply map_eq. intros [r' v']. rewrite Hm. case_decide as Hd.
    - destruct Hd as [-> Hd]. symmetry. apply unmapped0. lia.
    - by apply Hold. }
  split; [done|..].
  - eapply uvmrel_trans; [|exact Hrel|exact Hrel']. intros [r' v'] a Ha _.
    destruct (decide (r' = r /\ v0 <= v' < v)) as [[-> Hd]|Hd].
    + rewrite unmapped0 in Ha by lia. done.
    + by destruct (Hold r' v' Hd) as [-> _].
  - intros v' Hv'. rewrite Hpte. case_decide; [done|].
    destruct (Hold r v') as [_ ->]; [lia|]. by apply Hun.
  - intros r' v' Hn. rewrite Hpte, decide_False by lia. apply Hold. lia.
Qed.
End Grow.

(** ** uvmdealloc and uvmalloc *)

Section Alloc.
Context (y : sync) (Hy : sync_ok y) (Hk : free LKmem y) (r : Z).

(** uvmdealloc() that shrinks, in terms of the unmapped range. *)
Lemma uvmdealloc_run oldsz newsz d T U L :
  vmem d T U L -> 0 <= newsz < oldsz -> oldsz <= MAXVA ->
  (forall v, npg newsz <= v < npg oldsz -> is_Some (U !! (r, v))) ->
  exists d' U' L', uvmdealloc r oldsz newsz (KState y d) = Ret newsz (KState y d')
    /\ vmem d' T U' L' /\ uvmrel r d d' T T U U' L L'
    /\ uminus r (npg newsz) (npg oldsz - npg newsz) U U'
    /\ forall r' v', pte_at (d_mem d') T r' v' =
         if decide (r' = r /\ npg newsz <= v' < npg newsz + (npg oldsz - npg newsz)) then 0
         else pte_at (d_mem d) T r' v'.
Proof.
  intros H Hsz Hmax Hu. unfold uvmdealloc. destruct (Z.leb_spec oldsz newsz); [lia|].
  rewrite !PGROUNDUP_npg by lia. pose proof (npg_range oldsz ltac:(lia)) as Ho.
  pose proof (npg_range newsz ltac:(lia)) as Hn.
  destruct (Z.ltb_spec (npg newsz * PGSIZE) (npg oldsz * PGSIZE)) as [Hlt|Hge]; unfold when.
  - assert (npg newsz < npg oldsz) as Hlt' by (unfold PGSIZE in Hlt; lia).
    replace ((npg oldsz * PGSIZE - npg newsz * PGSIZE) / PGSIZE) with (npg oldsz - npg newsz)
      by (unfold PGSIZE; lia).
    change (MAXVA / PGSIZE) with (2 ^ 26) in Ho, Hn.
    rewrite wraps_small, wrapu_small by lia.
    destruct (uvmunmap_run y Hy Hk r (npg newsz) (npg oldsz - npg newsz) d T U L)
      as (d' & U' & L' & E & ?); [done|lia|lia|change (MAXVA / PGSIZE) with (2 ^ 26); lia| |].
    { intros i Hi. apply Hu. lia. }
    rewrite (bind_Ret _ _ _ _ _ E). by exists d', U', L'.
  - assert (npg newsz = npg oldsz) as E.
    { pose proof (npg_mono newsz oldsz). unfold PGSIZE in *. lia. }
    rewrite bind_mret. exists d, U, L. split_and!; try done; [apply uvmrel_refl|..];
      intros r' v'; by rewrite decide_False by lia.
Qed.

Context (xperm v0 newsz : Z) (Hx : 0 <= xperm < 1024).
Let perm := Z.lor (Z.lor PTE_R PTE_U) xperm.

Lemma uperm_range : 0 <= perm < 1024 /\ Z.lor perm PTE_V <> PTE_V.
Proof.
  split; [apply (lor_bound _ _ 10); [lia | change (Z.lor PTE_R PTE_U) with 18; lia | lia]|]. intros E.
  apply (f_equal (fun z => Z.testbit z 1)) in E. unfold perm in E.
  by rewrite !Z.lor_spec in E.
Qed.

(** One round of uvmalloc()'s loop. *)
Lemma uvmalloc_step fuel v d T U L :
  vmem d T U L -> T !! (r, 2, 0) = Some r -> 0 <= v < MAXVA / PGSIZE -> v * PGSIZE < newsz ->
  pte_valid (pte_at (d_mem d) T r v) = false ->
  exists d' T' L',
   (uvmalloc_loop (S fuel) r (v0 * PGSIZE) (v * PGSIZE) newsz xperm (KState y d) =
    (uvmdealloc r (v * PGSIZE) (v0 * PGSIZE);; mret 0) (KState y d')
    /\ vmem d' T' U L' /\ uvmrel r d d' T T' U U L L'
    /\ forall r' v', pte_at (d_mem d') T' r' v' = pte_at (d_mem d) T r' v') \/
   exists p, uvmalloc_loop (S fuel) r (v0 * PGSIZE) (v * PGSIZE) newsz xperm (KState y d) =
    uvmalloc_loop fuel r (v0 * PGSIZE) (u64 (v * PGSIZE + PGSIZE)) newsz xperm (KState y d')
    /\ vmem d' T' (<[(r, v) := p]> U) L' /\ uvmrel r d d' T T' U (<[(r, v) := p]> U) L L'
    /\ (forall x, in_page p x -> load8 (d_mem d') x = 0)
    /\ forall r' v', pte_at (d_mem d') T' r' v' =
         if decide ((r', v') = (r, v)) then mkpte p perm else pte_at (d_mem d) T r' v'.
Proof.
  intros H Hr Hv Hlt Hn. cbn [uvmalloc_loop]. destruct (Z.ltb_spec (v * PGSIZE) newsz); [|lia].
  destruct L as [|p L].
  { exists d, T, []. left. erewrite bind_Ret by (apply kalloc_empty_run; [done..|apply H]).
    split_and!; auto using uvmrel_refl. }
  erewrite bind_Ret by (eapply kalloc_run; [done..|apply H]).
  destruct (vmem_alloc _ _ _ _ _ H) as (_ & Hp & _). rewrite nz_page by done.
  rewrite (bind_Ret _ _ _ _ _ (kmemset_run _ _ _ _ _)).
  set (m1 := memset (d_mem (alloced p d)) p 0 PGSIZE).
  assert (forall x, ~ in_page p x -> load8 m1 x = load8 (d_mem d) x) as Hm1.
  { intros x Hx'. unfold m1. rewrite load8_memset. rewrite alloced_other by (unfold in_page in *; lia).
    unfold in_page in *. zcases; done || lia. }
  destruct uperm_range as [Hp3 Hp4].
  destruct (map_fresh y r v p perm d m1 T U L Hy Hk H Hm1 Hr Hv Hp3 Hp4 Hn)
    as (d2 & T2 & L2 & [(E & _ & H3 & Hrel & Hpt)|(E & H3 & Hrel & Hc & Hpt)]);
    rewrite (bind_Ret _ _ _ _ _ E).
  - exists (freed p d2), T2, (p :: L2). left. change (nz (-1)) with true. cbv beta iota.
    by erewrite bind_Ret by (by apply kfree_run).
  - exists d2, T2, L2. right. exists p. split_and!; try done.
    intros x Hx'. rewrite Hc by done. unfold m1. rewrite load8_memset.
    unfold in_page in Hx'. zcases; done || lia.
Qed.

Section Loop.
Context (d0 : data) (T0 : tabmap) (U0 : usermap) (L0 : list Z).
Context (H0 : vmem d0 T0 U0 L0) (Hr0 : T0 !! (r, 2, 0) = Some r).
Context (Hv0 : 0 <= v0) (Hsz : 0 <= newsz <= MAXVA).
Context (Hun : forall v', v0 <= v' < npg newsz -> pte_valid (pte_at (d_mem d0) T0 r v') = false).

Abbreviation ugrown v := (grown r v0 (fun _ _ => 0) (fun _ => perm) v d0).

Lemma uvmalloc_gives_up v d T U L :
  v0 <= v <= npg newsz -> ugrown v d T0 T U0 U L0 L ->
  exists d' L', (uvmdealloc r (v * PGSIZE) (v0 * PGSIZE);; mret 0) (KState y d) = Ret 0 (KState y d')
    /\ undone r v0 (npg newsz) d0 d' T0 T U0 L0 L'.
Proof.
  intros Hv Hg. pose proof (npg_range newsz Hsz) as Hnr. change (MAXVA / PGSIZE) with (2 ^ 26) in Hnr.
  pose proof (gr_new _ _ _ _ _ _ _ _ _ _ _ _ _ Hg) as Hnew.
  destruct (decide (v = v0)) as [->|Hne].
  - unfold uvmdealloc. rewrite Z.leb_refl. exists d, L. split; [done|].
    eapply (grown_undone r v0 (npg newsz) _ _ d0 T0 U0 L0 H0 Hun v0); [lia|done|apply Hg|apply uvmrel_refl|..];
      intros r' v'; by rewrite decide_False by lia.
  - destruct (uvmdealloc_run (v * PGSIZE) (v0 * PGSIZE) d T U L)
      as (d' & U' & L' & E & H' & Hrel' & Hm & Hpte); [apply Hg|unfold PGSIZE; lia| | |].
    { change MAXVA with (2 ^ 38). unfold PGSIZE. lia. }
    { rewrite !npg_mul. intros v' Hv'. destruct (Hnew v' Hv') as (p & -> & _). by eexists. }
    rewrite !npg_mul in *. rewrite (bind_Ret _ _ _ _ _ E). exists d', L'. split; [done|].
    by eapply (grown_undone r v0 (npg newsz) _ _ d0 T0 U0 L0 H0 Hun v).
Qed.

Lemma uvmalloc_loop_run n : forall fuel v d T U L,
  ugrown v d T0 T U0 U L0 L -> v0 <= v -> v + Z.of_nat n = npg newsz -> (n < fuel)%nat ->
  let o := uvmalloc_loop fuel r (v0 * PGSIZE) (v * PGSIZE) newsz xperm (KState y d) in
  (exists d' T' L', o = Ret 0 (KState y d') /\ undone r v0 (npg newsz) d0 d' T0 T' U0 L0 L') \/
  exists d' T' U' L', o = Ret newsz (KState y d') /\ ugrown (npg newsz) d' T0 T' U0 U' L0 L'.
Proof.
  pose proof (npg_range newsz Hsz) as Hnr.
  assert (forall v, v < npg newsz <-> v * PGSIZE < newsz) as Hlt.
  { intros v. unfold npg, PGSIZE. lia. }
  induction n as [|n IH]; intros fuel v d T U L Hg Hv Hn Hf; (destruct fuel as [|fuel]; [lia|]); cbv zeta.
  - right. exists d, T, U, L. cbn [uvmalloc_loop].
    destruct (Z.ltb_spec (v * PGSIZE) newsz) as [Hl|_]; [apply Hlt in Hl; lia|].
    split; [done|]. by replace (npg newsz) with v by lia.
  - destruct (uvmalloc_step fuel v d T U L) as (d1 & T1 & L1 & [(-> & H1 & Hrel & Hpte)|
      (p & -> & H1 & Hrel & Hz & Hpte)]); [apply Hg| |lia|apply Hlt; lia| | |].
    + eapply lookup_weaken; [done | apply Hg].
    + destruct (gr_old _ _ _ _ _ _ _ _ _ _ _ _ _ Hg r v) as [_ ->]; [lia|]. apply Hun. lia.
    + left. destruct (uvmalloc_gives_up v d1 T1 U L1) as (d' & L' & E & Hu); [lia|by eapply grown_keep|].
      by exists d', T1, L'.
    + change (MAXVA / PGSIZE) with (2 ^ 26) in Hnr. rewrite wrapu_small by (unfold PGSIZE; lia).
      replace (v * PGSIZE + PGSIZE) with ((v + 1) * PGSIZE) by lia.
      eapply (IH fuel (v + 1)); [|lia..].
      eapply (grown_step r v0 (npg newsz)); try done; [lia|]. intros i Hi. apply Hz. unfold in_page. lia.
Qed.
End Loop.
End Alloc.


(** uvmdealloc() shrinks an address space to [newsz] bytes: exactly the pages
    below [newsz] stay mapped, with their contents, and the others go back to
    the free list. *)
Theorem uvmdealloc_spec y r oldsz newsz d T U L :
  sync_ok y -> free LKmem y -> vmem d T U L ->
  0 <= newsz < oldsz -> oldsz <= MAXVA -> uspace U r oldsz ->
  exists d' U' L', uvmdealloc r oldsz newsz (KState y d) = Ret newsz (KState y d')
    /\ vmem d' T U' L' /\ uvmrel r d d' T T U U' L L' /\ uspace U' r newsz /\ U' ⊆ U
    /\ (forall v a, npg newsz <= v < npg oldsz -> U !! (r, v) = Some a -> a ∈ L').
Proof.
  intros Hy Hk H Hsz Hmax Hu. pose proof (npg_range newsz ltac:(lia)).
  destruct (uvmdealloc_run y Hy Hk r oldsz newsz d T U L H Hsz Hmax)
    as (d' & U' & L' & E & H' & Hrel & Hm & _).
  { intros v Hv. apply Hu. lia. }
  pose proof (npg_mono newsz oldsz ltac:(lia)).
  exists d', U', L'. split_and!; try done.
  - intros v. rewrite Hm. case_decide as Hd; [split; [by intros [??]|lia]|]. rewrite (Hu v). lia.
  - apply map_subseteq_spec. intros [r' v] a. rewrite Hm. by case_decide.
  - intros v a Hv Ha. assert (managed T U' L' a) as [?|[[[r' v'] Hk']|Ht]]; [|done|..].
    + apply Hrel. by eapply managed_user.
    + rewrite Hm in Hk'. case_decide as Hd; [done|]. destruct Hd.
      pose proof (vm_uinj _ _ _ _ H _ _ _ Ha Hk'). simplify_eq. lia.
    + destruct (vm_ut _ _ _ _ H a); [by eexists | done].
Qed.
End Uvm.

(** ** Witnesses

    The eight pages of [demo_image]: page 0 is a page table, pages 1 and 2 its
    tables for the bottom of the address space, page 3 the user page at 0, the
    others are free. *)

#[local] Existing Instances demo_image demo_image_ok.

Definition pg (i : Z) : Z := PHYSTOP - 8 * PGSIZE + i * PGSIZE.

Definition demo_free (L : list Z) : data := foldr freed zero_data L.

Lemma pg_ok i : 0 <= i < 8 -> @page_ok demo_image (pg i).
Proof. intros Hi. split; unfold pg, PGSIZE; cbn; unfold PGSIZE, PHYSTOP, KERNBASE; lia. Qed.

Lemma demo_free_list L :
  Forall (@page_ok demo_image) L -> NoDup L -> @freelist demo_image (demo_free L) L.
Proof.
  induction L as [|p L IH]; intros HL Hn; [split; [done | constructor | constructor]|].
  apply Forall_cons in HL as [Hp HL]. apply NoDup_cons in Hn as [Hp' Hn].
  apply (@freed_freelist demo_image demo_image_ok); auto.
Qed.

Lemma demo_free_other L q x :
  Forall (@page_ok demo_image) L -> @page_ok demo_image q -> q ∉ L -> in_page q x ->
  load8 (d_mem (demo_free L)) x = 0.
Proof.
  intros HL Hq Hn Hx. induction L as [|p L IH]; [done|]. cbn [demo_free foldr].
  apply Forall_cons in HL as [Hp HL]. apply not_elem_of_cons in Hn as [Hne Hn].
  rewrite freed_other; [by apply IH|].
  destruct (decide (in_page p x)) as [Hx'|]; [|unfold in_page in *; lia].
  destruct Hne. by apply (@page_eq demo_image q p x).
Qed.

Definition demo_L : list Z := [pg 1; pg 2; pg 3; pg 4; pg 5; pg 6; pg 7].
Definition demo_T0 : tabmap := {[(pg 0, 2, 0) := pg 0]}.

Lemma demo_L_ok : Forall (@page_ok demo_image) demo_L /\ NoDup demo_L /\ pg 0 ∉ demo_L.
Proof.
  split_and!.
  - repeat constructor; by apply pg_ok.
  - by apply (bool_decide_unpack _).
  - by apply (bool_decide_unpack _).
Qed.

Lemma demo_vmem0 : @vmem demo_image (demo_free demo_L) demo_T0 ∅ demo_L.
Proof.
  destruct demo_L_ok as (H1 & H2 & H3). unfold demo_T0.
  assert (forall i, 0 <= i < 512 -> load64 (d_mem (demo_free demo_L)) (pg 0 + 8 * i) = 0) as Hz.
  { intros i Hi. transitivity (0 mod 256 ^ Z.of_nat 8); [|done]. apply load_n_digits. intros k Hk'.
    rewrite Z.shiftr_0_l. apply (demo_free_other demo_L (pg 0)); [done|by apply pg_ok|done|].
    apply slot_in_page; [done | lia]. }
  split; [|exact (demo_free_list demo_L H1 H2)|..].
  - split.
    + intros r l p a Ha. apply lookup_singleton_Some in Ha as [E <-]. simplify_eq.
      split_and!; try lia; by apply pg_ok.
    + intros r p a Ha. apply lookup_singleton_Some in Ha as [E <-]. by simplify_eq.
    + intros k1 k2 a Ha Hb. apply lookup_singleton_Some in Ha as [<- _].
      by apply lookup_singleton_Some in Hb as [<- _].
    + intros r l p a i Ha Hl Hi. apply lookup_singleton_Some in Ha as [E <-]. simplify_eq.
      rewrite lookup_singleton_ne by done. by rewrite Hz.
    + intros r l p a Ha. apply lookup_singleton_Some in Ha as [E <-]. simplify_eq. lia.
  - intros a [k Hk']. by apply lookup_singleton_Some in Hk' as [_ <-].
  - intros r v a Ha. by rewrite lookup_empty in Ha.
  - intros k1 k2 a Ha. by rewrite lookup_empty in Ha.
  - by intros a [k Hk'].
  - by intros a [k Hk'].
Qed.


(** The tables for page 0 and a user page in it. *)
#[local] Opaque newtab alloced freed setpte demo_free.
Definition demo_d1 : data := newtab (pg 0 + 8 * 0) (pg 1) (demo_free demo_L).
Definition demo_T1 : tabmap := <[(pg 0, 1, 0) := pg 1]> demo_T0.
Definition demo_d2 : data := newtab (pg 1 + 8 * 0) (pg 2) demo_d1.
Definition demo_T2 : tabmap := <[(pg 0, 0, 0) := pg 2]> demo_T1.
Definition demo_pte : Z := mkpte (pg 3) (Z.lor (Z.lor PTE_R PTE_W) PTE_U).
Definition demo_d3 : data := setpte (pg 2) 0 demo_pte (alloced (pg 3) demo_d2).
Definition demo_U : usermap := {[(pg 0, 0) := pg 3]}.
Definition demo_L3 : list Z := [pg 4; pg 5; pg 6; pg 7].

Lemma demo_vmem2 :
  @vmem demo_image demo_d2 demo_T2 ∅ (pg 3 :: demo_L3)
  /\ forall r v, pte_at (d_mem demo_d2) demo_T2 r v = 0.
Proof.
  pose proof demo_vmem0 as H0. pose proof demo_image_ok as Hi.
  assert (@vmem demo_image demo_d1 demo_T1 ∅ (pg 2 :: pg 3 :: demo_L3)) as H1
    by (apply (grow_vmem (demo_free demo_L) demo_T0 ∅ _ (pg 0) 2 0 (pg 0) 0 (pg 1)); try done).
  split; [apply (grow_vmem demo_d1 demo_T1 ∅ _ (pg 0) 1 0 (pg 1) 0 (pg 2)); done|].
  intros r v. pose proof (vmem_alloc _ _ _ _ _ H0) as (_ & ? & _ & ? & _).
  pose proof (vmem_alloc _ _ _ _ _ H1) as (_ & ? & _ & ? & _).
  transitivity (pte_at (d_mem demo_d1) demo_T1 r v).
  { apply (grow_pte_at demo_d1 demo_T1 (pg 0) 1 0 (pg 1) 0 (pg 2)); try done. apply H1. }
  transitivity (pte_at (d_mem (demo_free demo_L)) demo_T0 r v).
  { apply (grow_pte_at (demo_free demo_L) demo_T0 (pg 0) 2 0 (pg 0) 0 (pg 1)); try done. apply H0. }
  unfold pte_at, demo_T0. by rewrite lookup_singleton_ne by done.
Qed.

Lemma demo_vmem3 :
  @vmem demo_image demo_d3 demo_T2 demo_U demo_L3 /\
  forall r v, pte_at (d_mem demo_d3) demo_T2 r v = if decide ((r, v) = (pg 0, 0)) then demo_pte else 0.
Proof.
  pose proof demo_image_ok as Hi. destruct demo_vmem2 as [H2 Hp].
  destruct (vmem_alloc _ _ _ _ _ H2) as (H3 & Hpk & Hl & Ht & Hu).
  assert (forall r v, pte_at (d_mem demo_d3) demo_T2 r v =
            if decide ((r, v) = (pg 0, 0)) then demo_pte else 0) as Hpte.
  { intros r v. unfold demo_d3. rewrite (pte_at_set _ demo_T2 (pg 0) 0 (pg 2)); [|apply H3|done|done].
    case_decide; [done|]. rewrite <- (Hp r v). apply pte_at_frame. intros b x Hb Hx.
    apply alloced_other. destruct (decide (in_page (pg 3) x)); [|unfold in_page in *; lia].
    destruct Ht. by rewrite (page_eq (pg 3) b x) by eauto using table_ok. }
  split; [|done]. unfold demo_U. rewrite <- insert_empty.
  pose proof (Hpte (pg 0) 0) as H0. rewrite decide_True in H0 by done.
  assert (vmem demo_d3 demo_T2 ∅ demo_L3) as H3'
    by (apply (setpte_vmem _ demo_T2 ∅ demo_L3 (pg 0)); [exact H3|done|done|done]).
  apply (vmem_uinsert _ _ _ _ _ _ _ H3' Hpk Hl Ht Hu); by rewrite ?H0.
Qed.

#[local] Opaque demo_d3.

Lemma demo_uspace : uspace demo_U (pg 0) PGSIZE.
Proof.
  intros v. unfold demo_U, npg. change ((PGSIZE + PGSIZE - 1) / PGSIZE) with 1.
  destruct (decide (v = 0)) as [->|Hv].
  - rewrite lookup_singleton_eq. split; [lia | by eexists].
  - rewrite lookup_singleton_ne by congruence. split; [by intros [??] | lia].
Qed.

Lemma uvmdealloc_spec_witness :
  exists d' U' L', uvmdealloc (pg 0) PGSIZE 0 (KState demo_sync demo_d3) = Ret 0 (KState demo_sync d')
    /\ vmem d' demo_T2 U' L' /\ uspace U' (pg 0) 0.
Proof.
  destruct (uvmdealloc_spec demo_sync (pg 0) PGSIZE 0 demo_d3 demo_T2 demo_U demo_L3)
    as (d' & U' & L' & E1 & E2 & _ & E3 & _).
  - apply demo_sync_ok.
  - by eexists.
  - apply demo_vmem3.
  - done.
  - done.
  - apply demo_uspace.
  - exists d', U', L'. exact (conj E1 (conj E2 E3)).
Defined.

Lemma demo_kmem_free : free LKmem demo_sync.
Proof. by eexists. Qed.

(** One more page next to the user page, at the UART's registers. *)
Lemma demo_mappages :
  exists s', mappages (pg 0) (1 * PGSIZE) (1 * PGSIZE) UART0 PTE_R (KState demo_sync demo_d3) = Ret 0 s'.
Proof.
  destruct demo_vmem3 as [H3 Hp3]. unfold mappages. rewrite !Z.mul_1_l.
  change (PGSIZE =? 0) with false. cbv zeta. change (PGROUNDDOWN PGSIZE) with PGSIZE.
  change (PGROUNDDOWN (u64 (PGSIZE + PGSIZE - 1))) with PGSIZE. cbn [mappages_loop].
  erewrite bind_Ret; [|apply (walk_hit demo_sync PGSIZE 1 ltac:(done) demo_d3 demo_T2 (pg 0) 1 (pg 2)
    (vm_pt _ _ _ _ H3)); done].
  change (pg 2 + 8 * (1 mod 512) =? 0) with false. cbv iota.
  rewrite (bind_Ret _ _ _ _ _ (ldpte_run _ _ _)).
  assert (load64 (d_mem demo_d3) (pg 2 + 8 * (1 mod 512)) = 0) as E.
  { transitivity (pte_at (d_mem demo_d3) demo_T2 (pg 0) 1); [done|]. by rewrite Hp3. }
  rewrite E. change (nz (Z.land 0 PTE_V)) with false. cbv iota.
  rewrite (bind_Ret _ _ _ _ _ (stpte_run _ _ _ _)), Z.eqb_refl. by eexists.
Qed.


Lemma mappages_remap_panics_witness :
  mappages (pg 0) (0 * PGSIZE) (1 * PGSIZE) (pg 4) PTE_R (KState demo_sync demo_d3)
  = Panic "mappages: remap" (KState demo_sync demo_d3).
Proof.
  destruct demo_vmem3 as [H3 Hp3].
  apply (mappages_remap_panics demo_sync (pg 0) 0 1 (pg 4) PTE_R demo_d3 demo_T2 demo_U demo_L3).
  - apply demo_sync_ok.
  - by eexists.
  - exact H3.
  - done.
  - done.
  - done.
  - done.
  - by rewrite Hp3, decide_True.
Defined.
