(* ===== verification/CopyUser.v ===== *)
(** * copyout, copyin and copyinstr refine a flat user memory

    [uview d U r] is the memory a process with page table [r] sees: its user
    pages, read through the mapping.  copyout() is [write_bytes] on it, copyin()
    is [read_bytes], and both stop with -1 at the first page that is not
    accessible to the user. *)

From S2P Require Import Prelude Mem KString Riscv State Spinlock Kalloc Vm PageTable Uvm.

#[local] Ltac Zify.zify_post_hook ::= Z.to_euclidean_division_equations.
#[local] Opaque memset memmove store_n load_n.

(** ** Lists of bytes *)

Lemma write_bytes_app m a l1 l2 :
  write_bytes m a (l1 ++ l2) = write_bytes (write_bytes m a l1) (a + Z.of_nat (length l1)) l2.
Proof.
  revert m a. induction l1 as [|b l1 IH]; intros m a; cbn [app write_bytes length].
  { by rewrite Z.add_0_r. }
  rewrite IH. f_equal. lia.
Qed.

Lemma read_bytes_app m a n1 n2 :
  read_bytes m a (n1 + n2) = read_bytes m a n1 ++ read_bytes m (a + Z.of_nat n1) n2.
Proof.
  revert a. induction n1 as [|n1 IH]; intros a; cbn [Nat.add read_bytes app].
  { by rewrite Z.add_0_r. }
  rewrite IH. do 3 f_equal. lia.
Qed.

Lemma read_bytes_eq m1 m2 a b n :
  (forall i, 0 <= i < Z.of_nat n -> load8 m1 (a + i) = load8 m2 (b + i)) ->
  read_bytes m1 a n = read_bytes m2 b n.
Proof.
  revert a b. induction n as [|n IH]; intros a b H; cbn; [done|]. f_equal.
  - specialize (H 0 ltac:(lia)). by rewrite !Z.add_0_r in H.
  - apply IH. intros i Hi. replace (a + 1 + i) with (a + (i + 1)) by lia.
    replace (b + 1 + i) with (b + (i + 1)) by lia. apply H. lia.
Qed.

#[export] Instance write_bytes_proper : Proper (mem_eq ==> eq ==> eq ==> mem_eq) write_bytes.
Proof.
  intros m1 m2 H a ? <- l ? <- x. rewrite !load8_write_bytes. case_match; [done | apply H].
Qed.

Lemma copystr_page_eq m1 m2 a b n :
  (forall i, 0 <= i < Z.of_nat n -> load8 m1 (a + i) = load8 m2 (b + i)) ->
  copystr_page m1 a n = copystr_page m2 b n.
Proof.
  revert a b. induction n as [|n IH]; intros a b H; cbn [copystr_page]; [done|].
  pose proof (H 0 ltac:(lia)) as H0. rewrite !Z.add_0_r in H0. rewrite H0.
  rewrite (IH (a + 1) (b + 1)); [done|].
  intros i Hi. replace (a + 1 + i) with (a + (i + 1)) by lia.
  replace (b + 1 + i) with (b + (i + 1)) by lia. apply H. lia.
Qed.

Lemma copystr_page_app m a n1 n2 :
  copystr_page m a (n1 + n2) =
  let (b1, g1) := copystr_page m a n1 in
  if g1 then (b1, true)
  else let (b2, g2) := copystr_page m (a + Z.of_nat n1) n2 in (b1 ++ b2, g2).
Proof.
  revert a. induction n1 as [|n1 IH]; intros a; cbn [Nat.add copystr_page].
  { rewrite Z.add_0_r. by destruct (copystr_page m a n2). }
  case_match; [done|]. rewrite IH. replace (a + 1 + Z.of_nat n1) with (a + Z.of_nat (S n1)) by lia.
  destruct (copystr_page m (a + 1) n1) as [b1 []]; [done|].
  by destruct (copystr_page m (a + Z.of_nat (S n1)) n2).
Qed.

Section CopyUser.
Context {I : Image} {IOk : ImageOk I}.

(** User page [v] of [r] can be reached by the kernel on the user's behalf. *)
Definition accessible (d : data) (T : tabmap) (r v : Z) : bool :=
  let e := pte_at (d_mem d) T r v in
  (v <? MAXVA / PGSIZE) && pte_valid e && nz (Z.land e PTE_U).

Definition uview (d : data) (U : usermap) (r : Z) : mem :=
  fun a => match U !! (r, a / PGSIZE) with
           | Some p => load8 (d_mem d) (p + a mod PGSIZE)
           | None => 0
           end.

(** Only user memory is accessible to the user. *)
Definition uclosed (d : data) (T : tabmap) (U : usermap) (r : Z) : Prop :=
  forall v, 0 <= v -> accessible d T r v = true -> is_Some (U !! (r, v)).

Lemma load8_uview d U r a p :
  U !! (r, a / PGSIZE) = Some p -> load8 (uview d U r) a = load8 (d_mem d) (p + a mod PGSIZE).
Proof.
  intros Hp. unfold load8 at 1, uview. rewrite Hp. apply wrapu_small, load8_range.
Qed.

Lemma uview_page d U r a p k i :
  U !! (r, a / PGSIZE) = Some p -> 0 <= i < k -> a mod PGSIZE + k <= PGSIZE ->
  load8 (uview d U r) (a + i) = load8 (d_mem d) (p + a mod PGSIZE + i).
Proof.
  intros Hp Hi Hk. unfold PGSIZE in *.
  assert ((a + i) / 4096 = a / 4096 /\ (a + i) mod 4096 = a mod 4096 + i) as [E1 E2] by lia.
  rewrite (load8_uview d U r (a + i) p) by (unfold PGSIZE; by rewrite E1).
  unfold PGSIZE. f_equal. lia.
Qed.

(** Two states with the same leaf entries. *)
Lemma accessible_frame d d' T r v :
  pte_at (d_mem d') T r v = pte_at (d_mem d) T r v -> accessible d' T r v = accessible d T r v.
Proof. intros H. unfold accessible. by rewrite H. Qed.

Section Copy.
Context (y : sync) (r : Z) (T : tabmap) (U : usermap) (L : list Z).
Context (Hr : T !! (r, 2, 0) = Some r).

Lemma walkaddr_view d va :
  vmem d T U L -> uclosed d T U r -> 0 <= va ->
  let va0 := PGROUNDDOWN va in
  if accessible d T r (va / PGSIZE)
  then exists p, U !! (r, va / PGSIZE) = Some p /\ page_ok p
         /\ walkaddr r va0 (KState y d) = Ret p (KState y d) /\ va0 < MAXVA
  else walkaddr r va0 (KState y d) = Ret 0 (KState y d).
Proof.
  intros H Hc Hva. cbv zeta. rewrite PGROUNDDOWN_eq.
  destruct (Z.ltb_spec (va - va mod PGSIZE) MAXVA) as [Hlt|Hge].
  - pose proof (walkaddr_run y (va - va mod PGSIZE) (va / PGSIZE) ltac:(unfold PGSIZE; lia) d T r
      (vm_pt _ _ _ _ H) Hr ltac:(unfold PGSIZE in *; lia)) as Hw. cbv zeta in Hw.
    destruct (accessible d T r (va / PGSIZE)) eqn:Ha.
    + destruct (Hc (va / PGSIZE) ltac:(unfold PGSIZE; lia) Ha) as [p Hp]. exists p.
      destruct (vm_page _ _ _ _ H _ _ _ Hp) as (Hpk & _ & _ & _ & Hpa & _).
      split_and!; try done. rewrite Hw. unfold accessible in Ha. zify_bool.
      by rewrite H1, H2, Hpa.
    + rewrite Hw. unfold accessible in Ha. change MAXVA with (2 ^ 38) in *.
      change (2 ^ 38 / PGSIZE) with (2 ^ 26) in Ha.
      destruct (Z.ltb_spec (va / PGSIZE) (2 ^ 26)); [|unfold PGSIZE in *; lia].
      cbn [andb] in Ha. by rewrite Ha.
  - unfold accessible. change MAXVA with (2 ^ 38) in *. change (2 ^ 38 / PGSIZE) with (2 ^ 26).
    destruct (Z.ltb_spec (va / PGSIZE) (2 ^ 26)); [unfold PGSIZE in *; lia|]. cbn [andb].
    unfold walkaddr. change MAXVA with (2 ^ 38). by destruct (Z.leb_spec (2 ^ 38) (va - va mod PGSIZE)); [|lia].
Qed.

(** What a write through the mapping of [r] changes. *)
Record uwrites (d d' : data) (va : Z) (bs : list Z) : Prop := {
  uw_data : exists m, d' = set_d_mem m d;
  uw_vmem : vmem d' T U L;
  uw_view : mem_eq (uview d' U r) (write_bytes (uview d U r) va bs);
  uw_others r' : r' <> r -> mem_eq (uview d' U r') (uview d U r');
  uw_pte r' v : pte_at (d_mem d') T r' v = pte_at (d_mem d) T r' v;
  uw_mem x : (forall a, is_user U a -> ~ in_page a x) -> load8 (d_mem d') x = load8 (d_mem d) x
}.

Lemma uwrites_nil d va : vmem d T U L -> uwrites d d va [].
Proof. intros H. split; try done. exists (d_mem d). by destruct d. Qed.

Lemma uwrites_app d1 d2 d3 va l1 l2 :
  uwrites d1 d2 va l1 -> uwrites d2 d3 (va + Z.of_nat (length l1)) l2 ->
  uwrites d1 d3 va (l1 ++ l2).
Proof.
  intros [A1 B1 C1 D1 E1 F1] [A2 B2 C2 D2 E2 F2]. split; [|done|..].
  - destruct A1 as [m1 ->], A2 as [m2 ->]. by exists m2.
  - by rewrite C2, C1, write_bytes_app.
  - intros r' Hr'. by rewrite D2, D1.
  - intros. by rewrite E2, E1.
  - intros x Hx. by rewrite F2, F1.
Qed.

Lemma uwrites_page d va p bs :
  vmem d T U L -> U !! (r, va / PGSIZE) = Some p ->
  va mod PGSIZE + Z.of_nat (length bs) <= PGSIZE ->
  uwrites d (set_d_mem (write_bytes (d_mem d) (p + va mod PGSIZE) bs) d) va bs.
Proof.
  intros H Hp Hlen. set (m' := write_bytes (d_mem d) (p + va mod PGSIZE) bs).
  assert (is_user U p) as Hu by by eexists. pose proof (user_ok _ _ _ _ _ H Hu) as Hpk.
  assert (~ is_table T p) as Ht by (intros Ht; by eapply (vm_ut _ _ _ _ H)).
  assert (forall x, ~ in_page p x -> load8 m' x = load8 (d_mem d) x) as Hm.
  { intros x Hx. unfold m'. rewrite load8_write_bytes. unfold in_page, PGSIZE in *. zcases; done || lia. }
  split.
  - by eexists.
  - eapply vmem_write; try done. by eapply (vm_ul _ _ _ _ H).
  - intros a. rewrite load8_write_bytes. destruct (U !! (r, a / PGSIZE)) as [q|] eqn:Hq.
    + rewrite !(load8_uview _ U r a q) by done. cbn [d_mem set_d_mem]. unfold m'.
      rewrite load8_write_bytes. destruct (decide (q = p)) as [->|Hne].
      * pose proof (vm_uinj _ _ _ _ H _ _ _ Hp Hq). assert (va / PGSIZE = a / PGSIZE) by congruence.
        unfold PGSIZE in *.
        replace (p + a mod 4096 - (p + va mod 4096)) with (a - va) by lia. zcases; done || lia.
      * assert (va / PGSIZE <> a / PGSIZE) by (intros E; rewrite E in Hp; congruence).
        destruct (user_ok _ _ _ _ q H ltac:(by eexists)) as [Hq1 _]. destruct Hpk as [Hp1 _].
        unfold PGSIZE in *. zcases; done || lia.
    + unfold load8 at 1, uview at 1. rewrite Hq.
      assert (va / PGSIZE <> a / PGSIZE) by (intros E; rewrite E in Hp; congruence).
      replace (load8 (uview d U r) a) with (u8 0) by (unfold load8, uview; by rewrite Hq).
      unfold PGSIZE in *. zcases; done || lia.
  - intros r' Hr' a. destruct (U !! (r', a / PGSIZE)) as [q|] eqn:Hq;
      [|unfold load8, uview; by rewrite Hq].
    rewrite !(load8_uview _ U r' a q) by done. apply Hm. intros Hx.
    assert (q = p) as ->.
    { apply (page_eq q p (q + a mod PGSIZE)); try done; [by eapply user_ok; [|eexists]|].
      unfold in_page, PGSIZE. lia. }
    pose proof (vm_uinj _ _ _ _ H _ _ _ Hp Hq). congruence.
  - intros r' v. apply pte_at_frame. intros b x Hb Hx. apply Hm. intros Hx'. destruct Ht.
    by rewrite (page_eq p b x) by eauto using table_ok.
  - intros x Hx. apply Hm. by apply Hx.
Qed.

(** The first [k] of the bytes [va..va+n) can be reached: all of them, or up to
    the first inaccessible page. *)
Definition reach (d : data) (va n k : Z) (res : Z) : Prop :=
  (forall i, 0 <= i < k -> accessible d T r ((va + i) / PGSIZE) = true) /\
  (res = 0 /\ k = n \/
   res = -1 /\ 0 <= k < n /\ accessible d T r ((va + k) / PGSIZE) = false).

Lemma reach_step d va n k' c res :
  accessible d T r (va / PGSIZE) = true -> 0 < c -> va mod PGSIZE + c <= PGSIZE -> c <= n ->
  reach d (va + c) (n - c) k' res -> reach d va n (c + k') res.
Proof.
  intros Ha Hc Hp Hcn [H1 H2]. split.
  - intros i Hi. destruct (decide (i < c)) as [Hi'|Hi'].
    + replace ((va + i) / PGSIZE) with (va / PGSIZE); [done|]. unfold PGSIZE in *. lia.
    + replace (va + i) with (va + c + (i - c)) by lia. apply H1. lia.
  - replace (va + (c + k')) with (va + c + k') by lia. destruct H2 as [?|(? & ? & ?)]; [left; lia|].
    right. split_and!; done || lia.
Qed.

Lemma reach_frame d d' va n k res :
  (forall v, accessible d' T r v = accessible d T r v) ->
  reach d' va n k res -> reach d va n k res.
Proof. intros H [H1 H2]. split; [intros; rewrite <- H; auto | rewrite <- H; done]. Qed.

Lemma reach_nil d va n : n <= 0 -> 0 <= n -> reach d va n 0 0.
Proof. intros. split; [lia | left; lia]. Qed.

Lemma reach_stop d va n : 0 < n -> accessible d T r (va / PGSIZE) = false -> reach d va n 0 (-1).
Proof.
  intros Hn Ha. split; [lia|]. right. rewrite Z.add_0_r. split_and!; done || lia.
Qed.

(** The part of [va..va+n) that lies in its first page. *)
Lemma chunk_eq va n :
  let c := Z.min (PGSIZE - (va - PGROUNDDOWN va)) n in
  0 < n -> 0 < c <= n /\ va mod PGSIZE + c <= PGSIZE /\
  (c = n \/ PGROUNDDOWN va + PGSIZE = va + c).
Proof. cbv zeta. rewrite PGROUNDDOWN_eq. unfold PGSIZE. lia. Qed.

Lemma copyout_loop_run fuel : forall d va src,
  vmem d T U L -> uclosed d T U r -> 0 <= va -> (length src < fuel)%nat ->
  exists d' k res, copyout_loop fuel r va src (KState y d) = Ret res (KState y d')
    /\ reach d va (Z.of_nat (length src)) k res
    /\ uwrites d d' va (take (Z.to_nat k) src).
Proof.
  induction fuel as [|fuel IH]; intros d va src H Hc Hva Hf; [lia|]. cbn [copyout_loop].
  destruct (Z.ltb_spec 0 (Z.of_nat (length src))) as [Hn|Hn].
  2: { exists d, 0, 0. split_and!; [done | apply reach_nil; lia | by apply uwrites_nil]. }
  pose proof (walkaddr_view d va H Hc Hva) as Hw. cbv zeta in Hw.
  destruct (accessible d T r (va / PGSIZE)) eqn:Ha.
  2: { rewrite (bind_Ret _ _ _ _ _ Hw). exists d, 0, (-1).
       split_and!; [done | by apply reach_stop | by apply uwrites_nil]. }
  destruct Hw as (p & Hp & Hpk & E & Hmax). rewrite (bind_Ret _ _ _ _ _ E), nz_page by done.
  destruct (chunk_eq va (Z.of_nat (length src)) Hn) as (Hc1 & Hc2 & Hc3). cbv zeta.
  set (c := Z.min _ _) in *.
  assert (length (take (Z.to_nat c) src) = Z.to_nat c) as Hl by (rewrite length_take; lia).
  replace (va - PGROUNDDOWN va) with (va mod PGSIZE) by (rewrite PGROUNDDOWN_eq; lia).
  pose proof (uwrites_page d va p (take (Z.to_nat c) src) H Hp ltac:(lia)) as Hw.
  unfold kwrite. rewrite (bind_Ret _ _ _ _ _ (modd_run _ _ _)).
  set (d1 := set_d_mem (write_bytes _ _ _) d) in *.
  assert (forall v, accessible d1 T r v = accessible d T r v) as Hacc
    by (intros v; apply accessible_frame, Hw).
  rewrite wrapu_small by (pose proof (PGROUNDDOWN_spec va); change MAXVA with (2 ^ 38) in Hmax;
    unfold PGSIZE in *; lia).
  assert (copyout_loop fuel r (PGROUNDDOWN va + PGSIZE) (drop (Z.to_nat c) src) (KState y d1)
    = copyout_loop fuel r (va + c) (drop (Z.to_nat c) src) (KState y d1)) as ->.
  { destruct Hc3 as [Hc3| ->]; [|done]. rewrite drop_ge by lia. by destruct fuel. }
  destruct (IH d1 (va + c) (drop (Z.to_nat c) src)) as (d' & k & res & -> & Hk & Hw').
  { apply Hw. }
  { intros v Hv Hv'. apply Hc; [done|]. by rewrite <- Hacc. }
  { lia. }
  { rewrite length_drop. lia. }
  assert (0 <= k) by (destruct Hk as [_ [?|?]]; rewrite length_drop in *; lia).
  exists d', (c + k), res. split_and!; [done|..].
  - apply reach_step; [done|lia..|]. apply (reach_frame d d1) in Hk; [|done].
    rewrite length_drop in Hk. by replace (Z.of_nat (length src) - c) with (Z.of_nat (length src - Z.to_nat c)) by lia.
  - rewrite Z2Nat.inj_add by lia. rewrite <- take_take_drop.
    eapply uwrites_app; [done|]. by replace (Z.of_nat (length (take (Z.to_nat c) src))) with c by lia.
Qed.

Lemma copyin_loop_run fuel : forall d dst va len,
  vmem d T U L -> uclosed d T U r -> 0 <= va -> 0 <= len < Z.of_nat fuel ->
  exists k res, copyin_loop fuel r dst va len (KState y d) =
      Ret (res, dst ++ read_bytes (uview d U r) va (Z.to_nat k)) (KState y d)
    /\ reach d va len k res.
Proof.
  induction fuel as [|fuel IH]; intros d dst va len H Hc Hva Hf; [lia|]. cbn [copyin_loop].
  destruct (Z.ltb_spec 0 len) as [Hn|Hn].
  2: { exists 0, 0. rewrite app_nil_r. split; [done | apply reach_nil; lia]. }
  pose proof (walkaddr_view d va H Hc Hva) as Hw. cbv zeta in Hw.
  destruct (accessible d T r (va / PGSIZE)) eqn:Ha.
  2: { rewrite (bind_Ret _ _ _ _ _ Hw). exists 0, (-1). rewrite app_nil_r.
       split; [done | by apply reach_stop]. }
  destruct Hw as (p & Hp & Hpk & E & Hmax). rewrite (bind_Ret _ _ _ _ _ E), nz_page by done.
  destruct (chunk_eq va len Hn) as (Hc1 & Hc2 & Hc3). cbv zeta. set (c := Z.min _ _) in *.
  replace (va - PGROUNDDOWN va) with (va mod PGSIZE) by (rewrite PGROUNDDOWN_eq; lia).
  rewrite (bind_Ret _ _ _ _ _ (getd_run _ _ _)).
  rewrite wrapu_small by (pose proof (PGROUNDDOWN_spec va); change MAXVA with (2 ^ 38) in Hmax;
    unfold PGSIZE in *; lia).
  assert (read_bytes (d_mem d) (p + va mod PGSIZE) (Z.to_nat c) =
          read_bytes (uview d U r) va (Z.to_nat c)) as ->.
  { apply read_bytes_eq. intros i Hi. symmetry. apply (uview_page d U r va p c); done || lia. }
  assert (forall l, copyin_loop fuel r l (PGROUNDDOWN va + PGSIZE) (len - c) (KState y d)
    = copyin_loop fuel r l (va + c) (len - c) (KState y d)) as ->.
  { intros l. destruct Hc3 as [Hc4| ->]; [|done]. destruct fuel; [done|]. cbn [copyin_loop].
    by replace (len - c) with 0 by lia. }
  destruct (IH d (dst ++ read_bytes (uview d U r) va (Z.to_nat c)) (va + c) (len - c))
    as (k & res & -> & Hk); [done..|lia|lia|].
  assert (0 <= k) by (destruct Hk as [_ [?|?]]; lia).
  exists (c + k), res. split; [|by apply reach_step; [done|lia..|]].
  rewrite Z2Nat.inj_add, read_bytes_app, app_assoc by lia.
  by replace (Z.of_nat (Z.to_nat c)) with c by lia.
Qed.

(** [k] bytes from [va] have been scanned for a NUL, with outcome [got]. *)
Definition scanned (d : data) (va max k : Z) (got : bool) : Prop :=
  0 <= k <= max /\ (forall i, 0 <= i < k -> accessible d T r ((va + i) / PGSIZE) = true) /\
  (got = false -> k = max \/ accessible d T r ((va + k) / PGSIZE) = false).

Lemma copyinstr_loop_run fuel : forall d dst va max,
  vmem d T U L -> uclosed d T U r -> 0 <= va -> 0 <= max < Z.of_nat fuel ->
  exists k bs got, copyinstr_loop fuel r dst va max (KState y d) =
      Ret ((if got : bool then 0 else -1), dst ++ bs) (KState y d)
    /\ copystr_page (uview d U r) va (Z.to_nat k) = (bs, got) /\ scanned d va max k got.
Proof.
  induction fuel as [|fuel IH]; intros d dst va max H Hc Hva Hf; [lia|]. cbn [copyinstr_loop].
  destruct (Z.ltb_spec 0 max) as [Hn|Hn].
  2: { exists 0, [], false. rewrite app_nil_r. split_and!; try done. split_and!; lia || (left; lia). }
  pose proof (walkaddr_view d va H Hc Hva) as Hw. cbv zeta in Hw.
  destruct (accessible d T r (va / PGSIZE)) eqn:Ha.
  2: { rewrite (bind_Ret _ _ _ _ _ Hw). exists 0, [], false. rewrite app_nil_r. split_and!; try done.
       split_and!; [lia..|]. right. by rewrite Z.add_0_r. }
  destruct Hw as (p & Hp & Hpk & E & Hmax). rewrite (bind_Ret _ _ _ _ _ E), nz_page by done.
  destruct (chunk_eq va max Hn) as (Hc1 & Hc2 & Hc3). cbv zeta. set (c := Z.min _ _) in *.
  replace (va - PGROUNDDOWN va) with (va mod PGSIZE) by (rewrite PGROUNDDOWN_eq; lia).
  rewrite (bind_Ret _ _ _ _ _ (getd_run _ _ _)).
  rewrite (copystr_page_eq _ (uview d U r) _ va)
    by (intros i Hi; symmetry; apply (uview_page d U r va p c); done || lia).
  assert (forall i, 0 <= i < c -> accessible d T r ((va + i) / PGSIZE) = true) as Hcacc.
  { intros i Hi. replace ((va + i) / PGSIZE) with (va / PGSIZE); [done|]. unfold PGSIZE in *. lia. }
  destruct (copystr_page (uview d U r) va (Z.to_nat c)) as [bs got] eqn:Ecs.
  destruct got.
  { exists c, bs, true. split_and!; try done. by split_and!; [lia..| |]. }
  rewrite wrapu_small by (pose proof (PGROUNDDOWN_spec va); change MAXVA with (2 ^ 38) in Hmax;
    unfold PGSIZE in *; lia).
  assert (copyinstr_loop fuel r (dst ++ bs) (PGROUNDDOWN va + PGSIZE) (max - c) (KState y d)
    = copyinstr_loop fuel r (dst ++ bs) (va + c) (max - c) (KState y d)) as ->.
  { destruct Hc3 as [Hc4| ->]; [|done]. destruct fuel; [done|]. cbn [copyinstr_loop].
    by replace (max - c) with 0 by lia. }
  destruct (IH d (dst ++ bs) (va + c) (max - c)) as (k & bs' & got & -> & Ek & (Hk1 & Hk2 & Hk3));
    [done..|lia|lia|].
  exists (c + k), (bs ++ bs'), got. rewrite app_assoc. split_and!; [done| |split_and!; [lia|lia|..]].
  - rewrite Z2Nat.inj_add, copystr_page_app, Ecs by lia.
    replace (Z.of_nat (Z.to_nat c)) with c by lia. by rewrite Ek.
  - intros i Hi. destruct (decide (i < c)); [apply Hcacc; lia|].
    replace (va + i) with (va + c + (i - c)) by lia. apply Hk2. lia.
  - intros Hg. replace (va + (c + k)) with (va + c + k) by lia.
    destruct (Hk3 Hg); [left; lia | by right].
Qed.
End Copy.

(** C4: copyout() is a write to the process's flat memory: it stores the prefix of
    [src] that lies below the first inaccessible page, returns 0 when that is
    all of it and -1 otherwise, and changes no page table, free page, or memory
    of another process. *)
Theorem copyout_refines_write y r T U L d va src :
  T !! (r, 2, 0) = Some r -> vmem d T U L -> uclosed d T U r -> 0 <= va ->
  exists d' k res, copyout r va src (KState y d) = Ret res (KState y d')
    /\ reach r T d va (Z.of_nat (length src)) k res
    /\ uwrites r T U L d d' va (take (Z.to_nat k) src).
Proof. intros Hr H Hc Hva. by apply copyout_loop_run; [..|lia]. Qed.

(** C27: copyin() is a read of the process's flat memory: it returns 0 and the [len]
    bytes at [va], or -1 after the bytes below the first inaccessible page;
    the state does not change. *)
Theorem copyin_refines_read y r T U L d va len :
  T !! (r, 2, 0) = Some r -> vmem d T U L -> uclosed d T U r -> 0 <= va -> 0 <= len ->
  exists k res, copyin r va len (KState y d) =
      Ret (res, read_bytes (uview d U r) va (Z.to_nat k)) (KState y d)
    /\ reach r T d va len k res.
Proof.
  intros Hr H Hc Hva Hlen.
  by destruct (copyin_loop_run y r T U L Hr (S (Z.to_nat len)) d [] va len H Hc Hva ltac:(lia))
    as (k & res & E & Hk); exists k, res.
Qed.


(** Bytes copied out to a process are what copyin() reads back. *)
Theorem copyout_copyin_roundtrip y r T U L d va src s' :
  T !! (r, 2, 0) = Some r -> vmem d T U L -> uclosed d T U r -> 0 <= va ->
  Forall (fun b => 0 <= b < 256) src ->
  copyout r va src (KState y d) = Ret 0 s' ->
  copyin r va (Z.of_nat (length src)) s' = Ret (0, src) s'.
Proof.
  intros Hr H Hc Hva Hb E.
  destruct (copyout_loop_run y r T U L Hr (S (length src)) d va src H Hc Hva ltac:(lia))
    as (d' & k & res & E' & [Hk1 Hk2] & Hw).
  unfold copyout in E. rewrite E' in E. simplify_eq.
  destruct Hk2 as [[_ ->]|(? & _)]; [|done]. rewrite Nat2Z.id, firstn_all in Hw.
  assert (forall v, accessible d' T r v = accessible d T r v) as Hacc
    by (intros v; apply accessible_frame, Hw).
  destruct (copyin_loop_run y r T U L Hr (S (Z.to_nat (Z.of_nat (length src)))) d' [] va
    (Z.of_nat (length src))) as (k & res & E2 & [H1 H2]); [apply Hw| |done|lia|].
  { intros v Hv Hv'. apply Hc; [done|]. by rewrite <- Hacc. }
  unfold copyin. rewrite E2. destruct H2 as [[-> ->]|(-> & Hk & Ha)].
  - cbn [app]. do 2 f_equal. rewrite Nat2Z.id.
    rewrite <- (read_write_bytes (uview d U r) va src Hb) at 2.
    apply read_bytes_ext. intros i Hi. apply (uw_view _ _ _ _ _ _ _ _ Hw).
  - rewrite Hacc, Hk1 in Ha by lia. done.
Qed.
End CopyUser.

(** ** Witnesses: the user page of the demo page table *)

#[local] Existing Instances demo_image demo_image_ok.
#[local] Opaque demo_d3.

Lemma demo_root : demo_T2 !! (pg 0, 2, 0) = Some (pg 0).
Proof. done. Qed.

Lemma demo_uclosed : uclosed demo_d3 demo_T2 demo_U (pg 0).
Proof.
  intros v Hv Ha. unfold accessible in Ha. destruct demo_vmem3 as [_ Hp]. rewrite Hp in Ha.
  destruct (decide ((pg 0, v) = (pg 0, 0))) as [E|E].
  - simplify_eq. by eexists.
  - by rewrite andb_false_r in Ha.
Qed.

Lemma copyout_refines_write_witness :
  exists d' k res, copyout (pg 0) 4090 (repeat 7 10) (KState demo_sync demo_d3) = Ret res (KState demo_sync d')
    /\ reach (pg 0) demo_T2 demo_d3 4090 10 k res.
Proof.
  destruct (copyout_refines_write demo_sync (pg 0) demo_T2 demo_U demo_L3 demo_d3 4090 (repeat 7 10)
    demo_root (proj1 demo_vmem3) demo_uclosed ltac:(done)) as (d' & k & res & E1 & E2 & _).
  exists d', k, res. exact (conj E1 E2).
Defined.

Lemma copyin_refines_read_witness :
  exists k res, copyin (pg 0) 4090 10 (KState demo_sync demo_d3) =
      Ret (res, read_bytes (uview demo_d3 demo_U (pg 0)) 4090 (Z.to_nat k)) (KState demo_sync demo_d3)
    /\ reach (pg 0) demo_T2 demo_d3 4090 10 k res.
Proof.
  exact (copyin_refines_read demo_sync (pg 0) demo_T2 demo_U demo_L3 demo_d3 4090 10
    demo_root (proj1 demo_vmem3) demo_uclosed ltac:(done) ltac:(done)).
Defined.


(** Four bytes at address 8 of the user page. *)
Lemma demo_copyout :
  exists d', copyout (pg 0) 8 [1; 2; 3; 4] (KState demo_sync demo_d3) = Ret 0 (KState demo_sync d').
Proof.
  destruct (copyout_loop_run demo_sync (pg 0) demo_T2 demo_U demo_L3 demo_root 5 demo_d3 8 [1; 2; 3; 4]
    (proj1 demo_vmem3) demo_uclosed ltac:(done) ltac:(cbn; lia)) as (d' & k & res & E & [_ Hk] & _).
  exists d'. unfold copyout. cbn [length]. rewrite E. destruct Hk as [[-> _]|(_ & Hk & Ha)]; [done|].
  exfalso. cbn [length] in Hk. assert ((8 + k) / PGSIZE = 0) as Ek by (unfold PGSIZE; lia).
  rewrite Ek in Ha. unfold accessible in Ha. destruct demo_vmem3 as [_ Hp].
  rewrite Hp, decide_True in Ha by done. by vm_compute in Ha.
Qed.

Lemma copyout_copyin_roundtrip_witness :
  exists s', copyout (pg 0) 8 [1; 2; 3; 4] (KState demo_sync demo_d3) = Ret 0 s'
    /\ copyin (pg 0) 8 4 s' = Ret (0, [1; 2; 3; 4]) s'.
Proof.
  destruct demo_copyout as [d' E]. exists (KState demo_sync d'). split; [exact E|].
  exact (copyout_copyin_roundtrip demo_sync (pg 0) demo_T2 demo_U demo_L3 demo_d3 8 [1; 2; 3; 4] _
    demo_root (proj1 demo_vmem3) demo_uclosed ltac:(done)
    ltac:(repeat constructor; done) E).
Defined.
