(* ===== verification/UvmCopy.v ===== *)
(** * uvmcopy: a child's memory is a copy of its parent's

    The whole of uvmcopy() of vm.c, as fork() uses it, over the invariant of
    PageTable.v and the page-by-page growth of Uvm.v. *)

From S2P Require Import Prelude Mem KString Riscv State Spinlock Kalloc Vm PageTable Uvm.

#[local] Ltac Zify.zify_post_hook ::= Z.to_euclidean_division_equations.
#[local] Opaque memset memmove store_n load_n write_bytes read_bytes.

Lemma PTE_FLAGS_range e : 0 <= PTE_FLAGS e < 1024.
Proof.
  unfold PTE_FLAGS. change 0x3FF with (Z.ones 10). rewrite Z.land_ones by lia.
  apply Z.mod_pos_bound. lia.
Qed.

(** The flags of a valid entry include PTE_V. *)
Lemma flags_valid e : pte_valid e = true -> Z.lor (PTE_FLAGS e) PTE_V = PTE_FLAGS e.
Proof.
  intros Hv. unfold pte_valid in Hv. rewrite land_flags in Hv by done.
  set (f := PTE_FLAGS e) in *. change PTE_V with 1 in *.
  apply Z.bits_inj'. intros i Hi. rewrite Z.lor_spec.
  destruct (decide (i = 0)) as [->|Hne].
  - rewrite orb_true_r. change 1 with (Z.ones 1) in Hv. rewrite Z.land_ones in Hv by lia.
    rewrite Z.bit0_odd. rewrite Zodd_mod. unfold nz in Hv. change (2 ^ 1) with 2 in Hv.
    pose proof (Z.mod_pos_bound f 2). destruct (Z.eqb_spec (f mod 2) 0); [done|].
    symmetry. apply Z.eqb_eq. lia.
  - rewrite (Z.bits_above_log2 1 i) by (cbn; lia). apply orb_false_r.
Qed.

Section UvmCopy.
Context {I : Image} {IOk : ImageOk I}.
Context (y : sync) (Hy : sync_ok y) (Hk : free LKmem y) (old new sz : Z) (Hne : old <> new).
Context (d0 : data) (T0 : tabmap) (U0 : usermap) (L0 : list Z).
Context (H0 : vmem d0 T0 U0 L0).
Context (Hnew0 : T0 !! (new, 2, 0) = Some new) (Hsz : 0 <= sz <= MAXVA).
Context (Hu0 : forall v, 0 <= v < npg sz -> is_Some (U0 !! (old, v))).
Context (Hun : forall v', 0 <= v' < npg sz -> pte_valid (pte_at (d_mem d0) T0 new v') = false).

(** What the child's page [v] must hold: the parent's bytes and flags. *)
Definition pbyte (v i : Z) : Z :=
  match U0 !! (old, v) with Some pa => load8 (d_mem d0) (pa + i) | None => 0 end.
Definition pflags (v : Z) : Z := PTE_FLAGS (pte_at (d_mem d0) T0 old v).

Abbreviation cgrown v := (grown new 0 pbyte pflags v d0).

Lemma uvmcopy_step fuel v d T U L :
  cgrown v d T0 T U0 U L0 L -> 0 <= v < npg sz ->
  exists d' T' L',
   (uvmcopy_loop (S fuel) old new sz (v * PGSIZE) (KState y d) = Ret (inl (v * PGSIZE)) (KState y d')
    /\ cgrown v d' T0 T' U0 U L0 L') \/
   (exists p, uvmcopy_loop (S fuel) old new sz (v * PGSIZE) (KState y d) =
     uvmcopy_loop fuel old new sz (u64 (v * PGSIZE + PGSIZE)) (KState y d')
     /\ cgrown (v + 1) d' T0 T' U0 (<[(new, v) := p]> U) L0 L').
Proof.
  intros Hg Hv. pose proof Hg as [H Hrel Hnew Hold]. pose proof (npg_range sz Hsz) as Hnr.
  assert (v * PGSIZE < sz) as Hlt by (unfold npg, PGSIZE in *; lia).
  assert (0 <= v * PGSIZE < MAXVA) as Hva by (unfold PGSIZE in *; lia).
  destruct (Hu0 v Hv) as [pa Hpa0].
  destruct (Hold old v) as [Ho1 Ho2]; [intros [? _]; congruence|].
  assert (U !! (old, v) = Some pa) as Hpa by congruence.
  destruct (user_leaf _ _ _ _ _ _ _ H Hpa) as (a & Ha & Hr).
  destruct (vm_page _ _ _ _ H _ _ _ Hpa) as (Hpak & _ & _ & Hval & Hp2 & Hfl).
  pose proof (page_ok_pos a ltac:(eapply table_ok; [done|by eexists])).
  assert (pte_at (d_mem d) T old v = load64 (d_mem d) (a + 8 * (v mod 512))) as He
    by (unfold pte_at; by rewrite Ha).
  cbn [uvmcopy_loop]. destruct (Z.ltb_spec (v * PGSIZE) sz); [|lia].
  erewrite bind_Ret; [|eapply (walk_find y (v * PGSIZE) v); [unfold PGSIZE; lia|apply H|done|done]].
  rewrite Ha. destruct (Z.eqb_spec (a + 8 * (v mod 512)) 0); [lia|].
  rewrite (bind_Ret _ _ _ _ _ (ldpte_run _ _ _)), <- He.
  pose proof Hval as Hval'. unfold pte_valid, nz in Hval'. apply negb_true_iff in Hval'. rewrite Hval'.
  cbv zeta. rewrite Hp2. pose proof (PTE_FLAGS_range (pte_at (d_mem d) T old v)) as Hfr.
  rewrite (wrapu_small 32) by lia. destruct L as [|p L].
  { exists d, T, []. left. erewrite bind_Ret by (apply kalloc_empty_run; [done..|apply H]). done. }
  erewrite bind_Ret by (eapply kalloc_run; [done..|apply H]).
  destruct (vmem_alloc _ _ _ _ _ H) as (_ & Hp & _ & _ & Hpu). rewrite nz_page by done.
  unfold kmemmove. rewrite (bind_Ret _ _ _ _ _ (modd_run _ _ _)).
  set (m1 := memmove (d_mem (alloced p d)) p pa PGSIZE).
  assert (forall x, ~ in_page p x -> load8 m1 x = load8 (d_mem d) x) as Hm1.
  { intros x Hx'. unfold m1. rewrite load8_memmove by (unfold PGSIZE; lia).
    unfold in_page in *. zcases; try lia; apply alloced_other; lia. }
  pose proof (flags_valid _ Hval) as Hfv.
  assert (T !! (new, 2, 0) = Some new) as Hrn by (eapply lookup_weaken; [done|apply Hrel]).
  assert (pte_valid (pte_at (d_mem d) T new v) = false) as Hnv.
  { destruct (Hold new v) as [_ ->]; [lia|]. by apply Hun. }
  destruct (map_fresh y new v p (PTE_FLAGS (pte_at (d_mem d) T old v)) d m1 T U L Hy Hk H Hm1 Hrn
    ltac:(lia) Hfr ltac:(congruence) Hnv)
    as (d2 & T2 & L2 & [(E & _ & H3 & Hrel3 & Hpt)|(E & H3 & Hrel3 & Hc & Hpt)]);
    rewrite (bind_Ret _ _ _ _ _ E).
  - exists (freed p d2), T2, (p :: L2). left. change (nz (-1)) with true. cbv beta iota.
    erewrite bind_Ret by (by apply kfree_run). split; [done|]. by eapply grown_keep.
  - exists d2, T2, L2. right. exists p. split; [done|].
    eapply (grown_step new 0 (npg sz)); try done.
    + intros i Hi. rewrite Hc by (unfold in_page; lia). unfold m1.
      rewrite load8_memmove by (unfold PGSIZE; lia). unfold pbyte. rewrite Hpa0.
      replace (pa + (p + i - p)) with (pa + i) by lia.
      rewrite <- (u_keep _ _ _ _ _ _ _ _ _ Hrel _ _ (pa + i) Hpa0 Hpa) by (unfold in_page; lia).
      assert (load8 (d_mem (alloced p d)) (pa + i) = load8 (d_mem d) (pa + i)) as ->.
      { apply alloced_other. assert (p <> pa) by (intros ->; apply Hpu; by eexists).
        destruct Hp as [Hp _], Hpak as [Hpak _]. unfold PGSIZE in *. lia. }
      zcases; done || lia.
    + intros r' v'. rewrite Hpt. unfold pflags. by rewrite <- Ho2.
Qed.

Lemma uvmcopy_loop_run n : forall fuel v d T U L,
  cgrown v d T0 T U0 U L0 L -> 0 <= v -> v + Z.of_nat n = npg sz -> (n < fuel)%nat ->
  (exists d' T' U' L' j, uvmcopy_loop fuel old new sz (v * PGSIZE) (KState y d) = Ret (inl (j * PGSIZE)) (KState y d')
     /\ v <= j < npg sz /\ cgrown j d' T0 T' U0 U' L0 L') \/
  (exists d' T' U' L', uvmcopy_loop fuel old new sz (v * PGSIZE) (KState y d) = Ret (inr tt) (KState y d')
     /\ cgrown (npg sz) d' T0 T' U0 U' L0 L').
Proof.
  pose proof (npg_range sz Hsz) as Hnr. change (MAXVA / PGSIZE) with (2 ^ 26) in Hnr.
  induction n as [|n IH]; intros fuel v d T U L Hg Hv Hn Hf; (destruct fuel as [|fuel]; [lia|]).
  - right. exists d, T, U, L. cbn [uvmcopy_loop].
    destruct (Z.ltb_spec (v * PGSIZE) sz) as [Hl|_]; [unfold npg, PGSIZE in *; lia|].
    split; [done|]. by replace (npg sz) with v by lia.
  - destruct (uvmcopy_step fuel v d T U L Hg ltac:(lia)) as (d1 & T1 & L1 & [(-> & Hg1)|(p & -> & Hg1)]).
    + left. exists d1, T1, U, L1, v. split_and!; done || lia.
    + rewrite wrapu_small by (unfold PGSIZE; lia).
      replace (v * PGSIZE + PGSIZE) with ((v + 1) * PGSIZE) by lia.
      destruct (IH fuel (v + 1) d1 T1 _ L1 Hg1 ltac:(lia) ltac:(lia) ltac:(lia))
        as [(d' & T' & U' & L' & j & ? & ? & ?)|?]; [left|by right].
      exists d', T', U', L', j. split_and!; done || lia.
Qed.

End UvmCopy.

(** ** Witness: a second page table, and a copy of the demo user page *)

#[local] Existing Instances demo_image demo_image_ok.
#[local] Opaque newroot demo_d3.

Definition demo_d4 : data := newroot (pg 4) demo_d3.
Definition demo_T4 : tabmap := <[(pg 4, 2, 0) := pg 4]> demo_T2.
Definition demo_L4 : list Z := [pg 5; pg 6; pg 7].

Lemma demo_vmem4 :
  vmem demo_d4 demo_T4 demo_U demo_L4 /\
  forall r v, pte_at (d_mem demo_d4) demo_T4 r v = if decide ((r, v) = (pg 0, 0)) then demo_pte else 0.
Proof.
  destruct demo_vmem3 as [H3 Hp].
  destruct (newroot_vmem demo_d3 demo_T2 demo_U demo_L4 (pg 4) H3) as (H4 & Hp4 & _).
  split; [exact H4|]. intros r v. rewrite <- (Hp r v). apply Hp4.
Qed.

