(* ===== verification/Freewalk.v ===== *)
(** * uvmfree: a page table is given back whole

    freewalk() and uvmfree() of vm.c return every page of an address space to
    the free list: its user pages and its tables, and nothing else. *)

From S2P Require Import Prelude Mem KString Riscv State Spinlock Kalloc Vm PageTable Uvm.

#[local] Ltac Zify.zify_post_hook ::= Z.to_euclidean_division_equations.
#[local] Opaque memset memmove store_n load_n write_bytes read_bytes.

Section Freewalk.
Context {I : Image} {IOk : ImageOk I}.
Context (y : sync) (Hy : sync_ok y) (Hk : free LKmem y) (r : Z).

(** The page table before the walk, with no leaf mapped. *)
Context (m0 : mem) (T : tabmap) (H0 : pt_ok m0 T).
Context (Hleaf : forall v, pte_valid (pte_at m0 T r v) = false).

(** The tables of [r] at and below table [q] of [level]. *)
Definition subpage (level q p : Z) : Prop :=
  exists l' q', T !! (r, l', q') = Some p /\ 0 <= l' <= level /\ q' / 512 ^ (level - l') = q.

Lemma ancestor n : forall l' q' p, T !! (r, l', q') = Some p -> l' + Z.of_nat n <= 2 ->
  is_Some (T !! (r, l' + Z.of_nat n, q' / 512 ^ Z.of_nat n)).
Proof.
  induction n as [|n IH]; intros l' q' p Hp Hl.
  - rewrite Z.add_0_r, Z.div_1_r. by eexists.
  - destruct (IH l' q' p Hp ltac:(lia)) as [b Hb].
    destruct (pt_parent _ _ H0 _ _ _ _ Hb ltac:(lia)) as [c Hc]. exists c.
    replace (l' + Z.of_nat (S n)) with (l' + Z.of_nat n + 1) by lia.
    replace (q' / 512 ^ Z.of_nat (S n)) with (q' / 512 ^ Z.of_nat n / 512); [done|].
    replace (Z.of_nat (S n)) with (Z.of_nat n + 1) by lia.
    rewrite Z.pow_add_r, <- Z.div_div by (try apply Z.pow_nonzero; lia). done.
Qed.

Lemma subpage_none l q p : l <= 2 -> T !! (r, l, q) = None -> ~ subpage l q p.
Proof.
  intros Hl Hn (l' & q' & Hp & Hr & Hq).
  destruct (ancestor (Z.to_nat (l - l')) l' q' p Hp ltac:(lia)) as [b Hb].
  rewrite Z2Nat.id in Hb by lia. replace (l' + (l - l')) with l in Hb by lia. congruence.
Qed.

Lemma subpage_down l q p :
  0 < l -> subpage l q p <->
  T !! (r, l, q) = Some p \/ exists i, 0 <= i < 512 /\ subpage (l - 1) (q * 512 + i) p.
Proof.
  intros Hl.
  assert (forall l' q', l' <= l - 1 -> q' / 512 ^ (l - l') = q' / 512 ^ (l - 1 - l') / 512) as Hd.
  { intros l' q' Hl'. replace (l - l') with (l - 1 - l' + 1) by lia.
    rewrite Z.pow_add_r, <- Z.div_div by (try apply Z.pow_nonzero; lia). done. }
  split.
  - intros (l' & q' & Hp & Hr & Hq). destruct (decide (l' = l)) as [->|Hne].
    { left. rewrite Z.sub_diag, Z.pow_0_r, Z.div_1_r in Hq. by subst. }
    right. rewrite Hd in Hq by lia. exists (q' / 512 ^ (l - 1 - l') mod 512).
    split; [lia|]. exists l', q'. split_and!; try done; lia.
  - intros [Hp|(i & Hi & l' & q' & Hp & Hr & Hq)].
    + exists l, q. rewrite Z.sub_diag, Z.pow_0_r, Z.div_1_r. split_and!; done || lia.
    + exists l', q'. rewrite Hd by lia. split_and!; try done; lia.
Qed.

Lemma subpage_0 q p : subpage 0 q p <-> T !! (r, 0, q) = Some p.
Proof.
  split.
  - intros (l' & q' & Hp & Hr & Hq). assert (l' = 0) as -> by lia.
    cbn in Hq. rewrite Z.div_1_r in Hq. by subst.
  - intros Hp. exists 0, q. cbn. by rewrite Z.div_1_r.
Qed.

Lemma subpage_ok l q p : subpage l q p -> page_ok p.
Proof. intros (l' & q' & Hp & _). by destruct (pt_key _ _ H0 _ _ _ _ Hp) as (_ & _ & ?). Qed.

Lemma subpage_inj l q1 q2 p : subpage l q1 p -> subpage l q2 p -> q1 = q2.
Proof.
  intros (l1 & q1' & Hp1 & _ & <-) (l2 & q2' & Hp2 & _ & <-).
  pose proof (pt_inj _ _ H0 _ _ _ Hp1 Hp2). by simplify_eq.
Qed.

Lemma subpage_above l q q' a p : T !! (r, l, q) = Some a -> subpage (l - 1) q' p -> p <> a.
Proof.
  intros Ha (l1 & q1 & Hp1 & Hl & _) ->. pose proof (pt_inj _ _ H0 _ _ _ Ha Hp1). simplify_eq. lia.
Qed.

(** What freeing the tables [P] does, with writes only to the pages [Q]. *)
Record frees (P Q : Z -> Prop) (d d' : data) (L L' : list Z) : Prop := {
  fr_data : memchange d d';
  fr_list : freelist d' L';
  fr_elem p : p ∈ L' <-> p ∈ L \/ P p;
  fr_mem x : (forall p, Q p -> ~ in_page p x) -> load8 (d_mem d') x = load8 (d_mem d) x
}.

(** Memory still holds the tables [P] as at the start. *)
Definition intact (P : Z -> Prop) (d : data) : Prop :=
  forall p x, P p -> in_page p x -> load8 (d_mem d) x = load8 m0 x.

(** freewalk() of table [b], as the table [q] of level [l]. *)
Definition walks (fw : Z -> K unit) (l q : Z) : Prop :=
  forall b d L, T !! (r, l, q) = Some b -> intact (subpage l q) d -> freelist d L ->
  (forall p, subpage l q p -> p ∉ L) ->
  exists d' L', fw b (KState y d) = Ret tt (KState y d')
    /\ frees (subpage l q) (subpage l q) d d' L L'.

Section Level.
Context (fw : Z -> K unit) (l q a : Z) (Ha : T !! (r, l, q) = Some a) (Hl : 0 < l <= 2).
Context (IH : forall i, 0 <= i < 512 -> walks fw (l - 1) (q * 512 + i)).

(** The subtrees below the entries from [i] on. *)
Definition below (i p : Z) : Prop := exists j, i <= j < 512 /\ subpage (l - 1) (q * 512 + j) p.

Lemma below_ne i p x : below i p -> in_page a x -> ~ in_page p x.
Proof.
  intros (j & _ & Hp) Hx Hx'. eapply subpage_above; [exact Ha|exact Hp|].
  destruct (pt_key _ _ H0 _ _ _ _ Ha) as (_ & _ & Hpa).
  eapply page_eq; eauto using subpage_ok.
Qed.

Lemma clear_entry i d L :
  0 <= i < 512 -> a ∉ L -> freelist d L ->
  let d' := set_d_mem (store64 (d_mem d) (a + 8 * i) 0) d in
  freelist d' L /\ (forall x, ~ in_page a x -> load8 (d_mem d') x = load8 (d_mem d) x)
  /\ forall j, 0 <= j < 512 -> i <> j -> load64 (d_mem d') (a + 8 * j) = load64 (d_mem d) (a + 8 * j).
Proof.
  intros Hi HaL Hf d'. destruct (pt_key _ _ H0 _ _ _ _ Ha) as (_ & _ & Hpa).
  assert (forall x, ~ in_page a x -> load8 (d_mem d') x = load8 (d_mem d) x) as Hm.
  { intros x Hx. apply load8_store_n_ne. unfold in_page, PGSIZE in *. change (Z.of_nat 8) with 8. lia. }
  split_and!; [|done|].
  - eapply (freelist_frame d); [done| |done]. intros p k Hp Hk'. apply Hm. intros Hx.
    destruct HaL. rewrite (page_eq a p (p + k)); try done; [|unfold in_page; lia].
    pose proof (fl_pages _ _ Hf) as HF. rewrite Forall_forall in HF. by apply HF.
  - intros j Hj Hne. apply setpte_same; try done. congruence.
Qed.

Lemma freewalk_loop_run n : forall i d L,
  0 <= i -> i + Z.of_nat n = 512 ->
  (forall j, i <= j < 512 -> load64 (d_mem d) (a + 8 * j) = load64 m0 (a + 8 * j)) ->
  intact (below i) d -> freelist d L -> (forall p, below i p -> p ∉ L) -> a ∉ L ->
  exists d' L', freewalk_loop fw a (seqZ i (Z.of_nat n)) (KState y d) = Ret tt (KState y d')
    /\ frees (below i) (fun p => p = a \/ below i p) d d' L L' /\ a ∉ L'.
Proof.
  induction n as [|n IHn]; intros i d L Hi Hn He Hm Hf HL HaL.
  { exists d, L. split; [done|]. split; [|done]. split; [apply memchange_refl|done| |done].
    intros p. split; [auto|]. intros [?|(j & ? & _)]; [done|lia]. }
  rewrite seqZ_cons by lia. replace (Z.succ i) with (i + 1) by lia.
  replace (Z.pred (Z.of_nat (S n))) with (Z.of_nat n) by lia. cbn [freewalk_loop].
  rewrite (bind_Ret _ _ _ _ _ (ldpte_run _ _ _)), He by lia.
  pose proof (pt_child _ _ H0 _ _ _ _ i Ha ltac:(lia) ltac:(lia)) as Hc.
  assert (forall p, below i p <-> subpage (l - 1) (q * 512 + i) p \/ below (i + 1) p) as Hb.
  { intros p. split.
    - intros (j & Hj & Hp). destruct (decide (j = i)) as [->|]; [by left|]. right. exists j. split; [lia|done].
    - intros [Hp|(j & Hj & Hp)]; [exists i | exists j]; (split; [lia|done]). }
  destruct (T !! (r, l - 1, q * 512 + i)) as [b|] eqn:Hbk.
  - rewrite Hc. destruct (pt_key _ _ H0 _ _ _ _ Hbk) as (_ & _ & Hpb).
    destruct (valid_table b Hpb) as [-> ->]. destruct (page_ok_phys b Hpb).
    rewrite mkpte_flag by (done || lia). cbv zeta.
    change (Z.land (Z.lor 0 PTE_V) (Z.lor (Z.lor PTE_R PTE_W) PTE_X) =? 0) with true. cbn [andb].
    destruct (IH i ltac:(lia) b d L Hbk) as (d1 & L1 & E & F1); [|done|..].
    { intros p x Hp Hx. eapply Hm; [|done]. rewrite Hb. by left. }
    { intros p Hp. apply HL. rewrite Hb. by left. }
    rewrite (bind_Ret _ _ _ _ _ E), (bind_Ret _ _ _ _ _ (stpte_run _ _ _ _)).
    assert (a ∉ L1) as HaL1.
    { rewrite (fr_elem _ _ _ _ _ _ F1). intros [?|Hs]; [done|].
      eapply subpage_above; [exact Ha|exact Hs|done]. }
    destruct (clear_entry i d1 L1 ltac:(lia) HaL1 (fr_list _ _ _ _ _ _ F1)) as (Hf2 & Hm2 & He2).
    set (d2 := set_d_mem _ d1) in *.
    assert (forall p x, below (i + 1) p -> in_page p x -> load8 (d_mem d2) x = load8 (d_mem d) x) as Hkeep.
    { intros p x Hp Hx. rewrite Hm2 by (intros Hx'; by eapply below_ne).
      apply (fr_mem _ _ _ _ _ _ F1). intros p' Hp' Hx'. destruct Hp as (j & Hj & Hp).
      assert (p' = p) as -> by (eapply page_eq; eauto using subpage_ok).
      pose proof (subpage_inj _ _ _ _ Hp Hp'). lia. }
    destruct (IHn (i + 1) d2 L1) as (d' & L' & E' & F2 & HaL'); try done; try lia.
    { intros j Hj. rewrite He2 by lia. rewrite <- He by lia.
      apply load64_slot_frame; [|lia]. intros x Hx. apply (fr_mem _ _ _ _ _ _ F1).
      intros p Hp. apply (below_ne i); [|done]. rewrite Hb. by left. }
    { intros p x Hp Hx. rewrite (Hkeep p x Hp Hx). eapply Hm; [|done]. rewrite Hb. by right. }
    { intros p Hp. rewrite (fr_elem _ _ _ _ _ _ F1). intros [Hp'|Hs].
      - eapply HL; [|done]. rewrite Hb. by right.
      - destruct Hp as (j & Hj & Hp). pose proof (subpage_inj _ _ _ _ Hp Hs). lia. }
    exists d', L'. split; [done|]. split; [|done]. split.
    + eapply memchange_trans; [|apply F2]. apply memchange_mem, F1.
    + apply F2.
    + intros p. rewrite (fr_elem _ _ _ _ _ _ F2), (fr_elem _ _ _ _ _ _ F1), Hb. tauto.
    + intros x Hx. rewrite (fr_mem _ _ _ _ _ _ F2), Hm2, (fr_mem _ _ _ _ _ _ F1); [done|..].
      * intros p Hp. apply Hx. right. rewrite Hb. by left.
      * apply Hx. by left.
      * intros p [->|Hp]; apply Hx; [by left|]. right. rewrite Hb. by right.
  - unfold pte_valid in Hc. rewrite Hc. cbn [andb].
    assert (forall p, below i p <-> below (i + 1) p) as Hb'.
    { intros p. rewrite Hb. split; [|auto]. intros [Hs|?]; [|done].
      by apply subpage_none in Hs; [|lia|]. }
    destruct (IHn (i + 1) d L) as (d' & L' & E' & F2 & HaL'); try done; try lia.
    { intros j Hj. apply He. lia. }
    { intros p x Hp. apply Hm. by apply Hb'. }
    { intros p Hp. apply HL. by apply Hb'. }
    exists d', L'. split; [done|]. split; [|done]. destruct F2 as [A B C D]. split; try done.
    + intros p. by rewrite C, Hb'.
    + intros x Hx. apply D. intros p [->|Hp]; apply Hx; [by left|]. right. by apply Hb'.
Qed.

Lemma freewalk_level depth : fw = freewalk depth -> walks (freewalk (S depth)) l q.
Proof.
  intros Efw b d L Hb Hm Hf HL. assert (b = a) as -> by congruence.
  destruct (pt_key _ _ H0 _ _ _ _ Ha) as (_ & _ & Hpa).
  assert (forall p, subpage l q p <-> p = a \/ below 0 p) as Hs.
  { intros p. rewrite subpage_down by lia. unfold below. rewrite Ha. split.
    - intros [?|(i & ? & ?)]; [left; congruence | right; by exists i].
    - intros [->|(i & ? & ?)]; [by left | right; by exists i]. }
  destruct (freewalk_loop_run 512 0 d L) as (d1 & L1 & E & F & HaL1); try done; try lia.
  - intros j Hj. apply load64_slot_frame; [|done]. intros x Hx. apply (Hm a); [|done]. rewrite Hs. by left.
  - intros p x Hp. apply Hm. rewrite Hs. by right.
  - intros p Hp. apply HL. rewrite Hs. by right.
  - apply HL. rewrite Hs. by left.
  - cbn [freewalk]. rewrite <- Efw. change (Z.of_nat 512) with 512 in E. rewrite (bind_Ret _ _ _ _ _ E).
    rewrite kfree_run by done. exists (freed a d1), (a :: L1). split; [done|]. split.
    + eapply memchange_trans; [apply F|].
      exists (store64 (memset (d_mem d1) a 1 PGSIZE) a (d_freelist d1)), a. by destruct d1.
    + apply freed_freelist; [done..|apply F].
    + intros p. rewrite elem_of_cons, (fr_elem _ _ _ _ _ _ F), Hs. tauto.
    + intros x Hx. rewrite freed_other.
      * apply (fr_mem _ _ _ _ _ _ F). intros p Hp. apply Hx. by rewrite Hs.
      * assert (~ in_page a x) by (apply Hx; rewrite Hs; by left). unfold in_page in *. lia.
Qed.
End Level.

(** A leaf table: no entry is valid. *)
Lemma freewalk_leaf_loop fw a n : forall i d,
  0 <= i -> i + Z.of_nat n = 512 ->
  (forall j, i <= j < 512 -> pte_valid (load64 (d_mem d) (a + 8 * j)) = false) ->
  freewalk_loop fw a (seqZ i (Z.of_nat n)) (KState y d) = Ret tt (KState y d).
Proof.
  induction n as [|n IHn]; intros i d Hi Hn He; [done|].
  rewrite seqZ_cons by lia. replace (Z.succ i) with (i + 1) by lia.
  replace (Z.pred (Z.of_nat (S n))) with (Z.of_nat n) by lia. cbn [freewalk_loop].
  rewrite (bind_Ret _ _ _ _ _ (ldpte_run _ _ _)). pose proof (He i ltac:(lia)) as H.
  unfold pte_valid in H. rewrite H. cbn [andb]. apply IHn; try lia. intros j Hj. apply He. lia.
Qed.

Lemma freewalk_leaf q : walks (freewalk 1) 0 q.
Proof.
  intros a d L Ha Hm Hf HL. destruct (pt_key _ _ H0 _ _ _ _ Ha) as (_ & Hq & Hpa).
  assert (forall p, subpage 0 q p <-> p = a) as Hs.
  { intros p. rewrite subpage_0, Ha. split; congruence. }
  cbn [freewalk]. erewrite bind_Ret.
  2: { apply (freewalk_leaf_loop _ a 512 0 d); try lia. intros j Hj.
       rewrite (load64_slot_frame m0); [|intros x Hx; apply (Hm a); [by rewrite Hs|done]|done].
       specialize (Hleaf (q * 512 + j)). unfold pte_at in Hleaf.
       replace ((q * 512 + j) / 512) with q in Hleaf by lia.
       replace ((q * 512 + j) mod 512) with j in Hleaf by lia. by rewrite Ha in Hleaf. }
  rewrite kfree_run by done. exists (freed a d), (a :: L). split; [done|]. split.
  - exists (store64 (memset (d_mem d) a 1 PGSIZE) a (d_freelist d)), a. by destruct d.
  - apply freed_freelist; [done| |done]. apply HL. by rewrite Hs.
  - intros p. rewrite elem_of_cons, Hs. tauto.
  - intros x Hx. apply freed_other. assert (~ in_page a x) by (apply Hx; by rewrite Hs). unfold in_page in *. lia.
Qed.

Lemma freewalk_root : walks (freewalk 3) 2 0.
Proof.
  intros a d L Ha.
  eapply (freewalk_level (freewalk 2) 2 0 a Ha ltac:(lia)); [|done|done]. intros i Hi b d' L' Hb.
  eapply (freewalk_level (freewalk 1) 1 (0 * 512 + i) b Hb ltac:(lia)); [|done|done]. intros j Hj.
  apply freewalk_leaf.
Qed.
End Freewalk.

Section Uvmfree.
Context {I : Image} {IOk : ImageOk I}.

(** Everything of [r] is gone from the map, the rest is as before. *)
Definition without {A B} `{Countable B} (root : B -> Z) (r : Z) (M M' : gmap B A) : Prop :=
  forall k, M' !! k = if decide (root k = r) then None else M !! k.

Lemma without_exists {A B} `{Countable B} (root : B -> Z) r (M : gmap B A) :
  exists M', without root r M M'.
Proof.
  exists (filter (fun kx => root kx.1 <> r) M). intros k.
  rewrite map_lookup_filter. destruct (M !! k) as [x|]; cbn; [|by case_decide].
  case_decide as E; destruct (decide (root k = r)) as [E'|E'];
    [by rewrite option_guard_False by (cbn; tauto)|by rewrite option_guard_True|..];
    try done; by rewrite option_guard_True.
Qed.

Definition troot (k : Z * Z * Z) : Z := k.1.1.
Definition uroot (k : Z * Z) : Z := k.1.

Lemma subpage_all m T r p :
  pt_ok m T -> subpage r T 2 0 p <-> exists l q, T !! (r, l, q) = Some p.
Proof.
  intros H. split; [intros (l & q & Hp & _); by exists l, q|]. intros (l & q & Hp). exists l, q.
  destruct (pt_key _ _ H _ _ _ _ Hp) as (Hl & _). split_and!; try done; try lia.
  destruct (ancestor r m T H (Z.to_nat (2 - l)) l q p Hp ltac:(lia)) as [b Hb].
  rewrite Z2Nat.id in Hb by lia. replace (l + (2 - l)) with 2 in Hb by lia.
  by destruct (pt_top _ _ H _ _ _ Hb).
Qed.

(** After freewalk() of an address space without user pages. *)
Lemma freed_tables_vmem r d d' T T' U L L' :
  vmem d T U L -> (forall v, U !! (r, v) = None) -> without troot r T T' ->
  frees (subpage r T 2 0) (subpage r T 2 0) d d' L L' ->
  vmem d' T' U L' /\ (forall a, managed T' U L' a <-> managed T U L a)
  /\ (forall k a x, U !! k = Some a -> in_page a x -> load8 (d_mem d') x = load8 (d_mem d) x).
Proof.
  intros H HU HT [_ Fl Fe Fm]. pose proof H as [H1 H2 H3 H4 H5 H6 H7].
  assert (forall k a, T' !! k = Some a -> T !! k = Some a /\ troot k <> r) as Hk.
  { intros k a. rewrite HT. by case_decide. }
  assert (forall r' l q a, r' <> r -> T !! (r', l, q) = Some a -> ~ subpage r T 2 0 a) as Hns.
  { intros r' l q a Hr Ha (l' & q' & Ha' & _). pose proof (pt_inj _ _ H1 _ _ _ Ha Ha'). congruence. }
  assert (forall r' l q a x, r' <> r -> T !! (r', l, q) = Some a -> in_page a x ->
            load8 (d_mem d') x = load8 (d_mem d) x) as Htm.
  { intros r' l q a x Hr Ha Hx. apply Fm. intros p Hp Hx'. eapply Hns; [exact Hr|exact Ha|].
    assert (is_table T a) by by eexists.
    by rewrite (page_eq a p x) by eauto using table_ok, subpage_ok. }
  assert (forall k a x, U !! k = Some a -> in_page a x -> load8 (d_mem d') x = load8 (d_mem d) x) as Hum.
  { intros k a x Ha Hx. apply Fm. intros p Hp Hx'. assert (is_user U a) as Hau by by eexists.
    eapply (H7 a); [done|]. rewrite (page_eq a p x) by eauto using user_ok, subpage_ok.
    destruct Hp as (l & q & Hp & _). by eexists. }
  assert (forall r' v, r' <> r -> pte_at (d_mem d') T' r' v = pte_at (d_mem d) T r' v) as Hpt.
  { intros r' v Hr. unfold pte_at. rewrite HT, decide_False by done.
    destruct (T !! (r', 0, v / 512)) as [a|] eqn:Ha; [|done]. apply load64_slot_frame; [|lia].
    intros x. by eapply Htm. }
  split_and!; [|..|done].
  - split; [|done|..].
    + destruct H1 as [K1 K2 K3 K4 K5]. split.
      * intros r' l q a [Ha _]%Hk. by eapply K1.
      * intros r' q a [Ha _]%Hk. by eapply K2.
      * intros k1 k2 a [Ha _]%Hk [Hb _]%Hk. by eapply K3.
      * intros r' l q a i [Ha Hr]%Hk Hl Hi. rewrite HT, decide_False by done.
        rewrite (load64_slot_frame (d_mem d)); [by apply K4| |done]. intros x. by eapply Htm.
      * intros r' l q a [Ha Hr]%Hk Hl. rewrite HT, decide_False by done. by eapply K5.
    + intros a [[[r' l] q] Ha]. apply Hk in Ha as [Ha Hr]. rewrite Fe. intros [?|Hs].
      * eapply H3; [|done]. by eexists.
      * by eapply Hns.
    + intros r' v a Ha. assert (r' <> r) as Hr by (intros ->; rewrite HU in Ha; done).
      rewrite Hpt by done. destruct (H4 _ _ _ Ha) as (? & ? & ? & ?). split_and!; try done; try lia; try tauto.
      rewrite HT, decide_False by done. done.
    + done.
    + intros a Ha. rewrite Fe. intros [?|(l & q & Hp & _)]; [by eapply H6|].
      eapply (H7 a); [done|]. by eexists.
    + intros a Ha [k Hk']. apply Hk in Hk' as [Hk' _]. eapply (H7 a); [done|]. by eexists.
  - intros a. unfold managed. rewrite Fe, (subpage_all _ T r a H1). unfold is_table. split.
    + intros [[?|(l & q & ?)]|[?|[k Hka]]]; eauto. apply Hk in Hka as [Hka _]. eauto.
    + intros [?|[?|[[[r' l] q] Hka]]]; eauto. destruct (decide (r' = r)) as [->|Hr]; [eauto|].
      right. right. exists (r', l, q). by rewrite HT, decide_False.
Qed.

(** C25: uvmfree() of an address space of [sz] bytes whose only mappings are its
    user pages: the page table and its user pages are gone and back on the free
    list, no page is lost, and the memory of every other page table is as it
    was. *)
Theorem uvmfree_spec y r sz d T U L :
  sync_ok y -> free LKmem y -> vmem d T U L -> T !! (r, 2, 0) = Some r ->
  0 <= sz <= MAXVA -> uspace U r sz ->
  (forall v, ~ (0 <= v < npg sz) -> pte_valid (pte_at (d_mem d) T r v) = false) ->
  exists d' T' U' L', uvmfree r sz (KState y d) = Ret tt (KState y d')
    /\ vmem d' T' U' L' /\ without troot r T T' /\ without uroot r U U'
    /\ (forall a, managed T' U' L' a <-> managed T U L a)
    /\ (forall r' v a x, r' <> r -> U !! (r', v) = Some a -> in_page a x ->
          load8 (d_mem d') x = load8 (d_mem d) x).
Proof.
  intros Hy Hk H Hr Hsz Hu Hinv. pose proof (npg_range sz Hsz) as Hn.
  assert (unmapped y r 0 (npg sz) d T U L
    (when (0 <? sz) (uvmunmap r 0 (PGROUNDUP sz / PGSIZE) 1) (KState y d))) as Hun.
  { rewrite PGROUNDUP_npg by done.
    replace (npg sz * PGSIZE / PGSIZE) with (npg sz) by (unfold PGSIZE; lia).
    destruct (Z.ltb_spec 0 sz); unfold when.
    - pose proof (uvmunmap_run y Hy Hk r 0 (npg sz) d T U L H ltac:(lia) ltac:(lia) ltac:(lia)) as Hx.
      apply Hx. intros i Hi. apply Hu. lia.
    - assert (npg sz = 0) as -> by (unfold npg, PGSIZE in *; lia).
      exists d, U, L. split_and!; try done; [apply uvmrel_refl|..];
        intros r' v'; by rewrite decide_False by lia. }
  destruct Hun as (d1 & U1 & L1 & E1 & H1 & Hrel & Hm & Hpte).
  unfold uvmfree. rewrite (bind_Ret _ _ _ _ _ E1).
  destruct (freewalk_root y Hy Hk r (d_mem d1) T (vm_pt _ _ _ _ H1)) with (b := r) (d := d1) (L := L1)
    as (d2 & L2 & E2 & F); try done.
  - intros v. rewrite Hpte. case_decide; [done|]. apply Hinv. lia.
  - apply H1.
  - intros p (l & q & Hp & _). apply H1. by eexists.
  - assert (forall v, U1 !! (r, v) = None) as HU1.
    { intros v. rewrite Hm. case_decide as Hd; [done|].
      destruct (U !! (r, v)) as [a|] eqn:Ha; [|done]. destruct Hd. split; [done|].
      apply Hu. by eexists. }
    destruct (without_exists troot r T) as [T' HT'].
    destruct (freed_tables_vmem r d1 d2 T T' U1 L1 L2 H1 HU1 HT' F) as (H2 & Hman & Hkeep).
    exists d2, T', U1, L2. split_and!; try done.
    + intros [r' v]. destruct (decide (uroot (r', v) = r)) as [E|E]; cbn in E.
      * subst. apply HU1.
      * rewrite Hm, decide_False; [done|]. tauto.
    + intros a. by rewrite Hman, (u_managed _ _ _ _ _ _ _ _ _ Hrel).
    + intros r' v a x Hr' Ha Hx. assert (U1 !! (r', v) = Some a) as Ha1.
      { rewrite Hm, decide_False; [done|]. tauto. }
      rewrite (Hkeep _ _ _ Ha1 Hx). by apply (u_keep _ _ _ _ _ _ _ _ _ Hrel _ _ _ Ha Ha1).
Qed.
End Uvmfree.

(** ** Witness: the demo address space of one page *)

#[local] Existing Instances demo_image demo_image_ok.
#[local] Opaque demo_d3.

Lemma uvmfree_spec_witness :
  exists d' T' U' L', uvmfree (pg 0) PGSIZE (KState demo_sync demo_d3) = Ret tt (KState demo_sync d')
    /\ vmem d' T' U' L' /\ without troot (pg 0) demo_T2 T' /\ without uroot (pg 0) demo_U U'.
Proof.
  destruct demo_vmem3 as [H3 Hp3].
  destruct (uvmfree_spec demo_sync (pg 0) PGSIZE demo_d3 demo_T2 demo_U demo_L3)
    as (d' & T' & U' & L' & E1 & E2 & E3 & E4 & _).
  - apply demo_sync_ok.
  - by eexists.
  - exact H3.
  - done.
  - done.
  - apply demo_uspace.
  - intros v Hv. change (npg PGSIZE) with 1 in Hv.
    rewrite Hp3, decide_False; [done|]. intros E. apply Hv. injection E as ->. lia.
  - exists d', T', U', L'. exact (conj E1 (conj E2 (conj E3 E4))).
Defined.
