(* ===== verification/Proc.v ===== *)
(** * kernel/proc.c: processes

    The process table, sleep and wakeup, and the operations that do not reach
    the file system; fork(), exit(), userinit() and forkret() are in
    ProcLife.v, the scheduler is in Sched.v.  A process is its index in
    [proc[]]; loops over the table are recursions over lists of indices. *)

From S2P Require Import Prelude Mem KString Riscv State Spinlock Kalloc Vm.

(** A loop that sleeps until a condition holds can be woken any number of
    times; [rounds] bounds the number of times it looks. *)
Class Budget : Type := rounds : nat.

(** ** struct trapframe: offsets of the fields the kernel uses *)

Definition TF_kernel_satp : Z := 0.
Definition TF_kernel_sp : Z := 8.
Definition TF_kernel_trap : Z := 16.
Definition TF_epc : Z := 24.
Definition TF_kernel_hartid : Z := 32.
Definition TF_sp : Z := 48.
Definition TF_a0 : Z := 112.
Definition TF_a1 : Z := 120.
Definition TF_a2 : Z := 128.
Definition TF_a3 : Z := 136.
Definition TF_a4 : Z := 144.
Definition TF_a5 : Z := 152.
Definition TF_a7 : Z := 168.
Definition TF_SIZE : Z := 288.

(** [p->trapframe->f] and its assignment. *)
Definition get_tf (p : nat) (f : Z) : K Z :=
  tf ← getp p p_trapframe; getd (fun d => load64 (d_mem d) (tf + f)).
Definition set_tf (p : nat) (f v : Z) : K unit :=
  tf ← getp p p_trapframe; modd (fun d => set_d_mem (store64 (d_mem d) (tf + f) v) d).

(** The address of [*p] as a channel. *)
Definition chan_of (p : option nat) : chan :=
  match p with Some i => CProc i | None => CNull end.

(** Where a kernel routine is told to copy to: a user address, a physical
    address, or a local variable of its caller, whose bytes it returns. *)
Inductive dest : Type := ToUser (va : Z) | ToMem (pa : Z) | ToLocal.
Inductive source : Type := FromUser (va : Z) | FromMem (pa : Z) | FromLocal (bs : list Z).

(** The pair [user_dst], [dst] of a device's read() and write(). *)
Definition dest_at (user : bool) (a : Z) : dest := if user then ToUser a else ToMem a.
Definition source_at (user : bool) (a : Z) : source := if user then FromUser a else FromMem a.

Section Proc.
Context {I : Image} {B : Budget}.

(** ** Initialisation *)

Definition procinit : K unit :=
  initlock LPid "nextpid";;
  initlock LWait "wait_lock";;
  for_each (seq 0 NPROC) (fun p =>
    initlock (LProc p) "proc";;
    modp p (set_p_state UNUSED);;
    modp p (set_p_kstack (KSTACK (Z.of_nat p)));;
    modp p (set_p_accumulator 0);;
    modp p (set_p_ps_priority 5);;
    modp p (set_p_cfs_priority 0);;
    modp p (set_p_rtime 0);;
    modp p (set_p_retime 0);;
    modp p (set_p_stime 0)).

Definition set_policy (policy : Z) : K Z :=
  modd (set_d_sched_policy policy);;
  mret 0.

Definition allocpid : K Z :=
  acquire LPid;;
  pid ← getd d_nextpid;
  modd (set_d_nextpid (s32 (pid + 1)));;
  release LPid;;
  mret pid.

(** ** Page tables of processes *)

Definition proc_pagetable (p : nat) : K Z :=
  pagetable ← uvmcreate;
  if pagetable =? 0 then mret 0
  else
    r ← mappages pagetable TRAMPOLINE PGSIZE trampoline (Z.lor PTE_R PTE_X);
    if r <? 0 then uvmfree pagetable 0;; mret 0
    else
      tf ← getp p p_trapframe;
      r ← mappages pagetable TRAPFRAME PGSIZE tf (Z.lor PTE_R PTE_W);
      if r <? 0 then
        uvmunmap pagetable TRAMPOLINE 1 0;;
        uvmfree pagetable 0;;
        mret 0
      else mret pagetable.

Definition proc_freepagetable (pagetable sz : Z) : K unit :=
  uvmunmap pagetable TRAMPOLINE 1 0;;
  uvmunmap pagetable TRAPFRAME 1 0;;
  uvmfree pagetable sz.

(** ** Allocation of a process *)

Definition freeproc (p : nat) : K unit :=
  tf ← getp p p_trapframe;
  when (nz tf) (kfree tf);;
  modp p (set_p_trapframe 0);;
  pt ← getp p p_pagetable;
  sz ← getp p p_sz;
  when (nz pt) (proc_freepagetable pt sz);;
  modp p (set_p_pagetable 0);;
  modp p (set_p_sz 0);;
  modp p (set_p_pid 0);;
  modp p (set_p_parent None);;
  modp p (fun q => set_p_name (<[O := 0]> (p_name q)) q);;
  modp p (set_p_chan CNull);;
  modp p (set_p_killed 0);;
  modp p (set_p_xstate 0);;
  modp p (set_p_state UNUSED).

(** The search loop: the first UNUSED process, with its lock held. *)
Fixpoint allocproc_scan (ps : list nat) : K (option nat) :=
  match ps with
  | [] => mret None
  | p :: ps' =>
      acquire (LProc p);;
      st ← getp p p_state;
      if decide (st = UNUSED) then mret (Some p)
      else release (LProc p);; allocproc_scan ps'
  end.

Definition allocproc : K (option nat) :=
  found ← allocproc_scan (seq 0 NPROC);
  match found with
  | None => mret None
  | Some p =>
      pid ← allocpid;
      modp p (set_p_pid pid);;
      modp p (set_p_state USED);;
      tf ← kalloc;
      modp p (set_p_trapframe tf);;
      if tf =? 0 then freeproc p;; release (LProc p);; mret None
      else
        pt ← proc_pagetable p;
        modp p (set_p_pagetable pt);;
        if pt =? 0 then freeproc p;; release (LProc p);; mret None
        else
          ks ← getp p p_kstack;
          modp p (set_p_context
            (Context forkret_addr (u64 (ks + PGSIZE)) 0 0 0 0 0 0 0 0 0 0 0 0));;
          mret (Some p)
  end.

Definition growproc (n : Z) : K Z :=
  cur ← myproc;
  p ← deref cur;
  sz ← getp p p_sz;
  pt ← getp p p_pagetable;
  if 0 <? n then
    sz' ← uvmalloc pt sz (u64 (sz + n)) PTE_W;
    if sz' =? 0 then mret (-1) else modp p (set_p_sz sz');; mret 0
  else if n <? 0 then
    sz' ← uvmdealloc pt sz (u64 (sz + n));
    modp p (set_p_sz sz');; mret 0
  else modp p (set_p_sz sz);; mret 0.

(** ** Sleep and wakeup *)

Definition sched : K unit :=
  cur ← myproc;
  p ← deref cur;
  h ← holding (LProc p);
  if negb h then panic "sched p->lock"
  else
    noff ← getc c_noff;
    if negb (noff =? 1) then panic "sched locks"
    else
      st ← getp p p_state;
      if decide (st = RUNNING) then panic "sched running"
      else
        on ← intr_get;
        if nz on then panic "sched interruptible"
        else
          intena ← getc c_intena;
          swtch;;
          modc (set_c_intena intena).

Definition yield : K unit :=
  cur ← myproc;
  p ← deref cur;
  acquire (LProc p);;
  modp p (set_p_state RUNNABLE);;
  sched;;
  release (LProc p).

Definition sleep (ch : chan) (lk : lockid) : K unit :=
  cur ← myproc;
  p ← deref cur;
  acquire (LProc p);;
  release lk;;
  modp p (set_p_chan ch);;
  modp p (set_p_state SLEEPING);;
  sched;;
  modp p (set_p_chan CNull);;
  release (LProc p);;
  acquire lk.

Definition wakeup (ch : chan) : K unit :=
  for_each (seq 0 NPROC) (fun p =>
    cur ← myproc;
    when (negb (bool_decide (cur = Some p)))
      (acquire (LProc p);;
       st ← getp p p_state;
       pch ← getp p p_chan;
       when (bool_decide (st = SLEEPING) && bool_decide (pch = ch))
         (modp p (set_p_state RUNNABLE);;
          acc ← getd d_min_accumulator;
          modp p (set_p_accumulator acc));;
       release (LProc p))).

(** ** Killing *)

Fixpoint kill_loop (ps : list nat) (pid : Z) : K Z :=
  match ps with
  | [] => mret (-1)
  | p :: ps' =>
      acquire (LProc p);;
      ppid ← getp p p_pid;
      if ppid =? pid then
        modp p (set_p_killed 1);;
        st ← getp p p_state;
        when (bool_decide (st = SLEEPING)) (modp p (set_p_state RUNNABLE));;
        release (LProc p);;
        mret 0
      else release (LProc p);; kill_loop ps' pid
  end.

Definition kill (pid : Z) : K Z := kill_loop (seq 0 NPROC) pid.

Definition setkilled (p : nat) : K unit :=
  acquire (LProc p);;
  modp p (set_p_killed 1);;
  release (LProc p).

Definition killed (p : nat) : K Z :=
  acquire (LProc p);;
  k ← getp p p_killed;
  release (LProc p);;
  mret k.

(** ** Parents and children *)

Definition reparent (p : nat) : K unit :=
  for_each (seq 0 NPROC) (fun pp =>
    par ← getp pp p_parent;
    when (bool_decide (par = Some p))
      (init ← getd d_initproc;
       modp pp (set_p_parent init);;
       wakeup (chan_of init))).

(** One scan of wait() over the table: [inl r] is [return r], [inr havekids]
    the end of the loop. *)
Fixpoint wait_scan (pps : list nat) (p : nat) (addr dst : Z) (havekids : bool) : K (Z + bool) :=
  match pps with
  | [] => mret (inr havekids)
  | pp :: pps' =>
      par ← getp pp p_parent;
      if bool_decide (par = Some p) then
        acquire (LProc pp);;
        st ← getp pp p_state;
        if decide (st = ZOMBIE) then
          pid ← getp pp p_pid;
          pt ← getp p p_pagetable;
          xstate ← getp pp p_xstate;
          r ← (if nz addr then copyout pt addr (le_bytes 4 xstate) else mret 0);
          if r <? 0 then release (LProc pp);; release LWait;; mret (inl (-1))
          else
            msg ← getp pp p_exit_msg;
            r ← (if nz dst then copyout pt dst msg else mret 0);
            if r <? 0 then release (LProc pp);; release LWait;; mret (inl (-1))
            else
              freeproc pp;;
              release (LProc pp);;
              release LWait;;
              mret (inl pid)
        else release (LProc pp);; wait_scan pps' p addr dst true
      else wait_scan pps' p addr dst havekids
  end.

Fixpoint wait_loop (fuel : nat) (p : nat) (addr dst : Z) : K Z :=
  match fuel with
  | O => fun s => OutOfFuel s
  | S fuel' =>
      r ← wait_scan (seq 0 NPROC) p addr dst false;
      match r with
      | inl ret => mret ret
      | inr havekids =>
          k ← (if (havekids : bool) then killed p else mret 1);
          if nz k then release LWait;; mret (-1)
          else sleep (CProc p) LWait;; wait_loop fuel' p addr dst
      end
  end.

Definition wait (addr dst : Z) : K Z :=
  cur ← myproc;
  p ← deref cur;
  acquire LWait;;
  wait_loop rounds p addr dst.

(** ** Scheduling statistics *)

Fixpoint get_ps_priority_loop (ps : list nat) (id : Z) (toreturn : option nat) : K (option nat) :=
  match ps with
  | [] => mret toreturn
  | p :: ps' =>
      acquire (LProc p);;
      pid ← getp p p_pid;
      release (LProc p);;
      get_ps_priority_loop ps' id (if pid =? id then Some p else toreturn)
  end.

Definition get_ps_priority (id : Z) : K (option nat) :=
  get_ps_priority_loop (seq 0 NPROC) id None.

Definition cfs_update : K unit :=
  myproc;;
  for_each (seq 0 NPROC) (fun p =>
    acquire (LProc p);;
    st ← getp p p_state;
    match st with
    | RUNNABLE => modp p (fun q => set_p_retime (s32 (p_retime q + 1)) q)
    | SLEEPING => modp p (fun q => set_p_stime (s32 (p_stime q + 1)) q)
    | RUNNING => modp p (fun q => set_p_rtime (s32 (p_rtime q + 1)) q)
    | _ => mret tt
    end;;
    release (LProc p)).

Fixpoint get_cfs_stats_loop (ps : list nat) (add pid : Z) : K Z :=
  match ps with
  | [] => mret (-1)
  | p :: ps' =>
      acquire (LProc p);;
      ppid ← getp p p_pid;
      if ppid =? pid then
        prio ← getp p p_cfs_priority;
        rt ← getp p p_rtime;
        st ← getp p p_stime;
        ret ← getp p p_retime;
        pt ← getp p p_pagetable;
        r ← copyout pt add (le_bytes 4 prio ++ le_bytes 4 rt ++ le_bytes 4 st ++ le_bytes 4 ret);
        release (LProc p);;
        mret (if r <? 0 then -1 else 0)
      else release (LProc p);; get_cfs_stats_loop ps' add pid
  end.

Definition get_cfs_stats (add pid : Z) : K Z := get_cfs_stats_loop (seq 0 NPROC) add pid.

(** ** Copying to and from the current process or the kernel *)

(** The result is the return value and the bytes a local variable receives. *)
Definition either_copyout (dst : dest) (src : list Z) : K (Z * list Z) :=
  cur ← myproc;
  match dst with
  | ToUser va =>
      p ← deref cur;
      pt ← getp p p_pagetable;
      r ← copyout pt va src;
      mret (r, [])
  | ToMem pa => kwrite pa src;; mret (0, [])
  | ToLocal => mret (0, src)
  end.

Definition either_copyin (src : source) (len : Z) : K (Z * list Z) :=
  cur ← myproc;
  match src with
  | FromUser va =>
      p ← deref cur;
      pt ← getp p p_pagetable;
      copyin pt va len
  | FromMem pa => getd (fun d => (0, read_bytes (d_mem d) pa (Z.to_nat len)))
  | FromLocal bs => mret (0, take (Z.to_nat len) bs)
  end.
End Proc.
