(* ===== verification/Sched.v ===== *)
(** * The scheduler of proc.c, with its three policies

    scheduler() loops forever; [scheduler_round] is one iteration of its
    [for(;;)], and [scheduler] runs a number of rounds.  [swtch] is the switch
    to the chosen process: the round goes on when that process gives the CPU
    back. *)

From S2P Require Import Prelude Mem KString Riscv State Spinlock Kalloc Vm Proc.

(** [divw], the 32-bit signed division of RISC-V, which C's [/] compiles to. *)
Definition divw (a b : Z) : Z := if b =? 0 then -1 else s32 (Z.quot a b).

Section Sched.
Context {I : Image} {B : Budget}.

(** [c->proc = v] *)
Definition setcproc (c : nat) (v : option nat) : K unit :=
  mody (fun y => set_y_cpus (alter (set_c_proc v) c (y_cpus y)) y).

(** Switch to process [p], whose lock is held, if it is RUNNABLE. *)
Definition run_proc (c p : nat) : K unit :=
  st ← getp p p_state;
  when (bool_decide (st = RUNNABLE))
    (modp p (set_p_state RUNNING);;
     setcproc c (Some p);;
     swtch;;
     setcproc c None).

(** case 0: original scheduler *)
Definition policy_rr (c : nat) : K unit :=
  for_each (seq 0 NPROC) (fun p =>
    acquire (LProc p);;
    run_proc c p;;
    release (LProc p)).

(** case 1: priority scheduler; the scan for the least accumulator, with
    [min_proc], [min_acc] and [proc_counter]. *)
Fixpoint ps_scan (h : nat) (ps : list nat) (min_proc : option nat) (min_acc proc_counter : Z)
    : K (option nat * Z * Z) :=
  match ps with
  | [] => mret (min_proc, min_acc, proc_counter)
  | p :: ps' =>
      acquire (LProc p);;
      st ← getp p p_state;
      if bool_decide (st = RUNNABLE) || bool_decide (st = RUNNING) then
        acquire (LCounter h);;
        let proc_counter := s32 (proc_counter + 1) in
        release (LCounter h);;
        acc ← getp p p_accumulator;
        if (acc <? min_acc) || (proc_counter =? 0) then
          modd (set_d_min_accumulator acc);;
          release (LProc p);;
          ps_scan h ps' (Some p) acc proc_counter
        else
          release (LProc p);;
          ps_scan h ps' min_proc min_acc proc_counter
      else
        release (LProc p);;
        ps_scan h ps' min_proc min_acc proc_counter
  end.

Definition policy_ps (c : nat) : K unit :=
  '(min_proc, _, proc_counter) ← ps_scan c (seq 0 NPROC) None LLONG_MAX 0;
  match min_proc with
  | None => mret tt
  | Some p =>
      acquire (LProc p);;
      when (proc_counter =? 1)
        (modp p (set_p_accumulator 0);;
         modd (set_d_min_accumulator 0));;
      run_proc c p;;
      release (LProc p)
  end.

(** case 2: Completely Fair Scheduler *)
Definition decay_of (prio decay_factor : Z) : Z :=
  match prio with 0 => 75 | 1 => 100 | 2 => 125 | _ => decay_factor end.

Definition vruntime_of (decay_factor : Z) (q : proc) : Z :=
  s32 (decay_factor * divw (p_rtime q) (s32 (s32 (p_rtime q + p_stime q) + p_retime q))).

Fixpoint cfs_scan (ps : list nat) (min_proc : option nat) (min_vruntime decay_factor : Z)
    : K (option nat * Z) :=
  match ps with
  | [] => mret (min_proc, decay_factor)
  | p :: ps' =>
      acquire (LProc p);;
      prio ← getp p p_cfs_priority;
      let decay_factor := decay_of prio decay_factor in
      vruntime ← getp p (vruntime_of decay_factor);
      st ← getp p p_state;
      release (LProc p);;
      if bool_decide (st = RUNNABLE) && (vruntime <? min_vruntime)
      then cfs_scan ps' (Some p) vruntime decay_factor
      else cfs_scan ps' min_proc min_vruntime decay_factor
  end.

(** The round leaves [decay_factor] for the next one. *)
Definition policy_cfs (c : nat) (decay_factor : Z) : K Z :=
  '(min_proc, decay_factor) ← cfs_scan (seq 0 NPROC) None INT_MAX decay_factor;
  match min_proc with
  | None => mret decay_factor
  | Some p =>
      acquire (LProc p);;
      run_proc c p;;
      release (LProc p);;
      mret decay_factor
  end.

Definition scheduler_round (c : nat) (decay_factor : Z) : K Z :=
  intr_on;;
  acquire (LCounter c);;
  release (LCounter c);;
  policy ← getd d_sched_policy;
  match policy with
  | 0 => policy_rr c;; mret decay_factor
  | 1 => policy_ps c;; mret decay_factor
  | 2 => policy_cfs c decay_factor
  | _ => mret decay_factor
  end.

Fixpoint scheduler_loop (fuel : nat) (c : nat) (decay_factor : Z) : K unit :=
  match fuel with
  | O => fun s => OutOfFuel s
  | S fuel' =>
      decay_factor ← scheduler_round c decay_factor;
      scheduler_loop fuel' c decay_factor
  end.

Definition scheduler : K unit :=
  c ← mycpu;
  initlock (LCounter c) "counter";;
  scheduler_loop rounds c 100.
End Sched.
