(* ===== verification/ProcSpec.v ===== *)
(** * Processes: what the operations of proc.c do

    wakeup(), kill(), cfs_update() and the others as functions on the process
    table, and sleep() with the state it gives the CPU away in. *)

From S2P Require Import Prelude Mem KString Riscv State Spinlock Kalloc Vm Proc.

(** ** Loops over the process table *)

Lemma alter_middle {A} (f : A -> A) (l1 l2 : list A) x :
  alter f (length l1) (l1 ++ x :: l2) = l1 ++ f x :: l2.
Proof. rewrite alter_app_r_alt by lia. by rewrite Nat.sub_diag. Qed.

Lemma upd_proc_comp i f g d : upd_proc i f (upd_proc i g d) = upd_proc i (f ∘ g) d.
Proof. unfold upd_proc. cbn. by rewrite alter_comp. Qed.

Lemma set_procs_procs l l' d : set_d_procs l (set_d_procs l' d) = set_d_procs l d.
Proof. reflexivity. Qed.

Lemma set_procs_id d : set_d_procs (d_procs d) d = d.
Proof. by destruct d. Qed.

Lemma length_upd_proc i f d : length (d_procs (upd_proc i f d)) = length (d_procs d).
Proof. apply length_alter. Qed.

Lemma proc_of_lookup d i p : d_procs d !! i = Some p -> proc_of d i = p.
Proof. apply list_lookup_total_correct. Qed.

Lemma lookup_proc_of d i : (i < length (d_procs d))%nat -> d_procs d !! i = Some (proc_of d i).
Proof. intros Hi. unfold proc_of. by apply list_lookup_lookup_total_lt. Qed.

Lemma proc_of_upd_eq i f d :
  (i < length (d_procs d))%nat -> proc_of (upd_proc i f d) i = f (proc_of d i).
Proof.
  intros Hi. apply proc_of_lookup. cbn. rewrite list_lookup_alter_eq.
  by rewrite (lookup_proc_of d i Hi).
Qed.

Lemma proc_of_upd_ne i j f d : i <> j -> proc_of (upd_proc i f d) j = proc_of d j.
Proof. intros H. unfold proc_of. cbn. by rewrite list_lookup_total_alter_ne. Qed.

Lemma upd_proc_ext i f g d :
  f (proc_of d i) = g (proc_of d i) -> upd_proc i f d = upd_proc i g d.
Proof.
  intros E. unfold upd_proc. f_equal. apply list_eq. intros j.
  destruct (decide (i = j)) as [<-|Hne]; [|by rewrite !list_lookup_alter_ne].
  rewrite !list_lookup_alter_eq. destruct (d_procs d !! i) as [p|] eqn:Hp; [|done].
  cbn. rewrite <- (proc_of_lookup d i p Hp). by rewrite E.
Qed.

Lemma upd_proc_id i f d : f (proc_of d i) = proc_of d i -> upd_proc i f d = d.
Proof.
  intros E. rewrite (upd_proc_ext i f id) by done. unfold upd_proc.
  rewrite list_alter_id by done. apply set_procs_id.
Qed.

(** A loop whose body changes the process it is at, by [g]. *)
Lemma for_each_procs (body : nat -> K unit) (g : nat -> proc -> proc) (P : data -> Prop) y :
  (forall i d, (i < NPROC)%nat -> P d -> length (d_procs d) = NPROC ->
     body i (KState y d) = Ret tt (KState y (upd_proc i (g i) d))) ->
  (forall i f d, P d -> P (upd_proc i f d)) ->
  forall d, P d -> length (d_procs d) = NPROC ->
  for_each (seq 0 NPROC) body (KState y d) =
  Ret tt (KState y (set_d_procs (imap g (d_procs d)) d)).
Proof.
  intros Hb HP d Hd Hlen.
  assert (forall n l1 l2 d, length l2 = n -> d_procs d = l1 ++ l2 -> (length l1 + n = NPROC)%nat -> P d ->
    for_each (seq (length l1) n) body (KState y d) =
    Ret tt (KState y (set_d_procs (l1 ++ imap (fun i => g (length l1 + i)%nat) l2) d))) as H.
  { clear d Hd Hlen. induction n as [|n IH]; intros l1 l2 d Hl Hd Hn HPd.
    { destruct l2; [|done]. cbn [seq for_each imap]. by rewrite <- Hd, set_procs_id. }
    destruct l2 as [|p l2]; [done|]. injection Hl as Hl. cbn [seq for_each].
    assert (length (d_procs d) = NPROC) as Hlen by (rewrite Hd, length_app; cbn; lia).
    rewrite (bind_Ret _ _ _ _ _ (Hb (length l1) d ltac:(lia) HPd Hlen)).
    assert (d_procs (upd_proc (length l1) (g (length l1)) d) = (l1 ++ [g (length l1) p]) ++ l2) as E.
    { cbn. rewrite Hd, alter_middle. by rewrite <- app_assoc. }
    pose proof (IH (l1 ++ [g (length l1) p]) l2 _ Hl E) as H.
    rewrite length_app in H. cbn [length] in H. rewrite Nat.add_1_r in H.
    rewrite H by (lia || by apply HP). unfold upd_proc at 1. rewrite set_procs_procs.
    do 3 f_equal. rewrite <- app_assoc. cbn. rewrite Nat.add_0_r. do 2 f_equal.
    apply imap_ext. intros i x _. cbn. do 2 f_equal. lia. }
  pose proof (H NPROC [] (d_procs d) d Hlen eq_refl eq_refl Hd) as H'. cbn [length app] in H'.
  exact H'.
Qed.

Lemma lookup_imap_procs g d i :
  (i < length (d_procs d))%nat ->
  proc_of (set_d_procs (imap g (d_procs d)) d) i = g i (proc_of d i).
Proof.
  intros Hi. apply proc_of_lookup. cbn. rewrite list_lookup_imap, (lookup_proc_of d i Hi). done.
Qed.

(** ** The table is never resized, and a free process lock *)

Definition procs_free (y : sync) : Prop := forall i, (i < NPROC)%nat -> free (LProc i) y.

Lemma proc_locks_ne i j : i <> j -> LProc i <> LProc j.
Proof. congruence. Qed.

Section ProcSpec.
Context {I : Image} {B : Budget}.
Context (y : sync) (Hy : sync_ok y) (Hf : procs_free y).

(** ** wakeup *)

(** What wakeup([ch]) does to process [i] when [me] calls it. *)
Definition woken (ch : chan) (me : option nat) (acc : Z) (i : nat) (q : proc) : proc :=
  if negb (bool_decide (me = Some i)) &&
     (bool_decide (p_state q = SLEEPING) && bool_decide (p_chan q = ch))
  then set_p_accumulator acc (set_p_state RUNNABLE q) else q.

Lemma wakeup_run ch d :
  length (d_procs d) = NPROC ->
  wakeup ch (KState y d) =
  Ret tt (KState y (set_d_procs
    (imap (woken ch (c_proc (curcpu y)) (d_min_accumulator d)) (d_procs d)) d)).
Proof.
  intros Hlen. apply (for_each_procs _ _ (fun d' => d_min_accumulator d' = d_min_accumulator d)); try done.
  intros i d' Hi Hacc Hl. kstep. unfold woken.
  destruct (bool_decide (c_proc (curcpu y) = Some i)) eqn:Hme; cbn [negb andb].
  { cbn [when]. by rewrite upd_proc_id. }
  pose proof (Hf i Hi) as Hfi. unfold when at 1. ksteps.
  destruct (bool_decide (p_state (proc_of d' i) = SLEEPING) && bool_decide (p_chan (proc_of d' i) = ch)) eqn:Hc.
  - kstep. rewrite release_acq by done. rewrite upd_proc_comp.
    do 2 f_equal. apply upd_proc_ext. rewrite Hc. cbn. by rewrite Hacc.
  - ksteps. rewrite release_acq by done. rewrite upd_proc_id; [done|]. by rewrite Hc.
Qed.

(** ** kill *)

(** The first process with the given pid. *)
Fixpoint find_pid (pid : Z) (i : nat) (l : list proc) : option nat :=
  match l with
  | [] => None
  | q :: l' => if p_pid q =? pid then Some i else find_pid pid (S i) l'
  end.

Definition kill_proc (q : proc) : proc :=
  let q := set_p_killed 1 q in
  if decide (p_state q = SLEEPING) then set_p_state RUNNABLE q else q.

Lemma kill_loop_run pid n : forall i d,
  length (d_procs d) = NPROC -> (i + n = NPROC)%nat ->
  kill_loop (seq i n) pid (KState y d) =
  match find_pid pid i (drop i (d_procs d)) with
  | Some k => Ret 0 (KState y (upd_proc k kill_proc d))
  | None => Ret (-1) (KState y d)
  end.
Proof.
  induction n as [|n IH]; intros i d Hlen Hi.
  { rewrite drop_ge by lia. done. }
  pose proof (Hf i ltac:(lia)) as Hfi.
  assert (d_procs d !! i = Some (proc_of d i)) as Hp by (apply lookup_proc_of; lia).
  cbn [seq kill_loop]. rewrite (drop_S _ _ _ Hp). cbn [find_pid]. ksteps.
  destruct (p_pid (proc_of d i) =? pid).
  - ksteps. destruct (bool_decide_reflect (p_state (proc_of (upd_proc i (set_p_killed 1) d) i) = SLEEPING)) as [E|E].
    + ksteps. rewrite upd_proc_comp. do 2 f_equal. apply upd_proc_ext. unfold kill_proc. cbn.
      rewrite proc_of_upd_eq in E by lia. cbn in E. by rewrite decide_True.
    + ksteps. do 2 f_equal. apply upd_proc_ext. unfold kill_proc. cbn.
      rewrite proc_of_upd_eq in E by lia. cbn in E. by rewrite decide_False.
  - ksteps. apply IH; lia.
Qed.

Lemma kill_run pid d :
  length (d_procs d) = NPROC ->
  kill pid (KState y d) =
  match find_pid pid 0 (d_procs d) with
  | Some k => Ret 0 (KState y (upd_proc k kill_proc d))
  | None => Ret (-1) (KState y d)
  end.
Proof. intros Hlen. apply (kill_loop_run pid NPROC 0 d Hlen). done. Qed.

Lemma find_pid_Some pid l i k :
  find_pid pid i l = Some k ->
  exists j q, k = (i + j)%nat /\ l !! j = Some q /\ p_pid q = pid
    /\ forall j' q', (j' < j)%nat -> l !! j' = Some q' -> p_pid q' <> pid.
Proof.
  revert i. induction l as [|q l IH]; intros i H; cbn in H; [done|].
  destruct (Z.eqb_spec (p_pid q) pid) as [E|E].
  - injection H as <-. exists 0%nat, q. split_and!; try done; lia.
  - destruct (IH (S i) H) as (j & q' & -> & Hq & Hp & Hlt). exists (S j), q'.
    split_and!; try done; [lia|]. intros [|j'] q'' Hj; cbn; [congruence|]. intros. eapply Hlt; [|done]. lia.
Qed.

Lemma find_pid_None pid l i q : find_pid pid i l = None -> q ∈ l -> p_pid q <> pid.
Proof.
  revert i. induction l as [|q' l IH]; intros i H Hq; cbn in H; [by apply elem_of_nil in Hq|].
  destruct (Z.eqb_spec (p_pid q') pid); [done|].
  apply elem_of_cons in Hq as [->|Hq]; [done|]. by eapply IH.
Qed.

Lemma setkilled_run p d :
  (p < NPROC)%nat -> setkilled p (KState y d) = Ret tt (KState y (upd_proc p (set_p_killed 1) d)).
Proof. intros Hp. pose proof (Hf p Hp). unfold setkilled. ksteps. by rewrite release_acq. Qed.

Lemma killed_run p d :
  (p < NPROC)%nat -> killed p (KState y d) = Ret (p_killed (proc_of d p)) (KState y d).
Proof. intros Hp. pose proof (Hf p Hp). unfold killed. by ksteps. Qed.

(** ** Scheduling statistics *)

Definition ticked (_ : nat) (q : proc) : proc :=
  match p_state q with
  | RUNNABLE => set_p_retime (s32 (p_retime q + 1)) q
  | SLEEPING => set_p_stime (s32 (p_stime q + 1)) q
  | RUNNING => set_p_rtime (s32 (p_rtime q + 1)) q
  | _ => q
  end.

Lemma cfs_update_run d :
  length (d_procs d) = NPROC ->
  cfs_update (KState y d) = Ret tt (KState y (set_d_procs (imap ticked (d_procs d)) d)).
Proof.
  intros Hlen. unfold cfs_update. kstep.
  apply (for_each_procs _ _ (fun _ => True)); try done.
  intros i d' Hi _ Hl. pose proof (Hf i Hi). ksteps. unfold ticked.
  destruct (p_state (proc_of d' i)) eqn:E; ksteps; rewrite release_acq by done;
    (rewrite upd_proc_id by (by rewrite E); done) || (do 2 f_equal; apply upd_proc_ext; by rewrite E).
Qed.

Lemma get_ps_priority_loop_run id n : forall i d r,
  length (d_procs d) = NPROC -> (i + n = NPROC)%nat ->
  get_ps_priority_loop (seq i n) id r (KState y d) =
  Ret (foldl (fun acc j => if p_pid (proc_of d j) =? id then Some j else acc) r (seq i n)) (KState y d).
Proof.
  induction n as [|n IH]; intros i d r Hlen Hi; [done|].
  pose proof (Hf i ltac:(lia)). cbn [seq get_ps_priority_loop foldl]. ksteps. apply IH; lia.
Qed.

(** ** Giving up the CPU *)

(** The state in which a process comes back from swtch(): it runs on some hart,
    whose scheduler has taken its lock. *)
Record resumed (p : nat) (y2 : sync) : Prop := {
  rs_cur : (cur y2 < length (y_cpus y2))%nat;
  rs_off : intr y2 = 0;
  rs_noff : c_noff (curcpu y2) = 1;
  rs_held : held (LProc p) y2
}.

Lemma sched_run p d :
  c_proc (curcpu y) = Some p -> c_noff (curcpu y) = 0 -> (p < NPROC)%nat ->
  p_state (proc_of d p) <> RUNNING ->
  sched (KState (y_acq (LProc p) y) d) =
  Swtch (KState (y_acq (LProc p) y) d) (fun s' =>
    obind (Ret tt s') (fun _ => modc (set_c_intena (c_intena (curcpu (y_acq (LProc p) y)))))).
Proof.
  intros Hp Hn Hlt Hst. pose proof (sync_ok_acq (LProc p) y Hy) as Hy'.
  assert (intr (y_acq (LProc p) y) = 0) as Hi.
  { apply (ok_off _ Hy'). rewrite noff_acq by done. lia. }
  unfold sched. kstep. rewrite curcpu_acq, Hp by done. ksteps. cbn [negb]. kstep. rewrite noff_acq, Hn by done.
  change (negb (0 + 1 =? 1)) with false. cbv iota. kstep. rewrite decide_False by done.
  kstep. rewrite Hi. change (nz 0) with false. cbv iota. kstep. reflexivity.
Qed.

(** What a process finds when it comes back from sched() and drops its lock. *)
Definition back (p : nat) (intena : Z) (y2 : sync) : sync :=
  y_rel (LProc p) (y_setc (set_c_intena intena) y2).

Lemma release_resumed p intena y2 d2 :
  resumed p y2 ->
  (modc (set_c_intena intena);; release (LProc p)) (KState y2 d2) = Ret tt (KState (back p intena y2) d2).
Proof.
  intros [Hc Hi Hn [nm Hh]].
  assert (modc (set_c_intena intena) (KState y2 d2) =
          Ret tt (KState (y_setc (set_c_intena intena) y2) d2)) as E by reflexivity.
  rewrite (bind_Ret _ _ _ _ _ E). apply release_run.
  - unfold y_setc, cur. cbn. by rewrite length_alter.
  - done.
  - rewrite curcpu_setc by done. cbn. lia.
  - by exists nm.
Qed.

Lemma back_acq p :
  free (LProc p) y -> back p (c_intena (curcpu (y_acq (LProc p) y))) (y_acq (LProc p) y) = y.
Proof using Hy.
  intros Hfp. unfold back. rewrite <- (y_rel_acq (LProc p) y) at 3 by done. f_equal.
  unfold y_setc. rewrite alter_eq_id; [by destruct (y_acq (LProc p) y)|].
  change (y_cpus _ !!! _) with (curcpu (y_acq (LProc p) y)). by destruct (curcpu (y_acq (LProc p) y)).
Qed.

(** C21: sleep() gives up the CPU with the process SLEEPING on the channel, its own
    lock held and [lk] released; when it is resumed it leaves the channel and
    takes [lk] again. *)
Theorem sleep_spec p ch lk d :
  c_proc (curcpu y) = Some p -> c_noff (curcpu y) = 0 -> (p < NPROC)%nat ->
  length (d_procs d) = NPROC -> free lk y -> lk <> LProc p ->
  exists resume,
    sleep ch lk (KState (y_acq lk y) d) =
      Swtch (KState (y_acq (LProc p) y) (upd_proc p (set_p_state SLEEPING ∘ set_p_chan ch) d)) resume
    /\ forall y2 d2, resumed p y2 ->
         let y3 := back p (c_intena (curcpu (y_acq (LProc p) y))) y2 in
         free lk y3 ->
         resume (KState y2 d2) = Ret tt (KState (y_acq lk y3) (upd_proc p (set_p_chan CNull) d2)).
Proof.
  intros Hp Hn Hlt Hlen Hlk Hne. pose proof (Hf p Hlt) as Hfp. unfold sleep.
  kstep. rewrite curcpu_acq, Hp by done. ksteps. rewrite upd_proc_comp.
  rewrite bind_unfold, sched_run; try done.
  2: { rewrite proc_of_upd_eq by lia. done. }
  eexists. split; [reflexivity|]. intros y2 d2 Hres Hfree. cbn [obind].
  assert (modc (set_c_intena (c_intena (curcpu (y_acq (LProc p) y)))) (KState y2 d2) =
    Ret tt (KState (y_setc (set_c_intena (c_intena (curcpu (y_acq (LProc p) y)))) y2) d2)) as E by reflexivity.
  cbn [obind]. rewrite E. cbn [obind]. kstep.
  pose proof (release_resumed p (c_intena (curcpu (y_acq (LProc p) y))) y2
    (upd_proc p (set_p_chan CNull) d2) Hres) as Er.
  erewrite bind_Ret in Er by reflexivity.
  erewrite bind_Ret by exact Er. by apply acquire_run.
Qed.

(** C22: wakeup() makes exactly the processes that sleep on the channel RUNNABLE,
    with the least accumulator the priority scheduler has seen, and leaves every
    other process, and the caller itself, as it was. *)
Theorem wakeup_spec ch d :
  length (d_procs d) = NPROC ->
  exists d', wakeup ch (KState y d) = Ret tt (KState y d')
    /\ d' = set_d_procs (d_procs d') d /\ length (d_procs d') = NPROC
    /\ forall i, (i < NPROC)%nat ->
         proc_of d' i =
         (if decide (p_state (proc_of d i) = SLEEPING /\ p_chan (proc_of d i) = ch
                     /\ c_proc (curcpu y) <> Some i)
          then set_p_accumulator (d_min_accumulator d) (set_p_state RUNNABLE (proc_of d i))
          else proc_of d i).
Proof.
  intros Hlen. eexists. split; [by apply wakeup_run|]. split; [done|].
  split; [cbn; by rewrite length_imap|]. intros i Hi. rewrite lookup_imap_procs by lia. unfold woken.
  repeat case_bool_decide; case_decide; cbn [negb andb]; tauto.
Qed.

(** C23: kill() marks the first process with that pid as killed, wakes it if it
    sleeps and returns 0; when no process has the pid it returns -1.  No other
    process changes. *)
Theorem kill_spec pid d :
  length (d_procs d) = NPROC ->
  (exists k, (k < NPROC)%nat /\ p_pid (proc_of d k) = pid
     /\ (forall j, (j < k)%nat -> p_pid (proc_of d j) <> pid)
     /\ kill pid (KState y d) = Ret 0 (KState y (upd_proc k kill_proc d))) \/
  ((forall k, (k < NPROC)%nat -> p_pid (proc_of d k) <> pid)
   /\ kill pid (KState y d) = Ret (-1) (KState y d)).
Proof.
  intros Hlen. rewrite kill_run by done.
  destruct (find_pid pid 0 (d_procs d)) as [k|] eqn:E.
  - left. exists k. destruct (find_pid_Some _ _ _ _ E) as (j & q & -> & Hq & Hp & Hlt). cbn [Nat.add].
    pose proof (lookup_lt_Some _ _ _ Hq). split_and!; [lia| |..|done].
    + by rewrite (proc_of_lookup d _ _ Hq).
    + intros j' Hj'. eapply Hlt; [exact Hj'|]. apply lookup_proc_of. lia.
  - right. split; [|done]. intros k Hk. eapply find_pid_None; [exact E|].
    eapply list_elem_of_lookup_2, lookup_proc_of. lia.
Qed.

(** At every clock tick exactly one of the three counters of a process moves
    up, by its state: RUNNABLE counts as ready time, SLEEPING as sleep time,
    RUNNING as run time; the other states count nothing. *)
Theorem cfs_update_spec d :
  length (d_procs d) = NPROC ->
  exists d', cfs_update (KState y d) = Ret tt (KState y d')
    /\ forall i, (i < NPROC)%nat ->
         proc_of d' i = match p_state (proc_of d i) with
                        | RUNNABLE => set_p_retime (s32 (p_retime (proc_of d i) + 1)) (proc_of d i)
                        | SLEEPING => set_p_stime (s32 (p_stime (proc_of d i) + 1)) (proc_of d i)
                        | RUNNING => set_p_rtime (s32 (p_rtime (proc_of d i) + 1)) (proc_of d i)
                        | _ => proc_of d i
                        end.
Proof.
  intros Hlen. eexists. split; [by apply cfs_update_run|]. intros i Hi.
  by rewrite lookup_imap_procs by lia.
Qed.
End ProcSpec.

(** ** Witnesses: a machine with its process locks initialised *)

Definition proc_sync : sync :=
  set_y_cpus (<[O := Cpu (Some 3%nat) 0 0]> (replicate NCPU zero_cpu))
    (set_y_locks (list_to_map (map (fun i => (LProc i, Spinlock 0 "proc" None)) (seq 0 NPROC))
                  ∪ {[LWait := Spinlock 0 "wait_lock" None]}) zero_sync).

Lemma proc_sync_ok : sync_ok proc_sync.
Proof. split; vm_compute; try done. lia. Qed.

Lemma proc_sync_free : procs_free proc_sync.
Proof.
  intros i Hi. exists "proc".
  assert (Forall (fun i => y_locks proc_sync !! LProc i = Some (Spinlock 0 "proc" None)) (seq 0 NPROC)) as H.
  { cbn [seq NPROC]. repeat (constructor; [by vm_compute|]). constructor. }
  rewrite Forall_forall in H. apply H, elem_of_seq. lia.
Qed.

(** Process 3 runs, 1 sleeps on the tick counter, 2 is ready. *)
Definition proc_data : data :=
  upd_proc 1 (set_p_state SLEEPING ∘ set_p_chan CTicks ∘ set_p_pid 2)
    (upd_proc 2 (set_p_state RUNNABLE ∘ set_p_pid 3)
      (upd_proc 3 (set_p_state RUNNING ∘ set_p_pid 4) zero_data)).

Lemma proc_data_len : length (d_procs proc_data) = NPROC.
Proof. by vm_compute. Qed.

#[local] Existing Instance demo_image.

Lemma wakeup_spec_witness :
  exists d', wakeup CTicks (KState proc_sync proc_data) = Ret tt (KState proc_sync d')
    /\ p_state (proc_of d' 1) = RUNNABLE /\ p_accumulator (proc_of d' 1) = INT_MAX
    /\ p_state (proc_of d' 3) = RUNNING.
Proof.
  destruct (wakeup_spec proc_sync proc_sync_ok proc_sync_free CTicks proc_data proc_data_len)
    as (d' & Hrun & _ & _ & Hp).
  exists d'. rewrite (Hp 1%nat), (Hp 3%nat) by (unfold NPROC; lia). split_and!; [exact Hrun|vm_compute; reflexivity..].
Defined.

Lemma kill_spec_witness :
  exists d', kill 2 (KState proc_sync proc_data) = Ret 0 (KState proc_sync d')
    /\ p_killed (proc_of d' 1) = 1 /\ p_state (proc_of d' 1) = RUNNABLE.
Proof.
  destruct (kill_spec proc_sync proc_sync_ok proc_sync_free 2 proc_data proc_data_len)
    as [(k & Hk & Hpid & Hlt & Hrun)|[Hno _]].
  - assert (k = 1%nat) as ->.
    { destruct (lt_eq_lt_dec k 1) as [[Hk1| ->]|Hk1]; [|done|].
      - replace k with 0%nat in Hpid by lia. vm_compute in Hpid. congruence.
      - exfalso. apply (Hlt 1%nat Hk1). vm_compute. reflexivity. }
    eexists. split; [exact Hrun|]. split; vm_compute; reflexivity.
  - exfalso. apply (Hno 1%nat); [unfold NPROC; lia|]. vm_compute; reflexivity.
Defined.

Lemma cfs_update_spec_witness :
  exists d', cfs_update (KState proc_sync proc_data) = Ret tt (KState proc_sync d')
    /\ p_stime (proc_of d' 1) = 1 /\ p_retime (proc_of d' 2) = 1 /\ p_rtime (proc_of d' 3) = 1.
Proof.
  destruct (cfs_update_spec proc_sync proc_sync_ok proc_sync_free proc_data proc_data_len) as (d' & Hrun & Hp).
  exists d'. rewrite (Hp 1%nat), (Hp 2%nat), (Hp 3%nat) by (unfold NPROC; lia). split_and!; [exact Hrun|vm_compute; reflexivity..].
Defined.

Lemma sleep_spec_witness :
  exists resume y2 d2,
    sleep CTicks LWait (KState (y_acq LWait proc_sync) proc_data) =
      Swtch (KState (y_acq (LProc 3) proc_sync)
        (upd_proc 3 (set_p_state SLEEPING ∘ set_p_chan CTicks) proc_data)) resume
    /\ resume (KState y2 d2) = Ret tt (KState (y_acq LWait proc_sync) (upd_proc 3 (set_p_chan CNull) d2)).
Proof.
  destruct (sleep_spec proc_sync proc_sync_ok proc_sync_free 3 CTicks LWait proc_data)
    as (resume & Hrun & Hres).
  - vm_compute; reflexivity.
  - vm_compute; reflexivity.
  - unfold NPROC. lia.
  - apply proc_data_len.
  - exists "wait_lock". vm_compute; reflexivity.
  - done.
  - exists resume, (y_acq (LProc 3) proc_sync), proc_data. split; [exact Hrun|].
    rewrite Hres.
    + assert (back 3 (c_intena (curcpu (y_acq (LProc 3) proc_sync))) (y_acq (LProc 3) proc_sync) = proc_sync)
        as ->; [|reflexivity].
      apply back_acq; [apply proc_sync_ok|apply proc_sync_free; unfold NPROC; lia].
    + split; [vm_compute; lia|vm_compute; reflexivity..|apply held_acq].
    + exists "wait_lock". vm_compute. reflexivity.
Defined.
