(* ===== verification/SchedSpec.v ===== *)
(** * The scheduling policies: which process each of them runs

    The three scans of scheduler() as functions on the process table, the
    choice each of them makes, and the state in which it switches to the chosen
    process. *)

From S2P Require Import Prelude Mem KString Riscv State Spinlock Kalloc Vm Proc Sched ProcSpec.

(** ** The first least of a list of candidates

    A candidate is a process that may be chosen ([true]) with its key. *)

Fixpoint best (i : nat) (l : list (bool * Z)) (mp : option nat) (m : Z) : option nat * Z :=
  match l with
  | [] => (mp, m)
  | (ok, key) :: l' =>
      if ok && (key <? m) then best (S i) l' (Some i) key else best (S i) l' mp m
  end.

(** [k] is the first candidate with the least key. *)
Definition first_least (l : list (bool * Z)) (k : nat) (m : Z) : Prop :=
  l !! k = Some (true, m)
  /\ forall j m', l !! j = Some (true, m') -> m <= m' /\ ((j < k)%nat -> m < m').

Lemma first_least_cons l k m c :
  first_least l k m -> (fst c = true -> m < snd c) -> first_least (c :: l) (S k) m.
Proof.
  intros [Hk Hmin] Hc. split; [done|]. intros [|j] m' Hj; cbn in Hj.
  - injection Hj as ->. specialize (Hc eq_refl). cbn in Hc. lia.
  - destruct (Hmin j m' Hj). split; [done|]. intros. lia.
Qed.

Lemma best_spec l : forall i mp m mp' m',
  best i l mp m = (mp', m') ->
  (mp' = mp /\ m' = m /\ forall key, (true, key) ∈ l -> m <= key) \/
  exists k, mp' = Some (i + k)%nat /\ m' < m /\ first_least l k m'.
Proof.
  induction l as [|[ok key] l IH]; intros i mp m mp' m' E; cbn [best] in E.
  { injection E as <- <-. left. split_and!; try done. intros q Hq. by apply elem_of_nil in Hq. }
  destruct (ok && (key <? m)) eqn:Hc.
  - right. apply andb_true_iff in Hc as [-> Hlt%Z.ltb_lt].
    destruct (IH _ _ _ _ _ E) as [(-> & -> & Hall)|(k & -> & Hlt' & Hk)].
    + exists 0%nat. rewrite Nat.add_0_r. split_and!; [done..|]. split; [done|].
      intros [|j] m' Hj; cbn in Hj; [injection Hj as <-; lia|].
      split; [|lia]. apply Hall. by eapply list_elem_of_lookup_2.
    + exists (S k). split_and!; [f_equal; lia|lia|]. by apply first_least_cons.
  - assert (ok = true -> m <= key) as Hok.
    { intros ->. cbn in Hc. apply Z.ltb_ge in Hc. lia. }
    destruct (IH _ _ _ _ _ E) as [(-> & -> & Hall)|(k & -> & Hlt' & Hk)].
    + left. split_and!; [done..|]. intros key' [?|Hin]%elem_of_cons; [|auto].
      simplify_eq. auto.
    + right. exists (S k). split_and!; [f_equal; lia|lia|]. apply first_least_cons; [done|].
      cbn. intros ->. specialize (Hok eq_refl). lia.
Qed.

(** ** The priority scheduler *)

Definition ready (q : proc) : bool :=
  bool_decide (p_state q = RUNNABLE) || bool_decide (p_state q = RUNNING).
Definition ps_cands (l : list proc) : list (bool * Z) :=
  map (fun q => (ready q, p_accumulator q)) l.
Definition ps_count (l : list proc) : Z := Z.of_nat (length (filter (fun q => ready q = true) l)).

(** ** The candidates of the Completely Fair Scheduler *)

Definition runnable (q : proc) : bool := bool_decide (p_state q = RUNNABLE).

(** [decay_factor] is carried from one process to the next. *)
Fixpoint cfs_cands (df : Z) (l : list proc) : list (bool * Z) :=
  match l with
  | [] => []
  | q :: l' => let df := decay_of (p_cfs_priority q) df in
               (runnable q, vruntime_of df q) :: cfs_cands df l'
  end.
Definition cfs_decay (df : Z) (l : list proc) : Z :=
  foldl (fun df q => decay_of (p_cfs_priority q) df) df l.

(** A process whose priority is one of the three of the interface and whose
    counters have not overflowed. *)
Definition cfs_sane (q : proc) : Prop :=
  0 <= p_cfs_priority q <= 2 /\ 0 <= p_rtime q /\ 0 <= p_stime q /\ 0 <= p_retime q
  /\ p_rtime q + p_stime q + p_retime q <= INT_MAX.

(** The decay factor of a priority: 75, 100 or 125. *)
Definition decay (q : proc) : Z := 75 + 25 * p_cfs_priority q.

(** The values vruntime can take. *)
Definition cfs_class (q : proc) : Z :=
  if p_rtime q + p_stime q + p_retime q =? 0 then - decay q
  else if p_stime q + p_retime q =? 0 then decay q else 0.

Lemma decay_of_sane q df : cfs_sane q -> decay_of (p_cfs_priority q) df = decay q.
Proof.
  intros (Hp & _). unfold decay. assert (p_cfs_priority q = 0 \/ p_cfs_priority q = 1 \/ p_cfs_priority q = 2)
    as [->|[->| ->]] by lia; done.
Qed.

Lemma s32_id z : - 2 ^ 31 <= z < 2 ^ 31 -> s32 z = z.
Proof. intros. by apply wraps_small. Qed.

Lemma vruntime_of_class q : cfs_sane q -> vruntime_of (decay q) q = cfs_class q.
Proof.
  intros (Hp & Hr & Hs & Ht & Hm). unfold INT_MAX in Hm. unfold vruntime_of, cfs_class, divw, decay in *.
  rewrite (s32_id (p_rtime q + p_stime q)), (s32_id (_ + p_retime q)) by lia.
  destruct (Z.eqb_spec (p_rtime q + p_stime q + p_retime q) 0) as [E|E].
  { rewrite s32_id; lia. }
  destruct (Z.eqb_spec (p_stime q + p_retime q) 0) as [E'|E'].
  - replace (p_rtime q + p_stime q + p_retime q) with (p_rtime q) by lia.
    rewrite Z.quot_same, (s32_id 1), s32_id by lia. lia.
  - rewrite Z.quot_small, (s32_id 0), Z.mul_0_r by lia. done.
Qed.

Lemma cfs_cands_sane df l :
  Forall cfs_sane l -> cfs_cands df l = map (fun q => (runnable q, cfs_class q)) l.
Proof.
  intros H. revert df. induction H as [|q l Hq H IH]; intros df; cbn; [done|].
  by rewrite decay_of_sane, vruntime_of_class, IH.
Qed.

Lemma cfs_class_lt q : cfs_sane q -> cfs_class q < INT_MAX.
Proof. intros (Hp & _). unfold cfs_class, decay, INT_MAX. zcases; lia. Qed.

Section SchedSpec.
Context {I : Image} {B : Budget}.
Context (y : sync) (Hy : sync_ok y) (Hf : procs_free y).
Context (Hcnt : free (LCounter (cur y)) y).

(** What the scan leaves in [min_accumulator]. *)
Definition ps_noted (mp : option nat) (ma : Z) (d : data) : data :=
  match mp with Some _ => set_d_min_accumulator ma d | None => d end.

Lemma ps_scan_run n : forall i d mp ma cnt,
  length (d_procs d) = NPROC -> (i + n = NPROC)%nat ->
  0 <= cnt -> cnt + Z.of_nat n < 2 ^ 31 -> (mp <> None -> d_min_accumulator d = ma) ->
  ps_scan (cur y) (seq i n) mp ma cnt (KState y d) =
  let l := drop i (d_procs d) in
  let '(mp', ma') := best i (ps_cands l) mp ma in
  Ret (mp', ma', cnt + ps_count l) (KState y (ps_noted mp' ma' d)).
Proof.
  induction n as [|n IH]; intros i d mp ma cnt Hlen Hi Hc0 Hc1 Hmp.
  { rewrite drop_ge by lia. cbn. rewrite Z.add_0_r. unfold mret, M_ret. destruct mp; [|done]. cbn.
    rewrite <- Hmp by done. by destruct d. }
  pose proof (Hf i ltac:(lia)) as Hfi.
  assert (d_procs d !! i = Some (proc_of d i)) as Hp by (apply lookup_proc_of; lia).
  cbn [seq ps_scan]. rewrite (drop_S _ _ _ Hp). cbn [ps_cands map best]. fold (ps_cands (drop (S i) (d_procs d))).
  unfold ps_count. rewrite filter_cons. ksteps. fold (ready (proc_of d i)).
  destruct (ready (proc_of d i)) eqn:Hr; cbn [andb].
  2: { rewrite decide_False by done. ksteps. rewrite IH by (done || lia). done. }
  rewrite decide_True by done. ksteps.
  assert (s32 (cnt + 1) = cnt + 1) as Es by (apply wraps_small; [lia|]; change (2 ^ (32 - 1)) with (2 ^ 31); lia).
  rewrite Es. replace (cnt + 1 =? 0) with false by (symmetry; apply Z.eqb_neq; lia). rewrite orb_false_r.
  destruct (p_accumulator (proc_of d i) <? ma).
  - ksteps. rewrite IH; try (done || lia). cbn [d_procs set_d_min_accumulator].
    cbn [length]. rewrite Nat2Z.inj_succ. unfold Z.succ.
    destruct (best _ _ _ _) as [mp' ma'] eqn:E.
    destruct (best_spec _ _ _ _ _ _ E) as [(-> & -> & _)|(k & -> & _)]; cbn [ps_noted];
      unfold ps_count; by rewrite <- Z.add_assoc, (Z.add_comm 1).
  - ksteps. rewrite IH by (done || lia). cbn [length]. rewrite Nat2Z.inj_succ. unfold Z.succ.
    destruct (best _ _ _ _) as [mp' ma']. unfold ps_count.
    by rewrite <- Z.add_assoc, (Z.add_comm 1).
Qed.

(** ** Switching to a process *)

(** The state in which the hart enters process [k]: the process is RUNNING, it
    is the hart's process and its lock is held. *)
Definition entered (k : nat) (d : data) : kstate :=
  KState (y_setc (set_c_proc (Some k)) (y_acq (LProc k) y)) (upd_proc k (set_p_state RUNNING) d).

(** The state of the hart after the process has given the CPU back in [y2]. *)
Definition left (k : nat) (y2 : sync) : sync := y_rel (LProc k) (y_setc (set_c_proc None) y2).

(** The tail of every policy: the lock of [k] is taken, [k] is entered, and when
    it gives the CPU back the hart has no process and the lock is free. *)
Definition runs {A} (k : nat) (d : data) (a : A) (o : out kstate A) : Prop :=
  exists resume, o = Swtch (entered k d) resume
    /\ forall y2 d2, cur y2 = cur y -> resumed k y2 ->
         resume (KState y2 d2) = Ret a (KState (left k y2) d2).

Lemma setcproc_run v y2 d :
  cur y2 = cur y -> setcproc (cur y) v (KState y2 d) = Ret tt (KState (y_setc (set_c_proc v) y2) d).
Proof. intros <-. reflexivity. Qed.

Lemma leave_run k y2 d2 :
  cur y2 = cur y -> resumed k y2 ->
  release (LProc k) (KState (y_setc (set_c_proc None) y2) d2) = Ret tt (KState (left k y2) d2).
Proof.
  intros Hcur [Hc Hi Hn [nm Hh]]. apply release_run.
  - unfold y_setc, cur. cbn. by rewrite length_alter.
  - done.
  - rewrite curcpu_setc by done. cbn. lia.
  - by exists nm.
Qed.

Lemma run_proc_swtch k d :
  p_state (proc_of d k) = RUNNABLE ->
  run_proc (cur y) k (KState (y_acq (LProc k) y) d) =
  Swtch (entered k d) (fun s' => obind (Ret tt s') (fun _ => setcproc (cur y) None)).
Proof.
  intros Hst. unfold run_proc. kstep. rewrite Hst, bool_decide_true by done. unfold when. kstep.
  by rewrite (bind_Ret _ _ _ _ _ (setcproc_run _ (y_acq (LProc k) y) _ eq_refl)).
Qed.

Lemma run_proc_runs {A} k d (a : A) (f : unit -> K A) :
  p_state (proc_of d k) = RUNNABLE ->
  (forall y2 d2, cur y2 = cur y -> resumed k y2 ->
     f tt (KState (y_setc (set_c_proc None) y2) d2) = Ret a (KState (left k y2) d2)) ->
  runs k d a ((run_proc (cur y) k ≫= f) (KState (y_acq (LProc k) y) d)).
Proof.
  intros Hst Hret. rewrite bind_unfold, run_proc_swtch by done.
  eexists. split; [reflexivity|]. intros y2 d2 Hcur Hres. cbn [obind].
  rewrite setcproc_run by done. cbn [obind]. by apply Hret.
Qed.

Lemma run_proc_skip k d :
  p_state (proc_of d k) <> RUNNABLE ->
  run_proc (cur y) k (KState (y_acq (LProc k) y) d) = Ret tt (KState (y_acq (LProc k) y) d).
Proof.
  intros Hst. unfold run_proc. kstep. rewrite bool_decide_false by done. apply when_false.
Qed.

(** The table after the scan of the priority scheduler has chosen [k] with
    accumulator [m]: a process that is alone starts again from 0. *)
Definition ps_chosen (k : nat) (m : Z) (d : data) : data :=
  if ps_count (d_procs d) =? 1
  then set_d_min_accumulator 0 (upd_proc k (set_p_accumulator 0) (set_d_min_accumulator m d))
  else set_d_min_accumulator m d.

Lemma policy_ps_run d :
  length (d_procs d) = NPROC ->
  policy_ps (cur y) (KState y d) =
  match best 0 (ps_cands (d_procs d)) None LLONG_MAX with
  | (None, _) => Ret tt (KState y d)
  | (Some k, m) => (run_proc (cur y) k;; release (LProc k)) (KState (y_acq (LProc k) y) (ps_chosen k m d))
  end.
Proof.
  intros Hlen. unfold policy_ps.
  pose proof (ps_scan_run NPROC 0 d None LLONG_MAX 0 Hlen eq_refl ltac:(lia) ltac:(done) ltac:(done)) as E.
  rewrite drop_0 in E. cbv zeta in E.
  destruct (best 0 (ps_cands (d_procs d)) None LLONG_MAX) as [[k|] m] eqn:Eb;
    rewrite (bind_Ret _ _ _ _ _ E); [|done].
  destruct (best_spec _ _ _ _ _ _ Eb) as [(? & _)|(k' & [= ->] & _ & Hk & _)]; [done|].
  apply lookup_lt_Some in Hk. unfold ps_cands in Hk. rewrite length_map in Hk.
  pose proof (Hf k' ltac:(lia)) as Hfk. cbn [Nat.add]. kstep. rewrite Z.add_0_l. unfold ps_chosen, ps_noted.
  destruct (ps_count (d_procs d) =? 1); unfold when; ksteps; done.
Qed.

Lemma ready_not_runnable q : ready q = true -> p_state q <> RUNNABLE -> p_state q = RUNNING.
Proof. unfold ready. repeat case_bool_decide; cbn; done. Qed.

(** C19: Under the priority policy a round looks for the first process with the least
    accumulator among those that are RUNNABLE or RUNNING.  When there is none it
    does nothing; when the process found is RUNNABLE the hart switches to it;
    when it is RUNNING on another hart, this hart runs nothing in the round. *)
Theorem policy_ps_spec d :
  length (d_procs d) = NPROC -> Forall (fun q => p_accumulator q < LLONG_MAX) (d_procs d) ->
  (Forall (fun q => ready q = false) (d_procs d) /\ policy_ps (cur y) (KState y d) = Ret tt (KState y d)) \/
  exists k m, first_least (ps_cands (d_procs d)) k m
    /\ ((p_state (proc_of d k) = RUNNABLE /\ runs k (ps_chosen k m d) tt (policy_ps (cur y) (KState y d))) \/
        (p_state (proc_of d k) = RUNNING
         /\ policy_ps (cur y) (KState y d) = Ret tt (KState y (ps_chosen k m d)))).
Proof.
  intros Hlen Hacc. rewrite policy_ps_run by done.
  destruct (best _ _ _ _) as [mp m] eqn:E.
  destruct (best_spec _ _ _ _ _ _ E) as [(-> & -> & Hall)|(k & -> & Hlt & Hk)].
  - left. split; [|done]. rewrite Forall_forall in Hacc |- *. intros q Hq.
    destruct (ready q) eqn:Hr; [|done]. exfalso. specialize (Hacc q Hq).
    enough (LLONG_MAX <= p_accumulator q) by lia. apply Hall. apply list_elem_of_fmap. exists q. by rewrite Hr.
  - right. exists k, m. split; [done|]. cbn [Nat.add].
    assert (p_state (proc_of (ps_chosen k m d) k) = p_state (proc_of d k)) as Hst.
    { unfold ps_chosen. destruct (_ =? 1); [|done].
      change (proc_of (set_d_min_accumulator 0 ?x) k) with (proc_of x k).
      destruct Hk as [Hk _]. apply lookup_lt_Some in Hk. unfold ps_cands in Hk. rewrite length_map in Hk.
      rewrite proc_of_upd_eq by done. done. }
    destruct Hk as [Hk _]. unfold ps_cands in Hk. rewrite list_lookup_fmap in Hk.
    destruct (d_procs d !! k) as [q|] eqn:Hq; [|done]. injection Hk as Hr _.
    rewrite (proc_of_lookup _ _ _ Hq) in *. pose proof (lookup_lt_Some _ _ _ Hq).
    destruct (decide (p_state q = RUNNABLE)) as [Hrun|Hrun]; [left|right]; (split; [try done|]).
    + apply run_proc_runs; [congruence|]. apply leave_run.
    + by apply ready_not_runnable.
    + rewrite (bind_Ret _ _ _ _ _ (run_proc_skip k (ps_chosen k m d) ltac:(congruence))). apply release_acq; [done|].
      apply Hf. lia.
Qed.

(** ** The Completely Fair Scheduler *)

Lemma cfs_scan_run n : forall i d mp mv df,
  length (d_procs d) = NPROC -> (i + n = NPROC)%nat ->
  cfs_scan (seq i n) mp mv df (KState y d) =
  let l := drop i (d_procs d) in
  Ret ((best i (cfs_cands df l) mp mv).1, cfs_decay df l) (KState y d).
Proof.
  induction n as [|n IH]; intros i d mp mv df Hlen Hi.
  { by rewrite drop_ge by lia. }
  pose proof (Hf i ltac:(lia)) as Hfi.
  assert (d_procs d !! i = Some (proc_of d i)) as Hp by (apply lookup_proc_of; lia).
  cbn [seq cfs_scan]. rewrite (drop_S _ _ _ Hp). cbn [cfs_cands best cfs_decay foldl]. ksteps.
  fold (runnable (proc_of d i)).
  destruct (runnable (proc_of d i) && _); rewrite IH by (done || lia); done.
Qed.

(** C20: Under the CFS policy a round switches to the first RUNNABLE process with
    the least vruntime, and does nothing when no process is RUNNABLE.  As the
    division in vruntime is an integer one, a process counts only with its
    class: -decay when all its counters are 0, decay when it has done nothing but
    run, and 0 in every other case. *)
Theorem policy_cfs_spec df d :
  length (d_procs d) = NPROC -> Forall cfs_sane (d_procs d) ->
  let df' := cfs_decay df (d_procs d) in
  (Forall (fun q => p_state q <> RUNNABLE) (d_procs d)
   /\ policy_cfs (cur y) df (KState y d) = Ret df' (KState y d)) \/
  exists k m, first_least (map (fun q => (runnable q, cfs_class q)) (d_procs d)) k m
    /\ runs k d df' (policy_cfs (cur y) df (KState y d)).
Proof.
  intros Hlen Hs df'. unfold policy_cfs.
  pose proof (cfs_scan_run NPROC 0 d None INT_MAX df Hlen eq_refl) as E.
  rewrite drop_0 in E. cbv zeta in E. rewrite (bind_Ret _ _ _ _ _ E). fold df'. clear E.
  rewrite cfs_cands_sane by done. destruct (best _ _ _ _) as [mp m] eqn:Eb. cbn [fst].
  destruct (best_spec _ _ _ _ _ _ Eb) as [(-> & -> & Hall)|(k & -> & _ & Hk)].
  - left. split; [|done]. rewrite Forall_forall in Hs |- *. intros q Hq Hst.
    pose proof (cfs_class_lt q (Hs q Hq)). enough (INT_MAX <= cfs_class q) by lia.
    apply Hall, list_elem_of_fmap. exists q. unfold runnable. by rewrite bool_decide_true.
  - right. exists k, m. split; [done|]. cbn [Nat.add]. destruct Hk as [Hk _].
    rewrite list_lookup_fmap in Hk. destruct (d_procs d !! k) as [q|] eqn:Hq; [|done].
    injection Hk as Hr _. apply bool_decide_eq_true in Hr. pose proof (lookup_lt_Some _ _ _ Hq).
    pose proof (Hf k ltac:(lia)). kstep. apply run_proc_runs; [by rewrite (proc_of_lookup _ _ _ Hq)|].
    intros y2 d2 Hcur Hres. by rewrite (bind_Ret _ _ _ _ _ (leave_run k y2 d2 Hcur Hres)).
Qed.

(** ** The original scheduler *)

(** The part of the round that is left from process [i] on. *)
Definition rr_from (i : nat) : K unit :=
  for_each (seq i (NPROC - i)) (fun p => acquire (LProc p);; run_proc (cur y) p;; release (LProc p)).

Lemma rr_from_run i d :
  length (d_procs d) = NPROC -> (i <= NPROC)%nat ->
  (Forall (fun q => p_state q <> RUNNABLE) (drop i (d_procs d)) /\ rr_from i (KState y d) = Ret tt (KState y d)) \/
  exists k resume, (i <= k < NPROC)%nat /\ p_state (proc_of d k) = RUNNABLE
    /\ (forall j, (i <= j < k)%nat -> p_state (proc_of d j) <> RUNNABLE)
    /\ rr_from i (KState y d) = Swtch (entered k d) resume
    /\ forall y2 d2, cur y2 = cur y -> resumed k y2 ->
         resume (KState y2 d2) = rr_from (S k) (KState (left k y2) d2).
Proof.
  intros Hlen Hi. remember (NPROC - i)%nat as n eqn:En. revert i Hi En.
  induction n as [|n IH]; intros i Hi En; unfold rr_from; rewrite <- En.
  { left. rewrite drop_ge by lia. done. }
  pose proof (Hf i ltac:(lia)) as Hfi.
  assert (d_procs d !! i = Some (proc_of d i)) as Hp by (apply lookup_proc_of; lia).
  cbn [seq for_each]. rewrite (drop_S _ _ _ Hp). rewrite bind_unfold. kstep.
  destruct (decide (p_state (proc_of d i) = RUNNABLE)) as [Hr|Hr].
  - right. rewrite bind_unfold, run_proc_swtch by done. exists i. eexists.
    split_and!; [lia|lia|done|intros j Hj; lia|reflexivity|]. intros y2 d2 Hcur Hres. cbn [obind].
    rewrite setcproc_run by done. cbn [obind]. rewrite leave_run by done. cbn [obind].
    unfold rr_from. by replace (NPROC - S i)%nat with n by lia.
  - rewrite (bind_Ret _ _ _ _ _ (run_proc_skip _ _ Hr)), release_acq by done. cbn [obind].
    destruct (IH (S i) ltac:(lia) ltac:(lia)) as [[Hall Hrun]|(k & resume & Hk & Hst & Hbefore & Hrun & Hres)];
      unfold rr_from in Hrun; replace (NPROC - S i)%nat with n in Hrun by lia.
    + left. split; [by constructor|done].
    + right. exists k, resume. split_and!; [lia|lia|done| |done|done].
      intros j Hj. destruct (decide (j = i)) as [->|]; [done|]. apply Hbefore. lia.
Qed.
(** A round-robin round visits the table in order and switches to every process
    that is RUNNABLE when its turn comes; after the process has given the CPU
    back the round goes on behind it. *)
Theorem policy_rr_spec i d :
  length (d_procs d) = NPROC -> (i <= NPROC)%nat ->
  (policy_rr (cur y) = rr_from 0) /\
  ((Forall (fun q => p_state q <> RUNNABLE) (drop i (d_procs d)) /\ rr_from i (KState y d) = Ret tt (KState y d)) \/
   exists k resume, (i <= k < NPROC)%nat /\ p_state (proc_of d k) = RUNNABLE
     /\ (forall j, (i <= j < k)%nat -> p_state (proc_of d j) <> RUNNABLE)
     /\ rr_from i (KState y d) = Swtch (entered k d) resume
     /\ forall y2 d2, cur y2 = cur y -> resumed k y2 ->
          resume (KState y2 d2) = rr_from (S k) (KState (left k y2) d2)).
Proof. intros Hlen Hi. split; [done|]. by apply rr_from_run. Qed.
End SchedSpec.

(** ** Witnesses *)

(** A hart without a process, in its scheduler. *)
Definition sched_sync : sync :=
  set_y_locks (<[LCounter 0 := Spinlock 0 "counter" None]> (y_locks proc_sync))
    (set_y_cpus (replicate NCPU zero_cpu) proc_sync).

Lemma sched_sync_ok : sync_ok sched_sync.
Proof. split; vm_compute; try done. lia. Qed.

Lemma sched_sync_free : procs_free sched_sync.
Proof.
  intros i Hi. destruct (proc_sync_free i Hi) as [nm H]. exists nm. cbn [y_locks sched_sync set_y_locks].
  by rewrite lookup_insert_ne.
Qed.

Lemma sched_sync_counter : free (LCounter (cur sched_sync)) sched_sync.
Proof. exists "counter". cbn [y_locks sched_sync set_y_locks]. apply lookup_insert_eq. Qed.

Definition sched_data : data :=
  upd_proc 1 (set_p_state RUNNABLE ∘ set_p_accumulator 9)
    (upd_proc 2 (set_p_state RUNNABLE ∘ set_p_accumulator 7)
      (upd_proc 5 (set_p_state RUNNING ∘ set_p_accumulator 8) zero_data)).

Lemma sched_data_len : length (d_procs sched_data) = NPROC.
Proof. by vm_compute. Qed.

#[local] Existing Instance demo_image.

Lemma sched_data_ps :
  ps_cands (d_procs sched_data) =
  [(false, 0); (true, 9); (true, 7); (false, 0); (false, 0); (true, 8)] ++ replicate 58 (false, 0).
Proof. by vm_compute. Qed.

Lemma sched_data_least k m : first_least (ps_cands (d_procs sched_data)) k m -> k = 2%nat /\ m = 7.
Proof.
  rewrite sched_data_ps. intros [Hk Hmin]. destruct (Hmin 2%nat 7 eq_refl) as [Hm _].
  destruct k as [|[|[|[|[|[|k]]]]]]; cbn [lookup list_lookup app] in Hk; simplify_eq; try lia; try done.
  apply lookup_replicate in Hk as [? _]. done.
Qed.

Lemma sched_data_acc : Forall (fun q => p_accumulator q < LLONG_MAX) (d_procs sched_data).
Proof.
  apply (Forall_compute (fun q => p_accumulator q <? LLONG_MAX)); [|by vm_compute].
  intros q. apply Z.ltb_lt.
Qed.

Lemma sched_data_sane : Forall cfs_sane (d_procs sched_data).
Proof.
  apply (Forall_compute (fun q => (p_cfs_priority q =? 0) && (p_rtime q =? 0) && (p_stime q =? 0)
    && (p_retime q =? 0))); [|by vm_compute].
  intros q H. unfold cfs_sane, INT_MAX. zify_bool. lia.
Qed.

Lemma sched_data_busy (P : proc -> Prop) :
  ~ P (set_p_state RUNNABLE (set_p_accumulator 7 zero_proc)) -> ~ Forall P (d_procs sched_data).
Proof.
  intros Hn H. apply Hn. rewrite Forall_forall in H. apply H.
  apply (list_elem_of_lookup_2 _ 2%nat). by vm_compute.
Qed.

(** Process 2 has the least accumulator, and the hart switches to it. *)
Lemma policy_ps_spec_witness :
  runs sched_sync 2 (ps_chosen 2 7 sched_data) tt (policy_ps (cur sched_sync) (KState sched_sync sched_data)).
Proof.
  destruct (policy_ps_spec sched_sync sched_sync_ok sched_sync_free sched_sync_counter sched_data
    sched_data_len) as [[Hno _]|(k & m & Hk & Hrun)].
  - exact sched_data_acc.
  - exfalso. revert Hno. apply sched_data_busy. discriminate.
  - destruct (sched_data_least k m Hk) as [-> ->].
    destruct Hrun as [[_ Hrun]|[Hst _]]; [exact Hrun|]. vm_compute in Hst. discriminate Hst.
Defined.

(** Process 1 is the first RUNNABLE one, and both candidates have the same
    class. *)
Lemma policy_cfs_spec_witness :
  exists k m, first_least (map (fun q => (runnable q, cfs_class q)) (d_procs sched_data)) k m
    /\ runs sched_sync k sched_data 75 (policy_cfs (cur sched_sync) 100 (KState sched_sync sched_data)).
Proof.
  destruct (policy_cfs_spec sched_sync sched_sync_ok sched_sync_free 100 sched_data
    sched_data_len sched_data_sane) as [[Hno _]|(k & m & Hk & Hrun)].
  - exfalso. revert Hno. apply sched_data_busy. cbn. congruence.
  - exists k, m. split; [exact Hk|exact Hrun].
Defined.

Lemma policy_rr_spec_witness :
  exists resume, policy_rr (cur sched_sync) (KState sched_sync sched_data) = Swtch (entered sched_sync 1 sched_data) resume.
Proof.
  destruct (policy_rr_spec sched_sync sched_sync_ok sched_sync_free 0 sched_data sched_data_len)
    as [Hrr [[Hno _]|(k & resume & Hlt & Hst & Hbefore & Hrun & _)]].
  - lia.
  - exfalso. revert Hno. apply sched_data_busy. cbn. congruence.
  - exists resume. rewrite Hrr. assert (k = 1%nat) as <-; [|exact Hrun].
    clear Hrr Hrun resume. destruct k as [|[|k]]; [vm_compute in Hst; discriminate Hst|reflexivity|].
    exfalso. apply (Hbefore 1%nat); [lia|]. vm_compute. reflexivity.
Defined.
