(* ===== verification/Uart.v ===== *)
(** * kernel/uart.c: the serial port

    The transmit buffer, the interrupt-driven and the polling output, and
    consputc() of console.c.  The device is [uart_idle], [uart_rx] and [uart_out]
    of the state: each test of the line-status bit TX_IDLE takes the next of the
    listed readings, and after the last one the transmit register stays full.
    uartintr() is in Console.v. *)

From S2P Require Import Prelude Mem KString Riscv State Spinlock Kalloc Vm Proc.

Definition RHR : Z := 0.
Definition THR : Z := 0.
Definition IER : Z := 1.
Definition IER_RX_ENABLE : Z := Z.shiftl 1 0.
Definition IER_TX_ENABLE : Z := Z.shiftl 1 1.
Definition FCR : Z := 2.
Definition FCR_FIFO_ENABLE : Z := Z.shiftl 1 0.
Definition FCR_FIFO_CLEAR : Z := Z.shiftl 3 1.
Definition LCR : Z := 3.
Definition LCR_EIGHT_BITS : Z := Z.shiftl 3 0.
Definition LCR_BAUD_LATCH : Z := Z.shiftl 1 7.
Definition UART_TX_BUF_SIZE : Z := 32.
Definition BACKSPACE : Z := 0x100.

Section Uart.
Context {I : Image} {B : Budget}.

Definition modu (f : uart -> uart) : K unit := modd (fun d => set_d_uart (f (d_uart d)) d).
Definition getu {A} (f : uart -> A) : K A := getd (fun d => f (d_uart d)).

(** A control register of the UART; the transmit and receive registers are
    [put_thr] and [get_rhr]. *)
Definition WriteReg (reg v : Z) : K unit :=
  modd (fun d => set_d_mem (store8 (d_mem d) (UART0 + reg) (u8 v)) d).
Definition put_thr (c : Z) : K unit := modu (fun u => set_uart_out (u8 c :: uart_out u) u).

(** [ReadReg(LSR) & LSR_TX_IDLE] *)
Definition tx_idle : K bool :=
  idle ← getu uart_idle;
  match idle with
  | [] => mret false
  | b :: rest => modu (set_uart_idle rest);; mret b
  end.

Definition uartinit : K unit :=
  WriteReg IER 0x00;;
  WriteReg LCR LCR_BAUD_LATCH;;
  WriteReg 0 0x03;;
  WriteReg 1 0x00;;
  WriteReg LCR LCR_EIGHT_BITS;;
  WriteReg FCR (Z.lor FCR_FIFO_ENABLE FCR_FIFO_CLEAR);;
  WriteReg IER (Z.lor IER_TX_ENABLE IER_RX_ENABLE);;
  initlock LUartTx "uart".

(** [while(1)] of uartstart(): every round that does not return takes one
    reading of the status register. *)
Fixpoint uartstart_loop (fuel : nat) : K unit :=
  w ← getu uart_tx_w;
  r ← getu uart_tx_r;
  if w =? r then mret tt
  else
    idle ← tx_idle;
    if negb idle then mret tt
    else
      c ← getu (fun u => uart_tx_buf u !!! Z.to_nat (r mod UART_TX_BUF_SIZE));
      modu (fun u => set_uart_tx_r (u64 (uart_tx_r u + 1)) u);;
      wakeup CUartTxR;;
      put_thr c;;
      match fuel with
      | O => nofuel
      | S fuel' => uartstart_loop fuel'
      end.

Definition uartstart : K unit :=
  idle ← getu uart_idle;
  uartstart_loop (length idle).

(** [while(uart_tx_w == uart_tx_r + UART_TX_BUF_SIZE) sleep(...);] *)
Fixpoint uartputc_wait (fuel : nat) : K unit :=
  match fuel with
  | O => nofuel
  | S fuel' =>
      w ← getu uart_tx_w;
      r ← getu uart_tx_r;
      if w =? u64 (r + UART_TX_BUF_SIZE) then sleep CUartTxR LUartTx;; uartputc_wait fuel'
      else mret tt
  end.

Definition uartputc (c : Z) : K unit :=
  acquire LUartTx;;
  panicked ← getd d_panicked;
  if nz panicked then spin
  else
    uartputc_wait rounds;;
    modu (fun u => set_uart_tx_buf (<[Z.to_nat (uart_tx_w u mod UART_TX_BUF_SIZE) := u8 c]> (uart_tx_buf u)) u);;
    modu (fun u => set_uart_tx_w (u64 (uart_tx_w u + 1)) u);;
    uartstart;;
    release LUartTx.

(** [while((ReadReg(LSR) & LSR_TX_IDLE) == 0);]: the readings that are left when
    the transmit register has become empty, if it ever does. *)
Fixpoint wait_idle (readings : list bool) : option (list bool) :=
  match readings with
  | [] => None
  | b :: rest => if (b : bool) then Some rest else wait_idle rest
  end.

Definition uartputc_sync (c : Z) : K unit :=
  push_off;;
  panicked ← getd d_panicked;
  if nz panicked then spin
  else
    idle ← getu uart_idle;
    match wait_idle idle with
    | None => spin
    | Some rest =>
        modu (set_uart_idle rest);;
        put_thr c;;
        pop_off
    end.

Definition uartgetc : K Z :=
  rx ← getu uart_rx;
  match rx with
  | [] => mret (-1)
  | c :: rest => modu (set_uart_rx rest);; mret (u8 c)
  end.

(** consputc() of console.c *)
Definition consputc (c : Z) : K unit :=
  if c =? BACKSPACE then uartputc_sync 8;; uartputc_sync (ch " ");; uartputc_sync 8
  else uartputc_sync c.
End Uart.
