(* ===== verification/Printf.v ===== *)
(** * kernel/printf.c, and procdump() of proc.c

    printf() as a recursion over the bytes of the format.  Its variable
    arguments are a list; reading an argument that is not there, or of the wrong
    type, is undefined.  panic() is [do_panic]: the other files use the outcome
    [Panic], which stands for it. *)

From S2P Require Import Prelude Mem KString Riscv State Spinlock Kalloc Vm Proc Uart.

(** An argument of printf(): an int, a uint64 or a string ([None] for null). *)
Inductive arg : Type := AInt (x : Z) | APtr (x : Z) | AStr (s : option (list Z)).

Definition digits (i : Z) : Z := str "0123456789abcdef" !!! Z.to_nat i.

(** [do { buf[i++] = digits[x % base]; } while((x /= base) != 0);] *)
Fixpoint printint_digits (fuel : nat) (x base : Z) : list Z :=
  match fuel with
  | O => []
  | S fuel' =>
      digits (x mod base) ::
      (if x / base =? 0 then [] else printint_digits fuel' (x / base) base)
  end.

(** The contents of [buf], in the order in which it is filled. *)
Definition printint_buf (xx base sign : Z) : list Z :=
  let neg := nz sign && (xx <? 0) in
  let x := if neg then u32 (- xx) else u32 xx in
  printint_digits 32 x base ++ (if neg then [ch "-"] else []).

Section Printf.
Context {I : Image} {B : Budget}.

Definition printint (xx base sign : Z) : K unit :=
  for_each (rev (printint_buf xx base sign)) consputc.

Fixpoint printptr_loop (n : nat) (x : Z) : K unit :=
  match n with
  | O => mret tt
  | S n' => consputc (digits (Z.shiftr x (8 * 8 - 4)));; printptr_loop n' (u64 (Z.shiftl x 4))
  end.

Definition printptr (x : Z) : K unit :=
  consputc (ch "0");;
  consputc (ch "x");;
  printptr_loop 16 x.

Fixpoint printf_loop (fmt : list Z) (ap : list arg) : K unit :=
  match fmt with
  | [] => mret tt
  | c :: fmt' =>
      if negb (c =? ch "%") then consputc c;; printf_loop fmt' ap
      else
        match fmt' with
        | [] => mret tt
        | c :: fmt'' =>
            if c =? ch "d" then
              match ap with
              | AInt x :: ap' => printint x 10 1;; printf_loop fmt'' ap'
              | _ => undef
              end
            else if c =? ch "x" then
              match ap with
              | AInt x :: ap' => printint x 16 1;; printf_loop fmt'' ap'
              | _ => undef
              end
            else if c =? ch "p" then
              match ap with
              | APtr x :: ap' => printptr x;; printf_loop fmt'' ap'
              | _ => undef
              end
            else if c =? ch "s" then
              match ap with
              | AStr s :: ap' => for_each (default (str "(null)") s) consputc;; printf_loop fmt'' ap'
              | _ => undef
              end
            else if c =? ch "%" then consputc (ch "%");; printf_loop fmt'' ap
            else consputc (ch "%");; consputc c;; printf_loop fmt'' ap
        end
  end.

(** [fmt] is the format as a C string, [None] a null pointer. *)
Definition printf_bytes (fmt : option (list Z)) (ap : list arg) : K unit :=
  locking ← getd d_pr_locking;
  when (nz locking) (acquire LPr);;
  match fmt with
  | None => panic "null fmt"
  | Some fmt =>
      printf_loop fmt ap;;
      when (nz locking) (release LPr)
  end.

Definition printf (fmt : string) (ap : list arg) : K unit := printf_bytes (Some (str fmt)) ap.

Definition newline : string := String (Ascii.ascii_of_nat 10) EmptyString.

Definition do_panic (s : string) : K unit :=
  modd (set_d_pr_locking 0);;
  printf "panic: " [];;
  printf s [];;
  printf newline [];;
  modd (set_d_panicked 1);;
  spin.

Definition printfinit : K unit :=
  initlock LPr "pr";;
  modd (set_d_pr_locking 1).

(** procdump() of proc.c *)
Definition state_name (st : procstate) : string :=
  match st with
  | UNUSED => "unused"
  | USED => "used"
  | SLEEPING => "sleep "
  | RUNNABLE => "runble"
  | RUNNING => "run   "
  | ZOMBIE => "zombie"
  end.

Definition procdump : K unit :=
  printf newline [];;
  for_each (seq 0 NPROC) (fun p =>
    st ← getp p p_state;
    if decide (st = UNUSED) then mret tt
    else
      pid ← getp p p_pid;
      name ← getp p p_name;
      printf "%d %s %s" [AInt pid; AStr (Some (str (state_name st))); AStr (Some (cstr name))];;
      printf newline []).
End Printf.
