(* ===== verification/PrintSpec.v ===== *)
(** * Numbers printed by the kernel

    What printint() leaves in its 16-byte buffer fits into it and reads back as
    the number. *)

From S2P Require Import Prelude Mem KString Riscv State Spinlock Kalloc Vm Proc Uart Printf.

(** Reading a number back, as a person would. *)
Definition digit_value (c : Z) : Z := if c <=? ch "9" then c - ch "0" else c - ch "a" + 10.
Definition read_number (base : Z) (s : list Z) : Z :=
  foldl (fun acc c => base * acc + digit_value c) 0 s.
Definition read_int (base : Z) (s : list Z) : Z :=
  match s with
  | c :: s' => if c =? ch "-" then - read_number base s' else read_number base s
  | [] => 0
  end.

Lemma digit_value_digits i : 0 <= i < 16 -> digit_value (digits i) = i /\ digits i <> ch "-".
Proof.
  intros Hi. assert (exists n, i = Z.of_nat n /\ (n < 16)%nat) as (n & -> & Hn) by (exists (Z.to_nat i); lia).
  do 16 (destruct n as [|n]; [by vm_compute|]). lia.
Qed.

#[local] Ltac Zify.zify_post_hook ::= Z.to_euclidean_division_equations.

Section Digits.
Context (base : Z) (Hb : 2 <= base <= 16).

Lemma div_lt_pow x (n : nat) : 0 <= x < base ^ Z.of_nat (S n) -> 0 <= x / base < base ^ Z.of_nat n.
Proof using Hb.
  intros Hx. rewrite Nat2Z.inj_succ, Z.pow_succ_r in Hx by lia. split; [apply Z.div_pos; lia|].
  apply Z.div_lt_upper_bound; lia.
Qed.

(** The loop ends, and the digits in the order of printing are those of [x]. *)
Lemma printint_digits_value n : forall fuel x,
  (n < fuel)%nat -> 0 <= x < base ^ Z.of_nat (S n) ->
  read_number base (rev (printint_digits fuel x base)) = x
  /\ (0 < length (printint_digits fuel x base) <= S n)%nat
  /\ Forall (fun c => c <> ch "-") (printint_digits fuel x base).
Proof using Hb.
  induction n as [|n IH]; intros [|fuel] x Hf Hx; [lia| |lia|]; cbn [printint_digits].
  all: pose proof (Z.mod_pos_bound x base ltac:(lia)) as Hm; destruct (digit_value_digits (x mod base) ltac:(lia)) as [Ed Hd].
  - change (Z.of_nat 1) with 1 in Hx. rewrite Z.pow_1_r in Hx. rewrite (Z.div_small x base) by lia. cbn [Z.eqb rev app length].
    split_and!; [|lia..|by repeat constructor]. unfold read_number. cbn [foldl]. rewrite Ed, Z.mod_small by lia. lia.
  - pose proof (div_lt_pow x (S n) Hx) as Hq. destruct (Z.eqb_spec (x / base) 0) as [E0|E0].
    + cbn [rev app length]. split_and!; [|lia..|by repeat constructor]. unfold read_number. cbn [foldl]. rewrite Ed.
      pose proof (Z.div_mod x base ltac:(lia)). rewrite E0 in *. lia.
    + destruct (IH fuel (x / base) ltac:(lia) Hq) as (Hv & Hl & Hns). cbn [rev length]. split_and!; [|lia..|by constructor].
      unfold read_number in *. rewrite foldl_app, Hv. cbn [foldl]. rewrite Ed.
      pose proof (Z.div_mod x base ltac:(lia)). lia.
Qed.
End Digits.

(** C39: printint() in base 10 or 16 fills at most 16 bytes of its buffer, and prints
    a representation of the number. *)
Theorem printint_roundtrip x base :
  - 2 ^ 31 <= x < 2 ^ 31 -> base = 10 \/ base = 16 ->
  read_int base (rev (printint_buf x base 1)) = x /\ (length (printint_buf x base 1) <= 16)%nat.
Proof.
  intros Hx Hb. unfold printint_buf. cbn [nz negb Z.eqb andb].
  set (neg := x <? 0). set (v := if neg then u32 (- x) else u32 x).
  assert (v = Z.abs x /\ 0 <= v < 2 ^ 32) as [Ev Hv].
  { unfold v, neg. destruct (Z.ltb_spec x 0); rewrite wrapu_small; lia. }
  assert (2 <= base <= 16 /\ v < base ^ Z.of_nat 10) as [Hb2 Hlt].
  { destruct Hb as [->| ->]; split; lia. }
  destruct (printint_digits_value base Hb2 9 32 v ltac:(lia) ltac:(lia)) as (Hval & Hlen & Hns).
  set (ds := printint_digits 32 v base) in *. clearbody ds. split.
  - destruct neg eqn:En; unfold neg in En.
    + rewrite rev_app_distr. change (rev [ch "-"] ++ rev ds) with (ch "-" :: rev ds).
      unfold read_int. rewrite Z.eqb_refl, Hval, Ev. apply Z.ltb_lt in En. lia.
    + rewrite app_nil_r. apply Z.ltb_ge in En. rewrite <- Hval in Ev. unfold read_int.
      destruct (rev ds) as [|c s] eqn:Er; [apply (f_equal length) in Er; rewrite length_rev in Er; cbn in Er; lia|].
      assert (c <> ch "-") as Hc.
      { rewrite Forall_forall in Hns. apply Hns. rewrite list_elem_of_In. apply in_rev. rewrite Er. by left. }
      rewrite (proj2 (Z.eqb_neq _ _) Hc). lia.
  - rewrite length_app. destruct neg; cbn; lia.
Qed.

Lemma printint_roundtrip_witness :
  printint_buf (-2147483648) 10 1 = rev (str "-2147483648")
  /\ read_int 10 (rev (printint_buf (-2147483648) 10 1)) = -2147483648.
Proof.
  split; [vm_compute; reflexivity|]. apply printint_roundtrip; [lia|]. left. reflexivity.
Defined.
