(* ===== verification/Console.v ===== *)
(** * kernel/console.c: the console device, and uartintr() of uart.c *)

From S2P Require Import Prelude Mem KString Riscv State Spinlock Kalloc Vm Proc Uart Printf.

Definition INPUT_BUF_SIZE : Z := 128.

(** [C('x')]: control-x *)
Definition Ctl (x : string) : Z := ch x - ch "@".

Section Console.
Context {I : Image} {B : Budget}.

Definition modcons (f : cons -> cons) : K unit := modd (fun d => set_d_cons (f (d_cons d)) d).
Definition getcons {A} (f : cons -> A) : K A := getd (fun d => f (d_cons d)).

(** [cons.buf[i % INPUT_BUF_SIZE]] *)
Definition cons_at (i : Z) (c : cons) : Z := cons_buf c !!! Z.to_nat (i mod INPUT_BUF_SIZE).

(** [for(i = 0; i < n; i++)]; [n] is the number of rounds left. *)
Fixpoint consolewrite_loop (n : nat) (user_src : bool) (src i : Z) : K Z :=
  match n with
  | O => mret i
  | S n' =>
      '(r, bs) ← either_copyin (source_at user_src (u64 (src + i))) 1;
      if r =? -1 then mret i
      else uartputc (bs !!! O);; consolewrite_loop n' user_src src (i + 1)
  end.

Definition consolewrite (user_src : bool) (src n : Z) : K Z :=
  consolewrite_loop (Z.to_nat n) user_src src 0.

(** [while(cons.r == cons.w)]: wait for input; the result says whether to go on
    or to return -1. *)
Fixpoint consoleread_wait (fuel : nat) : K bool :=
  match fuel with
  | O => nofuel
  | S fuel' =>
      r ← getcons cons_r;
      w ← getcons cons_w;
      if r =? w then
        me ← myproc;
        p ← deref me;
        k ← killed p;
        if nz k then release LCons;; mret false
        else sleep CConsR LCons;; consoleread_wait fuel'
      else mret true
  end.

(** [while(n > 0)]: [inl v] is [return v], [inr n] leaves the loop. *)
Fixpoint consoleread_loop (left : nat) (user_dst : bool) (dst target n : Z) : K (Z + Z) :=
  match left with
  | O => mret (inr n)
  | S left' =>
      ok ← consoleread_wait rounds;
      if negb ok then mret (inl (-1))
      else
        c ← getcons (fun c => cons_at (cons_r c) c);
        modcons (fun c => set_cons_r (u32 (cons_r c + 1)) c);;
        if c =? Ctl "D" then
          when (n <? target) (modcons (fun c => set_cons_r (u32 (cons_r c - 1)) c));;
          mret (inr n)
        else
          '(r, _) ← either_copyout (dest_at user_dst dst) [c];
          if r =? -1 then mret (inr n)
          else if c =? 10 then mret (inr (n - 1))
          else consoleread_loop left' user_dst (u64 (dst + 1)) target (n - 1)
  end.

Definition consoleread (user_dst : bool) (dst n : Z) : K Z :=
  let target := u32 n in
  acquire LCons;;
  r ← consoleread_loop (Z.to_nat n) user_dst dst target n;
  match r with
  | inl v => mret v
  | inr n => release LCons;; mret (s32 (target - n))
  end.

(** [while(cons.e != cons.w && cons.buf[(cons.e-1) % INPUT_BUF_SIZE] != '\n')] *)
Fixpoint kill_line (fuel : nat) : K unit :=
  match fuel with
  | O => nofuel
  | S fuel' =>
      c ← getcons id;
      if negb (cons_e c =? cons_w c) && negb (cons_at (u32 (cons_e c - 1)) c =? 10) then
        modcons (fun c => set_cons_e (u32 (cons_e c - 1)) c);;
        consputc BACKSPACE;;
        kill_line fuel'
      else mret tt
  end.

Definition consoleintr (c : Z) : K unit :=
  acquire LCons;;
  (if c =? Ctl "P" then procdump
   else if c =? Ctl "U" then
     n ← getcons (fun c => u32 (cons_e c - cons_w c));
     kill_line (S (Z.to_nat n))
   else if (c =? Ctl "H") || (c =? 0x7f) then
     k ← getcons id;
     when (negb (cons_e k =? cons_w k))
       (modcons (fun c => set_cons_e (u32 (cons_e c - 1)) c);;
        consputc BACKSPACE)
   else
     k ← getcons id;
     when (negb (c =? 0) && (u32 (cons_e k - cons_r k) <? INPUT_BUF_SIZE))
       (let c := if c =? 13 then 10 else c in
        consputc c;;
        modcons (fun k => set_cons_buf (<[Z.to_nat (cons_e k mod INPUT_BUF_SIZE) := u8 c]> (cons_buf k)) k);;
        modcons (fun k => set_cons_e (u32 (cons_e k + 1)) k);;
        k ← getcons id;
        when ((c =? 10) || (c =? Ctl "D") || (u32 (cons_e k - cons_r k) =? INPUT_BUF_SIZE))
          (modcons (fun k => set_cons_w (cons_e k) k);;
           wakeup CConsR)));;
  release LCons.

Definition CONSOLE : nat := 1.

(** [devsw[CONSOLE]] gets consoleread() and consolewrite(). *)
Definition consoleinit : K unit :=
  initlock LCons "cons";;
  uartinit;;
  modd (fun d => set_d_devsw (<[CONSOLE := Some ConsoleDev]> (d_devsw d)) d).

(** uartintr() of uart.c: its input loop takes one received byte a round. *)
Fixpoint uartintr_loop (fuel : nat) : K unit :=
  c ← uartgetc;
  if c =? -1 then mret tt
  else
    consoleintr c;;
    match fuel with
    | O => nofuel
    | S fuel' => uartintr_loop fuel'
    end.

Definition uartintr : K unit :=
  rx ← getu uart_rx;
  uartintr_loop (length rx);;
  acquire LUartTx;;
  uartstart;;
  release LUartTx.
End Console.
