(* ===== verification/Sleeplock.v ===== *)
(** * kernel/sleeplock.c: sleeping locks *)

From S2P Require Import Prelude Mem KString Riscv State Spinlock Kalloc Vm Proc.

Section Sleeplock.
Context {B : Budget}.

Definition slk_of (d : data) (l : slkid) : sleeplock := default zero_slk (d_slocks d !! l).
Definition upd_slk (l : slkid) (f : sleeplock -> sleeplock) (d : data) : data :=
  set_d_slocks (<[l := f (slk_of d l)]> (d_slocks d)) d.
Definition getl {A} (l : slkid) (f : sleeplock -> A) : K A := getd (fun d => f (slk_of d l)).
Definition modl (l : slkid) (f : sleeplock -> sleeplock) : K unit := modd (upd_slk l f).

Definition initsleeplock (l : slkid) (name : string) : K unit :=
  initlock (LSleep l) "sleep lock";;
  modl l (set_slk_name name);;
  modl l (set_slk_locked 0);;
  modl l (set_slk_pid 0).

(** [while (lk->locked) sleep(lk, &lk->lk);] *)
Fixpoint acquiresleep_wait (fuel : nat) (l : slkid) : K unit :=
  match fuel with
  | O => nofuel
  | S fuel' =>
      locked ← getl l slk_locked;
      if nz locked then sleep (CSleep l) (LSleep l);; acquiresleep_wait fuel' l
      else mret tt
  end.

Definition acquiresleep (l : slkid) : K unit :=
  acquire (LSleep l);;
  acquiresleep_wait rounds l;;
  modl l (set_slk_locked 1);;
  cur ← myproc;
  p ← deref cur;
  pid ← getp p p_pid;
  modl l (set_slk_pid pid);;
  release (LSleep l).

Definition releasesleep (l : slkid) : K unit :=
  acquire (LSleep l);;
  modl l (set_slk_locked 0);;
  modl l (set_slk_pid 0);;
  wakeup (CSleep l);;
  release (LSleep l).

Definition holdingsleep (l : slkid) : K Z :=
  acquire (LSleep l);;
  locked ← getl l slk_locked;
  r ← (if nz locked then
         cur ← myproc;
         p ← deref cur;
         lpid ← getl l slk_pid;
         pid ← getp p p_pid;
         mret (b2z (lpid =? pid))
       else mret 0);
  release (LSleep l);;
  mret r.
End Sleeplock.
