(* ===== verification/SleepSpec.v ===== *)
(** * Sleep locks: what the operations of sleeplock.c do *)

From S2P Require Import Prelude Mem KString Riscv State Spinlock Kalloc Vm Proc ProcSpec Sleeplock.

(** No process sleeps on the channel. *)
Definition nobody (ch : chan) (d : data) : Prop :=
  Forall (fun q => ~ (p_state q = SLEEPING /\ p_chan q = ch)) (d_procs d).

(** The assignments of acquiresleep() and releasesleep(). *)
Definition slk_take (pid : Z) (s : sleeplock) : sleeplock := set_slk_pid pid (set_slk_locked 1 s).
Definition slk_drop (s : sleeplock) : sleeplock := set_slk_pid 0 (set_slk_locked 0 s).

Lemma slk_of_upd_eq l f d : slk_of (upd_slk l f d) l = f (slk_of d l).
Proof. unfold slk_of, upd_slk. cbn. by rewrite lookup_insert_eq. Qed.

Lemma slk_of_upd_ne l l' f d : l <> l' -> slk_of (upd_slk l f d) l' = slk_of d l'.
Proof. intros H. unfold slk_of, upd_slk. cbn. by rewrite lookup_insert_ne. Qed.

Lemma upd_slk_comp l f g d : upd_slk l f (upd_slk l g d) = upd_slk l (f ∘ g) d.
Proof. unfold upd_slk, slk_of. cbn. by rewrite lookup_insert_eq, insert_insert_eq. Qed.

Lemma modl_run l f y d : modl l f (KState y d) = Ret tt (KState y (upd_slk l f d)).
Proof. reflexivity. Qed.
Lemma getl_run {A} l (f : sleeplock -> A) y d : getl l f (KState y d) = Ret (f (slk_of d l)) (KState y d).
Proof. reflexivity. Qed.
#[export] Hint Resolve modl_run getl_run : krun.

Lemma procs_free_acq l y :
  procs_free y -> (forall i, LProc i <> l) -> procs_free (y_acq l y).
Proof. intros Hf Hl i Hi. apply free_acq; [apply Hl|by apply Hf]. Qed.

Lemma wakeup_nobody y ch d :
  sync_ok y -> procs_free y -> length (d_procs d) = NPROC -> nobody ch d ->
  wakeup ch (KState y d) = Ret tt (KState y d).
Proof.
  intros Hy Hf Hlen Hno. rewrite wakeup_run by done. do 2 f_equal.
  rewrite <- (set_procs_id d) at 4. f_equal.
  apply list_eq. intros i. rewrite list_lookup_imap.
  destruct (d_procs d !! i) as [q|] eqn:Hq; cbn; [|done]. f_equal. unfold woken.
  unfold nobody in Hno. rewrite Forall_forall in Hno.
  specialize (Hno q ltac:(by eapply list_elem_of_lookup_2)).
  repeat case_bool_decide; cbn [negb andb]; tauto.
Qed.

Section SleepSpec.
Context {B : Budget}.
Context (y : sync) (p : nat).
Context (Hy : sync_ok y) (Hf : procs_free y) (Hp : c_proc (curcpu y) = Some p).

Lemma acquiresleep_run l d :
  (0 < rounds)%nat -> free (LSleep l) y -> slk_locked (slk_of d l) = 0 ->
  acquiresleep l (KState y d) = Ret tt (KState y (upd_slk l (slk_take (p_pid (proc_of d p))) d)).
Proof using Hp Hy.
  intros Hr Hl Hu. unfold acquiresleep. kstep.
  destruct rounds as [|r]; [lia|]. cbn [acquiresleep_wait].
  erewrite bind_Ret by (kstep; rewrite Hu; reflexivity).
  ksteps. rewrite curcpu_acq, Hp by done. ksteps. rewrite upd_slk_comp, release_acq by done. done.
Qed.

Lemma holdingsleep_run l d :
  free (LSleep l) y ->
  holdingsleep l (KState y d) =
  Ret (b2z (nz (slk_locked (slk_of d l)) && (slk_pid (slk_of d l) =? p_pid (proc_of d p)))) (KState y d).
Proof using Hp Hy.
  intros Hl. unfold holdingsleep. ksteps. destruct (nz (slk_locked (slk_of d l))) eqn:E; cbn [andb].
  - erewrite bind_Ret; [|kstep; rewrite curcpu_acq, Hp by done; ksteps; reflexivity]. by ksteps.
  - by ksteps.
Qed.

Lemma releasesleep_run l d :
  free (LSleep l) y -> length (d_procs d) = NPROC -> nobody (CSleep l) d ->
  releasesleep l (KState y d) = Ret tt (KState y (upd_slk l slk_drop d)).
Proof using Hf Hy.
  intros Hl Hlen Hno. unfold releasesleep. ksteps. rewrite upd_slk_comp.
  erewrite bind_Ret; [by apply release_acq|].
  apply wakeup_nobody; [by apply sync_ok_acq|by apply procs_free_acq|done..].
Qed.
End SleepSpec.
