(* ===== verification/Pipe.v ===== *)
(** * kernel/pipe.c: pipes

    A pipe is the page it was allocated in; pipealloc() is in File.v. *)

From S2P Require Import Prelude Mem KString Riscv State Spinlock Kalloc Vm Proc.

Definition PIPESIZE : Z := 512.

Section Pipe.
Context {I : Image} {B : Budget}.

Definition pipe_of (d : data) (pi : Z) : pipe := default zero_pipe (d_pipes d !! pi).
Definition upd_pipe (pi : Z) (f : pipe -> pipe) (d : data) : data :=
  set_d_pipes (<[pi := f (pipe_of d pi)]> (d_pipes d)) d.
Definition getpi {A} (pi : Z) (f : pipe -> A) : K A := getd (fun d => f (pipe_of d pi)).
Definition modpi (pi : Z) (f : pipe -> pipe) : K unit := modd (upd_pipe pi f).

Definition pipeclose (pi writable : Z) : K unit :=
  acquire (LPipe pi);;
  (if nz writable
   then modpi pi (set_pi_writeopen 0);; wakeup (CPipeRead pi)
   else modpi pi (set_pi_readopen 0);; wakeup (CPipeWrite pi));;
  ro ← getpi pi pi_readopen;
  wo ← getpi pi pi_writeopen;
  if (ro =? 0) && (wo =? 0) then release (LPipe pi);; kfree pi
  else release (LPipe pi).

(** [pi->data[pi->nwrite++ % PIPESIZE] = ch;] *)
Definition pipe_put (ch : Z) (p : pipe) : pipe :=
  set_pi_nwrite (u32 (pi_nwrite p + 1))
    (set_pi_data (<[Z.to_nat (pi_nwrite p mod PIPESIZE) := ch]> (pi_data p)) p).

(** [pi->data[pi->nread % PIPESIZE]] *)
Definition pipe_get (p : pipe) : Z := pi_data p !!! Z.to_nat (pi_nread p mod PIPESIZE).

Definition pipe_full (p : pipe) : bool := pi_nwrite p =? u32 (pi_nread p + PIPESIZE).
Definition pipe_empty (p : pipe) : bool := pi_nread p =? pi_nwrite p.

(** [while(i < n)]: [inl v] is [return v], [inr i] leaves the loop.  A round
    either sleeps or writes a byte. *)
Fixpoint pipewrite_loop (fuel : nat) (pi : Z) (pr : nat) (addr i n : Z) : K (Z + Z) :=
  match fuel with
  | O => nofuel
  | S fuel' =>
      if i <? n then
        ro ← getpi pi pi_readopen;
        k ← (if ro =? 0 then mret 1 else killed pr);
        if nz k then release (LPipe pi);; mret (inl (-1))
        else
          full ← getpi pi pipe_full;
          if (full : bool) then
            wakeup (CPipeRead pi);;
            sleep (CPipeWrite pi) (LPipe pi);;
            pipewrite_loop fuel' pi pr addr i n
          else
            pt ← getp pr p_pagetable;
            '(r, bs) ← copyin pt (u64 (addr + i)) 1;
            if r =? -1 then mret (inr i)
            else
              modpi pi (pipe_put (bs !!! O));;
              pipewrite_loop fuel' pi pr addr (i + 1) n
      else mret (inr i)
  end.

Definition pipewrite (pi addr n : Z) : K Z :=
  cur ← myproc;
  pr ← deref cur;
  acquire (LPipe pi);;
  r ← pipewrite_loop (rounds + Z.to_nat n) pi pr addr 0 n;
  match r with
  | inl v => mret v
  | inr i =>
      wakeup (CPipeRead pi);;
      release (LPipe pi);;
      mret i
  end.

(** [while(pi->nread == pi->nwrite && pi->writeopen)]: whether to go on. *)
Fixpoint piperead_wait (fuel : nat) (pi : Z) (pr : nat) : K bool :=
  match fuel with
  | O => nofuel
  | S fuel' =>
      empty ← getpi pi pipe_empty;
      wo ← getpi pi pi_writeopen;
      if empty && nz wo then
        k ← killed pr;
        if nz k then release (LPipe pi);; mret false
        else sleep (CPipeRead pi) (LPipe pi);; piperead_wait fuel' pi pr
      else mret true
  end.

(** [for(i = 0; i < n; i++)]; [left] is the number of rounds left. *)
Fixpoint piperead_loop (left : nat) (pi : Z) (pr : nat) (addr i : Z) : K Z :=
  match left with
  | O => mret i
  | S left' =>
      empty ← getpi pi pipe_empty;
      if (empty : bool) then mret i
      else
        ch ← getpi pi pipe_get;
        modpi pi (fun p => set_pi_nread (u32 (pi_nread p + 1)) p);;
        pt ← getp pr p_pagetable;
        r ← copyout pt (u64 (addr + i)) [ch];
        if r =? -1 then mret i
        else piperead_loop left' pi pr addr (i + 1)
  end.

Definition piperead (pi addr n : Z) : K Z :=
  cur ← myproc;
  pr ← deref cur;
  acquire (LPipe pi);;
  ok ← piperead_wait rounds pi pr;
  if negb ok then mret (-1)
  else
    i ← piperead_loop (Z.to_nat n) pi pr addr 0;
    wakeup (CPipeWrite pi);;
    release (LPipe pi);;
    mret i.
End Pipe.
