(* ===== verification/PipeSpec.v ===== *)
(** * A pipe is a queue of at most 512 bytes

    [queue] reads the bytes between the two counters out of the ring.  pipewrite()
    appends to it what the writer has in its memory, and piperead() takes from its
    front; the counters wrap around at 2^32. *)

From S2P Require Import Prelude Mem KString Riscv State Spinlock Kalloc Vm PageTable Uvm CopyUser Proc ProcSpec SleepSpec Pipe.

(** ** The ring *)

Definition pipe_count (p : pipe) : Z := u32 (pi_nwrite p - pi_nread p).
Definition pipe_byte (p : pipe) (i : Z) : Z := pi_data p !!! Z.to_nat ((pi_nread p + i) mod PIPESIZE).
Definition queue (p : pipe) : list Z :=
  (fun j => pipe_byte p (Z.of_nat j)) <$> seq 0 (Z.to_nat (pipe_count p)).

Record pipe_ok (p : pipe) : Prop := {
  pk_len : length (pi_data p) = Z.to_nat PIPESIZE;
  pk_nread : 0 <= pi_nread p < 2 ^ 32;
  pk_nwrite : 0 <= pi_nwrite p < 2 ^ 32;
  pk_count : pipe_count p <= PIPESIZE
}.

#[local] Ltac Zify.zify_post_hook ::= Z.to_euclidean_division_equations.

Lemma length_queue p : Z.of_nat (length (queue p)) = pipe_count p.
Proof. unfold queue. rewrite length_fmap, length_seq. unfold pipe_count, wrapu. lia. Qed.

(** The tests of the code are those on the queue. *)
Lemma pipe_empty_spec p : pipe_ok p -> pipe_empty p = bool_decide (queue p = []).
Proof.
  intros [_ Hr Hw _]. pose proof (length_queue p) as Hl. unfold pipe_empty, pipe_count, wrapu in *.
  case_bool_decide as E.
  - rewrite E in Hl. cbn in Hl. apply Z.eqb_eq. lia.
  - apply Z.eqb_neq. intros En. apply E. destruct (queue p); [done|]. cbn [length] in Hl. lia.
Qed.

Lemma pipe_full_spec p : pipe_ok p -> pipe_full p = bool_decide (Z.of_nat (length (queue p)) = PIPESIZE).
Proof.
  intros [_ Hr Hw Hc]. rewrite length_queue. unfold pipe_full, pipe_count, PIPESIZE, wrapu in *.
  case_bool_decide; [apply Z.eqb_eq|apply Z.eqb_neq]; lia.
Qed.

Lemma pipe_put_spec c p :
  pipe_ok p -> pipe_full p = false -> queue (pipe_put c p) = queue p ++ [c] /\ pipe_ok (pipe_put c p).
Proof.
  intros Hok Hf. pose proof Hok as [Hl Hr Hw Hc]. rewrite pipe_full_spec in Hf by done. apply bool_decide_eq_false in Hf.
  rewrite length_queue in Hf.
  assert (pipe_count (pipe_put c p) = pipe_count p + 1) as Ec.
  { unfold pipe_count, pipe_put, PIPESIZE, wrapu in *. cbn. lia. }
  assert (0 <= pipe_count p) as Hc0 by (unfold pipe_count, wrapu; lia).
  assert (forall j, 0 <= j < pipe_count p -> pipe_byte (pipe_put c p) j = pipe_byte p j) as Hold.
  { intros j Hj. unfold pipe_byte, pipe_put. cbn. apply list_lookup_total_insert_ne.
    unfold pipe_count, PIPESIZE, wrapu in *. lia. }
  assert (pipe_byte (pipe_put c p) (pipe_count p) = c) as Hnew.
  { unfold pipe_byte, pipe_put. cbn. replace ((pi_nread p + pipe_count p) mod PIPESIZE) with (pi_nwrite p mod PIPESIZE).
    - apply list_lookup_total_insert_eq. rewrite Hl. unfold PIPESIZE. lia.
    - unfold pipe_count, PIPESIZE, wrapu in *. lia. }
  split; [|split; [by cbn; rewrite length_insert|done|cbn; unfold wrapu; lia|lia]].
  unfold queue. rewrite Ec. replace (Z.to_nat (pipe_count p + 1)) with (Z.to_nat (pipe_count p) + 1)%nat by lia.
  rewrite seq_app, fmap_app. cbn [fmap list_fmap seq]. rewrite Nat.add_0_l, Z2Nat.id, Hnew by done. f_equal.
  apply list_fmap_ext. intros i j Hj. apply lookup_seq in Hj. apply Hold. lia.
Qed.

Lemma pipe_get_spec p :
  pipe_ok p -> pipe_empty p = false ->
  let p' := set_pi_nread (u32 (pi_nread p + 1)) p in
  queue p = pipe_get p :: queue p' /\ pipe_ok p'.
Proof.
  intros Hok He p'. pose proof Hok as [Hl Hr Hw Hc]. rewrite pipe_empty_spec in He by done. apply bool_decide_eq_false in He.
  pose proof (length_queue p) as Hlq.
  assert (0 < pipe_count p) as Hpos by (destruct (queue p); [done|cbn in Hlq; lia]).
  assert (pipe_count p' = pipe_count p - 1) as Ec.
  { unfold pipe_count, p', PIPESIZE, wrapu in *. cbn. lia. }
  split; [|split; [done|unfold p'; cbn; unfold wrapu; lia|done|lia]].
  unfold queue. rewrite Ec. destruct (Z.to_nat (pipe_count p)) as [|n] eqn:En; [lia|].
  replace (Z.to_nat (pipe_count p - 1)) with n by lia. cbn [seq fmap list_fmap]. f_equal.
  - unfold pipe_byte, pipe_get. by rewrite Z.add_0_r.
  - rewrite <- fmap_S_seq, <- list_fmap_compose. apply list_fmap_ext. intros i j _. cbn. unfold pipe_byte, p'. cbn.
    f_equal. f_equal. unfold PIPESIZE, wrapu. lia.
Qed.

(** ** The operations *)

Lemma vmem_ext `{Image} d d' T U L :
  d_mem d' = d_mem d -> d_freelist d' = d_freelist d -> vmem d T U L -> vmem d' T U L.
Proof.
  intros Em Ef [H2 Hfl ? ? ? ? ?]. split; rewrite ?Em; try assumption.
  eapply freelist_frame; [exact Ef| |exact Hfl]. by intros; rewrite Em.
Qed.

Lemma uclosed_ext d d' T U r : d_mem d' = d_mem d -> uclosed d T U r -> uclosed d' T U r.
Proof. intros Em H v Hv Ha. apply H; [done|]. unfold accessible in *. by rewrite Em in Ha. Qed.

Lemma pipe_of_upd pi f d : pipe_of (upd_pipe pi f d) pi = f (pipe_of d pi).
Proof. unfold pipe_of, upd_pipe. cbn. by rewrite lookup_insert_eq. Qed.

Lemma upd_pipe_comp pi f g d : upd_pipe pi f (upd_pipe pi g d) = upd_pipe pi (f ∘ g) d.
Proof. unfold upd_pipe, pipe_of. cbn. by rewrite lookup_insert_eq, insert_insert_eq. Qed.

Lemma getpi_run {A} pi (f : pipe -> A) y d : getpi pi f (KState y d) = Ret (f (pipe_of d pi)) (KState y d).
Proof. reflexivity. Qed.
Lemma modpi_run pi f y d : modpi pi f (KState y d) = Ret tt (KState y (upd_pipe pi f d)).
Proof. reflexivity. Qed.
#[export] Hint Resolve getpi_run modpi_run : krun.

(** The bytes [bs] are added to the ring. *)
Definition puts (bs : list Z) (p : pipe) : pipe := foldl (fun p c => pipe_put c p) p bs.

Lemma puts_open bs : forall p, pi_readopen (puts bs p) = pi_readopen p /\ pi_writeopen (puts bs p) = pi_writeopen p.
Proof.
  induction bs as [|c bs IH]; intros p; [done|]. change (puts (c :: bs) p) with (puts bs (pipe_put c p)).
  by destruct (IH (pipe_put c p)) as [-> ->].
Qed.

Lemma puts_spec bs : forall p,
  pipe_ok p -> Z.of_nat (length (queue p)) + Z.of_nat (length bs) <= PIPESIZE ->
  queue (puts bs p) = queue p ++ bs /\ pipe_ok (puts bs p).
Proof.
  induction bs as [|c bs IH]; intros p Hok Hl; [by rewrite app_nil_r|]. cbn [length] in Hl.
  change (puts (c :: bs) p) with (puts bs (pipe_put c p)).
  destruct (pipe_put_spec c p Hok) as [Eq Hok'].
  { rewrite pipe_full_spec by done. apply bool_decide_eq_false. lia. }
  destruct (IH (pipe_put c p) Hok') as [Eq2 Hok2]; [rewrite Eq, length_app; cbn [length]; lia|].
  split; [|done]. by rewrite Eq2, Eq, <- app_assoc.
Qed.

(** A round of the reader takes a byte off. *)
Definition skip (p : pipe) : pipe := set_pi_nread (u32 (pi_nread p + 1)) p.
Definition skips (n : nat) (p : pipe) : pipe := Nat.iter n skip p.

Lemma skips_S n p : skips (S n) p = skips n (skip p).
Proof. apply Nat.iter_succ_r. Qed.

Lemma skips_spec n : forall p,
  pipe_ok p -> (n <= length (queue p))%nat -> queue (skips n p) = drop n (queue p) /\ pipe_ok (skips n p).
Proof.
  induction n as [|n IH]; intros p Hok Hn; [done|]. rewrite skips_S.
  destruct (pipe_get_spec p Hok) as [Eq Hok'].
  { rewrite pipe_empty_spec by done. apply bool_decide_eq_false. intros E. rewrite E in Hn. cbn in Hn. lia. }
  rewrite Eq in Hn |- *. cbn [length drop] in *. apply IH; [done|]. fold (skip p) in Hn. lia.
Qed.

Section PipeOps.
Context {I : Image} {IOk : ImageOk I} {B : Budget}.
Context (pi : Z) (p : nat) (r : Z) (T : tabmap) (U : usermap) (L : list Z).
Context (Hp : (p < NPROC)%nat) (Hr : T !! (r, 2, 0) = Some r).

(** The process can use its memory. *)
Record memory (d : data) : Prop := {
  me_pt : p_pagetable (proc_of d p) = r;
  me_vmem : vmem d T U L;
  me_closed : uclosed d T U r
}.

(** Only pipe [pi] changes, by [f]. *)
Record pstep (f : pipe -> pipe) (d d' : data) : Prop := {
  ps_pipe : pipe_of d' pi = f (pipe_of d pi);
  ps_others : forall x, x <> pi -> d_pipes d' !! x = d_pipes d !! x;
  ps_frame : d' = set_d_pipes (d_pipes d') d
}.

Lemma pstep_refl d : pstep id d d.
Proof using. split; [done|done|by destruct d]. Qed.

Lemma pstep_upd f d : pstep f d (upd_pipe pi f d).
Proof using. split; [apply pipe_of_upd|intros x Hx; cbn; by rewrite lookup_insert_ne|done]. Qed.

Lemma pstep_trans f g h d1 d2 d3 :
  pstep f d1 d2 -> pstep g d2 d3 -> (forall p, h p = g (f p)) -> pstep h d1 d3.
Proof using.
  intros [A1 A2 A3] [B1 B2 B3] Hh. split; [by rewrite B1, A1, Hh|intros x Hx; by rewrite B2, A2|].
  rewrite B3, A3. done.
Qed.

Lemma memory_ext d d' :
  d_mem d' = d_mem d -> d_freelist d' = d_freelist d -> p_pagetable (proc_of d' p) = p_pagetable (proc_of d p) ->
  memory d -> memory d'.
Proof using. intros Em Ef Ep [H1 H2 H3]. split; [by rewrite Ep|by eapply vmem_ext|by eapply uclosed_ext]. Qed.

Lemma pstep_memory f d d' : pstep f d d' -> memory d -> memory d'.
Proof using. intros [_ _ E]. apply memory_ext; rewrite E; done. Qed.

Lemma pstep_mem f d d' : pstep f d d' -> d_mem d' = d_mem d.
Proof using. intros [_ _ ->]. done. Qed.

Lemma pstep_procs f d d' : pstep f d d' -> d_procs d' = d_procs d.
Proof using. intros [_ _ ->]. done. Qed.

Section Write.
Context (y : sync) (Hy : sync_ok y) (Hf : procs_free y).
Context (addr n : Z) (Haddr : 0 <= addr) (Hend : addr + n <= 2 ^ 64).

Lemma copyin_byte va d :
  memory d -> 0 <= va ->
  copyin r va 1 (KState y d) =
  if accessible d T r (va / PGSIZE) then Ret (0, [load8 (uview d U r) va]) (KState y d)
  else Ret (-1, []) (KState y d).
Proof using Hr IOk.
  clear Haddr Hend Hp. intros [_ Hv Hc] Hva. unfold copyin.
  destruct (copyin_loop_run y r T U L Hr (S (Z.to_nat 1)) d [] va 1 Hv Hc Hva ltac:(lia)) as (k & res & E & Hacc & Hk).
  rewrite E. destruct Hk as [[-> ->]|(-> & Hk & Ha)].
  - specialize (Hacc 0 ltac:(lia)). rewrite Z.add_0_r in Hacc. by rewrite Hacc.
  - replace k with 0 in * by lia. rewrite Z.add_0_r in Ha. by rewrite Ha.
Qed.

Lemma pipewrite_loop_run m : forall fuel d i,
  memory d -> Z.of_nat m = n - i -> (m < fuel)%nat -> 0 <= i ->
  pipe_ok (pipe_of d pi) -> Z.of_nat (length (queue (pipe_of d pi))) + (n - i) <= PIPESIZE ->
  pi_readopen (pipe_of d pi) <> 0 -> p_killed (proc_of d p) = 0 ->
  exists d' k res, pipewrite_loop fuel pi p addr i n (KState y d) = Ret (inr (i + k)) (KState y d')
    /\ reach r T d (addr + i) (n - i) k res
    /\ pstep (puts (read_bytes (uview d U r) (addr + i) (Z.to_nat k))) d d'.
Proof using Hr IOk Hp Hy Hf Haddr Hend.
  induction m as [|m IH]; intros [|fuel] d i Hm Em Hfu Hi Hok Hroom Hro Hk; try lia; cbn [pipewrite_loop].
  - exists d, 0, 0. rewrite Z.add_0_r. split_and!; [|apply reach_nil; lia|apply pstep_refl].
    by destruct (Z.ltb_spec i n); [lia|].
  - destruct (Z.ltb_spec i n) as [Hin|]; [|lia]. kstep. rewrite (proj2 (Z.eqb_neq _ 0) Hro).
    rewrite (bind_Ret _ _ _ _ _ (killed_run y Hy Hf p d Hp)), Hk. cbn [nz negb Z.eqb]. kstep.
    rewrite pipe_full_spec, bool_decide_eq_false_2 by (done || lia). kstep.
    rewrite (me_pt d Hm). replace (u64 (addr + i)) with (addr + i) by (symmetry; apply wrapu_small; lia).
    rewrite (bind_unfold (copyin _ _ _)), copyin_byte by (done || lia).
    destruct (accessible d T r ((addr + i) / PGSIZE)) eqn:Ha; cbn [obind].
    2: { exists d, 0, (-1). rewrite Z.add_0_r. split_and!; [done|by apply reach_stop; [lia|]|apply pstep_refl]. }
    cbn [Z.eqb]. kstep. set (c := load8 _ _). set (d1 := upd_pipe pi (pipe_put _) d).
    assert (pstep (pipe_put c) d d1) as Hs1 by apply pstep_upd.
    destruct (pipe_put_spec c (pipe_of d pi) Hok) as [Eq Hok1].
    { rewrite pipe_full_spec by done. apply bool_decide_eq_false. lia. }
    destruct (IH fuel d1 (i + 1)) as (d' & k & res & E & Hre & Hs2).
    all: rewrite ?(ps_pipe _ _ _ Hs1); try done; try lia.
    + by eapply pstep_memory.
    + rewrite Eq, length_app. cbn [length]. lia.
    + replace (i + 1 + k) with (i + (1 + k)) in E by lia. exists d', (1 + k), res. split_and!; [exact E|..].
      * apply reach_step; [done|lia|unfold PGSIZE; lia|lia|].
        replace (addr + i + 1) with (addr + (i + 1)) by lia. replace (n - i - 1) with (n - (i + 1)) by lia. exact Hre.
      * eapply pstep_trans; [exact Hs1|exact Hs2|]. intros q.
        assert (0 <= k) by (destruct Hre as [_ [[_ ->]|(_ & ? & _)]]; lia).
        replace (Z.to_nat (1 + k)) with (S (Z.to_nat k)) by lia. cbn [read_bytes].
        by rewrite <- Z.add_assoc.
Qed.
End Write.

(** The state of a reader after [k] bytes, [m] of the queue being gone. *)
Record took (addr : Z) (k m : nat) (d d' : data) : Prop := {
  tk_pipe : pipe_of d' pi = skips m (pipe_of d pi);
  tk_others : forall x, x <> pi -> d_pipes d' !! x = d_pipes d !! x;
  tk_frame : exists mm, d' = set_d_mem mm (set_d_pipes (d_pipes d') d);
  tk_memory : memory d';
  tk_view : mem_eq (uview d' U r) (write_bytes (uview d U r) addr (take k (queue (pipe_of d pi))));
  tk_acc : forall v, accessible d' T r v = accessible d T r v
}.

Lemma took_refl addr d : memory d -> took addr 0 0 d d.
Proof using. intros H. split; try done. exists (d_mem d). by destruct d. Qed.

(** One byte is taken off the queue and stored. *)
Lemma took_byte y addr d :
  memory d -> pipe_ok (pipe_of d pi) -> queue (pipe_of d pi) <> [] -> 0 <= addr ->
  let d1 := upd_pipe pi skip d in
  exists d2, copyout r addr [pipe_get (pipe_of d pi)] (KState y d1)
      = Ret (if accessible d T r (addr / PGSIZE) then 0 else -1) (KState y d2)
    /\ took addr (if accessible d T r (addr / PGSIZE) then 1 else 0) 1 d d2.
Proof using Hr IOk.
  clear Hp. intros Hm Hok Hne Ha d1. set (c := pipe_get _).
  assert (memory d1) as Hm1 by (eapply pstep_memory; [apply pstep_upd|done]).
  destruct (pipe_get_spec (pipe_of d pi) Hok) as [Eq _].
  { rewrite pipe_empty_spec by done. by apply bool_decide_eq_false. }
  destruct Hm1 as [H1 H2 H3]. unfold copyout. cbn [length].
  destruct (copyout_loop_run y r T U L Hr 2 d1 addr [c] H2 H3 Ha ltac:(cbn; lia)) as (d2 & k & res & E & [Hacc Hk] & Hw).
  assert (accessible d T r (addr / PGSIZE) = (k =? 1) /\ res = (if k =? 1 then 0 else -1) /\ 0 <= k <= 1) as (-> & -> & Hk1).
  { destruct Hk as [[-> ->]|(-> & Hk & Hn)]; cbn [length] in *.
    - specialize (Hacc 0 ltac:(lia)). rewrite Z.add_0_r in Hacc. done.
    - replace k with 0 in * by lia. rewrite Z.add_0_r in Hn. done. }
  exists d2. split; [rewrite E; by destruct (k =? 1)|].
  destruct Hw as [[mm Ed] Hv Hview _ Hpte _].
  assert (forall v, accessible d2 T r v = accessible d T r v) as Hacc2.
  { intros v. rewrite (accessible_frame d1 d2) by apply Hpte. done. }
  split; [..|exact Hacc2].
  - rewrite Ed. apply pipe_of_upd.
  - intros x Hx. rewrite Ed. cbn. by rewrite lookup_insert_ne.
  - exists mm. by rewrite Ed.
  - split; [by rewrite Ed|done|]. intros v Hv0 Hva. apply H3; [done|]. by rewrite Hacc2 in Hva.
  - rewrite Hview, Eq. assert (k = 0 \/ k = 1) as [->| ->] by lia; done.
Qed.

Lemma piperead_loop_run y left : forall d addr i,
  memory d -> pipe_ok (pipe_of d pi) -> 0 <= i -> 0 <= addr -> addr + i + Z.of_nat left <= 2 ^ 64 ->
  let m := Z.min (Z.of_nat left) (Z.of_nat (length (queue (pipe_of d pi)))) in
  exists d' k res, piperead_loop left pi p addr i (KState y d) = Ret (i + k) (KState y d')
    /\ reach r T d (addr + i) m k res
    /\ took (addr + i) (Z.to_nat k) (Z.to_nat (if res =? 0 then k else k + 1)) d d'.
Proof using Hr IOk.
  clear Hp. induction left as [|left IH]; intros d addr i Hm Hok Hi Ha Hend m; cbn [piperead_loop].
  { exists d, 0, 0. split_and!; [by rewrite Z.add_0_r|apply reach_nil; unfold m; lia|by apply took_refl]. }
  kstep. rewrite pipe_empty_spec by done. case_bool_decide as Eq.
  { exists d, 0, 0. unfold m. rewrite Eq. cbn [length].
    split_and!; [by rewrite Z.add_0_r|apply reach_nil; lia|by apply took_refl]. }
  do 3 kstep. change (p_pagetable (proc_of (upd_pipe pi _ d) p)) with (p_pagetable (proc_of d p)).
  rewrite (me_pt d Hm). replace (u64 (addr + i)) with (addr + i) by (symmetry; apply wrapu_small; lia).
  destruct (took_byte y (addr + i) d Hm Hok Eq ltac:(lia)) as (d2 & E & Ht).
  rewrite (bind_Ret _ _ _ _ _ E). destruct (pipe_get_spec (pipe_of d pi) Hok) as [Eqq Hok'].
  { rewrite pipe_empty_spec by done. by apply bool_decide_eq_false. }
  assert (1 <= m) as Hm1 by (unfold m; destruct (queue (pipe_of d pi)); [done|cbn [length]; lia]).
  destruct (accessible d T r ((addr + i) / PGSIZE)) eqn:Hacc; cbn [Z.eqb].
  2: { exists d2, 0, (-1). split_and!; [by rewrite Z.add_0_r|apply reach_stop; [lia|done]|exact Ht]. }
  destruct (IH d2 addr (i + 1)) as (d' & k & res & E2 & Hre & Ht2).
  all: rewrite ?(tk_pipe _ _ _ _ _ Ht); try done; try lia.
  { apply Ht. }
  rewrite (tk_pipe _ _ _ _ _ Ht) in Hre. change (skips 1 (pipe_of d pi)) with (skip (pipe_of d pi)) in Hre.
  assert (0 <= k) as Hk0 by (destruct Hre as [_ [[_ ->]|(_ & ? & _)]]; lia).
  exists d', (1 + k), res. split_and!.
  - rewrite E2. f_equal. lia.
  - apply reach_step; [done|lia|unfold PGSIZE; lia|lia|]. apply (reach_frame _ _ d d2); [apply Ht|].
    replace (addr + i + 1) with (addr + (i + 1)) by lia. unfold m. rewrite Eqq. cbn [length]. fold (skip (pipe_of d pi)).
    replace (Z.min _ _ - 1) with (Z.min (Z.of_nat left) (Z.of_nat (length (queue (skip (pipe_of d pi)))))) by lia.
    exact Hre.
  - destruct Ht as [A1 A2 [m1 A3] A4 A5 A6], Ht2 as [B1 B2 [m2 B3] B4 B5 B6].
    replace (Z.to_nat (if res =? 0 then 1 + k else 1 + k + 1)) with (S (Z.to_nat (if res =? 0 then k else k + 1)))
      by (destruct (res =? 0); lia).
    split.
    + rewrite B1, A1. symmetry. apply skips_S.
    + intros x Hx. by rewrite B2, A2.
    + exists m2. rewrite B3, A3. done.
    + done.
    + rewrite B5, A5, A1. replace (Z.to_nat (1 + k)) with (1 + Z.to_nat k)%nat by lia. rewrite Eqq.
      change (skips 1 (pipe_of d pi)) with (skip (pipe_of d pi)). cbn [Nat.add take].
      rewrite take_0. cbn [write_bytes]. by rewrite Z.add_assoc.
    + intros v. by rewrite B6, A6.
Qed.
End PipeOps.

(** ** The two ends *)

(** A process that may use pipe [pi] and its own memory. *)
Record pipe_user `{Image} (y : sync) (pi : Z) (p : nat) (r : Z) (T : tabmap) (U : usermap) (L : list Z) (d : data) : Prop := {
  pu_ok : sync_ok y;
  pu_procs : procs_free y;
  pu_free : free (LPipe pi) y;
  pu_cur : c_proc (curcpu y) = Some p;
  pu_lt : (p < NPROC)%nat;
  pu_len : length (d_procs d) = NPROC;
  pu_root : T !! (r, 2, 0) = Some r;
  pu_memory : memory p r T U L d;
  pu_pipe : pipe_ok (pipe_of d pi)
}.

(** What happens to the other processes and the other pipes. *)
Record pipe_frame (y : sync) (pi : Z) (ch : chan) (d d' : data) : Prop := {
  pf_procs : d_procs d' = imap (woken ch (c_proc (curcpu y)) (d_min_accumulator d)) (d_procs d);
  pf_others : forall x, x <> pi -> d_pipes d' !! x = d_pipes d !! x
}.

Section Ends.
Context {I : Image} {IOk : ImageOk I} {B : Budget}.
Context (Hr0 : (0 < rounds)%nat).

(** C31: While there is room, pipewrite() appends the bytes of the user's buffer to
    the queue, up to the first page that cannot be read, wakes the readers and
    returns how many there were. *)
Theorem pipewrite_appends y pi p r T U L d addr n :
  pipe_user y pi p r T U L d -> 0 <= addr -> 0 <= n -> addr + n <= 2 ^ 64 ->
  Z.of_nat (length (queue (pipe_of d pi))) + n <= PIPESIZE ->
  pi_readopen (pipe_of d pi) <> 0 -> p_killed (proc_of d p) = 0 ->
  exists d' k res, pipewrite pi addr n (KState y d) = Ret k (KState y d')
    /\ reach r T d addr n k res
    /\ queue (pipe_of d' pi) = queue (pipe_of d pi) ++ read_bytes (uview d U r) addr (Z.to_nat k)
    /\ pipe_ok (pipe_of d' pi) /\ pipe_frame y pi (CPipeRead pi) d d'.
Proof using Hr0 IOk.
  intros [Hy Hf Hfr Hcur Hp Hlen Hr Hm Hok] Ha Hn Hend Hroom Hro Hk. unfold pipewrite.
  ksteps. rewrite Hcur. do 2 kstep. set (y' := y_acq (LPipe pi) y).
  assert (sync_ok y') as Hy' by (by apply sync_ok_acq).
  assert (procs_free y') as Hf' by (by apply procs_free_acq).
  destruct (pipewrite_loop_run pi p r T U L Hp Hr y' Hy' Hf' addr n Ha Hend (Z.to_nat n) (rounds + Z.to_nat n) d 0)
    as (d1 & k & res & E & Hre & Hs); try done; try lia.
  rewrite (bind_Ret _ _ _ _ _ E). rewrite Z.add_0_r in *. rewrite Z.sub_0_r in Hre. cbn [Z.add].
  assert (length (d_procs d1) = NPROC) as Hlen1 by (by rewrite (pstep_procs _ _ _ _ Hs)).
  rewrite (bind_Ret _ _ _ _ _ (wakeup_run y' Hy' Hf' (CPipeRead pi) d1 Hlen1)).
  rewrite (bind_Ret _ _ _ _ _ (release_acq _ _ _ Hy Hfr)).
  assert (0 <= k <= n) as Hkn by (destruct Hre as [_ [[_ ->]|(_ & ? & _)]]; lia).
  eexists _, k, res. split_and!; [reflexivity|done|..].
  - change (pipe_of (set_d_procs _ d1) pi) with (pipe_of d1 pi). rewrite (ps_pipe _ _ _ _ Hs).
    apply puts_spec; [done|]. rewrite length_read_bytes. lia.
  - change (pipe_of (set_d_procs _ d1) pi) with (pipe_of d1 pi). rewrite (ps_pipe _ _ _ _ Hs).
    apply puts_spec; [done|]. rewrite length_read_bytes. lia.
  - split; [|apply Hs]. cbn. unfold y'. rewrite curcpu_acq by done.
    rewrite (ps_frame _ _ _ _ Hs). done.
Qed.

(** C32: When there is something in the queue, or no writer is left, piperead() moves
    bytes from the front of the queue to the user's buffer until the queue is
    empty, the buffer is full or a page cannot be written, in which case one more
    byte is gone from the queue; it wakes the writers and returns the count. *)
Theorem piperead_takes y pi p r T U L d addr n :
  pipe_user y pi p r T U L d -> 0 <= addr -> 0 <= n -> addr + n <= 2 ^ 64 ->
  queue (pipe_of d pi) <> [] \/ pi_writeopen (pipe_of d pi) = 0 ->
  let q := queue (pipe_of d pi) in
  let m := Z.min n (Z.of_nat (length q)) in
  exists d' k res, piperead pi addr n (KState y d) = Ret k (KState y d')
    /\ reach r T d addr m k res
    /\ queue (pipe_of d' pi) = drop (Z.to_nat (if res =? 0 then k else k + 1)) q
    /\ mem_eq (uview d' U r) (write_bytes (uview d U r) addr (take (Z.to_nat k) q))
    /\ pipe_ok (pipe_of d' pi) /\ pipe_frame y pi (CPipeWrite pi) d d'.
Proof using Hr0 IOk.
  intros [Hy Hf Hfr Hcur Hp Hlen Hr Hm Hok] Ha Hn Hend Hq q m. unfold piperead.
  ksteps. rewrite Hcur. do 2 kstep. set (y' := y_acq (LPipe pi) y).
  assert (sync_ok y') as Hy' by (by apply sync_ok_acq).
  assert (procs_free y') as Hf' by (by apply procs_free_acq).
  assert (piperead_wait rounds pi p (KState y' d) = Ret true (KState y' d)) as Ew.
  { destruct rounds as [|n']; [lia|]. cbn [piperead_wait]. ksteps. rewrite pipe_empty_spec by done.
    case_bool_decide as E; [|done]. destruct Hq as [Hq|Hq]; [done|]. rewrite Hq. done. }
  rewrite (bind_Ret _ _ _ _ _ Ew). cbn [negb].
  destruct (piperead_loop_run pi p r T U L Hr y' (Z.to_nat n) d addr 0) as (d1 & k & res & E & Hre & Ht); try done; try lia.
  rewrite (bind_Ret _ _ _ _ _ E). rewrite Z.add_0_r in *. cbn [Z.add]. rewrite Z2Nat.id in Hre by done. fold q m in Hre.
  assert (d_procs d1 = d_procs d /\ d_min_accumulator d1 = d_min_accumulator d) as [Ep Eacc].
  { destruct (tk_frame _ _ _ _ _ _ _ _ _ _ _ Ht) as [mm ->]. done. }
  rewrite (bind_Ret _ _ _ _ _ (wakeup_run y' Hy' Hf' (CPipeWrite pi) d1 ltac:(by rewrite Ep))).
  rewrite (bind_Ret _ _ _ _ _ (release_acq _ _ _ Hy Hfr)).
  eexists _, k, res. split_and!; [reflexivity|done|..].
  all: change (pipe_of (set_d_procs _ d1) pi) with (pipe_of d1 pi).
  - rewrite (tk_pipe _ _ _ _ _ _ _ _ _ _ _ Ht). apply skips_spec; [done|].
    destruct Hre as [_ [[-> ->]|(-> & Hk & _)]]; cbn; fold q; unfold m in *; lia.
  - exact (tk_view _ _ _ _ _ _ _ _ _ _ _ Ht).
  - rewrite (tk_pipe _ _ _ _ _ _ _ _ _ _ _ Ht). apply skips_spec; [done|].
    destruct Hre as [_ [[-> ->]|(-> & Hk & _)]]; cbn; fold q; unfold m in *; lia.
  - split; [|exact (tk_others _ _ _ _ _ _ _ _ _ _ _ Ht)]. cbn. unfold y'. rewrite curcpu_acq by done. by rewrite Ep, Eacc.
Qed.
End Ends.

(** ** Witnesses *)

#[local] Existing Instances demo_image demo_image_ok.
#[local] Instance one_round : Budget := 1%nat.
#[local] Opaque demo_d3.

Definition pipe_sync : sync := set_y_locks (<[LPipe 7 := Spinlock 0 "pipe" None]> (y_locks proc_sync)) proc_sync.

(** Process 3 with a user page, and pipe 7 with the bytes 5 and 6 in it; its
    counters are about to wrap around. *)
Definition wrapped : pipe :=
  puts [5; 6] (Pipe (replicate 512 0) (2 ^ 32 - 1) (2 ^ 32 - 1) 1 1).
Definition pipe_data : data :=
  set_d_pipes {[7 := wrapped]} (set_d_procs (alter (set_p_pagetable (pg 0)) 3%nat (d_procs proc_data)) demo_d3).

Lemma wrapped_queue : queue wrapped = [5; 6] /\ pi_nwrite wrapped = 1.
Proof. by vm_compute. Qed.

Lemma pipe_data_root : p_pagetable (alter (set_p_pagetable (pg 0)) 3%nat (d_procs proc_data) !!! 3%nat) = pg 0.
Proof. by vm_compute. Qed.

Lemma pipe_data_alive : p_killed (alter (set_p_pagetable (pg 0)) 3%nat (d_procs proc_data) !!! 3%nat) = 0.
Proof. by vm_compute. Qed.

Lemma set_pipes_procs ps pr d :
  d_mem (set_d_pipes ps (set_d_procs pr d)) = d_mem d
  /\ d_freelist (set_d_pipes ps (set_d_procs pr d)) = d_freelist d
  /\ proc_of (set_d_pipes ps (set_d_procs pr d)) 3 = pr !!! 3%nat.
Proof. done. Qed.

Lemma pipe_data_mem : d_mem pipe_data = d_mem demo_d3.
Proof. apply set_pipes_procs. Qed.
Lemma pipe_data_free : d_freelist pipe_data = d_freelist demo_d3.
Proof. apply set_pipes_procs. Qed.

Lemma pipe_data_user : pipe_user pipe_sync 7 3 (pg 0) demo_T2 demo_U demo_L3 pipe_data.
Proof.
  split.
  - split; vm_compute; try done. lia.
  - intros i Hi. destruct (proc_sync_free i Hi) as (nm & E). exists nm. cbn. by rewrite lookup_insert_ne.
  - eexists. apply lookup_insert_eq.
  - by vm_compute.
  - unfold NPROC. lia.
  - cbn [pipe_data d_procs set_d_pipes set_d_procs]. by rewrite length_alter, proc_data_len.
  - apply demo_root.
  - split; [exact pipe_data_root| |].
    + eapply vmem_ext; [exact pipe_data_mem|exact pipe_data_free|exact (proj1 demo_vmem3)].
    + eapply uclosed_ext; [exact pipe_data_mem|exact demo_uclosed].
  - change (pipe_of pipe_data 7) with wrapped. by split; vm_compute.
Qed.

Lemma pipe_data_accessible i : 0 <= i < 4096 -> accessible pipe_data demo_T2 (pg 0) (i / PGSIZE) = true.
Proof.
  intros Hi. assert (i / PGSIZE = 0) as -> by (unfold PGSIZE; lia). unfold accessible.
  rewrite pipe_data_mem. destruct demo_vmem3 as [_ Hp].
  rewrite Hp, decide_True by done. by vm_compute.
Qed.

Lemma pipewrite_appends_witness :
  exists d', pipewrite 7 100 3 (KState pipe_sync pipe_data) = Ret 3 (KState pipe_sync d')
    /\ queue (pipe_of d' 7) = [5; 6] ++ read_bytes (uview pipe_data demo_U (pg 0)) 100 3.
Proof.
  destruct (pipewrite_appends (Nat.lt_0_1 : (0 < rounds)%nat) pipe_sync 7 3 (pg 0) demo_T2 demo_U demo_L3 pipe_data 100 3
    pipe_data_user) as (d' & k & res & E & [_ Hk] & Hq & _).
  - lia.
  - lia.
  - lia.
  - change (pipe_of pipe_data 7) with wrapped. rewrite (proj1 wrapped_queue). cbn. unfold PIPESIZE. lia.
  - change (pipe_of pipe_data 7) with wrapped. vm_compute. discriminate.
  - exact pipe_data_alive.
  - assert (k = 3) as ->.
    { destruct Hk as [[_ Hk]|(_ & Hk & Ha)]; [exact Hk|]. rewrite pipe_data_accessible in Ha by lia. discriminate. }
    exists d'. split; [exact E|]. rewrite Hq. change (pipe_of pipe_data 7) with wrapped. rewrite (proj1 wrapped_queue). reflexivity.
Defined.

Lemma piperead_takes_witness :
  exists d', piperead 7 100 1 (KState pipe_sync pipe_data) = Ret 1 (KState pipe_sync d')
    /\ queue (pipe_of d' 7) = [6]
    /\ mem_eq (uview d' demo_U (pg 0)) (write_bytes (uview pipe_data demo_U (pg 0)) 100 [5]).
Proof.
  assert (queue (pipe_of pipe_data 7) = [5; 6]) as E0 by exact (proj1 wrapped_queue).
  destruct (piperead_takes (Nat.lt_0_1 : (0 < rounds)%nat) pipe_sync 7 3 (pg 0) demo_T2 demo_U demo_L3 pipe_data 100 1
    pipe_data_user) as (d' & k & res & E & [_ Hk] & Hq & Hv & _).
  - lia.
  - lia.
  - lia.
  - left. rewrite E0. discriminate.
  - rewrite E0 in Hk, Hq, Hv. cbn [length Z.of_nat Z.min] in Hk. assert (k = 1 /\ res = 0) as [-> ->].
    { destruct Hk as [[H1 H2]|(_ & Hk & Ha)]; [split; [exact H2|exact H1]|].
      change (Z.min 1 (Z.of_nat 2)) with 1 in Hk. rewrite pipe_data_accessible in Ha by lia. discriminate. }
    exists d'. split; [exact E|]. split; [exact Hq|exact Hv].
Defined.
