(* ===== verification/Bio.v ===== *)
(** * kernel/bio.c: the buffer cache

    The buffers are [d_bufs]; the doubly linked list through them starts and
    ends at the extra buffer number [NBUF], [bcache.head].  The disk driver is
    the interface [Disk]; Virtio.v implements it. *)

From S2P Require Import Prelude Mem KString Riscv State Spinlock Kalloc Vm Proc Sleeplock.

(** [virtio_disk_rw(b, write)] *)
Class Disk : Type := disk_rw : nat -> Z -> K unit.

(** Numbers of four bytes, and of two, in a block. *)
Definition get32 (bs : list Z) (off : Z) : Z :=
  let b i := bs !!! Z.to_nat (off + i) in
  b 0 + 256 * b 1 + 65536 * b 2 + 16777216 * b 3.
Definition get16 (bs : list Z) (off : Z) : Z :=
  bs !!! Z.to_nat off + 256 * (bs !!! Z.to_nat (off + 1)).

(** Overwrite the bytes from [off] on. *)
Definition put_bytes (bs : list Z) (off : Z) (v : list Z) : list Z :=
  list_inserts (Z.to_nat off) v bs.
Definition put32 (bs : list Z) (off v : Z) : list Z := put_bytes bs off (le_bytes 4 v).
Definition put16 (bs : list Z) (off v : Z) : list Z := put_bytes bs off (le_bytes 2 v).

Definition buf_of (d : data) (b : nat) : buf := d_bufs d !!! b.
Definition upd_buf (b : nat) (f : buf -> buf) (d : data) : data :=
  set_d_bufs (alter f b (d_bufs d)) d.
Definition getb {A} (b : nat) (f : buf -> A) : K A := getd (fun d => f (buf_of d b)).
Definition modb (b : nat) (f : buf -> buf) : K unit := modd (upd_buf b f).

(** [&bcache.head] *)
Definition bhead : nat := NBUF.

Section Bio.
Context {B : Budget} {D : Disk}.

Definition binit : K unit :=
  initlock LBcache "bcache";;
  modb bhead (set_b_prev bhead);;
  modb bhead (set_b_next bhead);;
  for_each (seq 0 NBUF) (fun b =>
    hn ← getb bhead b_next;
    modb b (set_b_next hn);;
    modb b (set_b_prev bhead);;
    initsleeplock (SBuf b) "buffer";;
    modb hn (set_b_prev b);;
    modb bhead (set_b_next b)).

(** [for(b = bcache.head.next; b != &bcache.head; b = b->next)] *)
Fixpoint bget_cached (fuel : nat) (b : nat) (dev blockno : Z) : K (option nat) :=
  match fuel with
  | O => nofuel
  | S fuel' =>
      if decide (b = bhead) then mret None
      else
        bdev ← getb b b_dev;
        bno ← getb b b_blockno;
        if (bdev =? dev) && (bno =? blockno) then mret (Some b)
        else
          next ← getb b b_next;
          bget_cached fuel' next dev blockno
  end.

(** [for(b = bcache.head.prev; b != &bcache.head; b = b->prev)] *)
Fixpoint bget_unused (fuel : nat) (b : nat) : K (option nat) :=
  match fuel with
  | O => nofuel
  | S fuel' =>
      if decide (b = bhead) then mret None
      else
        ref ← getb b b_refcnt;
        if ref =? 0 then mret (Some b)
        else
          prev ← getb b b_prev;
          bget_unused fuel' prev
  end.

Definition bget (dev blockno : Z) : K nat :=
  acquire LBcache;;
  first ← getb bhead b_next;
  found ← bget_cached (S NBUF) first dev blockno;
  match found with
  | Some b =>
      modb b (fun r => set_b_refcnt (u32 (b_refcnt r + 1)) r);;
      release LBcache;;
      acquiresleep (SBuf b);;
      mret b
  | None =>
      last ← getb bhead b_prev;
      lru ← bget_unused (S NBUF) last;
      match lru with
      | Some b =>
          modb b (set_b_dev dev);;
          modb b (set_b_blockno blockno);;
          modb b (set_b_valid 0);;
          modb b (set_b_refcnt 1);;
          release LBcache;;
          acquiresleep (SBuf b);;
          mret b
      | None => panic "bget: no buffers"
      end
  end.

Definition bread (dev blockno : Z) : K nat :=
  b ← bget dev blockno;
  valid ← getb b b_valid;
  when (valid =? 0) (disk_rw b 0;; modb b (set_b_valid 1));;
  mret b.

Definition bwrite (b : nat) : K unit :=
  h ← holdingsleep (SBuf b);
  if h =? 0 then panic "bwrite" else disk_rw b 1.

Definition brelse (b : nat) : K unit :=
  h ← holdingsleep (SBuf b);
  if h =? 0 then panic "brelse"
  else
    releasesleep (SBuf b);;
    acquire LBcache;;
    modb b (fun r => set_b_refcnt (u32 (b_refcnt r - 1)) r);;
    ref ← getb b b_refcnt;
    when (ref =? 0)
      (next ← getb b b_next;
       prev ← getb b b_prev;
       modb next (set_b_prev prev);;
       modb prev (set_b_next next);;
       hn ← getb bhead b_next;
       modb b (set_b_next hn);;
       modb b (set_b_prev bhead);;
       modb hn (set_b_prev b);;
       modb bhead (set_b_next b));;
    release LBcache.

Definition bpin (b : nat) : K unit :=
  acquire LBcache;;
  modb b (fun r => set_b_refcnt (u32 (b_refcnt r + 1)) r);;
  release LBcache.

Definition bunpin (b : nat) : K unit :=
  acquire LBcache;;
  modb b (fun r => set_b_refcnt (u32 (b_refcnt r - 1)) r);;
  release LBcache.
End Bio.
