(* ===== verification/Blocks.v ===== *)
(** * Numbers stored in a block: what is read back is what was written *)

From S2P Require Import Prelude Mem KString Riscv State Spinlock Kalloc Vm Proc Sleeplock Bio.

Lemma length_put_bytes bs off v : length (put_bytes bs off v) = length bs.
Proof. apply length_inserts. Qed.

Lemma put_bytes_in bs off v j :
  0 <= off -> off + Z.of_nat (length v) <= Z.of_nat (length bs) ->
  off <= j < off + Z.of_nat (length v) ->
  put_bytes bs off v !!! Z.to_nat j = v !!! Z.to_nat (j - off).
Proof.
  intros Ho Hl Hj. unfold put_bytes. rewrite !list_lookup_total_alt. f_equal.
  rewrite list_lookup_inserts by lia. f_equal. lia.
Qed.

Lemma put_bytes_out bs off v j :
  0 <= off -> 0 <= j -> j < off \/ off + Z.of_nat (length v) <= j ->
  put_bytes bs off v !!! Z.to_nat j = bs !!! Z.to_nat j.
Proof.
  intros Ho Hj H. unfold put_bytes. rewrite !list_lookup_total_alt. f_equal.
  destruct H; [apply list_lookup_inserts_lt|apply list_lookup_inserts_ge]; lia.
Qed.

#[local] Ltac Zify.zify_post_hook ::= Z.to_euclidean_division_equations.

Lemma le_bytes4 v : le_bytes 4 v = [u8 v; u8 (v / 256); u8 (v / 65536); u8 (v / 16777216)].
Proof.
  cbn [le_bytes]. rewrite !Z.shiftr_shiftr by lia. rewrite !Z.shiftr_div_pow2 by lia. done.
Qed.

Lemma le_bytes2 v : le_bytes 2 v = [u8 v; u8 (v / 256)].
Proof. cbn [le_bytes]. rewrite !Z.shiftr_div_pow2 by lia. done. Qed.

Lemma get32_put32_eq bs off v :
  0 <= off -> off + 4 <= Z.of_nat (length bs) -> get32 (put32 bs off v) off = u32 v.
Proof.
  intros Ho Hl. unfold get32, put32. rewrite le_bytes4.
  rewrite !put_bytes_in by (cbn [length]; lia).
  replace (off + 0 - off) with 0 by lia. replace (off + 1 - off) with 1 by lia.
  replace (off + 2 - off) with 2 by lia. replace (off + 3 - off) with 3 by lia.
  set (l := [_; _; _; _]). change (l !!! Z.to_nat 0) with (u8 v). change (l !!! Z.to_nat 1) with (u8 (v / 256)).
  change (l !!! Z.to_nat 2) with (u8 (v / 65536)). change (l !!! Z.to_nat 3) with (u8 (v / 16777216)).
  clear l. unfold wrapu. change (2 ^ 8) with 256. change (2 ^ 32) with 4294967296. lia.
Qed.

Lemma get32_put32_ne bs off off' v :
  0 <= off -> 0 <= off' -> off + 4 <= off' \/ off' + 4 <= off ->
  get32 (put32 bs off v) off' = get32 bs off'.
Proof.
  intros Ho Ho' H. unfold get32, put32. rewrite le_bytes4. by rewrite !put_bytes_out by (cbn [length]; lia).
Qed.

Lemma get16_put16_eq bs off v :
  0 <= off -> off + 2 <= Z.of_nat (length bs) -> get16 (put16 bs off v) off = u16 v.
Proof.
  intros Ho Hl. unfold get16, put16. rewrite le_bytes2.
  rewrite !put_bytes_in by (cbn [length]; lia).
  replace (off - off) with 0 by lia. replace (off + 1 - off) with 1 by lia.
  set (l := [_; _]). change (l !!! Z.to_nat 0) with (u8 v). change (l !!! Z.to_nat 1) with (u8 (v / 256)).
  clear l. unfold wrapu. change (2 ^ 8) with 256. change (2 ^ 16) with 65536. lia.
Qed.

Lemma get16_put16_ne bs off off' v :
  0 <= off -> 0 <= off' -> off + 2 <= off' \/ off' + 2 <= off ->
  get16 (put16 bs off v) off' = get16 bs off'.
Proof.
  intros Ho Ho' H. unfold get16, put16. rewrite le_bytes2. by rewrite !put_bytes_out by (cbn [length]; lia).
Qed.

Lemma get32_put16_ne bs off off' v :
  0 <= off -> 0 <= off' -> off + 2 <= off' \/ off' + 4 <= off ->
  get32 (put16 bs off v) off' = get32 bs off'.
Proof.
  intros Ho Ho' H. unfold get32, put16. rewrite le_bytes2. by rewrite !put_bytes_out by (cbn [length]; lia).
Qed.

Lemma get16_put32_ne bs off off' v :
  0 <= off -> 0 <= off' -> off + 4 <= off' \/ off' + 2 <= off ->
  get16 (put32 bs off v) off' = get16 bs off'.
Proof.
  intros Ho Ho' H. unfold get16, put32. rewrite le_bytes4. by rewrite !put_bytes_out by (cbn [length]; lia).
Qed.

Lemma length_put32 bs off v : length (put32 bs off v) = length bs.
Proof. apply length_put_bytes. Qed.
Lemma length_put16 bs off v : length (put16 bs off v) = length bs.
Proof. apply length_put_bytes. Qed.

(** An array of numbers. *)
Lemma get32_put_bytes bs off v o :
  0 <= off -> 0 <= o -> o + 4 <= Z.of_nat (length v) -> off + Z.of_nat (length v) <= Z.of_nat (length bs) ->
  get32 (put_bytes bs off v) (off + o) = get32 v o.
Proof.
  intros H1 H2 H3 H4. unfold get32. rewrite <- !Z.add_assoc. rewrite !put_bytes_in by lia.
  repeat match goal with |- context [off + ?x - off] => replace (off + x - off) with x by lia end. done.
Qed.

Lemma get32_app_r a v o : 0 <= o -> get32 (a ++ v) (Z.of_nat (length a) + o) = get32 v o.
Proof.
  intros H. unfold get32. rewrite !lookup_total_app_r by lia.
  repeat match goal with |- context [(Z.to_nat (Z.of_nat (length a) + o + ?x) - length a)%nat] =>
    replace (Z.to_nat (Z.of_nat (length a) + o + x) - length a)%nat with (Z.to_nat (o + x)) by lia end. done.
Qed.

Lemma get32_le_bytes v rest : get32 (le_bytes 4 v ++ rest) 0 = u32 v.
Proof.
  rewrite le_bytes4. unfold get32.
  change (u8 v + 256 * u8 (v / 256) + 65536 * u8 (v / 65536) + 16777216 * u8 (v / 16777216) = u32 v).
  unfold wrapu. change (2 ^ 8) with 256. change (2 ^ 32) with 4294967296. lia.
Qed.

Lemma length_words l : length (concat (map (le_bytes 4) l)) = (4 * length l)%nat.
Proof. induction l as [|x l IH]; [done|]. cbn [map concat length]. rewrite length_app, IH, length_le_bytes. lia. Qed.

Lemma get32_words l : forall (j : nat) x, l !! j = Some x -> get32 (concat (map (le_bytes 4) l)) (4 * Z.of_nat j) = u32 x.
Proof.
  induction l as [|z l IH]; intros [|j] x E; cbn in E; try done; cbn [map concat].
  - injection E as ->. apply get32_le_bytes.
  - replace (4 * Z.of_nat (S j)) with (Z.of_nat (length (le_bytes 4 z)) + 4 * Z.of_nat j) by (rewrite length_le_bytes; lia).
    rewrite get32_app_r by lia. by apply IH.
Qed.

Lemma get16_put_bytes_ne bs off v o :
  0 <= off -> 0 <= o -> o + 2 <= off \/ off + Z.of_nat (length v) <= o -> get16 (put_bytes bs off v) o = get16 bs o.
Proof. intros H1 H2 H3. unfold get16. by rewrite !put_bytes_out by lia. Qed.

Lemma get32_put_bytes_ne bs off v o :
  0 <= off -> 0 <= o -> o + 4 <= off \/ off + Z.of_nat (length v) <= o -> get32 (put_bytes bs off v) o = get32 bs o.
Proof. intros H1 H2 H3. unfold get32. by rewrite !put_bytes_out by lia. Qed.
