(* ===== verification/BioSpec.v ===== *)
(** * The buffer cache: what the operations of bio.c do

    The list of buffers as an order of their numbers, the invariant of the
    cache, and each operation as a change of the contents and reference counts
    of disk blocks. *)

From S2P Require Import Prelude Mem KString Riscv State Spinlock Kalloc Vm Proc ProcSpec Sleeplock SleepSpec Bio.

(** ** Doubly linked lists

    [path nx pv a l]: from [a], the pointers [nx] lead through the list [l], and
    the pointers [pv] lead back. *)

Fixpoint path (nx pv : nat -> nat) (a : nat) (l : list nat) : Prop :=
  match l with
  | [] => True
  | x :: l' => nx a = x /\ pv x = a /\ path nx pv x l'
  end.

Definition fupd (f : nat -> nat) (i v : nat) : nat -> nat := fun j => if decide (i = j) then v else f j.

Lemma fupd_eq f i v : fupd f i v i = v.
Proof. unfold fupd. by rewrite decide_True. Qed.
Lemma fupd_ne f i v j : i <> j -> fupd f i v j = f j.
Proof. intros. unfold fupd. by rewrite decide_False. Qed.

Lemma path_app nx pv a l1 l2 :
  path nx pv a (l1 ++ l2) <-> path nx pv a l1 /\ path nx pv (default a (last l1)) l2.
Proof.
  revert a. induction l1 as [|x l1 IH]; intros a; [cbn; tauto|].
  assert (default a (last (x :: l1)) = default x (last l1)) as ->.
  { rewrite last_cons. by destruct (last l1). }
  cbn [app path]. rewrite IH. tauto.
Qed.

(** The pointers a path reads: [nx] everywhere but at its end, [pv] on the list. *)
Lemma path_ext nx pv nx' pv' a l :
  (forall i, i ∈ a :: removelast l -> l <> [] -> nx' i = nx i) -> (forall i, i ∈ l -> pv' i = pv i) ->
  path nx pv a l -> path nx' pv' a l.
Proof.
  revert a. induction l as [|x l IH]; intros a Hn Hp; [done|]. cbn [path]. intros (H1 & H2 & H3).
  split_and!.
  - rewrite Hn; [done|apply elem_of_cons; by left|done].
  - rewrite Hp; [done|apply elem_of_cons; by left].
  - apply IH; [| |done].
    + intros i Hi Hne. apply Hn; [|done]. apply elem_of_cons. right.
      destruct l as [|z l]; [done|]. exact Hi.
    + intros i Hi. apply Hp. apply elem_of_cons. by right.
Qed.

Lemma removelast_subset {A} (l : list A) x : x ∈ removelast l -> x ∈ l.
Proof.
  intros H. destruct (decide (l = [])) as [->|Hne]; [done|].
  destruct (exists_last Hne) as (l' & z & ->). rewrite removelast_last in H. apply elem_of_app. by left.
Qed.

Lemma last_elem {A} (l : list A) a : default a (last l) ∈ a :: l.
Proof.
  destruct (last l) as [x|] eqn:E; cbn; [|by left]. right.
  apply last_Some in E as [l' ->]. apply elem_of_app. right. by left.
Qed.

(** Taking [x] out: its neighbours are linked to each other. *)
Lemma path_remove nx pv h l1 x l2 :
  NoDup (h :: l1 ++ x :: l2) -> path nx pv h (l1 ++ x :: l2 ++ [h]) ->
  path (fupd nx (pv x) (nx x)) (fupd pv (nx x) (pv x)) h (l1 ++ l2 ++ [h]).
Proof.
  intros Hnd. rewrite !(path_app _ _ h l1). intros [H1 H2]. cbn [path] in H2. destruct H2 as (Hnx & Hpv & H2).
  set (p := default h (last l1)) in *.
  assert (p ∈ h :: l1) as Hp by apply last_elem.
  rewrite NoDup_cons in Hnd. destruct Hnd as [Hh Hnd]. rewrite NoDup_app in Hnd.
  destruct Hnd as (Hnd1 & Hdisj & Hnd2). rewrite NoDup_cons in Hnd2. destruct Hnd2 as [Hx Hnd2].
  rewrite elem_of_app, elem_of_cons in Hh.
  rewrite Hpv. split.
  - eapply path_ext; [| |exact H1].
    + intros i Hi Hne. apply fupd_ne. intros <-.
      destruct (exists_last Hne) as (l' & z & E). unfold p in Hi. rewrite E in Hi.
      rewrite last_snoc, removelast_last in Hi. cbn in Hi.
      rewrite E in Hnd1. rewrite NoDup_app in Hnd1. destruct Hnd1 as (_ & Hd & _).
      apply elem_of_cons in Hi as [<-|Hi].
      * apply Hh. left. rewrite E. apply elem_of_app. right. by left.
      * apply (Hd z Hi). by left.
    + intros i Hi. apply fupd_ne. intros <-. destruct l2 as [|n l2]; cbn [path app] in H2.
      * destruct H2 as (E & _). rewrite E in Hi. tauto.
      * destruct H2 as (E & _). rewrite E in Hi. apply (Hdisj n Hi). right. by left.
  - destruct (l2 ++ [h]) as [|n rest] eqn:E; [by destruct l2|]. cbn [path] in H2 |- *. destruct H2 as (En & Epn & H2).
    fold p. rewrite En, !fupd_eq. split_and!; [done..|].
    assert (NoDup (n :: rest)) as Hnd3.
    { rewrite <- E. apply NoDup_app. split_and!; [done| |by apply NoDup_singleton].
      intros z Hz ->%list_elem_of_singleton. tauto. }
    apply NoDup_cons in Hnd3 as [Hn _]. eapply path_ext; [| |exact H2].
    + intros i Hi Hne. apply fupd_ne. intros <-.
      assert (p ∈ l2) as Hin.
      { destruct (exists_last Hne) as (rest' & z & ->).
        assert (l2 = n :: rest') as ->.
        { apply (f_equal (@removelast nat)) in E. rewrite removelast_last in E. rewrite E.
          change (n :: rest' ++ [z]) with ((n :: rest') ++ [z]). by rewrite removelast_last. }
        by rewrite removelast_last in Hi. }
      apply elem_of_cons in Hp as [->|Hp]; [tauto|]. apply (Hdisj p Hp). by right.
    + intros i Hi. apply fupd_ne. intros <-. done.
Qed.

(** Putting [x] at the front. *)
Lemma path_push nx pv h x l :
  NoDup (x :: h :: l) -> path nx pv h (l ++ [h]) ->
  path (fupd (fupd nx x (nx h)) h x) (fupd (fupd pv x h) (nx h) x) h (x :: l ++ [h]).
Proof.
  intros Hnd Hpath. rewrite !NoDup_cons in Hnd. destruct Hnd as (Hx & Hh & Hnd).
  rewrite elem_of_cons in Hx.
  assert (exists n rest, l ++ [h] = n :: rest) as (n & rest & E) by (destruct l; eauto).
  rewrite E in Hpath |- *. cbn [path] in Hpath |- *. destruct Hpath as (En & Epn & Hpath).
  assert (n ∈ h :: l) as Hn.
  { assert (n ∈ l ++ [h]) as H by (rewrite E; by left). apply elem_of_app in H as [H|H]; [by right|].
    apply list_elem_of_singleton in H as ->. by left. }
  assert (x <> n) as Hxn by (intros ->; apply elem_of_cons in Hn; tauto).
  rewrite En, fupd_eq. split_and!; [done| | | |].
  - rewrite fupd_ne by done. apply fupd_eq.
  - rewrite fupd_ne by (intros ->; tauto). apply fupd_eq.
  - apply fupd_eq.
  - assert (NoDup (n :: rest)) as Hnd3.
    { rewrite <- E. apply NoDup_app. split_and!; [done| |by apply NoDup_singleton].
      intros z Hz ->%list_elem_of_singleton. tauto. }
    apply NoDup_cons in Hnd3 as [Hnr Hndr].
    assert (forall i, i ∈ rest -> i ∈ h :: l) as Hsub.
    { intros i Hi. assert (i ∈ l ++ [h]) as H by (rewrite E; by right).
      apply elem_of_app in H as [H|H]; [by right|]. apply list_elem_of_singleton in H as ->. by left. }
    eapply path_ext; [| |exact Hpath].
    + intros i Hi Hne.
      assert (i ∈ l) as Hil.
      { destruct (exists_last Hne) as (rest' & z & ->).
        apply (f_equal (@removelast nat)) in E. rewrite removelast_last in E. rewrite E.
        change (n :: rest' ++ [z]) with ((n :: rest') ++ [z]). rewrite removelast_last.
        by rewrite removelast_last in Hi. }
      rewrite !fupd_ne; [done|intros <-; tauto..].
    + intros i Hi. pose proof (Hsub i Hi) as Hi'. apply elem_of_cons in Hi'.
      rewrite !fupd_ne; [done|intros <-; tauto|intros <-; tauto].
Qed.

(** The list is determined by the links. *)
Lemma path_det nx pv h l1 : forall a l2,
  path nx pv a (l1 ++ [h]) -> path nx pv a (l2 ++ [h]) -> h ∉ l1 -> h ∉ l2 -> l1 = l2.
Proof.
  induction l1 as [|x l1 IH]; intros a [|z l2] H1 H2 N1 N2; cbn [app path] in *; [done|..];
    destruct H1 as (E1 & _ & H1), H2 as (E2 & _ & H2).
  - destruct N2. rewrite <- E1, E2. by left.
  - destruct N1. rewrite <- E2, E1. by left.
  - rewrite not_elem_of_cons in N1, N2. assert (x = z) as -> by congruence. f_equal.
    by apply (IH z); [..|apply N1|apply N2].
Qed.

(** ** The invariant of the cache *)

Lemma buf_of_upd_eq b f d :
  (b < length (d_bufs d))%nat -> buf_of (upd_buf b f d) b = f (buf_of d b).
Proof.
  intros H. unfold buf_of, upd_buf. cbn [d_bufs set_d_bufs]. apply list_lookup_total_correct.
  by rewrite list_lookup_alter_eq, list_lookup_lookup_total_lt.
Qed.

Lemma buf_of_upd_ne b b' f d : b <> b' -> buf_of (upd_buf b f d) b' = buf_of d b'.
Proof. intros H. unfold buf_of, upd_buf. cbn [d_bufs set_d_bufs]. by rewrite list_lookup_total_alter_ne. Qed.

Lemma length_upd_buf b f d : length (d_bufs (upd_buf b f d)) = length (d_bufs d).
Proof. apply length_alter. Qed.

Lemma upd_buf_comp b f g d : upd_buf b f (upd_buf b g d) = upd_buf b (f ∘ g) d.
Proof. unfold upd_buf. cbn. by rewrite alter_comp. Qed.

Lemma upd_buf_ext b f g d : f (buf_of d b) = g (buf_of d b) -> upd_buf b f d = upd_buf b g d.
Proof. intros E. unfold upd_buf. f_equal. by apply alter_ext_at. Qed.

Lemma upd_buf_slk b f l g d : upd_buf b f (upd_slk l g d) = upd_slk l g (upd_buf b f d).
Proof. reflexivity. Qed.

Lemma getb_run {A} b (f : buf -> A) y d : getb b f (KState y d) = Ret (f (buf_of d b)) (KState y d).
Proof. reflexivity. Qed.
Lemma modb_run b f y d : modb b f (KState y d) = Ret tt (KState y (upd_buf b f d)).
Proof. reflexivity. Qed.
#[export] Hint Resolve getb_run modb_run : krun.

Definition nx (d : data) (i : nat) : nat := b_next (buf_of d i).
Definition pv (d : data) (i : nat) : nat := b_prev (buf_of d i).
Definition refcnt (d : data) (i : nat) : Z := b_refcnt (buf_of d i).

(** Buffer [i] is the one of block [bno]. *)
Definition hit (d : data) (bno : Z) (i : nat) : bool :=
  (b_dev (buf_of d i) =? ROOTDEV) && (b_blockno (buf_of d i) =? bno).

Definition disk_of (d : data) : Z -> list Z := dk_blocks (d_disk d).
Definition blocked (d : data) (i : nat) : Prop := slk_locked (slk_of d (SBuf i)) <> 0.

(** The list of buffers, from the most to the least recently used. *)
Definition lru (d : data) (order : list nat) : Prop :=
  order ≡ₚ seq 0 NBUF /\ path (nx d) (pv d) bhead (order ++ [bhead]).

Record bcache (d : data) : Prop := {
  bc_len : length (d_bufs d) = S NBUF;
  bc_list : exists order, lru d order;
  bc_uniq : forall i j bno, (i < NBUF)%nat -> (j < NBUF)%nat ->
    hit d bno i = true -> hit d bno j = true -> i = j;
  bc_valid : forall i, (i < NBUF)%nat -> b_valid (buf_of d i) = 0 \/ b_valid (buf_of d i) = 1;
  bc_ref : forall i, (i < NBUF)%nat -> 0 <= refcnt d i;
  bc_dev : forall i, (i < NBUF)%nat -> 0 < refcnt d i \/ b_valid (buf_of d i) = 1 ->
    b_dev (buf_of d i) = ROOTDEV;
  bc_lock : forall i, (i < NBUF)%nat -> blocked d i -> 0 < refcnt d i;
  bc_clean : forall i, (i < NBUF)%nat -> refcnt d i = 0 -> b_valid (buf_of d i) = 1 ->
    b_data (buf_of d i) = disk_of d (b_blockno (buf_of d i))
}.

(** The buffer of a block, the contents of the block as a reader sees them, and
    the references to it. *)
Definition find_buf (d : data) (bno : Z) : option nat := List.find (hit d bno) (seq 0 NBUF).
Definition content (d : data) (bno : Z) : list Z :=
  match find_buf d bno with
  | Some i => if b_valid (buf_of d i) =? 0 then disk_of d bno else b_data (buf_of d i)
  | None => disk_of d bno
  end.
Definition refs (d : data) (bno : Z) : Z :=
  match find_buf d bno with Some i => refcnt d i | None => 0 end.

Lemma find_buf_Some d bno i :
  bcache d -> find_buf d bno = Some i <-> (i < NBUF)%nat /\ hit d bno i = true.
Proof.
  intros Hc. unfold find_buf. split.
  - intros H. apply List.find_some in H as [Hin Hh]. apply in_seq in Hin. split; [lia|done].
  - intros [Hi Hh]. destruct (List.find (hit d bno) (seq 0 NBUF)) as [j|] eqn:E.
    + apply List.find_some in E as [Hin Hj]. apply in_seq in Hin. f_equal.
      eapply bc_uniq; [done|lia|lia|done|done].
    + eapply List.find_none in E; [|apply in_seq; instantiate (1 := i); lia]. congruence.
Qed.

Lemma find_buf_None d bno i : find_buf d bno = None -> (i < NBUF)%nat -> hit d bno i = false.
Proof. intros E Hi. eapply List.find_none in E; [exact E|]. apply in_seq. lia. Qed.

(** Searching the list of buffers in any order finds the same one. *)
Lemma find_order d bno order :
  bcache d -> order ≡ₚ seq 0 NBUF -> List.find (hit d bno) order = find_buf d bno.
Proof.
  intros Hc Hp. destruct (find_buf d bno) as [i|] eqn:E.
  - apply find_buf_Some in E as [Hi Hh]; [|done].
    destruct (List.find (hit d bno) order) as [j|] eqn:Ej.
    + apply List.find_some in Ej as [Hin Hj]. f_equal. apply list_elem_of_In in Hin. rewrite Hp in Hin.
      apply elem_of_seq in Hin. eapply bc_uniq; [done|lia|lia|done|done].
    + eapply List.find_none in Ej; [|apply list_elem_of_In; rewrite Hp; apply elem_of_seq;
        instantiate (1 := i); lia]. congruence.
  - destruct (List.find (hit d bno) order) as [j|] eqn:Ej; [|done].
    apply List.find_some in Ej as [Hin Hj]. apply list_elem_of_In in Hin. rewrite Hp in Hin.
    apply elem_of_seq in Hin. rewrite (find_buf_None d bno j) in Hj; [done|done|lia].
Qed.

(** ** The searches of bget() *)

Lemma bget_cached_run y d bno l : forall fuel a,
  path (nx d) (pv d) a (l ++ [bhead]) -> bhead ∉ l -> (length l < fuel)%nat ->
  bget_cached fuel (nx d a) ROOTDEV bno (KState y d) = Ret (List.find (hit d bno) l) (KState y d).
Proof.
  induction l as [|x l IH]; intros [|fuel] a Hp Hn Hf; try (cbn in Hf; lia); cbn [app path] in Hp;
    destruct Hp as (-> & Hpv & Hp); cbn [bget_cached].
  { by rewrite decide_True. }
  apply not_elem_of_cons in Hn as [Hx Hn]. rewrite decide_False by done. ksteps.
  cbn [List.find]. fold (hit d bno x). destruct (hit d bno x) eqn:Hh; [done|].
  ksteps. apply IH; [done|done|cbn in Hf; lia].
Qed.

Lemma bget_unused_run y d l : forall fuel z,
  path (nx d) (pv d) bhead (l ++ [z]) -> bhead ∉ l -> (length l < fuel)%nat ->
  bget_unused fuel (pv d z) (KState y d) =
  Ret (List.find (fun i => refcnt d i =? 0) (rev l)) (KState y d).
Proof.
  induction l as [|x l IH] using rev_ind; intros [|fuel] z Hp Hn Hf; try (rewrite ?length_app in Hf; cbn in Hf; lia);
    apply path_app in Hp as [Hp (_ & -> & _)]; cbn [bget_unused].
  { cbn. by rewrite decide_True. }
  rewrite last_snoc. cbn [default id]. rewrite rev_app_distr. cbn [rev app List.find].
  rewrite not_elem_of_app, not_elem_of_cons in Hn. destruct Hn as (Hn & Hx & _).
  rewrite decide_False by (by apply not_eq_sym). ksteps. fold (refcnt d x).
  destruct (refcnt d x =? 0); [done|]. ksteps. apply IH; [done|done|].
  rewrite length_app in Hf. cbn in Hf. lia.
Qed.

(** ** The disk *)

(** The block [bno] receives [v]; the write is added to the trace. *)
Definition disk_write (bno : Z) (v : list Z) (k : disk) : disk :=
  State.Disk (fun x => if x =? bno then v else dk_blocks k x) ((bno, v) :: dk_trace k).

(** A disk driver seen from its caller: when disk_rw() returns, the transfer has
    been done. *)
Class DiskOk (D : Disk) : Prop := {
  disk_read_run : forall b y d, disk_rw b 0 (KState y d) =
    Ret tt (KState y (upd_buf b (set_b_data (disk_of d (b_blockno (buf_of d b)))) d));
  disk_write_run : forall b y d, disk_rw b 1 (KState y d) =
    Ret tt (KState y (set_d_disk (disk_write (b_blockno (buf_of d b)) (b_data (buf_of d b)) (d_disk d)) d))
}.

(** ** What a process needs to use the cache

    It runs without spin locks, the locks of the cache are free, and nobody
    sleeps on a buffer. *)

Record quiet (y : sync) (p : nat) (d : data) : Prop := {
  q_ok : sync_ok y;
  q_procs : procs_free y;
  q_cur : c_proc (curcpu y) = Some p;
  q_len : length (d_procs d) = NPROC;
  q_bcache : free LBcache y;
  q_sleep : forall i, (i < NBUF)%nat -> free (LSleep (SBuf i)) y;
  q_nobody : forall i, (i < NBUF)%nat -> nobody (CSleep (SBuf i)) d
}.

(** The parts of the state the cache does not touch. *)
Definition frame (d d' : data) : Prop :=
  d' = set_d_bufs (d_bufs d') (set_d_slocks (d_slocks d') (set_d_disk (d_disk d') d)).

Lemma frame_refl d : frame d d.
Proof. unfold frame. by destruct d. Qed.

Lemma frame_trans d1 d2 d3 : frame d1 d2 -> frame d2 d3 -> frame d1 d3.
Proof. unfold frame. intros H1 H2. rewrite H2, H1. reflexivity. Qed.

Lemma frame_procs d d' : frame d d' -> d_procs d' = d_procs d.
Proof. intros ->. done. Qed.

Lemma frame_log d d' : frame d d' -> d_log d' = d_log d.
Proof. intros ->. done. Qed.

Lemma quiet_frame y p d d' : frame d d' -> quiet y p d -> quiet y p d'.
Proof.
  intros H [? ? ? ? ? ? Hn]. unfold nobody in *. apply frame_procs in H.
  split; unfold nobody; rewrite ?H; done.
Qed.

Lemma frame_upd_buf b f d : frame d (upd_buf b f d).
Proof. unfold frame, upd_buf. by destruct d. Qed.
Lemma frame_upd_slk l f d : frame d (upd_slk l f d).
Proof. unfold frame, upd_slk. by destruct d. Qed.
Lemma frame_disk k d : frame d (set_d_disk k d).
Proof. unfold frame. by destruct d. Qed.

Create HintDb frame.
#[export] Hint Resolve frame_refl frame_upd_buf frame_upd_slk frame_disk : frame.

(** ** bread *)

(** The state in which [b] has become the locked buffer of [bno]. *)
Definition got (pid : Z) (b : nat) (bno : Z) (d : data) : data :=
  upd_slk (SBuf b) (slk_take pid)
    (upd_buf b (fun r => Buf 1 (b_disk r) ROOTDEV bno (refs d bno + 1) (b_prev r) (b_next r) (content d bno)) d).

(** bget() gives the buffer of the block, or else one without references. *)
Definition chosen (d : data) (bno : Z) (b : nat) : Prop :=
  (b < NBUF)%nat /\ (find_buf d bno = Some b \/ (find_buf d bno = None /\ refcnt d b = 0)).

(** The buffer to recycle is the least recently used one without references. *)
Definition victim (d : data) (b : nat) : Prop :=
  forall order, lru d order -> exists l1 l2, order = l1 ++ b :: l2 /\ refcnt d b = 0
    /\ Forall (fun i => refcnt d i <> 0) l2.

Lemma find_last (f : nat -> bool) l b :
  List.find f (rev l) = Some b -> exists l1 l2, l = l1 ++ b :: l2 /\ f b = true /\ Forall (fun i => f i = false) l2.
Proof.
  induction l as [|x l IH] using rev_ind; [done|]. rewrite rev_app_distr. cbn. destruct (f x) eqn:E.
  - intros [= <-]. exists l, []. split_and!; [done..|by constructor].
  - intros (l1 & l2 & -> & Hb & Hl)%IH. exists l1, (l2 ++ [x]). split_and!; [by rewrite <- app_assoc|done|].
    apply Forall_app. split; [done|]. by constructor.
Qed.

(** [bno] can be read: nobody has it locked, and there is a buffer for it. *)
Record readable (d : data) (bno : Z) : Prop := {
  rd_unlocked : forall i, find_buf d bno = Some i -> ~ blocked d i;
  rd_room : find_buf d bno = None -> exists i, (i < NBUF)%nat /\ refcnt d i = 0;
  rd_refs : refs d bno + 1 < 2 ^ 32
}.

Lemma bc_order d :
  bcache d -> exists order, order ≡ₚ seq 0 NBUF /\ path (nx d) (pv d) bhead (order ++ [bhead])
    /\ (bhead ∉ order) /\ length order = NBUF /\ NoDup order.
Proof.
  intros Hc. destruct (bc_list d Hc) as (order & Hp & Hpath). exists order. split_and!; try done.
  - rewrite Hp, elem_of_seq. unfold bhead. lia.
  - by rewrite Hp, length_seq.
  - rewrite Hp. apply NoDup_seq.
Qed.

Section Bread.
Context {B : Budget} {D : Disk} {DO : DiskOk D}.
Context (y : sync) (p : nat) (Hr : (0 < rounds)%nat).

Lemma bget_run bno d :
  quiet y p d -> bcache d -> readable d bno ->
  exists b r, chosen d bno b
    /\ bget ROOTDEV bno (KState y d) =
       Ret b (KState y (upd_slk (SBuf b) (slk_take (p_pid (proc_of d p))) (upd_buf b (fun _ => r) d)))
    /\ (find_buf d bno = None -> victim d b)
    /\ r = Buf (if bool_decide (find_buf d bno = None) then 0 else b_valid (buf_of d b)) (b_disk (buf_of d b)) ROOTDEV bno
             (refs d bno + 1) (b_prev (buf_of d b)) (b_next (buf_of d b)) (b_data (buf_of d b)).
Proof using Hr.
  intros Hq Hc [Hul Hroom Hrefs]. destruct (bc_order d Hc) as (order & Hperm & Hpath & Hnh & Hlen & _).
  pose proof (q_ok _ _ _ Hq) as Hok. pose proof (q_bcache _ _ _ Hq) as Hb.
  unfold bget. ksteps. fold (nx d bhead).
  erewrite bind_Ret by (apply (bget_cached_run _ _ _ order); [done|done|lia]).
  rewrite find_order by done. destruct (find_buf d bno) as [b|] eqn:E.
  - pose proof E as E'. apply find_buf_Some in E' as [Hlt Hhit]; [|done].
    pose proof (q_sleep _ _ _ Hq b Hlt) as Hsl. ksteps.
    assert (slk_locked (slk_of d (SBuf b)) = 0) as Hu.
    { destruct (decide (slk_locked (slk_of d (SBuf b)) = 0)) as [|Hn]; [done|]. by destruct (Hul b eq_refl Hn). }
    erewrite bind_Ret by (apply (acquiresleep_run y p); [done|by apply (q_cur _ _ _ Hq)|done|done|exact Hu]).
    exists b. eexists. split; [split; [done|by left]|]. split; [|split; [done|reflexivity]].
    unfold mret, M_ret. do 3 f_equal. apply upd_buf_ext.
    unfold hit in Hhit. apply andb_true_iff in Hhit as [H1%Z.eqb_eq H2%Z.eqb_eq].
    unfold refs in *. rewrite E in *. unfold refcnt in *. pose proof (bc_ref d Hc b Hlt) as H0. unfold refcnt in H0.
    destruct (buf_of d b) as [v k dv bn rc pr ne dt] eqn:Eb. cbn in *. subst.
    unfold set_b_refcnt. cbn. f_equal. apply wrapu_small. lia.
  - ksteps. fold (pv d bhead).
    erewrite bind_Ret by (apply (bget_unused_run _ _ order); [done|done|lia]).
    destruct (List.find (fun i => refcnt d i =? 0) (rev order)) as [b|] eqn:Ef.
    + assert (victim d b) as Hvic.
      { intros o [Hp Hl]. assert (o = order) as ->.
        { apply (path_det (nx d) (pv d) bhead _ bhead); try done. rewrite Hp, elem_of_seq. unfold bhead. lia. }
        apply find_last in Ef as (l1 & l2 & E1 & E2%Z.eqb_eq & Hf). exists l1, l2. split_and!; [done..|].
        eapply Forall_impl; [exact Hf|]. intros i. apply Z.eqb_neq. }
      apply List.find_some in Ef as [Hin Hz%Z.eqb_eq]. apply list_elem_of_In in Hin.
      apply list_elem_of_In, in_rev, list_elem_of_In in Hin.
      rewrite Hperm in Hin. apply elem_of_seq in Hin. assert (b < NBUF)%nat as Hlt by lia.
      pose proof (q_sleep _ _ _ Hq b Hlt) as Hsl. ksteps.
      assert (slk_locked (slk_of d (SBuf b)) = 0) as Hu.
      { destruct (decide (slk_locked (slk_of d (SBuf b)) = 0)) as [|Hn]; [done|].
        pose proof (bc_lock d Hc b Hlt Hn). lia. }
      erewrite bind_Ret by (apply (acquiresleep_run y p); [done|by apply (q_cur _ _ _ Hq)|done|done|exact Hu]).
      exists b. eexists. split; [split; [done|by right]|]. split; [|split; [done|reflexivity]].
      unfold mret, M_ret. do 3 f_equal. rewrite !upd_buf_comp. apply upd_buf_ext.
      unfold refs. rewrite E. by destruct (buf_of d b).
    + exfalso. destruct (Hroom eq_refl) as (i & Hi & H0).
      eapply List.find_none in Ef; [|apply in_rev; rewrite rev_involutive; apply list_elem_of_In; rewrite Hperm;
        apply elem_of_seq; instantiate (1 := i); lia]. apply Z.eqb_neq in Ef. done.
Qed.

Lemma bread_run bno d :
  quiet y p d -> bcache d -> readable d bno ->
  exists b, chosen d bno b /\ (find_buf d bno = None -> victim d b)
    /\ bread ROOTDEV bno (KState y d) = Ret b (KState y (got (p_pid (proc_of d p)) b bno d)).
Proof using Hr DO.
  intros Hq Hc Hrd. destruct (bget_run bno d Hq Hc Hrd) as (b & r & Hch & Hrun & Hvic & Er).
  exists b. split; [done|]. split; [done|]. unfold bread. rewrite (bind_Ret _ _ _ _ _ Hrun). kstep.
  assert (b < length (d_bufs d))%nat as Hb by (rewrite bc_len by done; destruct Hch; lia).
  set (d1 := upd_slk _ _ _).
  assert (buf_of d1 b = r) as Eb by (apply (buf_of_upd_eq b (fun _ => r) d Hb)). rewrite Eb.
  unfold got. destruct (Z.eqb_spec (b_valid r) 0) as [Hv|Hv]; unfold when.
  - rewrite (bind_Ret _ _ _ tt (KState y (upd_buf b (set_b_valid 1) (upd_buf b (set_b_data (disk_of d bno)) d1)))).
    2: { rewrite (bind_Ret _ _ _ _ _ (disk_read_run b y d1)), Eb, Er. reflexivity. }
    unfold d1. rewrite !upd_buf_slk, !upd_buf_comp. unfold mret, M_ret. do 3 f_equal. apply upd_buf_ext.
    cbn. rewrite Er. unfold content. destruct Hch as [Hlt [E|[E H0]]]; rewrite E; [|done].
    rewrite Er, E in Hv. cbn in Hv. by rewrite Hv.
  - ksteps. unfold d1. unfold mret, M_ret. do 3 f_equal. apply upd_buf_ext. rewrite Er in *. cbn in Hv.
    case_bool_decide as E; [done|]. destruct Hch as [Hlt [E'|[E' _]]]; [|done]. unfold content.
    rewrite E'. destruct (Z.eqb_spec (b_valid (buf_of d b)) 0); [done|].
    destruct (bc_valid d Hc b Hlt); congruence.
Qed.
End Bread.

(** ** The cache as contents and references of blocks

    [abs pid L C R k d]: the blocks have the contents [C] for a reader, [R] counts
    the references to them, the disk is [k], and the locked buffers are [L],
    all of them locked by process [pid]. *)

Record abs (pid : Z) (L : list nat) (C : Z -> list Z) (R : Z -> Z) (k : disk) (d : data) : Prop := {
  ab_cache : bcache d;
  ab_content : forall bno, content d bno = C bno;
  ab_refs : forall bno, refs d bno = R bno;
  ab_disk : d_disk d = k;
  ab_locked : forall i, (i < NBUF)%nat -> blocked d i <-> i ∈ L;
  ab_pid : forall i, i ∈ L -> (i < NBUF)%nat /\ slk_pid (slk_of d (SBuf i)) = pid
}.

(** Buffer [b] holds block [bno]. *)
Definition holds (d : data) (b : nat) (bno : Z) : Prop :=
  (b < NBUF)%nat /\ hit d bno b = true /\ b_valid (buf_of d b) = 1.

Lemma links_upd b f d :
  (forall r, b_next (f r) = b_next r) -> (forall r, b_prev (f r) = b_prev r) ->
  forall i, nx (upd_buf b f d) i = nx d i /\ pv (upd_buf b f d) i = pv d i.
Proof.
  intros Hn Hp i. unfold nx, pv, buf_of, upd_buf. cbn [d_bufs set_d_bufs].
  destruct (decide (b = i)) as [<-|Hne]; [|by rewrite list_lookup_total_alter_ne].
  rewrite !list_lookup_total_alt, list_lookup_alter_eq.
  destruct (d_bufs d !! b) as [r|]; cbn; by rewrite ?Hn, ?Hp.
Qed.

Lemma path_upd b f d a l :
  (forall r, b_next (f r) = b_next r) -> (forall r, b_prev (f r) = b_prev r) ->
  path (nx d) (pv d) a l -> path (nx (upd_buf b f d)) (pv (upd_buf b f d)) a l.
Proof.
  intros Hn Hp. apply path_ext; intros i **; by destruct (links_upd b f d Hn Hp i).
Qed.

Lemma buf_of_upd b f d i :
  (b < length (d_bufs d))%nat ->
  buf_of (upd_buf b f d) i = if decide (b = i) then f (buf_of d b) else buf_of d i.
Proof. intros Hb. case_decide as E; [subst; by apply buf_of_upd_eq|by apply buf_of_upd_ne]. Qed.

Lemma slk_of_upd l f d l' :
  slk_of (upd_slk l f d) l' = if decide (l = l') then f (slk_of d l) else slk_of d l'.
Proof. case_decide as E; [subst; apply slk_of_upd_eq|by apply slk_of_upd_ne]. Qed.

(** find_buf after a change of which block a buffer holds. *)
Lemma find_buf_ext d d' bno :
  bcache d -> bcache d' -> (forall i, (i < NBUF)%nat -> hit d' bno i = hit d bno i) ->
  find_buf d' bno = find_buf d bno.
Proof.
  intros Hc Hc' H. destruct (find_buf d bno) as [i|] eqn:E.
  - apply find_buf_Some; [done|]. apply find_buf_Some in E as [Hi Hh]; [|done]. by rewrite H.
  - destruct (find_buf d' bno) as [i|] eqn:E'; [|done].
    apply find_buf_Some in E' as [Hi Hh]; [|done]. rewrite H in Hh by done.
    by rewrite (find_buf_None d bno i E Hi) in Hh.
Qed.

Section Got.
Context (pid : Z) (d : data) (bno : Z) (b : nat).
Context (Hc : bcache d) (Hch : chosen d bno b).

Let d' := got pid b bno d.

Lemma got_lt : (b < length (d_bufs d))%nat.
Proof using Hc Hch. rewrite bc_len by done. destruct Hch. lia. Qed.

Lemma got_buf i : buf_of d' i =
  if decide (b = i)
  then Buf 1 (b_disk (buf_of d b)) ROOTDEV bno (refs d bno + 1) (b_prev (buf_of d b)) (b_next (buf_of d b)) (content d bno)
  else buf_of d i.
Proof using Hc Hch. apply (buf_of_upd b). apply got_lt. Qed.

Lemma got_hit bno' i : (i < NBUF)%nat -> hit d' bno' i = if decide (b = i) then bno =? bno' else hit d bno' i.
Proof using Hc Hch. intros Hi. unfold hit. rewrite got_buf. by case_decide. Qed.

Lemma got_refs_nonneg : 0 <= refs d bno.
Proof using Hc.
  unfold refs. destruct (find_buf d bno) as [i|] eqn:E; [|lia].
  apply find_buf_Some in E as [Hi _]; [|done]. by apply bc_ref.
Qed.

Lemma got_cache : bcache d'.
Proof using Hc Hch.
  pose proof got_refs_nonneg as Hr0.
  split.
  - unfold d', got. cbn. rewrite length_alter. by apply bc_len.
  - destruct (bc_list d Hc) as (order & Hp & Hpath). exists order. split; [done|]. by apply path_upd.
  - intros i j bno' Hi Hj. rewrite !got_hit by done.
    destruct Hch as [Hlt [E|[E H0]]].
    + apply find_buf_Some in E as [_ Hh]; [|done].
      repeat case_decide; subst; [done|intros <-%Z.eqb_eq|intros ? <-%Z.eqb_eq|];
        intros; (eapply bc_uniq; [exact Hc|..]); eauto.
    + repeat case_decide; subst; [done|intros <-%Z.eqb_eq Hj'|intros Hi' <-%Z.eqb_eq|].
      * by rewrite (find_buf_None d bno j E Hj) in Hj'.
      * by rewrite (find_buf_None d bno i E Hi) in Hi'.
      * intros. by eapply bc_uniq.
  - intros i Hi. rewrite got_buf. case_decide; [by right|by apply bc_valid].
  - intros i Hi. unfold refcnt. rewrite got_buf. case_decide; [cbn; lia|by apply bc_ref].
  - intros i Hi. unfold refcnt. rewrite got_buf. case_decide; [done|by apply bc_dev].
  - intros i Hi. unfold refcnt, blocked. rewrite got_buf. case_decide as E; [cbn; lia|].
    intros Hl. apply bc_lock; [done..|]. unfold d', got in Hl. rewrite slk_of_upd_ne in Hl by congruence. done.
  - intros i Hi. unfold refcnt. rewrite got_buf. case_decide; [cbn; lia|].
    change (disk_of d') with (disk_of d). by apply bc_clean.
Qed.

Lemma got_find bno' : find_buf d' bno' =
  if decide (bno' = bno) then Some b
  else if decide (find_buf d bno' = Some b) then None else find_buf d bno'.
Proof using Hc Hch.
  pose proof got_cache as Hc'. destruct Hch as [Hlt _]. case_decide as E1.
  { subst. apply find_buf_Some; [done|]. split; [done|]. rewrite got_hit, decide_True by done. apply Z.eqb_refl. }
  assert (hit d' bno' b = false) as Hb.
  { rewrite got_hit, decide_True by done. apply Z.eqb_neq. congruence. }
  destruct (find_buf d' bno') as [i|] eqn:E.
  - apply find_buf_Some in E as [Hi Hh]; [|done]. rewrite got_hit in Hh by done.
    destruct (decide (b = i)) as [->|Hne]; [apply Z.eqb_eq in Hh; congruence|].
    assert (find_buf d bno' = Some i) as -> by (by apply find_buf_Some). by rewrite decide_False by congruence.
  - destruct (find_buf d bno') as [i|] eqn:E'; [|by rewrite decide_False].
    case_decide as E2; [done|]. apply find_buf_Some in E' as [Hi Hh]; [|done].
    pose proof (find_buf_None d' bno' i E Hi) as Hh'. rewrite got_hit in Hh' by done.
    rewrite decide_False in Hh' by congruence. congruence.
Qed.

Lemma got_content bno' : content d' bno' = content d bno'.
Proof using Hc Hch.
  unfold content at 1. rewrite got_find. case_decide as E1.
  { rewrite got_buf, decide_True by done. cbn. by subst. }
  change (disk_of d') with (disk_of d). case_decide as E2.
  - unfold content. rewrite E2. destruct Hch as [Hlt [E|[E H0]]].
    + apply find_buf_Some in E as [_ Hh]; [|done]. apply find_buf_Some in E2 as [_ Hh2]; [|done].
      unfold hit in *. apply andb_true_iff in Hh as [_ Hh%Z.eqb_eq]. apply andb_true_iff in Hh2 as [_ Hh2%Z.eqb_eq].
      congruence.
    + destruct (Z.eqb_spec (b_valid (buf_of d b)) 0) as [|Hv]; [done|].
      apply find_buf_Some in E2 as [_ Hh2]; [|done]. unfold hit in Hh2.
      apply andb_true_iff in Hh2 as [_ Hh2%Z.eqb_eq]. rewrite <- Hh2. symmetry. apply bc_clean; try done.
      destruct (bc_valid d Hc b Hlt); congruence.
  - unfold content. destruct (find_buf d bno') as [i|] eqn:E; [|done].
    rewrite got_buf, decide_False by congruence. done.
Qed.

Lemma got_refs bno' : refs d' bno' = if decide (bno' = bno) then refs d bno + 1 else refs d bno'.
Proof using Hc Hch.
  unfold refs at 1. rewrite got_find. case_decide as E1.
  { unfold refcnt. by rewrite got_buf, decide_True. }
  case_decide as E2.
  - unfold refs. rewrite E2. destruct Hch as [Hlt [E|[E H0]]]; [|done].
    apply find_buf_Some in E as [_ Hh]; [|done]. apply find_buf_Some in E2 as [_ Hh2]; [|done].
    unfold hit in *. apply andb_true_iff in Hh as [_ Hh%Z.eqb_eq]. apply andb_true_iff in Hh2 as [_ Hh2%Z.eqb_eq].
    congruence.
  - unfold refs. destruct (find_buf d bno') as [i|] eqn:E; [|done].
    unfold refcnt. rewrite got_buf, decide_False by congruence. done.
Qed.
End Got.

(** ** Changes that keep which block each buffer holds *)

Definition same_id (d d' : data) : Prop :=
  forall i, (i < NBUF)%nat -> b_dev (buf_of d' i) = b_dev (buf_of d i)
    /\ b_blockno (buf_of d' i) = b_blockno (buf_of d i) /\ b_valid (buf_of d' i) = b_valid (buf_of d i).

Lemma same_hit d d' bno i : same_id d d' -> (i < NBUF)%nat -> hit d' bno i = hit d bno i.
Proof. intros H Hi. destruct (H i Hi) as (E1 & E2 & _). unfold hit. by rewrite E1, E2. Qed.

Lemma same_find d d' bno : same_id d d' -> find_buf d' bno = find_buf d bno.
Proof.
  intros H. unfold find_buf. assert (Forall (fun i => (i < NBUF)%nat) (seq 0 NBUF)) as Hall.
  { apply Forall_forall. intros i Hi%elem_of_seq. lia. }
  induction Hall as [|i l Hi Hall IH]; cbn; [done|]. rewrite (same_hit d d') by done. by rewrite IH.
Qed.

Lemma same_upd b f d :
  (forall r, b_dev (f r) = b_dev r /\ b_blockno (f r) = b_blockno r /\ b_valid (f r) = b_valid r) ->
  (b < length (d_bufs d))%nat -> same_id d (upd_buf b f d).
Proof. intros Hf Hb i Hi. rewrite buf_of_upd by done. case_decide; [subst; apply Hf|done]. Qed.

Lemma same_trans d1 d2 d3 : same_id d1 d2 -> same_id d2 d3 -> same_id d1 d3.
Proof.
  intros H1 H2 i Hi. destruct (H1 i Hi) as (A1 & A2 & A3). destruct (H2 i Hi) as (B1 & B2 & B3).
  rewrite B1, B2, B3. done.
Qed.

(** The invariant after such a change. *)
Lemma same_cache d d' :
  bcache d -> same_id d d' -> length (d_bufs d') = S NBUF ->
  (exists order, order ≡ₚ seq 0 NBUF /\ path (nx d') (pv d') bhead (order ++ [bhead])) ->
  (forall i, (i < NBUF)%nat -> 0 <= refcnt d' i) ->
  (forall i, (i < NBUF)%nat -> 0 < refcnt d' i -> b_dev (buf_of d i) = ROOTDEV) ->
  (forall i, (i < NBUF)%nat -> blocked d' i -> 0 < refcnt d' i) ->
  (forall i, (i < NBUF)%nat -> refcnt d' i = 0 -> b_valid (buf_of d i) = 1 ->
     b_data (buf_of d' i) = disk_of d' (b_blockno (buf_of d i))) ->
  bcache d'.
Proof.
  intros Hc Hs Hlen Hl Hr Hd Hb Hcl. split; try done.
  - intros i j bno Hi Hj. rewrite !(same_hit d d') by done. by apply bc_uniq.
  - intros i Hi. destruct (Hs i Hi) as (_ & _ & ->). by apply bc_valid.
  - intros i Hi H. destruct (Hs i Hi) as (E1 & _ & E3). rewrite E1. destruct H; [by apply Hd|].
    apply bc_dev; [done..|]. right. congruence.
  - intros i Hi H0 Hv. destruct (Hs i Hi) as (_ & E2 & E3). rewrite E2. apply Hcl; [done..|congruence].
Qed.

Lemma holds_find d b bno : bcache d -> holds d b bno -> find_buf d bno = Some b.
Proof. intros Hc (Hb & Hh & _). by apply find_buf_Some. Qed.

Lemma holds_same d d' b bno : same_id d d' -> holds d b bno -> holds d' b bno.
Proof.
  intros H (Hb & Hh & Hv). split_and!; [done|by rewrite (same_hit d d')|].
  destruct (H b Hb) as (_ & _ & ->). done.
Qed.

Lemma holds_blockno d b bno : holds d b bno -> b_blockno (buf_of d b) = bno.
Proof. intros (_ & Hh & _). unfold hit in Hh. by apply andb_true_iff in Hh as [_ ?%Z.eqb_eq]. Qed.

Lemma holds_content d b bno : bcache d -> holds d b bno -> content d bno = b_data (buf_of d b).
Proof.
  intros Hc H. unfold content. rewrite (holds_find d b bno) by done. destruct H as (_ & _ & ->). done.
Qed.

Lemma holds_refs d b bno : bcache d -> holds d b bno -> refs d bno = refcnt d b.
Proof. intros Hc H. unfold refs. by rewrite (holds_find d b bno). Qed.

(** Only one buffer can hold a block. *)
Lemma find_other d b bno bno' i :
  bcache d -> holds d b bno -> find_buf d bno' = Some i -> bno' <> bno -> i <> b.
Proof.
  intros Hc Hh E Hne ->. apply find_buf_Some in E as [_ Hh']; [|done].
  destruct Hh as (_ & Hh & _). unfold hit in *. apply andb_true_iff in Hh as [_ H1%Z.eqb_eq].
  apply andb_true_iff in Hh' as [_ H2%Z.eqb_eq]. congruence.
Qed.

(** ** Changing the data of a locked buffer, and writing it to the disk *)

Section Hold.
Context (pid : Z) (L : list nat) (C : Z -> list Z) (R : Z -> Z) (k : disk) (d : data).
Context (Ha : abs pid L C R k d) (b : nat) (bno : Z) (Hh : holds d b bno) (Hr : 0 < R bno).

Let Hc : bcache d := ab_cache _ _ _ _ _ _ Ha.

Lemma hold_lt : (b < length (d_bufs d))%nat.
Proof using Ha Hh. rewrite bc_len by done. destruct Hh. lia. Qed.

Lemma hold_ref : refcnt d b = R bno.
Proof using Ha Hh. rewrite <- (ab_refs _ _ _ _ _ _ Ha). symmetry. by apply holds_refs. Qed.

Lemma set_data_abs v :
  abs pid L (fun x => if decide (x = bno) then v else C x) R k (upd_buf b (set_b_data v) d).
Proof using Ha Hh Hr.
  pose proof hold_lt as Hlt. pose proof hold_ref as Href.
  assert (same_id d (upd_buf b (set_b_data v) d)) as Hs by (by apply same_upd).
  assert (forall i, refcnt (upd_buf b (set_b_data v) d) i = refcnt d i) as Hrc.
  { intros i. unfold refcnt. rewrite buf_of_upd by done. by case_decide; subst. }
  assert (bcache (upd_buf b (set_b_data v) d)) as Hc'.
  { apply (same_cache d); try done.
    - rewrite length_upd_buf. by apply bc_len.
    - destruct (bc_list d Hc) as (o & Hp & Hpath). exists o. split; [done|]. by apply path_upd.
    - intros i Hi. rewrite Hrc. by apply bc_ref.
    - intros i Hi. rewrite Hrc. intros. apply bc_dev; [done..|]. by left.
    - intros i Hi. rewrite Hrc. exact (bc_lock d Hc i Hi).
    - intros i Hi. rewrite Hrc. intros H0 Hv. rewrite buf_of_upd by done.
      case_decide; [subst; lia|]. exact (bc_clean d Hc i Hi H0 Hv). }
  split; [done|..].
  - intros x. case_decide as E.
    + subst x. rewrite (holds_content _ b) by (done || by eapply holds_same). by rewrite buf_of_upd_eq.
    + rewrite <- (ab_content _ _ _ _ _ _ Ha). unfold content. rewrite (same_find d) by done.
      destruct (find_buf d x) as [i|] eqn:Ex; [|done].
      rewrite buf_of_upd_ne; [done|]. apply not_eq_sym. exact (find_other d b bno x i Hc Hh Ex E).
  - intros x. rewrite <- (ab_refs _ _ _ _ _ _ Ha). unfold refs. rewrite (same_find d) by done.
    destruct (find_buf d x); [apply Hrc|done].
  - apply Ha.
  - apply Ha.
  - apply Ha.
Qed.

Lemma disk_write_abs :
  abs pid L C R (disk_write bno (C bno) k) (set_d_disk (disk_write bno (b_data (buf_of d b)) (d_disk d)) d).
Proof using Ha Hh Hr.
  set (d' := set_d_disk _ d). pose proof hold_ref as Href.
  assert (b_data (buf_of d b) = C bno) as Hdat.
  { rewrite <- (ab_content _ _ _ _ _ _ Ha). symmetry. by apply holds_content. }
  assert (forall x, disk_of d' x = if decide (x = bno) then C bno else disk_of d x) as Hdk.
  { intros x. unfold disk_of. cbn. destruct (Z.eqb_spec x bno); case_decide; congruence. }
  assert (same_id d d') as Hs by done.
  assert (bcache d') as Hc'.
  { apply (same_cache d); try done; try apply Hc.
    - intros i Hi H. apply bc_dev; [done..|by left].
    - intros i Hi H0 Hv. change (buf_of d' i) with (buf_of d i). rewrite Hdk. case_decide as E; [|by apply bc_clean].
      assert (i = b) as ->.
      { eapply bc_uniq; [exact Hc|done|apply Hh| |apply Hh]. unfold hit.
        rewrite (bc_dev d Hc i Hi ltac:(by right)), E, !Z.eqb_refl. done. }
      unfold refcnt in *. change (buf_of d' b) with (buf_of d b) in H0. lia. }
  split; [done|..]; try apply Ha.
  - intros x. rewrite <- (ab_content _ _ _ _ _ _ Ha). unfold content.
    change (find_buf d' x) with (find_buf d x). rewrite Hdk. case_decide as E; [subst x|done].
    rewrite (holds_find d b bno) by done. destruct Hh as (_ & _ & Hv).
    change (buf_of d' b) with (buf_of d b). by rewrite Hv.
  - cbn. by rewrite Hdat, (ab_disk _ _ _ _ _ _ Ha).
Qed.

(** A change of the number of references, of the lock and of the place in the
    list. *)
Lemma ref_abs d' r L' :
  same_id d d' -> length (d_bufs d') = S NBUF ->
  (exists order, order ≡ₚ seq 0 NBUF /\ path (nx d') (pv d') bhead (order ++ [bhead])) ->
  (forall i, (i < NBUF)%nat -> refcnt d' i = if decide (b = i) then r else refcnt d i) ->
  (forall i, (i < NBUF)%nat -> b_data (buf_of d' i) = b_data (buf_of d i)) ->
  d_disk d' = d_disk d ->
  (forall i, (i < NBUF)%nat -> blocked d' i <-> i ∈ L') ->
  (forall i, i ∈ L' -> i ∈ L /\ slk_of d' (SBuf i) = slk_of d (SBuf i)) ->
  0 <= r -> (b ∈ L' -> 0 < r) -> (r = 0 -> C bno = dk_blocks k bno) ->
  abs pid L' C (fun x => if decide (x = bno) then r else R x) k d'.
Proof using Ha Hh Hr.
  intros Hs Hlen Hl Href Hdata Hdisk Hlk Hpid Hr0 Hbl Hcl.
  assert (disk_of d' = disk_of d) as Hdk by (unfold disk_of; by rewrite Hdisk).
  pose proof (holds_blockno d b bno Hh) as Hbn. pose proof hold_ref as Hrf.
  assert (b_data (buf_of d b) = C bno) as Hdat.
  { rewrite <- (ab_content _ _ _ _ _ _ Ha). symmetry. by apply holds_content. }
  assert (bcache d') as Hc'.
  { apply (same_cache d); try done.
    - intros i Hi. rewrite Href by done. case_decide; [done|by apply bc_ref].
    - intros i Hi. rewrite Href by done. intros H. apply bc_dev; [done..|]. left.
      case_decide as E; [by rewrite <- E, Hrf|done].
    - intros i Hi Hb. rewrite Href by done. apply Hlk in Hb; [|done]. case_decide; [subst; auto|].
      apply bc_lock; [done..|]. apply (ab_locked _ _ _ _ _ _ Ha); [done|]. by apply Hpid.
    - intros i Hi. rewrite Href, Hdata, Hdk by done. case_decide as E.
      + intros -> _. subst i. unfold disk_of. rewrite Hdat, Hbn, (ab_disk _ _ _ _ _ _ Ha). by apply Hcl.
      + by apply bc_clean. }
  split; [done|..].
  - intros x. rewrite <- (ab_content _ _ _ _ _ _ Ha). unfold content. rewrite (same_find d), Hdk by done.
    destruct (find_buf d x) as [i|] eqn:E; [|done]. apply find_buf_Some in E as [Hi _]; [|done].
    destruct (Hs i Hi) as (_ & _ & ->). by rewrite Hdata.
  - intros x. rewrite <- (ab_refs _ _ _ _ _ _ Ha). unfold refs. rewrite (same_find d) by done.
    case_decide as E.
    + subst x. rewrite (holds_find d b bno) by done. rewrite Href by apply Hh. by rewrite decide_True.
    + destruct (find_buf d x) as [i|] eqn:Ex; [|done].
      rewrite Href by (by apply find_buf_Some in Ex as [? _]). rewrite decide_False; [done|].
      apply not_eq_sym. exact (find_other d b bno x i Hc Hh Ex E).
  - rewrite Hdisk. apply Ha.
  - done.
  - intros i Hi. destruct (Hpid i Hi) as [HL ->]. by apply (ab_pid _ _ _ _ _ _ Ha).
Qed.
End Hold.

(** ** Moving a buffer to the front of the list *)

Definition unlink (b : nat) (d : data) : data :=
  upd_buf (pv d b) (set_b_next (nx d b)) (upd_buf (nx d b) (set_b_prev (pv d b)) d).
Definition tofront (b : nat) (d : data) : data :=
  let hn := nx d bhead in
  upd_buf bhead (set_b_next b) (upd_buf hn (set_b_prev b)
    (upd_buf b (set_b_prev bhead) (upd_buf b (set_b_next hn) d))).

(** Only links change. *)
Definition same_body (d d' : data) : Prop :=
  (forall i, b_dev (buf_of d' i) = b_dev (buf_of d i) /\ b_blockno (buf_of d' i) = b_blockno (buf_of d i)
    /\ b_valid (buf_of d' i) = b_valid (buf_of d i) /\ refcnt d' i = refcnt d i
    /\ b_data (buf_of d' i) = b_data (buf_of d i))
  /\ d_disk d' = d_disk d /\ d_slocks d' = d_slocks d /\ length (d_bufs d') = length (d_bufs d) /\ frame d d'.

Lemma body_trans d1 d2 d3 : same_body d1 d2 -> same_body d2 d3 -> same_body d1 d3.
Proof.
  intros (H1 & Hd1 & Hs1 & Hl1 & Hf1) (H2 & Hd2 & Hs2 & Hl2 & Hf2).
  split_and!; [|congruence..|by eapply frame_trans]. intros i.
  destruct (H1 i) as (A1 & A2 & A3 & A4 & A5). destruct (H2 i) as (B1 & B2 & B3 & B4 & B5).
  rewrite B1, B2, B3, B4, B5. done.
Qed.

Lemma body_upd b f d :
  (forall r, exists n q, f r = set_b_next n (set_b_prev q r)) -> same_body d (upd_buf b f d).
Proof.
  intros Hf. split_and!; [|done|done|apply length_upd_buf|apply frame_upd_buf]. intros i. unfold refcnt.
  destruct (decide (b = i)) as [<-|Hne]; [|by rewrite buf_of_upd_ne].
  unfold buf_of, upd_buf. cbn [d_bufs set_d_bufs]. rewrite !list_lookup_total_alt, list_lookup_alter_eq.
  destruct (d_bufs d !! b) as [r|]; cbn; [|done]. by destruct (Hf r) as (n & q & ->).
Qed.

Lemma body_next b n d : same_body d (upd_buf b (set_b_next n) d).
Proof. apply body_upd. intros r. exists n, (b_prev r). by destruct r. Qed.
Lemma body_prev b q d : same_body d (upd_buf b (set_b_prev q) d).
Proof. apply body_upd. intros r. exists (b_next r), q. by destruct r. Qed.

Lemma body_move b d : same_body d (tofront b (unlink b d)).
Proof.
  repeat (eapply body_trans; [|(apply body_next || apply body_prev)]).
  split_and!; [by intros i|done..|apply frame_refl].
Qed.

Lemma nx_next b n d i :
  (b < length (d_bufs d))%nat -> nx (upd_buf b (set_b_next n) d) i = fupd (nx d) b n i.
Proof. intros Hb. unfold nx, fupd. rewrite buf_of_upd by done. by repeat case_decide. Qed.
Lemma pv_prev b q d i :
  (b < length (d_bufs d))%nat -> pv (upd_buf b (set_b_prev q) d) i = fupd (pv d) b q i.
Proof. intros Hb. unfold pv, fupd. rewrite buf_of_upd by done. by repeat case_decide. Qed.
Lemma nx_prev b q d i : (b < length (d_bufs d))%nat -> nx (upd_buf b (set_b_prev q) d) i = nx d i.
Proof. intros Hb. unfold nx. rewrite buf_of_upd by done. by case_decide; subst. Qed.
Lemma pv_next b n d i : (b < length (d_bufs d))%nat -> pv (upd_buf b (set_b_next n) d) i = pv d i.
Proof. intros Hb. unfold pv. rewrite buf_of_upd by done. by case_decide; subst. Qed.

Lemma tofront_path d b l :
  length (d_bufs d) = S NBUF -> NoDup (b :: bhead :: l) -> (forall i, i ∈ b :: bhead :: l -> (i < S NBUF)%nat) ->
  path (nx d) (pv d) bhead (l ++ [bhead]) ->
  path (nx (tofront b d)) (pv (tofront b d)) bhead (b :: l ++ [bhead]).
Proof.
  intros Hlen Hnd Hlt Hp. pose proof (path_push _ _ _ _ _ Hnd Hp) as Hpush.
  assert (nx d bhead < S NBUF)%nat as Hh1.
  { apply Hlt. destruct l as [|n l']; cbn [app path] in Hp; destruct Hp as (-> & _); rewrite !elem_of_cons; tauto. }
  assert (b < S NBUF)%nat as Hb by (apply Hlt; by left).
  assert (bhead < S NBUF)%nat as Hhd by (unfold bhead; lia).
  eapply path_ext; [| |exact Hpush]; intros i **; unfold tofront.
  - rewrite nx_next by (by rewrite !length_upd_buf, Hlen). unfold fupd. case_decide; [done|].
    by rewrite !nx_prev, nx_next by (by rewrite ?length_upd_buf, Hlen).
  - rewrite pv_next by (by rewrite !length_upd_buf, Hlen).
    rewrite pv_prev by (by rewrite !length_upd_buf, Hlen). unfold fupd at 1 2. case_decide; [done|].
    rewrite pv_prev by (by rewrite length_upd_buf, Hlen). unfold fupd.
    case_decide; [done|]. by rewrite pv_next by (by rewrite Hlen).
Qed.

Lemma move_lru d l1 b l2 :
  length (d_bufs d) = S NBUF -> lru d (l1 ++ b :: l2) -> lru (tofront b (unlink b d)) (b :: l1 ++ l2).
Proof.
  intros Hlen [Hperm Hpath].
  assert (NoDup (bhead :: l1 ++ b :: l2)) as Hnd.
  { apply NoDup_cons. rewrite Hperm. split; [rewrite elem_of_seq; unfold bhead; lia|apply NoDup_seq]. }
  assert (forall i, i ∈ bhead :: l1 ++ b :: l2 -> (i < S NBUF)%nat) as Hlt.
  { intros i. rewrite elem_of_cons, Hperm, elem_of_seq. unfold bhead. lia. }
  rewrite <- app_assoc in Hpath. cbn [app] in Hpath.
  pose proof (path_remove _ _ _ _ _ _ Hnd Hpath) as Hrem.
  rewrite (path_app _ _ bhead l1) in Hpath. cbn [path] in Hpath. destruct Hpath as (_ & _ & Epv & Hnx).
  assert (pv d b < length (d_bufs d))%nat as Hpb.
  { rewrite Hlen, Epv. apply Hlt. pose proof (last_elem l1 bhead) as H. rewrite app_comm_cons, elem_of_app. by left. }
  assert (nx d b < length (d_bufs d))%nat as Hnb.
  { rewrite Hlen. destruct l2 as [|n l2]; cbn [app path] in Hnx; destruct Hnx as (-> & _); apply Hlt; [by left|].
    rewrite elem_of_cons, elem_of_app, !elem_of_cons. tauto. }
  split; [by rewrite Permutation_middle|]. apply tofront_path.
  - unfold unlink. by rewrite !length_upd_buf.
  - rewrite <- Permutation_middle in Hnd. by rewrite Permutation_swap.
  - intros i Hi. apply Hlt. rewrite !elem_of_cons, elem_of_app in Hi. rewrite !elem_of_cons, elem_of_app, elem_of_cons. tauto.
  - rewrite <- app_assoc. eapply path_ext; [| |exact Hrem]; intros i **; unfold unlink.
    + rewrite nx_next by (by rewrite length_upd_buf). unfold fupd. case_decide; [done|]. by rewrite nx_prev.
    + rewrite pv_next by (by rewrite length_upd_buf). by rewrite pv_prev.
Qed.

(** ** The operations of the cache on contents and references *)

(** At most [NBUF - 1] blocks are in use. *)
Definition room (R : Z -> Z) : Prop :=
  exists busy : list Z, (forall x, 0 < R x -> x ∈ busy) /\ (length busy < NBUF)%nat.

Lemma room_unused pid L C R k d :
  abs pid L C R k d -> room R -> exists i, (i < NBUF)%nat /\ refcnt d i = 0.
Proof.
  intros Ha (busy & Hbusy & Hlen). pose proof (ab_cache _ _ _ _ _ _ Ha) as Hc.
  destruct (List.find (fun i => refcnt d i =? 0) (seq 0 NBUF)) as [i|] eqn:E.
  { apply List.find_some in E as [Hin H%Z.eqb_eq]. apply in_seq in Hin. exists i. split; [lia|done]. }
  exfalso. set (bno i := b_blockno (buf_of d i)).
  assert (forall i, (i < NBUF)%nat -> hit d (bno i) i = true /\ 0 < refcnt d i) as Hall.
  { intros i Hi. eapply List.find_none in E; [|apply in_seq; instantiate (1 := i); lia].
    apply Z.eqb_neq in E. pose proof (bc_ref d Hc i Hi). assert (0 < refcnt d i) as Hpos by lia. split; [|done].
    unfold hit. rewrite (bc_dev d Hc i Hi ltac:(by left)), !Z.eqb_refl. done. }
  assert (NoDup (bno <$> seq 0 NBUF)) as Hnd.
  { apply NoDup_fmap_2_strong; [|apply NoDup_seq]. intros i j Hi%elem_of_seq Hj%elem_of_seq Hij.
    apply (bc_uniq d Hc i j (bno i)); [lia|lia|by apply Hall; lia|]. rewrite Hij. apply Hall. lia. }
  assert (forall x, x ∈ bno <$> seq 0 NBUF -> x ∈ busy) as Hsub.
  { intros x (i & -> & Hi%elem_of_seq)%list_elem_of_fmap. apply Hbusy. destruct (Hall i ltac:(lia)) as [Hh Hpos].
    rewrite <- (ab_refs _ _ _ _ _ _ Ha). unfold refs. assert (find_buf d (bno i) = Some i) as ->; [|done].
    apply find_buf_Some; [done|]. split; [lia|done]. }
  pose proof (submseteq_length _ _ (NoDup_submseteq _ _ Hnd Hsub)) as H. rewrite length_fmap, length_seq in H. lia.
Qed.

(** Buffers in use keep their block when another one is read. *)
Lemma got_holds pid d bno b b' bno' :
  bcache d -> chosen d bno b -> holds d b' bno' -> 0 < refs d bno' -> holds (got pid b bno d) b' bno'.
Proof.
  intros Hc Hch Hh Hr. pose proof Hh as (Hb & Hit & Hv). rewrite (holds_refs d b' bno' Hc Hh) in Hr.
  unfold holds. rewrite got_hit by done. rewrite got_buf by done. case_decide as E; [|done]. subst b'.
  split_and!; [done| |done]. destruct Hch as [_ [E|[E H0]]]; [|lia].
  apply find_buf_Some in E as [_ Hit2]; [|done]. unfold hit in *. apply Z.eqb_eq.
  apply andb_true_iff in Hit as [_ H1%Z.eqb_eq]. apply andb_true_iff in Hit2 as [_ H2%Z.eqb_eq]. congruence.
Qed.

Lemma got_frame pid b bno d : frame d (got pid b bno d).
Proof. unfold got. eapply frame_trans; [|apply frame_upd_slk]. apply frame_upd_buf. Qed.

Lemma got_abs pid L C R k d bno b :
  abs pid L C R k d -> chosen d bno b -> readable d bno ->
  abs pid (b :: L) C (fun x => if decide (x = bno) then R bno + 1 else R x) k (got pid b bno d) /\ b ∉ L.
Proof.
  intros Ha Hch Hrd. pose proof (ab_cache _ _ _ _ _ _ Ha) as Hc.
  split; [split|].
  - by apply got_cache.
  - intros x. rewrite got_content by done. apply Ha.
  - intros x. rewrite got_refs by done. case_decide; subst; by rewrite (ab_refs _ _ _ _ _ _ Ha).
  - apply Ha.
  - intros i Hi. unfold blocked, got. rewrite slk_of_upd. rewrite elem_of_cons.
    case_decide as E; [injection E as <-; cbn; split; [by left|done]|].
    rewrite <- (ab_locked _ _ _ _ _ _ Ha) by done. split; [by right|]. by intros [->|?].
  - intros i [->|Hi]%elem_of_cons.
    + split; [apply Hch|]. unfold got. by rewrite slk_of_upd_eq.
    + destruct (ab_pid _ _ _ _ _ _ Ha i Hi) as [Hlt Hp]. split; [done|]. unfold got. rewrite slk_of_upd.
      case_decide; [done|]. exact Hp.
  - intros Hb. assert (b < NBUF)%nat as Hlt by apply Hch. apply (ab_locked _ _ _ _ _ _ Ha) in Hb; [|done].
    destruct Hch as [_ [E|[_ H0]]]; [by apply (rd_unlocked d bno Hrd b)|].
    pose proof (bc_lock d Hc b Hlt Hb). lia.
Qed.

Section Ops.
Context {B : Budget} {D : Disk} {DO : DiskOk D}.
Context (y : sync) (p : nat) (Hr : (0 < rounds)%nat).

Lemma bread_abs L C R k d bno :
  quiet y p d -> abs (p_pid (proc_of d p)) L C R k d -> (R bno <= 0 -> room R) ->
  (forall i, i ∈ L -> hit d bno i = false) -> R bno + 1 < 2 ^ 32 ->
  exists b d', bread ROOTDEV bno (KState y d) = Ret b (KState y d')
    /\ abs (p_pid (proc_of d p)) (b :: L) C (fun x => if decide (x = bno) then R bno + 1 else R x) k d'
    /\ (b ∉ L) /\ holds d' b bno /\ frame d d'
    /\ (forall b' bno', holds d b' bno' -> 0 < R bno' -> holds d' b' bno').
Proof using Hr DO.
  intros Hq Ha Hroom Hnl Hov. pose proof (ab_cache _ _ _ _ _ _ Ha) as Hc.
  assert (readable d bno) as Hrd.
  { split.
    - intros i E Hbl. apply find_buf_Some in E as [Hi Hh]; [|done].
      apply (ab_locked _ _ _ _ _ _ Ha) in Hbl; [|done]. by rewrite Hnl in Hh.
    - intros E. eapply room_unused; [exact Ha|]. apply Hroom.
      rewrite <- (ab_refs _ _ _ _ _ _ Ha). unfold refs. by rewrite E.
    - by rewrite (ab_refs _ _ _ _ _ _ Ha). }
  destruct (bread_run y p Hr bno d Hq Hc Hrd) as (b & Hch & _ & Hrun).
  destruct (got_abs _ _ _ _ _ _ _ _ Ha Hch Hrd) as [Ha' Hb].
  exists b. eexists. split_and!; [exact Hrun|exact Ha'|exact Hb| |apply got_frame|].
  - assert (b < NBUF)%nat as Hlt by apply Hch. unfold holds. rewrite got_hit, got_buf, !decide_True by done.
    split_and!; [done|apply Z.eqb_refl|done].
  - intros b' bno' Hh Hpos. apply got_holds; [done..|]. by rewrite (ab_refs _ _ _ _ _ _ Ha).
Qed.

Section Held.
Context (L : list nat) (C : Z -> list Z) (R : Z -> Z) (k : disk) (d : data).
Context (Hq : quiet y p d) (Ha : abs (p_pid (proc_of d p)) L C R k d).
Context (b : nat) (bno : Z) (HbL : b ∈ L) (Hh : holds d b bno).

Lemma held_ref : 0 < R bno.
Proof using Ha HbL Hh.
  rewrite <- (ab_refs _ _ _ _ _ _ Ha). pose proof (ab_cache _ _ _ _ _ _ Ha) as Hc.
  rewrite (holds_refs d b bno Hc Hh). destruct Hh as [Hlt _]. apply bc_lock; [done..|].
  by apply (ab_locked _ _ _ _ _ _ Ha).
Qed.

Lemma held_run : holdingsleep (SBuf b) (KState y d) = Ret 1 (KState y d).
Proof using Ha HbL Hh Hq.
  destruct Hh as [Hlt _]. destruct (ab_pid _ _ _ _ _ _ Ha b HbL) as [_ Hp].
  rewrite (holdingsleep_run y p (q_ok _ _ _ Hq) (q_cur _ _ _ Hq) _ _ (q_sleep _ _ _ Hq b Hlt)).
  apply (ab_locked _ _ _ _ _ _ Ha) in HbL; [|done]. unfold blocked in HbL.
  rewrite Hp, Z.eqb_refl. unfold nz. by rewrite (proj2 (Z.eqb_neq _ _) HbL).
Qed.

Lemma bwrite_abs :
  exists d', bwrite b (KState y d) = Ret tt (KState y d')
    /\ abs (p_pid (proc_of d p)) L C R (disk_write bno (C bno) k) d' /\ same_id d d' /\ frame d d'.
Proof using Ha HbL Hh Hq DO.
  eexists. split_and!.
  - unfold bwrite. rewrite (bind_Ret _ _ _ _ _ held_run). apply disk_write_run.
  - rewrite (holds_blockno d b bno Hh). apply disk_write_abs; [done..|]. apply held_ref.
  - done.
  - apply frame_disk.
Qed.

(** The references to [b] become [r], and it stays locked. *)
Lemma pin_abs f r :
  (forall x, f x = set_b_refcnt (b_refcnt (f x)) x) -> b_refcnt (f (buf_of d b)) = r -> 0 < r ->
  abs (p_pid (proc_of d p)) L C (fun x => if decide (x = bno) then r else R x) k (upd_buf b f d)
  /\ same_id d (upd_buf b f d).
Proof using Ha HbL Hh.
  clear Hr. intros Hf Er Hpos. pose proof held_ref as Href. pose proof (hold_lt _ _ _ _ _ _ Ha b bno Hh) as Hlt.
  pose proof (ab_cache _ _ _ _ _ _ Ha) as Hc.
  assert (same_id d (upd_buf b f d)) as Hs by (apply same_upd; [intros x; by rewrite Hf|done]).
  split; [|done]. apply (ref_abs _ L _ R _ d Ha b bno Hh Href); try done; try lia.
  - rewrite length_upd_buf. by apply bc_len.
  - destruct (bc_list d Hc) as (o & Hp & Hpath). exists o. split; [done|].
    apply path_upd; [intros x; by rewrite Hf..|done].
  - intros i Hi. unfold refcnt. rewrite buf_of_upd by done. by case_decide.
  - intros i Hi. rewrite buf_of_upd by done. case_decide as E; [|done]. rewrite Hf, <- E. done.
  - apply (ab_locked _ _ _ _ _ _ Ha).
Qed.

Lemma bpin_abs :
  R bno + 1 < 2 ^ 32 ->
  exists d', bpin b (KState y d) = Ret tt (KState y d')
    /\ abs (p_pid (proc_of d p)) L C (fun x => if decide (x = bno) then R bno + 1 else R x) k d'
    /\ same_id d d' /\ frame d d'.
Proof using Ha HbL Hh Hq.
  clear Hr. intros Hov. pose proof held_ref as Href. pose proof (hold_ref _ _ _ _ _ _ Ha b bno Hh) as Er.
  pose proof (q_ok _ _ _ Hq) as Hok. pose proof (q_bcache _ _ _ Hq) as Hb.
  destruct (pin_abs (fun r => set_b_refcnt (u32 (b_refcnt r + 1)) r) (R bno + 1)) as [H1 H2]; [done| |lia|].
  { cbn. unfold refcnt in Er. rewrite Er. apply wrapu_small. lia. }
  eexists. split; [unfold bpin; ksteps; by apply release_acq|]. split_and!; [done..|apply frame_upd_buf].
Qed.

Lemma bunpin_abs :
  1 < R bno < 2 ^ 32 ->
  exists d', bunpin b (KState y d) = Ret tt (KState y d')
    /\ abs (p_pid (proc_of d p)) L C (fun x => if decide (x = bno) then R bno - 1 else R x) k d'
    /\ same_id d d' /\ frame d d'.
Proof using Ha HbL Hh Hq.
  clear Hr. intros Hov. pose proof (hold_ref _ _ _ _ _ _ Ha b bno Hh) as Er.
  pose proof (q_ok _ _ _ Hq) as Hok. pose proof (q_bcache _ _ _ Hq) as Hb.
  destruct (pin_abs (fun r => set_b_refcnt (u32 (b_refcnt r - 1)) r) (R bno - 1)) as [H1 H2]; [done| |lia|].
  { cbn. unfold refcnt in Er. rewrite Er. apply wrapu_small. lia. }
  eexists. split; [unfold bunpin; ksteps; by apply release_acq|]. split_and!; [done..|apply frame_upd_buf].
Qed.

Definition dropped : data :=
  upd_buf b (fun r => set_b_refcnt (u32 (b_refcnt r - 1)) r) (upd_slk (SBuf b) slk_drop d).

Lemma brelse_run :
  brelse b (KState y d) =
  Ret tt (KState y (if refcnt dropped b =? 0 then tofront b (unlink b dropped) else dropped)).
Proof using Ha HbL Hh Hq.
  clear Hr. pose proof (q_ok _ _ _ Hq) as Hok. pose proof (q_bcache _ _ _ Hq) as Hb.
  assert (b < NBUF)%nat as Hlt by apply Hh.
  unfold brelse. rewrite (bind_Ret _ _ _ _ _ held_run). cbn [Z.eqb].
  rewrite (bind_Ret _ _ _ _ _ (releasesleep_run y Hok (q_procs _ _ _ Hq) _ _ (q_sleep _ _ _ Hq b Hlt)
    (q_len _ _ _ Hq) (q_nobody _ _ _ Hq b Hlt))).
  ksteps. fold dropped. fold (refcnt dropped b). destruct (refcnt dropped b =? 0); unfold when; ksteps;
    by apply release_acq.
Qed.

Lemma dropped_abs L' :
  R bno < 2 ^ 32 -> (forall i, i ∈ L' <-> i ∈ L /\ i <> b) -> (R bno = 1 -> C bno = dk_blocks k bno) ->
  forall d', same_body dropped d' -> (exists order, lru d' order) ->
  abs (p_pid (proc_of d p)) L' C (fun x => if decide (x = bno) then R bno - 1 else R x) k d'.
Proof using Ha HbL Hh.
  clear Hr. intros Hov HL Hcl d' (Hbody & Hdk & Hsl & Hlen & _) Hlru.
  pose proof held_ref as Href. pose proof (hold_lt _ _ _ _ _ _ Ha b bno Hh) as Hlt.
  pose proof (hold_ref _ _ _ _ _ _ Ha b bno Hh) as Er. unfold refcnt in Er.
  assert (forall i, buf_of dropped i = if decide (b = i) then set_b_refcnt (u32 (b_refcnt (buf_of d b) - 1)) (buf_of d b)
    else buf_of d i) as Hdr by exact (fun i => buf_of_upd b _ (upd_slk (SBuf b) slk_drop d) i Hlt).
  apply (ref_abs _ L _ R _ d Ha b bno Hh Href); try done; try lia.
  - intros i Hi. destruct (Hbody i) as (-> & -> & -> & _). rewrite Hdr. by case_decide; subst.
  - rewrite Hlen. unfold dropped. rewrite length_upd_buf. exact (bc_len d (ab_cache _ _ _ _ _ _ Ha)).
  - intros i Hi. destruct (Hbody i) as (_ & _ & _ & -> & _). unfold refcnt. rewrite Hdr.
    case_decide; [|done]. cbn. rewrite Er. apply wrapu_small. lia.
  - intros i Hi. destruct (Hbody i) as (_ & _ & _ & _ & ->). rewrite Hdr. by case_decide; subst.
  - intros i Hi. unfold blocked, slk_of. rewrite Hsl. fold (slk_of dropped (SBuf i)).
    change (slk_of dropped (SBuf i)) with (slk_of (upd_slk (SBuf b) slk_drop d) (SBuf i)).
    rewrite slk_of_upd, HL, <- (ab_locked _ _ _ _ _ _ Ha) by done. unfold blocked.
    case_decide as E; [injection E as ->|].
    + split; [done|]. by intros [_ ?].
    + split; [|by intros [? _]]. split; [done|congruence].
  - intros i [Hi Hne]%HL. split; [done|]. unfold slk_of. rewrite Hsl.
    apply (slk_of_upd_ne (SBuf b) (SBuf i) slk_drop d). congruence.
  - intros [_ ?]%HL. done.
  - intros H. apply Hcl. lia.
Qed.

Lemma brelse_abs L' :
  R bno < 2 ^ 32 -> (forall i, i ∈ L' <-> i ∈ L /\ i <> b) -> (R bno = 1 -> C bno = dk_blocks k bno) ->
  exists d', brelse b (KState y d) = Ret tt (KState y d')
    /\ abs (p_pid (proc_of d p)) L' C (fun x => if decide (x = bno) then R bno - 1 else R x) k d'
    /\ same_id d d' /\ frame d d'
    /\ (forall l1 l2, lru d (l1 ++ b :: l2) -> lru d' (if R bno =? 1 then b :: l1 ++ l2 else l1 ++ b :: l2)).
Proof using Ha HbL Hh Hq.
  clear Hr. intros Hov HL Hcl. pose proof (ab_cache _ _ _ _ _ _ Ha) as Hc.
  pose proof held_ref as Href. pose proof (hold_lt _ _ _ _ _ _ Ha b bno Hh) as Hlt.
  pose proof (hold_ref _ _ _ _ _ _ Ha b bno Hh) as Er. unfold refcnt in Er.
  assert (refcnt dropped b = R bno - 1) as Ed.
  { unfold refcnt, dropped. rewrite buf_of_upd_eq by done. cbn. fold (buf_of d b).
    change (buf_of (upd_slk (SBuf b) slk_drop d) b) with (buf_of d b). rewrite Er. apply wrapu_small. lia. }
  eexists. split; [apply brelse_run|]. rewrite Ed. set (d' := if R bno - 1 =? 0 then tofront b (unlink b dropped) else dropped).
  assert (same_body dropped d') as Hbody.
  { unfold d'. case_match; [apply body_move|]. split_and!; [by intros i|done..|apply frame_refl]. }
  assert (forall l1 l2, lru d (l1 ++ b :: l2) -> lru d' (if R bno =? 1 then b :: l1 ++ l2 else l1 ++ b :: l2)) as Hlru.
  { intros l1 l2 [Hp Hl]. assert (lru dropped (l1 ++ b :: l2)) as Hl' by (split; [done|]; by apply path_upd).
    unfold d'. destruct (Z.eqb_spec (R bno) 1), (Z.eqb_spec (R bno - 1) 0); try lia; [|done].
    apply move_lru; [|done]. unfold dropped. rewrite length_upd_buf. exact (bc_len d Hc). }
  split_and!; [|..|done].
  - apply dropped_abs; try done. destruct (bc_list d Hc) as (o & Hp & Hl).
    assert (b ∈ o) as (l1 & l2 & ->)%list_elem_of_split.
    { rewrite Hp. apply elem_of_seq. destruct Hh. lia. }
    eexists. apply Hlru. by split.
  - intros i Hi. destruct Hbody as (Hbody & _). destruct (Hbody i) as (-> & -> & -> & _).
    by apply (same_upd b (fun r => set_b_refcnt (u32 (b_refcnt r - 1)) r) d).
  - destruct Hbody as (_ & _ & _ & _ & Hf). eapply frame_trans; [|exact Hf].
    unfold dropped. eapply frame_trans; [apply frame_upd_slk|apply frame_upd_buf].
Qed.
End Held.
End Ops.

(** ** A run of cache operations

    [cst y p d0 L C R k d]: process [p] has come from [d0] to [d], and the cache
    is described by [L], [C], [R] and [k]. *)

Definition bupd {A} (f : Z -> A) (x : Z) (v : A) : Z -> A := fun z => if decide (z = x) then v else f z.

Record cst (y : sync) (p : nat) (d0 : data) (L : list nat) (C : Z -> list Z) (R : Z -> Z) (k : disk) (d : data) : Prop := {
  cs_quiet : quiet y p d;
  cs_abs : abs (p_pid (proc_of d p)) L C R k d;
  cs_frame : frame d0 d
}.

Lemma cst_ext y p d0 L C R k d C' R' :
  cst y p d0 L C R k d -> (forall x, C x = C' x) -> (forall x, R x = R' x) -> cst y p d0 L C' R' k d.
Proof.
  intros [Hq [Hc HC HR Hk Hl Hp] Hf] EC ER. split; [done|split; try done|done];
    intros x; [by rewrite <- EC|by rewrite <- ER].
Qed.

Lemma cst_step y p d0 L C R k d L' C' R' k' d' :
  cst y p d0 L C R k d -> abs (p_pid (proc_of d p)) L' C' R' k' d' -> frame d d' -> cst y p d0 L' C' R' k' d'.
Proof.
  intros [Hq Ha Hf] Ha' Hf'. split; [by eapply quiet_frame| |by eapply frame_trans].
  unfold proc_of in *. by rewrite (frame_procs d d' Hf').
Qed.

Section Steps.
Context {B : Budget} {D : Disk} {DO : DiskOk D}.
Context (y : sync) (p : nat) (d0 : data) (Hr : (0 < rounds)%nat).

Lemma c_bread L C R k d bno :
  cst y p d0 L C R k d -> (R bno <= 0 -> room R) -> R bno + 1 < 2 ^ 32 ->
  (forall i, i ∈ L -> exists bno', holds d i bno' /\ bno' <> bno) ->
  exists b d', bread ROOTDEV bno (KState y d) = Ret b (KState y d')
    /\ cst y p d0 (b :: L) C (bupd R bno (R bno + 1)) k d' /\ (b ∉ L) /\ holds d' b bno
    /\ (forall b' bno', holds d b' bno' -> 0 < R bno' -> holds d' b' bno').
Proof using Hr DO.
  intros Hs Hroom Hov Hnl. destruct Hs as [Hq Ha Hf] eqn:E. clear E.
  destruct (bread_abs y p Hr L C R k d bno Hq Ha Hroom) as (b & d' & Hrun & Ha' & Hb & Hh & Hf' & Hst); [|done|].
  - intros i Hi. destruct (Hnl i Hi) as (bno' & Hh & Hne). apply holds_blockno in Hh.
    unfold hit. rewrite Hh. apply andb_false_iff. right. by apply Z.eqb_neq.
  - exists b, d'. split_and!; try done. by eapply cst_step.
Qed.

Context (L : list nat) (C : Z -> list Z) (R : Z -> Z) (k : disk) (d : data) (b : nat) (bno : Z).
Context (Hs : cst y p d0 L C R k d) (HbL : b ∈ L) (Hh : holds d b bno).

Lemma c_ref : 0 < R bno.
Proof using Hs HbL Hh. eapply held_ref; [apply Hs|done|done]. Qed.

Lemma c_data : b_data (buf_of d b) = C bno.
Proof using Hs Hh.
  pose proof (cs_abs _ _ _ _ _ _ _ _ Hs) as Ha. rewrite <- (ab_content _ _ _ _ _ _ Ha). symmetry.
  apply holds_content; [apply Ha|done].
Qed.

Lemma c_set f :
  exists d', modb b f (KState y d) = Ret tt (KState y d') 
  /\ ((forall r, f r = set_b_data (b_data (f r)) r) ->
      cst y p d0 L (bupd C bno (b_data (f (buf_of d b)))) R k d' /\ same_id d d').
Proof using Hs HbL Hh.
  exists (upd_buf b f d). split; [done|]. intros Hf. rewrite (upd_buf_ext b f (set_b_data (b_data (f (buf_of d b)))) d) by apply Hf.
  pose proof (cs_abs _ _ _ _ _ _ _ _ Hs) as Ha. split.
  - eapply cst_step; [exact Hs|apply set_data_abs; [done..|apply c_ref]|apply frame_upd_buf].
  - apply same_upd; [done|]. eapply hold_lt; done.
Qed.

Lemma c_bwrite :
  exists d', bwrite b (KState y d) = Ret tt (KState y d')
    /\ cst y p d0 L C R (disk_write bno (C bno) k) d' /\ same_id d d'.
Proof using Hs HbL Hh DO.
  destruct (bwrite_abs y p L C R k d (cs_quiet _ _ _ _ _ _ _ _ Hs) (cs_abs _ _ _ _ _ _ _ _ Hs) b bno HbL Hh)
    as (d' & Hrun & Ha & Hid & Hf). exists d'. split_and!; try done. by eapply cst_step.
Qed.

Lemma c_bpin :
  R bno + 1 < 2 ^ 32 ->
  exists d', bpin b (KState y d) = Ret tt (KState y d')
    /\ cst y p d0 L C (bupd R bno (R bno + 1)) k d' /\ same_id d d'.
Proof using Hs HbL Hh.
  intros H. destruct (bpin_abs y p L C R k d (cs_quiet _ _ _ _ _ _ _ _ Hs) (cs_abs _ _ _ _ _ _ _ _ Hs) b bno HbL Hh H)
    as (d' & Hrun & Ha & Hid & Hf). exists d'. split_and!; try done. by eapply cst_step.
Qed.

Lemma c_bunpin :
  1 < R bno < 2 ^ 32 ->
  exists d', bunpin b (KState y d) = Ret tt (KState y d')
    /\ cst y p d0 L C (bupd R bno (R bno - 1)) k d' /\ same_id d d'.
Proof using Hs HbL Hh.
  intros H. destruct (bunpin_abs y p L C R k d (cs_quiet _ _ _ _ _ _ _ _ Hs) (cs_abs _ _ _ _ _ _ _ _ Hs) b bno HbL Hh H)
    as (d' & Hrun & Ha & Hid & Hf). exists d'. split_and!; try done. by eapply cst_step.
Qed.

Lemma c_brelse L' :
  R bno < 2 ^ 32 -> (forall i, i ∈ L' <-> i ∈ L /\ i <> b) -> (R bno = 1 -> C bno = dk_blocks k bno) ->
  exists d', brelse b (KState y d) = Ret tt (KState y d')
    /\ cst y p d0 L' C (bupd R bno (R bno - 1)) k d' /\ same_id d d'.
Proof using Hs HbL Hh.
  intros H1 H2 H3. destruct (brelse_abs y p L C R k d (cs_quiet _ _ _ _ _ _ _ _ Hs) (cs_abs _ _ _ _ _ _ _ _ Hs) b bno HbL Hh L' H1 H2 H3)
    as (d' & Hrun & Ha & Hid & Hf & _). exists d'. split_and!; try done. by eapply cst_step.
Qed.
End Steps.

(** ** What the operations promise *)

Section Promises.
Context {B : Budget} {D : Disk} {DO : DiskOk D}.
Context (y : sync) (p : nat) (Hr : (0 < rounds)%nat).


(** C13: brelse() unlocks a buffer and gives up a reference.  With the last one the
    buffer becomes the most recently used one. *)
Theorem brelse_spec b bno d :
  quiet y p d -> bcache d -> holds d b bno -> blocked d b ->
  (forall i, (i < NBUF)%nat -> blocked d i -> slk_pid (slk_of d (SBuf i)) = p_pid (proc_of d p)) ->
  refs d bno < 2 ^ 32 -> (refs d bno = 1 -> content d bno = disk_of d bno) ->
  exists d', brelse b (KState y d) = Ret tt (KState y d')
    /\ bcache d' /\ ~ blocked d' b
    /\ (forall x, content d' x = content d x)
    /\ (forall x, refs d' x = if decide (x = bno) then refs d x - 1 else refs d x)
    /\ (forall l1 l2, lru d (l1 ++ b :: l2) -> lru d' (if refs d bno =? 1 then b :: l1 ++ l2 else l1 ++ b :: l2))
    /\ d_disk d' = d_disk d /\ frame d d'.
Proof using.
  clear Hr. intros Hq Hc Hh Hbl Hmine Hov Hcl. assert (b < NBUF)%nat as Hlt by apply Hh.
  set (lk i := bool_decide (blocked d i)). set (L := List.filter lk (seq 0 NBUF)).
  assert (forall i, i ∈ L <-> (i < NBUF)%nat /\ blocked d i) as HL.
  { intros i. unfold L, lk. rewrite list_elem_of_In, filter_In, in_seq, bool_decide_eq_true. intuition lia. }
  assert (abs (p_pid (proc_of d p)) L (content d) (refs d) (d_disk d) d) as Ha.
  { split; try done.
    - intros i Hi. rewrite HL. tauto.
    - intros i [Hi Hb]%HL. auto. }
  set (L' := List.filter (fun i => negb (i =? b)%nat) L).
  assert (forall i, i ∈ L' <-> i ∈ L /\ i <> b) as HL'.
  { intros i. unfold L'. rewrite !list_elem_of_In, filter_In, negb_true_iff, Nat.eqb_neq. done. }
  destruct (brelse_abs y p L _ _ _ d Hq Ha b bno ltac:(by apply HL) Hh L' Hov HL' Hcl) as (d' & Hrun & Ha' & _ & Hf & Hlru).
  exists d'. split_and!; try done; [apply Ha'|..|apply Ha'].
  - intros H. apply (ab_locked _ _ _ _ _ _ Ha') in H; [|done]. by apply HL' in H as [_ ?].
  - apply (ab_content _ _ _ _ _ _ Ha').
  - intros x. rewrite (ab_refs _ _ _ _ _ _ Ha'). by case_decide; subst.
Qed.
End Promises.

(** ** binit *)

(** The state of binit() when the buffers [l] are in the list. *)
Record linked (l : list nat) (y : sync) (d : data) : Prop := {
  lk_len : length (d_bufs d) = S NBUF;
  lk_path : path (nx d) (pv d) bhead (l ++ [bhead]);
  lk_zero : forall i, (i < NBUF)%nat -> b_dev (buf_of d i) = 0 /\ b_valid (buf_of d i) = 0 /\ refcnt d i = 0;
  lk_bcache : free LBcache y;
  lk_free : forall i, i ∈ l -> free (LSleep (SBuf i)) y /\ ~ blocked d i
}.

Lemma free_put l l' nm y : l <> l' -> free l y -> free l (set_y_locks (<[l' := Spinlock 0 nm None]> (y_locks y)) y).
Proof. intros Hne (n & E). exists n. cbn. by rewrite lookup_insert_ne. Qed.
Lemma free_put_eq l nm y : free l (set_y_locks (<[l := Spinlock 0 nm None]> (y_locks y)) y).
Proof. exists nm. cbn. by rewrite lookup_insert_eq. Qed.

Lemma binit_round l y d b :
  linked l y d -> (b < NBUF)%nat -> NoDup (b :: l) -> (forall i, i ∈ l -> (i < NBUF)%nat) ->
  exists y' d',
    (hn ← getb bhead b_next; modb b (set_b_next hn);; modb b (set_b_prev bhead);;
     initsleeplock (SBuf b) "buffer";; modb hn (set_b_prev b);; modb bhead (set_b_next b)) (KState y d)
      = Ret tt (KState y' d')
    /\ linked (b :: l) y' d' /\ d_disk d' = d_disk d.
Proof.
  intros [Hlen Hp Hz Hb Hf] Hlt Hnd Hl. do 2 eexists. split; [reflexivity|].
  set (d' := upd_buf bhead _ _).
  assert (forall i, buf_of d' i = buf_of (tofront b d) i) as Hbuf by reflexivity.
  destruct (body_trans _ _ _ (body_trans _ _ _ (body_trans _ _ _ (body_next b (nx d bhead) d)
    (body_prev b bhead _)) (body_prev (nx d bhead) b _)) (body_next bhead b _)) as (Hbody & _ & _ & Hlen' & _).
  split; [split|done].
  - rewrite <- Hlen. exact Hlen'.
  - apply (tofront_path d b l); [done| |intros i [->|[->|Hi]%elem_of_cons]%elem_of_cons; [lia|unfold bhead; lia|specialize (Hl i Hi); lia]|done].
    apply NoDup_cons in Hnd as [Hn Hnd]. rewrite !NoDup_cons, elem_of_cons. split_and!; [|intros Hin; specialize (Hl _ Hin); unfold bhead in *; lia|done].
    intros [->|?]; [unfold bhead in *; lia|done].
  - intros i Hi. destruct (Hbody i) as (E1 & _ & E3 & E4 & _). destruct (Hz i Hi) as (Z1 & Z2 & Z3).
    unfold refcnt in *. rewrite Hbuf. unfold tofront. rewrite E1, E3, E4. done.
  - by apply free_put.
  - intros i [->|Hi]%elem_of_cons; (split; [|unfold blocked]).
    + apply free_put_eq.
    + change (slk_of d' (SBuf b)) with (slk_of (upd_slk (SBuf b) (set_slk_pid 0) (upd_slk (SBuf b) (set_slk_locked 0) (upd_slk (SBuf b) (set_slk_name "buffer") d))) (SBuf b)).
      rewrite !slk_of_upd_eq. cbn. lia.
    + apply free_put; [|by apply Hf]. intros [= ->]. by apply NoDup_cons in Hnd as [? _].
    + change (slk_of d' (SBuf i)) with (slk_of (upd_slk (SBuf b) (set_slk_pid 0) (upd_slk (SBuf b) (set_slk_locked 0) (upd_slk (SBuf b) (set_slk_name "buffer") d))) (SBuf i)).
      assert (SBuf b <> SBuf i) by (intros [= ->]; by apply NoDup_cons in Hnd as [? _]).
      rewrite !slk_of_upd_ne by done. by apply Hf.
Qed.

Lemma binit_loop xs : forall l y d,
  linked l y d -> NoDup (xs ++ l) -> (forall i, i ∈ xs ++ l -> (i < NBUF)%nat) ->
  exists y' d',
    for_each xs (fun b =>
      hn ← getb bhead b_next; modb b (set_b_next hn);; modb b (set_b_prev bhead);;
      initsleeplock (SBuf b) "buffer";; modb hn (set_b_prev b);; modb bhead (set_b_next b)) (KState y d)
      = Ret tt (KState y' d')
    /\ linked (rev xs ++ l) y' d' /\ d_disk d' = d_disk d.
Proof.
  induction xs as [|b xs IH]; intros l y d Hk Hnd Hl; cbn [for_each rev app] in *; [by exists y, d|].
  assert (NoDup (b :: l) /\ NoDup (xs ++ b :: l)) as [Hnd1 Hnd2].
  { split; [|by rewrite <- Permutation_middle]. apply NoDup_cons in Hnd as [Hn Hnd]. apply NoDup_cons.
    split; [|by apply NoDup_app in Hnd as (_ & _ & ?)]. intros H. apply Hn, elem_of_app. by right. }
  destruct (binit_round l y d b Hk) as (y1 & d1 & Er & Hk1 & Ed1); [apply Hl; by left|done| |].
  { intros i Hi. apply Hl. right. apply elem_of_app. by right. }
  rewrite (bind_Ret _ _ _ _ _ Er).
  destruct (IH (b :: l) y1 d1 Hk1 Hnd2) as (y2 & d2 & Er2 & Hk2 & Ed2).
  { intros i Hi. apply Hl. rewrite <- Permutation_middle in Hi. exact Hi. }
  exists y2, d2. split_and!; [exact Er2| |congruence]. by rewrite <- app_assoc.
Qed.

(** binit() makes an empty cache of the zeroed buffers: all are in the list, the
    last one first, none has a reference or is locked, and the locks are free. *)
Theorem binit_spec y d :
  d_bufs d = replicate (S NBUF) zero_buf ->
  exists y' d', binit (KState y d) = Ret tt (KState y' d')
    /\ bcache d' /\ lru d' (rev (seq 0 NBUF)) /\ d_disk d' = d_disk d /\ free LBcache y'
    /\ (forall bno, content d' bno = disk_of d bno)
    /\ (forall i, (i < NBUF)%nat -> refcnt d' i = 0 /\ free (LSleep (SBuf i)) y' /\ ~ blocked d' i).
Proof.
  intros E. unfold binit. unfold initlock, put_lock. do 3 kstep.
  set (y1 := set_y_locks _ y). set (d1 := upd_buf bhead _ _).
  assert (length (d_bufs d) = S NBUF) as Hlen by (by rewrite E, length_replicate).
  assert (linked [] y1 d1) as Hk.
  { split.
    - unfold d1. by rewrite !length_upd_buf.
    - unfold d1. assert (bhead < length (d_bufs d))%nat by (rewrite Hlen; unfold bhead; lia). cbn [app path].
      rewrite nx_next, pv_next, pv_prev by (by rewrite ?length_upd_buf). by rewrite !fupd_eq.
    - intros i Hi. unfold refcnt, d1. rewrite !buf_of_upd_ne by (unfold bhead; lia). unfold buf_of. rewrite E.
      by rewrite lookup_total_replicate_2 by lia.
    - apply free_put_eq.
    - by intros i ?%elem_of_nil. }
  destruct (binit_loop (seq 0 NBUF) [] y1 d1 Hk) as (y' & d' & Er & [H1 H2 H3 H4 H5] & Ed).
  { rewrite app_nil_r. apply NoDup_seq. } { intros i. rewrite app_nil_r, elem_of_seq. lia. }
  rewrite app_nil_r in H2, H5.
  assert (forall bno i, (i < NBUF)%nat -> hit d' bno i = false) as Hno.
  { intros bno i Hi. unfold hit. destruct (H3 i Hi) as (-> & _). done. }
  assert (forall i, (i < NBUF)%nat -> free (LSleep (SBuf i)) y' /\ ~ blocked d' i) as Hfr.
  { intros i Hi. apply H5. rewrite list_elem_of_In, <- in_rev, in_seq. lia. }
  assert (lru d' (rev (seq 0 NBUF))) as Hlru by (split; [by rewrite <- Permutation_rev|done]).
  exists y', d'. split_and!; [exact Er|split|done|done|done|..].
  - done.
  - by eexists.
  - intros i j bno Hi Hj H. by rewrite Hno in H.
  - intros i Hi. left. apply (H3 i Hi).
  - intros i Hi. destruct (H3 i Hi) as (_ & _ & ->). done.
  - intros i Hi. destruct (H3 i Hi) as (_ & -> & ->). lia.
  - intros i Hi Hb. destruct (proj2 (Hfr i Hi) Hb).
  - intros i Hi. destruct (H3 i Hi) as (_ & -> & _). lia.
  - intros bno. unfold content. destruct (find_buf d' bno) as [i|] eqn:Ef.
    + apply List.find_some in Ef as [Hi Hh]. apply in_seq in Hi. rewrite Hno in Hh by lia. done.
    + unfold disk_of. by rewrite Ed.
  - intros i Hi. split; [apply (H3 i Hi)|by apply Hfr].
Qed.

(** ** Witnesses *)

(** A disk that does each transfer at once. *)
Definition sync_disk : Disk := fun b w =>
  if w =? 0 then modd (fun d => upd_buf b (set_b_data (disk_of d (b_blockno (buf_of d b)))) d)
  else modd (fun d => set_d_disk (disk_write (b_blockno (buf_of d b)) (b_data (buf_of d b)) (d_disk d)) d).

Lemma sync_disk_ok : DiskOk sync_disk.
Proof. by split. Qed.

(** The locks of the cache, of the log and of inode 0 are initialised. *)
Definition fs_sync : sync :=
  set_y_locks (y_locks proc_sync ∪ {[LBcache := Spinlock 0 "bcache" None; LLog := Spinlock 0 "log" None; LSleep (SInode 0) := Spinlock 0 "sleep lock" None]}
    ∪ list_to_map (map (fun i => (LSleep (SBuf i), Spinlock 0 "sleep lock" None)) (seq 0 NBUF))) proc_sync.

(** Buffer 0 holds block 50, with contents that are not on the disk yet, and one
    reference; the others are free. *)
Definition ring (bs : list buf) : list buf :=
  imap (fun i b => set_b_next (if decide (i = bhead) then O else S i) (set_b_prev (match i with O => bhead | S j => j end) b)) bs.
Definition fs_with (b0 : buf) : data := set_d_bufs (ring (b0 :: replicate NBUF zero_buf)) proc_data.
Definition fs_data : data := fs_with (Buf 1 0 ROOTDEV 50 1 O O (replicate (Z.to_nat BSIZE) 7)).

(** A claim about each buffer of a concrete state, by evaluation. *)
Ltac each_buf i H :=
  change NBUF with 30%nat in H; do 30 (destruct i as [|i]; [vm_compute; by repeat split|]); lia.

Lemma fs_sleep_free i : (i < NBUF)%nat -> free (LSleep (SBuf i)) fs_sync.
Proof. intros H. exists "sleep lock". each_buf i H. Qed.

Lemma fs_quiet b0 : quiet fs_sync 3 (fs_with b0).
Proof.
  split.
  - split; vm_compute; try done. lia.
  - intros i Hi. destruct (proc_sync_free i Hi) as (nm & E). exists nm. cbn [fs_sync y_locks set_y_locks].
    rewrite (lookup_union_Some_l _ _ (LProc i) (Spinlock 0 nm None)); [done|].
    by apply lookup_union_Some_l.
  - by vm_compute.
  - by vm_compute.
  - eexists. by vm_compute.
  - apply fs_sleep_free.
  - intros i Hi. apply (Forall_compute (fun q => negb (match p_chan q with CSleep _ => true | _ => false end))).
    + intros q H [_ E]. by rewrite E in H.
    + by vm_compute.
Qed.

Lemma fs_others b0 i :
  (S i < NBUF)%nat -> b_dev (buf_of (fs_with b0) (S i)) = 0 /\ b_valid (buf_of (fs_with b0) (S i)) = 0
    /\ refcnt (fs_with b0) (S i) = 0.
Proof. intros H. change NBUF with 30%nat in H. do 29 (destruct i as [|i]; [by vm_compute|]). lia. Qed.

Lemma fs_bcache b0 :
  (b_valid b0 = 0 /\ b_refcnt b0 = 0) \/ (b_valid b0 = 1 /\ 0 < b_refcnt b0 /\ b_dev b0 = ROOTDEV) -> bcache (fs_with b0).
Proof.
  intros H0. assert (buf_of (fs_with b0) 0 = set_b_next 1 (set_b_prev bhead b0)) as E by done.
  assert (forall bno i, (i < NBUF)%nat -> hit (fs_with b0) bno i = true -> i = O) as Hhit.
  { intros bno [|i] Hi H; [done|]. unfold hit in H. destruct (fs_others b0 i Hi) as (Ed & _). by rewrite Ed in H. }
  split.
  - by vm_compute.
  - exists (seq 0 NBUF). split; [done|]. vm_compute. by repeat split.
  - intros i j bno Hi Hj H1%Hhit H2%Hhit; congruence.
  - intros [|i] Hi; [rewrite E; cbn; tauto|]. left. by apply fs_others.
  - intros [|i] Hi; unfold refcnt; [rewrite E; cbn; lia|]. destruct (fs_others b0 i Hi) as (_ & _ & H). unfold refcnt in H. lia.
  - intros [|i] Hi; unfold refcnt; [rewrite E; cbn; lia|]. destruct (fs_others b0 i Hi) as (_ & Hv & H). unfold refcnt in H. lia.
  - intros i Hi H. exfalso. by apply H.
  - intros [|i] Hi; unfold refcnt; [rewrite E; cbn; lia|]. destruct (fs_others b0 i Hi) as (_ & Hv & _). lia.
Qed.

Lemma fs_data_bcache : bcache fs_data.
Proof. apply fs_bcache. right. by vm_compute. Qed.

Lemma fs_unlocked i : ~ blocked fs_data i.
Proof. intros H. by apply H. Qed.

Lemma fs_readable : readable fs_data 60.
Proof.
  split.
  - intros i _. apply fs_unlocked.
  - intros _. exists 1%nat. split; [unfold NBUF, MAXOPBLOCKS; lia|by vm_compute].
  - by vm_compute.
Qed.

#[local] Instance one_round : Budget := 1%nat.
#[local] Existing Instance sync_disk.
#[local] Existing Instance sync_disk_ok.


(** The block just read is released: its buffer becomes the first of the list. *)
Lemma brelse_spec_witness :
  exists b d1 d2, bread ROOTDEV 60 (KState fs_sync fs_data) = Ret b (KState fs_sync d1)
    /\ brelse b (KState fs_sync d1) = Ret tt (KState fs_sync d2)
    /\ exists l, lru d2 (b :: l) /\ refs d2 60 = 0.
Proof.
  destruct (bread_run fs_sync 3 (Nat.lt_0_1 : (0 < rounds)%nat) 60 fs_data (fs_quiet _) fs_data_bcache fs_readable)
    as (b & Hch & _ & Hrun).
  set (d1 := got _ _ _ _) in Hrun. assert (b < NBUF)%nat as Hlt by apply Hch.
  assert (bcache d1) as Hc1 by (apply got_cache; [apply fs_data_bcache|exact Hch]).
  assert (refs d1 60 = 1) as Er by (unfold d1; rewrite got_refs by (apply fs_data_bcache || exact Hch); vm_compute; reflexivity).
  destruct (brelse_spec fs_sync 3 b 60 d1) as (d2 & Hrun2 & _ & _ & _ & Hr2 & Hl & _).
  - eapply quiet_frame; [apply got_frame|apply fs_quiet].
  - exact Hc1.
  - unfold holds, d1. rewrite got_hit, got_buf, !decide_True by (apply fs_data_bcache || exact Hch || exact Hlt || reflexivity).
    split; [exact Hlt|split; reflexivity].
  - unfold blocked, d1, got. rewrite slk_of_upd_eq. discriminate.
  - intros i Hi Hb. unfold blocked, d1, got in *. rewrite slk_of_upd in *. case_decide as E; [reflexivity|].
    exfalso. exact (fs_unlocked i Hb).
  - rewrite Er. reflexivity.
  - intros _. unfold d1. rewrite got_content by (apply fs_data_bcache || exact Hch). vm_compute. reflexivity.
  - destruct (bc_list d1 Hc1) as (order & Ho). assert (b ∈ order) as (l1 & l2 & ->)%list_elem_of_split.
    { destruct Ho as [Hp _]. rewrite Hp, elem_of_seq. lia. }
    exists b, d1, d2. split; [exact Hrun|]. split; [exact Hrun2|]. exists (l1 ++ l2).
    specialize (Hl l1 l2 Ho). rewrite Er in Hl. split; [exact Hl|]. rewrite Hr2, Er. reflexivity.
Defined.

Lemma binit_spec_witness :
  exists y' d', binit (KState zero_sync zero_data) = Ret tt (KState y' d')
    /\ bcache d' /\ content d' 7 = replicate (Z.to_nat BSIZE) 0.
Proof.
  destruct (binit_spec zero_sync zero_data eq_refl) as (y' & d' & Hrun & Hc & _ & _ & _ & Hcon & _).
  exists y', d'. split; [exact Hrun|]. split; [exact Hc|]. rewrite Hcon. reflexivity.
Defined.
