(* ===== verification/Log.v ===== *)
(** * kernel/log.c: the write-ahead log *)

From S2P Require Import Prelude Mem KString Riscv State Spinlock Kalloc Vm Proc Sleeplock Bio.

Section Log.
Context {B : Budget} {D : Disk}.

Definition getlog {A} (f : log -> A) : K A := getd (fun d => f (d_log d)).
Definition modlog (f : log -> log) : K unit := modd (fun d => set_d_log (f (d_log d)) d).
Definition set_lh_n_of (n : Z) (l : log) : log := set_lg_lh (set_lh_n n (lg_lh l)) l.

(** [log.lh.block[i]] and [log.lh.block[i] = v]; beyond the array neither is
    defined. *)
Definition get_block (i : Z) : K Z :=
  if i <? LOGSIZE then getlog (fun l => lh_block (lg_lh l) !!! Z.to_nat i) else undef.
Definition set_block (i v : Z) : K unit :=
  if i <? LOGSIZE
  then modlog (fun l => set_lg_lh (set_lh_block (<[Z.to_nat i := v]> (lh_block (lg_lh l))) (lg_lh l)) l)
  else undef.

(** [for (i = 0; i < log.lh.n; i++) body].  A body that uses [log.lh.block[i]]
    is not defined beyond the array, so that there are at most [LOGSIZE] rounds. *)
Fixpoint for_blocks_from (fuel : nat) (i : Z) (body : Z -> K unit) : K unit :=
  match fuel with
  | O => nofuel
  | S fuel' =>
      n ← getlog (fun l => lh_n (lg_lh l));
      if i <? n then body i;; for_blocks_from fuel' (i + 1) body
      else mret tt
  end.
Definition for_blocks (body : Z -> K unit) : K unit :=
  for_blocks_from (S (S (Z.to_nat LOGSIZE))) 0 body.

Definition install_trans (recovering : Z) : K unit :=
  for_blocks (fun tail =>
    dev ← getlog lg_dev;
    start ← getlog lg_start;
    lbuf ← bread dev (u32 (start + tail + 1));
    bno ← get_block tail;
    dbuf ← bread dev (u32 bno);
    bytes ← getb lbuf b_data;
    modb dbuf (set_b_data bytes);;
    bwrite dbuf;;
    when (recovering =? 0) (bunpin dbuf);;
    brelse lbuf;;
    brelse dbuf).

Definition read_head : K unit :=
  dev ← getlog lg_dev;
  start ← getlog lg_start;
  b ← bread dev (u32 start);
  lh ← getb b b_data;
  let n := s32 (get32 lh 0) in
  modlog (set_lh_n_of n);;
  for_blocks (fun i => set_block i (s32 (get32 lh (4 + 4 * i))));;
  brelse b.

Definition write_head : K unit :=
  dev ← getlog lg_dev;
  start ← getlog lg_start;
  b ← bread dev (u32 start);
  n ← getlog (fun l => lh_n (lg_lh l));
  modb b (fun r => set_b_data (put32 (b_data r) 0 n) r);;
  for_blocks (fun i =>
    bno ← get_block i;
    modb b (fun r => set_b_data (put32 (b_data r) (4 + 4 * i) bno) r));;
  bwrite b;;
  brelse b.

Definition recover_from_log : K unit :=
  read_head;;
  install_trans 1;;
  modlog (set_lh_n_of 0);;
  write_head.

Definition initlog (dev : Z) (sb : superblock) : K unit :=
  if BSIZE <=? 4 + 4 * LOGSIZE then panic "initlog: too big logheader"
  else
    initlock LLog "log";;
    modlog (set_lg_start (s32 (sb_logstart sb)));;
    modlog (set_lg_size (s32 (sb_nlog sb)));;
    modlog (set_lg_dev dev);;
    recover_from_log.

Fixpoint begin_op_loop (fuel : nat) : K unit :=
  match fuel with
  | O => nofuel
  | S fuel' =>
      l ← getlog id;
      if nz (lg_committing l) then sleep CLog LLog;; begin_op_loop fuel'
      else if LOGSIZE <? lh_n (lg_lh l) + (lg_outstanding l + 1) * MAXOPBLOCKS then
        sleep CLog LLog;; begin_op_loop fuel'
      else
        modlog (fun l => set_lg_outstanding (lg_outstanding l + 1) l);;
        release LLog
  end.

Definition begin_op : K unit :=
  acquire LLog;;
  begin_op_loop rounds.

Definition write_log : K unit :=
  for_blocks (fun tail =>
    dev ← getlog lg_dev;
    start ← getlog lg_start;
    to ← bread dev (u32 (start + tail + 1));
    bno ← get_block tail;
    from ← bread dev (u32 bno);
    bytes ← getb from b_data;
    modb to (set_b_data bytes);;
    bwrite to;;
    brelse from;;
    brelse to).

Definition commit : K unit :=
  n ← getlog (fun l => lh_n (lg_lh l));
  when (0 <? n)
    (write_log;;
     write_head;;
     install_trans 0;;
     modlog (set_lh_n_of 0);;
     write_head).

Definition end_op : K unit :=
  acquire LLog;;
  modlog (fun l => set_lg_outstanding (lg_outstanding l - 1) l);;
  committing ← getlog lg_committing;
  if nz committing then panic "log.committing"
  else
    outstanding ← getlog lg_outstanding;
    do_commit ← (if outstanding =? 0 then modlog (set_lg_committing 1);; mret true
                 else wakeup CLog;; mret false);
    release LLog;;
    when do_commit
      (commit;;
       acquire LLog;;
       modlog (set_lg_committing 0);;
       wakeup CLog;;
       release LLog).

(** [for (i = 0; i < log.lh.n; i++) if (log.lh.block[i] == b->blockno) break;] *)
Fixpoint find_block (blocks : list Z) (blockno i : Z) : Z :=
  match blocks with
  | [] => i
  | x :: blocks' => if u32 x =? blockno then i else find_block blocks' blockno (i + 1)
  end.

Definition log_write (b : nat) : K unit :=
  acquire LLog;;
  l ← getlog id;
  let n := lh_n (lg_lh l) in
  if (LOGSIZE <=? n) || (lg_size l - 1 <=? n) then panic "too big a transaction"
  else if lg_outstanding l <? 1 then panic "log_write outside of trans"
  else
    blockno ← getb b b_blockno;
    let i := find_block (take (Z.to_nat n) (lh_block (lg_lh l))) blockno 0 in
    set_block i (s32 blockno);;
    when (i =? n) (bpin b;; modlog (set_lh_n_of (n + 1)));;
    release LLog.
End Log.
