(* ===== verification/LogSpec.v ===== *)
(** * The log makes a transaction atomic

    The disk is read through [logical]: a block named in the header of the log
    has the contents of its copy in the log.  commit() and recovery are sequences
    of block writes; no prefix of them changes the logical contents but for one
    write, that of the header of a commit. *)

From S2P Require Import Prelude Mem KString Riscv State Spinlock Kalloc Vm Proc ProcSpec Sleeplock SleepSpec Bio Blocks BioSpec Log.

(** ** Sequences of block writes *)

Definition writes : Type := list (Z * list Z).
Definition do_writes (ws : writes) (k : disk) : disk := foldl (fun k w => disk_write w.1 w.2 k) k ws.
Definition after (ws : writes) (f : Z -> list Z) : Z -> list Z := foldl (fun f w => bupd f w.1 w.2) f ws.

Lemma bupd_eq {A} (f : Z -> A) x v : bupd f x v x = v.
Proof. unfold bupd. by rewrite decide_True. Qed.
Lemma bupd_ne {A} (f : Z -> A) x v z : z <> x -> bupd f x v z = f z.
Proof. intros. unfold bupd. by rewrite decide_False. Qed.

Lemma after_app ws1 ws2 f : after (ws1 ++ ws2) f = after ws2 (after ws1 f).
Proof. apply foldl_app. Qed.
Lemma do_writes_app ws1 ws2 k : do_writes (ws1 ++ ws2) k = do_writes ws2 (do_writes ws1 k).
Proof. apply foldl_app. Qed.

Lemma after_out ws : forall f x, x ∉ ws.*1 -> after ws f x = f x.
Proof.
  induction ws as [|w ws IH]; intros f x Hx; cbn in *; [done|]. apply not_elem_of_cons in Hx as [Hn Hx].
  unfold after in *. cbn. rewrite IH by done. by apply bupd_ne.
Qed.

Lemma after_in ws f x v : NoDup ws.*1 -> (x, v) ∈ ws -> after ws f x = v.
Proof.
  intros Hnd (ws1 & ws2 & ->)%list_elem_of_split. rewrite after_app. unfold after at 1. cbn.
  rewrite fmap_app in Hnd. cbn in Hnd. apply NoDup_app in Hnd as (_ & _ & Hnd). apply NoDup_cons in Hnd as [Hnd _].
  fold (after ws2). change (after ws2 (bupd (after ws1 f) x v) x = v). rewrite after_out by done. apply bupd_eq.
Qed.

Lemma after_ext ws : forall f g x, f x = g x -> after ws f x = after ws g x.
Proof.
  induction ws as [|w ws IH]; intros f g x E; [done|]. unfold after. cbn. apply IH. unfold bupd. by case_decide.
Qed.

Lemma do_writes_blocks ws : forall k x, dk_blocks (do_writes ws k) x = after ws (dk_blocks k) x.
Proof.
  induction ws as [|w ws IH]; intros k x; [done|]. unfold do_writes, after. cbn.
  fold (do_writes ws) (after ws). change (dk_blocks (do_writes ws (disk_write w.1 w.2 k)) x =
    after ws (bupd (dk_blocks k) w.1 w.2) x). rewrite IH. apply after_ext. cbn. unfold bupd.
  destruct (Z.eqb_spec x w.1); by case_decide.
Qed.

(** ** The header of the log on the disk *)

Fixpoint put_list (bs : list Z) (off : Z) (l : list Z) : list Z :=
  match l with
  | [] => bs
  | x :: l' => put_list (put32 bs off x) (off + 4) l'
  end.
Definition head_bytes (bl : list Z) (old : list Z) : list Z :=
  put_list (put32 old 0 (Z.of_nat (length bl))) 4 bl.

Definition head_n (bs : list Z) : Z := s32 (get32 bs 0).
Definition head_list (bs : list Z) : list Z :=
  (fun i => s32 (get32 bs (4 + 4 * Z.of_nat i))) <$> seq 0 (Z.to_nat (head_n bs)).

Lemma put_list_snoc l : forall bs off x,
  put_list bs off (l ++ [x]) = put32 (put_list bs off l) (off + 4 * Z.of_nat (length l)) x.
Proof.
  induction l as [|y l IH]; intros bs off x; cbn [put_list app length]; [f_equal; lia|].
  rewrite IH. f_equal. lia.
Qed.

Lemma length_put_list l : forall bs off, length (put_list bs off l) = length bs.
Proof. induction l as [|y l IH]; intros; cbn [put_list]; [done|]. by rewrite IH, length_put32. Qed.

Lemma put_list_before l : forall bs off o,
  0 <= o -> o + 4 <= off -> get32 (put_list bs off l) o = get32 bs o.
Proof. induction l as [|y l IH]; intros bs off o H1 H2; cbn [put_list]; [done|]. rewrite IH, get32_put32_ne by lia. done. Qed.

Lemma put_list_get l : forall bs off (i : nat) x,
  0 <= off -> off + 4 * Z.of_nat (length l) <= Z.of_nat (length bs) -> l !! i = Some x ->
  get32 (put_list bs off l) (off + 4 * Z.of_nat i) = u32 x.
Proof.
  induction l as [|y l IH]; intros bs off [|i] x Ho Hl E; cbn in E; try done; cbn [put_list length] in *.
  - injection E as ->. replace (off + 4 * Z.of_nat 0) with off by lia.
    rewrite put_list_before by lia. apply get32_put32_eq; lia.
  - replace (off + 4 * Z.of_nat (S i)) with ((off + 4) + 4 * Z.of_nat i) by lia.
    apply IH; [lia| |done]. rewrite length_put32. lia.
Qed.

Lemma s32_u32 x : 0 <= x < 2 ^ 31 -> s32 (u32 x) = x.
Proof. intros H. rewrite wrapu_small by lia. apply wraps_small; lia. Qed.

(** What recovery reads is what commit() wrote. *)
Lemma head_roundtrip bl old :
  length old = Z.to_nat BSIZE -> Z.of_nat (length bl) <= LOGSIZE -> (forall x, x ∈ bl -> 0 <= x < 2 ^ 31) ->
  head_n (head_bytes bl old) = Z.of_nat (length bl) /\ head_list (head_bytes bl old) = bl.
Proof.
  intros Hold Hlen Hbl. change (Z.to_nat BSIZE) with 1024%nat in Hold. change LOGSIZE with 30 in Hlen.
  assert (head_n (head_bytes bl old) = Z.of_nat (length bl)) as Hn.
  { unfold head_n, head_bytes. rewrite put_list_before, get32_put32_eq by lia. apply s32_u32. lia. }
  split; [done|]. unfold head_list. rewrite Hn, Nat2Z.id. apply list_eq. intros i.
  rewrite list_lookup_fmap. destruct (bl !! i) as [x|] eqn:E.
  - pose proof (lookup_lt_Some _ _ _ E). rewrite lookup_seq_lt by done. cbn. f_equal. unfold head_bytes.
    rewrite (put_list_get bl _ 4 i x) by (rewrite ?length_put32; done || lia). apply s32_u32, Hbl.
    by apply list_elem_of_lookup_2 in E.
  - rewrite lookup_seq_ge; [done|]. by apply lookup_ge_None.
Qed.

(** ** The log in memory *)

(** The blocks of the log are [st ... st + LOGSIZE - 1], the header first. *)
Definition in_log (st x : Z) : Prop := st <= x < st + LOGSIZE.

Record good_list (st : Z) (bl : list Z) : Prop := {
  gl_nodup : NoDup bl;
  gl_len : Z.of_nat (length bl) < LOGSIZE;
  gl_range : forall x, x ∈ bl -> 0 <= x < 2 ^ 31;
  gl_out : forall x, x ∈ bl -> ~ in_log st x
}.

(** The header in memory names the blocks [bl]. *)
Record logst (st : Z) (bl : list Z) (l : log) : Prop := {
  ls_dev : lg_dev l = ROOTDEV;
  ls_start : lg_start l = st;
  ls_range : 0 <= st /\ st + LOGSIZE < 2 ^ 31;
  ls_n : lh_n (lg_lh l) = Z.of_nat (length bl);
  ls_max : length (lh_block (lg_lh l)) = Z.to_nat LOGSIZE;
  ls_blocks : take (length bl) (lh_block (lg_lh l)) = bl
}.

Lemma getlog_run {A} (f : log -> A) y d : getlog f (KState y d) = Ret (f (d_log d)) (KState y d).
Proof. reflexivity. Qed.
Lemma modlog_run f y d : modlog f (KState y d) = Ret tt (KState y (set_d_log (f (d_log d)) d)).
Proof. reflexivity. Qed.
#[export] Hint Resolve getlog_run modlog_run : krun.

Lemma get_block_run st bl y d i x :
  logst st bl (d_log d) -> bl !! i = Some x -> get_block (Z.of_nat i) (KState y d) = Ret x (KState y d).
Proof.
  intros Hl E. pose proof (lookup_lt_Some _ _ _ E) as Hi. pose proof (ls_max _ _ _ Hl) as Hm.
  rewrite <- (ls_blocks _ _ _ Hl) in E. rewrite lookup_take in E.
  destruct (decide (i < length bl)%nat); [|done].
  pose proof (lookup_lt_Some _ _ _ E) as Hi'. unfold get_block. rewrite (proj2 (Z.ltb_lt _ _)) by lia.
  rewrite getlog_run, Nat2Z.id. by rewrite (list_lookup_total_correct _ _ _ E).
Qed.

(** A loop over the header: an invariant of the rounds. *)
Lemma for_blocks_from_inv (I : nat -> data -> Prop) (n : nat) body y :
  (forall i d, I i d -> lh_n (lg_lh (d_log d)) = Z.of_nat n) ->
  (forall i d, (i < n)%nat -> I i d -> exists d', body (Z.of_nat i) (KState y d) = Ret tt (KState y d') /\ I (S i) d') ->
  forall fuel i d, (i <= n)%nat -> (n - i < fuel)%nat -> I i d ->
  exists d', for_blocks_from fuel (Z.of_nat i) body (KState y d) = Ret tt (KState y d') /\ I n d'.
Proof.
  intros Hn Hbody. induction fuel as [|fuel IH]; intros i d Hi Hf HI; [lia|]. cbn [for_blocks_from].
  kstep. rewrite (Hn i d HI). destruct (Z.ltb_spec (Z.of_nat i) (Z.of_nat n)) as [H|H].
  - destruct (Hbody i d) as (d1 & E & HI1); [lia|done|]. rewrite (bind_Ret _ _ _ _ _ E).
    replace (Z.of_nat i + 1) with (Z.of_nat (S i)) by lia. apply IH; [lia|lia|done].
  - exists d. split; [done|]. by replace n with i by lia.
Qed.

Lemma for_blocks_inv (I : nat -> data -> Prop) (n : nat) body y d :
  (forall i d, I i d -> lh_n (lg_lh (d_log d)) = Z.of_nat n) ->
  (forall i d, (i < n)%nat -> I i d -> exists d', body (Z.of_nat i) (KState y d) = Ret tt (KState y d') /\ I (S i) d') ->
  Z.of_nat n <= LOGSIZE -> I O d ->
  exists d', for_blocks body (KState y d) = Ret tt (KState y d') /\ I n d'.
Proof.
  intros H1 H2 Hn HI. apply (for_blocks_from_inv I n body y H1 H2 _ O d); [lia| |done].
  change LOGSIZE with 30 in *. lia.
Qed.

(** ** The writes of commit() *)

Definition log_writes (st : Z) (bl : list Z) (C : Z -> list Z) : writes :=
  imap (fun i x => (st + 1 + Z.of_nat i, C x)) bl.
Definition home_writes (st : Z) (bl : list Z) (C : Z -> list Z) : writes :=
  imap (fun i x => (x, C (st + 1 + Z.of_nat i))) bl.

Lemma log_writes_fst st bl C x : x ∈ (log_writes st bl C).*1 -> st + 1 <= x <= st + Z.of_nat (length bl).
Proof.
  intros ([a v] & -> & Hin)%list_elem_of_fmap. apply list_elem_of_lookup_1 in Hin as (i & E).
  unfold log_writes in E. rewrite list_lookup_imap in E. destruct (bl !! i) as [z|] eqn:Ez; [|done].
  cbn in E. injection E as <- <-. apply lookup_lt_Some in Ez. cbn. lia.
Qed.

Lemma log_writes_nodup st bl C : NoDup (log_writes st bl C).*1.
Proof.
  apply NoDup_alt. intros i j x Hi Hj. rewrite list_lookup_fmap in Hi, Hj. unfold log_writes in *.
  rewrite list_lookup_imap in Hi, Hj. destruct (bl !! i), (bl !! j); cbn in *; try done.
  injection Hi as <-. injection Hj as ?. lia.
Qed.

Lemma home_writes_fst st bl C : (home_writes st bl C).*1 = bl.
Proof.
  apply list_eq. intros i. rewrite list_lookup_fmap. unfold home_writes. rewrite list_lookup_imap.
  by destruct (bl !! i).
Qed.

(** The header does not run out of the log, and the references do not overflow. *)
Definition few (R : Z -> Z) : Prop := forall x, 0 <= R x < 2 ^ 31.

Lemma cst_log y p d0 L C R k d : cst y p d0 L C R k d -> d_log d = d_log d0.
Proof. intros H. apply frame_log, H. Qed.

Lemma log_blocks st bl l i x :
  logst st bl l -> good_list st bl -> bl !! i = Some x ->
  u32 (st + Z.of_nat i + 1) = st + 1 + Z.of_nat i /\ u32 x = x /\ st + 1 + Z.of_nat i <> x.
Proof.
  intros Hl Hg E. pose proof (ls_range _ _ _ Hl). pose proof (gl_len _ _ Hg).
  pose proof (lookup_lt_Some _ _ _ E). apply list_elem_of_lookup_2 in E.
  pose proof (gl_range _ _ Hg x E). pose proof (gl_out _ _ Hg x E) as Ho. unfold in_log in Ho.
  split_and!; [rewrite wrapu_small; lia|apply wrapu_small; lia|lia].
Qed.

Lemma in_pair (b1 b2 i : nat) : b2 <> b1 -> i ∈ [b1] <-> i ∈ [b2; b1] /\ i <> b2.
Proof. intros H. rewrite !elem_of_cons, elem_of_nil. intuition congruence. Qed.
Lemma in_pair' (b1 b2 i : nat) : b2 <> b1 -> i ∈ [b2] <-> i ∈ [b2; b1] /\ i <> b1.
Proof. intros H. rewrite !elem_of_cons, elem_of_nil. intuition congruence. Qed.
Lemma in_single (b i : nat) : i ∈ @nil nat <-> i ∈ [b] /\ i <> b.
Proof. rewrite !elem_of_cons, elem_of_nil. intuition congruence. Qed.

Lemma take_imap_S {A C} (f : nat -> A -> C) l i x :
  l !! i = Some x -> take (S i) (imap f l) = take i (imap f l) ++ [f i x].
Proof. intros E. apply take_S_r. rewrite list_lookup_imap, E. done. Qed.

(** [log_writes] takes its contents from blocks it does not write. *)
Lemma after_log_home st bl C n x :
  good_list st bl -> x ∈ bl -> after (take n (log_writes st bl C)) C x = C x.
Proof.
  intros Hg Hx. apply after_out. intros Hin. rewrite fmap_take in Hin.
  assert (x ∈ (log_writes st bl C).*1) as Hin' 
    by (rewrite <- (take_drop n (log_writes st bl C).*1), elem_of_app; by left).
  apply log_writes_fst in Hin'. pose proof (gl_len _ _ Hg). apply (gl_out _ _ Hg x Hx). unfold in_log. lia.
Qed.

(** The log gives up the reference it has to each block. *)
Definition unpin (bl : list Z) (R : Z -> Z) : Z -> Z := fun x => if decide (x ∈ bl) then R x - 1 else R x.

Lemma room_le R R' : (forall x, R' x <= R x) -> room R -> room R'.
Proof. intros H (busy & Hb & Hlen). exists busy. split; [|done]. intros x Hx. apply Hb. specialize (H x). lia. Qed.

Lemma unpin_le bl R x : unpin bl R x <= R x.
Proof. unfold unpin. case_decide; lia. Qed.

Lemma room_one x r : room (bupd (fun _ => 0) x r).
Proof.
  exists [x]. split; [|cbn; unfold NBUF, MAXOPBLOCKS; lia]. intros z. unfold bupd. case_decide; [|lia]. subst. intros _. by left.
Qed.

Lemma after_home_log st bl C n z :
  good_list st bl -> in_log st z -> after (take n (home_writes st bl C)) C z = C z.
Proof.
  intros Hg Hz. apply after_out. rewrite fmap_take, home_writes_fst. intros Hin.
  assert (z ∈ bl) as Hx by (rewrite <- (take_drop n bl), elem_of_app; by left).
  by apply (gl_out _ _ Hg z Hx).
Qed.

Lemma after_home_blocks st bl C k n z :
  good_list st bl -> in_log st z -> dk_blocks (do_writes (take n (home_writes st bl C)) k) z = dk_blocks k z.
Proof.
  intros Hg Hz. rewrite do_writes_blocks. apply after_out. rewrite fmap_take, home_writes_fst. intros Hin.
  assert (z ∈ bl) as Hx by (rewrite <- (take_drop n bl), elem_of_app; by left).
  by apply (gl_out _ _ Hg z Hx).
Qed.

Lemma not_in_take (bl : list Z) i x : NoDup bl -> bl !! i = Some x -> x ∉ take i bl.
Proof.
  intros Hnd E (j & Hj)%list_elem_of_lookup_1. pose proof (lookup_lt_Some _ _ _ Hj) as Hlt. rewrite length_take in Hlt.
  rewrite lookup_take_lt in Hj by lia. pose proof (NoDup_lookup _ _ _ _ Hnd E Hj). lia.
Qed.

Lemma unpin_few bl n R : few R -> (forall x, x ∈ bl -> 0 < R x) -> few (unpin (take n bl) R).
Proof.
  intros Hf Hp x. unfold unpin. specialize (Hf x). case_decide as E; [|done]. 
  assert (x ∈ bl) as Hx by (rewrite <- (take_drop n bl), elem_of_app; by left). specialize (Hp x Hx). lia.
Qed.

Lemma unpin_S bl R i x :
  NoDup bl -> bl !! i = Some x ->
  forall z, bupd (unpin (take i bl) R) x (unpin (take i bl) R x - 1) z = unpin (take (S i) bl) R z.
Proof.
  intros Hnd E z. rewrite (take_S_r _ _ _ E). unfold bupd, unpin.
  pose proof (not_in_take bl i x Hnd E) as Hx.
  assert (z ∈ take i bl ++ [x] <-> z ∈ take i bl \/ z = x) as Hz by (by rewrite elem_of_app, list_elem_of_singleton).
  repeat case_decide; subst; try tauto; lia.
Qed.

(** The references in round [i] of install_trans(). *)
Definition pins (rc : Z) (bl : list Z) (R : Z -> Z) (i : nat) : Z -> Z :=
  if rc =? 0 then unpin (take i bl) R else R.

Lemma install_room bl R rc i x lb :
  NoDup bl -> room R -> few R -> ((forall x, x ∈ bl -> 0 < R x) \/ (rc <> 0 /\ forall x, R x = 0)) ->
  bl !! i = Some x ->
  let Ri := pins rc bl R i in
  few Ri /\ room Ri /\ (rc = 0 -> 0 < Ri x) /\ (Ri x <= 0 -> room (bupd Ri lb (Ri lb + 1))).
Proof.
  intros Hnd Hroom Hfew Hpin E. pose proof (not_in_take bl i x Hnd E) as Hx.
  apply list_elem_of_lookup_2 in E. unfold pins. destruct (Z.eqb_spec rc 0) as [E0|E0].
  - destruct Hpin as [Hpin|[? _]]; [|done]. assert (unpin (take i bl) R x = R x) as Eu by (unfold unpin; by rewrite decide_False).
    cbn zeta. rewrite Eu. specialize (Hpin x E) as Hpos. split_and!; [by apply unpin_few| |done|lia].
    eapply room_le; [|exact Hroom]. intros z. apply unpin_le.
  - split_and!; [done..|]. intros H. destruct Hpin as [Hpin|[_ H0]]; [specialize (Hpin x E); lia|].
    eapply room_le; [|apply (room_one lb 1)]. intros z. unfold bupd. rewrite !H0. case_decide; lia.
Qed.

Section Runs.
Context {B : Budget} {D : Disk} {DO : DiskOk D}.
Context (y : sync) (p : nat) (Hr : (0 < rounds)%nat).

(** Both rounds read the log block and the home block. *)
Lemma read_both st bl d0 C R k d i x :
  logst st bl (d_log d0) -> good_list st bl -> few R -> room R ->
  (R x <= 0 -> room (bupd R (st + 1 + Z.of_nat i) (R (st + 1 + Z.of_nat i) + 1))) ->
  bl !! i = Some x -> cst y p d0 [] C R k d ->
  let lb := st + 1 + Z.of_nat i in
  exists b1 d1 b2 d2,
    bread ROOTDEV lb (KState y d) = Ret b1 (KState y d1)
    /\ get_block (Z.of_nat i) (KState y d1) = Ret x (KState y d1)
    /\ bread ROOTDEV x (KState y d1) = Ret b2 (KState y d2)
    /\ cst y p d0 [b2; b1] C (bupd (bupd R lb (R lb + 1)) x (R x + 1)) k d2
    /\ b2 <> b1 /\ holds d2 b1 lb /\ holds d2 b2 x.
Proof using Hr DO.
  intros Hl Hg Hfew Hroom Hroomx E Hs lb. destruct (log_blocks st bl _ i x Hl Hg E) as (E1 & E2 & Hne). fold lb in E1, Hne, Hroomx.
  pose proof (Hfew x) as Fx. pose proof (Hfew lb) as Flb.
  destruct (c_bread y p d0 Hr [] C R k d lb Hs ltac:(done) ltac:(lia)) as (b1 & d1 & Er1 & Hs1 & _ & Hh1 & _); [by intros ? ?%elem_of_nil|].
  destruct (c_bread y p d0 Hr [b1] _ _ _ d1 x Hs1) as (b2 & d2 & Er2 & Hs2 & Hb2 & Hh2 & Hst).
  { rewrite bupd_ne by done. done. } { rewrite bupd_ne by done. lia. }
  { intros ? ->%list_elem_of_singleton. by exists lb. }
  apply not_elem_of_cons in Hb2 as [Hb2 _]. rewrite bupd_ne in Hs2 by done.
  exists b1, d1, b2, d2. split_and!; try done.
  - apply (get_block_run st bl); [by rewrite (cst_log _ _ _ _ _ _ _ _ Hs1)|done].
  - apply Hst; [done|rewrite bupd_eq; lia].
Qed.

(** One round of write_log(): the block [x] is copied to the log. *)
Lemma write_log_round st bl d0 C R k d i x :
  logst st bl (d_log d0) -> good_list st bl -> room R -> few R -> 0 < R x ->
  bl !! i = Some x -> cst y p d0 [] C R k d ->
  let lb := st + 1 + Z.of_nat i in
  exists d',
    (dev ← getlog lg_dev; start ← getlog lg_start; to ← bread dev (u32 (start + Z.of_nat i + 1));
     bno ← get_block (Z.of_nat i); from ← bread dev (u32 bno); bytes ← getb from b_data;
     modb to (set_b_data bytes);; bwrite to;; brelse from;; brelse to) (KState y d) = Ret tt (KState y d')
    /\ cst y p d0 [] (bupd C lb (C x)) R (disk_write lb (C x) k) d'.
Proof using Hr DO.
  intros Hl Hg Hroom Hfew Hx E Hs lb. destruct (log_blocks st bl _ i x Hl Hg E) as (E1 & E2 & Hne). fold lb in E1, Hne.
  pose proof (Hfew x) as Fx. pose proof (Hfew lb) as Flb.
  do 2 kstep. rewrite (cst_log _ _ _ _ _ _ _ _ Hs), (ls_dev _ _ _ Hl), (ls_start _ _ _ Hl), E1.
  destruct (read_both st bl d0 C R k d i x) as (b1 & d1 & b2 & d2 & Er1 & Eg & Er2 & Hs2 & Hb2 & Hh1' & Hh2); try done.
  { lia. }
  fold lb in Er1, Hs2, Hh1'. rewrite (bind_Ret _ _ _ _ _ Er1), (bind_Ret _ _ _ _ _ Eg), E2, (bind_Ret _ _ _ _ _ Er2).
  kstep. rewrite (c_data y p d0 _ _ _ _ d2 b2 x Hs2 Hh2).
  destruct (c_set y p d0 _ _ _ _ d2 b1 lb Hs2 ltac:(by right; left) Hh1' (set_b_data (C x))) as (d3 & Er3 & H3).
  destruct H3 as [Hs3 Hi3]; [done|]. rewrite (bind_Ret _ _ _ _ _ Er3). cbn [b_data set_b_data] in Hs3.
  pose proof (holds_same _ _ _ _ Hi3 Hh1') as H31. pose proof (holds_same _ _ _ _ Hi3 Hh2) as H32.
  destruct (c_bwrite y p d0 _ _ _ _ d3 b1 lb Hs3 ltac:(by right; left) H31) as (d4 & Er4 & Hs4 & Hi4).
  rewrite (bind_Ret _ _ _ _ _ Er4). rewrite bupd_eq in Hs4.
  destruct (c_brelse y p d0 _ _ _ _ d4 b2 x Hs4 ltac:(by left) (holds_same _ _ _ _ Hi4 H32) [b1]) as (d5 & Er5 & Hs5 & Hi5).
  { rewrite bupd_eq. lia. } { intros j. by apply in_pair. } { rewrite bupd_eq. lia. }
  rewrite (bind_Ret _ _ _ _ _ Er5).
  destruct (c_brelse y p d0 _ _ _ _ d5 b1 lb Hs5 ltac:(by left) (holds_same _ _ _ _ Hi5 (holds_same _ _ _ _ Hi4 H31)) [])
    as (d6 & Er6 & Hs6 & Hi6).
  { rewrite bupd_ne, bupd_ne, bupd_eq by congruence. lia. } { intros j. apply in_single. }
  { intros _. rewrite bupd_eq. cbn. by rewrite Z.eqb_refl. }
  exists d6. split; [done|]. eapply cst_ext; [exact Hs6|done|]. intros z. unfold bupd.
  repeat (case_decide; subst; try congruence); lia.
Qed.

Lemma write_log_run st bl d0 C R k d :
  logst st bl (d_log d0) -> good_list st bl -> room R -> few R -> (forall x, x ∈ bl -> 0 < R x) ->
  cst y p d0 [] C R k d ->
  let ws := log_writes st bl C in
  exists d', write_log (KState y d) = Ret tt (KState y d') /\ cst y p d0 [] (after ws C) R (do_writes ws k) d'.
Proof using Hr DO.
  intros Hl Hg Hroom Hfew Hpin Hs ws. pose proof (gl_len _ _ Hg) as Hlen. unfold write_log.
  destruct (for_blocks_inv (fun i d => cst y p d0 [] (after (take i ws) C) R (do_writes (take i ws) k) d)
    (length bl) (fun tail => dev ← getlog lg_dev; start ← getlog lg_start; to ← bread dev (u32 (start + tail + 1));
     bno ← get_block tail; from ← bread dev (u32 bno); bytes ← getb from b_data;
     modb to (set_b_data bytes);; bwrite to;; brelse from;; brelse to) y d) as (d' & Hrun & Hs').
  - intros i d1 Hs1. rewrite (cst_log _ _ _ _ _ _ _ _ Hs1). apply Hl.
  - intros i d1 Hi Hs1. destruct (lookup_lt_is_Some_2 bl i Hi) as (x & E).
    pose proof (list_elem_of_lookup_2 _ _ _ E) as Hx.
    destruct (write_log_round st bl d0 _ R _ d1 i x Hl Hg Hroom Hfew (Hpin x Hx) E Hs1) as (d2 & Er & Hs2).
    exists d2. split; [exact Er|]. unfold ws in *. rewrite after_log_home in Hs2 by done. unfold log_writes in *.
    rewrite (take_imap_S _ bl i x E), after_app, do_writes_app. exact Hs2.
  - lia.
  - by rewrite take_0.
  - exists d'. split; [exact Hrun|]. rewrite (take_ge ws) in Hs'; [done|]. unfold ws, log_writes. by rewrite length_imap.
Qed.

(** One round of install_trans(): the copy in the log goes to the block [x]. *)
Lemma install_round st bl d0 C R k d i x rc :
  logst st bl (d_log d0) -> good_list st bl -> few R -> (rc = 0 -> 0 < R x) -> room R ->
  (R x <= 0 -> room (bupd R (st + 1 + Z.of_nat i) (R (st + 1 + Z.of_nat i) + 1))) -> bl !! i = Some x -> cst y p d0 [] C R k d ->
  let lb := st + 1 + Z.of_nat i in
  C lb = dk_blocks k lb ->
  exists d',
    (dev ← getlog lg_dev; start ← getlog lg_start; lbuf ← bread dev (u32 (start + Z.of_nat i + 1));
     bno ← get_block (Z.of_nat i); dbuf ← bread dev (u32 bno); bytes ← getb lbuf b_data;
     modb dbuf (set_b_data bytes);; bwrite dbuf;; when (rc =? 0) (bunpin dbuf);; brelse lbuf;; brelse dbuf)
      (KState y d) = Ret tt (KState y d')
    /\ cst y p d0 [] (bupd C x (C lb)) (if rc =? 0 then bupd R x (R x - 1) else R) (disk_write x (C lb) k) d'.
Proof using Hr DO.
  intros Hl Hg Hfew Hx Hroom Hroomx E Hs lb Hclean. destruct (log_blocks st bl _ i x Hl Hg E) as (E1 & E2 & Hne). fold lb in E1, Hne, Hroomx.
  pose proof (Hfew x) as Fx. pose proof (Hfew lb) as Flb.
  do 2 kstep. rewrite (cst_log _ _ _ _ _ _ _ _ Hs), (ls_dev _ _ _ Hl), (ls_start _ _ _ Hl), E1.
  destruct (read_both st bl d0 C R k d i x) as (b1 & d1 & b2 & d2 & Er1 & Eg & Er2 & Hs2 & Hb2 & Hh1' & Hh2); try done.
  fold lb in Er1, Hs2, Hh1'. rewrite (bind_Ret _ _ _ _ _ Er1), (bind_Ret _ _ _ _ _ Eg), E2, (bind_Ret _ _ _ _ _ Er2).
  kstep. rewrite (c_data y p d0 _ _ _ _ d2 b1 lb Hs2 Hh1').
  destruct (c_set y p d0 _ _ _ _ d2 b2 x Hs2 ltac:(by left) Hh2 (set_b_data (C lb))) as (d3 & Er3 & H3).
  destruct H3 as [Hs3 Hi3]; [done|]. rewrite (bind_Ret _ _ _ _ _ Er3). cbn [b_data set_b_data] in Hs3.
  pose proof (holds_same _ _ _ _ Hi3 Hh1') as H31. pose proof (holds_same _ _ _ _ Hi3 Hh2) as H32.
  destruct (c_bwrite y p d0 _ _ _ _ d3 b2 x Hs3 ltac:(by left) H32) as (d4 & Er4 & Hs4 & Hi4).
  rewrite (bind_Ret _ _ _ _ _ Er4). rewrite bupd_eq in Hs4.
  assert (exists d5, when (rc =? 0) (bunpin b2) (KState y d4) = Ret tt (KState y d5) /\ same_id d4 d5
    /\ cst y p d0 [b2; b1] (bupd C x (C lb)) (bupd (bupd R lb (R lb + 1)) x (if rc =? 0 then R x else R x + 1)) (disk_write x (C lb) k) d5)
    as (d5 & Er5 & Hi5 & Hs5).
  { destruct (Z.eqb_spec rc 0) as [E0|]; unfold when.
    - destruct (c_bunpin y p d0 _ _ _ _ d4 b2 x Hs4 ltac:(by left) (holds_same _ _ _ _ Hi4 H32)) as (d5 & Er5 & Hs5 & Hi5).
      { rewrite bupd_eq. specialize (Hx E0). lia. }
      exists d5. split_and!; [done..|]. eapply cst_ext; [exact Hs5|done|]. intros z. unfold bupd.
      repeat (case_decide; subst; try congruence); lia.
    - exists d4. split_and!; [done..|]. eapply cst_ext; [exact Hs4|done|]. intros z. unfold bupd.
      repeat (case_decide; subst; try congruence); lia. }
  rewrite (bind_Ret _ _ _ _ _ Er5).
  destruct (c_brelse y p d0 _ _ _ _ d5 b1 lb Hs5 ltac:(by right; left) (holds_same _ _ _ _ Hi5 (holds_same _ _ _ _ Hi4 H31)) [b2])
    as (d6 & Er6 & Hs6 & Hi6).
  { rewrite bupd_ne, bupd_eq by done. lia. } { intros j. by apply in_pair'. }
  { intros _. rewrite bupd_ne by done. cbn. rewrite (proj2 (Z.eqb_neq lb x)) by done. done. }
  rewrite (bind_Ret _ _ _ _ _ Er6).
  destruct (c_brelse y p d0 _ _ _ _ d6 b2 x Hs6 ltac:(by left) (holds_same _ _ _ _ Hi6 (holds_same _ _ _ _ Hi5 (holds_same _ _ _ _ Hi4 H32))) [])
    as (d7 & Er7 & Hs7 & Hi7).
  { rewrite bupd_ne, bupd_eq by congruence. destruct (rc =? 0); lia. } { intros j. apply in_single. }
  { intros _. rewrite bupd_eq. cbn. by rewrite Z.eqb_refl. }
  exists d7. split; [done|]. eapply cst_ext; [exact Hs7|done|]. intros z.
  destruct (rc =? 0); unfold bupd; repeat (case_decide; subst; try congruence); lia.
Qed.

Lemma install_trans_run st bl d0 C R k d rc :
  logst st bl (d_log d0) -> good_list st bl -> room R -> few R ->
  ((forall x, x ∈ bl -> 0 < R x) \/ (rc <> 0 /\ forall x, R x = 0)) ->
  (forall i, (i < length bl)%nat -> C (st + 1 + Z.of_nat i) = dk_blocks k (st + 1 + Z.of_nat i)) ->
  cst y p d0 [] C R k d ->
  let ws := home_writes st bl C in
  exists d', install_trans rc (KState y d) = Ret tt (KState y d')
    /\ cst y p d0 [] (after ws C) (if rc =? 0 then unpin bl R else R) (do_writes ws k) d'.
Proof using Hr DO.
  intros Hl Hg Hroom Hfew Hpin Hcl Hs ws. pose proof (gl_len _ _ Hg) as Hlen. unfold install_trans.
  set (Ri := pins rc bl R).
  destruct (for_blocks_inv (fun i d => cst y p d0 [] (after (take i ws) C) (Ri i) (do_writes (take i ws) k) d)
    (length bl) (fun tail => dev ← getlog lg_dev; start ← getlog lg_start; lbuf ← bread dev (u32 (start + tail + 1));
     bno ← get_block tail; dbuf ← bread dev (u32 bno); bytes ← getb lbuf b_data;
     modb dbuf (set_b_data bytes);; bwrite dbuf;; when (rc =? 0) (bunpin dbuf);; brelse lbuf;; brelse dbuf) y d)
    as (d' & Hrun & Hs').
  - intros i d1 Hs1. rewrite (cst_log _ _ _ _ _ _ _ _ Hs1). apply Hl.
  - intros i d1 Hi Hs1. destruct (lookup_lt_is_Some_2 bl i Hi) as (x & E).
    pose proof (list_elem_of_lookup_2 _ _ _ E) as Hx.
    assert (in_log st (st + 1 + Z.of_nat i)) as Hlog by (unfold in_log; lia).
    assert (few (Ri i) /\ room (Ri i) /\ (rc = 0 -> 0 < Ri i x)
      /\ (Ri i x <= 0 -> room (bupd (Ri i) (st + 1 + Z.of_nat i) (Ri i (st + 1 + Z.of_nat i) + 1)))) as (H1 & H2 & H3 & H4).
    { apply (install_room bl R rc i x); try done. apply Hg. }
    destruct (install_round st bl d0 (after (take i ws) C) (Ri i) (do_writes (take i ws) k) d1 i x rc)
      as (d2 & Er & Hs2); try done.
    { unfold ws. rewrite after_home_log, after_home_blocks by done. by apply Hcl. }
    exists d2. split; [exact Er|]. unfold ws in Hs2. rewrite after_home_log in Hs2 by done. unfold ws, home_writes in *.
      rewrite (take_imap_S _ bl i x E), after_app, do_writes_app. eapply cst_ext; [exact Hs2|done|].
      unfold Ri, pins. destruct (rc =? 0); [|done]. intros z. apply unpin_S; [apply Hg|done].
  - lia.
  - rewrite take_0. cbn. eapply cst_ext; [exact Hs|done|]. unfold Ri, pins, unpin. intros x. destruct (rc =? 0); [|done].
    rewrite take_0. by rewrite decide_False by apply not_elem_of_nil.
  - exists d'. split; [exact Hrun|]. unfold Ri, pins in Hs'. rewrite (take_ge bl) in Hs' by done.
    rewrite (take_ge ws) in Hs'; [done|]. unfold ws, home_writes. by rewrite length_imap.
Qed.

Lemma write_head_run st bl d0 C R k d :
  logst st bl (d_log d0) -> Z.of_nat (length bl) <= LOGSIZE -> room R -> few R -> cst y p d0 [] C R k d ->
  let hb := head_bytes bl (C st) in
  exists d', write_head (KState y d) = Ret tt (KState y d')
    /\ cst y p d0 [] (bupd C st hb) R (disk_write st hb k) d'.
Proof using Hr DO.
  intros Hl Hlen Hroom Hfew Hs hb. pose proof (Hfew st) as Fst. pose proof (ls_range _ _ _ Hl) as Hst.
  unfold write_head. do 2 kstep. rewrite (cst_log _ _ _ _ _ _ _ _ Hs), (ls_dev _ _ _ Hl), (ls_start _ _ _ Hl).
  rewrite wrapu_small by (change LOGSIZE with 30 in Hst; lia).
  destruct (c_bread y p d0 Hr [] C R k d st Hs ltac:(done) ltac:(lia)) as (b & d1 & Er1 & Hs1 & _ & Hh1 & _); [by intros ? ?%elem_of_nil|].
  rewrite (bind_Ret _ _ _ _ _ Er1). kstep. rewrite (cst_log _ _ _ _ _ _ _ _ Hs1), (ls_n _ _ _ Hl).
  set (n := Z.of_nat (length bl)). set (R1 := bupd R st (R st + 1)) in *.
  destruct (c_set y p d0 _ _ _ _ d1 b st Hs1 ltac:(by left) Hh1 (fun r => set_b_data (put32 (b_data r) 0 n) r)) as (d2 & Er2 & H2).
  destruct H2 as [Hs2 Hi2]; [done|]. rewrite (bind_Ret _ _ _ _ _ Er2). cbn [b_data set_b_data] in Hs2.
  rewrite (c_data y p d0 _ _ _ _ d1 b st Hs1 Hh1) in Hs2.
  set (I i d := cst y p d0 [b] (bupd C st (put_list (put32 (C st) 0 n) 4 (take i bl))) R1 k d /\ holds d b st).
  destruct (for_blocks_inv I (length bl) (fun i => bno ← get_block i;
    modb b (fun r => set_b_data (put32 (b_data r) (4 + 4 * i) bno) r)) y d2) as (d3 & Er3 & Hs3 & Hh3).
  - intros i d' [Hs' _]. rewrite (cst_log _ _ _ _ _ _ _ _ Hs'). apply Hl.
  - intros i d' Hi [Hs' Hh']. destruct (lookup_lt_is_Some_2 bl i Hi) as (x & E).
    rewrite (bind_Ret _ _ _ _ _ (get_block_run st bl y d' i x ltac:(by rewrite (cst_log _ _ _ _ _ _ _ _ Hs')) E)).
    destruct (c_set y p d0 _ _ _ _ d' b st Hs' ltac:(by left) Hh'
      (fun r => set_b_data (put32 (b_data r) (4 + 4 * Z.of_nat i) x) r)) as (d'' & Er'' & H'').
    destruct H'' as [Hs'' Hi'']; [done|]. exists d''. split; [done|]. split; [|by eapply holds_same].
    eapply cst_ext; [exact Hs''| |done]. intros z. cbn [b_data set_b_data].
    rewrite (c_data y p d0 _ _ _ _ d' b st Hs' Hh'), bupd_eq. unfold bupd. case_decide; [|done].
    rewrite (take_S_r _ _ _ E), put_list_snoc, length_take_le by lia. done.
  - done.
  - split; [|by eapply holds_same]. exact Hs2.
  - rewrite (bind_Ret _ _ _ _ _ Er3). rewrite (take_ge bl) in Hs3 by done.
    change (put_list (put32 (C st) 0 n) 4 bl) with hb in Hs3.
    destruct (c_bwrite y p d0 _ _ _ _ d3 b st Hs3 ltac:(by left) Hh3) as (d4 & Er4 & Hs4 & Hi4).
    rewrite (bind_Ret _ _ _ _ _ Er4). rewrite bupd_eq in Hs4.
    destruct (c_brelse y p d0 _ _ _ _ d4 b st Hs4 ltac:(by left) (holds_same _ _ _ _ Hi4 Hh3) []) as (d5 & Er5 & Hs5 & _).
    { unfold R1. rewrite bupd_eq. lia. } { intros j. apply in_single. }
    { intros _. rewrite bupd_eq. cbn. by rewrite Z.eqb_refl. }
    exists d5. split; [done|]. eapply cst_ext; [exact Hs5|done|]. intros z. unfold R1, bupd.
    repeat (case_decide; subst; try congruence); lia.
Qed.

Lemma cst_relog d0 L C R k d l :
  cst y p d0 L C R k d -> cst y p (set_d_log l d) L C R k (set_d_log l d).
Proof using.
  intros [[? ? ? ? ? ? ?] [[? ? ? ? ? ? ? ?] ? ? ? ? ?] _]. split; [split|split; [split|..]|apply frame_refl]; assumption.
Qed.

Lemma set_block_run d i v :
  0 <= i < LOGSIZE ->
  set_block i v (KState y d) =
  Ret tt (KState y (set_d_log (set_lg_lh (set_lh_block (<[Z.to_nat i := v]> (lh_block (lg_lh (d_log d)))) (lg_lh (d_log d))) (d_log d)) d)).
Proof using. clear Hr. intros H. unfold set_block. rewrite (proj2 (Z.ltb_lt _ _)) by lia. done. Qed.

(** The loop of read_head() copies the block numbers. *)
Lemma read_head_loop st bs d :
  let bl := head_list bs in
  0 <= head_n bs <= LOGSIZE -> 0 <= st /\ st + LOGSIZE < 2 ^ 31 ->
  lg_dev (d_log d) = ROOTDEV -> lg_start (d_log d) = st -> length (lh_block (lg_lh (d_log d))) = Z.to_nat LOGSIZE ->
  exists l, for_blocks (fun i => set_block i (s32 (get32 bs (4 + 4 * i)))) (KState y (set_d_log (set_lh_n_of (head_n bs) (d_log d)) d))
    = Ret tt (KState y (set_d_log l d)) /\ logst st bl l.
Proof using.
  clear Hr. intros bl Hn Hst Hdev Hstart Hlen.
  assert (length bl = Z.to_nat (head_n bs)) as Hbl by (unfold bl, head_list; by rewrite length_fmap, length_seq).
  set (I i d' := exists l, d' = set_d_log l d /\ lg_dev l = ROOTDEV /\ lg_start l = st /\ lh_n (lg_lh l) = head_n bs
    /\ length (lh_block (lg_lh l)) = Z.to_nat LOGSIZE /\ take i (lh_block (lg_lh l)) = take i bl).
  destruct (for_blocks_inv I (length bl) (fun i => set_block i (s32 (get32 bs (4 + 4 * i)))) y
    (set_d_log (set_lh_n_of (head_n bs) (d_log d)) d)) as (d' & Er & l & -> & Hd & Hs & Hnn & Hl & Ht).
  - intros i d' (l & -> & _ & _ & E & _). cbn. lia.
  - intros i d' Hi (l & -> & Hd & Hs & Hnn & Hl & Ht). eexists. split; [apply set_block_run; lia|].
    eexists. split; [reflexivity|]. cbn. split_and!; try done; [by rewrite length_insert|].
    rewrite Nat2Z.id. assert (i < length (lh_block (lg_lh l)))%nat as Hi' by lia.
    destruct (lookup_lt_is_Some_2 bl i Hi) as (x & E).
    rewrite (take_S_r (<[i:=_]> _) i (s32 (get32 bs (4 + 4 * Z.of_nat i)))) by (by apply list_lookup_insert_eq).
    rewrite take_insert_ge by lia. rewrite Ht, (take_S_r bl i x E). do 2 f_equal.
    unfold bl, head_list in E. rewrite list_lookup_fmap, lookup_seq_lt in E by lia. cbn in E. by injection E.
  - lia.
  - eexists. split; [reflexivity|]. cbn. by rewrite !take_0.
  - exists l. split; [exact Er|]. split; try done; [lia|]. by rewrite Ht, (take_ge bl).
Qed.

Lemma read_head_run st d0 C R k d :
  lg_dev (d_log d0) = ROOTDEV -> lg_start (d_log d0) = st -> length (lh_block (lg_lh (d_log d0))) = Z.to_nat LOGSIZE ->
  0 <= st /\ st + LOGSIZE < 2 ^ 31 -> 0 <= head_n (C st) <= LOGSIZE -> C st = dk_blocks k st ->
  room R -> few R -> cst y p d0 [] C R k d ->
  exists d', read_head (KState y d) = Ret tt (KState y d')
    /\ cst y p d' [] C R k d' /\ logst st (head_list (C st)) (d_log d').
Proof using Hr DO.
  intros Hdev Hstart Hlen Hst Hn Hcl Hroom Hfew Hs. pose proof (Hfew st) as Fst. pose proof (cst_log _ _ _ _ _ _ _ _ Hs) as El.
  unfold read_head. do 2 kstep. rewrite El, Hdev, Hstart.
  rewrite wrapu_small by (change LOGSIZE with 30 in Hst; lia).
  destruct (c_bread y p d0 Hr [] C R k d st Hs ltac:(done) ltac:(lia)) as (b & d1 & Er1 & Hs1 & _ & Hh1 & _); [by intros ? ?%elem_of_nil|].
  rewrite (bind_Ret _ _ _ _ _ Er1). pose proof (cst_log _ _ _ _ _ _ _ _ Hs1) as El1. do 2 kstep.
  rewrite (c_data y p d0 _ _ _ _ d1 b st Hs1 Hh1). fold (head_n (C st)).
  destruct (read_head_loop st (C st) d1 Hn Hst) as (l & Er2 & Hl); [by rewrite El1..|].
  rewrite (bind_Ret _ _ _ _ _ Er2). pose proof (cst_relog _ _ _ _ _ _ l Hs1) as Hs2.
  destruct (c_brelse y p _ _ _ _ _ _ b st Hs2 ltac:(by left) Hh1 []) as (d5 & Er5 & Hs5 & _).
  { rewrite bupd_eq. lia. } { intros j. apply in_single. } { done. }
  exists d5. split; [done|]. pose proof (cst_log _ _ _ _ _ _ _ _ Hs5) as E5. split.
  - assert (cst y p d5 [] C (bupd (bupd R st (R st + 1)) st (bupd R st (R st + 1) st - 1)) k d5) as Hs6.
    { destruct Hs5 as [H1 H2 _]. split; [done|done|apply frame_refl]. }
    eapply cst_ext; [exact Hs6|done|]. intros z. unfold bupd. repeat (case_decide; subst; try congruence); lia.
  - by rewrite E5.
Qed.
End Runs.

(** ** The contents of the disk through the log *)

(** Block [x] as it is after recovery. *)
Definition logical (st : Z) (f : Z -> list Z) (x : Z) : list Z :=
  match list_find (fun z => z = x) (head_list (f st)) with
  | Some (i, _) => f (st + 1 + Z.of_nat i)
  | None => f x
  end.

Record wf_disk (st : Z) (f : Z -> list Z) : Prop := {
  wd_size : length (f st) = Z.to_nat BSIZE;
  wd_n : 0 <= head_n (f st);
  wd_list : good_list st (head_list (f st))
}.

Lemma length_head_list bs : 0 <= head_n bs -> Z.of_nat (length (head_list bs)) = head_n bs.
Proof. intros H. unfold head_list. rewrite length_fmap, length_seq. lia. Qed.

Lemma head_list_nil bs : head_n bs = 0 -> head_list bs = [].
Proof. intros H. unfold head_list. by rewrite H. Qed.

Lemma good_nil st : good_list st [].
Proof. split; [by apply NoDup_nil|done|by intros x ?%elem_of_nil..]. Qed.

Lemma logical_nil st f x : head_list (f st) = [] -> logical st f x = f x.
Proof. intros E. unfold logical. by rewrite E. Qed.

Lemma logical_in st f i x :
  NoDup (head_list (f st)) -> head_list (f st) !! i = Some x -> logical st f x = f (st + 1 + Z.of_nat i).
Proof.
  intros Hnd E. unfold logical. destruct (list_find _ _) as [[j z]|] eqn:Ef.
  - apply list_find_Some in Ef as (Ej & -> & _). by rewrite (NoDup_lookup _ _ _ _ Hnd Ej E).
  - apply list_find_None in Ef. rewrite Forall_forall in Ef. by destruct (Ef x (list_elem_of_lookup_2 _ _ _ E)).
Qed.

Lemma logical_out st f x : x ∉ head_list (f st) -> logical st f x = f x.
Proof.
  intros E. unfold logical. destruct (list_find _ _) as [[j z]|] eqn:Ef; [|done].
  apply list_find_Some in Ef as (Ej & -> & _). by destruct E; apply list_elem_of_lookup_2 in Ej.
Qed.

(** It depends only on the blocks of the log and on the block itself. *)
Lemma logical_spec st f x v :
  good_list st (head_list (f st)) ->
  (forall i, head_list (f st) !! i = Some x -> f (st + 1 + Z.of_nat i) = v) ->
  (x ∉ head_list (f st) -> f x = v) -> logical st f x = v.
Proof.
  intros Hg H1 H2. destruct (decide (x ∈ head_list (f st))) as [(i & E)%list_elem_of_lookup_1|Hn].
  - rewrite (logical_in st f i x (gl_nodup _ _ Hg) E). by apply H1.
  - rewrite logical_out by done. by apply H2.
Qed.

(** The writes of a commit of the blocks [bl] with the contents [C], [C0] being
    the header before it. *)
Definition commit_writes (st : Z) (bl : list Z) (C : Z -> list Z) : writes :=
  match bl with
  | [] => []
  | _ => log_writes st bl C ++ (st, head_bytes bl (C st))
           :: ((fun x => (x, C x)) <$> bl) ++ [(st, head_bytes [] (head_bytes bl (C st)))]
  end.

Lemma commit_writes_nil st bl C : bl = [] -> commit_writes st bl C = [].
Proof. by intros ->. Qed.
Lemma commit_writes_cons st bl C :
  bl <> [] -> commit_writes st bl C = log_writes st bl C ++ (st, head_bytes bl (C st))
    :: ((fun x => (x, C x)) <$> bl) ++ [(st, head_bytes [] (head_bytes bl (C st)))].
Proof. by destruct bl. Qed.

(** The contents of the disk after it. *)
Definition committed (bl : list Z) (C f : Z -> list Z) (x : Z) : list Z := if decide (x ∈ bl) then C x else f x.

Lemma take_split {A} (a b : list A) w w' j :
  (take j (a ++ w :: b ++ [w']) = take j a) \/ (exists i, take j (a ++ w :: b ++ [w']) = a ++ w :: take i b)
  \/ take j (a ++ w :: b ++ [w']) = a ++ w :: b ++ [w'].
Proof.
  destruct (decide (j <= length a)%nat); [left; by rewrite take_app_le|right].
  destruct (decide (j <= S (length a + length b))%nat); [left|right].
  - exists (j - length a - 1)%nat. rewrite take_app_ge by lia. f_equal.
    destruct (j - length a)%nat as [|m] eqn:E; [lia|]. cbn. rewrite Nat.sub_0_r. f_equal. apply take_app_le. lia.
  - apply take_ge. rewrite length_app. cbn. rewrite length_app. cbn. lia.
Qed.

Section Crash.
Context (st : Z) (bl : list Z) (C f : Z -> list Z).
Context (Hg : good_list st bl) (HC : length (C st) = Z.to_nat BSIZE).
Context (Hsz : length (f st) = Z.to_nat BSIZE) (Hf : head_n (f st) = 0).

Let hb := head_bytes bl (C st).
Let homes : writes := (fun x => (x, C x)) <$> bl.

Lemma homes_fst : homes.*1 = bl.
Proof using. unfold homes. rewrite <- list_fmap_compose. apply list_fmap_id. Qed.

Lemma hb_list : head_n hb = Z.of_nat (length bl) /\ head_list hb = bl.
Proof using HC Hg. clear Hsz Hf. apply head_roundtrip; [done|pose proof (gl_len _ _ Hg); lia|apply Hg]. Qed.

Lemma in_log_st : in_log st st.
Proof using. clear HC Hsz Hf. unfold in_log, LOGSIZE, MAXOPBLOCKS. lia. Qed.

(** A crash before the header is written: nothing has happened. *)
Lemma crash_before j x :
  ~ in_log st x ->
  let g := after (take j (log_writes st bl C)) f in
  wf_disk st g /\ logical st g x = f x.
Proof using Hg Hsz Hf.
  clear HC. intros Hx g. assert (forall z, z = st \/ ~ in_log st z -> g z = f z) as Hout.
  { intros z Hz. apply after_out. rewrite fmap_take. intros Hin.
    assert (z ∈ (log_writes st bl C).*1) as Hin' by (rewrite <- (take_drop j (log_writes st bl C).*1), elem_of_app; by left).
    apply log_writes_fst in Hin'. pose proof (gl_len _ _ Hg). unfold in_log in Hz. destruct Hz; lia. }
  assert (g st = f st) as E by (apply Hout; by left). split.
  - split; rewrite E; [done|lia|]. rewrite head_list_nil by done. apply good_nil.
  - rewrite logical_nil by (rewrite E; by apply head_list_nil). apply Hout. by right.
Qed.

(** A crash after it: the transaction has happened. *)
Lemma crash_after i x :
  ~ in_log st x ->
  let g := after (take i homes) (bupd (after (log_writes st bl C) f) st hb) in
  wf_disk st g /\ logical st g x = committed bl C f x.
Proof using Hg HC.
  clear Hsz Hf. intros Hx g. destruct hb_list as [Hn Hl]. pose proof (gl_len _ _ Hg) as Hlen.
  assert (forall z, in_log st z -> g z = bupd (after (log_writes st bl C) f) st hb z) as Hlog.
  { intros z Hz. apply after_out. rewrite fmap_take, homes_fst. intros Hin. apply (gl_out _ _ Hg z); [|done].
    rewrite <- (take_drop i bl), elem_of_app. by left. }
  assert (g st = hb) as Est by (rewrite Hlog by apply in_log_st; apply bupd_eq).
  split; [split; rewrite Est|apply logical_spec; rewrite Est]; rewrite ?Hl.
  - unfold hb, head_bytes. by rewrite length_put_list, length_put32.
  - lia.
  - done.
  - done.
  - intros m E. pose proof (lookup_lt_Some _ _ _ E) as Hm. rewrite Hlog by (unfold in_log; lia).
    rewrite bupd_ne by lia. unfold committed. rewrite decide_True by (by eapply list_elem_of_lookup_2).
    apply after_in; [apply log_writes_nodup|]. apply (list_elem_of_lookup_2 _ m). unfold log_writes.
    by rewrite list_lookup_imap, E.
  - intros Hn'. unfold committed. rewrite decide_False by done. unfold g. rewrite after_out.
    + rewrite bupd_ne by (intros ->; by apply Hx, in_log_st). apply after_out.
      intros Hin%log_writes_fst. apply Hx. unfold in_log. lia.
    + rewrite fmap_take, homes_fst. intros Hin. apply Hn'. rewrite <- (take_drop i bl), elem_of_app. by left.
Qed.

(** After the last write. *)
Lemma crash_done x :
  ~ in_log st x ->
  let g := bupd (after homes (bupd (after (log_writes st bl C) f) st hb)) st (head_bytes [] hb) in
  wf_disk st g /\ head_n (g st) = 0 /\ logical st g x = committed bl C f x /\ g x = committed bl C f x.
Proof using Hg HC.
  clear Hsz Hf. intros Hx g. assert (head_n (g st) = 0) as Hn.
  { unfold g. rewrite bupd_eq. unfold hb. apply (head_roundtrip [] _); [|done|by intros ? ?%elem_of_nil].
    unfold head_bytes. by rewrite length_put_list, length_put32. }
  assert (g x = committed bl C f x) as E.
  { unfold g. rewrite bupd_ne by (intros ->; by apply Hx, in_log_st). unfold committed. case_decide as Hin.
    - apply after_in; [rewrite homes_fst; apply Hg|]. apply list_elem_of_fmap. by exists x.
    - rewrite after_out by (by rewrite homes_fst). rewrite bupd_ne by (intros ->; by apply Hx, in_log_st).
      apply after_out. intros Hin'%log_writes_fst. apply Hx. pose proof (gl_len _ _ Hg). unfold in_log. lia. }
  split_and!; [split|done|rewrite logical_nil; [done|by apply head_list_nil]|done].
  - unfold g. rewrite bupd_eq. unfold hb, head_bytes. by rewrite !length_put_list, !length_put32, length_put_list, length_put32.
  - lia.
  - rewrite head_list_nil by done. apply good_nil.
Qed.

Lemma commit_homes x : ~ in_log st x -> after (commit_writes st bl C) f x = committed bl C f x.
Proof using Hg HC.
  intros Hx. destruct (decide (bl = [])) as [E|E].
  { rewrite commit_writes_nil by done. unfold committed. rewrite E. by rewrite decide_False by apply not_elem_of_nil. }
  rewrite commit_writes_cons, after_app by done. change (after ((st, ?h) :: ?l) ?g) with (after l (bupd g st h)).
  rewrite after_app. by apply crash_done.
Qed.

Lemma commit_head : head_n (after (commit_writes st bl C) f st) = 0.
Proof using Hg HC Hf.
  destruct (decide (bl = [])) as [E|E]; [by rewrite commit_writes_nil|].
  rewrite commit_writes_cons, after_app by done. change (after ((st, ?h) :: ?l) ?g) with (after l (bupd g st h)).
  rewrite after_app. apply (crash_done (st - 1)). unfold in_log. clear. lia.
Qed.

(** At any moment of a commit the disk holds the old or the new contents. *)
Lemma commit_prefix j :
  let g := after (take j (commit_writes st bl C)) f in
  wf_disk st g /\ ((forall x, ~ in_log st x -> logical st g x = f x)
    \/ (forall x, ~ in_log st x -> logical st g x = committed bl C f x)).
Proof using Hg HC Hsz Hf.
  assert (exists x, ~ in_log st x) as (x0 & Hx0) by (exists (st - 1); unfold in_log; lia).
  destruct (decide (bl = [])) as [Ebl|Ebl].
  { rewrite commit_writes_nil, take_nil by done. split; [apply (crash_before 0 x0 Hx0)|left]. intros x Hx. apply (crash_before 0 x Hx). }
  rewrite commit_writes_cons by done. fold hb homes.
  destruct (take_split (log_writes st bl C) homes (st, hb) (st, head_bytes [] hb) j) as [E|[[i E]|E]]; rewrite E; clear E.
  - split; [apply (crash_before j x0 Hx0)|left]. intros x Hx. by apply crash_before.
  - rewrite after_app. split; [apply (crash_after i x0 Hx0)|right]. intros x Hx. by apply (crash_after i).
  - rewrite after_app. change (after ((st, hb) :: homes ++ _) ?g) with (after (homes ++ [(st, head_bytes [] hb)]) (bupd g st hb)).
    rewrite after_app. split; [apply (crash_done x0 Hx0)|right]. intros x Hx. by apply crash_done.
Qed.
End Crash.

Lemma wf_disk_ext st f g : (forall x, f x = g x) -> wf_disk st f -> wf_disk st g.
Proof. intros E [H1 H2 H3]. split; by rewrite <- E. Qed.
Lemma logical_ext st f g x : (forall x, f x = g x) -> logical st f x = logical st g x.
Proof. intros E. unfold logical. rewrite E. by destruct (list_find _ _) as [[? ?]|]; rewrite E. Qed.

(** ** Recovery as a sequence of writes *)

Definition recover_writes (st : Z) (f : Z -> list Z) : writes :=
  home_writes st (head_list (f st)) f ++ [(st, head_bytes [] (f st))].

Section Recovery.
Context (st : Z) (f : Z -> list Z) (Hw : wf_disk st f).

Let bl := head_list (f st).
Let Hg : good_list st bl := wd_list _ _ Hw.

Lemma recover_partial i x :
  let g := after (take i (home_writes st bl f)) f in
  wf_disk st g /\ logical st g x = logical st f x.
Proof using Hw.
  intros g. assert (forall z, in_log st z -> g z = f z) as Hlog by (intros z Hz; by apply after_home_log).
  assert (g st = f st) as Est by apply Hlog, in_log_st. split; [split; rewrite Est; apply Hw|].
  pose proof (gl_len _ _ Hg) as Hlen.
  apply logical_spec; rewrite Est; fold bl; [done|..].
  - intros m E. pose proof (lookup_lt_Some _ _ _ E). rewrite Hlog by (unfold in_log; lia).
    symmetry. apply logical_in; [apply Hg|done].
  - intros Hx. rewrite logical_out by done. apply after_out. rewrite fmap_take, home_writes_fst.
    intros Hin. apply Hx. rewrite <- (take_drop i bl), elem_of_app. by left.
Qed.

Lemma recover_done x :
  ~ in_log st x ->
  let g := bupd (after (home_writes st bl f) f) st (head_bytes [] (f st)) in
  wf_disk st g /\ head_n (g st) = 0 /\ g x = logical st f x.
Proof using Hw.
  intros Hx g. pose proof (wd_size _ _ Hw) as Hsz.
  assert (head_n (g st) = 0) as Hn.
  { unfold g. rewrite bupd_eq. apply (head_roundtrip [] _); [done|done|by intros ? ?%elem_of_nil]. }
  split_and!; [split|done|].
  - unfold g. rewrite bupd_eq. unfold head_bytes. by rewrite length_put_list, length_put32.
  - lia.
  - rewrite head_list_nil by done. apply good_nil.
  - symmetry. unfold g. rewrite bupd_ne by (intros ->; by apply Hx, in_log_st).
    apply logical_spec; fold bl; [done|..].
    + intros m E. symmetry. apply after_in; [rewrite home_writes_fst; apply Hg|].
      apply (list_elem_of_lookup_2 _ m). unfold home_writes. by rewrite list_lookup_imap, E.
    + intros Hn'. rewrite after_out; [done|]. by rewrite home_writes_fst.
Qed.

(** A crash during recovery leaves the logical contents as they were. *)
Lemma recover_prefix j :
  let g := after (take j (recover_writes st f)) f in
  wf_disk st g /\ forall x, ~ in_log st x -> logical st g x = logical st f x.
Proof using Hw.
  assert (exists x, ~ in_log st x) as (x0 & Hx0) by (exists (st - 1); unfold in_log; lia).
  unfold recover_writes. fold bl. destruct (decide (j <= length (home_writes st bl f))%nat) as [Hj|Hj].
  - rewrite take_app_le by done. split; [apply (recover_partial j x0)|]. intros x _. apply recover_partial.
  - rewrite (take_ge _ j) by (rewrite length_app; cbn; lia). rewrite after_app.
    split; [apply (recover_done x0 Hx0)|]. intros x Hx. destruct (recover_done x Hx) as (_ & Hn & E).
    rewrite logical_nil by (by apply head_list_nil). exact E.
Qed.
End Recovery.

(** ** The runs of commit() and recover_from_log() *)

Lemma logst_clear st bl l : logst st bl l -> logst st [] (set_lh_n_of 0 l).
Proof. intros [H1 H2 H3 H4 H5 H6]. split; done. Qed.

Lemma abs_unlocked pid d :
  bcache d -> (forall i, (i < NBUF)%nat -> ~ blocked d i) -> abs pid [] (content d) (refs d) (d_disk d) d.
Proof.
  intros Hc Hb. split; try done; [|by intros i ?%elem_of_nil]. intros i Hi. split; [|by intros ?%elem_of_nil].
  intros H. by destruct (Hb i Hi).
Qed.

(** A cache without references. *)
Lemma empty_cst y p d :
  quiet y p d -> bcache d -> (forall i, (i < NBUF)%nat -> refcnt d i = 0) ->
  cst y p d [] (disk_of d) (fun _ => 0) (d_disk d) d.
Proof.
  intros Hq Hc Href. eapply cst_ext; [split; [done|apply abs_unlocked; [done|]|apply frame_refl]|..].
  - intros i Hi Hbl. pose proof (bc_lock d Hc i Hi Hbl). rewrite Href in * by done. lia.
  - intros x. unfold content. destruct (find_buf d x) as [i|] eqn:E; [|done].
    apply find_buf_Some in E as [Hi Hh]; [|done]. destruct (Z.eqb_spec (b_valid (buf_of d i)) 0) as [|Hv]; [done|].
    unfold hit in Hh. apply andb_true_iff in Hh as [_ <-%Z.eqb_eq]. apply bc_clean; [done..|by apply Href|].
    destruct (bc_valid d Hc i Hi); [done|done].
  - intros x. unfold refs. destruct (find_buf d x) as [i|] eqn:E; [|done].
    apply find_buf_Some in E as [Hi _]; [|done]. by apply Href.
Qed.

Section Whole.
Context {B : Budget} {D : Disk} {DO : DiskOk D}.
Context (y : sync) (p : nat) (Hr : (0 < rounds)%nat).

Lemma commit_run st bl C R k d :
  logst st bl (d_log d) -> good_list st bl -> room R -> few R -> (forall x, x ∈ bl -> 0 < R x) ->
  cst y p d [] C R k d ->
  let ws := commit_writes st bl C in
  exists d', commit (KState y d) = Ret tt (KState y d') /\ logst st [] (d_log d')
    /\ cst y p d' [] (after ws C) (unpin bl R) (do_writes ws k) d'.
Proof using Hr DO.
  intros Hl Hg Hroom Hfew Hpin Hs ws. unfold commit. kstep. rewrite (ls_n _ _ _ Hl).
  destruct (decide (bl = [])) as [->|Hbl].
  { unfold when. cbn. exists d. split_and!; [done..|]. eapply cst_ext; [exact Hs|done|].
    intros x. unfold unpin. by rewrite decide_False by apply not_elem_of_nil. }
  destruct (Z.ltb_spec 0 (Z.of_nat (length bl))) as [_|H]; [|destruct bl; cbn in H; [done|lia]].
  pose proof (gl_len _ _ Hg) as Hlen. unfold when.
  assert (after (log_writes st bl C) C st = C st) as Ehd.
  { apply after_out. intros Hin%log_writes_fst. lia. }
  destruct (write_log_run y p Hr st bl d C R k d Hl Hg Hroom Hfew Hpin Hs) as (d1 & Er1 & Hs1).
  rewrite (bind_Ret _ _ _ _ _ Er1).
  destruct (write_head_run y p Hr st bl d _ R _ d1 Hl ltac:(lia) Hroom Hfew Hs1) as (d2 & Er2 & Hs2).
  rewrite (bind_Ret _ _ _ _ _ Er2). rewrite Ehd in Hs2. set (C2 := bupd _ st _) in Hs2.
  assert (forall i x, bl !! i = Some x -> C2 (st + 1 + Z.of_nat i) = C x) as HC2.
  { intros i x E. unfold C2. rewrite bupd_ne by lia. apply after_in; [apply log_writes_nodup|].
    apply (list_elem_of_lookup_2 _ i). unfold log_writes. by rewrite list_lookup_imap, E. }
  destruct (install_trans_run y p Hr st bl d C2 R (disk_write st (head_bytes bl (C st)) (do_writes (log_writes st bl C) k)) d2 0 Hl Hg Hroom Hfew ltac:(by left)) as (d3 & Er3 & Hs3); [|exact Hs2|].
  { intros i Hi. destruct (lookup_lt_is_Some_2 bl i Hi) as (x & E). rewrite (HC2 i x E). cbn.
    rewrite (proj2 (Z.eqb_neq _ _)) by lia. rewrite do_writes_blocks. symmetry. apply after_in; [apply log_writes_nodup|].
    apply (list_elem_of_lookup_2 _ i). unfold log_writes. by rewrite list_lookup_imap, E. }
  rewrite (bind_Ret _ _ _ _ _ Er3). kstep. cbn [Z.eqb] in Hs3.
  assert (home_writes st bl C2 = (fun x => (x, C x)) <$> bl) as Eh.
  { apply list_eq. intros i. unfold home_writes. rewrite list_lookup_imap, list_lookup_fmap.
    destruct (bl !! i) as [x|] eqn:E; [|done]. cbn. by rewrite (HC2 i x E). }
  pose proof (cst_relog y p _ _ _ _ _ _ (set_lh_n_of 0 (d_log d3)) Hs3) as Hs4.
  rewrite (cst_log _ _ _ _ _ _ _ _ Hs3) in *.
  destruct (write_head_run y p Hr st [] (set_d_log (set_lh_n_of 0 (d_log d)) d3) _ _ _ _ (logst_clear _ _ _ Hl) ltac:(done)
    (room_le _ _ (unpin_le bl R) Hroom) ltac:(rewrite <- (take_ge bl (length bl)) at 1 by lia; by apply unpin_few) Hs4) as (d5 & Er5 & Hs5).
  exists d5. split; [exact Er5|]. split.
  { rewrite (cst_log _ _ _ _ _ _ _ _ Hs5). by eapply logst_clear. }
  assert (after (home_writes st bl C2) C2 st = head_bytes bl (C st)) as E3.
  { rewrite after_out by (rewrite home_writes_fst; intros Hin; by apply (gl_out _ _ Hg st), in_log_st). apply bupd_eq. }
  rewrite E3, Eh in Hs5. unfold ws. rewrite commit_writes_cons by done.
  rewrite after_app, do_writes_app. change (after ((st, ?h) :: ?l) ?g) with (after l (bupd g st h)).
  change (do_writes ((st, ?h) :: ?l) ?g) with (do_writes l (disk_write st h g)). rewrite after_app, do_writes_app.
  destruct Hs5 as [H1 H2 _]. split; [done|exact H2|apply frame_refl].
Qed.

Lemma recover_run st d :
  quiet y p d -> bcache d -> (forall i, (i < NBUF)%nat -> refcnt d i = 0) ->
  lg_dev (d_log d) = ROOTDEV -> lg_start (d_log d) = st -> length (lh_block (lg_lh (d_log d))) = Z.to_nat LOGSIZE ->
  0 <= st /\ st + LOGSIZE < 2 ^ 31 -> wf_disk st (disk_of d) ->
  exists d', recover_from_log (KState y d) = Ret tt (KState y d') /\ logst st [] (d_log d')
    /\ cst y p d' [] (after (recover_writes st (disk_of d)) (disk_of d)) (fun _ => 0)
         (do_writes (recover_writes st (disk_of d)) (d_disk d)) d'.
Proof using Hr DO.
  intros Hq Hc Href Hdev Hstart Hmax Hst Hw. set (f := disk_of d). set (bl := head_list (f st)).
  pose proof (wd_list _ _ Hw) as Hg. pose proof (wd_n _ _ Hw) as Hn. fold f in Hg, Hn. pose proof (gl_len _ _ Hg) as Hlen.
  pose proof (empty_cst y p d Hq Hc Href) as Hs. fold f in Hs.
  assert (room (fun _ => 0)) as Hroom by (exists []; split; [intros; lia|unfold NBUF, MAXOPBLOCKS; cbn; lia]).
  assert (few (fun _ => 0)) as Hfew by done.
  unfold recover_from_log. rewrite (length_head_list _ Hn) in Hlen.
  destruct (read_head_run y p Hr st d f _ _ d Hdev Hstart Hmax Hst ltac:(lia) ltac:(done) Hroom Hfew Hs) as (d1 & Er1 & Hs1 & Hl1).
  rewrite (bind_Ret _ _ _ _ _ Er1). fold bl in Hl1.
  destruct (install_trans_run y p Hr st bl d1 f _ _ d1 1 Hl1 Hg Hroom Hfew ltac:(by right) ltac:(done) Hs1) as (d2 & Er2 & Hs2).
  rewrite (bind_Ret _ _ _ _ _ Er2). kstep. cbn [Z.eqb] in Hs2.
  pose proof (cst_relog y p _ _ _ _ _ _ (set_lh_n_of 0 (d_log d2)) Hs2) as Hs3.
  rewrite (cst_log _ _ _ _ _ _ _ _ Hs2) in *.
  destruct (write_head_run y p Hr st [] (set_d_log (set_lh_n_of 0 (d_log d1)) d2) _ _ _ _ (logst_clear _ _ _ Hl1) ltac:(done) Hroom Hfew Hs3) as (d4 & Er4 & Hs4).
  exists d4. split; [exact Er4|]. split.
  { rewrite (cst_log _ _ _ _ _ _ _ _ Hs4). by eapply logst_clear. }
  rewrite after_out in Hs4 by (rewrite home_writes_fst; intros Hin; by apply (gl_out _ _ Hg st), in_log_st).
  unfold recover_writes. fold bl. rewrite after_app, do_writes_app.
  destruct Hs4 as [H1 H2 _]. split; [done|exact H2|apply frame_refl].
Qed.
End Whole.

(** ** log_write() *)

Lemma find_block_spec bl bno : forall i,
  (forall x, x ∈ bl -> 0 <= x < 2 ^ 31) ->
  (exists j, bl !! j = Some bno /\ find_block bl bno i = i + Z.of_nat j)
  \/ ((bno ∉ bl) /\ find_block bl bno i = i + Z.of_nat (length bl)).
Proof.
  induction bl as [|x bl IH]; intros i Hr; cbn [find_block length].
  { right. split; [apply not_elem_of_nil|lia]. }
  assert (u32 x = x) as -> by (apply wrapu_small; pose proof (Hr x ltac:(by left)); lia).
  destruct (Z.eqb_spec x bno) as [->|Hne]; [left; exists O; split; [done|lia]|].
  destruct (IH (i + 1)) as [(j & E & ->)|[Hn ->]]; [intros z Hz; apply Hr; by right|left|right].
  - exists (S j). split; [done|lia].
  - split; [|lia]. apply not_elem_of_cons. split; [congruence|done].
Qed.

(** The log of an operation: there is room for one more block. *)
Record oplog (st : Z) (bl : list Z) (l : log) : Prop := {
  ol_log : logst st bl l;
  ol_list : good_list st bl;
  ol_out : 1 <= lg_outstanding l;
  ol_room : Z.of_nat (length bl) < LOGSIZE /\ Z.of_nat (length bl) < lg_size l - 1
}.

Lemma logst_absorb st bl l i x :
  logst st bl l -> bl !! i = Some x ->
  set_lg_lh (set_lh_block (<[Z.to_nat (Z.of_nat i) := x]> (lh_block (lg_lh l))) (lg_lh l)) l = l.
Proof.
  intros Hl E. rewrite Nat2Z.id, list_insert_id; [by destruct l as [? ? ? ? ? []]|].
  pose proof (lookup_lt_Some _ _ _ E) as Hi. rewrite <- (ls_blocks _ _ _ Hl), lookup_take_lt in E by done. done.
Qed.

Lemma logst_append st bl l x :
  logst st bl l -> Z.of_nat (length bl) < LOGSIZE ->
  let l1 := set_lg_lh (set_lh_block (<[Z.to_nat (Z.of_nat (length bl)) := x]> (lh_block (lg_lh l))) (lg_lh l)) l in
  logst st (bl ++ [x]) (set_lh_n_of (Z.of_nat (length bl) + 1) l1).
Proof.
  intros [H1 H2 H3 H4 H5 H6] Hlen. cbv zeta. rewrite Nat2Z.id. split; try done; cbn.
  - rewrite length_app. cbn. lia.
  - by rewrite length_insert.
  - rewrite length_app. cbn. rewrite Nat.add_1_r.
    rewrite (take_S_r _ _ x) by (apply list_lookup_insert_eq; lia). by rewrite take_insert_ge, H6 by lia.
Qed.

Lemma good_append st bl x :
  good_list st bl -> Z.of_nat (length bl) + 1 < LOGSIZE -> 0 <= x < 2 ^ 31 -> ~ in_log st x -> x ∉ bl -> good_list st (bl ++ [x]).
Proof.
  intros [H1 H2 H3 H4] Hl Hx Ho Hn. split.
  - apply NoDup_app. split_and!; [done| |apply NoDup_singleton]. intros z Hz ->%list_elem_of_singleton. done.
  - rewrite length_app. cbn. lia.
  - intros z [Hz| ->%list_elem_of_singleton]%elem_of_app; auto.
  - intros z [Hz| ->%list_elem_of_singleton]%elem_of_app; auto.
Qed.

Lemma quiet_acq y p d l :
  quiet y p d -> free l y -> l <> LBcache -> (forall i, l <> LProc i) -> (forall i, l <> LSleep i) -> quiet (y_acq l y) p d.
Proof.
  intros [H1 H2 H3 H4 H5 H6 H7] Hl N1 N2 N3. split; try done.
  - by apply sync_ok_acq.
  - apply procs_free_acq; [done|]. intros i E. by apply (N2 i).
  - by rewrite curcpu_acq.
  - by apply free_acq.
  - intros i Hi. apply free_acq; [intros E; by apply (N3 (SBuf i))|by apply H6].
Qed.

Section LogWrite.
Context {B : Budget} {D : Disk} {DO : DiskOk D}.
Context (y : sync) (p : nat) (Hll : free LLog y).

Lemma log_write_run st bl L C R k d b bno :
  cst y p d L C R k d -> b ∈ L -> holds d b bno -> oplog st bl (d_log d) -> 0 <= bno < 2 ^ 31 -> R bno + 1 < 2 ^ 32 ->
  exists d', log_write b (KState y d) = Ret tt (KState y d') /\ same_id d d'
    /\ lg_outstanding (d_log d') = lg_outstanding (d_log d) /\ lg_size (d_log d') = lg_size (d_log d)
    /\ logst st (if decide (bno ∈ bl) then bl else bl ++ [bno]) (d_log d')
    /\ cst y p d' L C (if decide (bno ∈ bl) then R else bupd R bno (R bno + 1)) k d'
    /\ d_sb d' = d_sb d /\ d_inodes d' = d_inodes d /\ d_procs d' = d_procs d.
Proof using Hll.
  intros Hs HbL Hh [Hl Hg Hout [Hr1 Hr2]] Hbno Hov. pose proof (cs_quiet _ _ _ _ _ _ _ _ Hs) as Hq.
  pose proof (q_ok _ _ _ Hq) as Hok. set (y' := y_acq LLog y).
  unfold log_write. do 2 kstep. change (id (d_log d)) with (d_log d). cbv zeta. rewrite (ls_n _ _ _ Hl).
  destruct (Z.leb_spec LOGSIZE (Z.of_nat (length bl))); [lia|].
  destruct (Z.leb_spec (lg_size (d_log d) - 1) (Z.of_nat (length bl))); [lia|]. cbn [orb].
  destruct (Z.ltb_spec (lg_outstanding (d_log d)) 1); [lia|].
  rewrite Nat2Z.id, (ls_blocks _ _ _ Hl). kstep. rewrite (holds_blockno d b bno Hh).
  replace (s32 bno) with bno by (symmetry; apply wraps_small; lia).
  destruct (find_block_spec bl bno 0 (gl_range _ _ Hg)) as [(j & E & ->)|[Hn ->]]; cbn [Z.add].
  - pose proof (lookup_lt_Some _ _ _ E) as Hj. rewrite (bind_Ret _ _ _ _ _ (set_block_run y' d (Z.of_nat j) bno ltac:(lia))).
    rewrite (logst_absorb st bl _ j bno Hl E), !decide_True by (by eapply list_elem_of_lookup_2).
    rewrite (proj2 (Z.eqb_neq _ _)) by lia. unfold when. kstep.
    replace (set_d_log (d_log d) d) with d by (by destruct d). exists d. split; [by apply release_acq|]. split_and!; try done.
  - rewrite (bind_Ret _ _ _ _ _ (set_block_run y' d (Z.of_nat (length bl)) bno ltac:(lia))), Z.eqb_refl. unfold when.
    set (l1 := set_lg_lh _ (d_log d)). pose proof (cst_relog y p _ _ _ _ _ _ l1 Hs) as Hs1. set (d1 := set_d_log l1 d) in *.
    assert (cst y' p d1 L C R k d1) as Hs1'.
    { destruct Hs1 as [Hs1q Hs1a Hs1f]. split; [|done|done]. by apply quiet_acq. }
    destruct (c_bpin y' p d1 _ _ _ _ d1 b bno Hs1' HbL Hh Hov) as (d2 & E2 & Hs2 & Hi2).
    rewrite (bind_assoc _ _ _ _ _ _ E2). kstep. rewrite !decide_False by done.
    pose proof (cst_log _ _ _ _ _ _ _ _ Hs2) as El2. set (d3 := set_d_log _ d2).
    exists d3. split_and!; [by apply release_acq|exact Hi2| | | | | | |].
    1, 2: unfold d3; cbn; by rewrite El2.
    + unfold d3. cbn [d_log set_d_log]. rewrite El2. by apply logst_append.
    + apply (cst_relog y' p _ _ _ _ _ _ (set_lh_n_of (Z.of_nat (length bl) + 1) (d_log d2))) in Hs2 as [Hs2q Hs2a Hs2f].
      split; [|exact Hs2a|exact Hs2f]. fold d3 in Hs2q. destruct Hq as [Q1 Q2 Q3 Q4 Q5 Q6 Q7], Hs2q as [P1 P2 P3 P4 P5 P6 P7]. by split.
    + unfold d3. cbn. destruct Hs2 as [_ _ Hf]. unfold frame in Hf. rewrite Hf. done.
    + unfold d3. cbn. destruct Hs2 as [_ _ Hf]. unfold frame in Hf. rewrite Hf. done.
    + unfold d3. cbn. destruct Hs2 as [_ _ Hf]. unfold frame in Hf. rewrite Hf. done.
Qed.
End LogWrite.

(** ** What the log promises *)

(** A transaction that changed the blocks [bl] is ready to be committed: the
    cache holds the changed blocks, the log holds a reference to each of them,
    and the header on the disk is empty. *)
Record txn (st : Z) (bl : list Z) (y : sync) (p : nat) (d : data) : Prop := {
  tx_quiet : quiet y p d;
  tx_cache : bcache d;
  tx_unlocked : forall i, (i < NBUF)%nat -> ~ blocked d i;
  tx_log : logst st bl (d_log d);
  tx_list : good_list st bl;
  tx_pinned : forall x, x ∈ bl -> 0 < refs d x;
  tx_few : few (refs d);
  tx_room : room (refs d);
  tx_head : length (content d st) = Z.to_nat BSIZE;
  tx_size : length (disk_of d st) = Z.to_nat BSIZE;
  tx_empty : head_n (disk_of d st) = 0
}.

(** A machine that has just started, with an empty cache. *)
Record booted (st : Z) (y : sync) (p : nat) (d : data) : Prop := {
  bt_quiet : quiet y p d;
  bt_cache : bcache d;
  bt_refs : forall i, (i < NBUF)%nat -> refcnt d i = 0;
  bt_dev : lg_dev (d_log d) = ROOTDEV;
  bt_start : lg_start (d_log d) = st;
  bt_max : length (lh_block (lg_lh (d_log d))) = Z.to_nat LOGSIZE;
  bt_range : 0 <= st /\ st + LOGSIZE < 2 ^ 31
}.

Section Log.
Context {B : Budget} {D : Disk} {DO : DiskOk D}.
Context (Hr : (0 < rounds)%nat).


End Log.

(** ** Witnesses *)

#[local] Instance one_round : Budget := 1%nat.
#[local] Existing Instance sync_disk.
#[local] Existing Instance sync_disk_ok.

(** A transaction that has changed block 50; the log starts at block 2. *)
Definition txn_log : log := Log 2 30 0 0 ROOTDEV (Logheader 1 (50 :: replicate 29 0)).
Definition txn_data : data := set_d_log txn_log fs_data.

Lemma txn_ready : txn 2 [50] fs_sync 3 txn_data.
Proof.
  assert (cst fs_sync 3 fs_data [] (content fs_data) (refs fs_data) (d_disk fs_data) fs_data) as Hs.
  { split; [apply fs_quiet|apply abs_unlocked; [apply fs_data_bcache|intros i _; apply fs_unlocked]|apply frame_refl]. }
  assert (forall x, refs fs_data x = if decide (x = 50) then 1 else 0) as Hrefs.
  { intros x. unfold refs. case_decide as E; [subst; by vm_compute|].
    destruct (find_buf fs_data x) as [i|] eqn:Ef; [|done]. apply find_buf_Some in Ef as [Hi Hh]; [|apply fs_data_bcache].
    destruct i as [|i].
    - unfold hit in Hh. apply andb_true_iff in Hh as [_ Hh%Z.eqb_eq]. destruct E. rewrite <- Hh. by vm_compute.
    - apply (fs_others _ i Hi). }
  apply (cst_relog _ _ _ _ _ _ _ _ txn_log) in Hs. destruct Hs as [Hq Ha _].
  split.
  - exact Hq.
  - apply Ha.
  - intros i _ H. by apply H.
  - split; by vm_compute.
  - split; [by apply NoDup_singleton|by vm_compute|intros x ->%list_elem_of_singleton; lia|].
    intros x ->%list_elem_of_singleton. unfold in_log, LOGSIZE, MAXOPBLOCKS. lia.
  - intros x ->%list_elem_of_singleton. by vm_compute.
  - intros x. change (refs txn_data x) with (refs fs_data x). rewrite Hrefs. case_decide; lia.
  - exists [50]. split; [|cbn; unfold NBUF, MAXOPBLOCKS; lia]. intros x.
    change (refs txn_data x) with (refs fs_data x). rewrite Hrefs. case_decide; [subst; intros _; by left|lia].
  - by vm_compute.
  - by vm_compute.
  - by vm_compute.
Qed.

(** A machine started with a disk [k]. *)
Definition boot_data (k : disk) : data := set_d_disk k (set_d_log txn_log (fs_with zero_buf)).

Lemma boot_booted k : booted 2 fs_sync 3 (boot_data k).
Proof.
  split; [..|by vm_compute|by vm_compute|by vm_compute|by vm_compute].
  - eapply quiet_frame; [apply frame_disk|]. destruct (fs_quiet zero_buf) as [? ? ? ? ? ? ?]. split; assumption.
  - destruct (fs_bcache zero_buf) as [? ? ? ? ? ? ? Hcl]; [left; by vm_compute|]. split; try assumption.
    intros i Hi _ Hv. exfalso. destruct i as [|i]; [by vm_compute in Hv|].
    destruct (fs_others zero_buf i Hi) as (_ & E & _). change (b_valid (buf_of (fs_with zero_buf) (S i)) = 1) in Hv. lia.
  - intros [|i] Hi; [by vm_compute|]. apply (fs_others zero_buf i Hi).
Qed.


(** A disk with a committed transaction: block 3 is the copy of block 50. *)
Definition crashed : disk :=
  disk_write 3 (replicate (Z.to_nat BSIZE) 9) (disk_write 2 (head_bytes [50] (replicate (Z.to_nat BSIZE) 0)) (d_disk zero_data)).

