(* ===== verification/Virtio.v ===== *)
(** * kernel/virtio_disk.c: the driver of the virtio disk

    The descriptor table and the two rings are fields of [d_vdisk]; the device's
    registers behave as memory.  What the device does (it takes descriptor
    chains from the available ring and puts finished ones into the used ring)
    is the environment's: it happens while the process sleeps. *)

From S2P Require Import Prelude Mem KString Riscv State Spinlock Kalloc Vm Proc Sleeplock Bio.

(** ** virtio.h *)

(** The registers and their offsets. *)
Inductive vreg : Type :=
  | VIRTIO_MMIO_MAGIC_VALUE | VIRTIO_MMIO_VERSION | VIRTIO_MMIO_DEVICE_ID
  | VIRTIO_MMIO_VENDOR_ID | VIRTIO_MMIO_DEVICE_FEATURES | VIRTIO_MMIO_DRIVER_FEATURES
  | VIRTIO_MMIO_QUEUE_SEL | VIRTIO_MMIO_QUEUE_NUM_MAX | VIRTIO_MMIO_QUEUE_NUM
  | VIRTIO_MMIO_QUEUE_READY | VIRTIO_MMIO_QUEUE_NOTIFY | VIRTIO_MMIO_INTERRUPT_STATUS
  | VIRTIO_MMIO_INTERRUPT_ACK | VIRTIO_MMIO_STATUS | VIRTIO_MMIO_QUEUE_DESC_LOW
  | VIRTIO_MMIO_QUEUE_DESC_HIGH | VIRTIO_MMIO_DRIVER_DESC_LOW | VIRTIO_MMIO_DRIVER_DESC_HIGH
  | VIRTIO_MMIO_DEVICE_DESC_LOW | VIRTIO_MMIO_DEVICE_DESC_HIGH.
Definition vreg_offset (r : vreg) : Z :=
  match r with
  | VIRTIO_MMIO_MAGIC_VALUE => 0x000
  | VIRTIO_MMIO_VERSION => 0x004
  | VIRTIO_MMIO_DEVICE_ID => 0x008
  | VIRTIO_MMIO_VENDOR_ID => 0x00c
  | VIRTIO_MMIO_DEVICE_FEATURES => 0x010
  | VIRTIO_MMIO_DRIVER_FEATURES => 0x020
  | VIRTIO_MMIO_QUEUE_SEL => 0x030
  | VIRTIO_MMIO_QUEUE_NUM_MAX => 0x034
  | VIRTIO_MMIO_QUEUE_NUM => 0x038
  | VIRTIO_MMIO_QUEUE_READY => 0x044
  | VIRTIO_MMIO_QUEUE_NOTIFY => 0x050
  | VIRTIO_MMIO_INTERRUPT_STATUS => 0x060
  | VIRTIO_MMIO_INTERRUPT_ACK => 0x064
  | VIRTIO_MMIO_STATUS => 0x070
  | VIRTIO_MMIO_QUEUE_DESC_LOW => 0x080
  | VIRTIO_MMIO_QUEUE_DESC_HIGH => 0x084
  | VIRTIO_MMIO_DRIVER_DESC_LOW => 0x090
  | VIRTIO_MMIO_DRIVER_DESC_HIGH => 0x094
  | VIRTIO_MMIO_DEVICE_DESC_LOW => 0x0a0
  | VIRTIO_MMIO_DEVICE_DESC_HIGH => 0x0a4
  end.
Coercion vreg_offset : vreg >-> Z.

(** The bits of the status register. *)
Inductive vstatus : Type :=
  | VIRTIO_CONFIG_S_ACKNOWLEDGE | VIRTIO_CONFIG_S_DRIVER | VIRTIO_CONFIG_S_DRIVER_OK
  | VIRTIO_CONFIG_S_FEATURES_OK.
Definition vstatus_bit (r : vstatus) : Z :=
  match r with
  | VIRTIO_CONFIG_S_ACKNOWLEDGE => 1
  | VIRTIO_CONFIG_S_DRIVER => 2
  | VIRTIO_CONFIG_S_DRIVER_OK => 4
  | VIRTIO_CONFIG_S_FEATURES_OK => 8
  end.
Coercion vstatus_bit : vstatus >-> Z.

(** The numbers of the feature bits. *)
Inductive vfeature : Type :=
  | VIRTIO_BLK_F_RO | VIRTIO_BLK_F_SCSI | VIRTIO_BLK_F_CONFIG_WCE
  | VIRTIO_BLK_F_MQ | VIRTIO_F_ANY_LAYOUT | VIRTIO_RING_F_INDIRECT_DESC
  | VIRTIO_RING_F_EVENT_IDX.
Definition vfeature_bit (r : vfeature) : Z :=
  match r with
  | VIRTIO_BLK_F_RO => 5
  | VIRTIO_BLK_F_SCSI => 7
  | VIRTIO_BLK_F_CONFIG_WCE => 11
  | VIRTIO_BLK_F_MQ => 12
  | VIRTIO_F_ANY_LAYOUT => 27
  | VIRTIO_RING_F_INDIRECT_DESC => 28
  | VIRTIO_RING_F_EVENT_IDX => 29
  end.
Coercion vfeature_bit : vfeature >-> Z.

Definition NUM : Z := 8.
Definition VRING_DESC_F_NEXT : Z := 1.
Definition VRING_DESC_F_WRITE : Z := 2.
Definition VIRTIO_BLK_T_IN : Z := 0.
Definition VIRTIO_BLK_T_OUT : Z := 1.

Section Virtio.
Context {I : Image} {B : Budget}.

(** [*R(r)] and [*R(r) = v] *)
Definition getR (r : Z) : K Z := getd (fun d => load32 (d_mem d) (VIRTIO0 + r)).
Definition setR (r v : Z) : K unit :=
  modd (fun d => set_d_mem (store32 (d_mem d) (VIRTIO0 + r) (u32 v)) d).

Definition getv {A} (f : vdisk -> A) : K A := getd (fun d => f (d_vdisk d)).
Definition modv (f : vdisk -> vdisk) : K unit := modd (fun d => set_d_vdisk (f (d_vdisk d)) d).

(** The feature bits the driver turns down, in the order of the code. *)
Definition clear_features (features : Z) : Z :=
  foldl (fun f (bit : vfeature) => Z.land f (Z.lnot (Z.shiftl 1 bit))) features
    [VIRTIO_BLK_F_RO; VIRTIO_BLK_F_SCSI; VIRTIO_BLK_F_CONFIG_WCE; VIRTIO_BLK_F_MQ;
     VIRTIO_F_ANY_LAYOUT; VIRTIO_RING_F_EVENT_IDX; VIRTIO_RING_F_INDIRECT_DESC].

(** From the allocation of the queue on. *)
Definition virtio_queue_init (status : Z) : K unit :=
  desc ← kalloc;
  avail ← kalloc;
  used ← kalloc;
  if negb (nz desc) || negb (nz avail) || negb (nz used) then panic "virtio disk kalloc"
  else
    kmemset desc 0 PGSIZE;;
    kmemset avail 0 PGSIZE;;
    kmemset used 0 PGSIZE;;
    modv (set_v_desc (replicate 8 inhabitant));;
    modv (fun v => set_v_avail_idx 0 (set_v_avail_ring (replicate 8 0) v));;
    modv (fun v => set_v_dev_idx 0 (set_v_used_ring (replicate 8 0) v));;
    setR VIRTIO_MMIO_QUEUE_NUM NUM;;
    setR VIRTIO_MMIO_QUEUE_DESC_LOW desc;;
    setR VIRTIO_MMIO_QUEUE_DESC_HIGH (Z.shiftr desc 32);;
    setR VIRTIO_MMIO_DRIVER_DESC_LOW avail;;
    setR VIRTIO_MMIO_DRIVER_DESC_HIGH (Z.shiftr avail 32);;
    setR VIRTIO_MMIO_DEVICE_DESC_LOW used;;
    setR VIRTIO_MMIO_DEVICE_DESC_HIGH (Z.shiftr used 32);;
    setR VIRTIO_MMIO_QUEUE_READY 0x1;;
    for_each (seqZ 0 NUM) (fun i => modv (fun v => set_v_free (<[Z.to_nat i := 1]> (v_free v)) v));;
    setR VIRTIO_MMIO_STATUS (Z.lor status VIRTIO_CONFIG_S_DRIVER_OK).

Definition virtio_disk_init : K unit :=
  initlock LVdisk "virtio_disk";;
  magic ← getR VIRTIO_MMIO_MAGIC_VALUE;
  version ← getR VIRTIO_MMIO_VERSION;
  device ← getR VIRTIO_MMIO_DEVICE_ID;
  vendor ← getR VIRTIO_MMIO_VENDOR_ID;
  if negb (magic =? 0x74726976) || negb (version =? 2) || negb (device =? 2)
     || negb (vendor =? 0x554d4551)
  then panic "could not find virtio disk"
  else
    let status := 0 in
    setR VIRTIO_MMIO_STATUS status;;
    let status := Z.lor status VIRTIO_CONFIG_S_ACKNOWLEDGE in
    setR VIRTIO_MMIO_STATUS status;;
    let status := Z.lor status VIRTIO_CONFIG_S_DRIVER in
    setR VIRTIO_MMIO_STATUS status;;
    features ← getR VIRTIO_MMIO_DEVICE_FEATURES;
    setR VIRTIO_MMIO_DRIVER_FEATURES (clear_features features);;
    let status := Z.lor status VIRTIO_CONFIG_S_FEATURES_OK in
    setR VIRTIO_MMIO_STATUS status;;
    status ← getR VIRTIO_MMIO_STATUS;
    if Z.land status VIRTIO_CONFIG_S_FEATURES_OK =? 0
    then panic "virtio disk FEATURES_OK unset"
    else
      setR VIRTIO_MMIO_QUEUE_SEL 0;;
      ready ← getR VIRTIO_MMIO_QUEUE_READY;
      if nz ready then panic "virtio disk should not be ready"
      else
        max ← getR VIRTIO_MMIO_QUEUE_NUM_MAX;
        if max =? 0 then panic "virtio disk has no queue 0"
        else if max <? NUM then panic "virtio disk max queue too short"
        else virtio_queue_init status.

(** [for(int i = 0; i < NUM; i++) if(disk.free[i]) ...]: the first free
    descriptor of [fr], the flags from number [i] on. *)
Fixpoint first_free (fr : list Z) (i : Z) : option Z :=
  match fr with
  | [] => None
  | f :: fr' => if nz f then Some i else first_free fr' (i + 1)
  end.

Definition alloc_desc : K Z :=
  fr ← getv v_free;
  match first_free fr 0 with
  | Some i => modv (fun v => set_v_free (<[Z.to_nat i := 0]> (v_free v)) v);; mret i
  | None => mret (-1)
  end.

Definition free_desc (i : Z) : K unit :=
  if NUM <=? i then panic "free_desc 1"
  else
    f ← getv (fun v => v_free v !!! Z.to_nat i);
    if nz f then panic "free_desc 2"
    else
      modv (fun v => set_v_desc (<[Z.to_nat i := Vdesc VNull 0 0 0]> (v_desc v)) v);;
      modv (fun v => set_v_free (<[Z.to_nat i := 1]> (v_free v)) v);;
      wakeup CDiskFree.

(** Each round frees one more descriptor, and freeing one twice panics. *)
Fixpoint free_chain_loop (fuel : nat) (i : Z) : K unit :=
  match fuel with
  | O => nofuel
  | S fuel' =>
      d ← getv (fun v => v_desc v !!! Z.to_nat i);
      free_desc i;;
      if nz (Z.land (vd_flags d) VRING_DESC_F_NEXT) then free_chain_loop fuel' (vd_next d)
      else mret tt
  end.
Definition free_chain (i : Z) : K unit := free_chain_loop (S (Z.to_nat NUM)) i.

(** [None] is the return value -1, and [Some idx] is 0 with the array filled. *)
Fixpoint alloc3_desc_loop (n : nat) (idx : list Z) : K (option (list Z)) :=
  match n with
  | O => mret (Some idx)
  | S n' =>
      i ← alloc_desc;
      if i <? 0 then for_each idx free_desc;; mret None
      else alloc3_desc_loop n' (idx ++ [i])
  end.
Definition alloc3_desc : K (option (list Z)) := alloc3_desc_loop 3 [].

(** The [while(1)] loop that allocates the descriptors. *)
Fixpoint alloc3_wait (fuel : nat) : K (list Z) :=
  match fuel with
  | O => nofuel
  | S fuel' =>
      r ← alloc3_desc;
      match r with
      | Some idx => mret idx
      | None => sleep CDiskFree LVdisk;; alloc3_wait fuel'
      end
  end.

(** [while(b->disk == 1) sleep(b, &disk.vdisk_lock);] *)
Fixpoint disk_wait (fuel : nat) (b : nat) : K unit :=
  match fuel with
  | O => nofuel
  | S fuel' =>
      busy ← getb b b_disk;
      if busy =? 1 then sleep (CBuf b) LVdisk;; disk_wait fuel' b
      else mret tt
  end.

(** The three descriptors of a request, the status byte and the bookkeeping. *)
Definition format_request (b : nat) (write sector : Z) (i0 i1 i2 : Z) : K unit :=
  modv (fun v => set_v_ops (<[Z.to_nat i0 :=
    Vreq (if nz write then VIRTIO_BLK_T_OUT else VIRTIO_BLK_T_IN) 0 sector]> (v_ops v)) v);;
  modv (fun v => set_v_desc (<[Z.to_nat i0 := Vdesc (VOps i0) 16 VRING_DESC_F_NEXT i1]> (v_desc v)) v);;
  modv (fun v => set_v_desc (<[Z.to_nat i1 := Vdesc (VData b) BSIZE
    (Z.lor (if nz write then 0 else VRING_DESC_F_WRITE) VRING_DESC_F_NEXT) i2]> (v_desc v)) v);;
  modv (fun v => set_v_info_status (<[Z.to_nat i0 := 0xff]> (v_info_status v)) v);;
  modv (fun v => set_v_desc (<[Z.to_nat i2 := Vdesc (VStatus i0) 1 VRING_DESC_F_WRITE 0]> (v_desc v)) v);;
  modb b (set_b_disk 1);;
  modv (fun v => set_v_info_b (<[Z.to_nat i0 := Some b]> (v_info_b v)) v).

Definition virtio_disk_rw (b : nat) (write : Z) : K unit :=
  blockno ← getb b b_blockno;
  let sector := u32 (blockno * (BSIZE / 512)) in
  acquire LVdisk;;
  idx ← alloc3_wait rounds;
  let i0 := idx !!! 0%nat in
  format_request b write sector i0 (idx !!! 1%nat) (idx !!! 2%nat);;
  modv (fun v => set_v_avail_ring (<[Z.to_nat (v_avail_idx v mod NUM) := i0]> (v_avail_ring v)) v);;
  modv (fun v => set_v_avail_idx (u16 (v_avail_idx v + 1)) v);;
  setR VIRTIO_MMIO_QUEUE_NOTIFY 0;;
  disk_wait rounds b;;
  modv (fun v => set_v_info_b (<[Z.to_nat i0 := None]> (v_info_b v)) v);;
  free_chain i0;;
  release LVdisk.

(** [while(disk.used_idx != disk.used->idx)] *)
Fixpoint disk_intr_loop (fuel : nat) : K unit :=
  match fuel with
  | O => nofuel
  | S fuel' =>
      used ← getv v_used_idx;
      dev ← getv v_dev_idx;
      if used =? dev then mret tt
      else
        id ← getv (fun v => v_used_ring v !!! Z.to_nat (used mod NUM));
        if NUM <=? id then undef
        else
          status ← getv (fun v => v_info_status v !!! Z.to_nat id);
          if nz status then panic "virtio_disk_intr status"
          else
            bp ← getv (fun v => v_info_b v !!! Z.to_nat id);
            b ← deref bp;
            modb b (set_b_disk 0);;
            wakeup (CBuf b);;
            modv (fun v => set_v_used_idx (u16 (v_used_idx v + 1)) v);;
            disk_intr_loop fuel'
  end.

Definition virtio_disk_intr : K unit :=
  acquire LVdisk;;
  st ← getR VIRTIO_MMIO_INTERRUPT_STATUS;
  setR VIRTIO_MMIO_INTERRUPT_ACK (Z.land st 0x3);;
  n ← getv (fun v => u16 (v_dev_idx v - v_used_idx v));
  disk_intr_loop (S (Z.to_nat n));;
  release LVdisk.

#[export] Instance virtio_disk : Disk := virtio_disk_rw.
End Virtio.
