(* ===== verification/Fs.v ===== *)
(** * kernel/fs.c: the file system

    Blocks, inodes, directories and paths.  An in-memory inode is its index in
    [itable.inode]; a disk inode and a directory entry are bytes of a block. *)

From S2P Require Import Prelude Mem KString Riscv State Spinlock Kalloc Vm Proc Uart Printf Sleeplock Bio Log.

Definition IBLOCK (i : Z) (sb : superblock) : Z := u32 (i / IPB + sb_inodestart sb).
Definition BBLOCK (b : Z) (sb : superblock) : Z := u32 (b / BPB + sb_bmapstart sb).

(** Offsets in [struct dinode] and [struct dirent]. *)
Definition DI_type : Z := 0.
Definition DI_major : Z := 2.
Definition DI_minor : Z := 4.
Definition DI_nlink : Z := 6.
Definition DI_size : Z := 8.
Definition DI_addrs : Z := 12.
Definition DE_SIZE : Z := 16.

Definition line (s : string) : string := (s +:+ newline)%string.

(** The superblock as it is on the disk. *)
Definition superblock_of (bs : list Z) : superblock :=
  Superblock (get32 bs 0) (get32 bs 4) (get32 bs 8) (get32 bs 12) (get32 bs 16) (get32 bs 20)
    (get32 bs 24) (get32 bs 28).

(** [struct stat]; the four bytes between [nlink] and [size] are padding. *)
Record stat : Type := Stat { st_dev : Z; st_ino : Z; st_type : Z; st_nlink : Z; st_size : Z }.
Definition stat_bytes (st : stat) : list Z :=
  le_bytes 4 (st_dev st) ++ le_bytes 4 (st_ino st) ++ le_bytes 2 (st_type st)
  ++ le_bytes 2 (st_nlink st) ++ le_bytes 4 0 ++ le_bytes 8 (st_size st).

Section Fs.
Context {I : Image} {B : Budget} {D : Disk}.

Definition getsb {A} (f : superblock -> A) : K A := getd (fun d => f (d_sb d)).
Definition inode_of (d : data) (ip : nat) : inode := d_inodes d !!! ip.
Definition upd_inode (ip : nat) (f : inode -> inode) (d : data) : data :=
  set_d_inodes (alter f ip (d_inodes d)) d.
Definition geti {A} (ip : nat) (f : inode -> A) : K A := getd (fun d => f (inode_of d ip)).
Definition modi (ip : nat) (f : inode -> inode) : K unit := modd (upd_inode ip f).

(** ** Blocks *)

Definition readsb (dev : Z) : K unit :=
  bp ← bread dev 1;
  bs ← getb bp b_data;
  modd (set_d_sb (superblock_of bs));;
  brelse bp.

Definition fsinit (dev : Z) : K unit :=
  readsb dev;;
  sb ← getsb id;
  if negb (sb_magic sb =? FSMAGIC) then panic "invalid file system"
  else initlog dev sb.

Definition bzero (dev bno : Z) : K unit :=
  bp ← bread dev (u32 bno);
  modb bp (set_b_data (replicate (Z.to_nat BSIZE) 0));;
  log_write bp;;
  brelse bp.

(** [for(bi = 0; bi < BPB && b + bi < sb.size; bi++)]: the first clear bit, from
    bit [bi] on; [n] bits are left in the block. *)
Fixpoint find_clear (n : nat) (data : list Z) (b bi size : Z) : option Z :=
  match n with
  | O => None
  | S n' =>
      if b + bi <? size then
        let m := Z.shiftl 1 (bi mod 8) in
        if Z.land (data !!! Z.to_nat (bi / 8)) m =? 0 then Some bi
        else find_clear n' data b (bi + 1) size
      else None
  end.

(** [for(b = 0; b < sb.size; b += BPB)] *)
Fixpoint balloc_loop (fuel : nat) (dev b : Z) : K Z :=
  match fuel with
  | O => nofuel
  | S fuel' =>
      sb ← getsb id;
      if b <? sb_size sb then
        bp ← bread dev (BBLOCK b sb);
        bytes ← getb bp b_data;
        match find_clear (Z.to_nat BPB) bytes b 0 (sb_size sb) with
        | Some bi =>
            let m := Z.shiftl 1 (bi mod 8) in
            modb bp (fun r => set_b_data (<[Z.to_nat (bi / 8) := Z.lor (b_data r !!! Z.to_nat (bi / 8)) m]> (b_data r)) r);;
            log_write bp;;
            brelse bp;;
            bzero dev (b + bi);;
            mret (b + bi)
        | None =>
            brelse bp;;
            balloc_loop fuel' dev (b + BPB)
        end
      else
        printf (line "balloc: out of blocks") [];;
        mret 0
  end.

Definition balloc (dev : Z) : K Z :=
  size ← getsb sb_size;
  balloc_loop (S (S (Z.to_nat (size / BPB)))) dev 0.

Definition bfree (dev b : Z) : K unit :=
  sb ← getsb id;
  bp ← bread dev (BBLOCK b sb);
  let bi := b mod BPB in
  let m := Z.shiftl 1 (bi mod 8) in
  byte ← getb bp (fun r => b_data r !!! Z.to_nat (bi / 8));
  if Z.land byte m =? 0 then panic "freeing free block"
  else
    modb bp (fun r => set_b_data (<[Z.to_nat (bi / 8) := Z.land (b_data r !!! Z.to_nat (bi / 8)) (Z.lnot m)]> (b_data r)) r);;
    log_write bp;;
    brelse bp.

(** ** Inodes *)

Definition iinit : K unit :=
  initlock LItable "itable";;
  for_each (seq 0 NINODE) (fun i => initsleeplock (SInode i) "inode").

(** The loop of iget(): the entry of the inode, or else the first free one. *)
Fixpoint iget_scan (ips : list nat) (dev inum : Z) (empty : option nat) : K (nat + option nat) :=
  match ips with
  | [] => mret (inr empty)
  | ip :: ips' =>
      i ← geti ip id;
      if (0 <? i_ref i) && (i_dev i =? dev) && (i_inum i =? inum) then mret (inl ip)
      else
        iget_scan ips' dev inum
          (match empty with
           | None => if i_ref i =? 0 then Some ip else None
           | Some _ => empty
           end)
  end.

Definition iget (dev inum : Z) : K nat :=
  acquire LItable;;
  r ← iget_scan (seq 0 NINODE) dev inum None;
  match r with
  | inl ip =>
      modi ip (fun i => set_i_ref (i_ref i + 1) i);;
      release LItable;;
      mret ip
  | inr None => panic "iget: no inodes"
  | inr (Some ip) =>
      modi ip (set_i_dev dev);;
      modi ip (set_i_inum inum);;
      modi ip (set_i_ref 1);;
      modi ip (set_i_valid 0);;
      release LItable;;
      mret ip
  end.

(** The offset in its block of the disk inode [inum]. *)
Definition dinode_at (inum : Z) : Z := DINODE_SIZE * (inum mod IPB).

Fixpoint ialloc_loop (fuel : nat) (dev type inum : Z) : K (option nat) :=
  match fuel with
  | O => nofuel
  | S fuel' =>
      sb ← getsb id;
      if inum <? sb_ninodes sb then
        bp ← bread dev (IBLOCK inum sb);
        let dip := dinode_at inum in
        t ← getb bp (fun r => s16 (get16 (b_data r) (dip + DI_type)));
        if t =? 0 then
          modb bp (fun r => set_b_data (put_bytes (b_data r) dip (replicate (Z.to_nat DINODE_SIZE) 0)) r);;
          modb bp (fun r => set_b_data (put16 (b_data r) (dip + DI_type) type) r);;
          log_write bp;;
          brelse bp;;
          ip ← iget dev inum;
          mret (Some ip)
        else
          brelse bp;;
          ialloc_loop fuel' dev type (inum + 1)
      else
        printf (line "ialloc: no inodes") [];;
        mret None
  end.

Definition ialloc (dev type : Z) : K (option nat) :=
  n ← getsb sb_ninodes;
  ialloc_loop (S (Z.to_nat n)) dev type 1.

Definition iupdate (ip : nat) : K unit :=
  sb ← getsb id;
  dev ← geti ip i_dev;
  inum ← geti ip i_inum;
  bp ← bread dev (IBLOCK inum sb);
  let dip := dinode_at inum in
  i ← geti ip id;
  modb bp (fun r => set_b_data (put16 (b_data r) (dip + DI_type) (i_type i)) r);;
  modb bp (fun r => set_b_data (put16 (b_data r) (dip + DI_major) (i_major i)) r);;
  modb bp (fun r => set_b_data (put16 (b_data r) (dip + DI_minor) (i_minor i)) r);;
  modb bp (fun r => set_b_data (put16 (b_data r) (dip + DI_nlink) (i_nlink i)) r);;
  modb bp (fun r => set_b_data (put32 (b_data r) (dip + DI_size) (i_size i)) r);;
  modb bp (fun r => set_b_data (put_bytes (b_data r) (dip + DI_addrs) (concat (map (le_bytes 4) (i_addrs i)))) r);;
  log_write bp;;
  brelse bp.

Definition idup (ip : nat) : K nat :=
  acquire LItable;;
  modi ip (fun i => set_i_ref (i_ref i + 1) i);;
  release LItable;;
  mret ip.

(** The fields of the disk inode at [dip] that ilock() copies. *)
Definition load_dinode (bs : list Z) (dip : Z) (i : inode) : inode :=
  set_i_type (s16 (get16 bs (dip + DI_type)))
    (set_i_major (s16 (get16 bs (dip + DI_major)))
      (set_i_minor (s16 (get16 bs (dip + DI_minor)))
        (set_i_nlink (s16 (get16 bs (dip + DI_nlink)))
          (set_i_size (get32 bs (dip + DI_size))
            (set_i_addrs (map (fun k => get32 bs (dip + DI_addrs + 4 * k)) (seqZ 0 (NDIRECT + 1))) i))))).

Definition ilock (p : option nat) : K unit :=
  match p with
  | None => panic "ilock"
  | Some ip =>
      ref ← geti ip i_ref;
      if ref <? 1 then panic "ilock"
      else
        acquiresleep (SInode ip);;
        valid ← geti ip i_valid;
        when (valid =? 0)
          (sb ← getsb id;
           dev ← geti ip i_dev;
           inum ← geti ip i_inum;
           bp ← bread dev (IBLOCK inum sb);
           bs ← getb bp b_data;
           modi ip (load_dinode bs (dinode_at inum));;
           brelse bp;;
           modi ip (set_i_valid 1);;
           type ← geti ip i_type;
           when (type =? 0) (panic "ilock: no type"))
  end.

Definition iunlock (p : option nat) : K unit :=
  match p with
  | None => panic "iunlock"
  | Some ip =>
      h ← holdingsleep (SInode ip);
      if h =? 0 then panic "iunlock"
      else
        ref ← geti ip i_ref;
        if ref <? 1 then panic "iunlock" else releasesleep (SInode ip)
  end.

(** ** Inode content *)

Definition get_addr (ip : nat) (k : Z) : K Z := geti ip (fun i => i_addrs i !!! Z.to_nat k).
Definition set_addr (ip : nat) (k v : Z) : K unit :=
  modi ip (fun i => set_i_addrs (<[Z.to_nat k := v]> (i_addrs i)) i).

(** The block number in [addrs[k]], allocated if there is none. *)
Definition bmap_slot (ip : nat) (k : Z) : K Z :=
  addr ← get_addr ip k;
  if addr =? 0 then
    dev ← geti ip i_dev;
    addr ← balloc dev;
    if addr =? 0 then mret 0
    else set_addr ip k addr;; mret addr
  else mret addr.

Definition bmap (ip : nat) (bn : Z) : K Z :=
  if bn <? NDIRECT then bmap_slot ip bn
  else
    let bn := bn - NDIRECT in
    if bn <? NINDIRECT then
      addr ← bmap_slot ip NDIRECT;
      if addr =? 0 then mret 0
      else
        dev ← geti ip i_dev;
        bp ← bread dev addr;
        addr ← getb bp (fun r => get32 (b_data r) (4 * bn));
        addr ← (if addr =? 0 then
                  addr ← balloc dev;
                  when (nz addr)
                    (modb bp (fun r => set_b_data (put32 (b_data r) (4 * bn) addr) r);;
                     log_write bp);;
                  mret addr
                else mret addr);
        brelse bp;;
        mret addr
    else panic "bmap: out of range".

Definition itrunc (ip : nat) : K unit :=
  dev ← geti ip i_dev;
  for_each (seqZ 0 NDIRECT) (fun i =>
    addr ← get_addr ip i;
    when (nz addr) (bfree dev addr;; set_addr ip i 0));;
  ind ← get_addr ip NDIRECT;
  when (nz ind)
    (bp ← bread dev ind;
     for_each (seqZ 0 NINDIRECT) (fun j =>
       a ← getb bp (fun r => get32 (b_data r) (4 * j));
       when (nz a) (bfree dev a));;
     brelse bp;;
     addr ← get_addr ip NDIRECT;
     bfree dev addr;;
     set_addr ip NDIRECT 0);;
  modi ip (set_i_size 0);;
  iupdate ip.

Definition iput (ip : nat) : K unit :=
  acquire LItable;;
  i ← geti ip id;
  when ((i_ref i =? 1) && nz (i_valid i) && (i_nlink i =? 0))
    (acquiresleep (SInode ip);;
     release LItable;;
     itrunc ip;;
     modi ip (set_i_type 0);;
     iupdate ip;;
     modi ip (set_i_valid 0);;
     releasesleep (SInode ip);;
     acquire LItable);;
  modi ip (fun i => set_i_ref (i_ref i - 1) i);;
  release LItable.

Definition iunlockput (ip : nat) : K unit :=
  iunlock (Some ip);;
  iput ip.

Definition stati (ip : nat) : K stat :=
  geti ip (fun i => Stat (i_dev i) (i_inum i) (i_type i) (i_nlink i) (i_size i)).

(** [dst += m] and [src += m] *)
Definition dest_add (dst : dest) (m : Z) : dest :=
  match dst with ToUser va => ToUser (u64 (va + m)) | ToMem pa => ToMem (u64 (pa + m)) | ToLocal => ToLocal end.
Definition source_add (src : source) (m : Z) : source :=
  match src with
  | FromUser va => FromUser (u64 (va + m))
  | FromMem pa => FromMem (u64 (pa + m))
  | FromLocal bs => FromLocal (drop (Z.to_nat m) bs)
  end.

(** The loop of readi(); a local destination has received [acc].  Every round
    but the first and the last reads a whole block. *)
Fixpoint readi_loop (fuel : nat) (ip : nat) (dst : dest) (off n tot : Z) (acc : list Z) : K (Z * list Z) :=
  match fuel with
  | O => nofuel
  | S fuel' =>
      if tot <? n then
        addr ← bmap ip (off / BSIZE);
        if addr =? 0 then mret (tot, acc)
        else
          dev ← geti ip i_dev;
          bp ← bread dev addr;
          let m := Z.min (n - tot) (BSIZE - off mod BSIZE) in
          bytes ← getb bp (fun r => take (Z.to_nat m) (drop (Z.to_nat (off mod BSIZE)) (b_data r)));
          '(r, got) ← either_copyout dst bytes;
          brelse bp;;
          if r =? -1 then mret (-1, acc)
          else readi_loop fuel' ip (dest_add dst m) (u32 (off + m)) n (tot + m) (acc ++ got)
      else mret (tot, acc)
  end.

Definition readi (ip : nat) (dst : dest) (off n : Z) : K (Z * list Z) :=
  size ← geti ip i_size;
  if (size <? off) || (u32 (off + n) <? off) then mret (0, [])
  else
    let n := if size <? u32 (off + n) then size - off else n in
    '(tot, acc) ← readi_loop (Z.to_nat (n / BSIZE) + 3) ip dst off n 0 [];
    mret (s32 tot, acc).

(** The loop of writei(), with the last [tot] and [off].  What either_copyin()
    has stored in the buffer stays there when it fails. *)
Fixpoint writei_loop (fuel : nat) (ip : nat) (src : source) (off n tot : Z) : K (Z * Z) :=
  match fuel with
  | O => nofuel
  | S fuel' =>
      if tot <? n then
        addr ← bmap ip (off / BSIZE);
        if addr =? 0 then mret (tot, off)
        else
          dev ← geti ip i_dev;
          bp ← bread dev addr;
          let m := Z.min (n - tot) (BSIZE - off mod BSIZE) in
          '(r, bytes) ← either_copyin src m;
          modb bp (fun b => set_b_data (put_bytes (b_data b) (off mod BSIZE) bytes) b);;
          if r =? -1 then brelse bp;; mret (tot, off)
          else
            log_write bp;;
            brelse bp;;
            writei_loop fuel' ip (source_add src m) (u32 (off + m)) n (tot + m)
      else mret (tot, off)
  end.

Definition writei (ip : nat) (src : source) (off n : Z) : K Z :=
  size ← geti ip i_size;
  if (size <? off) || (u32 (off + n) <? off) then mret (-1)
  else if MAXFILE * BSIZE <? u32 (off + n) then mret (-1)
  else
    '(tot, off) ← writei_loop (Z.to_nat (n / BSIZE) + 3) ip src off n 0;
    size ← geti ip i_size;
    when (size <? off) (modi ip (set_i_size off));;
    iupdate ip;;
    mret (s32 tot).

(** ** Directories *)

(** A scratch memory with two strings, for the routines of string.c. *)
Definition two_strings (s t : list Z) : mem := write_bytes (write_bytes (fun _ => 0) 0 s) 0x1000 t.

Definition namecmp (s t : list Z) : Z := strncmp (two_strings s t) 0 0x1000 DIRSIZ.

Definition de_inum (de : list Z) : Z := get16 de 0.
Definition de_name (de : list Z) : list Z := drop 2 de.

(** The inode of the entry with that name, and the entry's offset. *)
Fixpoint dirlookup_loop (fuel : nat) (dp : nat) (name : list Z) (off : Z) : K (option (nat * Z)) :=
  match fuel with
  | O => nofuel
  | S fuel' =>
      size ← geti dp i_size;
      if off <? size then
        '(r, de) ← readi dp ToLocal off DE_SIZE;
        if negb (r =? DE_SIZE) then panic "dirlookup read"
        else if de_inum de =? 0 then dirlookup_loop fuel' dp name (u32 (off + DE_SIZE))
        else if namecmp name (de_name de) =? 0 then
          dev ← geti dp i_dev;
          ip ← iget dev (de_inum de);
          mret (Some (ip, off))
        else dirlookup_loop fuel' dp name (u32 (off + DE_SIZE))
      else mret None
  end.

Definition dirlookup (dp : nat) (name : list Z) : K (option (nat * Z)) :=
  type ← geti dp i_type;
  if negb (type =? T_DIR) then panic "dirlookup not DIR"
  else
    size ← geti dp i_size;
    dirlookup_loop (S (S (Z.to_nat (size / DE_SIZE)))) dp name 0.

(** The offset of the first empty entry, or of the end. *)
Fixpoint dirlink_scan (fuel : nat) (dp : nat) (off : Z) : K Z :=
  match fuel with
  | O => nofuel
  | S fuel' =>
      size ← geti dp i_size;
      if off <? size then
        '(r, de) ← readi dp ToLocal off DE_SIZE;
        if negb (r =? DE_SIZE) then panic "dirlink read"
        else if de_inum de =? 0 then mret off
        else dirlink_scan fuel' dp (off + DE_SIZE)
      else mret off
  end.

(** [strncpy(de.name, name, DIRSIZ)] *)
Definition dirent_name (name : list Z) : list Z :=
  read_bytes (strncpy (two_strings [] name) 0 0x1000 DIRSIZ) 0 (Z.to_nat DIRSIZ).

Definition dirlink (dp : nat) (name : list Z) (inum : Z) : K Z :=
  r ← dirlookup dp name;
  match r with
  | Some (ip, _) => iput ip;; mret (-1)
  | None =>
      size ← geti dp i_size;
      off ← dirlink_scan (S (S (Z.to_nat (size / DE_SIZE)))) dp 0;
      let de := le_bytes 2 inum ++ dirent_name name in
      r ← writei dp (FromLocal de) off DE_SIZE;
      mret (if negb (r =? DE_SIZE) then -1 else 0)
  end.

(** ** Paths *)

Fixpoint skip_slashes (path : list Z) : list Z :=
  match path with
  | c :: path' => if c =? ch "/" then skip_slashes path' else path
  | [] => []
  end.

(** [while( *path != '/' && *path != 0) path++;] *)
Fixpoint elem_of_path (path : list Z) : list Z * list Z :=
  match path with
  | c :: path' =>
      if c =? ch "/" then ([], path)
      else let '(s, rest) := elem_of_path path' in (c :: s, rest)
  | [] => ([], [])
  end.

(** The rest of the path and the bytes of [name]; [None] is a null pointer. *)
Definition skipelem (path : list Z) : option (list Z * list Z) :=
  let path := skip_slashes path in
  match path with
  | [] => None
  | _ =>
      let '(s, rest) := elem_of_path path in
      let len := Z.of_nat (length s) in
      let name := if DIRSIZ <=? len then take (Z.to_nat DIRSIZ) s else s in
      Some (skip_slashes rest, name)
  end.

(** The result is the inode and the last [name]. *)
Fixpoint namex_loop (fuel : nat) (ip : nat) (path : list Z) (nameiparent : bool) (name : list Z)
    : K (option nat * list Z) :=
  match fuel with
  | O => nofuel
  | S fuel' =>
      match skipelem path with
      | None =>
          if nameiparent then iput ip;; mret (None, name)
          else mret (Some ip, name)
      | Some (path, name) =>
          ilock (Some ip);;
          type ← geti ip i_type;
          if negb (type =? T_DIR) then iunlockput ip;; mret (None, name)
          else if nameiparent && bool_decide (path = []) then
            iunlock (Some ip);;
            mret (Some ip, name)
          else
            next ← dirlookup ip name;
            match next with
            | None => iunlockput ip;; mret (None, name)
            | Some (next, _) =>
                iunlockput ip;;
                namex_loop fuel' next path nameiparent name
            end
      end
  end.

Definition namex (path : list Z) (nameiparent : bool) : K (option nat * list Z) :=
  ip ← (if bool_decide (head path = Some (ch "/")) then iget ROOTDEV ROOTINO
        else
          cur ← myproc;
          p ← deref cur;
          cwd ← getp p p_cwd;
          cwd ← deref cwd;
          idup cwd);
  namex_loop (S (length path)) ip path nameiparent [].

Definition namei (path : list Z) : K (option nat) :=
  '(ip, _) ← namex path false;
  mret ip.

Definition nameiparent (path : list Z) : K (option nat * list Z) := namex path true.
End Fs.
