(* ===== verification/FsSpec.v ===== *)
(** * Blocks and inodes on the disk

    The operations of fs.c on blocks, seen through the contents [C] of the cache:
    balloc() takes the first free block of the bitmap, bfree() gives one back,
    and the disk inode that iupdate() writes is the one ilock() reads. *)

From S2P Require Import Prelude Mem KString Riscv State Spinlock Kalloc Vm Proc ProcSpec Sleeplock SleepSpec Bio Blocks BioSpec Log LogSpec Printf Fs.

(** A block without references has its contents on the disk. *)
Lemma abs_clean pid L C R k d x : abs pid L C R k d -> R x = 0 -> C x = dk_blocks k x.
Proof.
  intros Ha H0. pose proof (ab_cache _ _ _ _ _ _ Ha) as Hc. rewrite <- (ab_refs _ _ _ _ _ _ Ha) in H0.
  rewrite <- (ab_content _ _ _ _ _ _ Ha), <- (ab_disk _ _ _ _ _ _ Ha). unfold content, refs in *.
  destruct (find_buf d x) as [i|] eqn:E; [|done]. apply find_buf_Some in E as [Hi Hh]; [|done].
  destruct (Z.eqb_spec (b_valid (buf_of d i)) 0) as [|Hv]; [done|]. unfold hit in Hh.
  apply andb_true_iff in Hh as [_ <-%Z.eqb_eq]. apply bc_clean; [done..|]. by destruct (bc_valid d Hc i Hi).
Qed.

(** ** An operation in a transaction *)

(** [n] more buffers can be taken. *)
Definition busy (R : Z -> Z) (n : nat) : Prop :=
  exists l : list Z, (forall x, 0 < R x -> x ∈ l) /\ (length l + n <= NBUF)%nat.

Lemma busy_room R n : busy R (S n) -> room R.
Proof. intros (l & H1 & H2). exists l. split; [done|lia]. Qed.

Lemma busy_pin R n x r : busy R (S n) -> busy (bupd R x r) n.
Proof.
  intros (l & H1 & H2). exists (x :: l). split; [|cbn; lia]. intros z. unfold bupd. case_decide as E; [subst; by left|].
  intros Hz. right. auto.
Qed.

Lemma busy_le R R' n : (forall x, R' x <= R x) -> busy R n -> busy R' n.
Proof. intros H (l & H1 & H2). exists l. split; [|done]. intros x Hx. apply H1. specialize (H x). lia. Qed.

(** The buffers [H] are locked, each with its block; the transaction so far has
    written the blocks [bl]. *)
Record fsop (y : sync) (p : nat) (st : Z) (bl : list Z) (H : list (nat * Z)) (C : Z -> list Z) (R : Z -> Z) (k : disk) (d : data) : Prop := {
  fo_cst : cst y p d (H.*1) C R k d;
  fo_held : forall b bno, (b, bno) ∈ H -> holds d b bno;
  fo_nodup : NoDup (H.*1);
  fo_log : logst st bl (d_log d);
  fo_list : good_list st bl;
  fo_out : 1 <= lg_outstanding (d_log d);
  fo_pin : forall x, x ∈ bl -> 0 < R x;
  fo_pos : forall x, 0 <= R x
}.

(** What the operations on blocks leave alone. *)
Definition kept (d d' : data) : Prop :=
  d_sb d' = d_sb d /\ d_inodes d' = d_inodes d /\ lg_size (d_log d') = lg_size (d_log d) /\ d_procs d' = d_procs d.

Lemma kept_trans d1 d2 d3 : kept d1 d2 -> kept d2 d3 -> kept d1 d3.
Proof. intros (A1 & A2 & A3 & A4) (B1 & B2 & B3 & B4). unfold kept. by rewrite B1, B2, B3, B4. Qed.

Lemma frame_kept d d' : frame d d' -> kept d d'.
Proof. intros ->. done. Qed.

(** The log has room for [n] more blocks. *)
Definition logroom (bl : list Z) (n : Z) (d : data) : Prop :=
  Z.of_nat (length bl) + n < LOGSIZE /\ Z.of_nat (length bl) + n <= lg_size (d_log d) - 1.

(** Any state with the same contents and references. *)
Lemma fsop_ext y p st bl H C R k d C' R' :
  fsop y p st bl H C R k d -> (forall x, C x = C' x) -> (forall x, R x = R' x) -> fsop y p st bl H C' R' k d.
Proof.
  intros [H1 Hh Hn H2 H3 H4 H5 H6] EC ER. split; try done.
  - by eapply cst_ext.
  - intros x Hx. rewrite <- ER. auto.
  - intros x. by rewrite <- ER.
Qed.

Section Steps.
Context {B : Budget} {D : Disk} {DO : DiskOk D}.
Context (y : sync) (p : nat) (Hr : (0 < rounds)%nat) (Hll : free LLog y) (st : Z).

Lemma fsop_frame bl H C R k d H' C' R' k' d' :
  fsop y p st bl H C R k d -> cst y p d (H'.*1) C' R' k' d' -> (forall b bno, (b, bno) ∈ H' -> holds d' b bno) ->
  NoDup (H'.*1) -> (forall x, x ∈ bl -> 0 < R' x) -> (forall x, 0 <= R' x) -> fsop y p st bl H' C' R' k' d'.
Proof using.
  intros [H1 _ _ H2 H3 H4 H5 H6] Hs Hh Hn Hp H0. pose proof (cst_log _ _ _ _ _ _ _ _ Hs) as El.
  split; [|done|done|by rewrite El|done|by rewrite El|done|done]. destruct Hs as [Q1 Q2 _]. split; [done|done|apply frame_refl].
Qed.

(** A locked buffer has a reference. *)
Lemma fo_ref bl H C R k d b bno : fsop y p st bl H C R k d -> (b, bno) ∈ H -> 0 < R bno.
Proof using.
  intros Hf Hin. eapply (c_ref y p d); [apply Hf| |by eapply fo_held].
  apply list_elem_of_fmap. by exists (b, bno).
Qed.

Lemma fo_bread bl H C R k d bno :
  fsop y p st bl H C R k d -> busy R 1 -> R bno + 1 < 2 ^ 32 -> bno ∉ H.*2 ->
  exists b d', bread ROOTDEV bno (KState y d) = Ret b (KState y d')
    /\ fsop y p st bl ((b, bno) :: H) C (bupd R bno (R bno + 1)) k d' /\ kept d d'.
Proof using Hr DO.
  intros Hf Hb Hov Hni.
  destruct (c_bread y p d Hr (H.*1) C R k d bno (fo_cst _ _ _ _ _ _ _ _ _ Hf)) as (b & d' & E & Hs & HbL & Hh & Hst).
  - intros _. by eapply busy_room.
  - done.
  - intros i ([b' bno'] & -> & Hin)%list_elem_of_fmap. exists bno'. split; [by eapply fo_held|]. intros ->.
    apply Hni, list_elem_of_fmap. by exists (b', bno).
  - exists b, d'. split_and!; [done| |apply frame_kept, Hs]. eapply fsop_frame; [done|done|..].
    + intros b' bno' [[= -> ->]|Hin]%elem_of_cons; [done|]. apply Hst; [by eapply fo_held|by eapply fo_ref].
    + apply NoDup_cons. split; [done|apply Hf].
    + intros x Hx. pose proof (fo_pin _ _ _ _ _ _ _ _ _ Hf x Hx). unfold bupd. case_decide; subst; lia.
    + intros x. pose proof (fo_pos _ _ _ _ _ _ _ _ _ Hf x). pose proof (fo_pos _ _ _ _ _ _ _ _ _ Hf bno).
      unfold bupd. case_decide; lia.
Qed.

Context (bl : list Z) (H : list (nat * Z)) (C : Z -> list Z) (R : Z -> Z) (k : disk) (d : data) (b : nat) (bno : Z).
Context (Hf : fsop y p st bl ((b, bno) :: H) C R k d).

Lemma fo_holds : holds d b bno.
Proof using Hf. eapply fo_held; [done|by left]. Qed.

Lemma fo_data : b_data (buf_of d b) = C bno.
Proof using Hf. eapply c_data; [apply Hf|apply fo_holds]. Qed.

Lemma fo_set f :
  (forall r, f r = set_b_data (b_data (f r)) r) ->
  exists d', modb b f (KState y d) = Ret tt (KState y d')
    /\ fsop y p st bl ((b, bno) :: H) (bupd C bno (b_data (f (buf_of d b)))) R k d' /\ kept d d'.
Proof using Hf.
  clear Hr. intros Hfn. destruct (c_set y p d _ _ _ _ d b bno (fo_cst _ _ _ _ _ _ _ _ _ Hf) ltac:(by left) fo_holds f) as (d' & E & Hx).
  destruct (Hx Hfn) as [Hs Hi]. exists d'. split_and!; [done| |apply frame_kept, Hs].
  eapply fsop_frame; [done|done| |apply Hf..]. intros b' x Hb'. eapply holds_same; [done|by eapply fo_held].
Qed.

Lemma fo_logwrite :
  0 <= bno < 2 ^ 31 -> ~ in_log st bno -> R bno + 1 < 2 ^ 32 -> logroom bl 1 d ->
  exists d', log_write b (KState y d) = Ret tt (KState y d')
    /\ fsop y p st (if decide (bno ∈ bl) then bl else bl ++ [bno]) ((b, bno) :: H) C
         (if decide (bno ∈ bl) then R else bupd R bno (R bno + 1)) k d'
    /\ kept d d'.
Proof using Hf Hll.
  clear Hr. intros Hb Hnl Hov [Hr1 Hr2]. pose proof Hf as [H1 Hh Hn H2 H3 H4 H5 H6].
  destruct (log_write_run y p Hll st bl _ C R k d b bno H1 ltac:(by left) fo_holds) as (d' & E & Hi & Eo & Es & Hl & Hs & Esb & Ein & Epr); [|done|done|].
  { split; [done|done|done|lia]. }
  assert (forall b' x, (b', x) ∈ (b, bno) :: H -> holds d' b' x) as Hh'.
  { intros b' x Hb'. eapply holds_same; [done|by apply Hh]. }
  exists d'. split_and!; [done| |by split_and!].
  case_decide as Hin; split; try done; try (by rewrite Eo).
  - by apply good_append; [|lia|..].
  - intros x [Hx| ->%list_elem_of_singleton]%elem_of_app; [|rewrite bupd_eq; specialize (H6 bno); lia].
    unfold bupd. case_decide; [specialize (H6 bno); lia|auto].
  - intros x. unfold bupd. specialize (H6 bno) as H60. case_decide; [lia|apply H6].
Qed.

Lemma fo_brelse :
  R bno < 2 ^ 32 -> (R bno = 1 -> C bno = dk_blocks k bno) -> (bno ∈ bl -> 1 < R bno) ->
  exists d', brelse b (KState y d) = Ret tt (KState y d')
    /\ fsop y p st bl H C (bupd R bno (R bno - 1)) k d' /\ kept d d'.
Proof using Hf.
  clear Hr. intros Hov Hcl Hin. pose proof (fo_nodup _ _ _ _ _ _ _ _ _ Hf) as Hnd. cbn in Hnd. apply NoDup_cons in Hnd as [Hb Hnd].
  destruct (c_brelse y p d _ _ _ _ d b bno (fo_cst _ _ _ _ _ _ _ _ _ Hf) ltac:(by left) fo_holds (H.*1)) as (d' & E & Hs & Hi); [done| |done|].
  { intros i. cbn. rewrite elem_of_cons. split; [intros Hi; split; [by right|congruence]|]. intros [[->|?] ?]; done. }
  pose proof (fo_ref _ _ _ _ _ _ _ _ Hf ltac:(by left)) as Hpos.
  exists d'. split_and!; [done| |apply frame_kept, Hs]. eapply fsop_frame; [done|done| |done|..].
  - intros b' x Hb'. eapply holds_same; [done|]. eapply fo_held; [done|by right].
  - intros x Hx. pose proof (fo_pin _ _ _ _ _ _ _ _ _ Hf x Hx). unfold bupd. case_decide as Ex; [subst|done].
    specialize (Hin Hx). lia.
  - intros x. pose proof (fo_pos _ _ _ _ _ _ _ _ _ Hf x). unfold bupd. case_decide; lia.
Qed.

(** A block that has only been read. *)
Lemma fo_unread R0 :
  (forall x, R x = bupd R0 bno (R0 bno + 1) x) -> R0 bno + 1 < 2 ^ 32 -> (R0 bno = 0 -> C bno = dk_blocks k bno) -> (bno ∈ bl -> 0 < R0 bno) ->
  exists d', brelse b (KState y d) = Ret tt (KState y d') /\ fsop y p st bl H C R0 k d' /\ kept d d'.
Proof using Hf.
  clear Hr. intros ER Hov Hcl Hin. pose proof (ER bno) as E. rewrite bupd_eq in E.
  destruct fo_brelse as (d' & Eb & Hf' & Hk).
  - lia.
  - intros. apply Hcl. lia.
  - intros Hx. specialize (Hin Hx). lia.
  - exists d'. split_and!; [done| |done]. eapply fsop_ext; [exact Hf'|done|]. intros x. unfold bupd. case_decide as Ex; [subst; lia|].
    rewrite ER. by apply bupd_ne.
Qed.
End Steps.

(** The log after a write to [bno]. *)
Definition logged (bl : list Z) (bno : Z) : list Z := if decide (bno ∈ bl) then bl else bl ++ [bno].
Definition pinned (bl : list Z) (R : Z -> Z) (bno : Z) : Z -> Z := if decide (bno ∈ bl) then R else bupd R bno (R bno + 1).

Section Update.
Context {B : Budget} {D : Disk} {DO : DiskOk D}.
Context (y : sync) (p : nat) (Hr : (0 < rounds)%nat) (Hll : free LLog y) (st : Z).

(** A block that has been read is changed, logged and released. *)
Lemma update_block bl H C R k d b bno f :
  fsop y p st bl ((b, bno) :: H) C (bupd R bno (R bno + 1)) k d -> (forall r, f r = set_b_data (b_data (f r)) r) ->
  0 <= bno < 2 ^ 31 -> ~ in_log st bno -> 0 <= R bno -> R bno + 2 < 2 ^ 32 -> logroom bl 1 d -> (bno ∈ bl -> 0 < R bno) ->
  exists d1 d', (modb b f;; log_write b) (KState y d) = Ret tt (KState y d1) /\ brelse b (KState y d1) = Ret tt (KState y d')
    /\ fsop y p st (logged bl bno) H (bupd C bno (b_data (f (buf_of d b)))) (pinned bl R bno) k d' /\ kept d d'.
Proof using Hll.
  clear Hr. intros Hf Hfn Hb Hnl H0 Hov Hlr Hin.
  destruct (fo_set y p st bl _ C _ k d b bno Hf f Hfn) as (d1 & E1 & Hf1 & Hk1).
  destruct (fo_logwrite y p Hll st bl _ _ _ k d1 b bno Hf1 Hb Hnl) as (d2 & E2 & Hf2 & Hk2).
  { rewrite bupd_eq. lia. } { destruct Hk1 as (_ & _ & Es & _). unfold logroom in *. by rewrite Es. }
  destruct (fo_brelse y p st _ _ _ _ k d2 b bno Hf2) as (d3 & E3 & Hf3 & Hk3).
  1, 2, 3: case_decide; rewrite ?bupd_eq; try lia; specialize (Hin ltac:(done)); lia.
  exists d2, d3. split_and!; [by rewrite (bind_Ret _ _ _ _ _ E1)|done| |by eapply kept_trans, kept_trans].
  unfold logged, pinned in *. case_decide; (eapply fsop_ext; [exact Hf3|done|]); intros x; unfold bupd;
    repeat (case_decide; subst; try congruence); lia.
Qed.
End Update.

(** Sequences that are known to return, followed by more. *)
Lemma seq2 {S A} (m1 m2 : M S unit) (rest : M S A) s s' :
  (m1;; m2) s = Ret tt s' -> (m1;; m2;; rest) s = rest s'.
Proof.
  intros H. apply obind_Ret_inv in H as ([] & s1 & E1 & E2). by rewrite (bind_Ret _ _ _ _ _ E1), (bind_Ret _ _ _ _ _ E2).
Qed.

(** ** The bitmap of used blocks *)

Definition used (bs : list Z) (bi : Z) : bool := Z.testbit (bs !!! Z.to_nat (bi / 8)) (bi mod 8).

(** Block [b] is marked as used. *)
Definition used_at (C : Z -> list Z) (sb : superblock) (b : Z) : bool := used (C (BBLOCK b sb)) (b mod BPB).

Lemma land_bit x i : 0 <= i -> (Z.land x (Z.shiftl 1 i) =? 0) = negb (Z.testbit x i).
Proof.
  intros Hi. destruct (Z.testbit x i) eqn:E; cbn.
  - apply Z.eqb_neq. intros H. apply (f_equal (fun z => Z.testbit z i)) in H.
    rewrite Z.land_spec, E, Z.shiftl_1_l, Z.pow2_bits_true, Z.bits_0 in H by done. done.
  - apply Z.eqb_eq. apply Z.bits_inj'. intros j Hj. rewrite Z.land_spec, Z.shiftl_1_l, Z.bits_0.
    destruct (Z.eqb_spec i j) as [->|Hne]; [by rewrite E|]. by rewrite Z.pow2_bits_false, andb_false_r.
Qed.

Lemma byte_index bi bj : 0 <= bi -> 0 <= bj -> bi <> bj -> Z.to_nat (bi / 8) = Z.to_nat (bj / 8) -> bi mod 8 <> bj mod 8.
Proof.
  intros. assert (bi / 8 = bj / 8) by (apply Z2Nat.inj; [apply Z.div_pos; lia..|done]).
  pose proof (Z.div_mod bi 8). pose proof (Z.div_mod bj 8). lia.
Qed.

(** Setting and clearing the bit of a block. *)
Lemma used_update bs bi bj g v :
  0 <= bi -> 0 <= bj -> (Z.to_nat (bi / 8) < length bs)%nat ->
  (forall x j, 0 <= j -> Z.testbit (g x) j = if j =? bi mod 8 then v else Z.testbit x j) ->
  used (<[Z.to_nat (bi / 8) := g (bs !!! Z.to_nat (bi / 8))]> bs) bj = if bj =? bi then v else used bs bj.
Proof.
  intros Hi Hj Hl Hg. unfold used. destruct (Z.eqb_spec bj bi) as [->|Hne].
  - rewrite list_lookup_total_insert_eq by done. rewrite Hg by (apply Z.mod_pos_bound; lia). by rewrite Z.eqb_refl.
  - destruct (decide (Z.to_nat (bi / 8) = Z.to_nat (bj / 8))) as [E|E].
    + rewrite <- E, list_lookup_total_insert_eq by done. rewrite Hg by (apply Z.mod_pos_bound; lia).
      destruct (Z.eqb_spec (bj mod 8) (bi mod 8)); [|done]. exfalso. by apply (byte_index bi bj).
    + by rewrite list_lookup_total_insert_ne.
Qed.

Lemma testbit_set x i j :
  0 <= i -> Z.testbit (Z.lor x (Z.shiftl 1 i)) j = if j =? i then true else Z.testbit x j.
Proof.
  intros Hi. rewrite Z.lor_spec, Z.shiftl_1_l. destruct (Z.eqb_spec j i) as [->|Hne].
  - by rewrite Z.pow2_bits_true, orb_true_r.
  - by rewrite Z.pow2_bits_false, orb_false_r by done.
Qed.

Lemma testbit_clear x i j :
  0 <= i -> 0 <= j -> Z.testbit (Z.land x (Z.lnot (Z.shiftl 1 i))) j = if j =? i then false else Z.testbit x j.
Proof.
  intros Hi Hj. rewrite Z.land_spec, Z.lnot_spec, Z.shiftl_1_l by done. destruct (Z.eqb_spec j i) as [->|Hne].
  - by rewrite Z.pow2_bits_true, andb_false_r.
  - by rewrite Z.pow2_bits_false, andb_true_r by done.
Qed.

Lemma find_clear_spec data b size n : forall bi, 0 <= bi ->
  match find_clear n data b bi size with
  | Some r => bi <= r < bi + Z.of_nat n /\ b + r < size /\ used data r = false
      /\ forall j, bi <= j < r -> used data j = true
  | None => forall j, bi <= j < bi + Z.of_nat n -> b + j < size -> used data j = true
  end.
Proof.
  induction n as [|n IH]; intros bi Hbi; cbn [find_clear]; [lia|].
  destruct (Z.ltb_spec (b + bi) size) as [Hs|Hs]; [|lia]. rewrite land_bit by (apply Z.mod_pos_bound; lia).
  fold (used data bi). destruct (used data bi) eqn:E; cbn [negb].
  - specialize (IH (bi + 1) ltac:(lia)). destruct (find_clear n data b (bi + 1) size) as [r|].
    + destruct IH as (H1 & H2 & H3 & H4). split_and!; [lia|lia|done|done|]. intros j Hj.
      destruct (decide (j = bi)) as [->|]; [done|]. apply H4. lia.
    + intros j Hj Hjs. destruct (decide (j = bi)) as [->|]; [done|]. apply IH; lia.
  - split_and!; [lia|lia|done|done|]. intros j Hj. lia.
Qed.

(** ** balloc and bfree *)

(** The geometry of the disk: the bitmap is outside the log, in blocks of 1024
    bytes, and there are no more blocks than an int can count. *)
Record geometry (st : Z) (sb : superblock) (C : Z -> list Z) : Prop := {
  ge_size : 0 <= sb_size sb < 2 ^ 31;
  ge_bmap : 0 <= sb_bmapstart sb /\ sb_bmapstart sb + sb_size sb / BPB < 2 ^ 31;
  ge_out : forall b, 0 <= b < sb_size sb -> ~ in_log st (BBLOCK b sb);
  ge_len : forall b, 0 <= b < sb_size sb -> length (C (BBLOCK b sb)) = Z.to_nat BSIZE
}.

Lemma BBLOCK_range st sb C b : geometry st sb C -> 0 <= b < sb_size sb ->
  BBLOCK b sb = b / BPB + sb_bmapstart sb /\ 0 <= BBLOCK b sb < 2 ^ 31.
Proof.
  intros [H1 H2 _ _] Hb. assert (0 <= b / BPB <= sb_size sb / BPB).
  { split; [apply Z.div_pos; unfold BPB, BSIZE; lia|]. apply Z.div_le_mono; unfold BPB, BSIZE; lia. }
  unfold BBLOCK. rewrite wrapu_small by lia. lia.
Qed.

(** Block [t] is the first free one, and it is not part of the metadata. *)
Record lowest_free (st : Z) (sb : superblock) (C : Z -> list Z) (t : Z) : Prop := {
  ff_range : 0 <= t < sb_size sb;
  ff_free : used_at C sb t = false;
  ff_first : forall j, 0 <= j < t -> used_at C sb j = true;
  ff_log : ~ in_log st t;
  ff_meta : forall j, 0 <= j < sb_size sb -> BBLOCK j sb <> t
}.

#[local] Ltac Zify.zify_post_hook ::= Z.to_euclidean_division_equations.

Section Balloc.
Context {I : Image} {B : Budget} {D : Disk} {DO : DiskOk D}.
Context (y : sync) (p : nat) (Hr : (0 < rounds)%nat) (Hll : free LLog y) (st : Z).

(** bzero() logs a block of zeros. *)
Lemma bzero_run bl H C R k d bno :
  fsop y p st bl H C R k d -> busy R 1 -> 0 <= bno < 2 ^ 31 -> ~ in_log st bno -> R bno + 2 < 2 ^ 32 -> logroom bl 1 d ->
  bno ∉ H.*2 ->
  exists d', bzero ROOTDEV bno (KState y d) = Ret tt (KState y d')
    /\ fsop y p st (logged bl bno) H (bupd C bno (replicate (Z.to_nat BSIZE) 0)) (pinned bl R bno) k d' /\ kept d d'.
Proof using Hr Hll DO.
  intros Hf Hb Hbno Hnl Hov Hlr Hni. unfold bzero. rewrite wrapu_small by lia. pose proof (fo_pos _ _ _ _ _ _ _ _ _ Hf bno) as H0.
  destruct (fo_bread y p Hr st bl H C R k d bno Hf Hb ltac:(lia) Hni) as (b & d1 & E1 & Hf1 & Hk1).
  rewrite (bind_Ret _ _ _ _ _ E1).
  destruct (update_block y p Hll st bl H C R k d1 b bno (set_b_data (replicate (Z.to_nat BSIZE) 0)) Hf1) as (d2 & d3 & E2 & E3 & Hf3 & Hk3); try done.
  { destruct Hk1 as (_ & _ & Es & _). unfold logroom in *. by rewrite Es. }
  { apply Hf. }
  rewrite (seq2 _ _ _ _ _ E2), E3. exists d3. split_and!; [done|exact Hf3|by eapply kept_trans].
Qed.

Lemma used_same_block sb C b j :
  b mod BPB = 0 -> 0 <= b -> 0 <= j < BPB -> used_at C sb (b + j) = used (C (BBLOCK b sb)) j.
Proof using.
  clear Hr. intros Hb H0 Hj. unfold used_at, BBLOCK, BPB, BSIZE in *.
  replace ((b + j) / (1024 * 8)) with (b / (1024 * 8)) by lia. f_equal. lia.
Qed.

Lemma find_clear_first C sb t b :
  lowest_free st sb C t -> b mod BPB = 0 -> 0 <= b -> b <= t < b + BPB ->
  find_clear (Z.to_nat BPB) (C (BBLOCK b sb)) b 0 (sb_size sb) = Some (t - b).
Proof using.
  clear Hr. intros [Ht Hfree Hfirst _ _] Hb H0 Htb.
  assert (Z.of_nat (Z.to_nat BPB) = BPB) as EB by (unfold BPB, BSIZE; lia).
  pose proof (find_clear_spec (C (BBLOCK b sb)) b (sb_size sb) (Z.to_nat BPB) 0 ltac:(lia)) as H.
  assert (used (C (BBLOCK b sb)) (t - b) = false) as Hu.
  { rewrite <- used_same_block by (done || lia). by replace (b + (t - b)) with t by lia. }
  destruct (find_clear _ _ _ _ _) as [r|]; rewrite EB in H.
  - destruct H as (H1 & H2 & H3 & H4). f_equal. destruct (Z.lt_trichotomy r (t - b)) as [Hlt|[?|Hgt]]; [|done|].
    + rewrite <- (used_same_block sb C b r) in H3 by (done || lia). rewrite Hfirst in H3 by lia. done.
    + rewrite H4 in Hu by lia. done.
  - rewrite H in Hu by lia. done.
Qed.

Lemma find_clear_none C sb t b :
  lowest_free st sb C t -> b mod BPB = 0 -> 0 <= b -> b + BPB <= t ->
  find_clear (Z.to_nat BPB) (C (BBLOCK b sb)) b 0 (sb_size sb) = None.
Proof using.
  clear Hr. intros [Ht Hfree Hfirst _ _] Hb H0 Htb.
  assert (Z.of_nat (Z.to_nat BPB) = BPB) as EB by (unfold BPB, BSIZE; lia).
  pose proof (find_clear_spec (C (BBLOCK b sb)) b (sb_size sb) (Z.to_nat BPB) 0 ltac:(lia)) as H.
  destruct (find_clear _ _ _ _ _) as [r|]; [|done]. rewrite EB in H. destruct H as (H1 & H2 & H3 & H4).
  rewrite <- (used_same_block sb C b r) in H3 by (done || lia). rewrite Hfirst in H3 by lia. done.
Qed.

Lemma busy_weak R n : busy R (S n) -> busy R n.
Proof using. clear Hr. intros (l & H1 & H2). exists l. split; [done|lia]. Qed.

Lemma busy_pinned bl R n x : busy R (S n) -> busy (pinned bl R x) n.
Proof using. intros H. unfold pinned. case_decide; [by apply busy_weak|by apply busy_pin]. Qed.

Lemma logroom_logged bl n x d d' :
  kept d d' -> logroom bl (n + 1) d -> logroom (logged bl x) n d'.
Proof using.
  clear Hr. intros (_ & _ & Es & _) [H1 H2]. unfold logroom, logged. rewrite Es. case_decide; [lia|].
  rewrite length_app. cbn. lia.
Qed.

(** The contents after the allocation of block [t]. *)
Definition alloc_bit (sb : superblock) (C : Z -> list Z) (t : Z) : Z -> list Z :=
  let bi := t mod BPB in
  let bs := C (BBLOCK t sb) in
  bupd C (BBLOCK t sb) (<[Z.to_nat (bi / 8) := Z.lor (bs !!! Z.to_nat (bi / 8)) (Z.shiftl 1 (bi mod 8))]> bs).

Lemma balloc_found fuel bl H C R k d t b :
  let sb := d_sb d in
  fsop y p st bl H C R k d -> geometry st sb C -> lowest_free st sb C t -> busy R 2 -> (forall x, R x < 2 ^ 31) ->
  logroom bl 2 d -> b mod BPB = 0 -> 0 <= b -> b <= t < b + BPB ->
  (forall j, 0 <= j < sb_size sb -> BBLOCK j sb ∉ H.*2) -> t ∉ H.*2 ->
  let bb := BBLOCK t sb in
  exists d', balloc_loop (S fuel) ROOTDEV b (KState y d) = Ret t (KState y d')
    /\ fsop y p st (logged (logged bl bb) t) H (bupd (alloc_bit sb C t) t (replicate (Z.to_nat BSIZE) 0))
         (pinned (logged bl bb) (pinned bl R bb) t) k d' /\ kept d d'.
Proof using Hr Hll DO.
  intros sb Hf Hge Hff Hbusy Hfew Hlr Hb H0 Htb Hnb Hnt bb. pose proof (ff_range _ _ _ _ Hff) as Ht.
  assert (BBLOCK b sb = bb) as Ebb.
  { unfold bb, BBLOCK. do 2 f_equal. unfold BPB, BSIZE in *. lia. }
  destruct (BBLOCK_range st sb C t Hge Ht) as [_ Hbb]. fold bb in Hbb. pose proof (ge_out _ _ _ Hge t Ht) as Hnl. fold bb in Hnl.
  pose proof (fo_pos _ _ _ _ _ _ _ _ _ Hf bb) as Hp0. pose proof (Hfew bb) as Hfbb. pose proof (Hfew t) as Hft.
  cbn [balloc_loop]. unfold getsb. kstep. fold sb. change (id sb) with sb.
  destruct (Z.ltb_spec b (sb_size sb)); [|lia]. rewrite Ebb.
  destruct (fo_bread y p Hr st bl H C R k d bb Hf (busy_weak _ _ Hbusy) ltac:(lia) (Hnb t Ht)) as (b1 & d1 & E1 & Hf1 & Hk1).
  rewrite (bind_Ret _ _ _ _ _ E1). kstep. rewrite (fo_data y p st _ _ _ _ _ _ _ _ Hf1).
  rewrite <- Ebb, (find_clear_first C sb t b Hff Hb H0 Htb), Ebb.
  set (f := fun r : buf => _ : buf).
  destruct (update_block y p Hll st bl H C R k d1 b1 bb f Hf1) as (d1' & d2 & E1' & E2 & Hf2 & Hk2); try done; try lia.
  { destruct Hk1 as (_ & _ & Es & _). unfold logroom in *. rewrite Es. lia. }
  { apply Hf. }
  rewrite (seq2 _ _ _ _ _ E1'), (bind_Ret _ _ _ _ _ E2).
  destruct (bzero_run (logged bl bb) H _ (pinned bl R bb) k d2 t Hf2 (busy_pinned _ _ _ _ Hbusy)) as (d3 & E3 & Hf3 & Hk3).
  { pose proof (ge_size _ _ _ Hge). lia. } { apply Hff. }
  { unfold pinned. case_decide; [lia|]. unfold bupd. case_decide; lia. }
  { apply (logroom_logged bl 1 bb d); [by eapply kept_trans|done]. } { done. }
  replace (b + (t - b)) with t by lia. rewrite (bind_Ret _ _ _ _ _ E3).
  exists d3. split_and!; [done| |eapply kept_trans; [exact Hk1|by eapply kept_trans]].
  eapply fsop_ext; [exact Hf3| |done]. intros x. unfold bupd at 1 3. case_decide; [done|].
  unfold alloc_bit. fold bb. replace (t mod BPB) with (t - b) by (unfold BPB, BSIZE in *; lia).
  unfold bupd. case_decide; [|done]. unfold f. cbn [b_data set_b_data]. by rewrite (fo_data y p st _ _ _ _ _ _ _ _ Hf1).
Qed.

Lemma geometry_kept C d d' : kept d d' -> geometry st (d_sb d) C -> geometry st (d_sb d') C.
Proof using. intros (-> & _). done. Qed.

(** A block of the bitmap without a free bit is released again. *)
Lemma balloc_next bl H C R k d b bb :
  fsop y p st bl H C R k d -> busy R 1 -> R bb + 1 < 2 ^ 32 -> BBLOCK b (d_sb d) = bb -> bb ∉ H.*2 ->
  0 <= b < sb_size (d_sb d) -> find_clear (Z.to_nat BPB) (C bb) b 0 (sb_size (d_sb d)) = None ->
  exists d', (forall fuel, balloc_loop (S fuel) ROOTDEV b (KState y d) = balloc_loop fuel ROOTDEV (b + BPB) (KState y d'))
    /\ fsop y p st bl H C R k d' /\ kept d d'.
Proof using Hr DO.
  intros Hf Hb Hov Ebb Hni Hbs Hn.
  destruct (fo_bread y p Hr st bl H C R k d bb Hf Hb Hov Hni) as (b1 & d1 & E1 & Hf1 & Hk1).
  destruct (fo_unread y p st _ _ _ _ k d1 b1 bb Hf1 R) as (d2 & E2 & Hf2 & Hk2); [done|done| |apply Hf|].
  { eapply abs_clean, Hf. }
  exists d2. split_and!; [|done|by eapply kept_trans].
  intros fuel. cbn [balloc_loop]. unfold getsb. kstep. change (id (d_sb d)) with (d_sb d).
  destruct (Z.ltb_spec b (sb_size (d_sb d))); [|lia]. rewrite Ebb, (bind_Ret _ _ _ _ _ E1). kstep.
  rewrite (fo_data y p st _ _ _ _ _ _ _ _ Hf1), Hn. by rewrite (bind_Ret _ _ _ _ _ E2).
Qed.

Lemma balloc_loop_run fuel : forall bl H C R k d t b,
  let sb := d_sb d in
  fsop y p st bl H C R k d -> geometry st sb C -> lowest_free st sb C t -> busy R 2 -> (forall x, R x < 2 ^ 31) ->
  logroom bl 2 d -> b mod BPB = 0 -> 0 <= b <= t -> t < b + BPB * Z.of_nat fuel ->
  (forall j, 0 <= j < sb_size sb -> BBLOCK j sb ∉ H.*2) -> t ∉ H.*2 ->
  let bb := BBLOCK t sb in
  exists d', balloc_loop fuel ROOTDEV b (KState y d) = Ret t (KState y d')
    /\ fsop y p st (logged (logged bl bb) t) H (bupd (alloc_bit sb C t) t (replicate (Z.to_nat BSIZE) 0))
         (pinned (logged bl bb) (pinned bl R bb) t) k d' /\ kept d d'.
Proof using Hr Hll DO.
  induction fuel as [|fuel IH]; intros bl H C R k d t b sb Hf Hge Hff Hbusy Hfew Hlr Hb H0 Ht Hnb Hnt bb; [lia|].
  destruct (decide (t < b + BPB)) as [Hlt|Hlt].
  { apply balloc_found with (b := b); try done; lia. }
  pose proof (ff_range _ _ _ _ Hff) as Hts.
  destruct (balloc_next bl H C R k d b (BBLOCK b sb) Hf (busy_weak _ _ Hbusy)) as (d1 & E & Hf1 & Hk1).
  { specialize (Hfew (BBLOCK b sb)). lia. } { done. } { apply Hnb. lia. } { fold sb. lia. }
  { apply find_clear_none with (t := t); [done..|lia|lia]. }
  assert (d_sb d1 = sb) as Esb by apply Hk1.
  destruct (IH bl H C R k d1 t (b + BPB)) as (d2 & E2 & Hf2 & Hk2).
  all: rewrite ?Esb; try done.
  - destruct Hk1 as (_ & _ & Es & _). unfold logroom in *. by rewrite Es.
  - unfold BPB, BSIZE in *. lia.
  - unfold BPB, BSIZE in *. lia.
  - unfold BPB, BSIZE in *. lia.
  - rewrite Esb in Hf2. exists d2. split_and!; [by rewrite E|done|by eapply kept_trans].
Qed.

(** The bitmap after an allocation. *)
Lemma used_alloc sb C t j :
  geometry st sb C -> 0 <= t < sb_size sb -> 0 <= j < sb_size sb -> (forall i, 0 <= i < sb_size sb -> BBLOCK i sb <> t) ->
  used_at (bupd (alloc_bit sb C t) t (replicate (Z.to_nat BSIZE) 0)) sb j = if j =? t then true else used_at C sb j.
Proof using.
  clear Hr. intros Hge Ht Hj Hmeta. unfold used_at at 1. rewrite bupd_ne by (by apply Hmeta). unfold alloc_bit.
  assert (forall i, 0 <= i -> 0 <= i mod BPB < BPB) as HB by (intros; unfold BPB, BSIZE; lia).
  unfold bupd. case_decide as E.
  - rewrite (used_update (C (BBLOCK t sb)) (t mod BPB) (j mod BPB) (fun x => Z.lor x (Z.shiftl 1 (t mod BPB mod 8))) true).
    + destruct (BBLOCK_range st sb C t Hge Ht) as [E1 _], (BBLOCK_range st sb C j Hge Hj) as [E2 _].
      destruct (Z.eqb_spec j t) as [->|Hne]; [by rewrite Z.eqb_refl|].
      rewrite (proj2 (Z.eqb_neq _ _)) by (unfold BPB, BSIZE in *; lia). unfold used_at. by rewrite E.
    + apply HB. lia.
    + apply HB. lia.
    + rewrite (ge_len _ _ _ Hge t Ht). specialize (HB t ltac:(lia)). unfold BPB, BSIZE in *. lia.
    + intros x i _. apply testbit_set. unfold BPB, BSIZE. lia.
  - destruct (Z.eqb_spec j t) as [->|_]; done.
Qed.

(** balloc() while the buffers [H] are locked, none of them the bitmap or the new block. *)
Lemma balloc_run bl H C R k d t :
  let sb := d_sb d in
  fsop y p st bl H C R k d -> geometry st sb C -> lowest_free st sb C t -> busy R 2 -> (forall x, R x < 2 ^ 31) ->
  logroom bl 2 d -> (forall j, 0 <= j < sb_size sb -> BBLOCK j sb ∉ H.*2) -> t ∉ H.*2 ->
  exists d', balloc ROOTDEV (KState y d) = Ret t (KState y d')
    /\ fsop y p st (logged (logged bl (BBLOCK t sb)) t) H (bupd (alloc_bit sb C t) t (replicate (Z.to_nat BSIZE) 0))
         (pinned (logged bl (BBLOCK t sb)) (pinned bl R (BBLOCK t sb)) t) k d' /\ kept d d'.
Proof using Hr Hll DO.
  intros sb Hf Hge Hff Hbusy Hfew Hlr Hnb Hnt. pose proof (ff_range _ _ _ _ Hff) as Ht.
  unfold balloc, getsb. kstep. apply balloc_loop_run; try done; [lia|]. fold sb in Ht |- *. unfold BPB, BSIZE in *. lia.
Qed.



End Balloc.

(** ** Witnesses *)

#[local] Instance one_round : Budget := 1%nat.
#[local] Existing Instances sync_disk sync_disk_ok.
#[local] Existing Instance demo_image.

(** A disk of 2000 blocks, the first 50 of them in use; the bitmap is block 45. *)
Definition demo_sb : superblock := Superblock 0x10203040 2000 1954 200 30 2 32 45.
Definition demo_bitmap : list Z := replicate 6 255 ++ [3] ++ replicate 1017 0.
Definition demo_disk : disk :=
  State.Disk (fun x => if x =? 45 then demo_bitmap else replicate (Z.to_nat BSIZE) 0) [].
Definition demo_on (k : disk) : data :=
  set_d_sb demo_sb (set_d_log (Log 2 30 1 0 ROOTDEV (Logheader 0 (replicate 30 0))) (boot_data k)).
Definition demo_fs : data := demo_on demo_disk.

Lemma cst_resb y p d0 L C R k d sb :
  cst y p d0 L C R k d -> cst y p (set_d_sb sb d) L C R k (set_d_sb sb d).
Proof.
  intros [[? ? ? ? ? ? ?] [[? ? ? ? ? ? ? ?] ? ? ? ? ?] _]. split; [split|split; [split|..]|apply frame_refl]; assumption.
Qed.

Lemma demo_on_fsop k : fsop fs_sync 3 2 [] [] (dk_blocks k) (fun _ => 0) k (demo_on k).
Proof.
  destruct (boot_booted k) as [Hq Hc Href _ _ _ _].
  pose proof (cst_relog _ _ _ _ _ _ _ _ (Log 2 30 1 0 ROOTDEV (Logheader 0 (replicate 30 0))) (empty_cst _ _ _ Hq Hc Href)) as Hs.
  split.
  - exact (cst_resb _ _ _ _ _ _ _ _ demo_sb Hs).
  - by intros b bno ?%elem_of_nil.
  - apply NoDup_nil_2.
  - by split; vm_compute.
  - apply good_nil.
  - by vm_compute.
  - by intros x ?%elem_of_nil.
  - done.
Qed.

Lemma demo_fsop : fsop fs_sync 3 2 [] [] (dk_blocks demo_disk) (fun _ => 0) demo_disk demo_fs.
Proof. exact (demo_on_fsop demo_disk). Qed.

Lemma demo_geometry : geometry 2 (d_sb demo_fs) (dk_blocks demo_disk).
Proof.
  assert (forall b, 0 <= b < 2000 -> BBLOCK b demo_sb = 45) as E.
  { intros b Hb. unfold BBLOCK. cbn [sb_bmapstart demo_sb]. rewrite Z.div_small by (unfold BPB, BSIZE; lia). done. }
  change (d_sb demo_fs) with demo_sb. split; cbn [sb_size sb_bmapstart demo_sb].
  - lia.
  - by vm_compute.
  - intros b Hb. rewrite E by done. unfold in_log, LOGSIZE, MAXOPBLOCKS. lia.
  - intros b Hb. rewrite E by done. by vm_compute.
Qed.

Lemma demo_busy n : (n <= NBUF)%nat -> busy (fun _ => 0) n.
Proof. intros Hn. exists []. split; [intros; lia|cbn; lia]. Qed.

Lemma demo_lowest_free : lowest_free 2 (d_sb demo_fs) (dk_blocks demo_disk) 50.
Proof.
  assert (forall b, 0 <= b < 2000 -> BBLOCK b demo_sb = 45) as E.
  { intros b Hb. unfold BBLOCK. cbn [sb_bmapstart demo_sb]. rewrite Z.div_small by (unfold BPB, BSIZE; lia). done. }
  change (d_sb demo_fs) with demo_sb. split; cbn [sb_size demo_sb].
  - lia.
  - by vm_compute.
  - intros j Hj. assert (exists n, j = Z.of_nat n /\ (n < 50)%nat) as (n & -> & Hn) by (exists (Z.to_nat j); lia).
    clear Hj. do 50 (destruct n as [|n]; [by vm_compute|]). lia.
  - unfold in_log, LOGSIZE, MAXOPBLOCKS. lia.
  - intros j Hj. rewrite E by done. lia.
Qed.

Lemma fs_log_free : free LLog fs_sync.
Proof. eexists. by vm_compute. Qed.



