(* ===== verification/InodeSpec.v ===== *)
(** * The disk inode iupdate() writes is the one ilock() reads *)

From S2P Require Import Prelude Mem KString Riscv State Spinlock Kalloc Vm Proc ProcSpec Sleeplock SleepSpec Bio Blocks BioSpec Log LogSpec Printf Fs FsSpec.

(** The bytes iupdate() writes for inode [i]. *)
Definition store_dinode (bs : list Z) (dip : Z) (i : inode) : list Z :=
  put_bytes (put32 (put16 (put16 (put16 (put16 bs (dip + DI_type) (i_type i)) (dip + DI_major) (i_major i))
    (dip + DI_minor) (i_minor i)) (dip + DI_nlink) (i_nlink i)) (dip + DI_size) (i_size i))
    (dip + DI_addrs) (concat (map (le_bytes 4) (i_addrs i))).

(** An inode whose fields have the width they have on the disk. *)
Record inode_ok (i : inode) : Prop := {
  io_type : - 2 ^ 15 <= i_type i < 2 ^ 15;
  io_major : - 2 ^ 15 <= i_major i < 2 ^ 15;
  io_minor : - 2 ^ 15 <= i_minor i < 2 ^ 15;
  io_nlink : - 2 ^ 15 <= i_nlink i < 2 ^ 15;
  io_size : 0 <= i_size i < 2 ^ 32;
  io_addrs : length (i_addrs i) = 13%nat;
  io_blocks : Forall (fun a => 0 <= a < 2 ^ 32) (i_addrs i)
}.

(** [i0] with the fields of [i] that are on the disk. *)
Definition with_fields (i i0 : inode) : inode :=
  Inode (i_dev i0) (i_inum i0) (i_ref i0) (i_valid i0) (i_type i) (i_major i) (i_minor i) (i_nlink i) (i_size i) (i_addrs i).

#[local] Ltac Zify.zify_post_hook ::= Z.to_euclidean_division_equations.

Lemma s16_u16 x : - 2 ^ 15 <= x < 2 ^ 15 -> s16 (u16 x) = x.
Proof.
  intros H. unfold wraps, wrapu. change (2 ^ (16 - 1)) with 32768. change (2 ^ 16) with 65536 in *. lia.
Qed.

Lemma length_store bs dip i : length (store_dinode bs dip i) = length bs.
Proof. unfold store_dinode. by rewrite length_put_bytes, length_put32, !length_put16. Qed.

Lemma load_store bs dip i i0 :
  inode_ok i -> 0 <= dip -> dip + DINODE_SIZE <= Z.of_nat (length bs) ->
  load_dinode (store_dinode bs dip i) dip i0 = with_fields i i0.
Proof.
  intros [H1 H2 H3 H4 H5 H6 H7] Hd Hl. unfold DINODE_SIZE in Hl. unfold load_dinode, store_dinode.
  unfold DI_type, DI_major, DI_minor, DI_nlink, DI_size, DI_addrs. rewrite Z.add_0_r.
  assert (length (concat (map (le_bytes 4) (i_addrs i))) = 52%nat) as Hw by (rewrite length_words, H6; done).
  rewrite !get16_put_bytes_ne by (rewrite ?Hw; lia). rewrite !get16_put32_ne by lia.
  rewrite (get16_put16_ne _ (dip + 6) dip), (get16_put16_ne _ (dip + 4) dip), (get16_put16_ne _ (dip + 2) dip) by lia.
  rewrite (get16_put16_ne _ (dip + 6) (dip + 2)), (get16_put16_ne _ (dip + 4) (dip + 2)) by lia.
  rewrite (get16_put16_ne _ (dip + 6) (dip + 4)) by lia.
  rewrite !get16_put16_eq by (rewrite ?length_put16; lia).
  rewrite get32_put_bytes_ne by (rewrite ?Hw; lia). rewrite get32_put32_eq by (rewrite ?length_put16; lia).
  rewrite !s16_u16, wrapu_small by done.
  match goal with |- context [set_i_addrs ?l _] => assert (l = i_addrs i) as ->; [|done] end.
  apply list_eq. intros j. rewrite list_lookup_fmap. change (seqZ 0 (NDIRECT + 1)) with (seqZ 0 13).
  destruct (i_addrs i !! j) as [a|] eqn:E.
  - pose proof (lookup_lt_Some _ _ _ E) as Hj. rewrite H6 in Hj. rewrite lookup_seqZ_lt by lia. cbn [fmap option_fmap option_map].
    f_equal. rewrite get32_put_bytes by (rewrite ?Hw, ?length_put32, ?length_put16; lia).
    replace (4 * (0 + Z.of_nat j)) with (4 * Z.of_nat j) by lia. rewrite (get32_words _ j a E).
    apply wrapu_small. rewrite Forall_forall in H7. apply H7. by eapply list_elem_of_lookup_2.
  - apply lookup_ge_None in E. rewrite lookup_seqZ_ge by lia. done.
Qed.

(** Other disk inodes of the block are left alone. *)
Lemma load_store_ne bs dip dip' i i0 :
  inode_ok i -> 0 <= dip -> 0 <= dip' -> dip + DINODE_SIZE <= dip' \/ dip' + DINODE_SIZE <= dip ->
  load_dinode (store_dinode bs dip i) dip' i0 = load_dinode bs dip' i0.
Proof.
  intros [_ _ _ _ _ H6 _] Hd Hd' Hne. unfold DINODE_SIZE in Hne. unfold load_dinode, store_dinode.
  unfold DI_type, DI_major, DI_minor, DI_nlink, DI_size, DI_addrs. rewrite !Z.add_0_r.
  assert (length (concat (map (le_bytes 4) (i_addrs i))) = 52%nat) as Hw by (rewrite length_words, H6; done).
  rewrite !get16_put_bytes_ne by (rewrite ?Hw; lia). rewrite !get16_put32_ne, !get16_put16_ne by lia.
  rewrite get32_put_bytes_ne by (rewrite ?Hw; lia). rewrite get32_put32_ne, !get32_put16_ne by lia.
  match goal with |- context [set_i_addrs ?l i0] =>
    assert (l = map (fun k => get32 bs (dip' + 12 + 4 * k)) (seqZ 0 (NDIRECT + 1))) as ->; [|done] end.
  apply map_ext_in. intros j Hj. apply list_elem_of_In, elem_of_seqZ in Hj. unfold NDIRECT in Hj.
  rewrite get32_put_bytes_ne by (rewrite ?Hw; lia). by rewrite get32_put32_ne, !get32_put16_ne by lia.
Qed.

Section Inode.
Context {I : Image} {B : Budget} {D : Disk} {DO : DiskOk D}.
Context (y : sync) (p : nat) (Hr : (0 < rounds)%nat) (Hll : free LLog y) (st : Z).

(** The place of inode [i] on the disk. *)
Record placed (sb : superblock) (C : Z -> list Z) (i : inode) : Prop := {
  pl_dev : i_dev i = ROOTDEV;
  pl_inum : 0 <= i_inum i;
  pl_range : 0 <= IBLOCK (i_inum i) sb < 2 ^ 31;
  pl_out : ~ in_log st (IBLOCK (i_inum i) sb);
  pl_len : length (C (IBLOCK (i_inum i) sb)) = Z.to_nat BSIZE
}.

Lemma dinode_range inum : 0 <= inum -> 0 <= dinode_at inum /\ dinode_at inum + DINODE_SIZE <= BSIZE.
Proof using. clear Hr. intros H. unfold dinode_at, IPB, DINODE_SIZE, BSIZE. change (1024 / 64) with 16. lia. Qed.

Lemma iupdate_run bl C R k d ip :
  let sb := d_sb d in
  let i := inode_of d ip in
  let blk := IBLOCK (i_inum i) sb in
  fsop y p st bl [] C R k d -> placed sb C i -> busy R 1 -> (forall x, R x < 2 ^ 31) -> logroom bl 1 d ->
  exists d', iupdate ip (KState y d) = Ret tt (KState y d')
    /\ fsop y p st (logged bl blk) [] (bupd C blk (store_dinode (C blk) (dinode_at (i_inum i)) i)) (pinned bl R blk) k d'
    /\ kept d d'.
Proof using Hr Hll DO.
  intros sb i blk Hf [Hdev Hin Hrange Hout Hlen] Hb Hfew Hlr. fold blk in Hrange, Hout, Hlen.
  pose proof (fo_pos _ _ _ _ _ _ _ _ _ Hf blk) as H0. pose proof (Hfew blk) as Hfb.
  unfold iupdate, getsb, geti. do 3 kstep. fold i sb. change (id sb) with sb. rewrite Hdev. fold blk.
  destruct (fo_bread y p Hr st bl [] C R k d blk Hf Hb ltac:(lia) (not_elem_of_nil _)) as (b & d1 & E1 & Hf1 & Hk1).
  rewrite (bind_Ret _ _ _ _ _ E1). kstep.
  assert (inode_of d1 ip = i) as Ei by (unfold inode_of; destruct Hk1 as (_ & -> & _); done). rewrite Ei. change (id i) with i.
  set (dip := dinode_at (i_inum i)).
  destruct (fo_set y p st _ _ _ _ k d1 b blk Hf1 (fun r => set_b_data (put16 (b_data r) (dip + DI_type) (i_type i)) r) ltac:(done)) as (d2 & E2 & Hf2 & Hk2).
  rewrite (bind_Ret _ _ _ _ _ E2).
  destruct (fo_set y p st _ _ _ _ k d2 b blk Hf2 (fun r => set_b_data (put16 (b_data r) (dip + DI_major) (i_major i)) r) ltac:(done)) as (d3 & E3 & Hf3 & Hk3).
  rewrite (bind_Ret _ _ _ _ _ E3).
  destruct (fo_set y p st _ _ _ _ k d3 b blk Hf3 (fun r => set_b_data (put16 (b_data r) (dip + DI_minor) (i_minor i)) r) ltac:(done)) as (d4 & E4 & Hf4 & Hk4).
  rewrite (bind_Ret _ _ _ _ _ E4).
  destruct (fo_set y p st _ _ _ _ k d4 b blk Hf4 (fun r => set_b_data (put16 (b_data r) (dip + DI_nlink) (i_nlink i)) r) ltac:(done)) as (d5 & E5 & Hf5 & Hk5).
  rewrite (bind_Ret _ _ _ _ _ E5).
  destruct (fo_set y p st _ _ _ _ k d5 b blk Hf5 (fun r => set_b_data (put32 (b_data r) (dip + DI_size) (i_size i)) r) ltac:(done)) as (d6 & E6 & Hf6 & Hk6).
  rewrite (bind_Ret _ _ _ _ _ E6).
  assert (kept d d6) as Hk by (repeat (eapply kept_trans; [eassumption|]); done).
  set (f := fun r => set_b_data (put_bytes (b_data r) (dip + DI_addrs) (concat (map (le_bytes 4) (i_addrs i)))) r).
  destruct (update_block y p Hll st bl _ _ R k d6 b blk f Hf6) as (d7' & d7 & E7' & E7 & Hf7 & Hk7); try done; try lia.
  { destruct Hk as (_ & _ & Es & _). unfold logroom in *. by rewrite Es. }
  { apply Hf. }
  rewrite (seq2 _ _ _ _ _ E7'). exists d7. split_and!; [exact E7| |by eapply kept_trans]. eapply fsop_ext; [exact Hf7| |done].
  intros x. unfold bupd. case_decide; [|done]. unfold f. cbn [b_data set_b_data]. fold dip.
  pose proof (fo_data y p st _ _ _ _ _ _ _ _ Hf1) as G1. pose proof (fo_data y p st _ _ _ _ _ _ _ _ Hf2) as G2.
  pose proof (fo_data y p st _ _ _ _ _ _ _ _ Hf3) as G3. pose proof (fo_data y p st _ _ _ _ _ _ _ _ Hf4) as G4.
  pose proof (fo_data y p st _ _ _ _ _ _ _ _ Hf5) as G5. pose proof (fo_data y p st _ _ _ _ _ _ _ _ Hf6) as G6.
  rewrite bupd_eq in G2, G3, G4, G5, G6. cbn [b_data set_b_data] in *.
  unfold store_dinode. by rewrite G6, G5, G4, G3, G2, G1.
Qed.

Lemma fsop_inodes bl H C R k d v :
  fsop y p st bl H C R k d -> fsop y p st bl H C R k (set_d_inodes v d).
Proof using.
  intros [[[? ? ? ? ? ? ?] [[? ? ? ? ? ? ? ?] ? ? ? ? ?] _] ? ? ? ? ? ? ?].
  split; [split; [split|split; [split|..]|apply frame_refl]|..]; assumption.
Qed.

Lemma fsop_slk bl H C R k d l f :
  (forall i, l <> SBuf i) -> fsop y p st bl H C R k d -> fsop y p st bl H C R k (upd_slk l f d).
Proof using.
  intros Hl [[[? ? ? ? ? ? ?] [[? ? ? ? ? ? Hlock ?] ? ? ? Hlocked Hpid] _] ? ? ? ? ? ? ?].
  assert (forall i, slk_of (upd_slk l f d) (SBuf i) = slk_of d (SBuf i)) as E.
  { intros i. apply slk_of_upd_ne, Hl. }
  split; [split; [split|split; [split|..]|apply frame_refl]|..]; try assumption.
  - intros i Hi Hb. apply Hlock; [done|]. unfold blocked in *. by rewrite E in Hb.
  - intros i Hi. unfold blocked. rewrite E. by apply Hlocked.
  - intros i Hi. rewrite E. by apply Hpid.
Qed.

(** ilock() of an inode that is not in memory yet. *)
Lemma ilock_run bl C R k d ip :
  let sb := d_sb d in
  let i := inode_of d ip in
  let i' := set_i_valid 1 (load_dinode (C (IBLOCK (i_inum i) sb)) (dinode_at (i_inum i)) i) in
  fsop y p st bl [] C R k d -> placed sb C i -> busy R 1 -> (forall x, R x < 2 ^ 31) ->
  (ip < length (d_inodes d))%nat -> 1 <= i_ref i -> i_valid i = 0 -> i_type i' <> 0 ->
  free (LSleep (SInode ip)) y -> slk_locked (slk_of d (SInode ip)) = 0 ->
  exists d', ilock (Some ip) (KState y d) = Ret tt (KState y d')
    /\ inode_of d' ip = i' /\ (forall j, j <> ip -> inode_of d' j = inode_of d j)
    /\ fsop y p st bl [] C R k d'.
Proof using Hr DO.
  intros sb i i' Hf [Hdev Hin Hrange Hout Hlen] Hb Hfew Hip Href Hval Hty Hfr Hsl.
  set (blk := IBLOCK (i_inum i) sb) in *. pose proof (fo_pos _ _ _ _ _ _ _ _ _ Hf blk) as H0. pose proof (Hfew blk) as Hfb.
  destruct (fo_cst _ _ _ _ _ _ _ _ _ Hf) as [[Q1 Q2 Q3 Q4 Q5 Q6 Q7] _ _].
  unfold ilock, geti, getsb. kstep. fold i. destruct (Z.ltb_spec (i_ref i) 1); [lia|].
  rewrite (bind_Ret _ _ _ _ _ (acquiresleep_run y p Q1 Q3 (SInode ip) d Hr Hfr Hsl)).
  set (d1 := upd_slk _ _ d). assert (fsop y p st bl [] C R k d1) as Hf1 by (by apply fsop_slk).
  kstep. change (inode_of d1 ip) with i. rewrite Hval. cbn [Z.eqb]. unfold when at 1. do 3 kstep.
  change (inode_of d1 ip) with i. change (id (d_sb d1)) with sb. rewrite Hdev. fold blk.
  destruct (fo_bread y p Hr st bl [] C R k d1 blk Hf1 Hb ltac:(lia) (not_elem_of_nil _)) as (b & d2 & E2 & Hf2 & Hk2).
  rewrite (bind_Ret _ _ _ _ _ E2). kstep. rewrite (fo_data y p st _ _ _ _ _ _ _ _ Hf2). unfold modi. kstep.
  set (ld := load_dinode _ _). set (d3 := upd_inode ip ld d2).
  destruct (fo_unread y p st _ _ _ _ k d3 b blk (fsop_inodes _ _ _ _ _ _ _ Hf2) R) as (d4 & E4 & Hf4 & Hk4).
  - done.
  - lia.
  - eapply abs_clean, Hf.
  - apply Hf.
  - rewrite (bind_Ret _ _ _ _ _ E4). do 2 kstep. set (d5 := upd_inode ip (set_i_valid 1) d4).
    assert (d_inodes d4 = alter ld ip (d_inodes d)) as E4i.
    { destruct Hk4 as (_ & -> & _), Hk2 as (_ & Ei2 & _). unfold d3, upd_inode. cbn. by rewrite Ei2. }
    assert (inode_of d5 ip = i') as Ei.
    { unfold inode_of, d5, upd_inode. cbn [d_inodes set_d_inodes]. rewrite E4i. apply list_lookup_total_correct.
      rewrite !list_lookup_alter_eq, list_lookup_lookup_total_lt by done. done. }
    rewrite Ei, (proj2 (Z.eqb_neq _ _) Hty). unfold when. exists d5. split_and!; [done|done| |].
    + intros j Hj. unfold inode_of, d5, upd_inode. cbn [d_inodes set_d_inodes]. rewrite E4i.
      by rewrite !list_lookup_total_alter_ne by done.
    + by apply fsop_inodes.
Qed.

End Inode.

(** ** Witness *)

#[local] Instance one_round : Budget := 1%nat.
#[local] Existing Instances sync_disk sync_disk_ok.
#[local] Existing Instance demo_image.

(** A file of 4000 bytes, inode 5 of the disk, in the first entry of the table. *)
Definition demo_inode : inode := Inode ROOTDEV 5 1 1 2 0 0 1 4000 ([60; 61; 62; 63] ++ replicate 9 0).
Definition demo_entry : inode := Inode ROOTDEV 5 1 0 0 0 0 0 0 (replicate 13 7).

Lemma demo_placed : placed 2 demo_sb (dk_blocks demo_disk) demo_inode.
Proof.
  assert (IBLOCK (i_inum demo_inode) demo_sb = 32) as E by (by vm_compute).
  split; rewrite ?E; [done|by vm_compute|by vm_compute|unfold in_log, LOGSIZE, MAXOPBLOCKS; lia|by vm_compute].
Qed.

Lemma demo_inode_ok : inode_ok demo_inode.
Proof. split; cbn; try lia. repeat (apply Forall_cons; split; [lia|]). apply Forall_nil. done. Qed.

