(* ===== verification/ContentSpec.v ===== *)
(** * The contents of a file: bmap(), readi() and writei()

    The blocks of an inode are seen as one sequence of bytes, [file_bytes].
    readi() returns a part of it; writei() overwrites and extends it, taking
    blocks from the bitmap where the file has none yet. *)

From S2P Require Import Prelude Mem KString Riscv State Spinlock Kalloc Vm Proc ProcSpec Sleeplock SleepSpec Bio Blocks BioSpec Log LogSpec Printf Fs FsSpec InodeSpec.

(** ** The blocks of an inode *)

(** The block that lists the blocks from [NDIRECT] on. *)
Definition ind_of (i : inode) : Z := i_addrs i !!! Z.to_nat NDIRECT.

(** Block [bn] of the file, 0 if it has none. *)
Definition blk_of (C : Z -> list Z) (i : inode) (bn : Z) : Z :=
  if bn <? NDIRECT then i_addrs i !!! Z.to_nat bn
  else if ind_of i =? 0 then 0
  else get32 (C (ind_of i)) (4 * (bn - NDIRECT)).

Definition byte_at (C : Z -> list Z) (i : inode) (j : Z) : Z :=
  C (blk_of C i (j / BSIZE)) !!! Z.to_nat (j mod BSIZE).

Definition file_bytes (C : Z -> list Z) (i : inode) : list Z := byte_at C i <$> seqZ 0 (i_size i).

(** What a reader relies on: every block below the size exists. *)
Record readable (C : Z -> list Z) (i : inode) : Prop := {
  rd_dev : i_dev i = ROOTDEV;
  rd_size : 0 <= i_size i <= MAXFILE * BSIZE;
  rd_blk : forall bn, 0 <= bn -> bn * BSIZE < i_size i -> blk_of C i bn <> 0 /\ length (C (blk_of C i bn)) = Z.to_nat BSIZE
}.

(** [n] more blocks can be logged. *)
Record budget (n : nat) (bl : list Z) (R : Z -> Z) (d : data) : Prop := {
  bu_busy : busy R n;
  bu_room : logroom bl (Z.of_nat n) d;
  bu_few : forall x, R x + Z.of_nat n < 2 ^ 31
}.

Lemma budget_kept n bl R d d' : kept d d' -> budget n bl R d -> budget n bl R d'.
Proof. intros (_ & _ & Es & _) [H1 H2 H3]. split; [done| |done]. unfold logroom in *. by rewrite Es. Qed.

Lemma budget_weak n m bl R d : (m <= n)%nat -> budget n bl R d -> budget m bl R d.
Proof.
  intros Hm [(l & H1 & H2) [H3 H4] H5]. split; [exists l; split; [done|lia]|split; lia|]. intros x. specialize (H5 x). lia.
Qed.

#[local] Ltac Zify.zify_post_hook ::= Z.to_euclidean_division_equations.

(** A part of a block is a part of the file. *)
Lemma block_bytes C i off m :
  0 <= off -> 0 <= m -> off mod BSIZE + m <= BSIZE -> length (C (blk_of C i (off / BSIZE))) = Z.to_nat BSIZE ->
  take (Z.to_nat m) (drop (Z.to_nat (off mod BSIZE)) (C (blk_of C i (off / BSIZE)))) = byte_at C i <$> seqZ off m.
Proof.
  intros H0 Hm Hb Hlen. apply list_eq. intros j. rewrite list_lookup_fmap.
  unfold BSIZE in *. destruct (decide (j < Z.to_nat m)%nat) as [Hj|Hj].
  - rewrite lookup_take_lt, lookup_drop by done. rewrite lookup_seqZ_lt by lia. cbn.
    unfold byte_at, BSIZE. replace ((off + Z.of_nat j) / 1024) with (off / 1024) by lia.
    rewrite list_lookup_lookup_total_lt by lia. f_equal. f_equal. lia.
  - rewrite lookup_take_ge by lia. rewrite lookup_seqZ_ge by lia. done.
Qed.

Lemma file_part C i off n :
  0 <= off -> 0 <= n -> off + n <= i_size i ->
  take (Z.to_nat n) (drop (Z.to_nat off) (file_bytes C i)) = byte_at C i <$> seqZ off n.
Proof.
  intros Ho Hn Hs. unfold file_bytes. rewrite <- fmap_drop, <- fmap_take. f_equal.
  apply list_eq. intros j. destruct (decide (j < Z.to_nat n)%nat) as [Hj|Hj].
  - rewrite lookup_take_lt, lookup_drop by done. rewrite !lookup_seqZ_lt by lia. f_equal. lia.
  - rewrite lookup_take_ge by lia. by rewrite lookup_seqZ_ge by lia.
Qed.

Lemma length_file C i : length (file_bytes C i) = Z.to_nat (i_size i).
Proof. unfold file_bytes. by rewrite length_fmap, length_seqZ. Qed.

Section Read.
Context {I : Image} {B : Budget} {D : Disk} {DO : DiskOk D}.
Context (y : sync) (p : nat) (Hr : (0 < rounds)%nat) (st : Z).

Lemma fo_ok bl H C R k d : fsop y p st bl H C R k d -> sync_ok y.
Proof using. intros [[[? _ _ _ _ _ _] _ _] _ _ _ _ _ _ _]. done. Qed.

Lemma fo_cur bl H C R k d : fsop y p st bl H C R k d -> c_proc (curcpu y) = Some p.
Proof using. intros [[[_ _ ? _ _ _ _] _ _] _ _ _ _ _ _ _]. done. Qed.

(** A block is read and released. *)
Lemma read_block bl C R k d bno :
  fsop y p st bl [] C R k d -> budget 1 bl R d ->
  exists b d1 d2, bread ROOTDEV bno (KState y d) = Ret b (KState y d1)
    /\ b_data (buf_of d1 b) = C bno /\ kept d d1
    /\ brelse b (KState y d1) = Ret tt (KState y d2) /\ fsop y p st bl [] C R k d2 /\ kept d d2.
Proof using Hr DO.
  intros Hf [Hb _ Hfew]. specialize (Hfew bno).
  destruct (fo_bread y p Hr st bl [] C R k d bno Hf Hb ltac:(lia) (not_elem_of_nil _)) as (b & d1 & E1 & Hf1 & Hk1).
  destruct (fo_unread y p st _ _ _ _ k d1 b bno Hf1 R) as (d2 & E2 & Hf2 & Hk2); [done|lia| |apply Hf|].
  { eapply abs_clean, Hf. }
  exists b, d1, d2. split_and!; try done; [|by eapply kept_trans]. eapply fo_data, Hf1.
Qed.

(** bmap() of a block that exists. *)
Lemma bmap_mapped bl C R k d ip bn :
  let i := inode_of d ip in
  fsop y p st bl [] C R k d -> budget 1 bl R d -> i_dev i = ROOTDEV -> 0 <= bn < MAXFILE -> blk_of C i bn <> 0 ->
  exists d', bmap ip bn (KState y d) = Ret (blk_of C i bn) (KState y d') /\ fsop y p st bl [] C R k d' /\ kept d d'.
Proof using Hr DO.
  intros i Hf Hb Hdev Hbn Hnz. unfold bmap, blk_of in *. unfold MAXFILE in Hbn. destruct (Z.ltb_spec bn NDIRECT) as [Hd|Hd].
  { unfold bmap_slot, get_addr, geti. kstep. fold i. rewrite (proj2 (Z.eqb_neq _ _) Hnz). exists d. by split_and!. }
  destruct (Z.eqb_spec (ind_of i) 0) as [|Hi]; [done|].
  destruct (Z.ltb_spec (bn - NDIRECT) NINDIRECT); [|lia].
  assert (bmap_slot ip NDIRECT (KState y d) = Ret (ind_of i) (KState y d)) as Es.
  { unfold bmap_slot, get_addr, geti. kstep. fold i. fold (ind_of i). by rewrite (proj2 (Z.eqb_neq _ _) Hi). }
  rewrite (bind_Ret _ _ _ _ _ Es), (proj2 (Z.eqb_neq _ _) Hi). unfold geti. kstep. fold i. rewrite Hdev.
  destruct (read_block bl C R k d (ind_of i) Hf Hb) as (b & d1 & d2 & E1 & Ed & Hk1 & E2 & Hf2 & Hk2).
  rewrite (bind_Ret _ _ _ _ _ E1). kstep. rewrite Ed, (proj2 (Z.eqb_neq _ _) Hnz). kstep.
  rewrite (bind_Ret _ _ _ _ _ E2). exists d2. by split_and!.
Qed.

Lemma readi_loop_run C R k bl ip i : forall fuel d off n tot acc,
  fsop y p st bl [] C R k d -> budget 1 bl R d -> inode_of d ip = i -> readable C i ->
  0 <= off -> 0 <= tot <= n -> off + (n - tot) <= i_size i ->
  (0 < fuel)%nat -> (tot < n -> off mod BSIZE + (n - tot) <= (Z.of_nat fuel - 1) * BSIZE) ->
  exists d', readi_loop fuel ip ToLocal off n tot acc (KState y d)
      = Ret (n, acc ++ (byte_at C i <$> seqZ off (n - tot))) (KState y d')
    /\ fsop y p st bl [] C R k d' /\ kept d d'.
Proof using Hr DO.
  induction fuel as [|fuel IH]; intros d off n tot acc Hf Hb Ei Hrd Ho Ht Hs Hf0 Hfu; [lia|].
  cbn [readi_loop]. destruct (Z.ltb_spec tot n) as [Hlt|Hge].
  2: { replace tot with n by lia. rewrite Z.sub_diag. cbn. rewrite app_nil_r. exists d. by split_and!. }
  pose proof (rd_size _ _ Hrd) as Hsz. destruct (rd_blk _ _ Hrd (off / BSIZE)) as [Hnz Hlen]; [unfold BSIZE; lia..|].
  destruct (bmap_mapped bl C R k d ip (off / BSIZE)) as (d1 & E1 & Hf1 & Hk1); rewrite ?Ei; try done.
  { apply Hrd. } { unfold BSIZE in *. lia. }
  rewrite (bind_Ret _ _ _ _ _ E1), Ei, (proj2 (Z.eqb_neq _ _) Hnz). unfold geti. kstep.
  assert (inode_of d1 ip = i) as Ei1 by (unfold inode_of; destruct Hk1 as (_ & -> & _); done).
  rewrite Ei1, (rd_dev _ _ Hrd).
  destruct (read_block bl C R k d1 (blk_of C i (off / BSIZE)) Hf1 (budget_kept _ _ _ _ _ Hk1 Hb)) as (b & d2 & d3 & E2 & Ed & Hk2 & E3 & Hf3 & Hk3).
  rewrite (bind_Ret _ _ _ _ _ E2). set (m := Z.min (n - tot) (BSIZE - off mod BSIZE)). kstep. rewrite Ed.
  assert (0 < m <= n - tot /\ off mod BSIZE + m <= BSIZE) as Hm by (unfold m, BSIZE; lia).
  assert (either_copyout ToLocal (take (Z.to_nat m) (drop (Z.to_nat (off mod BSIZE)) (C (blk_of C i (off / BSIZE))))) (KState y d2)
    = Ret (0, byte_at C i <$> seqZ off m) (KState y d2)) as Ec.
  { rewrite block_bytes by (done || lia). pose proof (fo_ok _ _ _ _ _ _ Hf). unfold either_copyout. by kstep. }
  rewrite (bind_Ret _ _ _ _ _ Ec), (bind_Ret _ _ _ _ _ E3). cbn [Z.eqb dest_add].
  rewrite (wrapu_small 32) by (unfold MAXFILE, NDIRECT, NINDIRECT, BSIZE in *; lia).
  assert (kept d d3) as Hk by (by eapply kept_trans).
  destruct (IH d3 (off + m) n (tot + m) (acc ++ (byte_at C i <$> seqZ off m))) as (d4 & E4 & Hf4 & Hk4); try done.
  - by eapply budget_kept.
  - unfold inode_of in *. destruct Hk as (_ & -> & _). done.
  - lia.
  - lia.
  - lia.
  - specialize (Hfu Hlt). unfold BSIZE in *. lia.
  - intros Hlt'. specialize (Hfu Hlt). assert (m = BSIZE - off mod BSIZE) by (unfold m in *; lia). unfold BSIZE in *. lia.
  - exists d4. split_and!; [|done|by eapply kept_trans]. rewrite E4. do 2 f_equal. rewrite <- app_assoc, <- fmap_app. do 2 f_equal.
    replace (n - tot) with (m + (n - (tot + m))) by lia. symmetry. apply seqZ_app; lia.
Qed.

Lemma readi_run bl C R k d ip off n :
  let i := inode_of d ip in
  let bytes := take (Z.to_nat n) (drop (Z.to_nat off) (file_bytes C i)) in
  fsop y p st bl [] C R k d -> budget 1 bl R d -> readable C i -> 0 <= off -> 0 <= n -> off + n < 2 ^ 32 ->
  exists d', readi ip ToLocal off n (KState y d) = Ret (Z.of_nat (length bytes), bytes) (KState y d')
    /\ fsop y p st bl [] C R k d' /\ kept d d'.
Proof using Hr DO.
  intros i bytes Hf Hb Hrd Ho Hn Hov. pose proof (rd_size _ _ Hrd) as Hsz.
  unfold readi, geti. kstep. fold i. rewrite (wrapu_small 32) by lia.
  destruct (Z.ltb_spec (i_size i) off) as [Hgt|Hle]; cbn [orb].
  { exists d. split_and!; [|done|done]. unfold bytes. rewrite drop_ge by (rewrite length_file; lia). by rewrite take_nil. }
  destruct (Z.ltb_spec (off + n) off); [lia|].
  set (n' := if i_size i <? off + n then i_size i - off else n).
  assert (0 <= n' <= n /\ off + n' <= i_size i /\ (n' < n -> n' = i_size i - off)) as (Hn' & Hs' & Hcut) by (unfold n'; destruct (Z.ltb_spec (i_size i) (off + n)); lia).
  assert (bytes = byte_at C i <$> seqZ off n') as Eb.
  { rewrite <- file_part by lia. unfold bytes. destruct (decide (n' < n)) as [Hc|]; [|by replace n' with n by lia].
    rewrite !take_ge; [done|rewrite length_drop, length_file..]; lia. }
  destruct (readi_loop_run C R k bl ip i (Z.to_nat (n' / BSIZE) + 3) d off n' 0 []) as (d' & E & Hf' & Hk'); try done; try lia.
  { unfold BSIZE in *. lia. }
  rewrite (bind_Ret _ _ _ _ _ E). exists d'. split_and!; [|done|done].
  rewrite Z.sub_0_r, Eb, length_fmap, length_seqZ. cbn [app].
  rewrite wraps_small by (unfold MAXFILE, NDIRECT, NINDIRECT, BSIZE in *; lia). by rewrite Z2Nat.id by lia.
Qed.

End Read.

(** ** Taking blocks from the bitmap *)

(** Block [a] is not part of the metadata. *)
Record plain (st : Z) (sb : superblock) (a : Z) : Prop := {
  pn_log : ~ in_log st a;
  pn_bmap : forall j, 0 <= j < sb_size sb -> BBLOCK j sb <> a;
  pn_inode : forall inum, 0 <= inum < sb_ninodes sb -> IBLOCK inum sb <> a
}.

(** Block 0 and the metadata are never free. *)
Record fs_ok (st : Z) (sb : superblock) (C : Z -> list Z) : Prop := {
  fk_geo : geometry st sb C;
  fk_free : forall j, 0 <= j < sb_size sb -> used_at C sb j = false -> 0 < j /\ plain st sb j;
  fk_sep : forall inum j, 0 <= inum < sb_ninodes sb -> 0 <= j < sb_size sb -> IBLOCK inum sb <> BBLOCK j sb
}.

(** There are [m] free blocks. *)
Definition frees (m : nat) (sb : superblock) (C : Z -> list Z) : Prop :=
  exists l : list Z, NoDup l /\ length l = m /\ forall j, j ∈ l -> 0 <= j < sb_size sb /\ used_at C sb j = false.

(** A block that belongs to a file. *)
Record inuse (st : Z) (sb : superblock) (C : Z -> list Z) (a : Z) : Prop := {
  iu_range : 0 <= a < sb_size sb;
  iu_used : used_at C sb a = true;
  iu_plain : plain st sb a;
  iu_len : length (C a) = Z.to_nat BSIZE
}.

(** The allocation of [t]. *)
Record allocated (st : Z) (sb : superblock) (C C' : Z -> list Z) (t : Z) : Prop := {
  al_pos : 0 < t;
  al_was : used_at C sb t = false;
  al_inuse : inuse st sb C' t;
  al_zero : C' t = replicate (Z.to_nat BSIZE) 0;
  al_same : forall a, inuse st sb C a -> C' a = C a /\ inuse st sb C' a;
  al_meta : forall inum, 0 <= inum < sb_ninodes sb -> C' (IBLOCK inum sb) = C (IBLOCK inum sb);
  al_ok : fs_ok st sb C'
}.

Lemma least_true (P : Z -> bool) n : 0 <= n -> P n = true -> exists t, 0 <= t <= n /\ P t = true /\ forall j, 0 <= j < t -> P j = false.
Proof.
  intros H0 Hn. assert (forall k : nat, (forall j, 0 <= j < Z.of_nat k -> P j = false)
    \/ exists t, 0 <= t < Z.of_nat k /\ P t = true /\ forall j, 0 <= j < t -> P j = false) as H.
  { induction k as [|k [IH|(t & Ht & H)]]; [left; lia| |right; exists t; split; [lia|done]].
    destruct (P (Z.of_nat k)) eqn:E; [right; exists (Z.of_nat k); split; [lia|done]|left].
    intros j Hj. destruct (decide (j = Z.of_nat k)) as [->|]; [done|]. apply IH. lia. }
  destruct (H (Z.to_nat (n + 1))) as [Hno|(t & Ht & H')]; [rewrite Hno in Hn by lia; done|].
  exists t. split; [lia|done].
Qed.

Lemma lowest_exists st sb C m :
  fs_ok st sb C -> frees (S m) sb C -> exists t, lowest_free st sb C t /\ 0 < t.
Proof.
  intros [Hg Hf _] (l & _ & Hl & Hfr). destruct l as [|j l]; [done|]. destruct (Hfr j ltac:(by left)) as [Hj Hu].
  destruct (least_true (fun t => negb (used_at C sb t)) j) as (t & Ht & Hut & Hlow); [lia|by rewrite Hu|].
  apply negb_true_iff in Hut. destruct (Hf t ltac:(lia) Hut) as [Hpos [P1 P2 P3]].
  exists t. split; [|done]. split; [lia|done| |done|done]. intros i Hi. apply negb_false_iff, Hlow, Hi.
Qed.

Lemma frees_alloc m sb C C' t :
  frees (S m) sb C -> (forall j, 0 <= j < sb_size sb -> used_at C' sb j = if j =? t then true else used_at C sb j) -> frees m sb C'.
Proof.
  intros (l & Hn & Hl & Hfr) Hu. destruct (decide (t ∈ l)) as [Hin|Hin].
  - apply list_elem_of_split in Hin as (l1 & l2 & ->). exists (l1 ++ l2). rewrite length_app in *. cbn in Hl. split_and!; [|lia|].
    + apply NoDup_app in Hn as (N1 & N2 & N3). apply NoDup_cons in N3 as [N3 N4]. apply NoDup_app. split_and!; [done| |done].
      intros x Hx Hx2. apply (N2 x Hx). by right.
    + intros j Hj. assert (j ∈ l1 ++ t :: l2 /\ j <> t) as [Hj' Hne].
      { split; [set_solver|]. intros ->. apply NoDup_app in Hn as (_ & N2 & [N3 _]%NoDup_cons).
        apply elem_of_app in Hj as [Hj|Hj]; [apply (N2 t Hj); by left|done]. }
      destruct (Hfr j Hj') as [Hr Hf]. split; [done|]. rewrite Hu by done. by rewrite (proj2 (Z.eqb_neq _ _) Hne).
  - destruct l as [|j l]; [done|]. apply NoDup_cons in Hn as [_ Hn]. cbn in Hl. exists l. split_and!; [done|lia|].
    intros i Hi. destruct (Hfr i ltac:(by right)) as [Hr Hf]. split; [done|]. rewrite Hu by done.
    rewrite (proj2 (Z.eqb_neq _ _)); [done|]. intros ->. apply Hin. by right.
Qed.

(** ** The blocks a file owns *)

(** Slot [MAXFILE] is the block that lists the others. *)
Definition own (C : Z -> list Z) (i : inode) (s : Z) : Z := if s =? MAXFILE then ind_of i else blk_of C i s.

Record owned (st : Z) (sb : superblock) (C : Z -> list Z) (i : inode) : Prop := {
  ow_dev : i_dev i = ROOTDEV;
  ow_addrs : length (i_addrs i) = 13%nat;
  ow_size : 0 <= i_size i <= MAXFILE * BSIZE;
  ow_mapped : forall bn, 0 <= bn -> bn * BSIZE < i_size i -> blk_of C i bn <> 0;
  ow_block : forall s, 0 <= s <= MAXFILE -> own C i s <> 0 -> inuse st sb C (own C i s);
  ow_inj : forall s s', 0 <= s <= MAXFILE -> 0 <= s' <= MAXFILE -> own C i s <> 0 -> own C i s = own C i s' -> s = s'
}.

(** Blocks are added to the file; what it has, and the other files, stay. *)
Record evolves (st : Z) (sb : superblock) (C : Z -> list Z) (i : inode) (C' : Z -> list Z) (i' : inode) : Prop := {
  ev_fields : i' = set_i_addrs (i_addrs i') i;
  ev_own : forall s, 0 <= s <= MAXFILE -> own C i s <> 0 -> own C' i' s = own C i s;
  ev_data : forall bn, 0 <= bn < MAXFILE -> blk_of C i bn <> 0 -> C' (blk_of C i bn) = C (blk_of C i bn);
  ev_other : forall a, inuse st sb C a -> (forall s, 0 <= s <= MAXFILE -> own C i s <> a) ->
    C' a = C a /\ inuse st sb C' a /\ forall s, 0 <= s <= MAXFILE -> own C' i' s <> a;
  ev_inodes : forall inum, 0 <= inum < sb_ninodes sb -> C' (IBLOCK inum sb) = C (IBLOCK inum sb)
}.

Lemma own_blk C i bn : 0 <= bn < MAXFILE -> own C i bn = blk_of C i bn.
Proof. intros H. unfold own. by rewrite (proj2 (Z.eqb_neq bn MAXFILE)) by lia. Qed.

Lemma own_ind C i : own C i MAXFILE = ind_of i.
Proof. unfold own. by rewrite Z.eqb_refl. Qed.

Lemma set_addrs_same i : set_i_addrs (i_addrs i) i = i.
Proof. by destruct i. Qed.

Lemma evolves_refl st sb C i : evolves st sb C i C i.
Proof. split; try done. by rewrite set_addrs_same. Qed.

Lemma evolves_trans st sb C i C1 i1 C2 i2 :
  evolves st sb C i C1 i1 -> evolves st sb C1 i1 C2 i2 -> evolves st sb C i C2 i2.
Proof.
  intros [E1 E2 E3 E4 E5] [F1 F2 F3 F4 F5]. split.
  - rewrite F1 at 1. rewrite E1. done.
  - intros s Hs Hn. specialize (E2 s Hs Hn). rewrite F2; [done|done|congruence].
  - intros bn Hbn Hn. assert (blk_of C1 i1 bn = blk_of C i bn) as E by (rewrite <- !own_blk by done; apply E2; [lia|by rewrite own_blk]).
    rewrite <- (E3 bn Hbn Hn), <- E. apply F3; [done|]. by rewrite E.
  - intros a Ha Hn. destruct (E4 a Ha Hn) as (A1 & A2 & A3). destruct (F4 a A2 A3) as (B1 & B2 & B3). split_and!; [congruence|done|done].
  - intros inum Hi. by rewrite F5, E5.
Qed.

Lemma owned_readable st sb C i : owned st sb C i -> readable C i.
Proof.
  intros [H1 H2 H3 H4 H5 H6]. split; [done|done|]. intros bn H0 Hbn. assert (bn < MAXFILE) by (unfold BSIZE in *; lia).
  specialize (H4 bn H0 Hbn). split; [done|]. specialize (H5 bn ltac:(lia)). rewrite own_blk in H5 by lia. by apply H5.
Qed.

(** *** Changes outside the bitmap *)

Section Ext.
Context (st : Z) (sb : superblock) (C C' : Z -> list Z) (Hbm : forall j, 0 <= j < sb_size sb -> C' (BBLOCK j sb) = C (BBLOCK j sb)).

Lemma used_ext j : 0 <= j < sb_size sb -> used_at C' sb j = used_at C sb j.
Proof using Hbm. intros Hj. unfold used_at. by rewrite Hbm. Qed.

Lemma fs_ok_ext : fs_ok st sb C -> fs_ok st sb C'.
Proof using Hbm.
  intros [[G1 G2 G3 G4] H2 H3]. split; [split; try done| |done].
  - intros b Hb. rewrite Hbm by done. auto.
  - intros j Hj. rewrite used_ext by done. auto.
Qed.

Lemma frees_ext m : frees m sb C -> frees m sb C'.
Proof using Hbm.
  intros (l & H1 & H2 & H3). exists l. split_and!; [done|done|]. intros j Hj. destruct (H3 j Hj) as [Hr Hu].
  split; [done|]. by rewrite used_ext.
Qed.

Lemma inuse_ext a : length (C' a) = length (C a) -> inuse st sb C a -> inuse st sb C' a.
Proof using Hbm. intros Hl [H1 H2 H3 H4]. split; [done|by rewrite used_ext|done|by rewrite Hl]. Qed.
End Ext.

(** *** Taking a block *)

Lemma allocated_file st sb C C1 t i :
  allocated st sb C C1 t -> owned st sb C i ->
  (forall s, 0 <= s <= MAXFILE -> own C1 i s = own C i s /\ own C i s <> t) /\ owned st sb C1 i /\ evolves st sb C i C1 i.
Proof.
  intros [A1 A2 A3 A4 A5 A6 A7] Ho. pose proof Ho as [H1 H2 H3 H4 H5 H6].
  assert (forall bn, blk_of C1 i bn = blk_of C i bn) as Eb.
  { intros bn. unfold blk_of. destruct (bn <? NDIRECT); [done|]. destruct (Z.eqb_spec (ind_of i) 0) as [|Hi]; [done|].
    specialize (H5 MAXFILE ltac:(unfold MAXFILE, NDIRECT, NINDIRECT, BSIZE; lia)). rewrite own_ind in H5. by destruct (A5 _ (H5 Hi)) as [-> _]. }
  assert (forall s, own C1 i s = own C i s) as Eo by (intros s; unfold own; by rewrite Eb).
  assert (forall s, 0 <= s <= MAXFILE -> own C i s <> t) as Hnt.
  { intros s Hs ->%symmetry. assert (own C i s <> 0) as Hn by lia. destruct (H5 s Hs Hn) as [_ Hu _ _]. congruence. }
  split; [intros s Hs; split; auto|]. split.
  - split; try done.
    + intros bn. rewrite Eb. auto.
    + intros s Hs. rewrite Eo. intros Hn. by apply A5, H5.
    + intros s s'. rewrite !Eo. auto.
  - split; try done.
    + by rewrite set_addrs_same.
    + intros bn Hbn Hn. destruct (A5 (blk_of C i bn)) as [E _]; [|done]. rewrite <- own_blk in * by done. by apply H5; [lia|].
    + intros a Ha Hno. destruct (A5 a Ha) as [E1 E2]. split_and!; [done|done|]. intros s Hs. rewrite Eo. auto.
Qed.

(** The new block [t] becomes slot [s0] of the file. *)
Lemma add_slot st sb C C1 i C2 i' s0 t :
  allocated st sb C C1 t -> owned st sb C i -> 0 <= s0 <= MAXFILE -> own C i s0 = 0 ->
  i' = set_i_addrs (i_addrs i') i -> length (i_addrs i') = 13%nat ->
  (forall s, 0 <= s <= MAXFILE -> own C2 i' s = if s =? s0 then t else own C i s) ->
  (forall a, (ind_of i <> 0 -> a <> ind_of i) -> C2 a = C1 a) -> (forall a, length (C2 a) = length (C1 a)) ->
  owned st sb C2 i' /\ evolves st sb C i C2 i' /\ fs_ok st sb C2 /\ (forall m, frees m sb C1 -> frees m sb C2) /\ inuse st sb C2 t.
Proof.
  intros Ha Ho Hs0 H0 Ei Hl Hown Hsame Hlen. destruct (allocated_file _ _ _ _ _ _ Ha Ho) as (Ho1 & Ho2 & Hev).
  pose proof Ho as [P1 P2 P3 P4 P5 P6]. pose proof Ha as [A1 A2 A3 A4 A5 A6 A7].
  assert (ind_of i <> 0 -> inuse st sb C (ind_of i)) as Hind.
  { intros Hi. rewrite <- (own_ind C). apply P5; [unfold MAXFILE, NDIRECT, NINDIRECT, BSIZE; lia|]. by rewrite own_ind. }
  assert (forall j, 0 <= j < sb_size sb -> C2 (BBLOCK j sb) = C1 (BBLOCK j sb)) as Hbm.
  { intros j Hj. apply Hsame. intros Hi. destruct (Hind Hi) as [_ _ [_ Hp _] _]. by apply Hp. }
  assert (forall a, inuse st sb C1 a -> inuse st sb C2 a) as Hiu by (intros a; by apply inuse_ext).
  assert (forall a, inuse st sb C a -> (ind_of i <> 0 -> a <> ind_of i) -> C2 a = C a) as Hsame0.
  { intros a Hu Hn. rewrite Hsame by done. by apply A5. }
  split_and!.
  - assert (i_dev i' = i_dev i /\ i_size i' = i_size i) as [Ed Es] by (rewrite Ei; done). split; rewrite ?Ed, ?Es; try done.
    + intros bn H1 H2. assert (bn < MAXFILE) by (unfold BSIZE in *; lia).
      rewrite <- own_blk by lia. rewrite Hown by lia. destruct (Z.eqb_spec bn s0); [lia|]. rewrite own_blk by lia. by apply P4.
    + intros s Hs. rewrite Hown by done. destruct (Z.eqb_spec s s0); [auto|]. intros Hn. apply Hiu, A5, P5; done.
    + intros s s' Hs Hs'. rewrite !Hown by done. destruct (Z.eqb_spec s s0), (Z.eqb_spec s' s0); subst; try done; intros Hn E.
      * by destruct (proj2 (Ho1 s' Hs')).
      * by destruct (proj2 (Ho1 s Hs)).
      * by apply P6.
  - split.
    + done.
    + intros s Hs Hn. rewrite Hown by done. destruct (Z.eqb_spec s s0); [subst; done|done].
    + intros bn Hbn Hn. rewrite <- own_blk in Hn |- * by done. apply Hsame0; [by apply P5; [lia|]|]. intros Hi Eq.
      rewrite <- (own_ind C) in Eq. assert (bn = MAXFILE); [|lia]. apply P6; try done; unfold MAXFILE, NDIRECT, NINDIRECT, BSIZE in *; lia.
    + intros a Hu Hno. split_and!.
      * apply Hsame0; [done|]. intros Hi. rewrite <- (own_ind C). apply not_eq_sym, Hno. unfold MAXFILE, NDIRECT, NINDIRECT, BSIZE; lia.
      * by apply Hiu, A5.
      * intros s Hs. rewrite Hown by done. destruct (Z.eqb_spec s s0); [|by apply Hno]. intros ->. destruct Hu as [_ Hu _ _]. congruence.
    + intros inum Hi. rewrite Hsame, A6; [done|done|]. intros Hx. by apply (Hind Hx).
  - by eapply fs_ok_ext.
  - intros m. by apply frees_ext.
  - by apply Hiu.
Qed.

Lemma addrs_insert i k t : length (i_addrs i) = 13%nat -> 0 <= k <= NDIRECT -> forall j, 0 <= j <= NDIRECT ->
  i_addrs (set_i_addrs (<[Z.to_nat k := t]> (i_addrs i)) i) !!! Z.to_nat j = if j =? k then t else i_addrs i !!! Z.to_nat j.
Proof.
  intros Hl Hk j Hj. unfold NDIRECT in *. cbn [i_addrs set_i_addrs]. destruct (Z.eqb_spec j k) as [->|Hne].
  - apply list_lookup_total_insert_eq. lia.
  - apply list_lookup_total_insert_ne. lia.
Qed.

Lemma get32_zeros n o : 0 <= o -> o + 4 <= Z.of_nat n -> get32 (replicate n 0) o = 0.
Proof. intros H0 Hn. unfold get32. by rewrite !lookup_total_replicate_2 by lia. Qed.

(** The slot of [addrs[k]]. *)
Definition slot (k : Z) : Z := if k =? NDIRECT then MAXFILE else k.

Lemma slot_range k : 0 <= k <= NDIRECT -> 0 <= slot k <= MAXFILE.
Proof. intros H. unfold slot. destruct (Z.eqb_spec k NDIRECT); unfold MAXFILE, NDIRECT, NINDIRECT, BSIZE in *; lia. Qed.

Lemma own_slot C i k : 0 <= k <= NDIRECT -> own C i (slot k) = i_addrs i !!! Z.to_nat k.
Proof.
  intros Hk. unfold slot, own. destruct (Z.eqb_spec k NDIRECT) as [->|Hne]; [by rewrite Z.eqb_refl|].
  rewrite (proj2 (Z.eqb_neq k MAXFILE)) by (unfold MAXFILE, NDIRECT, NINDIRECT, BSIZE in *; lia). unfold blk_of.
  by rewrite (proj2 (Z.ltb_lt _ _)) by lia.
Qed.

(** [addrs[k]] receives the new block. *)
Lemma add_addr st sb C C1 i k t :
  allocated st sb C C1 t -> owned st sb C i -> 0 <= k <= NDIRECT -> i_addrs i !!! Z.to_nat k = 0 ->
  let i' := set_i_addrs (<[Z.to_nat k := t]> (i_addrs i)) i in
  forall s, 0 <= s <= MAXFILE -> own C1 i' s = if s =? slot k then t else own C i s.
Proof.
  intros Ha Ho Hk H0 i' s Hs. destruct (allocated_file _ _ _ _ _ _ Ha Ho) as (Ho1 & _ & _).
  pose proof (addrs_insert i k t (ow_addrs _ _ _ _ Ho) Hk) as Hin. fold i' in Hin.
  destruct (Z.eqb_spec s (slot k)) as [->|Hne]; [rewrite own_slot, Hin, Z.eqb_refl; done|].
  destruct (Ho1 s Hs) as [<- _]. unfold own. destruct (Z.eqb_spec s MAXFILE) as [->|Hs'].
  { unfold ind_of. rewrite Hin by (unfold NDIRECT; lia). destruct (Z.eqb_spec NDIRECT k) as [<-|]; [|done].
    destruct Hne. unfold slot. by rewrite Z.eqb_refl. }
  unfold blk_of. destruct (Z.ltb_spec s NDIRECT) as [Hd|Hd].
  { rewrite Hin by lia. destruct (Z.eqb_spec s k) as [->|]; [|done]. destruct Hne. unfold slot.
    by rewrite (proj2 (Z.eqb_neq k NDIRECT)) by lia. }
  unfold ind_of. rewrite !Hin by (unfold NDIRECT; lia). destruct (Z.eqb_spec NDIRECT k) as [Ek|]; [|done].
  rewrite <- Ek in H0. rewrite H0. cbn [Z.eqb]. destruct (Z.eqb_spec t 0); [done|].
  rewrite (al_zero _ _ _ _ _ Ha). apply get32_zeros; unfold MAXFILE, NDIRECT, NINDIRECT, BSIZE in *; lia.
Qed.

(** An entry of the list of blocks receives the new block. *)
Lemma add_listed st sb C C1 i bn t :
  allocated st sb C C1 t -> owned st sb C i -> NDIRECT <= bn < MAXFILE -> ind_of i <> 0 -> t < 2 ^ 32 ->
  let C2 := bupd C1 (ind_of i) (put32 (C1 (ind_of i)) (4 * (bn - NDIRECT)) t) in
  forall s, 0 <= s <= MAXFILE -> own C2 i s = if s =? bn then t else own C i s.
Proof.
  intros Ha Ho Hbn Hi Ht C2 s Hs. destruct (allocated_file _ _ _ _ _ _ Ha Ho) as (Ho1 & Ho2 & _).
  assert (length (C1 (ind_of i)) = Z.to_nat BSIZE) as Hl.
  { rewrite <- (own_ind C1). apply (ow_block _ _ _ _ Ho2); [unfold MAXFILE, NDIRECT, NINDIRECT, BSIZE; lia|]. by rewrite own_ind. }
  destruct (Ho1 s Hs) as [<- _]. unfold own. destruct (Z.eqb_spec s MAXFILE) as [->|Hs'].
  { by rewrite (proj2 (Z.eqb_neq MAXFILE bn)) by lia. }
  unfold blk_of. destruct (Z.ltb_spec s NDIRECT) as [Hd|Hd].
  { by rewrite (proj2 (Z.eqb_neq s bn)) by lia. }
  rewrite (proj2 (Z.eqb_neq _ _) Hi). unfold C2. rewrite bupd_eq. pose proof (al_pos _ _ _ _ _ Ha).
  assert (4 * (bn - NDIRECT) + 4 <= Z.of_nat (length (C1 (ind_of i)))) by (rewrite Hl; unfold MAXFILE, NDIRECT, NINDIRECT, BSIZE in *; lia).
  destruct (Z.eqb_spec s bn) as [->|Hne].
  - rewrite get32_put32_eq, wrapu_small by lia. done.
  - apply get32_put32_ne; lia.
Qed.

(** *** Writing to a block of the file *)

(** The file keeps its blocks and may have new ones; the other files stay. *)
Record extends (st : Z) (sb : superblock) (C : Z -> list Z) (i : inode) (C' : Z -> list Z) (i' : inode) : Prop := {
  ex_fields : i' = set_i_addrs (i_addrs i') i;
  ex_own : forall s, 0 <= s <= MAXFILE -> own C i s <> 0 -> own C' i' s = own C i s;
  ex_other : forall a, inuse st sb C a -> (forall s, 0 <= s <= MAXFILE -> own C i s <> a) ->
    C' a = C a /\ inuse st sb C' a /\ forall s, 0 <= s <= MAXFILE -> own C' i' s <> a;
  ex_inodes : forall inum, 0 <= inum < sb_ninodes sb -> C' (IBLOCK inum sb) = C (IBLOCK inum sb)
}.

Lemma evolves_extends st sb C i C' i' : evolves st sb C i C' i' -> extends st sb C i C' i'.
Proof. by intros [? ? _ ? ?]. Qed.

Lemma extends_refl st sb C i : extends st sb C i C i.
Proof. apply evolves_extends, evolves_refl. Qed.

Lemma extends_trans st sb C i C1 i1 C2 i2 :
  extends st sb C i C1 i1 -> extends st sb C1 i1 C2 i2 -> extends st sb C i C2 i2.
Proof.
  intros [E1 E2 E4 E5] [F1 F2 F4 F5]. split.
  - rewrite F1 at 1. rewrite E1. done.
  - intros s Hs Hn. specialize (E2 s Hs Hn). rewrite F2; [done|done|congruence].
  - intros a Ha Hn. destruct (E4 a Ha Hn) as (A1 & A2 & A3). destruct (F4 a A2 A3) as (B1 & B2 & B3). split_and!; [congruence|done|done].
  - intros inum Hi. by rewrite F5, E5.
Qed.

Lemma blk_range j : 0 <= j < MAXFILE * BSIZE -> 0 <= j / BSIZE < MAXFILE.
Proof. unfold BSIZE. lia. Qed.

Lemma blk_inuse st sb C i bn : owned st sb C i -> 0 <= bn < MAXFILE -> blk_of C i bn <> 0 -> inuse st sb C (blk_of C i bn).
Proof. intros How Hbn Hnz. rewrite <- own_blk in * by done. apply How; [lia|done]. Qed.

Section WriteData.
Context (st : Z) (sb : superblock) (C : Z -> list Z) (i : inode) (bn : Z) (v : list Z).
Context (How : owned st sb C i) (Hbn : 0 <= bn < MAXFILE) (Hnz : blk_of C i bn <> 0) (Hv : length v = Z.to_nat BSIZE).

Let C' : Z -> list Z := bupd C (blk_of C i bn) v.

Lemma data_bitmap j : 0 <= j < sb_size sb -> C' (BBLOCK j sb) = C (BBLOCK j sb).
Proof using All. intros Hj. apply bupd_ne. destruct (blk_inuse st sb C i bn How Hbn Hnz) as [_ _ [_ Hp _] _]. by apply Hp. Qed.

Lemma data_len a : length (C' a) = length (C a).
Proof using All. unfold C', bupd. case_decide; [subst; rewrite Hv; symmetry; by eapply iu_len, blk_inuse|done]. Qed.

Lemma data_blk n : blk_of C' i n = blk_of C i n.
Proof using All.
  unfold blk_of. destruct (n <? NDIRECT); [done|]. destruct (Z.eqb_spec (ind_of i) 0) as [|Hi]; [done|].
  unfold C'. rewrite bupd_ne; [done|]. intros E. assert (MAXFILE = bn); [|lia].
  apply (ow_inj _ _ _ _ How); rewrite ?own_ind, ?own_blk by done; try done; unfold MAXFILE, NDIRECT, NINDIRECT, BSIZE in *; lia.
Qed.

Lemma data_own s : own C' i s = own C i s.
Proof using All. unfold own. by rewrite data_blk. Qed.

Lemma data_owned : owned st sb C' i.
Proof using All.
  destruct How as [H1 H2 H3 H4 H5 H6]. split; try done.
  - intros n. rewrite data_blk. auto.
  - intros s Hs. rewrite data_own. intros Hn. eapply inuse_ext; [apply data_bitmap|apply data_len|auto].
  - intros s s'. rewrite !data_own. auto.
Qed.

Lemma data_extends : extends st sb C i C' i.
Proof using All.
  split.
  - by rewrite set_addrs_same.
  - intros s _ _. apply data_own.
  - intros a Ha Hno. split_and!.
    + apply bupd_ne. rewrite <- own_blk by done. apply not_eq_sym, Hno. lia.
    + eapply inuse_ext; [apply data_bitmap|apply data_len|done].
    + intros s. rewrite data_own. auto.
  - intros inum Hi. apply bupd_ne. destruct (blk_inuse st sb C i bn How Hbn Hnz) as [_ _ [_ _ Hp] _]. by apply Hp.
Qed.

Lemma data_byte j :
  0 <= j < MAXFILE * BSIZE -> blk_of C i (j / BSIZE) <> 0 ->
  byte_at C' i j = if j / BSIZE =? bn then v !!! Z.to_nat (j mod BSIZE) else byte_at C i j.
Proof using All.
  intros Hj Hjn. unfold byte_at. rewrite data_blk. pose proof (blk_range j Hj). unfold C', bupd.
  destruct (Z.eqb_spec (j / BSIZE) bn) as [->|Hne]; [by rewrite decide_True|].
  rewrite decide_False; [done|]. intros E. apply Hne. apply (ow_inj _ _ _ _ How); rewrite ?own_blk by done; done || lia.
Qed.
End WriteData.

(** The byte [j] of the file after the bytes [src] have been written at [off]. *)
Definition over (src : list Z) (off : Z) (old : Z -> Z) (j : Z) : Z :=
  if (off <=? j) && (j <? off + Z.of_nat (length src)) then src !!! Z.to_nat (j - off) else old j.

(** A block of the file, after blocks have been added, is overwritten. *)
Lemma write_over st sb C i C1 i1 sb1 off bytes :
  evolves st sb C i C1 i1 -> owned st sb1 C1 i1 -> 0 <= off < MAXFILE * BSIZE -> off mod BSIZE + Z.of_nat (length bytes) <= BSIZE ->
  let blk := blk_of C1 i1 (off / BSIZE) in blk <> 0 ->
  forall j, 0 <= j < MAXFILE * BSIZE -> blk_of C i (j / BSIZE) <> 0 \/ off <= j < off + Z.of_nat (length bytes) ->
    byte_at (bupd C1 blk (put_bytes (C1 blk) (off mod BSIZE) bytes)) i1 j = over bytes off (byte_at C i) j.
Proof.
  intros Hev1 How1 Hoff Hb blk Hn1 j Hj Hor. pose proof (blk_range off Hoff) as Hbn. pose proof (blk_range j Hj) as Hjb.
  destruct (blk_inuse _ _ _ _ _ How1 Hbn Hn1) as [_ _ _ Hlen]. fold blk in Hlen. set (v := put_bytes _ _ _).
  assert (length v = Z.to_nat BSIZE) as Hv by (unfold v; by rewrite length_put_bytes).
  assert (blk_of C i (j / BSIZE) <> 0 -> blk_of C1 i1 (j / BSIZE) = blk_of C i (j / BSIZE) /\ byte_at C1 i1 j = byte_at C i j) as Hold.
  { intros Hn. assert (blk_of C1 i1 (j / BSIZE) = blk_of C i (j / BSIZE)) as E.
    { rewrite <- !own_blk by done. apply (ev_own _ _ _ _ _ _ Hev1); [lia|by rewrite own_blk]. }
    split; [done|]. unfold byte_at. rewrite E. by rewrite (ev_data _ _ _ _ _ _ Hev1) by done. }
  assert (blk_of C1 i1 (j / BSIZE) <> 0) as Hnj.
  { destruct Hor as [Hor|Hor]; [by rewrite (proj1 (Hold Hor))|]. by replace (j / BSIZE) with (off / BSIZE) by (unfold BSIZE in *; lia). }
  unfold blk at 1. rewrite (data_byte st sb1) by done.
  unfold over. destruct (Z.eqb_spec (j / BSIZE) (off / BSIZE)) as [Eq|Hne].
  - destruct (Z.leb_spec off j) as [Hle|Hgt]; [destruct (Z.ltb_spec j (off + Z.of_nat (length bytes))) as [Hlt|Hge]|]; cbn [andb].
    + unfold v. rewrite put_bytes_in by (rewrite ?Hlen; unfold BSIZE in *; lia). do 2 f_equal. unfold BSIZE in *. lia.
    + destruct Hor as [Hor|]; [|lia]. rewrite <- (proj2 (Hold Hor)). unfold v, byte_at. rewrite Eq. fold blk.
      apply put_bytes_out; unfold BSIZE in *; lia.
    + destruct Hor as [Hor|]; [|lia]. rewrite <- (proj2 (Hold Hor)). unfold v, byte_at. rewrite Eq. fold blk.
      apply put_bytes_out; unfold BSIZE in *; lia.
  - destruct (Z.leb_spec off j), (Z.ltb_spec j (off + Z.of_nat (length bytes))); cbn [andb]; try (unfold BSIZE in *; lia);
      (destruct Hor as [Hor|Hor]; [by apply Hold|unfold BSIZE in *; lia]).
Qed.

Section Write.
Context {I : Image} {B : Budget} {D : Disk} {DO : DiskOk D}.
Context (y : sync) (p : nat) (Hr : (0 < rounds)%nat) (Hll : free LLog y) (st : Z).

Lemma budget_logged n bl R d d' x : kept d d' -> budget (S n) bl R d -> budget n (logged bl x) (pinned bl R x) d'.
Proof using.
  clear Hr. intros Hk [H1 H2 H3]. split.
  - by apply busy_pinned.
  - eapply logroom_logged; [done|]. by replace (Z.of_nat n + 1) with (Z.of_nat (S n)) by lia.
  - intros z. unfold pinned. pose proof (H3 z). pose proof (H3 x). case_decide; [lia|]. unfold bupd. case_decide; lia.
Qed.

Lemma pinned_le bl R z x : R x <= pinned bl R z x.
Proof using. clear Hr. unfold pinned. case_decide; [lia|]. unfold bupd. case_decide; [subst|]; lia. Qed.

Lemma pinned_in bl R z x : x ∈ logged bl z -> x ∈ bl \/ R x < pinned bl R z x.
Proof using.
  clear Hr. unfold logged, pinned. case_decide; [by left|]. rewrite elem_of_app, list_elem_of_singleton.
  intros [?| ->]; [by left|]. right. rewrite bupd_eq. lia.
Qed.

Lemma alloc_allocated sb C t :
  fs_ok st sb C -> lowest_free st sb C t -> 0 < t ->
  allocated st sb C (bupd (alloc_bit sb C t) t (replicate (Z.to_nat BSIZE) 0)) t.
Proof using.
  clear Hr. intros Hok Hlf Hpos. set (C' := bupd _ _ _). pose proof (fk_geo _ _ _ Hok) as Hg. destruct Hlf as [Ht Hfree Hfirst Hlog Hmeta].
  assert (forall j, 0 <= j < sb_size sb -> used_at C' sb j = if j =? t then true else used_at C sb j) as Hu.
  { intros j Hj. by apply (used_alloc st). }
  assert (forall a, a <> t -> (forall j, 0 <= j < sb_size sb -> BBLOCK j sb <> a) -> C' a = C a) as Hsame.
  { intros a Hne Hb. unfold C'. rewrite bupd_ne by done. unfold alloc_bit. apply bupd_ne. by apply not_eq_sym, Hb. }
  destruct (fk_free _ _ _ Hok t Ht Hfree) as [_ Hpl].
  assert (C' t = replicate (Z.to_nat BSIZE) 0) as Hz by apply bupd_eq.
  assert (forall b, 0 <= b < sb_size sb -> length (C' (BBLOCK b sb)) = Z.to_nat BSIZE) as Hlen.
  { intros b Hb. unfold C'. rewrite bupd_ne by (by apply Hmeta). unfold alloc_bit, bupd. case_decide as E; [|by apply Hg].
    rewrite length_insert. by apply Hg. }
  split; [done|done| |done| | |].
  - split; [done|by rewrite Hu, Z.eqb_refl|done|by rewrite Hz, length_replicate].
  - intros a [A1 A2 A3 A4]. assert (a <> t) as Hne by congruence.
    assert (C' a = C a) as E by (apply Hsame; [done|apply A3]). split; [done|]. split; [done| |done|by rewrite E].
    rewrite Hu by done. by rewrite (proj2 (Z.eqb_neq _ _) Hne).
  - intros inum Hi. apply Hsame; [by apply Hpl|]. intros j Hj. apply not_eq_sym. by apply (fk_sep _ _ _ Hok).
  - split; [|intros j Hj; rewrite Hu by done; destruct (Z.eqb_spec j t); [done|by apply Hok]|apply Hok].
    destruct Hg as [G1 G2 G3 G4]. split; done.
Qed.

(** balloc() when there is a free block. *)
Lemma balloc_take bl H C R k d m n :
  let sb := d_sb d in
  fsop y p st bl H C R k d -> fs_ok st sb C -> frees (S m) sb C -> budget (S (S n)) bl R d ->
  (forall x, x ∈ H.*2 -> inuse st sb C x) ->
  exists t bl' C' R' d', balloc ROOTDEV (KState y d) = Ret t (KState y d')
    /\ fsop y p st bl' H C' R' k d' /\ kept d d' /\ budget n bl' R' d' /\ frees m sb C' /\ allocated st sb C C' t
    /\ (forall x, R x <= R' x) /\ (forall x, x ∈ bl' -> x ∈ bl \/ R x < R' x).
Proof using Hr Hll DO.
  intros sb Hf Hok Hfr Hb HH. destruct (lowest_exists _ _ _ _ Hok Hfr) as (t & Hlf & Hpos).
  destruct (balloc_run y p Hr Hll st bl H C R k d t Hf (fk_geo _ _ _ Hok) Hlf) as (d' & E & Hf' & Hk).
  - destruct Hb as [(l & H1 & H2) _ _]. exists l. split; [done|lia].
  - intros x. pose proof (bu_few _ _ _ _ Hb x). lia.
  - destruct Hb as [_ [H1 H2] _]. split; lia.
  - intros j Hj Hin. apply HH in Hin as [_ _ [_ Hp _] _]. by apply (Hp j Hj).
  - intros Hin. apply HH in Hin as [_ Hu _ _]. rewrite (ff_free _ _ _ _ Hlf) in Hu. done.
  - exists t. eexists _, _, _, d'. split_and!; [exact E|exact Hf'|exact Hk| | | | |].
    + eapply budget_logged, budget_logged; [done|done|]. exact Hb.
    + eapply frees_alloc; [exact Hfr|]. intros j Hj. apply (used_alloc st); [apply Hok|apply Hlf|done|apply Hlf].
    + by apply alloc_allocated.
    + intros x. etrans; apply pinned_le.
    + intros x Hx. fold sb in Hx |- *. set (bb := BBLOCK t sb) in *. pose proof (pinned_le bl R bb x). pose proof (pinned_le (logged bl bb) (pinned bl R bb) t x).
      destruct (pinned_in _ (pinned bl R bb) t x Hx) as [Hx1|]; [destruct (pinned_in _ R bb x Hx1); [by left|]|]; right; lia.
Qed.

(** What the operations on inode [ip] leave alone. *)
Record stays (ip : nat) (d d' : data) : Prop := {
  sy_sb : d_sb d' = d_sb d;
  sy_len : length (d_inodes d') = length (d_inodes d);
  sy_inode : forall j, j <> ip -> inode_of d' j = inode_of d j;
  sy_log : lg_size (d_log d') = lg_size (d_log d);
  sy_procs : d_procs d' = d_procs d
}.

Lemma stays_refl ip d : stays ip d d.
Proof using. done. Qed.

Lemma stays_trans ip d1 d2 d3 : stays ip d1 d2 -> stays ip d2 d3 -> stays ip d1 d3.
Proof using.
  clear Hr. intros [A1 A2 A3 A4 A5] [B1 B2 B3 B4 B5]. split; try congruence. intros j Hj. by rewrite B3, A3.
Qed.

Lemma kept_stays ip d d' : kept d d' -> stays ip d d' /\ inode_of d' ip = inode_of d ip.
Proof using. clear Hr. intros (H1 & H2 & H3 & H4). split; [split; try done; [by rewrite H2|]; intros j _|]; unfold inode_of; by rewrite H2. Qed.

Lemma budget_stays ip n bl R d d' : stays ip d d' -> budget n bl R d -> budget n bl R d'.
Proof using. clear Hr. intros [_ _ _ Es _] [H1 H2 H3]. split; [done| |done]. unfold logroom in *. by rewrite Es. Qed.

(** The file system in a transaction that may log [n] more blocks and take [m]
    more blocks, seen from inode [ip]. *)
Record fsst (n m : nat) (bl : list Z) (C : Z -> list Z) (R : Z -> Z) (k : disk) (d : data) (ip : nat) : Prop := {
  fs_op : fsop y p st bl [] C R k d;
  fs_budget : budget n bl R d;
  fs_meta : fs_ok st (d_sb d) C;
  fs_frees : frees m (d_sb d) C;
  fs_owned : owned st (d_sb d) C (inode_of d ip);
  fs_index : (ip < length (d_inodes d))%nat
}.

Lemma frees_weak m m' sb C : (m' <= m)%nat -> frees m sb C -> frees m' sb C.
Proof using.
  clear Hr. intros Hm (l & H1 & H2 & H3). exists (take m' l). split_and!.
  - eapply sublist_NoDup; [done|]. apply sublist_take.
  - rewrite length_take. lia.
  - intros j Hj. apply H3. apply list_elem_of_lookup_1 in Hj as [x Hx]. apply lookup_take_Some in Hx as [Hx _]. by eapply list_elem_of_lookup_2.
Qed.

Lemma fsst_weak n m n' m' bl C R k d ip :
  (n' <= n)%nat -> (m' <= m)%nat -> fsst n m bl C R k d ip -> fsst n' m' bl C R k d ip.
Proof using.
  clear Hr. intros Hn Hm [H1 H2 H3 H4 H5 H6]. split; try done; [by eapply budget_weak|by eapply frees_weak].
Qed.

Lemma fsst_kept n m bl C R k d d' ip :
  kept d d' -> fsop y p st bl [] C R k d' -> fsst n m bl C R k d ip -> fsst n m bl C R k d' ip.
Proof using.
  clear Hr. intros Hk Hf [H1 H2 H3 H4 H5 H6]. pose proof (budget_kept _ _ _ _ _ Hk H2). destruct Hk as (E1 & E2 & E3 & E4).
  split; rewrite ?E1, ?E2; try done. unfold inode_of in *. by rewrite E2.
Qed.

Lemma set_addr_run d ip kk v : set_addr ip kk v (KState y d) =
  Ret tt (KState y (upd_inode ip (fun i => set_i_addrs (<[Z.to_nat kk := v]> (i_addrs i)) i) d)).
Proof using. done. Qed.

Lemma inode_upd d ip f : (ip < length (d_inodes d))%nat -> inode_of (upd_inode ip f d) ip = f (inode_of d ip).
Proof using.
  clear Hr. intros Hi. unfold inode_of, upd_inode. cbn. apply list_lookup_total_correct.
  rewrite list_lookup_alter_eq, list_lookup_lookup_total_lt by done. done.
Qed.

Lemma stays_upd ip d f : stays ip d (upd_inode ip f d).
Proof using.
  clear Hr. split; try done; [apply length_alter|]. intros j Hj. unfold inode_of, upd_inode. cbn. by rewrite list_lookup_total_alter_ne.
Qed.

(** bmap() on a slot of the inode. *)
Lemma bmap_slot_run n m bl C R k d ip kk :
  fsst (S (S n)) (S m) bl C R k d ip -> 0 <= kk <= NDIRECT ->
  exists bl' C' R' d', bmap_slot ip kk (KState y d) = Ret (own C' (inode_of d' ip) (slot kk)) (KState y d')
    /\ fsst n m bl' C' R' k d' ip /\ stays ip d d' /\ own C' (inode_of d' ip) (slot kk) <> 0
    /\ evolves st (d_sb d) C (inode_of d ip) C' (inode_of d' ip).
Proof using Hr Hll DO.
  intros Hs Hk. pose proof Hs as [Hf Hb Hok Hfr How Hip]. set (i := inode_of d ip) in *. set (sb := d_sb d) in *.
  unfold bmap_slot, get_addr, geti. kstep. fold i. destruct (Z.eqb_spec (i_addrs i !!! Z.to_nat kk) 0) as [E0|Hn].
  2: { exists bl, C, R, d. fold i. rewrite own_slot by done. split_and!; [done|by eapply fsst_weak; [..|exact Hs]; lia|apply stays_refl|done|apply evolves_refl]. }
  kstep. fold i. rewrite (ow_dev _ _ _ _ How).
  destruct (balloc_take bl [] C R k d m n Hf Hok Hfr Hb) as (t & bl' & C' & R' & d1 & E & Hf1 & Hk1 & Hb1 & Hfr1 & Hal & _).
  { by intros x ?%elem_of_nil. }
  rewrite (bind_Ret _ _ _ _ _ E). pose proof (al_pos _ _ _ _ _ Hal) as Hpos.
  rewrite (proj2 (Z.eqb_neq t 0)) by lia. rewrite (bind_Ret _ _ _ _ _ (set_addr_run _ _ _ _)). set (d2 := upd_inode _ _ _).
  destruct (kept_stays ip _ _ Hk1) as [Hst1 Ei1]. pose proof (stays_upd ip d1 (fun i => set_i_addrs (<[Z.to_nat kk := t]> (i_addrs i)) i)) as Hst2. fold d2 in Hst2.
  assert (inode_of d2 ip = set_i_addrs (<[Z.to_nat kk := t]> (i_addrs i)) i) as Ei2.
  { unfold d2. rewrite inode_upd, Ei1; [done|]. by rewrite (sy_len _ _ _ Hst1). }
  set (i' := set_i_addrs _ i) in Ei2. pose proof (add_addr st sb C C' i kk t Hal How Hk E0) as Hown. fold i' in Hown.
  destruct (add_slot st sb C C' i C' i' (slot kk) t Hal How (slot_range kk Hk)) as (Q1 & Q2 & Q3 & Q4 & Q5); try done.
  { by rewrite own_slot. } { unfold i'. cbn. rewrite length_insert. apply How. }
  exists bl', C', R', d2. rewrite Ei2. rewrite Hown, Z.eqb_refl by (by apply slot_range).
  split_and!; [done| |by eapply stays_trans|lia|done].
  assert (d_sb d2 = sb) as Esb by (rewrite (sy_sb _ _ _ Hst2); apply Hst1).
  split; rewrite ?Ei2, ?Esb; try done.
  - by apply fsop_inodes.
  - by eapply budget_stays.
  - rewrite (sy_len _ _ _ Hst2), (sy_len _ _ _ Hst1). done.
Qed.

Lemma budget_hold n bl R d x : budget (S n) bl R d -> budget n bl (bupd R x (R x + 1)) d.
Proof using.
  clear Hr. intros [H1 [H2 H3] H4]. split; [by apply busy_pin|split; lia|]. intros z. pose proof (H4 z). pose proof (H4 x).
  unfold bupd. case_decide; lia.
Qed.

(** A new block becomes entry [bn] of the list of blocks, which is locked. *)
Lemma bmap_listed n m bl C R k d ip bn b :
  let ind := ind_of (inode_of d ip) in
  fsop y p st bl [(b, ind)] C (bupd R ind (R ind + 1)) k d -> budget (S (S (S (S n)))) bl R d ->
  fs_ok st (d_sb d) C -> frees (S m) (d_sb d) C -> owned st (d_sb d) C (inode_of d ip) -> (ip < length (d_inodes d))%nat ->
  (forall x, 0 <= R x) -> (forall x, x ∈ bl -> 0 < R x) ->
  NDIRECT <= bn < MAXFILE -> ind <> 0 -> blk_of C (inode_of d ip) bn = 0 ->
  exists t d1 d2 bl' C' R' d', balloc ROOTDEV (KState y d) = Ret t (KState y d1) /\ 0 < t
    /\ (modb b (fun r => set_b_data (put32 (b_data r) (4 * (bn - NDIRECT)) t) r);; log_write b) (KState y d1) = Ret tt (KState y d2)
    /\ brelse b (KState y d2) = Ret tt (KState y d') /\ blk_of C' (inode_of d' ip) bn = t
    /\ fsst n m bl' C' R' k d' ip /\ stays ip d d'
    /\ evolves st (d_sb d) C (inode_of d ip) C' (inode_of d' ip).
Proof using Hr Hll DO.
  intros ind Hf Hb Hok Hfr How Hip Hpos0 Hpin Hbn Hi H0. set (i := inode_of d ip) in *. set (sb := d_sb d) in *.
  assert (0 <= MAXFILE <= MAXFILE) as HM by (unfold MAXFILE, NDIRECT, NINDIRECT, BSIZE; lia).
  assert (inuse st sb C ind) as Hiu by (unfold ind in *; rewrite <- (own_ind C) in Hi |- *; by apply How).
  destruct (balloc_take bl [(b, ind)] C _ k d m (S n) Hf Hok Hfr (budget_hold _ _ _ _ _ Hb)) as (t & bl1 & C1 & R1 & d1 & E & Hf1 & Hk1 & Hb1 & Hfr1 & Hal & Hle & Hnew).
  { intros x ->%list_elem_of_singleton. done. }
  pose proof (al_pos _ _ _ _ _ Hal) as Hpos. destruct (kept_stays ip _ _ Hk1) as [Hst1 Ei1].
  set (R0 := bupd R1 ind (R1 ind - 1)). pose proof (Hle ind) as Hli. rewrite bupd_eq in Hli. pose proof (Hpos0 ind) as Hr0.
  assert (forall x, R1 x = bupd R0 ind (R0 ind + 1) x) as ER.
  { intros x. unfold R0, bupd. repeat (case_decide; try congruence); subst; lia. }
  assert (R0 ind = R1 ind - 1) as E0 by apply bupd_eq.
  assert (ind ∈ bl1 -> 0 < R0 ind) as Hin1.
  { intros [Hx|Hx]%Hnew; [pose proof (Hpin ind Hx); lia|]. rewrite bupd_eq in Hx. lia. }
  assert (budget (S n) bl1 R0 d1) as Hb1'.
  { assert (forall x, R0 x <= R1 x) as HR by (intros x; unfold R0, bupd; case_decide; subst; lia).
    destruct Hb1 as [B1 B2 B3]. split; [by eapply busy_le|done|]. intros x. specialize (B3 x). specialize (HR x). lia. }
  pose proof (bu_few _ _ _ _ Hb1' ind) as Hov. destruct (al_same _ _ _ _ _ Hal ind Hiu) as [Eind Hiu1].
  destruct Hiu1 as [[I1 I2] I3 I4 I5]. fold sb in I2.
  destruct (update_block y p Hll st bl1 [] C1 R0 k d1 b ind (fun r => set_b_data (put32 (b_data r) (4 * (bn - NDIRECT)) t) r))
    as (d2 & d3 & E2 & E3 & Hf3 & Hk3); try done.
  { eapply fsop_ext; [exact Hf1|done|done]. } { pose proof (ge_size _ _ _ (fk_geo _ _ _ Hok)). lia. } { apply I4. } { lia. } { lia. }
  { destruct Hb1' as [_ [B1 B2] _]. split; lia. }
  rewrite (fo_data y p st _ _ _ _ _ _ _ _ Hf1) in Hf3. cbn [b_data set_b_data] in Hf3. set (C2 := bupd C1 ind _) in Hf3.
  destruct (kept_stays ip _ _ Hk3) as [Hst3 Ei3]. assert (inode_of d3 ip = i) as Ei by (by rewrite Ei3).
  assert (t < 2 ^ 32) as Ht. { destruct (al_inuse _ _ _ _ _ Hal) as [[_ Hx] _ _ _]. fold sb in Hx. pose proof (ge_size _ _ _ (fk_geo _ _ _ Hok)). lia. }
  pose proof (add_listed st sb C C1 i bn t Hal How Hbn Hi Ht) as Hown. fold ind C2 in Hown.
  destruct (add_slot st sb C C1 i C2 i bn t Hal How ltac:(unfold NDIRECT in *; lia)) as (Q1 & Q2 & Q3 & Q4 & Q5); try done.
  { by rewrite own_blk by (unfold NDIRECT in *; lia). } { by rewrite set_addrs_same. } { apply How. }
  { intros a Ha. unfold C2. apply bupd_ne. by apply Ha. }
  { intros a. unfold C2, bupd. case_decide; [subst; apply length_put32|done]. }
  exists t, d1, d2. eexists _, C2, _, d3. rewrite Ei. split_and!; try done; [|..|by eapply stays_trans].
  - rewrite <- own_blk by (unfold NDIRECT in *; lia). rewrite Hown, Z.eqb_refl; [done|unfold NDIRECT in *; lia].
  - assert (d_sb d3 = sb) as Esb by (rewrite (sy_sb _ _ _ Hst3); apply Hst1).
    split; rewrite ?Ei, ?Esb; [exact Hf3| |done|by apply Q4|done|].
    + by eapply budget_logged.
    + rewrite (sy_len _ _ _ Hst3), (sy_len _ _ _ Hst1). done.
Qed.

(** bmap() of a block below the limit: it returns the block, taking a new one if
    there was none. *)
Lemma bmap_run n m bl C R k d ip bn :
  fsst (6 + n) (2 + m) bl C R k d ip -> 0 <= bn < MAXFILE ->
  exists bl' C' R' d', bmap ip bn (KState y d) = Ret (blk_of C' (inode_of d' ip) bn) (KState y d')
    /\ fsst n m bl' C' R' k d' ip /\ stays ip d d' /\ blk_of C' (inode_of d' ip) bn <> 0
    /\ evolves st (d_sb d) C (inode_of d ip) C' (inode_of d' ip).
Proof using Hr Hll DO.
  intros Hs Hbn. unfold bmap. destruct (Z.ltb_spec bn NDIRECT) as [Hd|Hd].
  { destruct (bmap_slot_run n m bl C R k d ip bn) as (bl' & C' & R' & d' & E & H1 & H2 & H3 & H4).
    { eapply fsst_weak; [..|exact Hs]; lia. } { lia. }
    assert (slot bn = bn) as Es by (unfold slot; by rewrite (proj2 (Z.eqb_neq bn NDIRECT)) by lia).
    rewrite Es, own_blk in * by done. by exists bl', C', R', d'. }
  destruct (Z.ltb_spec (bn - NDIRECT) NINDIRECT) as [_|]; [|unfold MAXFILE in *; lia].
  destruct (bmap_slot_run (4 + n) (1 + m) bl C R k d ip NDIRECT Hs) as (bl1 & C1 & R1 & d1 & E1 & Hs1 & Hst1 & Hn1 & Hev1).
  { unfold NDIRECT. lia. }
  change (slot NDIRECT) with MAXFILE in *. rewrite own_ind in *. set (ind := ind_of (inode_of d1 ip)) in *.
  rewrite (bind_Ret _ _ _ _ _ E1), (proj2 (Z.eqb_neq _ _) Hn1). unfold geti. kstep.
  pose proof Hs1 as [Hf1 Hb1 Hok1 Hfr1 How1 Hip1]. rewrite (ow_dev _ _ _ _ How1).
  destruct (fo_bread y p Hr st bl1 [] C1 R1 k d1 ind Hf1) as (b & d2 & E2 & Hf2 & Hk2).
  { eapply budget_weak; [|exact Hb1]. lia. } { pose proof (bu_few _ _ _ _ Hb1 ind). lia. } { apply not_elem_of_nil. }
  rewrite (bind_Ret _ _ _ _ _ E2). kstep. rewrite (fo_data y p st _ _ _ _ _ _ _ _ Hf2).
  destruct (kept_stays ip _ _ Hk2) as [Hst2 Ei2]. assert (stays ip d d2) as Hst by (by eapply stays_trans).
  assert (blk_of C1 (inode_of d1 ip) bn = get32 (C1 ind) (4 * (bn - NDIRECT))) as Eb.
  { unfold blk_of. rewrite (proj2 (Z.ltb_ge _ _) Hd). fold ind. by rewrite (proj2 (Z.eqb_neq _ _) Hn1). }
  rewrite <- Eb. destruct (Z.eqb_spec (blk_of C1 (inode_of d1 ip) bn) 0) as [E0|Hnz].
  - destruct (bmap_listed n m bl1 C1 R1 k d2 ip bn b) as (t & d3 & d4 & bl' & C' & R' & d' & B1 & B2 & B3 & B4 & B5 & B6 & B7 & B8).
    all: rewrite ?Ei2; try done; fold ind; try done.
    + by eapply budget_kept.
    + by rewrite (sy_sb _ _ _ Hst2).
    + by rewrite (sy_sb _ _ _ Hst2).
    + by rewrite (sy_sb _ _ _ Hst2).
    + by rewrite (sy_len _ _ _ Hst2).
    + apply Hf1.
    + apply Hf1.
    + lia.
    + exists bl', C', R', d'. rewrite B5. split_and!; [|done|by eapply stays_trans|lia|].
      * rewrite (bind_assoc _ _ _ _ _ _ B1). unfold when, nz. rewrite (proj2 (Z.eqb_neq t 0)) by lia. cbn [negb].
        rewrite (bind_assoc _ _ _ _ _ _ B3). kstep. by rewrite (bind_Ret _ _ _ _ _ B4).
      * eapply evolves_trans; [done|]. rewrite (sy_sb _ _ _ Hst2), Ei2, (sy_sb _ _ _ Hst1) in B8. done.
  - destruct (fo_unread y p st _ _ _ _ k d2 b ind Hf2 R1) as (d3 & E3 & Hf3 & Hk3); [done| | |apply Hf1|].
    { pose proof (bu_few _ _ _ _ Hb1 ind). lia. } { eapply abs_clean, Hf1. }
    kstep. rewrite (bind_Ret _ _ _ _ _ E3). destruct (kept_stays ip _ _ Hk3) as [Hst3 Ei3].
    exists bl1, C1, R1, d3. rewrite Ei3, Ei2. split_and!; [done| |by eapply stays_trans|done|done].
    eapply fsst_kept; [exact (kept_trans _ _ _ Hk2 Hk3)|done|]. apply (fsst_weak (4 + n) (1 + m)); [lia|lia|done].
Qed.

(** Bytes are stored in a block of the file, which is logged. *)
Lemma write_block n m bl C R k d ip bn o bytes :
  let blk := blk_of C (inode_of d ip) bn in
  fsst (S n) m bl C R k d ip -> 0 <= bn < MAXFILE -> blk <> 0 ->
  exists b d1 d2 d3 bl' R', bread ROOTDEV blk (KState y d) = Ret b (KState y d1)
    /\ (modb b (fun r => set_b_data (put_bytes (b_data r) o bytes) r);; log_write b) (KState y d1) = Ret tt (KState y d2)
    /\ brelse b (KState y d2) = Ret tt (KState y d3)
    /\ fsst n m bl' (bupd C blk (put_bytes (C blk) o bytes)) R' k d3 ip /\ kept d d3.
Proof using Hr Hll DO.
  intros blk Hs Hbn Hnz. pose proof Hs as [Hf Hb Hok Hfr How Hip]. set (i := inode_of d ip) in *. set (sb := d_sb d) in *.
  pose proof (bu_few _ _ _ _ Hb blk) as Hov. pose proof (fo_pos _ _ _ _ _ _ _ _ _ Hf blk) as H0.
  destruct (blk_inuse st sb C i bn How Hbn Hnz) as [I1 I2 I3 I4]. fold blk in I1, I2, I3, I4.
  pose proof (ge_size _ _ _ (fk_geo _ _ _ Hok)) as Hsz.
  destruct (fo_bread y p Hr st bl [] C R k d blk Hf) as (b & d1 & E1 & Hf1 & Hk1).
  { eapply budget_weak; [|exact Hb]. lia. } { lia. } { apply not_elem_of_nil. }
  destruct (update_block y p Hll st bl [] C R k d1 b blk (fun r => set_b_data (put_bytes (b_data r) o bytes) r) Hf1)
    as (d2 & d3 & E2 & E3 & Hf3 & Hk3); try done.
  { lia. } { apply I3. } { lia. }
  { destruct (budget_kept _ _ _ _ _ Hk1 Hb) as [_ [B1 B2] _]. split; lia. } { apply Hf. }
  rewrite (fo_data y p st _ _ _ _ _ _ _ _ Hf1) in Hf3. cbn [b_data set_b_data] in Hf3.
  assert (kept d d3) as Hk by (by eapply kept_trans). exists b, d1, d2, d3. eexists _, _. split_and!; [done..| |done].
  assert (length (put_bytes (C blk) o bytes) = Z.to_nat BSIZE) as Hl by (by rewrite length_put_bytes).
  destruct (kept_stays ip _ _ Hk) as [Hst Ei]. split; rewrite ?Ei, ?(sy_sb _ _ _ Hst).
  - exact Hf3.
  - by eapply budget_logged.
  - eapply fs_ok_ext; [|done]. by apply (data_bitmap st sb C i bn).
  - eapply frees_ext; [|done]. by apply (data_bitmap st sb C i bn).
  - by apply (data_owned st sb C i bn).
  - by rewrite (sy_len _ _ _ Hst).
Qed.

(** One round of writei(). *)
Lemma writei_round n m bl C R k d ip off bytes :
  fsst (7 + n) (2 + m) bl C R k d ip -> 0 <= off < MAXFILE * BSIZE -> off mod BSIZE + Z.of_nat (length bytes) <= BSIZE ->
  exists addr d1 b d2 d3 bl' C' R' d', bmap ip (off / BSIZE) (KState y d) = Ret addr (KState y d1) /\ addr <> 0
    /\ i_dev (inode_of d1 ip) = ROOTDEV /\ bread ROOTDEV addr (KState y d1) = Ret b (KState y d2)
    /\ (modb b (fun r => set_b_data (put_bytes (b_data r) (off mod BSIZE) bytes) r);; log_write b) (KState y d2) = Ret tt (KState y d3)
    /\ brelse b (KState y d3) = Ret tt (KState y d') /\ fsst n m bl' C' R' k d' ip /\ stays ip d d'
    /\ extends st (d_sb d) C (inode_of d ip) C' (inode_of d' ip) /\ blk_of C' (inode_of d' ip) (off / BSIZE) <> 0
    /\ (forall j, 0 <= j < MAXFILE * BSIZE ->
         blk_of C (inode_of d ip) (j / BSIZE) <> 0 \/ off <= j < off + Z.of_nat (length bytes) ->
         byte_at C' (inode_of d' ip) j = over bytes off (byte_at C (inode_of d ip)) j).
Proof using Hr Hll DO.
  intros Hs Hoff Hb. pose proof (blk_range off Hoff) as Hbn.
  destruct (bmap_run (1 + n) m bl C R k d ip (off / BSIZE) Hs Hbn) as (bl1 & C1 & R1 & d1 & E1 & Hs1 & Hst1 & Hn1 & Hev1).
  destruct (write_block n m bl1 C1 R1 k d1 ip (off / BSIZE) (off mod BSIZE) bytes Hs1 Hbn Hn1) as (b & d2 & d3 & d4 & bl' & R' & E2 & E3 & E4 & Hs4 & Hk4).
  set (i := inode_of d ip) in *. set (i1 := inode_of d1 ip) in *. set (blk := blk_of C1 i1 (off / BSIZE)) in *.
  set (v := put_bytes (C1 blk) (off mod BSIZE) bytes) in *. pose proof (fs_owned _ _ _ _ _ _ _ _ Hs1) as How1. fold i1 in How1.
  destruct (kept_stays ip _ _ Hk4) as [Hst4 Ei4]. fold i1 in Ei4.
  destruct (blk_inuse _ _ _ _ _ How1 Hbn Hn1) as [_ _ _ Hlen]. fold blk in Hlen.
  assert (length v = Z.to_nat BSIZE) as Hv by (unfold v; by rewrite length_put_bytes).
  eexists blk, d1, b, d2, d3, bl', _, R', d4. split_and!; try done; rewrite ?Ei4.
  - exact (ow_dev _ _ _ _ How1).
  - by eapply stays_trans.
  - eapply extends_trans; [by apply evolves_extends|]. rewrite <- (sy_sb _ _ _ Hst1). by apply (data_extends st _ C1 i1).
  - unfold blk at 1. rewrite (data_blk st (d_sb d1) C1 i1 (off / BSIZE) v) by done. done.
  - unfold blk at 1. by apply (write_over st (d_sb d) C i C1 i1 (d_sb d1)).
Qed.

Lemma over_app a b off old j :
  over b (off + Z.of_nat (length a)) (over a off old) j = over (a ++ b) off old j.
Proof using.
  clear Hr. unfold over. rewrite length_app.
  destruct (Z.leb_spec off j), (Z.leb_spec (off + Z.of_nat (length a)) j), (Z.ltb_spec j (off + Z.of_nat (length a))),
    (Z.ltb_spec j (off + Z.of_nat (length a) + Z.of_nat (length b))), (Z.ltb_spec j (off + Z.of_nat (length a + length b)));
    cbn [andb]; try lia; try done.
  - rewrite !list_lookup_total_alt, lookup_app_r by lia. do 2 f_equal. lia.
  - rewrite !list_lookup_total_alt, lookup_app_l by lia. done.
Qed.

Lemma writei_loop_done n m n' m' bl C R k d ip fuel off tot :
  (n <= n')%nat -> (m <= m')%nat -> fsst n' m' bl C R k d ip ->
  exists bl' C' R' d', writei_loop (S fuel) ip (FromLocal []) off (tot + Z.of_nat (length (@nil Z))) tot (KState y d)
      = Ret (tot + Z.of_nat (length (@nil Z)), off + Z.of_nat (length (@nil Z))) (KState y d')
    /\ fsst n m bl' C' R' k d' ip /\ stays ip d d' /\ extends st (d_sb d) C (inode_of d ip) C' (inode_of d' ip)
    /\ (forall j, 0 <= j < MAXFILE * BSIZE -> blk_of C (inode_of d ip) (j / BSIZE) <> 0 \/ off <= j < off + Z.of_nat (length (@nil Z)) ->
         blk_of C' (inode_of d' ip) (j / BSIZE) <> 0 /\ byte_at C' (inode_of d' ip) j = over [] off (byte_at C (inode_of d ip)) j).
Proof using.
  clear Hr. intros Hn Hm Hs. cbn [length Z.of_nat writei_loop]. rewrite !Z.add_0_r, Z.ltb_irrefl.
  exists bl, C, R, d. split_and!; [done|by eapply fsst_weak|apply stays_refl|apply extends_refl|].
  intros j Hj [Hb|]; [|lia]. split; [done|]. unfold over.
  destruct (Z.leb_spec off j), (Z.ltb_spec j (off + Z.of_nat (length (@nil Z)))); cbn [andb length] in *; done || lia.
Qed.

Lemma writei_loop_run ip k : forall q n m bl C R d fuel src off tot nn,
  fsst (7 * q + n) (2 * q + m) bl C R k d ip -> 0 <= off -> 0 <= tot -> nn = tot + Z.of_nat (length src) ->
  off + Z.of_nat (length src) <= MAXFILE * BSIZE -> (q < fuel)%nat ->
  (tot < nn -> off mod BSIZE + (nn - tot) <= Z.of_nat q * BSIZE) ->
  exists bl' C' R' d', writei_loop fuel ip (FromLocal src) off nn tot (KState y d) = Ret (nn, off + Z.of_nat (length src)) (KState y d')
    /\ fsst n m bl' C' R' k d' ip /\ stays ip d d' /\ extends st (d_sb d) C (inode_of d ip) C' (inode_of d' ip)
    /\ (forall j, 0 <= j < MAXFILE * BSIZE -> blk_of C (inode_of d ip) (j / BSIZE) <> 0 \/ off <= j < off + Z.of_nat (length src) ->
         blk_of C' (inode_of d' ip) (j / BSIZE) <> 0 /\ byte_at C' (inode_of d' ip) j = over src off (byte_at C (inode_of d ip)) j).
Proof using Hr Hll DO.
  induction q as [|q IH]; intros n m bl C R d fuel src off tot nn Hs Ho Ht -> Hmax Hfu Hq.
  all: destruct fuel as [|fuel]; [lia|]; destruct src as [|x0 src0] eqn:Esrc; [by eapply writei_loop_done; [| |exact Hs]; lia|].
  { cbn [length] in Hq. specialize (Hq ltac:(lia)). unfold BSIZE in *. lia. }
  rewrite <- Esrc in *. assert (tot < tot + Z.of_nat (length src)) as Hlt by (rewrite Esrc; cbn [length]; lia). clear Esrc x0 src0.
  cbn [writei_loop]. rewrite (proj2 (Z.ltb_lt _ _) Hlt).
  set (mm := Z.min (tot + Z.of_nat (length src) - tot) (BSIZE - off mod BSIZE)). specialize (Hq Hlt).
  set (bytes := take (Z.to_nat mm) src).
  assert (0 < mm <= Z.of_nat (length src) /\ off mod BSIZE + mm <= BSIZE) as [Hm1 Hm2] by (unfold mm, BSIZE; lia).
  assert (Z.of_nat (length bytes) = mm) as Hlb by (unfold bytes; rewrite length_take; lia).
  destruct (writei_round (7 * q + n) (2 * q + m) bl C R k d ip off bytes) as (addr & d1 & b & d2 & d3 & bl1 & C1 & R1 & d4 & E1 & Hn1 & Edev & E2 & E3 & E4 & Hs4 & Hst4 & Hex4 & Hn4 & Hby4).
  { eapply fsst_weak; [| |exact Hs]; lia. } { lia. } { lia. }
  rewrite (bind_Ret _ _ _ _ _ E1), (proj2 (Z.eqb_neq _ _) Hn1). unfold geti. kstep. rewrite Edev, (bind_Ret _ _ _ _ _ E2).
  assert (either_copyin (FromLocal src) mm (KState y d2) = Ret (0, bytes) (KState y d2)) as Ec.
  { pose proof (fo_ok y p st _ _ _ _ _ _ (fs_op _ _ _ _ _ _ _ _ Hs)). unfold either_copyin. by kstep. }
  rewrite (bind_Ret _ _ _ _ _ Ec). apply obind_Ret_inv in E3 as ([] & s1 & E3 & E3'). rewrite (bind_Ret _ _ _ _ _ E3). cbn [Z.eqb].
  rewrite (bind_Ret _ _ _ _ _ E3'), (bind_Ret _ _ _ _ _ E4). cbn [source_add].
  rewrite (wrapu_small 32) by (unfold MAXFILE, NDIRECT, NINDIRECT, BSIZE in *; lia).
  destruct (IH n m bl1 C1 R1 d4 fuel (drop (Z.to_nat mm) src) (off + mm) (tot + mm) (tot + Z.of_nat (length src)))
    as (bl' & C' & R' & d' & E5 & Hs5 & Hst5 & Hex5 & Hby5); rewrite ?length_drop.
  { done. } { lia. } { lia. } { lia. } { lia. } { lia. }
  { intros Hlt'. assert (mm = BSIZE - off mod BSIZE) by (unfold mm in *; lia). unfold BSIZE in *. lia. }
  rewrite length_drop in E5, Hby5. exists bl', C', R', d'. rewrite E5. split_and!.
  - do 2 f_equal. lia.
  - done.
  - by eapply stays_trans.
  - eapply extends_trans; [done|]. by rewrite <- (sy_sb _ _ _ Hst4).
  - intros j Hj Hor. pose proof (blk_range j Hj) as Hjb.
    assert (blk_of C1 (inode_of d4 ip) (j / BSIZE) <> 0 \/ off + mm <= j < off + mm + Z.of_nat (length src - Z.to_nat mm)) as Hor1.
    { destruct Hor as [Hor|Hor].
      - left. rewrite <- own_blk in * by done. rewrite (ex_own _ _ _ _ _ _ Hex4); [done|lia|done].
      - destruct (decide (off + mm <= j)); [right; lia|left]. by replace (j / BSIZE) with (off / BSIZE) by (unfold BSIZE in *; lia). }
    destruct (Hby5 j Hj Hor1) as [Hnz' Eb]. split; [done|]. rewrite Eb.
    replace src with (bytes ++ drop (Z.to_nat mm) src) at 2 by apply take_drop. rewrite <- over_app, Hlb.
    unfold over at 1 2. destruct (_ && _) eqn:Ec2; [done|].
    apply Hby4; [done|]. destruct Hor as [?|?]; [by left|]. right.
    rewrite length_drop in Ec2. rewrite Hlb. destruct (Z.leb_spec (off + mm) j), (Z.ltb_spec j (off + mm + Z.of_nat (length src - Z.to_nat mm))); cbn in Ec2; try done; lia.
Qed.

(** A larger size, up to the limit of the blocks the file has. *)
Lemma owned_size sb C i sz :
  owned st sb C i -> 0 <= sz <= MAXFILE * BSIZE -> (forall bn, 0 <= bn -> bn * BSIZE < sz -> blk_of C i bn <> 0) ->
  owned st sb C (set_i_size sz i).
Proof using. clear Hr. by intros [H1 H2 H3 H4 H5 H6] Hsz Hm. Qed.

(** A change of the inodes leaves the blocks of the file. *)
Lemma owned_inode sb C i inum v :
  owned st sb C i -> fs_ok st sb C -> 0 <= inum < sb_ninodes sb -> length v = length (C (IBLOCK inum sb)) ->
  let C' := bupd C (IBLOCK inum sb) v in
  owned st sb C' i /\ file_bytes C' i = file_bytes C i /\ (forall a, inuse st sb C a -> C' a = C a)
  /\ (forall s, own C' i s = own C i s).
Proof using.
  clear Hr. intros How Hok Hi Hv C'. assert (forall a, inuse st sb C a -> C' a = C a) as Hsame.
  { intros a [_ _ [_ _ Hp] _]. apply bupd_ne. by apply not_eq_sym, Hp. }
  assert (forall bn, blk_of C' i bn = blk_of C i bn) as Eb.
  { intros bn. unfold blk_of. destruct (bn <? NDIRECT); [done|]. destruct (Z.eqb_spec (ind_of i) 0) as [|Hx]; [done|].
    rewrite Hsame; [done|]. rewrite <- (own_ind C) in Hx |- *. apply How; [unfold MAXFILE, NDIRECT, NINDIRECT, BSIZE; lia|done]. }
  assert (forall s, own C' i s = own C i s) as Eo by (intros s; unfold own; by rewrite Eb).
  assert (forall j, 0 <= j < sb_size sb -> C' (BBLOCK j sb) = C (BBLOCK j sb)) as Hbm.
  { intros j Hj. apply bupd_ne. by apply not_eq_sym, (fk_sep _ _ _ Hok). }
  split_and!; [|..|done|done].
  - destruct How as [H1 H2 H3 H4 H5 H6]. split; try done.
    + intros bn. rewrite Eb. auto.
    + intros s Hs. rewrite Eo. intros Hn. eapply inuse_ext; [done| |auto]. by rewrite Hsame by auto.
    + intros s s'. rewrite !Eo. auto.
  - unfold file_bytes. apply list_fmap_ext. intros j x Hx. apply lookup_seqZ in Hx as [-> Hx]. pose proof (owned_readable _ _ _ _ How) as [_ Hsz Hrd].
    unfold byte_at. rewrite Eb. f_equal. apply Hsame, blk_inuse; [done|apply blk_range; unfold BSIZE in *; lia|].
    apply Hrd; unfold BSIZE in *; lia.
Qed.

Lemma over_file C i C' i' src off :
  0 <= off <= i_size i -> i_size i' = Z.max (i_size i) (off + Z.of_nat (length src)) ->
  (forall j, 0 <= j < i_size i' -> byte_at C' i' j = over src off (byte_at C i) j) ->
  file_bytes C' i' = take (Z.to_nat off) (file_bytes C i) ++ src ++ drop (Z.to_nat off + length src) (file_bytes C i).
Proof using.
  clear Hr. intros Ho Hsz Hby. set (l := file_bytes C i). pose proof (length_file C i) as Hl. fold l in Hl. apply list_eq. intros j.
  assert (forall j, (j < Z.to_nat (i_size i))%nat -> l !! j = Some (byte_at C i (Z.of_nat j))) as Hold.
  { intros x Hx. unfold l, file_bytes. rewrite list_lookup_fmap, lookup_seqZ_lt by lia. cbn. do 2 f_equal. }
  unfold file_bytes at 1. rewrite list_lookup_fmap. destruct (decide (Z.of_nat j < i_size i')) as [Hj|Hj].
  2: { rewrite lookup_seqZ_ge by lia. symmetry. apply lookup_ge_None. rewrite !length_app, length_take, length_drop. lia. }
  rewrite lookup_seqZ_lt by lia. cbn. rewrite Z.add_0_l, Hby by lia. unfold over.
  destruct (Z.leb_spec off (Z.of_nat j)), (Z.ltb_spec (Z.of_nat j) (off + Z.of_nat (length src))); cbn [andb].
  - rewrite lookup_app_r by (rewrite length_take; lia). rewrite length_take, lookup_app_l by lia.
    rewrite list_lookup_lookup_total_lt by lia. do 2 f_equal. lia.
  - rewrite lookup_app_r by (rewrite length_take; lia). rewrite length_take, lookup_app_r by lia. rewrite lookup_drop.
    rewrite Hold by lia. do 2 f_equal. lia.
  - rewrite lookup_app_l by (rewrite length_take; lia). rewrite lookup_take_lt by lia. by rewrite Hold by lia.
  - lia.
Qed.

Lemma owned_inode_ok sb C i : owned st sb C i -> fs_ok st sb C ->
  - 2 ^ 15 <= i_type i < 2 ^ 15 -> - 2 ^ 15 <= i_major i < 2 ^ 15 -> - 2 ^ 15 <= i_minor i < 2 ^ 15 -> - 2 ^ 15 <= i_nlink i < 2 ^ 15 -> inode_ok i.
Proof using.
  clear Hr. intros How Hok. split; try done.
  - pose proof (ow_size _ _ _ _ How). unfold MAXFILE, NDIRECT, NINDIRECT, BSIZE in *. lia.
  - apply How.
  - apply Forall_forall. intros a (j & Hj)%list_elem_of_lookup_1. pose proof (lookup_lt_Some _ _ _ Hj) as Hlt. rewrite (ow_addrs _ _ _ _ How) in Hlt.
    apply list_lookup_total_correct in Hj. pose proof (own_slot C i (Z.of_nat j) ltac:(unfold NDIRECT; lia)) as E. rewrite Nat2Z.id, Hj in E.
    destruct (decide (a = 0)) as [->|Hn]; [lia|]. rewrite <- E in *. destruct (ow_block _ _ _ _ How (slot (Z.of_nat j))) as [Hr _ _ _]; [|done|].
    { apply slot_range. unfold NDIRECT. lia. }
    pose proof (ge_size _ _ _ (fk_geo _ _ _ Hok)). lia.
Qed.

Lemma rounds_enough off n q : 0 <= off -> 0 <= n -> off mod BSIZE + n <= Z.of_nat q * BSIZE ->
  exists q', (q' <= q)%nat /\ (q' < Z.to_nat (n / BSIZE) + 3)%nat /\ off mod BSIZE + n <= Z.of_nat q' * BSIZE.
Proof using.
  clear Hr. intros Ho Hn Hq. exists (Z.to_nat ((off mod BSIZE + n + (BSIZE - 1)) / BSIZE)). unfold BSIZE in *. lia.
Qed.

(** The end of writei(): the new size, and the update of the disk inode. *)
Lemma writei_end bl C R k d ip off :
  let sb := d_sb d in
  let i := inode_of d ip in
  let i' := set_i_size (Z.max (i_size i) off) i in
  fsst 1 0 bl C R k d ip -> placed st sb C i -> inode_ok i -> i_inum i < sb_ninodes sb -> 0 <= off <= MAXFILE * BSIZE ->
  (forall bn, 0 <= bn -> bn * BSIZE < off -> blk_of C i bn <> 0) ->
  exists bl' C' R' d', (size ← geti ip i_size; when (size <? off) (modi ip (set_i_size off));; iupdate ip) (KState y d) = Ret tt (KState y d')
    /\ fsop y p st bl' [] C' R' k d' /\ stays ip d d' /\ inode_of d' ip = i' /\ owned st sb C' i' /\ file_bytes C' i' = file_bytes C i'
    /\ load_dinode (C' (IBLOCK (i_inum i) sb)) (dinode_at (i_inum i)) i' = i' /\ (forall a, inuse st sb C a -> C' a = C a).
Proof using Hr Hll DO.
  intros sb i i' Hs Hpl Hiok Hin Ho Hm. pose proof Hs as [Hf Hb Hok Hfr How Hip]. fold sb i in How. pose proof (ow_size _ _ _ _ How) as Hsz.
  unfold geti. kstep. fold i.
  assert (exists d1, when (i_size i <? off) (modi ip (set_i_size off)) (KState y d) = Ret tt (KState y d1) /\ inode_of d1 ip = i' /\ stays ip d d1
    /\ fsop y p st bl [] C R k d1) as (d1 & E1 & Ei1 & Hst1 & Hf1).
  { destruct (Z.ltb_spec (i_size i) off) as [Hlt|Hge].
    - exists (upd_inode ip (set_i_size off) d). split_and!; [done| |apply stays_upd|by apply fsop_inodes].
      rewrite inode_upd by done. unfold i'. by rewrite Z.max_r by lia.
    - exists d. split_and!; [done| |apply stays_refl|done]. unfold i'. rewrite Z.max_l by lia. fold i. by destruct i. }
  rewrite (bind_Ret _ _ _ _ _ E1). assert (d_sb d1 = sb) as Esb by apply Hst1.
  assert (owned st sb C i') as How'.
  { apply owned_size; [done|lia|]. intros bn H0 Hlt. destruct (decide (bn * BSIZE < off)); [auto|]. apply How; [done|lia]. }
  destruct Hpl as [P1 P2 P3 P4 P5]. set (blk := IBLOCK (i_inum i) sb) in *. set (dip := dinode_at (i_inum i)).
  destruct (iupdate_run y p Hr Hll st bl C R k d1 ip) as (d2 & E2 & Hf2 & Hk2); rewrite ?Ei1, ?Esb; try done.
  { apply Hb. } { intros x. pose proof (bu_few _ _ _ _ Hb x). lia. } { exact (bu_room _ _ _ _ (budget_stays _ _ _ _ _ _ Hst1 Hb)). }
  rewrite Ei1, Esb in Hf2. change (i_inum i') with (i_inum i) in Hf2. fold blk dip in Hf2.
  destruct (owned_inode sb C i' (i_inum i) (store_dinode (C blk) dip i') How' Hok ltac:(lia)) as (Q1 & Q2 & Q3 & Q4).
  { apply length_store. }
  destruct (kept_stays ip _ _ Hk2) as [Hst2 Ei2]. destruct (dinode_range (i_inum i) P2) as [Hd1 Hd2]. fold dip in Hd1, Hd2.
  eexists _, _, _, d2. split_and!; [exact E2|exact Hf2|by eapply stays_trans|by rewrite Ei2|exact Q1|exact Q2| |exact Q3].
  rewrite bupd_eq, load_store; [by destruct i| |lia|lia].
  destruct Hiok. split; try done. change (i_size i') with (Z.max (i_size i) off). unfold MAXFILE, NDIRECT, NINDIRECT, BSIZE in *. lia.
Qed.

Lemma writei_run q m bl C R k d ip src off :
  let sb := d_sb d in
  let i := inode_of d ip in
  let n := Z.of_nat (length src) in
  fsst (7 * q + 1) (2 * q + m) bl C R k d ip -> placed st sb C i -> inode_ok i -> i_inum i < sb_ninodes sb ->
  0 <= off <= i_size i -> off + n <= MAXFILE * BSIZE -> off mod BSIZE + n <= Z.of_nat q * BSIZE ->
  exists bl' C' R' d', writei ip (FromLocal src) off n (KState y d) = Ret n (KState y d')
    /\ let i' := inode_of d' ip in
       fsop y p st bl' [] C' R' k d' /\ stays ip d d' /\ owned st sb C' i'
       /\ file_bytes C' i' = take (Z.to_nat off) (file_bytes C i) ++ src ++ drop (Z.to_nat off + length src) (file_bytes C i)
       /\ load_dinode (C' (IBLOCK (i_inum i) sb)) (dinode_at (i_inum i)) i' = i'
       /\ (forall a, inuse st sb C a -> (forall s, 0 <= s <= MAXFILE -> own C i s <> a) -> C' a = C a).
Proof using Hr Hll DO.
  intros sb i n Hs Hpl Hiok Hin Ho Hmax Hq. pose proof (ow_size _ _ _ _ (fs_owned _ _ _ _ _ _ _ _ Hs)) as Hsz. fold i in Hsz.
  assert (MAXFILE * BSIZE < 2 ^ 31) as HM by (unfold MAXFILE, NDIRECT, NINDIRECT, BSIZE; lia).
  destruct (rounds_enough off n q) as (q' & Hq1 & Hq2 & Hq3); [lia|lia|done|].
  unfold writei, geti. kstep. fold i. rewrite (wrapu_small 32) by lia. rewrite (proj2 (Z.ltb_ge (i_size i) off)) by lia.
  rewrite (proj2 (Z.ltb_ge (off + n) off)) by lia. cbn [orb]. rewrite (proj2 (Z.ltb_ge (MAXFILE * BSIZE) (off + n))) by lia.
  destruct (writei_loop_run ip k q' 1 m bl C R d (Z.to_nat (n / BSIZE) + 3) src off 0 n) as (bl1 & C1 & R1 & d1 & E1 & Hs1 & Hst1 & Hex1 & Hby1).
  { eapply fsst_weak; [| |exact Hs]; lia. } { lia. } { lia. } { done. } { done. } { done. } { intros _. by rewrite Z.sub_0_r. }
  fold n i sb in E1, Hex1, Hby1. rewrite (bind_Ret _ _ _ _ _ E1). assert (d_sb d1 = sb) as Esb by apply Hst1.
  set (i1 := inode_of d1 ip) in *. pose proof (ex_fields _ _ _ _ _ _ Hex1) as Ef.
  assert (i_size i1 = i_size i /\ i_inum i1 = i_inum i /\ i_dev i1 = i_dev i /\ i_type i1 = i_type i /\ i_major i1 = i_major i
    /\ i_minor i1 = i_minor i /\ i_nlink i1 = i_nlink i) as (F1 & F2 & F3 & F4 & F5 & F6 & F7) by (rewrite Ef; done). clear Ef.
  pose proof Hs1 as [_ _ Hok1 _ How1 _]. rewrite Esb in Hok1, How1. fold i1 in How1.
  destruct (writei_end bl1 C1 R1 k d1 ip (off + n)) as (bl' & C' & R' & d' & E2 & Hf2 & Hst2 & Ei2 & How2 & Hfb2 & Hld2 & Hsame2).
  all: rewrite ?Esb; fold i1; rewrite ?F2.
  { eapply fsst_weak; [| |exact Hs1]; lia. }
  { destruct Hpl as [P1 P2 P3 P4 P5]. split; rewrite ?F2, ?F3; try done. by rewrite (ex_inodes _ _ _ _ _ _ Hex1) by lia. }
  { destruct Hiok. apply (owned_inode_ok sb C1); try done; by rewrite ?F4, ?F5, ?F6, ?F7. } { done. } { lia. }
  { intros bn H0 Hlt. assert (0 <= bn * BSIZE < MAXFILE * BSIZE) as Hj by (unfold BSIZE in *; lia).
    replace bn with (bn * BSIZE / BSIZE) by (unfold BSIZE; lia). apply (Hby1 (bn * BSIZE) Hj).
    destruct (decide (bn * BSIZE < off)); [left|right; lia]. replace (bn * BSIZE / BSIZE) with bn by (unfold BSIZE; lia).
    apply (fs_owned _ _ _ _ _ _ _ _ Hs); [done|fold i; lia]. }
  fold i1 in Ei2, How2, Hfb2, Hld2. rewrite Esb in How2, Hld2, Hsame2. rewrite F2 in Hld2. rewrite <- Ei2 in How2, Hfb2, Hld2.
  apply obind_Ret_inv in E2 as (sz & s2 & E2a & E2). rewrite (bind_Ret _ _ _ _ _ E2a).
  apply obind_Ret_inv in E2 as ([] & s3 & E2b & E2c). rewrite (bind_Ret _ _ _ _ _ E2b), (bind_Ret _ _ _ _ _ E2c).
  exists bl', C', R', d'. rewrite wraps_small by lia. split_and!; [done|done|by eapply stays_trans|done| |done|].
  - rewrite Hfb2. apply over_file; [done|rewrite Ei2; cbn; fold i1; by rewrite F1|]. rewrite Ei2. cbn [i_size set_i_size]. rewrite F1.
    intros j Hj. change (byte_at C1 (set_i_size _ i1) j) with (byte_at C1 i1 j). apply Hby1; [lia|].
    destruct (decide (off <= j < off + n)) as [?|?]; [by right|left]. apply (fs_owned _ _ _ _ _ _ _ _ Hs); fold i; unfold BSIZE in *; lia.
  - intros a Ha Hno. destruct (ex_other _ _ _ _ _ _ Hex1 a Ha Hno) as (X1 & X2 & _). by rewrite Hsame2.
Qed.

End Write.

(** ** Witnesses *)

#[local] Instance one_round : Budget := 1%nat.
#[local] Existing Instances sync_disk sync_disk_ok.
#[local] Existing Instance demo_image.

Lemma demo_budget n d : (n <= 29)%nat -> lg_size (d_log d) = 30 -> budget n [] (fun _ => 0) d.
Proof.
  intros Hn Hl. split; [exists []; split; [intros; lia|cbn; unfold NBUF, MAXOPBLOCKS; lia]| |intros; lia].
  split; rewrite ?Hl; cbn; unfold LOGSIZE, MAXOPBLOCKS; lia.
Qed.

(** A file of 100 bytes whose block is the bitmap of the disk. *)
Definition demo_reader : inode := Inode ROOTDEV 5 1 1 2 0 0 1 100 (45 :: replicate 12 0).

Lemma demo_readable : readable (dk_blocks demo_disk) demo_reader.
Proof.
  split; [done|cbn; unfold MAXFILE, NDIRECT, NINDIRECT, BSIZE; lia|]. intros bn H0 Hlt. cbn in Hlt.
  assert (bn = 0) as -> by (unfold BSIZE in *; lia). split; vm_compute; [discriminate|reflexivity].
Qed.


(** An empty file. *)
Definition demo_empty : inode := Inode ROOTDEV 5 1 1 2 0 0 1 0 (replicate 13 0).

Lemma demo_IBLOCK inum : 0 <= inum < 200 -> 32 <= IBLOCK inum demo_sb < 45.
Proof.
  intros H. unfold IBLOCK, IPB, DINODE_SIZE, BSIZE. cbn [sb_inodestart demo_sb]. rewrite wrapu_small; change (1024 / 64) with 16; lia.
Qed.

Lemma demo_BBLOCK j : 0 <= j < 2000 -> BBLOCK j demo_sb = 45.
Proof. intros H. unfold BBLOCK, BPB, BSIZE. cbn [sb_bmapstart demo_sb]. rewrite wrapu_small; lia. Qed.

Lemma demo_used j : 0 <= j < 50 -> used_at (dk_blocks demo_disk) demo_sb j = true.
Proof. apply (ff_first _ _ _ _ demo_lowest_free). Qed.

Lemma demo_fs_ok : fs_ok 2 demo_sb (dk_blocks demo_disk).
Proof.
  split; [exact demo_geometry|..].
  - intros j Hj Hu. assert (50 <= j) by (destruct (decide (j < 50)); [rewrite demo_used in Hu by lia; done|lia]).
    split; [lia|]. split.
    + unfold in_log, LOGSIZE, MAXOPBLOCKS. lia.
    + intros b Hb. rewrite demo_BBLOCK by done. lia.
    + intros inum Hi. pose proof (demo_IBLOCK inum Hi). lia.
  - intros inum j Hi Hj. rewrite demo_BBLOCK by done. pose proof (demo_IBLOCK inum Hi). lia.
Qed.

Lemma demo_owned : owned 2 demo_sb (dk_blocks demo_disk) demo_empty.
Proof.
  assert (forall s, 0 <= s <= MAXFILE -> own (dk_blocks demo_disk) demo_empty s = 0) as E.
  { intros s Hs. unfold own, blk_of. change (ind_of demo_empty) with 0. destruct (s =? MAXFILE); [done|].
    destruct (Z.ltb_spec s NDIRECT); [|done]. cbn [i_addrs demo_empty].
    apply lookup_total_replicate_2. unfold NDIRECT in *. lia. }
  split; [done|done|cbn; unfold MAXFILE, NDIRECT, NINDIRECT, BSIZE; lia|..].
  - intros bn H0 Hlt. cbn in Hlt. unfold BSIZE in Hlt. lia.
  - intros s Hs Hn. by rewrite E in Hn.
  - intros s s' Hs Hs' Hn. by rewrite E in Hn.
Qed.

Lemma demo_frees : frees 2 demo_sb (dk_blocks demo_disk).
Proof.
  exists [50; 51]. split_and!; [|done|].
  - apply NoDup_cons. split; [|apply NoDup_singleton]. intros ?%list_elem_of_singleton. lia.
  - intros j [->|[->|?%elem_of_nil]%elem_of_cons]%elem_of_cons; [split; [cbn; lia|by vm_compute]..|done].
Qed.

