(* ===== verification/DirSpec.v ===== *)
(** * Directories

    A directory is a file of entries of 16 bytes.  dirlookup() searches it as a
    map from names to inode numbers, and dirlink() adds to that map. *)

From S2P Require Import Prelude Mem KString Riscv State Spinlock Kalloc Vm Proc ProcSpec Sleeplock SleepSpec Bio Blocks BioSpec Log LogSpec Printf Fs FsSpec InodeSpec ContentSpec.

(** ** Names *)

(** The string in the first [n] bytes of a field. *)
Fixpoint cname (n : nat) (l : list Z) : list Z :=
  match n, l with
  | S n', c :: l' => if u8 c =? 0 then [] else u8 c :: cname n' l'
  | _, _ => []
  end.

(** The same in memory. *)
Fixpoint cpre (m : mem) (a : Z) (n : nat) : list Z :=
  match n with
  | O => []
  | S n' => if load8 m a =? 0 then [] else load8 m a :: cpre m (a + 1) n'
  end.

Lemma cpre_ext m m' n : forall a a', (forall j, 0 <= j < Z.of_nat n -> load8 m (a + j) = load8 m' (a' + j)) -> cpre m a n = cpre m' a' n.
Proof.
  induction n as [|n IH]; intros a a' H; cbn; [done|]. pose proof (H 0 ltac:(lia)) as H0. rewrite !Z.add_0_r in H0. rewrite H0.
  destruct (_ =? 0); [done|]. f_equal. apply IH. intros j Hj. specialize (H (j + 1) ltac:(lia)).
  by replace (a + 1 + j) with (a + (j + 1)) by lia; replace (a' + 1 + j) with (a' + (j + 1)) by lia.
Qed.

(** strncmp() compares the strings. *)
Lemma strncmp_loop_spec m n : forall p q, strncmp_loop m p q n = 0 <-> cpre m p n = cpre m q n.
Proof.
  induction n as [|n IH]; intros p q; cbn; [done|]. unfold nz.
  destruct (Z.eqb_spec (load8 m p) 0) as [Ep|Np]; cbn [negb andb].
  - rewrite Ep. destruct (Z.eqb_spec (load8 m q) 0) as [->|Nq]; [done|]. split; [lia|done].
  - destruct (Z.eqb_spec (load8 m p) (load8 m q)) as [Eq|Ne].
    + rewrite <- Eq, (proj2 (Z.eqb_neq _ _) Np). rewrite IH. split; [by intros ->|by intros [=]].
    + destruct (Z.eqb_spec (load8 m q) 0); [split; [lia|done]|]. split; [lia|]. intros [=]. done.
Qed.

Lemma u8_load8 m a : u8 (load8 m a) = load8 m a.
Proof. unfold load8, wrapu. by rewrite Z.mod_mod. Qed.

Lemma cname_read m n : forall a, cname n (read_bytes m a n) = cpre m a n.
Proof. induction n as [|n IH]; intros a; cbn; [done|]. rewrite u8_load8. by rewrite IH. Qed.

(** A string with a NUL after it. *)
Lemma cpre_string m n : forall a l, (forall j : nat, (j < n)%nat -> load8 m (a + Z.of_nat j) = default 0 (u8 <$> l !! j)) -> cpre m a n = cname n l.
Proof.
  induction n as [|n IH]; intros a l H; cbn; [done|]. pose proof (H O ltac:(lia)) as H0. rewrite Z.add_0_r in H0. rewrite H0.
  destruct l as [|c l]; cbn; [done|]. destruct (u8 c =? 0); [done|]. f_equal. apply IH. intros j Hj. specialize (H (S j) ltac:(lia)).
  change ((c :: l) !! S j) with (l !! j) in H. rewrite <- H. f_equal. lia.
Qed.

Lemma two_strings_fst s t n : (length s <= 0x1000)%nat -> (n <= 0x1000)%nat -> cpre (two_strings s t) 0 n = cname n s.
Proof.
  intros Hs Hn. apply cpre_string. intros j Hj. unfold two_strings. rewrite !load8_write_bytes.
  rewrite (proj2 (Z.leb_gt 0x1000 _)) by lia. cbn [andb]. rewrite (proj2 (Z.leb_le 0 _)) by lia. cbn [andb].
  destruct (Z.ltb_spec (0 + Z.of_nat j) (0 + Z.of_nat (length s))).
  - rewrite nth_lookup. replace (Z.to_nat (0 + Z.of_nat j - 0)) with j by lia. by destruct (lookup_lt_is_Some_2 s j ltac:(lia)) as [c ->].
  - by rewrite lookup_ge_None_2 by lia.
Qed.

Lemma two_strings_snd s t n : (length s <= 0x1000)%nat -> cpre (two_strings s t) 0x1000 n = cname n t.
Proof.
  intros Hs. apply cpre_string. intros j Hj. unfold two_strings. rewrite !load8_write_bytes.
  rewrite (proj2 (Z.leb_le 0x1000 _)) by lia. cbn [andb].
  destruct (Z.ltb_spec (0x1000 + Z.of_nat j) (0x1000 + Z.of_nat (length t))).
  - rewrite nth_lookup. replace (Z.to_nat (0x1000 + Z.of_nat j - 0x1000)) with j by lia. by destruct (lookup_lt_is_Some_2 t j ltac:(lia)) as [c ->].
  - rewrite (lookup_ge_None_2 t) by lia. rewrite (proj2 (Z.ltb_ge _ _)) by lia. rewrite andb_false_r. done.
Qed.

Lemma namecmp_spec s t :
  (length s <= 0x1000)%nat -> (namecmp s t =? 0) = bool_decide (cname (Z.to_nat DIRSIZ) s = cname (Z.to_nat DIRSIZ) t).
Proof.
  intros Hs. unfold namecmp, strncmp. apply eq_true_iff_eq. rewrite Z.eqb_eq, bool_decide_eq_true, strncmp_loop_spec.
  rewrite two_strings_fst, two_strings_snd by (unfold DIRSIZ; lia). done.
Qed.

Lemma strncpy_outside n : forall m s t x, x < s \/ s + Z.of_nat n <= x -> load8 (strncpy_copy m s t n) x = load8 m x.
Proof.
  induction n as [|n IH]; intros m s t x H; cbn [strncpy_copy]; [done|]. destruct (_ =? 0).
  - rewrite load8_strncpy_pad, load8_store8. zcases; done || lia.
  - rewrite IH by lia. rewrite load8_store8. zcases; done || lia.
Qed.

Lemma strncpy_copies n : forall m s t, s + Z.of_nat n <= t -> cpre (strncpy_copy m s t n) s n = cpre m t n.
Proof.
  induction n as [|n IH]; intros m s t H; [done|]. cbn [strncpy_copy].
  set (c := load8 m t). assert (load8 (store8 m s c) s = c) as Es by (rewrite load8_store8; zcases; try lia; apply u8_load8).
  destruct (Z.eqb_spec c 0) as [E0|Hn].
  - cbn [cpre]. rewrite load8_strncpy_pad, Es. fold c. rewrite E0. zcases; done || lia.
  - cbn [cpre]. rewrite strncpy_outside, Es by lia. fold c. rewrite (proj2 (Z.eqb_neq _ _) Hn). f_equal.
    rewrite IH by lia. apply cpre_ext. intros j Hj. rewrite load8_store8. zcases; done || lia.
Qed.

(** The name of an entry that dirlink() writes. *)
Lemma dirent_name_spec name : cname (Z.to_nat DIRSIZ) (dirent_name name) = cname (Z.to_nat DIRSIZ) name.
Proof.
  unfold dirent_name, strncpy. rewrite cname_read, strncpy_copies by (unfold DIRSIZ; lia). apply two_strings_snd. cbn. lia.
Qed.

Lemma length_dirent_name name : length (dirent_name name) = Z.to_nat DIRSIZ.
Proof. apply length_read_bytes. Qed.

(** ** A directory as a map *)

Definition desize : nat := Z.to_nat DE_SIZE.

(** The first entry with the name among the next [n]: its inode number and its offset. *)
Fixpoint dir_find (n : nat) (name bs : list Z) (off : Z) : option (Z * Z) :=
  match n with
  | O => None
  | S n' =>
      let de := take desize bs in
      if (de_inum de =? 0) || negb (bool_decide (cname (Z.to_nat DIRSIZ) name = cname (Z.to_nat DIRSIZ) (de_name de)))
      then dir_find n' name (drop desize bs) (off + DE_SIZE)
      else Some (de_inum de, off)
  end.

Definition dir_get (name bs : list Z) : option (Z * Z) := dir_find (length bs / desize) name bs 0.

(** The offset of the first free entry, or of the end. *)
Fixpoint dir_free (n : nat) (bs : list Z) (off : Z) : Z :=
  match n with
  | O => off
  | S n' => if de_inum (take desize bs) =? 0 then off else dir_free n' (drop desize bs) (off + DE_SIZE)
  end.

(** An entry of the directory. *)
Definition is_entry (de : list Z) (name : list Z) (inum : Z) : Prop :=
  length de = desize /\ de_inum de = inum /\ inum <> 0 /\ cname (Z.to_nat DIRSIZ) (de_name de) = cname (Z.to_nat DIRSIZ) name.

Lemma dir_free_range n : forall bs off, off <= dir_free n bs off <= off + DE_SIZE * Z.of_nat n /\ (DE_SIZE | dir_free n bs off - off).
Proof.
  induction n as [|n IH]; intros bs off; cbn [dir_free]; [split; [lia|]; rewrite Z.sub_diag; apply Z.divide_0_r|].
  destruct (_ =? 0); [split; [unfold DE_SIZE; lia|]; rewrite Z.sub_diag; apply Z.divide_0_r|].
  destruct (IH (drop desize bs) (off + DE_SIZE)) as [H1 [x H2]]. split; [unfold DE_SIZE in *; lia|]. exists (x + 1). lia.
Qed.

Lemma dir_find_cons e l name off :
  length e = desize ->
  dir_find (length (e ++ l) / desize) name (e ++ l) off =
    if (de_inum e =? 0) || negb (bool_decide (cname (Z.to_nat DIRSIZ) name = cname (Z.to_nat DIRSIZ) (de_name e)))
    then dir_find (length l / desize) name l (off + DE_SIZE) else Some (de_inum e, off).
Proof.
  intros He. rewrite length_app, He. replace ((desize + length l) / desize)%nat with (S (length l / desize)).
  - cbn [dir_find]. rewrite <- He, take_app_length, drop_app_length. by rewrite He.
  - replace (desize + length l)%nat with (length l + 1 * desize)%nat by lia. rewrite Nat.div_add by done. lia.
Qed.

(** The directory after the entry [de] has been stored at the free offset. *)
Lemma dir_find_added de name inum : is_entry de name inum -> forall n bs off name',
  length bs = (n * desize)%nat -> dir_find n name bs off = None ->
  let o := Z.to_nat (dir_free n bs off - off) in
  let bs' := take o bs ++ de ++ drop (o + desize) bs in
  dir_find (length bs' / desize) name' bs' off =
    if bool_decide (cname (Z.to_nat DIRSIZ) name' = cname (Z.to_nat DIRSIZ) name) then Some (inum, dir_free n bs off)
    else dir_find n name' bs off.
Proof.
  intros (E1 & E2 & E3 & E4). induction n as [|n IH]; intros bs off name' Hl Hf o bs'.
  - assert (bs = []) as -> by (by apply length_zero_iff_nil). unfold bs', o. cbn [dir_free]. rewrite Z.sub_diag. cbn [Z.to_nat take app].
    rewrite (dir_find_cons de []), E2, (proj2 (Z.eqb_neq _ _) E3), E4 by done. cbn [orb]. by case_bool_decide.
  - set (e := take desize bs). set (l := drop desize bs). assert (length e = desize) as He by (unfold e; rewrite length_take; lia).
    assert (length l = (n * desize)%nat) as Hll by (unfold l; rewrite length_drop; lia).
    assert (bs = e ++ l) as Ebs by (symmetry; apply take_drop). cbn [dir_find] in Hf |- *. fold e l in Hf |- *.
    unfold bs', o in *. cbn [dir_free]. fold e l. destruct (Z.eqb_spec (de_inum e) 0) as [E0|Hn]; cbn [orb] in Hf |- *.
    + rewrite Z.sub_diag. cbn [Z.to_nat take app Nat.add]. fold l. rewrite (dir_find_cons de l), E2, (proj2 (Z.eqb_neq _ _) E3), E4 by done. cbn [orb].
      case_bool_decide; cbn [negb]; [done|]. f_equal. rewrite Hll. by apply Nat.div_mul.
    + destruct (dir_free_range n l (off + DE_SIZE)) as [[Hr _] _]. set (o1 := Z.to_nat (dir_free n l (off + DE_SIZE) - (off + DE_SIZE))).
      replace (Z.to_nat (dir_free n l (off + DE_SIZE) - off)) with (desize + o1)%nat by (unfold o1, desize, DE_SIZE in *; lia).
      assert (take (desize + o1) bs = e ++ take o1 l) as -> by (rewrite Ebs, <- He; apply take_app_add).
      assert (drop (desize + o1 + desize) bs = drop (o1 + desize) l) as -> by (unfold l; rewrite drop_drop; f_equal; lia).
      rewrite <- app_assoc, dir_find_cons by done.
      rewrite (proj2 (Z.eqb_neq _ _) Hn). cbn [orb]. case_bool_decide as Em; cbn [negb] in *; [done|].
      destruct (bool_decide (_ = cname _ (de_name e))) eqn:Em'; cbn [negb].
      * rewrite bool_decide_eq_true in Em'. rewrite bool_decide_eq_false_2 by congruence. done.
      * by apply IH.
Qed.

#[local] Ltac Zify.zify_post_hook ::= Z.to_euclidean_division_equations.

Section Dir.
Context {I : Image} {B : Budget} {D : Disk} {DO : DiskOk D}.
Context (y : sync) (p : nat) (Hr : (0 < rounds)%nat) (Hll : free LLog y) (st : Z).

(** The entry at [off] is read. *)
Lemma read_entry bl C R k d dp off n :
  let bs := file_bytes C (inode_of d dp) in
  fsop y p st bl [] C R k d -> budget 1 bl R d -> readable C (inode_of d dp) -> 0 <= off ->
  length (drop (Z.to_nat off) bs) = (S n * desize)%nat ->
  exists d', readi dp ToLocal off DE_SIZE (KState y d) = Ret (DE_SIZE, take desize (drop (Z.to_nat off) bs)) (KState y d')
    /\ fsop y p st bl [] C R k d' /\ kept d d' /\ off + DE_SIZE * Z.of_nat (S n) = i_size (inode_of d dp) /\ i_size (inode_of d dp) <= MAXFILE * BSIZE.
Proof using Hr DO.
  intros bs Hf Hb Hrd Ho Hl. pose proof (rd_size _ _ Hrd) as Hsz. unfold bs in Hl. rewrite length_drop, length_file in Hl.
  assert (off + DE_SIZE * Z.of_nat (S n) = i_size (inode_of d dp)) as Es by (unfold desize, DE_SIZE in *; lia).
  destruct (readi_run y p Hr st bl C R k d dp off DE_SIZE Hf Hb Hrd Ho) as (d' & E & Hf' & Hk).
  { unfold DE_SIZE. lia. } { unfold DE_SIZE, MAXFILE, NDIRECT, NINDIRECT, BSIZE in *. lia. }
  exists d'. split_and!; try done; [|lia]. rewrite E. do 2 f_equal. rewrite length_take, length_drop, length_file. unfold desize, DE_SIZE in *. lia.
Qed.

Lemma dirlookup_loop_run dp name bl C R k : (length name <= 0x1000)%nat -> forall n fuel d off,
  let bs := file_bytes C (inode_of d dp) in
  fsop y p st bl [] C R k d -> budget 1 bl R d -> readable C (inode_of d dp) -> 0 <= off <= Z.of_nat (length bs) ->
  length (drop (Z.to_nat off) bs) = (n * desize)%nat -> (n < fuel)%nat ->
  exists d', fsop y p st bl [] C R k d' /\ kept d d' /\
    dirlookup_loop fuel dp name off (KState y d) =
      match dir_find n name (drop (Z.to_nat off) bs) off with
      | None => Ret None (KState y d')
      | Some (inum, o) => (ip ← iget ROOTDEV inum; mret (Some (ip, o))) (KState y d')
      end.
Proof using Hr DO.
  intros Hname. induction n as [|n IH]; intros fuel d off bs Hf Hb Hrd Ho Hl Hfu; (destruct fuel as [|fuel]; [lia|]); cbn [dirlookup_loop dir_find].
  all: unfold geti; kstep; pose proof (rd_size _ _ Hrd) as Hsz.
  { unfold bs in Hl. rewrite length_drop, length_file in Hl. rewrite (proj2 (Z.ltb_ge _ _)) by lia. exists d. by split_and!. }
  destruct (read_entry bl C R k d dp off n Hf Hb Hrd) as (d1 & E1 & Hf1 & Hk1 & Es & HM); [lia|done|].
  rewrite (proj2 (Z.ltb_lt _ _)) by (unfold DE_SIZE in *; lia). rewrite (bind_Ret _ _ _ _ _ E1). cbn [Z.eqb negb]. fold bs.
  set (de := take desize (drop (Z.to_nat off) bs)). assert (inode_of d1 dp = inode_of d dp) as Ei by (unfold inode_of; by destruct Hk1 as (_ & -> & _)).
  rewrite Z.eqb_refl. cbn [negb].
  assert (exists d', fsop y p st bl [] C R k d' /\ kept d d' /\ dirlookup_loop fuel dp name (u32 (off + DE_SIZE)) (KState y d1) =
      match dir_find n name (drop desize (drop (Z.to_nat off) bs)) (off + DE_SIZE) with
      | None => Ret None (KState y d')
      | Some (inum, o) => (ip ← iget ROOTDEV inum; mret (Some (ip, o))) (KState y d') end) as Hnext.
  { rewrite wrapu_small by (unfold DE_SIZE, MAXFILE, NDIRECT, NINDIRECT, BSIZE in *; lia). rewrite drop_drop.
    replace (Z.to_nat off + desize)%nat with (Z.to_nat (off + DE_SIZE)) by (unfold desize, DE_SIZE; lia).
    destruct (IH fuel d1 (off + DE_SIZE)) as (d' & Hf' & Hk' & E'); rewrite ?Ei; fold bs; try done.
    - by eapply budget_kept.
    - rewrite length_drop in Hl. unfold desize, DE_SIZE in *. lia.
    - rewrite length_drop in *. unfold desize, DE_SIZE in *. lia.
    - lia.
    - exists d'. rewrite Ei in E'. split_and!; [done|by eapply kept_trans|done]. }
  destruct (de_inum de =? 0); cbn [orb]; [done|]. rewrite namecmp_spec by done. case_bool_decide; cbn [negb]; [|done].
  kstep. rewrite Ei, (rd_dev _ _ Hrd). exists d1. by split_and!.
Qed.

Lemma dir_count C i : 0 <= i_size i -> (DE_SIZE | i_size i) ->
  let bs := file_bytes C i in
  length bs = (length bs / desize * desize)%nat /\ (length bs / desize < S (S (Z.to_nat (i_size i / DE_SIZE))))%nat.
Proof using.
  clear Hr. intros H0 [x Hx] bs. unfold bs. rewrite length_file. unfold desize, DE_SIZE in *.
  assert (Z.to_nat (i_size i) = Z.to_nat x * Z.to_nat 16)%nat as E by lia. rewrite E, Nat.div_mul by lia. split; [done|].
  rewrite Hx, Z.div_mul by lia. lia.
Qed.

Lemma dirlookup_run bl C R k d dp name :
  let i := inode_of d dp in
  fsop y p st bl [] C R k d -> budget 1 bl R d -> readable C i -> i_type i = T_DIR -> (DE_SIZE | i_size i) -> (length name <= 0x1000)%nat ->
  exists d', fsop y p st bl [] C R k d' /\ kept d d' /\
    dirlookup dp name (KState y d) =
      match dir_get name (file_bytes C i) with
      | None => Ret None (KState y d')
      | Some (inum, off) => (ip ← iget ROOTDEV inum; mret (Some (ip, off))) (KState y d')
      end.
Proof using Hr DO.
  intros i Hf Hb Hrd Ht Hsz Hn. destruct (dir_count C i ltac:(apply Hrd) Hsz) as [Hl Hfu].
  unfold dirlookup, geti. kstep. fold i. rewrite Ht, Z.eqb_refl. cbn [negb]. kstep. fold i.
  exact (dirlookup_loop_run dp name bl C R k Hn (length (file_bytes C i) / desize) _ d 0 Hf Hb Hrd ltac:(lia) Hl Hfu).
Qed.

Lemma dirlink_scan_run dp bl C R k : forall n fuel d off,
  let bs := file_bytes C (inode_of d dp) in
  fsop y p st bl [] C R k d -> budget 1 bl R d -> readable C (inode_of d dp) -> 0 <= off <= Z.of_nat (length bs) ->
  length (drop (Z.to_nat off) bs) = (n * desize)%nat -> (n < fuel)%nat ->
  exists d', fsop y p st bl [] C R k d' /\ kept d d' /\
    dirlink_scan fuel dp off (KState y d) = Ret (dir_free n (drop (Z.to_nat off) bs) off) (KState y d').
Proof using Hr DO.
  induction n as [|n IH]; intros fuel d off bs Hf Hb Hrd Ho Hl Hfu; (destruct fuel as [|fuel]; [lia|]); cbn [dirlink_scan dir_free].
  all: unfold geti; kstep; pose proof (rd_size _ _ Hrd) as Hsz.
  { unfold bs in Hl. rewrite length_drop, length_file in Hl. rewrite (proj2 (Z.ltb_ge _ _)) by lia. exists d. by split_and!. }
  destruct (read_entry bl C R k d dp off n Hf Hb Hrd) as (d1 & E1 & Hf1 & Hk1 & Es & HM); [lia|done|].
  rewrite (proj2 (Z.ltb_lt _ _)) by (unfold DE_SIZE in *; lia). rewrite (bind_Ret _ _ _ _ _ E1). fold bs. rewrite Z.eqb_refl. cbn [negb].
  assert (inode_of d1 dp = inode_of d dp) as Ei by (unfold inode_of; by destruct Hk1 as (_ & -> & _)).
  destruct (_ =? 0); [exists d1; by split_and!|]. rewrite drop_drop.
  replace (Z.to_nat off + desize)%nat with (Z.to_nat (off + DE_SIZE)) by (unfold desize, DE_SIZE; lia).
  destruct (IH fuel d1 (off + DE_SIZE)) as (d' & Hf' & Hk' & E'); rewrite ?Ei; fold bs; try done.
  - by eapply budget_kept.
  - rewrite length_drop in Hl. unfold desize, DE_SIZE in *. lia.
  - rewrite length_drop in *. unfold desize, DE_SIZE in *. lia.
  - lia.
  - exists d'. rewrite Ei in E'. split_and!; [done|by eapply kept_trans|done].
Qed.

Lemma new_entry name inum : 0 < inum < 2 ^ 16 -> is_entry (le_bytes 2 inum ++ dirent_name name) name inum.
Proof using.
  clear Hr. intros Hi. unfold is_entry. rewrite length_app, length_dirent_name, length_le_bytes. split_and!; [done| |lia|apply dirent_name_spec].
  unfold de_inum. rewrite le_bytes2. unfold get16. set (l := [_; _] ++ _). change (l !!! Z.to_nat 0) with (u8 inum).
  change (l !!! Z.to_nat (0 + 1)) with (u8 (inum / 256)). clear l. unfold wrapu. change (2 ^ 8) with 256. lia.
Qed.


End Dir.

(** ** Witnesses *)

#[local] Instance one_round : Budget := 1%nat.
#[local] Existing Instances sync_disk sync_disk_ok.
#[local] Existing Instance demo_image.

(** A directory with the names ".", for inode 1, and "a", for inode 7. *)
Definition demo_dir : disk :=
  State.Disk (fun _ => le_bytes 2 1 ++ str "." ++ replicate 13 0 ++ le_bytes 2 7 ++ str "a" ++ replicate 1005 0) [].
Definition demo_dp : inode := Inode ROOTDEV 1 1 1 T_DIR 0 0 1 32 (60 :: replicate 12 0).


