(* ===== verification/File.v ===== *)
(** * kernel/file.c: open files, and pipealloc() of pipe.c

    An open file is its index in [ftable.file]. *)

From S2P Require Import Prelude Mem KString Riscv State Spinlock Kalloc Vm Proc Uart Printf Console Sleeplock Pipe Bio Log Fs.

Section File.
Context {I : Image} {B : Budget} {D : Disk}.

Definition file_of (d : data) (f : nat) : file := d_ftable d !!! f.
Definition upd_file (f : nat) (g : file -> file) (d : data) : data :=
  set_d_ftable (alter g f (d_ftable d)) d.
Definition getf {A} (f : nat) (g : file -> A) : K A := getd (fun d => g (file_of d f)).
Definition modf (f : nat) (g : file -> file) : K unit := modd (upd_file f g).

Definition fileinit : K unit := initlock LFtable "ftable".

(** The first file with no reference. *)
Fixpoint filealloc_scan (fs : list nat) : K (option nat) :=
  match fs with
  | [] => release LFtable;; mret None
  | f :: fs' =>
      ref ← getf f f_ref;
      if ref =? 0 then
        modf f (set_f_ref 1);;
        release LFtable;;
        mret (Some f)
      else filealloc_scan fs'
  end.

Definition filealloc : K (option nat) :=
  acquire LFtable;;
  filealloc_scan (seq 0 NFILE).

Definition filedup (f : nat) : K nat :=
  acquire LFtable;;
  ref ← getf f f_ref;
  if ref <? 1 then panic "filedup"
  else
    modf f (fun r => set_f_ref (f_ref r + 1) r);;
    release LFtable;;
    mret f.

Definition fileclose (f : nat) : K unit :=
  acquire LFtable;;
  ref ← getf f f_ref;
  if ref <? 1 then panic "fileclose"
  else
    modf f (fun r => set_f_ref (f_ref r - 1) r);;
    ref ← getf f f_ref;
    if 0 <? ref then release LFtable
    else
      ff ← getf f id;
      modf f (set_f_ref 0);;
      modf f (set_f_type FD_NONE);;
      release LFtable;;
      match f_type ff with
      | FD_PIPE => pipeclose (f_pipe ff) (f_writable ff)
      | FD_INODE | FD_DEVICE =>
          begin_op;;
          ip ← deref (f_ip ff);
          iput ip;;
          end_op
      | FD_NONE => mret tt
      end.

Definition filestat (f : nat) (addr : Z) : K Z :=
  cur ← myproc;
  type ← getf f f_type;
  match type with
  | FD_INODE | FD_DEVICE =>
      fip ← getf f f_ip;
      ilock fip;;
      ip ← deref fip;
      st ← stati ip;
      iunlock fip;;
      p ← deref cur;
      pt ← getp p p_pagetable;
      r ← copyout pt addr (stat_bytes st);
      mret (if r <? 0 then -1 else 0)
  | _ => mret (-1)
  end.

(** [devsw[f->major]], if [major] is in range and the device is there. *)
Definition devsw_of (major : Z) : K (option device) :=
  if (major <? 0) || (Z.of_nat NDEV <=? major) then mret None
  else getd (fun d => d_devsw d !!! Z.to_nat major).

Definition fileread (f : nat) (addr n : Z) : K Z :=
  readable ← getf f f_readable;
  if readable =? 0 then mret (-1)
  else
    ff ← getf f id;
    match f_type ff with
    | FD_PIPE => piperead (f_pipe ff) addr n
    | FD_DEVICE =>
        dev ← devsw_of (f_major ff);
        match dev with
        | None => mret (-1)
        | Some ConsoleDev => consoleread true addr n
        end
    | FD_INODE =>
        ilock (f_ip ff);;
        ip ← deref (f_ip ff);
        off ← getf f f_off;
        '(r, _) ← readi ip (ToUser addr) off (u32 n);
        when (0 <? r) (modf f (fun x => set_f_off (u32 (f_off x + r)) x));;
        iunlock (f_ip ff);;
        mret r
    | FD_NONE => panic "fileread"
    end.

(** [((MAXOPBLOCKS-1-1-2) / 2) * BSIZE] *)
Definition filewrite_max : Z := (MAXOPBLOCKS - 1 - 1 - 2) / 2 * BSIZE.

(** [while(i < n)]: every round but the last writes [filewrite_max] bytes. *)
Fixpoint filewrite_loop (fuel : nat) (f : nat) (addr i n : Z) : K Z :=
  match fuel with
  | O => nofuel
  | S fuel' =>
      if i <? n then
        let n1 := if filewrite_max <? n - i then filewrite_max else n - i in
        begin_op;;
        fip ← getf f f_ip;
        ilock fip;;
        ip ← deref fip;
        off ← getf f f_off;
        r ← writei ip (FromUser (u64 (addr + i))) off (u32 n1);
        when (0 <? r) (modf f (fun x => set_f_off (u32 (f_off x + r)) x));;
        iunlock fip;;
        end_op;;
        if negb (r =? n1) then mret i
        else filewrite_loop fuel' f addr (i + r) n
      else mret i
  end.

Definition filewrite (f : nat) (addr n : Z) : K Z :=
  writable ← getf f f_writable;
  if writable =? 0 then mret (-1)
  else
    ff ← getf f id;
    match f_type ff with
    | FD_PIPE => pipewrite (f_pipe ff) addr n
    | FD_DEVICE =>
        dev ← devsw_of (f_major ff);
        match dev with
        | None => mret (-1)
        | Some ConsoleDev => consolewrite true addr n
        end
    | FD_INODE =>
        i ← filewrite_loop (S (S (Z.to_nat (n / filewrite_max)))) f addr 0 n;
        mret (if i =? n then n else -1)
    | FD_NONE => panic "filewrite"
    end.

(** ** pipealloc() of pipe.c *)

(** [bad:], with the values of [pi], [*f0] and [*f1]. *)
Definition pipealloc_bad (pi : Z) (f0 f1 : option nat) : K (option (nat * nat)) :=
  when (nz pi) (kfree pi);;
  match f0 with Some f => fileclose f | None => mret tt end;;
  match f1 with Some f => fileclose f | None => mret tt end;;
  mret None.

(** [None] is -1; the rest of the page is as kalloc() left it. *)
Definition pipealloc : K (option (nat * nat)) :=
  f0 ← filealloc;
  match f0 with
  | None => pipealloc_bad 0 None None
  | Some rf =>
      f1 ← filealloc;
      match f1 with
      | None => pipealloc_bad 0 f0 None
      | Some wf =>
          pi ← kalloc;
          if pi =? 0 then pipealloc_bad 0 f0 f1
          else
            modd (fun d => set_d_pipes (<[pi := Pipe (read_bytes (d_mem d) (pi + 24) 512) 0 0 1 1]> (d_pipes d)) d);;
            initlock (LPipe pi) "pipe";;
            modf rf (set_f_type FD_PIPE);;
            modf rf (set_f_readable 1);;
            modf rf (set_f_writable 0);;
            modf rf (set_f_pipe pi);;
            modf wf (set_f_type FD_PIPE);;
            modf wf (set_f_readable 0);;
            modf wf (set_f_writable 1);;
            modf wf (set_f_pipe pi);;
            mret (Some (rf, wf))
      end
  end.
End File.
