(* ===== verification/ProcLife.v ===== *)
(** * kernel/proc.c: the life of a process

    userinit(), fork() and exit(), which reach the file system. *)

From S2P Require Import Prelude Mem KString Riscv State Spinlock Kalloc Vm Proc Uart Printf Console Sleeplock Pipe Bio Log Fs File.

(** a user program that calls exec("/init") *)
Definition initcode : list Z := [
  0x17; 0x05; 0x00; 0x00; 0x13; 0x05; 0x45; 0x02;
  0x97; 0x05; 0x00; 0x00; 0x93; 0x85; 0x35; 0x02;
  0x93; 0x08; 0x70; 0x00; 0x73; 0x00; 0x00; 0x00;
  0x93; 0x08; 0x20; 0x00; 0x73; 0x00; 0x00; 0x00;
  0xef; 0xf0; 0x9f; 0xff; 0x2f; 0x69; 0x6e; 0x69;
  0x74; 0x00; 0x00; 0x24; 0x00; 0x00; 0x00; 0x00;
  0x00; 0x00; 0x00; 0x00].

Section ProcLife.
Context {I : Image} {B : Budget} {D : Disk}.

Definition userinit : K unit :=
  np ← allocproc;
  modd (set_d_initproc np);;
  p ← deref np;
  pt ← getp p p_pagetable;
  uvmfirst pt initcode (Z.of_nat (length initcode));;
  modp p (set_p_sz PGSIZE);;
  set_tf p TF_epc 0;;
  set_tf p TF_sp PGSIZE;;
  modp p (fun q => set_p_name (safestrcpy_obj (p_name q) (str "initcode" ++ [0]) 16) q);;
  ip ← namei (str "/");
  modp p (set_p_cwd ip);;
  modp p (set_p_state RUNNABLE);;
  release (LProc p).

(** [*(np->trapframe) = *(p->trapframe);] *)
Definition copy_trapframe (np p : nat) : K unit :=
  from ← getp p p_trapframe;
  to ← getp np p_trapframe;
  bytes ← getd (fun d => read_bytes (d_mem d) from (Z.to_nat TF_SIZE));
  kwrite to bytes.

Definition fork : K Z :=
  cur ← myproc;
  found ← allocproc;
  match found with
  | None => mret (-1)
  | Some np =>
      p ← deref cur;
      old ← getp p p_pagetable;
      new ← getp np p_pagetable;
      sz ← getp p p_sz;
      r ← uvmcopy old new sz;
      if r <? 0 then
        freeproc np;;
        release (LProc np);;
        mret (-1)
      else
        sz ← getp p p_sz;
        modp np (set_p_sz sz);;
        copy_trapframe np p;;
        set_tf np TF_a0 0;;
        for_each (seq 0 NOFILE) (fun i =>
          f ← getp p (fun q => p_ofile q !!! i);
          match f with
          | Some f =>
              f' ← filedup f;
              modp np (fun q => set_p_ofile (<[i := Some f']> (p_ofile q)) q)
          | None => mret tt
          end);;
        cwd ← getp p p_cwd;
        cwd ← deref cwd;
        cwd' ← idup cwd;
        modp np (set_p_cwd (Some cwd'));;
        name ← getp p p_name;
        modp np (fun q => set_p_name (safestrcpy_obj (p_name q) name 16) q);;
        pid ← getp np p_pid;
        release (LProc np);;
        acquire LWait;;
        modp np (set_p_parent (Some p));;
        release LWait;;
        acquire (LProc np);;
        modp np (set_p_state RUNNABLE);;
        release (LProc np);;
        mret pid
  end.

(** [msg] is the string as far as it may be read. *)
Definition exit (status : Z) (msg : list Z) : K unit :=
  cur ← myproc;
  init ← getd d_initproc;
  if decide (cur = init) then panic "init exiting"
  else
    p ← deref cur;
    for_each (seq 0 NOFILE) (fun fd =>
      f ← getp p (fun q => p_ofile q !!! fd);
      match f with
      | Some f =>
          fileclose f;;
          modp p (fun q => set_p_ofile (<[fd := None]> (p_ofile q)) q)
      | None => mret tt
      end);;
    begin_op;;
    cwd ← getp p p_cwd;
    cwd ← deref cwd;
    iput cwd;;
    end_op;;
    modp p (set_p_cwd None);;
    acquire LWait;;
    reparent p;;
    par ← getp p p_parent;
    wakeup (chan_of par);;
    acquire (LProc p);;
    modp p (fun q => set_p_exit_msg (safestrcpy_obj (p_exit_msg q) msg 32) q);;
    modp p (set_p_xstate status);;
    modp p (set_p_state ZOMBIE);;
    release LWait;;
    sched;;
    panic "zombie exit".
End ProcLife.
