(* ===== verification/Args.v ===== *)
(** * kernel/syscall.c: fetching system call arguments *)

From S2P Require Import Prelude Mem KString Riscv State Spinlock Kalloc Vm Proc.

(** The number that bytes in memory stand for, least significant first. *)
Definition of_bytes (bs : list Z) : Z := foldr (fun b acc => b + 256 * acc) 0 bs.

Section Args.
Context {I : Image} {B : Budget}.

(** The result is the return value and [*ip]. *)
Definition fetchaddr (addr : Z) : K (Z * Z) :=
  cur ← myproc;
  p ← deref cur;
  sz ← getp p p_sz;
  if (sz <=? addr) || (sz <? u64 (addr + 8)) then mret (-1, 0)
  else
    pt ← getp p p_pagetable;
    '(r, bs) ← copyin pt addr 8;
    if negb (r =? 0) then mret (-1, 0) else mret (0, of_bytes bs).

(** The result is the return value and the bytes stored in [buf]. *)
Definition fetchstr (addr max : Z) : K (Z * list Z) :=
  cur ← myproc;
  p ← deref cur;
  pt ← getp p p_pagetable;
  '(r, bs) ← copyinstr pt addr max;
  if r <? 0 then mret (-1, bs)
  else mret (Z.of_nat (length (cstr bs)), bs).

Definition argraw (n : Z) : K Z :=
  cur ← myproc;
  p ← deref cur;
  match n with
  | 0 => get_tf p TF_a0
  | 1 => get_tf p TF_a1
  | 2 => get_tf p TF_a2
  | 3 => get_tf p TF_a3
  | 4 => get_tf p TF_a4
  | 5 => get_tf p TF_a5
  | _ => panic "argraw"
  end.

Definition argint (n : Z) : K Z := x ← argraw n; mret (s32 x).

Definition argaddr (n : Z) : K Z := argraw n.

Definition argstr (n max : Z) : K (Z * list Z) :=
  addr ← argaddr n;
  fetchstr addr max.
End Args.
