(* ===== verification/Exec.v ===== *)
(** * kernel/exec.c *)

From S2P Require Import Prelude Mem KString Riscv State Spinlock Kalloc Vm Proc Uart Printf Console Sleeplock Pipe Bio Log Fs File.

(** ** elf.h *)

Definition ELF_MAGIC : Z := 0x464C457F.
Definition ELF_PROG_LOAD : Z := 1.

Definition get64 (bs : list Z) (off : Z) : Z := get32 bs off + 2 ^ 32 * get32 bs (off + 4).

(** [struct elfhdr]: the fields exec() uses. *)
Record elfhdr : Type := Elfhdr { e_magic : Z; e_entry : Z; e_phoff : Z; e_phnum : Z }.
Definition ELFHDR_SIZE : Z := 64.
Definition elfhdr_of (bs : list Z) : elfhdr :=
  Elfhdr (get32 bs 0) (get64 bs 24) (get64 bs 32) (get16 bs 56).

(** [struct proghdr]: the fields exec() uses. *)
Record proghdr : Type := Proghdr {
  ph_type : Z; ph_flags : Z; ph_off : Z; ph_vaddr : Z; ph_filesz : Z; ph_memsz : Z }.
Definition PROGHDR_SIZE : Z := 56.
Definition proghdr_of (bs : list Z) : proghdr :=
  Proghdr (get32 bs 0) (get32 bs 4) (get64 bs 8) (get64 bs 16) (get64 bs 32) (get64 bs 40).

Definition flags2perm (flags : Z) : Z :=
  let perm := 0 in
  let perm := if nz (Z.land flags 0x1) then PTE_X else perm in
  if nz (Z.land flags 0x2) then Z.lor perm PTE_W else perm.

(** [for(last=s=path; *s; s++) if( *s == '/') last = s+1;] *)
Fixpoint last_elem (s last : list Z) : list Z :=
  match s with
  | [] => last
  | c :: s' => last_elem s' (if c =? ch "/" then s' else last)
  end.

Section Exec.
Context {I : Image} {B : Budget} {D : Disk}.

(** [for(i = 0; i < sz; i += PGSIZE)] *)
Fixpoint loadseg_loop (fuel : nat) (pagetable va : Z) (ip : nat) (offset sz i : Z) : K Z :=
  match fuel with
  | O => nofuel
  | S fuel' =>
      if i <? sz then
        pa ← walkaddr pagetable (u64 (va + i));
        if pa =? 0 then panic "loadseg: address should exist"
        else
          let n := if sz - i <? PGSIZE then sz - i else PGSIZE in
          '(r, _) ← readi ip (ToMem pa) (u32 (offset + i)) n;
          if negb (u32 r =? n) then mret (-1)
          else loadseg_loop fuel' pagetable va ip offset sz (u32 (i + PGSIZE))
      else mret 0
  end.

Definition loadseg (pagetable va : Z) (ip : nat) (offset sz : Z) : K Z :=
  loadseg_loop (S (S (Z.to_nat (sz / PGSIZE)))) pagetable va ip offset sz 0.

(** The loop over the program headers: [inl sz] is [goto bad], [inr sz] the end
    of the loop. *)
Fixpoint exec_load (n : nat) (pagetable : Z) (ip : nat) (off sz : Z) : K (Z + Z) :=
  match n with
  | O => mret (inr sz)
  | S n' =>
      '(r, bs) ← readi ip ToLocal (u32 off) PROGHDR_SIZE;
      let ph := proghdr_of bs in
      if negb (r =? PROGHDR_SIZE) then mret (inl sz)
      else if negb (ph_type ph =? ELF_PROG_LOAD) then
        exec_load n' pagetable ip (s32 (off + PROGHDR_SIZE)) sz
      else if ph_memsz ph <? ph_filesz ph then mret (inl sz)
      else if u64 (ph_vaddr ph + ph_memsz ph) <? ph_vaddr ph then mret (inl sz)
      else if negb (ph_vaddr ph mod PGSIZE =? 0) then mret (inl sz)
      else
        sz1 ← uvmalloc pagetable sz (u64 (ph_vaddr ph + ph_memsz ph)) (flags2perm (ph_flags ph));
        if sz1 =? 0 then mret (inl sz)
        else
          r ← loadseg pagetable (ph_vaddr ph) ip (u32 (ph_off ph)) (u32 (ph_filesz ph));
          if r <? 0 then mret (inl sz1)
          else exec_load n' pagetable ip (s32 (off + PROGHDR_SIZE)) sz1
  end.

(** [for(argc = 0; argv[argc]; argc++)]: the stack pointer and [ustack]; [None]
    is [goto bad]. *)
Fixpoint push_args (pagetable stackbase sp : Z) (argv : list (list Z)) (ustack : list Z)
    : K (option (Z * list Z)) :=
  match argv with
  | [] => mret (Some (sp, ustack))
  | arg :: argv' =>
      if (MAXARG <=? length ustack)%nat then mret None
      else
        let sp := u64 (sp - (Z.of_nat (length arg) + 1)) in
        let sp := u64 (sp - sp mod 16) in
        if sp <? stackbase then mret None
        else
          r ← copyout pagetable sp (arg ++ [0]);
          if r <? 0 then mret None
          else push_args pagetable stackbase sp argv' (ustack ++ [sp])
  end.

(** [bad:] once the inode is released, and before. *)
Definition exec_bad (pagetable sz : Z) : K Z :=
  when (nz pagetable) (proc_freepagetable pagetable sz);;
  mret (-1).
Definition exec_bad_ip (pagetable sz : Z) (ip : nat) : K Z :=
  when (nz pagetable) (proc_freepagetable pagetable sz);;
  iunlockput ip;;
  end_op;;
  mret (-1).

(** The arguments go on the stack, and the new image replaces the old one. *)
Definition exec_commit (p : nat) (pagetable sz oldsz stackbase : Z) (elf : elfhdr)
    (path : list Z) (argv : list (list Z)) : K Z :=
  pushed ← push_args pagetable stackbase sz argv [];
  match pushed with
  | None => exec_bad pagetable sz
  | Some (sp, ustack) =>
      let argc := Z.of_nat (length ustack) in
      let sp := u64 (sp - (argc + 1) * 8) in
      let sp := u64 (sp - sp mod 16) in
      if sp <? stackbase then exec_bad pagetable sz
      else
        r ← copyout pagetable sp (concat (map (le_bytes 8) (ustack ++ [0])));
        if r <? 0 then exec_bad pagetable sz
        else
          set_tf p TF_a1 sp;;
          modp p (fun q => set_p_name (safestrcpy_obj (p_name q) (last_elem path path ++ [0]) 16) q);;
          oldpagetable ← getp p p_pagetable;
          modp p (set_p_pagetable pagetable);;
          modp p (set_p_sz sz);;
          set_tf p TF_epc (e_entry elf);;
          set_tf p TF_sp sp;;
          proc_freepagetable oldpagetable oldsz;;
          mret argc
  end.

(** [argv] are the strings up to the null pointer. *)
Definition exec (path : list Z) (argv : list (list Z)) : K Z :=
  cur ← myproc;
  begin_op;;
  found ← namei path;
  match found with
  | None => end_op;; mret (-1)
  | Some ip =>
      ilock (Some ip);;
      '(r, bs) ← readi ip ToLocal 0 ELFHDR_SIZE;
      let elf := elfhdr_of bs in
      if negb (r =? ELFHDR_SIZE) then exec_bad_ip 0 0 ip
      else if negb (e_magic elf =? ELF_MAGIC) then exec_bad_ip 0 0 ip
      else
        p ← deref cur;
        pagetable ← proc_pagetable p;
        if pagetable =? 0 then exec_bad_ip 0 0 ip
        else
          loaded ← exec_load (Z.to_nat (e_phnum elf)) pagetable ip (s32 (e_phoff elf)) 0;
          match loaded with
          | inl sz => exec_bad_ip pagetable sz ip
          | inr sz =>
              iunlockput ip;;
              end_op;;
              cur ← myproc;
              p ← deref cur;
              oldsz ← getp p p_sz;
              let sz := PGROUNDUP sz in
              sz1 ← uvmalloc pagetable sz (u64 (sz + 2 * PGSIZE)) PTE_W;
              if sz1 =? 0 then exec_bad pagetable sz
              else
                uvmclear pagetable (u64 (sz1 - 2 * PGSIZE));;
                exec_commit p pagetable sz1 oldsz (u64 (sz1 - PGSIZE)) elf path argv
          end
  end.
End Exec.
