(* ===== verification/Sysproc.v ===== *)
(** * kernel/sysproc.c: system calls on processes

    Return values are the 64-bit register contents, as signed numbers. *)

From S2P Require Import Prelude Mem KString Riscv State Spinlock Kalloc Vm Proc Uart Printf Console Sleeplock Pipe Bio Log Fs File ProcLife Args.

(** What an array on the kernel stack contains before it is written. *)
Class Junk : Type := junk : list Z.

Section Sysproc.
Context {I : Image} {B : Budget} {D : Disk} {J : Junk}.

(** [myproc()->f] *)
Definition my {A} (f : proc -> A) : K A :=
  cur ← myproc;
  p ← deref cur;
  getp p f.

Definition sys_memsize : K Z := my p_sz.

Definition sys_exit : K Z :=
  n ← argint 0;
  '(_, bs) ← argstr 1 32;
  let msg := bs ++ drop (length bs) junk in
  exit n msg;;
  mret 0.

Definition sys_set_cfs_priority : K Z :=
  priority ← argint 0;
  if (2 <? priority) || (priority <? 0) then mret (-1)
  else
    cur ← myproc;
    p ← deref cur;
    acquire (LProc p);;
    cur ← myproc;
    p ← deref cur;
    modp p (set_p_cfs_priority priority);;
    cur ← myproc;
    p ← deref cur;
    release (LProc p);;
    mret 0.

Definition sys_get_cfs_stats : K Z :=
  add ← argaddr 0;
  pid ← argint 1;
  get_cfs_stats add pid.

Definition sys_set_policy : K Z :=
  policy ← argint 0;
  if (2 <? policy) || (policy <? 0) then mret (-1)
  else set_policy policy.

Definition sys_set_ps_priority : K Z :=
  priority ← argint 0;
  if (priority <? 1) || (10 <? priority) then mret (-1)
  else
    cur ← myproc;
    p ← deref cur;
    acquire (LProc p);;
    cur ← myproc;
    p ← deref cur;
    modp p (set_p_ps_priority priority);;
    cur ← myproc;
    p ← deref cur;
    release (LProc p);;
    mret 0.

Definition sys_get_ps_priority : K Z :=
  pid ← argint 0;
  p ← get_ps_priority pid;
  match p with
  | None => mret (-1)
  | Some p => getp p p_ps_priority
  end.

Definition sys_getpid : K Z := my p_pid.

Definition sys_fork : K Z := fork.

Definition sys_wait : K Z :=
  p ← argaddr 0;
  p2 ← argaddr 1;
  wait p p2.

Definition sys_sbrk : K Z :=
  n ← argint 0;
  addr ← my p_sz;
  r ← growproc n;
  if r <? 0 then mret (-1) else mret addr.

(** [while(ticks - ticks0 < n)]; the comparison is between unsigned numbers. *)
Fixpoint sys_sleep_loop (fuel : nat) (n ticks0 : Z) : K Z :=
  match fuel with
  | O => nofuel
  | S fuel' =>
      ticks ← getd d_ticks;
      if u32 (ticks - ticks0) <? u32 n then
        cur ← myproc;
        p ← deref cur;
        k ← killed p;
        if nz k then release LTicks;; mret (-1)
        else sleep CTicks LTicks;; sys_sleep_loop fuel' n ticks0
      else release LTicks;; mret 0
  end.

Definition sys_sleep : K Z :=
  n ← argint 0;
  acquire LTicks;;
  ticks0 ← getd d_ticks;
  sys_sleep_loop rounds n ticks0.

Definition sys_kill : K Z :=
  pid ← argint 0;
  kill pid.

Definition sys_uptime : K Z :=
  acquire LTicks;;
  xticks ← getd d_ticks;
  release LTicks;;
  mret xticks.
End Sysproc.
