(* ===== verification/Sysfile.v ===== *)
(** * kernel/sysfile.c: system calls on files *)

From S2P Require Import Prelude Mem KString Riscv State Spinlock Kalloc Vm Proc Uart Printf Console Sleeplock Pipe Bio Log Fs File ProcLife Args Exec Sysproc.

Section Sysfile.
Context {I : Image} {B : Budget} {D : Disk}.

(** The descriptor and its file; [None] is -1. *)
Definition argfd (n : Z) : K (option (Z * nat)) :=
  fd ← argint n;
  if (fd <? 0) || (Z.of_nat NOFILE <=? fd) then mret None
  else
    f ← my (fun q => p_ofile q !!! Z.to_nat fd);
    mret (match f with None => None | Some f => Some (fd, f) end).

(** [for(fd = 0; fd < NOFILE; fd++) if(p->ofile[fd] == 0) ...] *)
Fixpoint fdalloc_loop (fds : list nat) (p f : nat) : K Z :=
  match fds with
  | [] => mret (-1)
  | fd :: fds' =>
      o ← getp p (fun q => p_ofile q !!! fd);
      match o with
      | None => modp p (fun q => set_p_ofile (<[fd := Some f]> (p_ofile q)) q);; mret (Z.of_nat fd)
      | Some _ => fdalloc_loop fds' p f
      end
  end.

Definition fdalloc (f : nat) : K Z :=
  cur ← myproc;
  p ← deref cur;
  fdalloc_loop (seq 0 NOFILE) p f.

(** [myproc()->ofile[fd] = 0] *)
Definition fdclear (p : nat) (fd : Z) : K unit :=
  modp p (fun q => set_p_ofile (<[Z.to_nat fd := None]> (p_ofile q)) q).

Definition sys_dup : K Z :=
  a ← argfd 0;
  match a with
  | None => mret (-1)
  | Some (_, f) =>
      fd ← fdalloc f;
      if fd <? 0 then mret (-1)
      else filedup f;; mret fd
  end.

Definition sys_read : K Z :=
  p ← argaddr 1;
  n ← argint 2;
  a ← argfd 0;
  match a with
  | None => mret (-1)
  | Some (_, f) => fileread f p n
  end.

Definition sys_write : K Z :=
  p ← argaddr 1;
  n ← argint 2;
  a ← argfd 0;
  match a with
  | None => mret (-1)
  | Some (_, f) => filewrite f p n
  end.

Definition sys_close : K Z :=
  a ← argfd 0;
  match a with
  | None => mret (-1)
  | Some (fd, f) =>
      cur ← myproc;
      p ← deref cur;
      fdclear p fd;;
      fileclose f;;
      mret 0
  end.

Definition sys_fstat : K Z :=
  st ← argaddr 1;
  a ← argfd 0;
  match a with
  | None => mret (-1)
  | Some (_, f) => filestat f st
  end.

(** A path argument, as the string in the buffer; [None] is a negative result. *)
Definition argpath (n : Z) : K (option (list Z)) :=
  '(r, bs) ← argstr n MAXPATH;
  mret (if r <? 0 then None else Some (cstr bs)).

(** [end_op(); return -1;] *)
Definition fail_op : K Z := end_op;; mret (-1).

(** [bad:] of sys_link() *)
Definition link_bad (ip : nat) : K Z :=
  ilock (Some ip);;
  modi ip (fun i => set_i_nlink (s16 (i_nlink i - 1)) i);;
  iupdate ip;;
  iunlockput ip;;
  fail_op.

Definition sys_link : K Z :=
  old ← argpath 0;
  match old with
  | None => mret (-1)
  | Some old =>
      new ← argpath 1;
      match new with
      | None => mret (-1)
      | Some new =>
          begin_op;;
          found ← namei old;
          match found with
          | None => fail_op
          | Some ip =>
              ilock (Some ip);;
              type ← geti ip i_type;
              if type =? T_DIR then iunlockput ip;; fail_op
              else
                modi ip (fun i => set_i_nlink (s16 (i_nlink i + 1)) i);;
                iupdate ip;;
                iunlock (Some ip);;
                '(parent, name) ← nameiparent new;
                match parent with
                | None => link_bad ip
                | Some dp =>
                    ilock (Some dp);;
                    ddev ← geti dp i_dev;
                    idev ← geti ip i_dev;
                    inum ← geti ip i_inum;
                    r ← (if negb (ddev =? idev) then mret (-1) else dirlink dp name inum);
                    if r <? 0 then iunlockput dp;; link_bad ip
                    else
                      iunlockput dp;;
                      iput ip;;
                      end_op;;
                      mret 0
                end
          end
      end
  end.

(** [for(off=2*sizeof(de); off<dp->size; off+=sizeof(de))] *)
Fixpoint isdirempty_loop (fuel : nat) (dp : nat) (off : Z) : K Z :=
  match fuel with
  | O => nofuel
  | S fuel' =>
      size ← geti dp i_size;
      if off <? size then
        '(r, de) ← readi dp ToLocal off DE_SIZE;
        if negb (r =? DE_SIZE) then panic "isdirempty: readi"
        else if negb (de_inum de =? 0) then mret 0
        else isdirempty_loop fuel' dp (off + DE_SIZE)
      else mret 1
  end.

Definition isdirempty (dp : nat) : K Z :=
  size ← geti dp i_size;
  isdirempty_loop (S (S (Z.to_nat (size / DE_SIZE)))) dp (2 * DE_SIZE).

(** [bad:] of sys_unlink() *)
Definition unlink_bad (dp : nat) : K Z := iunlockput dp;; fail_op.

Definition sys_unlink : K Z :=
  path ← argpath 0;
  match path with
  | None => mret (-1)
  | Some path =>
      begin_op;;
      '(parent, name) ← nameiparent path;
      match parent with
      | None => fail_op
      | Some dp =>
          ilock (Some dp);;
          if (namecmp name (str ".") =? 0) || (namecmp name (str "..") =? 0) then unlink_bad dp
          else
            found ← dirlookup dp name;
            match found with
            | None => unlink_bad dp
            | Some (ip, off) =>
                ilock (Some ip);;
                nlink ← geti ip i_nlink;
                if nlink <? 1 then panic "unlink: nlink < 1"
                else
                  type ← geti ip i_type;
                  e ← (if type =? T_DIR then isdirempty ip else mret 1);
                  if e =? 0 then iunlockput ip;; unlink_bad dp
                  else
                    r ← writei dp (FromLocal (replicate (Z.to_nat DE_SIZE) 0)) off DE_SIZE;
                    if negb (r =? DE_SIZE) then panic "unlink: writei"
                    else
                      type ← geti ip i_type;
                      when (type =? T_DIR)
                        (modi dp (fun i => set_i_nlink (s16 (i_nlink i - 1)) i);;
                         iupdate dp);;
                      iunlockput dp;;
                      modi ip (fun i => set_i_nlink (s16 (i_nlink i - 1)) i);;
                      iupdate ip;;
                      iunlockput ip;;
                      end_op;;
                      mret 0
            end
      end
  end.

(** [fail:] of create() *)
Definition create_fail (ip dp : nat) : K (option nat) :=
  modi ip (set_i_nlink 0);;
  iupdate ip;;
  iunlockput ip;;
  iunlockput dp;;
  mret None.

Definition create (path : list Z) (type major minor : Z) : K (option nat) :=
  '(parent, name) ← nameiparent path;
  match parent with
  | None => mret None
  | Some dp =>
      ilock (Some dp);;
      found ← dirlookup dp name;
      match found with
      | Some (ip, _) =>
          iunlockput dp;;
          ilock (Some ip);;
          itype ← geti ip i_type;
          if (type =? T_FILE) && ((itype =? T_FILE) || (itype =? T_DEVICE)) then mret (Some ip)
          else iunlockput ip;; mret None
      | None =>
          dev ← geti dp i_dev;
          new ← ialloc dev type;
          match new with
          | None => iunlockput dp;; mret None
          | Some ip =>
              ilock (Some ip);;
              modi ip (set_i_major major);;
              modi ip (set_i_minor minor);;
              modi ip (set_i_nlink 1);;
              iupdate ip;;
              inum ← geti ip i_inum;
              dinum ← geti dp i_inum;
              ok ← (if type =? T_DIR then
                      r ← dirlink ip (str ".") inum;
                      if r <? 0 then mret false
                      else r ← dirlink ip (str "..") dinum; mret (negb (r <? 0))
                    else mret true);
              if negb ok then create_fail ip dp
              else
                r ← dirlink dp name inum;
                if r <? 0 then create_fail ip dp
                else
                  when (type =? T_DIR)
                    (modi dp (fun i => set_i_nlink (s16 (i_nlink i + 1)) i);;
                     iupdate dp);;
                  iunlockput dp;;
                  mret (Some ip)
          end
      end
  end.

(** The inode that open() is to open, locked; [None] is [end_op(); return -1]. *)
Definition open_inode (path : list Z) (omode : Z) : K (option nat) :=
  if nz (Z.land omode O_CREATE) then create path T_FILE 0 0
  else
    found ← namei path;
    match found with
    | None => mret None
    | Some ip =>
        ilock (Some ip);;
        type ← geti ip i_type;
        if (type =? T_DIR) && negb (omode =? O_RDONLY) then iunlockput ip;; mret None
        else mret (Some ip)
    end.

Definition sys_open : K Z :=
  omode ← argint 1;
  path ← argpath 0;
  match path with
  | None => mret (-1)
  | Some path =>
      begin_op;;
      found ← open_inode path omode;
      match found with
      | None => fail_op
      | Some ip =>
          type ← geti ip i_type;
          major ← geti ip i_major;
          if (type =? T_DEVICE) && ((major <? 0) || (Z.of_nat NDEV <=? major)) then iunlockput ip;; fail_op
          else
            fp ← filealloc;
            match fp with
            | None => iunlockput ip;; fail_op
            | Some f =>
                fd ← fdalloc f;
                if fd <? 0 then fileclose f;; iunlockput ip;; fail_op
                else
                  type ← geti ip i_type;
                  (if type =? T_DEVICE then
                     modf f (set_f_type FD_DEVICE);;
                     major ← geti ip i_major;
                     modf f (set_f_major major)
                   else
                     modf f (set_f_type FD_INODE);;
                     modf f (set_f_off 0));;
                  modf f (set_f_ip (Some ip));;
                  modf f (set_f_readable (b2z (negb (nz (Z.land omode O_WRONLY)))));;
                  modf f (set_f_writable (b2z (nz (Z.land omode O_WRONLY) || nz (Z.land omode O_RDWR))));;
                  when (nz (Z.land omode O_TRUNC) && (type =? T_FILE)) (itrunc ip);;
                  iunlock (Some ip);;
                  end_op;;
                  mret fd
            end
      end
  end.

(** The inode that mkdir() and mknod() create. *)
Definition create_arg (type major minor : Z) : K (option nat) :=
  path ← argpath 0;
  match path with
  | None => mret None
  | Some path => create path type major minor
  end.

Definition sys_mkdir : K Z :=
  begin_op;;
  made ← create_arg T_DIR 0 0;
  match made with
  | None => fail_op
  | Some ip => iunlockput ip;; end_op;; mret 0
  end.

Definition sys_mknod : K Z :=
  begin_op;;
  major ← argint 1;
  minor ← argint 2;
  made ← create_arg T_DEVICE (s16 major) (s16 minor);
  match made with
  | None => fail_op
  | Some ip => iunlockput ip;; end_op;; mret 0
  end.

Definition sys_chdir : K Z :=
  cur ← myproc;
  begin_op;;
  path ← argpath 0;
  found ← match path with None => mret None | Some path => namei path end;
  match found with
  | None => fail_op
  | Some ip =>
      ilock (Some ip);;
      type ← geti ip i_type;
      if negb (type =? T_DIR) then iunlockput ip;; fail_op
      else
        iunlock (Some ip);;
        p ← deref cur;
        cwd ← getp p p_cwd;
        cwd ← deref cwd;
        iput cwd;;
        end_op;;
        modp p (set_p_cwd (Some ip));;
        mret 0
  end.

(** [for(i=0;; i++)]: [argv] are the pages filled so far with their strings;
    [None] is [goto bad], after the pages of [argv] are freed. *)
Fixpoint fetch_argv (n : nat) (uargv i : Z) (argv : list (Z * list Z)) : K (option (list (Z * list Z))) :=
  match n with
  | O => for_each argv (fun a => kfree (fst a));; mret None
  | S n' =>
      '(r, uarg) ← fetchaddr (u64 (uargv + 8 * i));
      if r <? 0 then for_each argv (fun a => kfree (fst a));; mret None
      else if uarg =? 0 then mret (Some argv)
      else
        page ← kalloc;
        if page =? 0 then for_each argv (fun a => kfree (fst a));; mret None
        else
          '(r, bs) ← fetchstr uarg PGSIZE;
          kwrite page bs;;
          if r <? 0 then for_each (argv ++ [(page, cstr bs)]) (fun a => kfree (fst a));; mret None
          else fetch_argv n' uargv (i + 1) (argv ++ [(page, cstr bs)])
  end.

Definition sys_exec : K Z :=
  uargv ← argaddr 1;
  path ← argpath 0;
  match path with
  | None => mret (-1)
  | Some path =>
      argv ← fetch_argv MAXARG uargv 0 [];
      match argv with
      | None => mret (-1)
      | Some argv =>
          ret ← exec path (map snd argv);
          for_each argv (fun a => kfree (fst a));;
          mret ret
      end
  end.

(** The error path of sys_pipe(), with the descriptors to clear. *)
Definition pipe_fail (p : nat) (fds : list Z) (rf wf : nat) : K Z :=
  for_each fds (fdclear p);;
  fileclose rf;;
  fileclose wf;;
  mret (-1).

Definition sys_pipe : K Z :=
  cur ← myproc;
  fdarray ← argaddr 0;
  made ← pipealloc;
  match made with
  | None => mret (-1)
  | Some (rf, wf) =>
      p ← deref cur;
      fd0 ← fdalloc rf;
      if fd0 <? 0 then pipe_fail p [] rf wf
      else
        fd1 ← fdalloc wf;
        if fd1 <? 0 then pipe_fail p [fd0] rf wf
        else
          pt ← getp p p_pagetable;
          r ← copyout pt fdarray (le_bytes 4 fd0);
          r ← (if r <? 0 then mret r else copyout pt (u64 (fdarray + 4)) (le_bytes 4 fd1));
          if r <? 0 then pipe_fail p [fd0; fd1] rf wf
          else mret 0
  end.
End Sysfile.
