(* ===== verification/Syscall.v ===== *)
(** * kernel/syscall.c: the system call table *)

From S2P Require Import Prelude Mem KString Riscv State Spinlock Kalloc Vm Proc Uart Printf Console Sleeplock Pipe Bio Log Fs File ProcLife Args Exec Sysproc Sysfile.

(** ** syscall.h *)

Inductive sysno : Type :=
  | SYS_fork | SYS_exit | SYS_wait | SYS_pipe
  | SYS_read | SYS_kill | SYS_exec | SYS_fstat
  | SYS_chdir | SYS_dup | SYS_getpid | SYS_sbrk
  | SYS_sleep | SYS_uptime | SYS_open | SYS_write
  | SYS_mknod | SYS_unlink | SYS_link | SYS_mkdir
  | SYS_close | SYS_memsize | SYS_set_ps_priority | SYS_set_cfs_priority
  | SYS_get_cfs_stats | SYS_set_policy | SYS_get_ps_priority.

(** [#define SYS_x n] *)
Definition sys_num (s : sysno) : Z :=
  match s with
  | SYS_fork => 1
  | SYS_exit => 2
  | SYS_wait => 3
  | SYS_pipe => 4
  | SYS_read => 5
  | SYS_kill => 6
  | SYS_exec => 7
  | SYS_fstat => 8
  | SYS_chdir => 9
  | SYS_dup => 10
  | SYS_getpid => 11
  | SYS_sbrk => 12
  | SYS_sleep => 13
  | SYS_uptime => 14
  | SYS_open => 15
  | SYS_write => 16
  | SYS_mknod => 17
  | SYS_unlink => 18
  | SYS_link => 19
  | SYS_mkdir => 20
  | SYS_close => 21
  | SYS_memsize => 22
  | SYS_set_ps_priority => 23
  | SYS_set_cfs_priority => 24
  | SYS_get_cfs_stats => 25
  | SYS_set_policy => 26
  | SYS_get_ps_priority => 27
  end.

Section Syscall.
Context {I : Image} {B : Budget} {D : Disk} {J : Junk}.

(** The array of handlers, by number. *)
Definition syscalls : list (sysno * K Z) := [
  (SYS_fork, sys_fork);
  (SYS_exit, sys_exit);
  (SYS_wait, sys_wait);
  (SYS_pipe, sys_pipe);
  (SYS_read, sys_read);
  (SYS_kill, sys_kill);
  (SYS_exec, sys_exec);
  (SYS_fstat, sys_fstat);
  (SYS_chdir, sys_chdir);
  (SYS_dup, sys_dup);
  (SYS_getpid, sys_getpid);
  (SYS_sbrk, sys_sbrk);
  (SYS_sleep, sys_sleep);
  (SYS_uptime, sys_uptime);
  (SYS_open, sys_open);
  (SYS_write, sys_write);
  (SYS_mknod, sys_mknod);
  (SYS_unlink, sys_unlink);
  (SYS_link, sys_link);
  (SYS_mkdir, sys_mkdir);
  (SYS_close, sys_close);
  (SYS_memsize, sys_memsize);
  (SYS_set_ps_priority, sys_set_ps_priority);
  (SYS_set_cfs_priority, sys_set_cfs_priority);
  (SYS_get_cfs_stats, sys_get_cfs_stats);
  (SYS_set_policy, sys_set_policy);
  (SYS_get_ps_priority, sys_get_ps_priority)].

(** The handler at an index of the array, if the index is in range and there is
    one. *)
Definition handler (num : Z) : option (K Z) :=
  snd <$> List.find (fun e => sys_num (fst e) =? num) syscalls.

Definition syscall : K unit :=
  cur ← myproc;
  p ← deref cur;
  a7 ← get_tf p TF_a7;
  let num := s32 a7 in
  match handler num with
  | Some h =>
      r ← h;
      set_tf p TF_a0 (u64 r)
  | None =>
      pid ← getp p p_pid;
      name ← getp p p_name;
      printf (line "%d %s: unknown sys call %d") [AInt pid; AStr (Some (cstr name)); AInt num];;
      set_tf p TF_a0 (u64 (-1))
  end.
End Syscall.
