(* ===== verification/Trap.v ===== *)
(** * kernel/trap.c, kernel/plic.c, and forkret() of proc.c

    Traps from user and from kernel code.  usertrapret() ends in a jump to
    userret in trampoline.S; its result is the address it jumps to and the
    argument. *)

From S2P Require Import Prelude Mem KString Riscv State Spinlock Kalloc Vm Proc Uart Printf Console Sleeplock Pipe Bio Log Virtio Fs File ProcLife Args Exec Sysproc Sysfile Syscall.

Section Trap.
Context {I : Image} {B : Budget} {D : Disk} {J : Junk}.

(** ** Supervisor registers *)

Definition getcsr {A} (f : csr -> A) : K A := getd (fun d => f (d_csr d)).
Definition modcsr (f : csr -> csr) : K unit := modd (fun d => set_d_csr (f (d_csr d)) d).
Definition w_stvec (x : Z) : K unit := modcsr (set_r_stvec x).
Definition w_sepc (x : Z) : K unit := modcsr (set_r_sepc x).
Definition w_sip (x : Z) : K unit := modcsr (set_r_sip x).

(** ** plic.c *)

Definition plicinit : K unit :=
  modd (fun d => set_d_mem (store32 (d_mem d) (PLIC + UART0_IRQ * 4) 1) d);;
  modd (fun d => set_d_mem (store32 (d_mem d) (PLIC + VIRTIO0_IRQ * 4) 1) d).

Definition plicinithart : K unit :=
  hart ← cpuid;
  modd (fun d => set_d_mem (store32 (d_mem d) (PLIC_SENABLE hart)
    (Z.lor (Z.shiftl 1 UART0_IRQ) (Z.shiftl 1 VIRTIO0_IRQ))) d);;
  modd (fun d => set_d_mem (store32 (d_mem d) (PLIC_SPRIORITY hart) 0) d).

(** Reading the claim register takes the next pending interrupt, 0 if none. *)
Definition plic_claim : K Z :=
  hart ← cpuid;
  pending ← getcsr r_plic_claim;
  match pending with
  | [] => mret 0
  | irq :: rest => modcsr (set_r_plic_claim rest);; mret irq
  end.

Definition plic_complete (irq : Z) : K unit :=
  hart ← cpuid;
  modcsr (fun c => set_r_plic_done (irq :: r_plic_done c) c).

(** ** trap.c *)

Definition trapinit : K unit := initlock LTicks "time".

Definition trapinithart : K unit := w_stvec kernelvec.

Definition clockintr : K unit :=
  acquire LTicks;;
  modd (fun d => set_d_ticks (u32 (d_ticks d + 1)) d);;
  wakeup CTicks;;
  release LTicks.

Definition devintr : K Z :=
  scause ← getcsr r_scause;
  if nz (Z.land scause 0x8000000000000000) && (Z.land scause 0xff =? 9) then
    irq ← plic_claim;
    (if irq =? UART0_IRQ then uartintr
     else if irq =? VIRTIO0_IRQ then virtio_disk_intr
     else when (nz irq) (printf (line "unexpected interrupt irq=%d") [AInt irq]));;
    when (nz irq) (plic_complete irq);;
    mret 1
  else if scause =? 0x8000000000000001 then
    hart ← cpuid;
    when (hart =? 0) clockintr;;
    sip ← getcsr r_sip;
    w_sip (Z.land sip (Z.lnot 2));;
    mret 2
  else mret 0.

(** The statements on [accumulator] that usertrap() and kerneltrap() share. *)
Definition charge : K unit :=
  cur ← myproc;
  p ← deref cur;
  acquire (LProc p);;
  acc ← my p_accumulator;
  when (acc <? 10)
    (prio ← my p_ps_priority;
     cur ← myproc;
     p ← deref cur;
     modp p (fun q => set_p_accumulator (s64 (p_accumulator q + prio)) q));;
  cur ← myproc;
  p ← deref cur;
  release (LProc p).

Definition usertrapret : K (Z * Z) :=
  cur ← myproc;
  intr_off;;
  w_stvec (u64 (TRAMPOLINE + (uservec - trampoline)));;
  p ← deref cur;
  satp ← getcsr r_satp;
  set_tf p TF_kernel_satp satp;;
  kstack ← getp p p_kstack;
  set_tf p TF_kernel_sp (u64 (kstack + PGSIZE));;
  set_tf p TF_kernel_trap usertrap_addr;;
  tp ← r_tp;
  set_tf p TF_kernel_hartid tp;;
  x ← r_sstatus;
  w_sstatus (Z.lor (Z.land x (Z.lnot SSTATUS_SPP)) SSTATUS_SPIE);;
  epc ← get_tf p TF_epc;
  w_sepc epc;;
  pt ← getp p p_pagetable;
  mret (u64 (TRAMPOLINE + (userret - trampoline)), MAKE_SATP pt).

Definition usertrap : K (Z * Z) :=
  sstatus ← r_sstatus;
  if nz (Z.land sstatus SSTATUS_SPP) then panic "usertrap: not from user mode"
  else
    w_stvec kernelvec;;
    cur ← myproc;
    p ← deref cur;
    sepc ← getcsr r_sepc;
    set_tf p TF_epc sepc;;
    scause ← getcsr r_scause;
    which_dev ←
      (if scause =? 8 then
         k ← killed p;
         when (nz k) (msg ← getp p p_exit_msg; exit (-1) msg);;
         epc ← get_tf p TF_epc;
         set_tf p TF_epc (u64 (epc + 4));;
         intr_on;;
         syscall;;
         mret 0
       else
         which_dev ← devintr;
         when (which_dev =? 0)
           (scause ← getcsr r_scause;
            pid ← getp p p_pid;
            printf (line "usertrap(): unexpected scause %p pid=%d") [APtr scause; AInt pid];;
            sepc ← getcsr r_sepc;
            stval ← getcsr r_stval;
            printf (line " sepc=%p stval=%p") [APtr sepc; APtr stval];;
            setkilled p);;
         mret which_dev);
    k ← killed p;
    when (nz k) (msg ← getp p p_exit_msg; exit (-1) msg);;
    when (which_dev =? 2)
      (charge;;
       cfs_update;;
       yield);;
    usertrapret.

Definition kerneltrap : K unit :=
  sepc ← getcsr r_sepc;
  sstatus ← r_sstatus;
  scause ← getcsr r_scause;
  if Z.land sstatus SSTATUS_SPP =? 0 then panic "kerneltrap: not from supervisor mode"
  else
    on ← intr_get;
    if nz on then panic "kerneltrap: interrupts enabled"
    else
      which_dev ← devintr;
      if which_dev =? 0 then
        printf (line "scause %p") [APtr scause];;
        sepc ← getcsr r_sepc;
        stval ← getcsr r_stval;
        printf (line "sepc=%p stval=%p") [APtr sepc; APtr stval];;
        panic "kerneltrap"
      else
        when (which_dev =? 2)
          (cfs_update;;
           cur ← myproc;
           match cur with
           | None => mret tt
           | Some _ =>
               st ← my p_state;
               when (bool_decide (st = RUNNING)) (charge;; yield)
           end);;
        w_sepc sepc;;
        w_sstatus sstatus.

(** ** forkret() of proc.c *)

Definition forkret : K (Z * Z) :=
  cur ← myproc;
  p ← deref cur;
  release (LProc p);;
  first ← getd d_first;
  when (nz first)
    (modd (set_d_first 0);;
     fsinit ROOTDEV);;
  usertrapret.
End Trap.
