(* ===== verification/SchedLive.v ===== *)
(** * Who gets the CPU: progress under the round-robin policy, and none under the
    priority policy

    Under policy 0 every RUNNABLE process gets the CPU within the round, whatever the
    processes before it do.  Under policy 1 the accumulator of a process that is
    preempted grows only up to 10, so that among processes that have got there the
    first one in the table is chosen for ever. *)

From S2P Require Import Prelude Mem KString Riscv State Spinlock Kalloc Vm Proc Sched ProcSpec SchedSpec Sysproc Trap.

(** ** Under every behaviour of the processes, [k] is entered *)

(** [rely j s]: in state [s] process [j] may give the CPU back. *)
Inductive soon {A} (rely : nat -> kstate -> Prop) (k : nat) : out kstate A -> Prop :=
  | soon_now y d resume : soon rely k (Swtch (entered y k d) resume)
  | soon_later y j d resume :
      (forall s, rely j s -> soon rely k (resume s)) -> soon rely k (Swtch (entered y j d) resume).

(** Process [j] gives the CPU of hart [h] back with no lock but its own held, and process
    [k] is still RUNNABLE. *)
Definition gives_back (h k j : nat) (s : kstate) : Prop :=
  let '(KState y2 d2) := s in
  cur y2 = h /\ resumed j y2 /\ sync_ok (left j y2) /\ procs_free (left j y2)
  /\ length (d_procs d2) = NPROC /\ p_state (proc_of d2 k) = RUNNABLE.

Section Live.
Context {I : Image} {B : Budget}.

Lemma cur_left j y2 : cur (left j y2) = cur y2.
Proof. unfold left, y_rel, y_pop. by destruct (_ && _). Qed.

Lemma rr_from_cur y y' i : cur y' = cur y -> rr_from y' i = rr_from y i.
Proof. intros E. unfold rr_from. by rewrite E. Qed.

Lemma rr_live k n : forall y i d, (k - i = n)%nat -> sync_ok y -> procs_free y -> length (d_procs d) = NPROC -> (i <= k < NPROC)%nat ->
  p_state (proc_of d k) = RUNNABLE -> soon (gives_back (cur y) k) k (rr_from y i (KState y d)).
Proof.
  induction (lt_wf n) as [n _ IH]. intros y i d Hn Hy Hf Hlen Hi Hst.
  destruct (rr_from_run y Hy Hf i d Hlen ltac:(lia)) as [[Hno _]|(j & resume & Hj & _ & Hbefore & -> & Hres)].
  { exfalso. rewrite Forall_forall in Hno. apply (Hno (proc_of d k)); [|done].
    apply (list_elem_of_lookup_2 _ (k - i)). rewrite lookup_drop. replace (i + (k - i))%nat with k by lia. apply lookup_proc_of. lia. }
  destruct (decide (j = k)) as [->|Hne]; [apply soon_now|].
  assert (j < k)%nat as Hlt by (destruct (decide (j < k)%nat); [done|exfalso; apply (Hbefore k); [lia|done]]).
  apply soon_later. intros [y2 d2] (Hc & Hr & Hok & Hfr & Hl & Hs). rewrite Hres by done.
  rewrite <- (rr_from_cur y (left j y2)) by (by rewrite cur_left). rewrite <- Hc, <- (cur_left j y2).
  by apply (IH (k - S j)%nat); lia || done.
Qed.

(** C17: Under the round-robin policy no process starves: a RUNNABLE process is given the CPU
    within the round, as long as it stays RUNNABLE and the processes that get the CPU
    before it give it back, whatever else they do. *)
Theorem policy_rr_live y k d :
  sync_ok y -> procs_free y -> length (d_procs d) = NPROC -> (k < NPROC)%nat -> p_state (proc_of d k) = RUNNABLE ->
  soon (gives_back (cur y) k) k (policy_rr (cur y) (KState y d)).
Proof. intros Hy Hf Hlen Hk Hst. apply (rr_live k (k - 0) y 0 d); lia || done. Qed.
End Live.

(** ** The priority policy with processes that only compute *)

(** What process [k] does with the CPU when it computes until the timer interrupts it: it
    comes back from the sched() of its last yield(), in a trap with interrupts off, and
    in the next trap is charged and yields again. *)
Definition preempted (k : nat) : K unit :=
  modc (set_c_intena 0);;
  release (LProc k);;
  charge;;
  cfs_update;;
  yield.

(** One choice of the scheduler of hart [h]: the process chosen, and the state after the
    process has used its time. *)
Definition ps_turn (h : nat) (s : kstate) : option (nat * kstate) :=
  match policy_ps h s with
  | Swtch s1 resume =>
      match c_proc (curcpu (k_sync s1)) with
      | Some k =>
          match preempted k s1 with
          | Swtch s2 _ => match resume s2 with Ret _ s3 => Some (k, s3) | _ => None end
          | _ => None
          end
      | None => None
      end
  | _ => None
  end.

(** The processes that [n] choices in a row give the CPU to, and the state after them. *)
Fixpoint ps_turns (n h : nat) (s : kstate) : option (list nat * kstate) :=
  match n with
  | O => Some ([], s)
  | S n' =>
      match ps_turn h s with
      | Some (k, s1) => match ps_turns n' h s1 with Some (ks, s2) => Some (k :: ks, s2) | None => None end
      | None => None
      end
  end.

(** A hart in its scheduler. *)
Record idle (y : sync) : Prop := {
  id_ok : sync_ok y;
  id_procs : procs_free y;
  id_counter : free (LCounter (cur y)) y;
  id_noff : c_noff (curcpu y) = 0
}.

(** Dropping the lock of [k], the only one held, with interrupts off. *)
Lemma dropped k y : resumed k y -> c_intena (curcpu y) = 0 -> (forall i, (i < NPROC)%nat -> i <> k -> free (LProc i) y) -> free (LCounter (cur y)) y ->
  idle (y_rel (LProc k) y) /\ cur (y_rel (LProc k) y) = cur y /\ c_proc (curcpu (y_rel (LProc k) y)) = c_proc (curcpu y) /\ intr (y_rel (LProc k) y) = 0.
Proof.
  intros [Hc Hi Hn [nm Hh]] He Hf Hcnt. set (y1 := set_y_locks (<[LProc k := Spinlock 0 (lock_name (LProc k) y) None]> (y_locks y)) y).
  assert (y_rel (LProc k) y = y_setc (fun c => set_c_noff (c_noff c - 1) c) y1) as E.
  { unfold y_rel, y_pop. fold y1. change (curcpu y1) with (curcpu y). rewrite Hn, He. done. }
  assert (curcpu (y_setc (fun c => set_c_noff (c_noff c - 1) c) y1) = set_c_noff 0 (curcpu y)) as Ec.
  { rewrite curcpu_setc by done. change (curcpu y1) with (curcpu y). by rewrite Hn. }
  rewrite E. split_and!; [|done|by rewrite Ec|done]. split.
  - split; rewrite ?Ec; cbn [c_noff set_c_noff c_intena]; [|lia|lia|by rewrite He].
    unfold y_setc. cbn [y_cpus set_y_cpus]. rewrite length_alter. done.
  - intros i Hlt. unfold free. cbn [y_locks y_setc set_y_cpus y1 set_y_locks]. destruct (decide (i = k)) as [->|Hne].
    + rewrite lookup_insert_eq. by eexists.
    + rewrite lookup_insert_ne by congruence. by apply Hf.
  - destruct Hcnt as [nm' Hcnt]. exists nm'. cbn [y_locks y_setc set_y_cpus y1 set_y_locks]. by rewrite lookup_insert_ne.
  - by rewrite Ec.
Qed.

Lemma first_least_unique l k m k' m' : first_least l k m -> first_least l k' m' -> k = k' /\ m = m'.
Proof.
  intros [A1 A2] [B1 B2]. destruct (A2 _ _ B1) as [C1 C2], (B2 _ _ A1) as [D1 D2]. split; [|lia].
  destruct (Nat.lt_trichotomy k k') as [Hlt|[->|Hlt]]; [specialize (D2 Hlt); lia|done|specialize (C2 Hlt); lia].
Qed.

(** What a turn leaves as it was. *)
Definition same_choice (d d' : data) : Prop :=
  length (d_procs d') = NPROC /\
  forall i, (i < NPROC)%nat -> p_state (proc_of d' i) = p_state (proc_of d i) /\ p_accumulator (proc_of d' i) = p_accumulator (proc_of d i).

Lemma same_cands d d' : length (d_procs d) = NPROC -> same_choice d d' -> ps_cands (d_procs d') = ps_cands (d_procs d).
Proof.
  intros Hl [Hl' H]. apply list_eq. intros i. unfold ps_cands. rewrite !list_lookup_fmap. destruct (decide (i < NPROC)%nat) as [Hi|Hi].
  - destruct (H i Hi) as [E1 E2]. rewrite !lookup_proc_of by lia. cbn. unfold ready. by rewrite E1, E2.
  - rewrite !lookup_ge_None_2 by lia. done.
Qed.

Lemma count_two l k j q r : (k < j)%nat -> l !! k = Some q -> l !! j = Some r -> ready q = true -> ready r = true -> ps_count l <> 1.
Proof.
  intros Hlt Hk Hj Hq Hr. unfold ps_count. rewrite <- (take_drop j l), filter_app, length_app.
  assert (forall (x : proc) m, x ∈ m -> ready x = true -> (1 <= length (filter (fun q => ready q = true) m))%nat) as Hin.
  { intros x m Hx Hrx. assert (x ∈ filter (fun q => ready q = true) m) as Hf by (by apply list_elem_of_filter). destruct (filter _ m); [by apply elem_of_nil in Hf|cbn; lia]. }
  pose proof (Hin q (take j l) ltac:(apply (list_elem_of_lookup_2 _ k); by rewrite lookup_take_lt) Hq).
  pose proof (Hin r (drop j l) ltac:(apply (list_elem_of_lookup_2 _ 0%nat); by rewrite lookup_drop, Nat.add_0_r) Hr). lia.
Qed.

Lemma my_run {A} (f : proc -> A) y k d : sync_ok y -> c_proc (curcpu y) = Some k -> my f (KState y d) = Ret (f (proc_of d k)) (KState y d).
Proof. intros Hok Hp. unfold my. kstep. rewrite Hp. by ksteps. Qed.

Lemma charge_full y k d : idle y -> c_proc (curcpu y) = Some k -> (k < NPROC)%nat -> 10 <= p_accumulator (proc_of d k) -> charge (KState y d) = Ret tt (KState y d).
Proof.
  intros [Hok Hf Hcnt Hn] Hp Hk Hacc. pose proof (Hf k Hk) as Hfk. unfold charge. kstep. rewrite Hp. ksteps.
  assert (c_proc (curcpu (y_acq (LProc k) y)) = Some k) as Hp' by (by rewrite curcpu_acq).
  rewrite (bind_Ret _ _ _ _ _ (my_run p_accumulator _ k d (sync_ok_acq _ _ Hok) Hp')).
  rewrite (proj2 (Z.ltb_ge _ _)) by done. ksteps. rewrite Hp'. ksteps. by apply release_acq.
Qed.

Lemma yield_run y k d : idle y -> c_proc (curcpu y) = Some k -> (k < NPROC)%nat -> length (d_procs d) = NPROC ->
  exists resume, yield (KState y d) = Swtch (KState (y_acq (LProc k) y) (upd_proc k (set_p_state RUNNABLE) d)) resume.
Proof.
  intros [Hok Hf Hcnt Hn] Hp Hk Hlen. pose proof (Hf k Hk) as Hfk. unfold yield. kstep. rewrite Hp. ksteps.
  rewrite bind_unfold, sched_run; try done; [by eexists|]. rewrite proc_of_upd_eq by lia. done.
Qed.

Lemma ticked_same i q : p_state (ticked i q) = p_state q /\ p_accumulator (ticked i q) = p_accumulator q.
Proof. unfold ticked. by destruct (p_state q) eqn:E. Qed.

(** The CPU goes back to the scheduler. *)
Lemma handed y k : idle y -> (k < NPROC)%nat -> intr y = 0 -> let y2 := y_acq (LProc k) y in
  cur y2 = cur y /\ resumed k y2 /\ idle (left k y2).
Proof.
  intros [Hok Hf Hcnt Hn] Hk Hi y2. pose proof (sync_ok_acq (LProc k) y Hok) as Hok2.
  assert (curcpu y2 = Cpu (c_proc (curcpu y)) 1 0) as Ec by (change (curcpu y2) with (curcpu (y_push y)); rewrite curcpu_push by apply Hok; by rewrite Hn, Hi).
  assert (resumed k y2) as Hr by (split; [apply Hok2|apply intr_push|by rewrite Ec|apply held_acq]).
  split_and!; [done|done|]. apply (dropped k (y_setc (set_c_proc None) y2)).
  - destruct Hr as [A1 A2 A3 A4]. split; [unfold y_setc; cbn [y_cpus set_y_cpus]; by rewrite length_alter|done|by rewrite curcpu_setc, Ec by done|done].
  - by rewrite curcpu_setc, Ec by apply Hok2.
  - intros i Hlt Hne. apply free_acq; [congruence|by apply Hf].
  - by apply free_acq.
Qed.

(** The turn of the chosen process [k], from the state in which it is entered. *)
Lemma preempted_run y k d : idle y -> (k < NPROC)%nat -> length (d_procs d) = NPROC -> 10 <= p_accumulator (proc_of d k) -> p_state (proc_of d k) = RUNNABLE ->
  exists y2 d2 resume, preempted k (entered y k d) = Swtch (KState y2 d2) resume /\ cur y2 = cur y /\ resumed k y2 /\ idle (left k y2)
    /\ same_choice d d2.
Proof.
  intros [Hok Hf Hcnt Hn] Hk Hlen Hacc Hst. unfold preempted, entered. pose proof (sync_ok_acq (LProc k) y Hok) as Hok1. pose proof (Hf k Hk) as Hfk.
  set (y1 := y_setc (set_c_proc (Some k)) (y_acq (LProc k) y)). set (d1 := upd_proc k (set_p_state RUNNING) d).
  assert (curcpu y1 = set_c_proc (Some k) (curcpu (y_acq (LProc k) y))) as Ec1 by (apply curcpu_setc, Hok1).
  assert (resumed k y1) as Hr1.
  { split; [unfold y1, y_setc; cbn [y_cpus set_y_cpus]; rewrite length_alter; apply Hok1| | |by apply held_acq].
    - apply (ok_off _ Hok1). rewrite noff_acq, Hn by done. lia.
    - rewrite Ec1. cbn [c_noff set_c_proc]. by rewrite noff_acq, Hn by done. }
  assert (modc (set_c_intena 0) (KState y1 d1) = Ret tt (KState (y_setc (set_c_intena 0) y1) d1)) as Em by done.
  pose proof (release_resumed k 0 y1 d1 Hr1) as Er. rewrite (bind_Ret _ _ _ _ _ Em) in Er. rewrite (bind_Ret _ _ _ _ _ Em), (bind_Ret _ _ _ _ _ Er). clear Em Er.
  destruct (dropped k (y_setc (set_c_intena 0) y1)) as (Hid & Hcur & Hp & Hi0).
  { destruct Hr1 as [A1 A2 A3 A4]. split; [unfold y_setc; cbn [y_cpus set_y_cpus]; by rewrite length_alter|done|rewrite curcpu_setc by done; done|done]. }
  { by rewrite curcpu_setc by apply Hr1. }
  { intros i Hi Hne. apply free_acq; [congruence|by apply Hf]. }
  { by apply free_acq. }
  fold (back k 0 y1) in Hid, Hcur, Hp, Hi0. set (yk := back k 0 y1) in *. destruct Hid as [Kok Kf Kcnt Kn].
  assert (c_proc (curcpu yk) = Some k) as Kp by (rewrite Hp, curcpu_setc by apply Hr1; by rewrite Ec1).
  assert (idle yk) as Kid by (by split).
  rewrite (bind_Ret _ _ _ _ _ (charge_full yk k d1 Kid Kp Hk ltac:(unfold d1; rewrite proc_of_upd_eq by lia; exact Hacc))).
  assert (length (d_procs d1) = NPROC) as Hl1 by (unfold d1; by rewrite length_upd_proc).
  rewrite (bind_Ret _ _ _ _ _ (cfs_update_run yk Kok Kf d1 Hl1)). set (d2 := set_d_procs _ d1).
  assert (length (d_procs d2) = NPROC) as Hl2 by (unfold d2; cbn [d_procs set_d_procs]; by rewrite length_imap).
  destruct (yield_run yk k d2 Kid Kp Hk Hl2) as [resume Ey]. rewrite Ey. eexists _, _, resume. split; [done|].
  destruct (handed yk k Kid Hk Hi0) as (Ha & Hb & Hc). split_and!; [|done|done|..].
  - transitivity (cur yk); [done|]. by rewrite Hcur.
  - split; [by rewrite length_upd_proc|]. intros i Hi. unfold d2, d1. destruct (decide (i = k)) as [->|Hne].
    + rewrite proc_of_upd_eq by (unfold d2, d1 in *; lia). rewrite lookup_imap_procs by (unfold d1 in *; lia). rewrite proc_of_upd_eq by lia. by rewrite Hst.
    + rewrite proc_of_upd_ne by done. rewrite lookup_imap_procs by (unfold d1 in *; lia). rewrite proc_of_upd_ne by done. apply ticked_same.
Qed.

Lemma ps_turn_run y k m d : idle y -> length (d_procs d) = NPROC -> first_least (ps_cands (d_procs d)) k m -> 10 <= m < LLONG_MAX ->
  p_state (proc_of d k) = RUNNABLE -> ps_count (d_procs d) <> 1 ->
  exists y' d', ps_turn (cur y) (KState y d) = Some (k, KState y' d') /\ idle y' /\ cur y' = cur y /\ same_choice d d'.
Proof.
  intros Hid Hlen Hk Hm Hst Hcount. pose proof Hid as [Hok Hf Hcnt Hn]. unfold ps_turn.
  rewrite policy_ps_run by done.
  destruct (best 0 (ps_cands (d_procs d)) None LLONG_MAX) as [mp m'] eqn:E. pose proof Hk as [Hlk _].
  destruct (best_spec _ _ _ _ _ _ E) as [(-> & -> & Hall)|(k' & -> & _ & Hk')].
  { specialize (Hall m ltac:(by eapply list_elem_of_lookup_2)). lia. }
  destruct (first_least_unique _ _ _ _ _ Hk' Hk) as [-> ->]. cbn [Nat.add].
  assert (k < NPROC)%nat as Hlt by (apply lookup_lt_Some in Hlk; unfold ps_cands in Hlk; rewrite length_map in Hlk; lia).
  unfold ps_chosen. rewrite (proj2 (Z.eqb_neq _ _) Hcount). set (d1 := set_d_min_accumulator m d).
  destruct (run_proc_runs y k d1 tt (fun _ => release (LProc k)) Hst (leave_run y k)) as (resume & -> & Hres).
  assert (p_accumulator (proc_of d k) = m) as Hacc.
  { unfold ps_cands in Hlk. rewrite list_lookup_fmap, lookup_proc_of in Hlk by lia. by injection Hlk. }
  destruct (preempted_run y k d1 Hid Hlt Hlen ltac:(change (10 <= p_accumulator (proc_of d k)); lia) Hst) as (y2 & d2 & resume2 & Ep & Hc & Hr & Hid2 & Hsame).
  cbn [k_sync entered]. rewrite curcpu_setc by (apply sync_ok_acq, Hok). cbn [c_proc set_c_proc]. rewrite Ep, Hres by done.
  exists (left k y2), d2. split_and!; try done. by rewrite cur_left.
Qed.

(** C18: Under the priority policy processes that only compute may starve: once the first
    process with the least accumulator has 10, every later choice is this process again,
    although another one is RUNNABLE all the time. *)
Theorem policy_ps_starves y k j m d n :
  idle y -> length (d_procs d) = NPROC -> first_least (ps_cands (d_procs d)) k m -> 10 <= m < LLONG_MAX ->
  p_state (proc_of d k) = RUNNABLE -> (j < NPROC)%nat -> j <> k -> p_state (proc_of d j) = RUNNABLE ->
  exists s, ps_turns n (cur y) (KState y d) = Some (replicate n k, s) /\ p_state (proc_of (k_data s) j) = RUNNABLE.
Proof.
  intros Hid Hlen Hk Hm Hst Hj Hne Hstj. revert y d Hid Hlen Hk Hst Hstj. induction n as [|n IH]; intros y d Hid Hlen Hk Hst Hstj; [by eexists|].
  assert (k < NPROC)%nat as Hlt by (destruct Hk as [Hlk _]; apply lookup_lt_Some in Hlk; unfold ps_cands in Hlk; rewrite length_map in Hlk; lia).
  assert (forall i, p_state (proc_of d i) = RUNNABLE -> ready (proc_of d i) = true) as Hready by (intros i E; unfold ready; by rewrite E).
  destruct (ps_turn_run y k m d Hid Hlen Hk Hm Hst) as (y' & d' & E & Hid' & Hc & Hs).
  { destruct (decide (j < k)%nat) as [Hjk|Hjk]; [eapply (count_two _ j k)|eapply (count_two _ k j)]; try apply lookup_proc_of; auto; lia. }
  pose proof (same_cands _ _ Hlen Hs) as Hsc. destruct Hs as [Hl' Hs]. cbn [ps_turns]. rewrite E, <- Hc.
  destruct (IH y' d' Hid' Hl') as (s & Es & Hsj); [by rewrite Hsc|rewrite (proj1 (Hs k Hlt)); done|rewrite (proj1 (Hs j Hj)); done|].
  exists s. rewrite Es. done.
Qed.

(** ** Witnesses *)

Lemma sched_sync_idle : idle sched_sync.
Proof. split; [apply sched_sync_ok|apply sched_sync_free|apply sched_sync_counter|by vm_compute]. Qed.

(** Process 1 gets the CPU before process 2, and may give it back. *)
Lemma policy_rr_live_witness :
  soon (gives_back (cur sched_sync) 2) 2 (policy_rr (cur sched_sync) (KState sched_sync sched_data))
  /\ gives_back (cur sched_sync) 2 1 (KState (y_acq (LProc 1) sched_sync) sched_data).
Proof.
  split.
  - apply (policy_rr_live sched_sync 2 sched_data sched_sync_ok sched_sync_free sched_data_len); [unfold NPROC; lia|by vm_compute].
  - destruct (handed sched_sync 1 sched_sync_idle ltac:(unfold NPROC; lia) ltac:(by vm_compute)) as (Hc & Hr & Hid).
    split_and!; [exact Hc|exact Hr|apply Hid|apply Hid|exact sched_data_len|by vm_compute].
Defined.

(** Two processes that compute, both with accumulator 10. *)
Definition busy_data : data :=
  upd_proc 1 (set_p_state RUNNABLE ∘ set_p_accumulator 10 ∘ set_p_ps_priority 5)
    (upd_proc 2 (set_p_state RUNNABLE ∘ set_p_accumulator 10 ∘ set_p_ps_priority 5) zero_data).

Lemma busy_data_least : first_least (ps_cands (d_procs busy_data)) 1 10.
Proof.
  assert (ps_cands (d_procs busy_data) = [(false, 0); (true, 10); (true, 10)] ++ replicate 61 (false, 0)) as -> by (by vm_compute).
  split; [done|]. intros [|[|[|j]]] m' Hj; cbn [lookup list_lookup app] in Hj; simplify_eq; try lia.
  apply lookup_replicate in Hj as [? _]. done.
Qed.

(** Process 2 does not get the CPU in a thousand choices. *)
Lemma policy_ps_starves_witness :
  exists s, ps_turns 1000 (cur sched_sync) (KState sched_sync busy_data) = Some (replicate 1000 1%nat, s) /\ p_state (proc_of (k_data s) 2) = RUNNABLE.
Proof.
  apply (policy_ps_starves sched_sync 1 2 10 busy_data 1000 sched_sync_idle ltac:(by vm_compute) busy_data_least);
    [unfold LLONG_MAX; lia|by vm_compute|unfold NPROC; lia|lia|by vm_compute].
Defined.
