(* ===== verification/Main.v ===== *)
(** * kernel/main.c and kernel/start.c: booting

    [start] and [timerinit] run in machine mode, on the machine-mode registers
    and the state of the hart; main() then runs in supervisor mode.  The disk
    driver is the one of Virtio.v. *)

From S2P Require Import Prelude Mem KString Riscv State Spinlock Kalloc Vm Proc Sched Uart Printf Console Sleeplock Pipe Bio Log Virtio Fs File ProcLife Args Exec Sysproc Sysfile Syscall Trap.

(** ** start.c *)

Definition MSTATUS_MPP_MASK : Z := Z.shiftl 3 11.
Definition MSTATUS_MPP_S : Z := Z.shiftl 1 11.
Definition MSTATUS_MIE : Z := Z.shiftl 1 3.
Definition SIE_SEIE : Z := Z.shiftl 1 9.
Definition SIE_STIE : Z := Z.shiftl 1 5.
Definition SIE_SSIE : Z := Z.shiftl 1 1.
Definition MIE_MTIE : Z := Z.shiftl 1 7.

(** The registers start() sets, and [timer_scratch[id]] of this hart. *)
Record machine : Type := Machine {
  m_hartid : Z;
  m_status : Z;
  m_epc : Z;
  m_edeleg : Z;
  m_ideleg : Z;
  m_sie : Z;
  m_pmpaddr0 : Z;
  m_pmpcfg0 : Z;
  m_scratch : Z;
  m_tvec : Z;
  m_ie : Z;
  m_timer_scratch : list Z;
  m_hart : kstate
}.

(** The addresses of main(), of timervec in kernelvec.S and of [timer_scratch]. *)
Class BootImage : Type := {
  main_addr : Z;
  timervec : Z;
  timer_scratch_addr : Z
}.

Section Start.
Context {BI : BootImage}.

Definition set_hart (f : kstate -> kstate) (m : machine) : machine :=
  Machine (m_hartid m) (m_status m) (m_epc m) (m_edeleg m) (m_ideleg m) (m_sie m) (m_pmpaddr0 m)
    (m_pmpcfg0 m) (m_scratch m) (m_tvec m) (m_ie m) (m_timer_scratch m) (f (m_hart m)).

Definition timer_interval : Z := 1000000.

Definition timerinit (m : machine) : machine :=
  let id := s32 (m_hartid m) in
  let m := set_hart (fun s => set_k_data
    (set_d_mem (store64 (d_mem (k_data s)) (CLINT_MTIMECMP id)
       (u64 (load64 (d_mem (k_data s)) CLINT_MTIME + timer_interval))) (k_data s)) s) m in
  Machine (m_hartid m) (Z.lor (m_status m) MSTATUS_MIE) (m_epc m) (m_edeleg m) (m_ideleg m) (m_sie m)
    (m_pmpaddr0 m) (m_pmpcfg0 m) (timer_scratch_addr + 40 * id) timervec (Z.lor (m_ie m) MIE_MTIE)
    (<[4%nat := timer_interval]> (<[3%nat := CLINT_MTIMECMP id]> (m_timer_scratch m))) (m_hart m).

(** Up to [mret], which enters main() at the address in [m_epc]. *)
Definition start (m : machine) : machine :=
  let m := Machine (m_hartid m) (Z.lor (Z.land (m_status m) (Z.lnot MSTATUS_MPP_MASK)) MSTATUS_MPP_S)
    main_addr 0xffff 0xffff (Z.lor (Z.lor (Z.lor (m_sie m) SIE_SEIE) SIE_STIE) SIE_SSIE)
    0x3fffffffffffff 0xf (m_scratch m) (m_tvec m) (m_ie m) (m_timer_scratch m)
    (set_k_data (set_d_csr (set_r_satp 0 (d_csr (k_data (m_hart m)))) (k_data (m_hart m))) (m_hart m)) in
  let m := timerinit m in
  set_hart (fun s => set_k_sync (set_y_tp (s32 (m_hartid m)) (k_sync s)) s) m.
End Start.

(** ** main.c *)

Section Main.
Context {I : Image} {B : Budget} {J : Junk}.

(** [while(started == 0) ;] *)
Definition wait_started : K unit :=
  started ← getd d_started;
  if started =? 0 then spin else mret tt.

Definition main_first : K unit :=
  consoleinit;;
  printfinit;;
  printf newline [];;
  printf (line "xv6 kernel is booting") [];;
  printf newline [];;
  kinit;;
  kvminit;;
  kvminithart;;
  procinit;;
  trapinit;;
  trapinithart;;
  plicinit;;
  plicinithart;;
  binit;;
  iinit;;
  fileinit;;
  virtio_disk_init;;
  userinit;;
  modd (set_d_started 1).

Definition main_other : K unit :=
  wait_started;;
  id ← cpuid;
  printf (line "hart %d starting") [AInt id];;
  kvminithart;;
  trapinithart;;
  plicinithart.

Definition main : K unit :=
  id ← cpuid;
  (if id =? 0 then main_first else main_other);;
  scheduler.
End Main.
