(* ===== verification/User.v ===== *)
(** * User programs: the system calls they make, and user/printf.c

    A user program is a computation on a world [W] it can only change through
    system calls.  What a call does is the interface [Sys]; a buffer argument is
    the list of its bytes, and a call that fills a buffer returns the bytes it
    has stored.  exit() does not return: its outcome is [Panic "exit"].  wait()
    returns the status and the message of the child next to its pid. malloc() and
    free(), which Umalloc.v defines on a heap of their own, are part of the interface
    for the programs that only use their results. *)

From S2P Require Import Prelude.

(** [struct stat], without the device. *)
Record ustat : Type := Stat { st_type : Z; st_ino : Z; st_size : Z }.

Class Sys (W : Type) : Type := {
  os_fork : W -> Z * W;
  os_exit : Z -> list Z -> W -> W;
  os_wait : W -> Z * Z * list Z * W;
  os_pipe : W -> Z * (Z * Z) * W;
  os_read : Z -> Z -> W -> Z * list Z * W;
  os_write : Z -> list Z -> W -> Z * W;
  os_open : list Z -> Z -> W -> Z * W;
  os_close : Z -> W -> Z * W;
  os_dup : Z -> W -> Z * W;
  os_kill : Z -> W -> Z * W;
  os_exec : list Z -> list (list Z) -> W -> Z * W;
  os_chdir : list Z -> W -> Z * W;
  os_mkdir : list Z -> W -> Z * W;
  os_mknod : list Z -> Z -> Z -> W -> Z * W;
  os_unlink : list Z -> W -> Z * W;
  os_link : list Z -> list Z -> W -> Z * W;
  os_sleep : Z -> W -> Z * W;
  os_memsize : W -> Z * W;
  os_set_policy : Z -> W -> Z * W;
  os_fstat : Z -> W -> Z * ustat * W;
  os_getpid : W -> Z * W;
  os_set_ps_priority : Z -> W -> Z * W;
  os_set_cfs_priority : Z -> W -> Z * W;
  os_get_cfs_stats : Z -> W -> Z * list Z * W;
  os_malloc : Z -> W -> Z * W;
  os_free : Z -> W -> W
}.

(** An argument of printf(). *)
Inductive uarg : Type := UInt (x : Z) | ULong (x : Z) | UStr (s : option (list Z)).

Definition udigits (i : Z) : Z := str "0123456789ABCDEF" !!! Z.to_nat i.

(** [do { buf[i++] = digits[x % base]; } while((x /= base) != 0);] *)
Fixpoint uprintint_digits (fuel : nat) (x base : Z) : list Z :=
  match fuel with
  | O => []
  | S fuel' =>
      udigits (x mod base) ::
      (if x / base =? 0 then [] else uprintint_digits fuel' (x / base) base)
  end.

Definition uprintint_buf (xx base sgn : Z) : list Z :=
  let neg := nz sgn && (xx <? 0) in
  let x := if neg then u32 (- xx) else u32 xx in
  uprintint_digits 32 x base ++ (if neg then [ch "-"] else []).

Section User.
Context {W : Type} {OS : Sys W}.

Definition U (A : Type) : Type := M W A.

(** A call that only returns a number. *)
Definition call (f : W -> Z * W) : U Z := fun w => let '(r, w') := f w in Ret r w'.

Definition exit {A} (status : Z) (msg : string) : U A :=
  fun w => Panic "exit" (os_exit status (str msg) w).
Definition read (fd n : Z) : U (Z * list Z) :=
  fun w => let '(r, w') := os_read fd n w in Ret r w'.
Definition write (fd : Z) (bytes : list Z) : U Z := call (os_write fd bytes).
Definition open (path : list Z) (omode : Z) : U Z := call (os_open path omode).
Definition close (fd : Z) : U Z := call (os_close fd).

(** exec() returns only when it fails. *)
Definition exec (path : list Z) (argv : list (list Z)) : U Z :=
  fun w => let '(r, w') := os_exec path argv w in if r <? 0 then Ret r w' else Panic "exec" w'.
Definition wait : U Z := fun w => let '(pid, _, _, w') := os_wait w in Ret pid w'.
Definition wait_msg : U (Z * Z * list Z) := fun w => let '(r, w') := os_wait w in Ret r w'.
Definition pipe : U (Z * (Z * Z)) := fun w => let '(r, w') := os_pipe w in Ret r w'.
Definition fstat (fd : Z) : U (Z * ustat) := fun w => let '(r, w') := os_fstat fd w in Ret r w'.
Definition get_cfs_stats (pid : Z) : U (Z * list Z) := fun w => let '(r, w') := os_get_cfs_stats pid w in Ret r w'.

(** ** user/printf.c *)

(** [va_arg(ap, int)]: the low half of the slot of a wider argument. *)
Definition va_int (a : uarg) : option Z :=
  match a with UInt x => Some x | ULong x => Some (s32 x) | UStr _ => None end.

Definition putc (fd c : Z) : U unit := write fd [c];; mret tt.

Definition printint (fd xx base sgn : Z) : U unit :=
  for_each (rev (uprintint_buf xx base sgn)) (putc fd).

Fixpoint printptr_loop (n : nat) (fd x : Z) : U unit :=
  match n with
  | O => mret tt
  | S n' => putc fd (udigits (Z.shiftr x (8 * 8 - 4)));; printptr_loop n' fd (u64 (Z.shiftl x 4))
  end.

Definition printptr (fd x : Z) : U unit :=
  putc fd (ch "0");;
  putc fd (ch "x");;
  printptr_loop 16 fd x.

(** What follows a [%]. *)
Definition vprintf_spec (fd c : Z) (ap : list uarg) (rest : list uarg -> U unit) : U unit :=
  if c =? ch "d" then
    match ap with a :: ap' => match va_int a with Some x => printint fd x 10 1;; rest ap' | None => undef end | [] => undef end
  else if c =? ch "l" then
    match ap with ULong x :: ap' => printint fd (s32 x) 10 0;; rest ap' | _ => undef end
  else if c =? ch "x" then
    match ap with a :: ap' => match va_int a with Some x => printint fd x 16 0;; rest ap' | None => undef end | [] => undef end
  else if c =? ch "p" then
    match ap with ULong x :: ap' => printptr fd x;; rest ap' | _ => undef end
  else if c =? ch "s" then
    match ap with
    | UStr s :: ap' => for_each (default (str "(null)") s) (putc fd);; rest ap'
    | _ => undef
    end
  else if c =? ch "c" then
    match ap with a :: ap' => match va_int a with Some x => putc fd (u8 x);; rest ap' | None => undef end | [] => undef end
  else if c =? ch "%" then putc fd c;; rest ap
  else putc fd (ch "%");; putc fd c;; rest ap.

(** [state] is 0, or ['%'] after a [%]. *)
Fixpoint vprintf_loop (fd : Z) (fmt : list Z) (state : Z) (ap : list uarg) : U unit :=
  match fmt with
  | [] => mret tt
  | c :: fmt' =>
      if state =? 0 then
        if c =? ch "%" then vprintf_loop fd fmt' (ch "%") ap
        else putc fd c;; vprintf_loop fd fmt' state ap
      else vprintf_spec fd c ap (vprintf_loop fd fmt' 0)
  end.

Definition vprintf (fd : Z) (fmt : list Z) (ap : list uarg) : U unit := vprintf_loop fd fmt 0 ap.

Definition fprintf (fd : Z) (fmt : list Z) (ap : list uarg) : U unit := vprintf fd fmt ap.

Definition printf (fmt : list Z) (ap : list uarg) : U unit := vprintf 1 fmt ap.
End User.

(** A string literal that ends in a newline. *)
Definition line (s : string) : list Z := str s ++ [10].
