(* ===== verification/Ulib.v ===== *)
(** * user/ulib.c: the library of the user programs

    The string routines run on a byte-addressed memory; a loop that looks for a
    terminating 0 has a bound on its rounds, and the loops that are the same in
    kernel/string.c are those of KString.v.  [gets] and [stat] make system calls. *)

From S2P Require Import Prelude Mem KString User.

(** [while(( *s++ = *t++) != 0);] *)
Fixpoint strcpy (fuel : nat) (m : mem) (s t : Z) : option mem :=
  match fuel with
  | O => None
  | S fuel' =>
      let m' := store8 m s (load8 m t) in
      if load8 m t =? 0 then Some m' else strcpy fuel' m' (s + 1) (t + 1)
  end.

Fixpoint strcmp (fuel : nat) (m : mem) (p q : Z) : option Z :=
  match fuel with
  | O => None
  | S fuel' =>
      if nz (load8 m p) && (load8 m p =? load8 m q) then strcmp fuel' m (p + 1) (q + 1)
      else Some (u8 (load8 m p) - u8 (load8 m q))
  end.

(** [n] counts up from the argument. *)
Fixpoint strlen_loop (fuel : nat) (m : mem) (s n : Z) : option Z :=
  match fuel with
  | O => None
  | S fuel' => if nz (load8 m (s + n)) then strlen_loop fuel' m s (n + 1) else Some n
  end.

Definition strlen (fuel : nat) (m : mem) (s : Z) : option Z := u32 <$> strlen_loop fuel m s 0.

Definition memset (m : mem) (dst c n : Z) : mem := memset_loop m dst c (Z.to_nat n).

(** [strchr(s, c)]: the offset of the first [c] before a NUL. *)
Fixpoint strchr (s : list Z) (c : Z) : option nat :=
  match s with
  | [] => None
  | x :: s' => if x =? 0 then None else if x =? c then Some O else S <$> strchr s' c
  end.

(** The digits are read up to the first byte that is none. *)
Fixpoint atoi_loop (s : list Z) (n : Z) : Z :=
  match s with
  | [] => n
  | c :: s' => if (ch "0" <=? c) && (c <=? ch "9") then atoi_loop s' (s32 (n * 10 + c - ch "0")) else n
  end.

Definition atoi (s : list Z) : Z := atoi_loop s 0.

Definition memmove (m : mem) (vdst vsrc n : Z) : mem :=
  if vdst <? vsrc then move_forward m vdst vsrc (Z.to_nat n)
  else move_backward m (vdst + n) (vsrc + n) (Z.to_nat n).

Definition memcmp (m : mem) (s1 s2 n : Z) : Z := memcmp_loop m s1 s2 (Z.to_nat n).

Definition memcpy (m : mem) (dst src n : Z) : mem := memmove m dst src (s32 n).

Section Calls.
Context {W : Type} {OS : Sys W}.

(** At most [n] more bytes are read, those so far are [acc]. *)
Fixpoint gets_loop (n : nat) (acc : list Z) : U (list Z) :=
  match n with
  | O => mret acc
  | S n' =>
      '(cc, bytes) ← read 0 1;
      match bytes with
      | c :: _ =>
          if cc <? 1 then mret acc
          else if (c =? 10) || (c =? 13) then mret (acc ++ [c])
          else gets_loop n' (acc ++ [c])
      | [] => mret acc
      end
  end.

(** The bytes stored in the buffer, the terminating 0 included. *)
Definition gets (max : Z) : U (list Z) :=
  acc ← gets_loop (Z.to_nat (max - 1)) [];
  mret (acc ++ [0]).

Definition stat (n : list Z) : U (Z * ustat) :=
  fd ← open n 0;
  if fd <? 0 then mret (-1, Stat 0 0 0)
  else
    '(r, st) ← fstat fd;
    close fd;;
    mret (r, st).

(** [_main()]: a program whose main() returns exits with status 0. *)
Definition start_main (main : U Z) : U unit :=
  main;; exit 0 EmptyString.
End Calls.

(** The two ways of copying, which the kernel chooses between by whether the source
    reaches into the destination, agree. *)
Lemma load8_umemmove m dst src n x :
  0 <= n ->
  load8 (memmove m dst src n) x =
  if (dst <=? x) && (x <? dst + n) then load8 m (src + (x - dst)) else load8 m x.
Proof.
  intros Hn. unfold memmove. destruct (Z.ltb_spec dst src).
  - rewrite load8_move_forward by lia. zcases; try done; lia.
  - rewrite load8_move_backward by lia. zcases; try done; try lia. f_equal. lia.
Qed.

Lemma umemmove_kernel m dst src n : 0 <= n -> mem_eq (memmove m dst src n) (KString.memmove m dst src n).
Proof. intros Hn x. by rewrite load8_umemmove, load8_memmove. Qed.
