(* ===== verification/UprintSpec.v ===== *)
(** * The formats of user/printf.c

    A format and its arguments agree when every conversion has an argument of its
    type.  Then vprintf() returns, and has written the rendering of the format,
    byte by byte, to the descriptor. *)

From S2P Require Import Prelude User.

(** The conversion takes an argument, of this type. *)
Definition conv_ok (c : Z) (a : uarg) : bool :=
  if bool_decide (c ∈ [ch "d"; ch "x"; ch "c"]) then match a with UStr _ => false | _ => true end
  else if bool_decide (c ∈ [ch "l"; ch "p"]) then match a with ULong x => (0 <=? x) && (x <? 2 ^ 64) | _ => false end
  else match a with UStr _ => true | _ => false end.

Definition takes_arg (c : Z) : bool := bool_decide (c ∈ str "dlxpsc").

(** The arguments have the types the format asks for; [after] says whether the last
    character was a percent sign. *)
Fixpoint typed (after : bool) (fmt : list Z) (ap : list uarg) : bool :=
  match fmt with
  | [] => true
  | c :: fmt' =>
      if after then
        if takes_arg c then match ap with a :: ap' => conv_ok c a && typed false fmt' ap' | [] => false end
        else typed false fmt' ap
      else typed (c =? ch "%") fmt' ap
  end.

(** The digits of [x], most significant first, before those of [acc]. *)
Fixpoint numeral_before (fuel : nat) (base x : Z) (acc : list Z) : list Z :=
  match fuel with
  | O => acc
  | S fuel' =>
      let acc' := udigits (x mod base) :: acc in
      if x / base =? 0 then acc' else numeral_before fuel' base (x / base) acc'
  end.

Definition unsigned_numeral (base x : Z) : list Z := numeral_before 32 base x [].
Definition signed_numeral (x : Z) : list Z :=
  if x <? 0 then ch "-" :: unsigned_numeral 10 (u32 (- x)) else unsigned_numeral 10 (u32 x).

(** The sixteen hexadecimal digits of a pointer. *)
Definition hex (n : nat) (x : Z) : list Z := map (fun k => udigits (Z.shiftr x (60 - 4 * Z.of_nat k) mod 16)) (seq 0 n).

Definition as_int (a : uarg) : Z := default 0 (va_int a).

Definition render_conv (c : Z) (a : uarg) : list Z :=
  if c =? ch "d" then signed_numeral (as_int a)
  else if c =? ch "x" then unsigned_numeral 16 (u32 (as_int a))
  else if c =? ch "c" then [u8 (as_int a)]
  else match a with
       | ULong x => if c =? ch "l" then unsigned_numeral 10 (u32 x) else str "0x" ++ hex 16 x
       | UStr s => default (str "(null)") s
       | UInt _ => []
       end.

Fixpoint render (after : bool) (fmt : list Z) (ap : list uarg) : list Z :=
  match fmt with
  | [] => []
  | c :: fmt' =>
      if after then
        if takes_arg c then match ap with a :: ap' => render_conv c a ++ render false fmt' ap' | [] => [] end
        else (if c =? ch "%" then [c] else [ch "%"; c]) ++ render false fmt' ap
      else if c =? ch "%" then render true fmt' ap else c :: render false fmt' ap
  end.

Section Format.
Context {W : Type} {OS : Sys W}.

(** The world after the bytes have been written one by one. *)
Definition emit (fd : Z) (w : W) (bytes : list Z) : W := foldl (fun w c => (os_write fd [c] w).2) w bytes.

Definition emits (fd : Z) (m : U unit) (bytes : list Z) : Prop := forall w, m w = Ret tt (emit fd w bytes).

Lemma emits_putc fd c : emits fd (putc fd c) [c].
Proof using.
  intros w. unfold putc, write, call, emit, mbind, M_bind, mret, M_ret. cbn. by destruct (os_write fd [c] w).
Qed.

Lemma emits_nil fd : emits fd (mret tt) [].
Proof using. done. Qed.

Lemma emits_seq fd m1 m2 b1 b2 : emits fd m1 b1 -> emits fd m2 b2 -> emits fd (m1;; m2) (b1 ++ b2).
Proof using. intros H1 H2 w. rewrite (bind_Ret _ _ _ _ _ (H1 w)), H2. unfold emit. by rewrite foldl_app. Qed.

Lemma emits_each fd s : emits fd (for_each s (putc fd)) s.
Proof using.
  induction s as [|c s IH]; [apply emits_nil|]. cbn [for_each]. apply (emits_seq fd _ _ [c] s); [apply emits_putc|exact IH].
Qed.

Lemma numeral_rev base : forall fuel x acc, numeral_before fuel base x acc = rev (uprintint_digits fuel x base) ++ acc.
Proof using.
  induction fuel as [|fuel IH]; intros x acc; cbn [numeral_before uprintint_digits rev app]; [done|].
  destruct (x / base =? 0); [done|]. rewrite IH, <- app_assoc. done.
Qed.

Lemma emits_printint fd x base : emits fd (printint fd x base 0) (unsigned_numeral base (u32 x)).
Proof using.
  unfold printint, uprintint_buf, unsigned_numeral. cbn [nz negb Z.eqb andb]. rewrite numeral_rev, app_nil_r, app_nil_r. apply emits_each.
Qed.

Lemma emits_printint_signed fd x : emits fd (printint fd x 10 1) (signed_numeral x).
Proof using.
  unfold printint, uprintint_buf, signed_numeral, unsigned_numeral. cbn [nz negb Z.eqb andb]. rewrite !numeral_rev, !app_nil_r.
  destruct (x <? 0); [rewrite rev_app_distr|rewrite app_nil_r]; apply emits_each.
Qed.

Lemma shift_digit x k : 0 <= k < 15 -> Z.shiftr (u64 (Z.shiftl x 4)) (60 - 4 * k) mod 16 = Z.shiftr x (60 - 4 * (k + 1)) mod 16.
Proof using.
  intros Hk. change 16 with (2 ^ 4). apply Z.bits_inj'. intros i Hi. destruct (Z.lt_ge_cases i 4).
  - rewrite !Z.mod_pow2_bits_low by lia. rewrite !Z.shiftr_spec by lia. unfold wrapu. rewrite Z.mod_pow2_bits_low, Z.shiftl_spec by lia. f_equal. lia.
  - by rewrite !Z.mod_pow2_bits_high by lia.
Qed.

Lemma emits_printptr fd n : forall x, (n <= 16)%nat -> 0 <= x < 2 ^ 64 -> emits fd (printptr_loop n fd x) (hex n x).
Proof using.
  induction n as [|n IH]; intros x Hn Hx; cbn [printptr_loop]; [apply emits_nil|].
  assert (hex (S n) x = [udigits (Z.shiftr x (8 * 8 - 4))] ++ hex n (u64 (Z.shiftl x 4))) as ->.
  { unfold hex. cbn [seq map app]. f_equal.
    - f_equal. change (60 - 4 * Z.of_nat 0) with 60. change (8 * 8 - 4) with 60. apply Z.mod_small. rewrite Z.shiftr_div_pow2 by lia.
      split; [apply Z.div_pos; lia|apply Z.div_lt_upper_bound; lia].
    - rewrite <- seq_shift, map_map. apply map_ext_in. intros k Hk. apply in_seq in Hk. rewrite shift_digit by lia. do 3 f_equal. lia. }
  apply emits_seq; [apply emits_putc|]. apply IH; [lia|]. apply wrapu_range. lia.
Qed.

Lemma u32_s32 x : u32 (s32 x) = u32 x.
Proof using. unfold wrapu, wraps. rewrite Zminus_mod_idemp_l. f_equal. lia. Qed.

(** A well-typed conversion writes its rendering and goes on. *)
Lemma vprintf_spec_arg fd c a ap rest bytes : takes_arg c = true -> conv_ok c a = true -> emits fd (rest ap) bytes ->
  emits fd (vprintf_spec fd c (a :: ap) rest) (render_conv c a ++ bytes).
Proof using.
  intros Ht Hc Hr. apply bool_decide_eq_true in Ht. unfold vprintf_spec, render_conv.
  repeat (apply elem_of_cons in Ht as [->|Ht]; [cbn [Z.eqb Pos.eqb]|]); [..|by apply elem_of_nil in Ht].
  all: cbn in Hc; destruct a as [x|x|s]; try discriminate Hc; cbn [va_int as_int default].
  all: try (apply emits_seq; [|exact Hr]).
  all: first [apply emits_printint_signed|apply emits_printint|apply emits_putc|apply emits_each|idtac].
  - change (emits fd (printint fd (s32 x) 10 0) (unsigned_numeral 10 (u32 x))). rewrite <- u32_s32. apply emits_printint.
  - change ((0 <=? x) && (x <? 2 ^ 64) = true) in Hc. change (emits fd (printptr fd x) ([ch "0"] ++ [ch "x"] ++ hex 16 x)).
    apply emits_seq; [apply emits_putc|]. apply emits_seq; [apply emits_putc|]. apply emits_printptr; lia.
Qed.

Lemma vprintf_spec_plain fd c ap rest bytes : takes_arg c = false -> emits fd (rest ap) bytes ->
  emits fd (vprintf_spec fd c ap rest) ((if c =? ch "%" then [c] else [ch "%"; c]) ++ bytes).
Proof using.
  intros Ht Hr. apply bool_decide_eq_false in Ht. unfold vprintf_spec.
  do 6 (match goal with |- context [c =? ?k] => destruct (Z.eqb_spec c k) as [->|]; [exfalso; apply Ht; by vm_compute; set_solver|] end).
  destruct (c =? ch "%"); [apply emits_seq; [apply emits_putc|exact Hr]|].
  apply (emits_seq fd _ _ [ch "%"]); [apply emits_putc|]. apply (emits_seq fd _ _ [c]); [apply emits_putc|exact Hr].
Qed.

Lemma vprintf_run fd fmt : forall state ap, state = 0 \/ state = ch "%" -> typed (state =? ch "%") fmt ap = true ->
  emits fd (vprintf_loop fd fmt state ap) (render (state =? ch "%") fmt ap).
Proof using.
  induction fmt as [|c fmt IH]; intros state ap Hst Hty; cbn [vprintf_loop render typed] in *; [apply emits_nil|].
  destruct Hst as [->| ->]; cbn [Z.eqb Pos.eqb] in *.
  - change (0 =? ch "%") with false in *. destruct (Z.eqb_spec c (ch "%")) as [->|Hne].
    + apply (IH (ch "%")); [by right|done].
    + apply (emits_seq fd _ _ [c]); [apply emits_putc|]. apply (IH 0); [by left|done].
  - change (ch "%" =? 0) with false. rewrite Z.eqb_refl in *. destruct (takes_arg c) eqn:Ht.
    + destruct ap as [|a ap]; [done|]. apply andb_prop in Hty as [Hc Hty]. apply vprintf_spec_arg; [done|done|]. apply (IH 0); [by left|done].
    + apply vprintf_spec_plain; [done|]. apply (IH 0); [by left|done].
Qed.

(** C40: When the arguments have the types the format asks for, vprintf() never reads an
    argument that is not there or of another type: it returns, and has written the
    rendering of the format, byte by byte, and nothing else. *)
Theorem vprintf_typed fd fmt ap w :
  typed false fmt ap = true -> vprintf fd fmt ap w = Ret tt (emit fd w (render false fmt ap)).
Proof using. intros Hty. apply (vprintf_run fd fmt 0 ap); [by left|done]. Qed.
End Format.

(** A world that collects what is written. *)
Definition print_sys : Sys (list Z) := {|
  os_fork w := (-1, w); os_exit _ _ w := w; os_wait w := (-1, 0, [], w); os_pipe w := (-1, (0, 0), w);
  os_read _ _ w := (0, [], w); os_write _ bytes w := (Z.of_nat (length bytes), w ++ bytes); os_open _ _ w := (-1, w); os_close _ w := (-1, w);
  os_dup _ w := (-1, w); os_kill _ w := (-1, w); os_exec _ _ w := (-1, w); os_chdir _ w := (-1, w); os_mkdir _ w := (-1, w);
  os_mknod _ _ _ w := (-1, w); os_unlink _ w := (-1, w); os_link _ _ w := (-1, w); os_sleep _ w := (0, w); os_memsize w := (0, w);
  os_set_policy _ w := (-1, w); os_fstat _ w := (-1, Stat 0 0 0, w); os_getpid w := (1, w); os_set_ps_priority _ w := (0, w);
  os_set_cfs_priority _ w := (0, w); os_get_cfs_stats _ w := (-1, [], w); os_malloc _ w := (0, w); os_free _ w := w |}.

#[local] Existing Instance print_sys.

Lemma vprintf_typed_witness :
  vprintf 1 (str "%s has %d of %x at %p%%") [UStr (Some (str "pid")); UInt (-12); UInt 255; ULong 0xABC] []
    = Ret tt (str "pid has -12 of FF at 0x0000000000000ABC%").
Proof.
  rewrite (vprintf_typed 1 (str "%s has %d of %x at %p%%") [UStr (Some (str "pid")); UInt (-12); UInt 255; ULong 0xABC] []);
    [vm_compute; reflexivity|vm_compute; reflexivity].
Defined.
