(* ===== verification/Grep.v ===== *)
(** * user/grep.c

    A NUL-terminated string is the list of its bytes; a pointer into it is the
    suffix it points to, so that [re+1] is the tail and [re[0] == '\0'] says that
    the suffix is empty.  [buf] is the list of its first [m] bytes. *)

From S2P Require Import Prelude User Ulib.

(** ** The matcher *)

(** [do { if(matchhere(re, text)) return 1; } while( *text != '\0' && ...)];
    [here] is [matchhere(re, _)]. *)
Fixpoint matchstar (here : list Z -> bool) (c : Z) (text : list Z) : bool :=
  if here text then true
  else
    match text with
    | [] => false
    | t :: text' => if (t =? c) || (c =? ch ".") then matchstar here c text' else false
    end.

Fixpoint matchhere (re text : list Z) {struct re} : bool :=
  match re with
  | [] => true
  | r0 :: re1 =>
      match re1 with
      | [] =>
          if r0 =? ch "$" then match text with [] => true | _ => false end
          else match text with t :: _ => (r0 =? ch ".") || (r0 =? t) | [] => false end
      | r1 :: re2 =>
          if r1 =? ch "*" then matchstar (matchhere re2) r0 text
          else
            match text with
            | t :: text' => if (r0 =? ch ".") || (r0 =? t) then matchhere re1 text' else false
            | [] => false
            end
      end
  end.

(** [do { if(matchhere(re, text)) return 1; } while( *text++ != '\0');] *)
Fixpoint match_loop (re text : list Z) : bool :=
  if matchhere re text then true
  else match text with [] => false | _ :: text' => match_loop re text' end.

Definition match_ (re text : list Z) : bool :=
  match re with
  | r0 :: re1 => if r0 =? ch "^" then matchhere re1 text else match_loop re text
  | [] => match_loop re text
  end.

(** ** Lines of a file *)

Section Grep.
Context {W : Type} {OS : Sys W}.

(** [while((q = strchr(p, '\n')) != 0)]: the offset of [p] at the end.  Each
    round moves [p] on. *)
Fixpoint grep_lines (fuel : nat) (pattern buf : list Z) (p : nat) : U nat :=
  match fuel with
  | O => nofuel
  | S fuel' =>
      match strchr (drop p buf) 10 with
      | None => mret p
      | Some q =>
          let text := take q (drop p buf) in
          when (match_ pattern text) (write 1 (text ++ [10]);; mret tt);;
          grep_lines fuel' pattern buf (p + q + 1)
      end
  end.

(** [while((n = read(fd, buf+m, sizeof(buf)-m-1)) > 0)] *)
Fixpoint grep_loop (fuel : nat) (pattern : list Z) (fd : Z) (buf : list Z) : U unit :=
  match fuel with
  | O => nofuel
  | S fuel' =>
      '(n, bytes) ← read fd (1024 - Z.of_nat (length buf) - 1);
      if 0 <? n then
        let buf := buf ++ bytes in
        p ← grep_lines (S (length buf)) pattern buf O;
        grep_loop fuel' pattern fd (drop p buf)
      else mret tt
  end.

Definition grep (fuel : nat) (pattern : list Z) (fd : Z) : U unit := grep_loop fuel pattern fd [].

Fixpoint grep_files (fuel : nat) (pattern : list Z) (files : list (list Z)) : U unit :=
  match files with
  | [] => exit 0 EmptyString
  | f :: files' =>
      fd ← open f 0;
      if fd <? 0 then
        printf (line "grep: cannot open %s") [UStr (Some f)];;
        exit 1 EmptyString
      else
        grep fuel pattern fd;;
        close fd;;
        grep_files fuel pattern files'
  end.

(** main(); [argv] without its terminating null pointer. *)
Definition grep_main (fuel : nat) (argv : list (list Z)) : U unit :=
  match argv with
  | _ :: pattern :: files =>
      match files with
      | [] => grep fuel pattern 0;; exit 0 EmptyString
      | _ => grep_files fuel pattern files
      end
  | _ => fprintf 2 (line "usage: grep pattern [file ...]") [];; exit 1 EmptyString
  end.
End Grep.

(** ** The meaning of a pattern *)

(** Regular expressions over bytes and the strings they match. *)
Inductive rx : Type := Eps | Chr (c : Z) | Many (c : Z) | Seq (a b : rx).

(** A pattern character matches itself, ['.'] matches any. *)
Definition covers (c x : Z) : Prop := c = ch "." \/ c = x.

Fixpoint lang (e : rx) (s : list Z) : Prop :=
  match e with
  | Eps => s = []
  | Chr c => exists x, s = [x] /\ covers c x
  | Many c => Forall (covers c) s
  | Seq a b => exists s1 s2, s = s1 ++ s2 /\ lang a s1 /\ lang b s2
  end.

(** The expression of a pattern, and whether it is tied to the end of the text:
    a [c*] is a repetition, a final [$] is the end, any other character is
    itself. *)
Fixpoint parse (re : list Z) : rx * bool :=
  match re with
  | [] => (Eps, false)
  | r0 :: re1 =>
      match re1 with
      | [] => if r0 =? ch "$" then (Eps, true) else (Seq (Chr r0) Eps, false)
      | r1 :: re2 =>
          if r1 =? ch "*" then let '(e, eol) := parse re2 in (Seq (Many r0) e, eol)
          else let '(e, eol) := parse re1 in (Seq (Chr r0) e, eol)
      end
  end.

Definition bol (re : list Z) : bool := match re with r0 :: _ => r0 =? ch "^" | [] => false end.
Definition body (re : list Z) : list Z := if bol re then tail re else re.

(** ** The matcher finds what the pattern means *)

#[local] Arguments ch : simpl never.

Lemma covers_bool c x : (c =? ch ".") || (c =? x) = true <-> covers c x.
Proof. unfold covers. rewrite orb_true_iff, !Z.eqb_eq. done. Qed.

Lemma matchstar_spec here c text :
  matchstar here c text = true <-> exists s1 s2, text = s1 ++ s2 /\ Forall (covers c) s1 /\ here s2 = true.
Proof.
  induction text as [|t text IH]; cbn [matchstar].
  - destruct (here []) eqn:E.
    + split; [|done]. intros _. by exists [], [].
    + split; [done|]. intros (s1 & s2 & E' & _ & Hh). symmetry in E'. apply app_eq_nil in E' as [-> ->]. congruence.
  - destruct (here (t :: text)) eqn:E.
    { split; [|done]. intros _. by exists [], (t :: text). }
    rewrite orb_comm, (Z.eqb_sym t c). destruct ((c =? ch ".") || (c =? t)) eqn:Ec.
    + rewrite IH. apply covers_bool in Ec. split.
      * intros (s1 & s2 & -> & Hf & Hh). exists (t :: s1), s2. split_and!; [done|by constructor|done].
      * intros (s1 & s2 & E' & Hf & Hh). destruct s1 as [|z s1]; cbn in E'; [congruence|].
        injection E' as -> ->. apply Forall_cons in Hf as [_ Hf]. by exists s1, s2.
    + split; [done|]. intros (s1 & s2 & E' & Hf & Hh). destruct s1 as [|z s1]; cbn in E'; [congruence|].
      injection E' as -> ->. apply Forall_cons in Hf as [Hc _]. apply covers_bool in Hc. congruence.
Qed.

(** matchhere() finds the expression at the beginning of the text. *)
Lemma matchhere_spec_aux n : forall re text, (length re < n)%nat ->
  matchhere re text = true <->
  exists s rest, text = s ++ rest /\ lang (parse re).1 s /\ ((parse re).2 = true -> rest = []).
Proof.
  induction n as [|n IH]; intros re text Hn; [lia|]. destruct re as [|r0 [|r1 re2]].
  - cbn. split; [|done]. intros _. by exists [], text.
  - cbn. destruct (r0 =? ch "$") eqn:Ed; cbn.
    + destruct text as [|t text].
      * split; [|done]. intros _. by exists [], [].
      * split; [done|]. intros (s & rest & E & -> & Hr). by rewrite (Hr eq_refl) in E.
    + destruct text as [|t text].
      * split; [done|]. intros (s & rest & E & (s1 & s2 & -> & (x & -> & _) & _) & _). done.
      * rewrite covers_bool. split.
        -- intros Hc. exists [t], text. split_and!; [done| |done]. exists [t], []. split_and!; [done|by exists t|done].
        -- intros (s & rest & E & (s1 & s2 & -> & (x & -> & Hx) & ->) & _). by injection E as -> ->.
  - cbn [length] in Hn. change (matchhere (r0 :: r1 :: re2) text) with
      (if r1 =? ch "*" then matchstar (matchhere re2) r0 text
       else match text with t :: text' => if (r0 =? ch ".") || (r0 =? t) then matchhere (r1 :: re2) text' else false | [] => false end).
    change (parse (r0 :: r1 :: re2)) with
      (if r1 =? ch "*" then let '(e, eol) := parse re2 in (Seq (Many r0) e, eol)
       else let '(e, eol) := parse (r1 :: re2) in (Seq (Chr r0) e, eol)).
    destruct (r1 =? ch "*") eqn:Es.
    + destruct (parse re2) as [e eol] eqn:Ep. rewrite matchstar_spec. cbn [fst snd lang]. split.
      * intros (s1 & s2 & -> & Hf & Hh). apply IH in Hh; [|lia]. rewrite Ep in Hh. destruct Hh as (s & rest & -> & Hl & Hr).
        exists (s1 ++ s), rest. split_and!; [by rewrite app_assoc| |done]. by exists s1, s.
      * intros (s & rest & -> & (s1 & s2 & -> & Hf & Hl) & Hr). exists s1, (s2 ++ rest). split_and!; [by rewrite app_assoc|done|].
        apply IH; [lia|]. rewrite Ep. by exists s2, rest.
    + destruct (parse (r1 :: re2)) as [e eol] eqn:Ep. cbn [fst snd lang].
      assert (forall text', matchhere (r1 :: re2) text' = true <->
        exists s rest, text' = s ++ rest /\ lang e s /\ (eol = true -> rest = [])) as Hre.
      { intros text'. rewrite (IH (r1 :: re2) text') by (cbn; lia). by rewrite Ep. }
      destruct text as [|t text].
      { split; [done|]. intros (s & rest & E & (s1 & s2 & -> & (x & -> & _) & _) & _). done. }
      destruct ((r0 =? ch ".") || (r0 =? t)) eqn:Ec.
      * rewrite Hre. apply covers_bool in Ec. split.
        -- intros (s & rest & -> & Hl & Hr). exists (t :: s), rest. split_and!; [done| |done].
           exists [t], s. split_and!; [done|by exists t|done].
        -- intros (s & rest & E & (s1 & s2 & -> & (x & -> & Hx) & Hl) & Hr). injection E as -> ->. by exists s2, rest.
      * split; [done|]. intros (s & rest & E & (s1 & s2 & -> & (x & -> & Hx) & Hl) & Hr). injection E as -> ->.
        apply covers_bool in Hx. congruence.
Qed.

Lemma matchhere_spec re text :
  matchhere re text = true <->
  exists s rest, text = s ++ rest /\ lang (parse re).1 s /\ ((parse re).2 = true -> rest = []).
Proof. apply (matchhere_spec_aux (S (length re))). lia. Qed.

Lemma match_loop_spec re text :
  match_loop re text = true <-> exists pre rest, text = pre ++ rest /\ matchhere re rest = true.
Proof.
  induction text as [|t text IH]; cbn [match_loop]; destruct (matchhere re _) eqn:E.
  - split; [|done]. intros _. by exists [], [].
  - split; [done|]. intros (pre & rest & E' & Hm). symmetry in E'. apply app_eq_nil in E' as [-> ->]. congruence.
  - split; [|done]. intros _. by exists [], (t :: text).
  - rewrite IH. split.
    + intros (pre & rest & -> & Hm). by exists (t :: pre), rest.
    + intros (pre & rest & E' & Hm). destruct pre as [|z pre]; cbn in E'; [congruence|].
      injection E' as -> ->. by exists pre, rest.
Qed.

(** C37: match() returns 1 exactly when some part of the text is in the language of
    the pattern: a part at the beginning when the pattern starts with [^], and
    at the end when it ends in [$]. *)
Theorem match_correct re text :
  match_ re text = true <->
  exists pre s post, text = pre ++ s ++ post /\ lang (parse (body re)).1 s
    /\ (bol re = true -> pre = []) /\ ((parse (body re)).2 = true -> post = []).
Proof.
  assert (match_ re text = if bol re then matchhere (body re) text else match_loop (body re) text) as ->.
  { unfold match_, body, bol. destruct re as [|r0 re1]; [done|]. by destruct (r0 =? ch "^"). }
  destruct (bol re).
  - rewrite matchhere_spec. split.
    + intros (s & rest & -> & Hl & Hr). by exists [], s, rest.
    + intros (pre & s & post & -> & Hl & Hb & Hr). rewrite (Hb eq_refl). by exists s, post.
  - rewrite match_loop_spec. split.
    + intros (pre & rest & -> & Hm). apply matchhere_spec in Hm as (s & post & -> & Hl & Hr). by exists pre, s, post.
    + intros (pre & s & post & -> & Hl & _ & Hr). exists pre, (s ++ post). split; [done|].
      apply matchhere_spec. by exists s, post.
Qed.

(** ** grep() prints the lines that match *)

(** The complete lines of a text, and what comes after the last newline. *)
Fixpoint split_lines (s : list Z) : list (list Z) * list Z :=
  match s with
  | [] => ([], [])
  | c :: s' =>
      let '(ls, r) := split_lines s' in
      if c =? 10 then ([] :: ls, r)
      else match ls with [] => ([], c :: r) | l :: ls' => ((c :: l) :: ls', r) end
  end.

(** What grep prints for the lines [ls]. *)
Definition selected (pattern : list Z) (ls : list (list Z)) : list Z :=
  concat ((fun l => l ++ [10]) <$> List.filter (match_ pattern) ls).

Lemma split_line a b :
  10 ∉ a -> split_lines (a ++ 10 :: b) = (a :: (split_lines b).1, (split_lines b).2).
Proof.
  induction a as [|c a IH]; intros Hn; cbn [app split_lines].
  - by destruct (split_lines b).
  - apply not_elem_of_cons in Hn as [Hc Hn]. rewrite IH by done.
    by rewrite (proj2 (Z.eqb_neq c 10)) by congruence.
Qed.

Lemma split_rest a : 10 ∉ a -> split_lines a = ([], a).
Proof.
  induction a as [|c a IH]; intros Hn; [done|]. apply not_elem_of_cons in Hn as [Hc Hn]. cbn. rewrite IH by done.
  by rewrite (proj2 (Z.eqb_neq c 10)) by congruence.
Qed.

Lemma split_no_newline s : 10 ∉ (split_lines s).2.
Proof.
  induction s as [|c s IH]; cbn; [apply not_elem_of_nil|]. destruct (split_lines s) as [ls r]. cbn in IH.
  destruct (Z.eqb_spec c 10); [done|]. destruct ls; [|done]. cbn. by rewrite not_elem_of_cons.
Qed.

Lemma split_app s t :
  split_lines (s ++ t) = ((split_lines s).1 ++ (split_lines ((split_lines s).2 ++ t)).1, (split_lines ((split_lines s).2 ++ t)).2).
Proof.
  induction s as [|c s IH]; cbn [app split_lines fst snd]; [by destruct (split_lines t)|].
  rewrite IH. destruct (split_lines s) as [ls r]. cbn [fst snd].
  destruct (Z.eqb_spec c 10); [done|]. destruct ls as [|l ls]; cbn [fst snd app]; [|done].
  cbn [app split_lines]. destruct (split_lines (r ++ t)) as [ls' r']. cbn [fst snd].
  rewrite (proj2 (Z.eqb_neq c 10)) by done. by destruct ls'.
Qed.

Lemma strchr_spec s :
  Forall (fun c => c <> 0) s ->
  match strchr s 10 with
  | Some q => s = take q s ++ 10 :: drop (q + 1) s /\ (10 ∉ take q s) /\ (q < length s)%nat
  | None => 10 ∉ s
  end.
Proof.
  induction s as [|c s IH]; intros Hs; cbn [strchr]; [apply not_elem_of_nil|].
  apply Forall_cons in Hs as [Hc Hs]. specialize (IH Hs). rewrite (proj2 (Z.eqb_neq c 0)) by done.
  destruct (Z.eqb_spec c 10) as [->|Hc10].
  { cbn. split_and!; [done|apply not_elem_of_nil|lia]. }
  destruct (strchr s 10) as [q|]; cbn.
  - destruct IH as (E & Hn & Hlt). split_and!; [by f_equal|by rewrite not_elem_of_cons|lia].
  - by rewrite not_elem_of_cons.
Qed.

Section Driver.
Context {W : Type} {OS : Sys W} (fd : Z) (input output : W -> list Z).

(** read() returns some of what is left of the file, write() appends to the
    standard output. *)
Record file_io : Prop := {
  io_read : forall w n, 0 <= n -> exists k w',
    os_read fd n w = (Z.of_nat k, take k (input w), w')
    /\ Z.of_nat k <= n /\ (k <= length (input w))%nat /\ (0 < n -> input w <> [] -> (0 < k)%nat)
    /\ input w' = drop k (input w) /\ output w' = output w;
  io_write : forall w bytes, exists w',
    os_write 1 bytes w = (Z.of_nat (length bytes), w')
    /\ input w' = input w /\ output w' = output w ++ bytes
}.
Context (IO : file_io).

Lemma grep_lines_run pattern buf : forall fuel p w,
  Forall (fun c => c <> 0) buf -> (length (drop p buf) < fuel)%nat ->
  exists p' w', grep_lines fuel pattern buf p w = Ret p' w'
    /\ input w' = input w /\ output w' = output w ++ selected pattern (split_lines (drop p buf)).1
    /\ drop p' buf = (split_lines (drop p buf)).2.
Proof using IO.
  induction fuel as [|fuel IH]; intros p w Hb Hf; [lia|]. cbn [grep_lines].
  pose proof (strchr_spec (drop p buf) (Forall_drop _ _ _ Hb)) as Hs.
  destruct (strchr (drop p buf) 10) as [q|].
  - destruct Hs as (E & Hn & Hq). set (text := take q (drop p buf)) in *. rewrite drop_drop in E.
    replace (p + (q + 1))%nat with (p + q + 1)%nat in E by lia. rewrite E, split_line by done. cbn [fst snd].
    assert (exists w1, when (match_ pattern text) (write 1 (text ++ [10]);; mret tt) w = Ret tt w1
      /\ input w1 = input w /\ output w1 = output w ++ (if match_ pattern text then text ++ [10] else [])) as (w1 & E1 & Hi1 & Ho1).
    { destruct (match_ pattern text); unfold when; [|exists w; by rewrite app_nil_r].
      destruct (io_write IO w (text ++ [10])) as (w1 & Ew & Hi & Ho). exists w1. split; [|done].
      unfold write, call. unfold mbind, M_bind, mret, M_ret. by rewrite Ew. }
    rewrite (bind_Ret _ _ _ _ _ E1).
    destruct (IH (p + q + 1)%nat w1 Hb) as (p' & w' & Er & Hi & Ho & Hd).
    { rewrite length_drop in *. lia. }
    exists p', w'. split_and!; [exact Er|congruence| |done]. rewrite Ho, Ho1, <- app_assoc. f_equal. unfold selected. cbn.
    by destruct (match_ pattern text).
  - exists p, w. rewrite split_rest by done. cbn. by rewrite app_nil_r.
Qed.

(** The lines fit into the buffer. *)
Definition short (s : list Z) : Prop :=
  Forall (fun l => (length l < 1023)%nat) (split_lines s).1 /\ (length (split_lines s).2 < 1023)%nat.

Lemma short_first buf s : 10 ∉ buf -> short (buf ++ s) -> (length buf < 1023)%nat.
Proof using.
  intros Hn [H1 H2]. rewrite split_app, (split_rest buf Hn) in H1, H2. cbn [fst snd app] in *.
  revert H1 H2. generalize s. clear s. intros s.
  destruct (split_lines (buf ++ s)) as [ls r] eqn:E. cbn.
  assert (buf `prefix_of` (match ls with l :: _ => l | [] => r end)) as [k Hk].
  { revert ls r E Hn. induction buf as [|c buf IH]; intros ls r E Hn; [apply prefix_nil|].
    apply not_elem_of_cons in Hn as [Hc Hn]. cbn in E. destruct (split_lines (buf ++ s)) as [ls' r'].
    rewrite (proj2 (Z.eqb_neq c 10)) in E by congruence. specialize (IH ls' r' eq_refl Hn).
    destruct ls' as [|l ls']; injection E as <- <-; by apply prefix_cons. }
  intros H1 H2. destruct ls as [|l ls]; [|apply Forall_cons in H1 as [H1 _]]; subst; rewrite length_app in *; lia.
Qed.

Lemma grep_loop_run pattern : forall fuel buf w,
  10 ∉ buf -> Forall (fun c => c <> 0) (buf ++ input w) -> short (buf ++ input w) ->
  (length (input w) < fuel)%nat ->
  exists w', grep_loop fuel pattern fd buf w = Ret tt w' /\ input w' = []
    /\ output w' = output w ++ selected pattern (split_lines (buf ++ input w)).1.
Proof using IO.
  induction fuel as [|fuel IH]; intros buf w Hn Hz Hs Hf; [lia|]. cbn [grep_loop].
  pose proof (short_first buf (input w) Hn Hs) as Hlen.
  destruct (io_read IO w (1024 - Z.of_nat (length buf) - 1) ltac:(lia)) as (k & w1 & E & Hk & Hki & Hpos & Hi & Ho).
  unfold read at 1. unfold mbind at 1, M_bind at 1. rewrite E. cbn [obind].
  destruct (Z.ltb_spec 0 (Z.of_nat k)) as [H0|H0].
  - set (buf' := buf ++ take k (input w)).
    assert (buf ++ input w = buf' ++ input w1) as Etot by (unfold buf'; by rewrite Hi, <- app_assoc, take_drop).
    rewrite Etot in Hz, Hs |- *. destruct (grep_lines_run pattern buf' (S (length buf')) O w1) as (p & w2 & Er & Hi2 & Ho2 & Hd).
    { by apply Forall_app in Hz as [? _]. } { rewrite drop_0. lia. }
    rewrite (bind_Ret _ _ _ _ _ Er). rewrite drop_0 in Ho2, Hd.
    rewrite split_app. cbn [fst]. rewrite <- Hd.
    destruct (IH (drop p buf') w2) as (w' & Er' & Hi' & Ho').
    + rewrite Hd. apply split_no_newline.
    + rewrite Hi2. apply Forall_app in Hz as [Hz1 Hz2]. apply Forall_app. split; [by apply Forall_drop|done].
    + rewrite Hi2. destruct Hs as [Hs1 Hs2]. rewrite split_app, <- Hd in Hs1, Hs2. apply Forall_app in Hs1 as [_ Hs1]. by split.
    + rewrite Hi2, Hi, length_drop. lia.
    + exists w'. split_and!; [exact Er'|done|]. rewrite Ho', Ho2, Ho, Hi2, <- app_assoc. f_equal.
      unfold selected. rewrite List.filter_app, fmap_app, concat_app. done.
  - exists w1. assert (input w = []) as E0.
    { destruct (input w) as [|c l] eqn:Ei; [done|]. specialize (Hpos ltac:(lia) ltac:(done)). lia. }
    split_and!; [done|rewrite Hi, E0; by rewrite drop_nil|]. rewrite Ho, E0, app_nil_r, split_rest by done.
    cbn. by rewrite app_nil_r.
Qed.
End Driver.

(** C38: On a file without NUL bytes whose lines fit into the buffer, grep() ends and
    prints exactly the complete lines that match, in order.  What follows the
    last newline is not printed. *)
Theorem grep_prints_matching_lines `{Sys W} fd input output pattern w fuel :
  file_io fd input output -> Forall (fun c => c <> 0) (input w) -> short (input w) -> (length (input w) < fuel)%nat ->
  exists w', grep fuel pattern fd w = Ret tt w' /\ input w' = []
    /\ output w' = output w ++ selected pattern (split_lines (input w)).1.
Proof.
  intros IO Hz Hs Hf. apply (grep_loop_run fd input output IO pattern fuel [] w); [apply not_elem_of_nil|done|done|done].
Qed.

(** ** Witness: a file that is read two bytes at a time *)

Record demo_world : Type := World { w_in : list Z; w_out : list Z }.

#[local] Instance demo_sys : Sys demo_world := {|
  os_fork w := (0, w); os_exit _ _ w := w; os_wait w := (-1, 0, [], w); os_pipe w := (-1, (0, 0), w);
  os_read _ n w := let k := Z.to_nat (Z.min 2 (Z.min n (Z.of_nat (length (w_in w))))) in
    (Z.of_nat k, take k (w_in w), World (drop k (w_in w)) (w_out w));
  os_write _ bytes w := (Z.of_nat (length bytes), World (w_in w) (w_out w ++ bytes));
  os_open _ _ w := (3, w); os_close _ w := (0, w); os_dup _ w := (-1, w); os_kill _ w := (-1, w);
  os_exec _ _ w := (-1, w); os_chdir _ w := (-1, w); os_mkdir _ w := (-1, w); os_mknod _ _ _ w := (-1, w);
  os_unlink _ w := (-1, w); os_link _ _ w := (-1, w); os_sleep _ w := (0, w); os_memsize w := (0, w);
  os_set_policy _ w := (-1, w); os_fstat _ w := (-1, Stat 0 0 0, w); os_getpid w := (1, w);
  os_set_ps_priority _ w := (0, w); os_set_cfs_priority _ w := (0, w); os_get_cfs_stats _ w := (-1, [], w);
  os_malloc _ w := (0, w); os_free _ w := w |}.

Lemma demo_io : file_io 0 w_in w_out.
Proof.
  split.
  - intros w n Hn. eexists _, _. split; [reflexivity|]. split_and!; [lia|lia| |done|done].
    intros Hn' Hne. destruct (w_in w); [done|]. cbn [length]. lia.
  - intros w bytes. by eexists.
Qed.

(** The lines abc, xbz and b, of which the pattern ^.b selects the first two. *)
Lemma grep_prints_matching_lines_witness :
  exists w', grep 20 (str "^.b") 0 (World (str "abc" ++ [10] ++ str "xbz" ++ [10; 98; 10]) []) = Ret tt w'
    /\ w_out w' = str "abc" ++ [10] ++ str "xbz" ++ [10].
Proof.
  destruct (grep_prints_matching_lines 0 w_in w_out (str "^.b") (World (str "abc" ++ [10] ++ str "xbz" ++ [10; 98; 10]) []) 20
    demo_io) as (w' & Hrun & _ & Ho).
  - repeat constructor; discriminate.
  - split; vm_compute; [repeat constructor; lia|lia].
  - vm_compute. lia.
  - exists w'. split; [exact Hrun|]. rewrite Ho. vm_compute. reflexivity.
Defined.
