(* ===== verification/Umalloc.v ===== *)
(** * user/umalloc.c: malloc() and free()

    The heap is a memory of headers: [hdr a] is the header at address [a], and
    pointer arithmetic is in units of [sizeof(Header)], 16 bytes.  [base] is the
    address of the static header; sbrk() moves the end of the heap if the kernel
    grants it.  The free blocks form a circular list in the order of their
    addresses, no two of them adjacent; malloc() and free() keep it apart from the
    blocks that are handed out. *)

From S2P Require Import Prelude.

(** [union header] *)
Record header : Type := Header { s_ptr : Z; s_size : Z }.

Record heap : Type := Heap { hdr : Z -> header; freep : Z; brk : Z }.

Definition sizeof_Header : Z := 16.

(** The address of [static Header base]. *)
Class Static : Type := base : Z.

(** Whether the kernel moves the end of the heap, from its old value by [n] bytes. *)
Class Grow : Type := grow : Z -> Z -> bool.

Abbreviation HM := (M heap).

Definition ptr (a : Z) : HM Z := gets (fun h => s_ptr (hdr h a)).
Definition size (a : Z) : HM Z := gets (fun h => s_size (hdr h a)).
Definition set_hdr (a : Z) (f : header -> header) (h : heap) : heap :=
  Heap (fun x => if x =? a then f (hdr h x) else hdr h x) (freep h) (brk h).
Definition set_ptr (a v : Z) : HM unit := modify (set_hdr a (fun r => Header v (s_size r))).
Definition set_size (a v : Z) : HM unit := modify (set_hdr a (fun r => Header (s_ptr r) v)).
Definition get_freep : HM Z := gets freep.
Definition set_freep (v : Z) : HM unit := modify (fun h => Heap (hdr h) v (brk h)).

(** [p + n] *)
Definition padd (p n : Z) : Z := p + n * sizeof_Header.

Section Umalloc.
Context {St : Static} {G : Grow}.

(** The old end of the heap, or -1 as a pointer. *)
Definition sbrk (n : Z) : HM Z :=
  old ← gets brk;
  if grow old n then modify (fun h => Heap (hdr h) (freep h) (old + n));; mret old
  else mret (2 ^ 64 - 1).

(** [for(p = freep; !(bp > p && bp < p->s.ptr); p = p->s.ptr)
       if(p >= p->s.ptr && (bp > p || bp < p->s.ptr)) break;] *)
Fixpoint free_search (fuel : nat) (bp p : Z) : HM Z :=
  match fuel with
  | O => nofuel
  | S fuel' =>
      next ← ptr p;
      if (p <? bp) && (bp <? next) then mret p
      else if (next <=? p) && ((p <? bp) || (bp <? next)) then mret p
      else free_search fuel' bp next
  end.

Definition free (fuel : nat) (ap : Z) : HM unit :=
  let bp := padd ap (-1) in
  p ← get_freep;
  p ← free_search fuel bp p;
  next ← ptr p;
  bsize ← size bp;
  (if padd bp bsize =? next then
     nsize ← size next;
     set_size bp (u32 (bsize + nsize));;
     nptr ← ptr next;
     set_ptr bp nptr
   else set_ptr bp next);;
  psize ← size p;
  (if padd p psize =? bp then
     bsize ← size bp;
     set_size p (u32 (psize + bsize));;
     bptr ← ptr bp;
     set_ptr p bptr
   else set_ptr p bp);;
  set_freep p.

(** 0 is a null pointer.  The argument of sbrk() is an int. *)
Definition morecore (fuel : nat) (nu : Z) : HM Z :=
  let nu := if nu <? 4096 then 4096 else nu in
  p ← sbrk (s32 (nu * sizeof_Header));
  if p =? 2 ^ 64 - 1 then mret 0
  else
    set_size p nu;;
    free fuel (padd p 1);;
    get_freep.

Fixpoint malloc_loop (fuel : nat) (nunits prevp p : Z) : HM Z :=
  match fuel with
  | O => nofuel
  | S fuel' =>
      psize ← size p;
      if nunits <=? psize then
        p ← (if psize =? nunits then
               next ← ptr p;
               set_ptr prevp next;;
               mret p
             else
               set_size p (u32 (psize - nunits));;
               psize ← size p;
               let p := padd p psize in
               set_size p nunits;;
               mret p);
        set_freep prevp;;
        mret (padd p 1)
      else
        fp ← get_freep;
        if p =? fp then
          p ← morecore fuel' nunits;
          if p =? 0 then mret 0
          else next ← ptr p; malloc_loop fuel' nunits p next
        else next ← ptr p; malloc_loop fuel' nunits p next
  end.

Definition nunits_of (nbytes : Z) : Z := u32 ((nbytes + sizeof_Header - 1) / sizeof_Header + 1).

Definition malloc (fuel : nat) (nbytes : Z) : HM Z :=
  let nunits := nunits_of nbytes in
  prevp ← get_freep;
  prevp ← (if prevp =? 0 then
             set_freep base;;
             set_ptr base base;;
             set_size base 0;;
             mret base
           else mret prevp);
  p ← ptr prevp;
  malloc_loop fuel nunits prevp p.
End Umalloc.
