(* ===== verification/UmallocSpec.v ===== *)
(** * The free list of malloc()

    The free blocks are in the order of their addresses, with gaps between them,
    and apart from the blocks that are handed out. *)

From S2P Require Import Prelude Umalloc.

(** ** The circular list *)

Definition hd (z : Z) (l : list Z) : Z := match l with [] => z | x :: _ => x end.

(** The pointers lead through [l] and from its last header to [z]. *)
Fixpoint seg (m : Z -> header) (l : list Z) (z : Z) : Prop :=
  match l with
  | [] => True
  | a :: l' => s_ptr (m a) = hd z l' /\ seg m l' z
  end.

(** The end of the block at [a]. *)
Definition bend (m : Z -> header) (a : Z) : Z := padd a (s_size (m a)).

(** The blocks of [l] are in the order of their addresses, with a gap after each,
    and end below [hi]. *)
Fixpoint spaced (m : Z -> header) (l : list Z) (hi : Z) : Prop :=
  match l with
  | [] => True
  | a :: l' => bend m a < hd hi l' /\ 0 <= s_size (m a) /\ spaced m l' hi
  end.

Lemma seg_app m l1 l2 z : seg m (l1 ++ l2) z <-> seg m l1 (hd z l2) /\ seg m l2 z.
Proof.
  induction l1 as [|a l1 IH]; cbn; [tauto|]. rewrite IH. assert (hd z (l1 ++ l2) = hd (hd z l2) l1) as -> by (by destruct l1). tauto.
Qed.

Lemma spaced_app m l1 l2 hi : spaced m (l1 ++ l2) hi <-> spaced m l1 (hd hi l2) /\ spaced m l2 hi.
Proof.
  induction l1 as [|a l1 IH]; cbn; [tauto|]. rewrite IH. assert (hd hi (l1 ++ l2) = hd (hd hi l2) l1) as -> by (by destruct l1). tauto.
Qed.

Lemma seg_ext m m' l z : (forall a, a ∈ l -> m' a = m a) -> seg m l z -> seg m' l z.
Proof.
  induction l as [|a l IH]; cbn; [done|]. intros He [H1 H2]. rewrite He by (by left). split; [done|]. apply IH; [|done].
  intros x Hx. apply He. by right.
Qed.

Lemma spaced_ext m m' l hi : (forall a, a ∈ l -> m' a = m a) -> spaced m l hi -> spaced m' l hi.
Proof.
  induction l as [|a l IH]; cbn; [done|]. intros He (H1 & H2 & H3). unfold bend in *. rewrite He by (by left). split_and!; [done|done|].
  apply IH; [|done]. intros x Hx. apply He. by right.
Qed.

Lemma seg_ptr m m' l z : (forall a, a ∈ l -> s_ptr (m' a) = s_ptr (m a)) -> seg m l z -> seg m' l z.
Proof.
  induction l as [|a l IH]; cbn; [done|]. intros He [H1 H2]. rewrite He by (by left). split; [done|]. apply IH; [|done].
  intros x Hx. apply He. by right.
Qed.

(** Smaller blocks. *)
Lemma spaced_le m m' l hi : (forall a, a ∈ l -> 0 <= s_size (m' a) <= s_size (m a)) -> spaced m l hi -> spaced m' l hi.
Proof.
  induction l as [|a l IH]; cbn; [done|]. intros He (H1 & H2 & H3). pose proof (He a ltac:(by left)). unfold bend, padd, sizeof_Header in *.
  split_and!; [lia|lia|]. apply IH; [|done]. intros x Hx. apply He. by right.
Qed.

Lemma spaced_hi m l hi hi' : hi <= hi' -> spaced m l hi -> spaced m l hi'.
Proof.
  intros Hh. induction l as [|a l IH]; cbn; [done|]. intros (H1 & H2 & H3). split_and!; [|done|auto]. destruct l; cbn in *; lia.
Qed.

Lemma bend_ge m a : 0 <= s_size (m a) -> a <= bend m a.
Proof. unfold bend, padd, sizeof_Header. lia. Qed.

Lemma spaced_below m l hi : spaced m l hi -> forall x, x ∈ l -> bend m x < hi /\ 0 <= s_size (m x) /\ hd hi l <= x.
Proof.
  induction l as [|a l IH]; cbn; intros Hs x; [by intros ?%elem_of_nil|]. destruct Hs as (H1 & H2 & H3).
  pose proof (bend_ge m a H2). intros [->|Hx]%elem_of_cons.
  - split_and!; [|done|lia]. destruct l as [|b l]; cbn in *; [lia|]. destruct (IH H3 b ltac:(by left)) as (Hb & Hb0 & _).
    pose proof (bend_ge m b Hb0). lia.
  - destruct (IH H3 x Hx) as (Hb & Hb0 & Hge). split_and!; [done|done|]. destruct l; cbn in *; [by apply elem_of_nil in Hx|lia].
Qed.

(** The blocks before and after one of the list. *)
Lemma spaced_split m l1 p l2 hi : spaced m (l1 ++ p :: l2) hi ->
  (forall x, x ∈ l1 -> bend m x < p) /\ (forall x, x ∈ l2 -> bend m p < x).
Proof.
  intros [H1 H2]%spaced_app. cbn [hd] in H1. split.
  - intros x Hx. by apply (spaced_below m l1 p H1).
  - intros x Hx. destruct H2 as (Hp & _ & H2). destruct (spaced_below m l2 hi H2 x Hx) as (_ & _ & Hge).
    destruct l2; cbn in *; [by apply elem_of_nil in Hx|lia].
Qed.

Lemma spaced_nodup m l hi : spaced m l hi -> NoDup l.
Proof.
  induction l as [|a l IH]; intros Hs; [apply NoDup_nil_2|]. apply NoDup_cons. split; [|apply IH, Hs].
  intros Hx. destruct (spaced_split m [] a l hi Hs) as [_ H2]. specialize (H2 a Hx). pose proof (bend_ge m a ltac:(apply Hs)). lia.
Qed.

(** ** The invariant *)

(** Blocks are a header's address with a number of units. *)
Definition clear (x y : Z * Z) : Prop := padd x.1 x.2 <= y.1 \/ padd y.1 y.2 <= x.1.

Fixpoint apart (A : list (Z * Z)) : Prop :=
  match A with [] => True | x :: A' => (forall y, y ∈ A' -> clear x y) /\ apart A' end.

Section Inv.
Context {St : Static}.

(** [bs] are the free blocks, [A] the blocks handed out. *)
Record heap_inv (h : heap) (bs : list Z) (A : list (Z * Z)) : Prop := {
  hi_base : 0 < base /\ s_size (hdr h base) = 0;
  hi_brk : padd base 1 <= brk h < 2 ^ 36;
  hi_ring : seg (hdr h) (base :: bs) base;
  hi_order : spaced (hdr h) (base :: bs) (brk h + 1);
  hi_free : forall b, b ∈ bs -> padd base 1 <= b /\ 0 < s_size (hdr h b);
  hi_freep : freep h ∈ base :: bs;
  hi_alloc : forall a s, (a, s) ∈ A -> padd base 1 <= a /\ 0 < s /\ padd a s <= brk h /\ s_size (hdr h a) = s;
  hi_clear : forall x b, x ∈ A -> b ∈ bs -> clear x (b, s_size (hdr h b));
  hi_apart : apart A
}.

(** The contents of the blocks of [A], past their headers, are the same. *)
Definition held_kept (A : list (Z * Z)) (h h' : heap) : Prop :=
  forall a s x, (a, s) ∈ A -> a < x < padd a s -> hdr h' x = hdr h x.

Lemma held_kept_refl A h : held_kept A h h.
Proof using. done. Qed.

Lemma held_kept_trans A h h1 h2 : held_kept A h h1 -> held_kept A h1 h2 -> held_kept A h h2.
Proof using. intros H1 H2 a s x Hin Hx. by rewrite (H2 a s x Hin Hx), (H1 a s x Hin Hx). Qed.

(** The free blocks are outside the blocks handed out. *)
Lemma inside_free h bs A a s x b : heap_inv h bs A -> (a, s) ∈ A -> a < x < padd a s -> b ∈ base :: bs -> x <> b /\ (b ∈ bs -> x < b \/ bend (hdr h) b <= x).
Proof using.
  intros Hi Hin Hx Hb. destruct (hi_alloc _ _ _ Hi a s Hin) as (H1 & _). split.
  - intros ->. apply elem_of_cons in Hb as [->|Hb]; [unfold padd, sizeof_Header in *; lia|]. destruct (hi_free _ _ _ Hi b Hb) as [_ H0].
    destruct (hi_clear _ _ _ Hi (a, s) b Hin Hb); unfold padd, sizeof_Header in *; cbn in *; lia.
  - intros Hb'. destruct (hi_clear _ _ _ Hi (a, s) b Hin Hb'); unfold bend in *; cbn in *; lia.
Qed.

(** ** The search of free() *)

Definition stops (m : Z -> header) (bp x : Z) : bool :=
  let next := s_ptr (m x) in
  ((x <? bp) && (bp <? next)) || ((next <=? x) && ((x <? bp) || (bp <? next))).

Lemma free_search_step fuel bp x h :
  free_search (S fuel) bp x h = if stops (hdr h) bp x then Ret x h else free_search fuel bp (s_ptr (hdr h x)) h.
Proof using.
  cbn [free_search]. rewrite (bind_Ret (ptr x) _ _ _ _ eq_refl). unfold stops.
  destruct ((x <? bp) && (bp <? s_ptr (hdr h x))); [done|]. cbn [orb].
  by destruct ((s_ptr (hdr h x) <=? x) && ((x <? bp) || (bp <? s_ptr (hdr h x)))).
Qed.

Lemma free_search_found h bp p z k : stops (hdr h) bp p = true -> forall w x,
  seg (hdr h) (x :: w) z -> p ∈ x :: w -> (forall e, e ∈ x :: w -> e <> p -> stops (hdr h) bp e = false) ->
  free_search (length w + S k) bp x h = Ret p h.
Proof using.
  intros Hp. induction w as [|y w IH]; intros x Hs Hin Hno.
  - apply list_elem_of_singleton in Hin as ->. cbn [length Nat.add]. by rewrite free_search_step, Hp.
  - cbn [length Nat.add]. rewrite free_search_step. destruct (decide (x = p)) as [->|Hne]; [by rewrite Hp|].
    rewrite Hno by (done || by left). destruct Hs as [-> Hs]. cbn [hd]. apply IH; [done| |].
    + apply elem_of_cons in Hin as [?|?]; done.
    + intros e He. apply Hno. by right.
Qed.

Lemma free_search_pass h bp z k : forall w x,
  seg (hdr h) (x :: w) z -> (forall e, e ∈ x :: w -> stops (hdr h) bp e = false) ->
  free_search (S (length w) + k) bp x h = free_search k bp z h.
Proof using.
  induction w as [|y w IH]; intros x Hs Hno; cbn [length Nat.add]; rewrite free_search_step, Hno by (by left); destruct Hs as [-> Hs].
  - done.
  - apply (IH y Hs). intros e He. apply Hno. by right.
Qed.

(** The block goes between the last header below it and the next one. *)
Lemma stops_spec m bp l1 p l2 hi x :
  seg m (l1 ++ p :: l2) base -> spaced m (l1 ++ p :: l2) hi -> (forall b, b ∈ l1 ++ p :: l2 -> base <= b) ->
  base < bp -> p < bp -> (forall b, b ∈ l2 -> bp < b) -> x ∈ l1 ++ p :: l2 -> stops m bp x = bool_decide (x = p).
Proof using.
  intros Hs Hsp Hge Hbb Hp Hl2 Hx. destruct (spaced_split m l1 p l2 hi Hsp) as [Hlt Hgt].
  pose proof (Hge x Hx) as Hxb. destruct (spaced_below m _ hi Hsp x Hx) as (_ & H0 & _). apply bend_ge in H0.
  unfold stops. apply elem_of_app in Hx as [Hx|[->|Hx]%elem_of_cons].
  - specialize (Hlt x Hx). rewrite bool_decide_eq_false_2 by lia. apply list_elem_of_split in Hx as (b1 & b2 & ->).
    rewrite <- app_assoc in Hs, Hsp. apply seg_app in Hs as [_ [E _]]. apply spaced_app in Hsp as [_ [Hn [_ Hsp]]]. cbn [app] in *.
    rewrite E. assert (x < hd base (b2 ++ p :: l2) <= p) as Hy.
    { destruct (spaced_below m _ hi Hsp p) as (_ & _ & Hp'); [set_solver|]. destruct b2; cbn [hd app] in *; lia. }
    zcases; done || lia.
  - rewrite bool_decide_eq_true_2 by done. apply seg_app in Hs as [_ [E _]]. rewrite E. destruct l2 as [|y l2]; cbn [hd].
    + zcases; done || lia.
    + specialize (Hl2 y ltac:(by left)). zcases; done || lia.
  - pose proof (Hl2 x Hx) as Hbx. specialize (Hgt x Hx). rewrite bool_decide_eq_false_2 by lia.
    apply list_elem_of_split in Hx as (b1 & b2 & ->). apply seg_app in Hs as [_ [_ Hs]]. apply seg_app in Hs as [_ [E _]]. rewrite E.
    apply spaced_app in Hsp as [_ [_ [_ Hsp]]]. apply spaced_app in Hsp as [_ [Hn [_ Hsp]]]. destruct b2 as [|y b2]; cbn [hd] in *; zcases; done || lia.
Qed.

Lemma position m bp hi : forall l a, spaced m (a :: l) hi -> a < bp -> (forall x, x ∈ l -> x <> bp) ->
  exists l1 p l2, a :: l = l1 ++ p :: l2 /\ p < bp /\ (forall x, x ∈ l2 -> bp < x).
Proof using.
  induction l as [|b l IH]; intros a Hs Ha Hno.
  - exists [], a, []. split_and!; [done|done|]. by intros x ?%elem_of_nil.
  - destruct (decide (b < bp)) as [Hb|Hb].
    + destruct (IH b) as (l1 & p & l2 & E & Hp & Hl2); [apply Hs|done|intros x Hx; apply Hno; by right|].
      exists (a :: l1), p, l2. rewrite E. done.
    + exists [], a, (b :: l). split_and!; [done|done|]. intros x Hx. specialize (Hno b ltac:(by left)).
      destruct Hs as (_ & _ & Hs). apply elem_of_cons in Hx as [->|Hx]; [lia|].
      destruct (spaced_split m [] b l hi Hs) as [_ Hgt]. specialize (Hgt x Hx). pose proof (bend_ge m b ltac:(apply Hs)). lia.
Qed.

(** From wherever the search starts, it ends at the header before the block. *)
Lemma free_search_run h bp l1 p l2 bs fuel :
  base :: bs = l1 ++ p :: l2 -> seg (hdr h) (base :: bs) base -> spaced (hdr h) (base :: bs) (brk h + 1) -> freep h ∈ base :: bs ->
  base < bp -> p < bp -> (forall x, x ∈ l2 -> bp < x) -> (S (length bs) <= fuel)%nat -> free_search fuel bp (freep h) h = Ret p h.
Proof using.
  intros E Hs Hsp Hfp Hb Hp Hl2 Hfu.
  assert (forall x, x ∈ base :: bs -> base <= x) as Hge.
  { intros x Hx. destruct (spaced_below _ _ _ Hsp x Hx) as (_ & _ & H). done. }
  assert (forall x, x ∈ base :: bs -> stops (hdr h) bp x = bool_decide (x = p)) as Hst.
  { intros x Hx. rewrite E in *. by eapply stops_spec. }
  assert (p ∈ base :: bs) as Hpin by (rewrite E; set_solver).
  assert (stops (hdr h) bp p = true) as Hpt by (rewrite Hst by done; by apply bool_decide_eq_true_2).
  assert (forall x, x ∈ base :: bs -> x <> p -> stops (hdr h) bp x = false) as Hno.
  { intros x Hx Hne. rewrite Hst by done. by apply bool_decide_eq_false_2. }
  apply list_elem_of_split in Hfp as (a1 & a2 & Ea). rewrite Ea in Hs, Hpin, Hno. apply seg_app in Hs as [Hs1 Hs2].
  assert (length a1 + S (length a2) = S (length bs))%nat as Hlen.
  { change (S (length bs)) with (length (base :: bs)). rewrite Ea, length_app. done. }
  destruct (decide (p ∈ freep h :: a2)) as [Hin|Hni].
  - replace fuel with (length a2 + S (fuel - S (length a2)))%nat by lia. eapply free_search_found; [done|done|done|].
    intros e He. apply Hno. set_solver.
  - destruct a1 as [|b0 a1]; [by rewrite app_nil_l in Hpin|]. injection Ea as <- Ea.
    assert (p ∈ base :: a1) as Hp1 by (apply elem_of_app in Hpin as [?|?]; done). cbn [length] in Hlen.
    replace fuel with (S (length a2) + (length a1 + S (fuel - S (length a2 + S (length a1)))))%nat by lia.
    rewrite (free_search_pass h bp base).
    + eapply free_search_found; [done|exact Hs1|done|]. intros e He. apply Hno. set_solver.
    + done.
    + intros e He. apply Hno; [set_solver|]. intros ->. done.
Qed.

(** The headers after free() of the block at [bp], put behind [p]. *)
Definition join_up (m : Z -> header) (bp next : Z) : header :=
  if padd bp (s_size (m bp)) =? next then Header (s_ptr (m next)) (u32 (s_size (m bp) + s_size (m next)))
  else Header next (s_size (m bp)).

Definition join_down (m : Z -> header) (p bp : Z) (hb : header) : header :=
  if padd p (s_size (m p)) =? bp then Header (s_ptr hb) (u32 (s_size (m p) + s_size hb)) else Header bp (s_size (m p)).

Lemma free_eval h fuel bp p :
  free_search fuel bp (freep h) h = Ret p h -> p <> bp -> s_ptr (hdr h p) <> bp ->
  let m := hdr h in
  let hb := join_up m bp (s_ptr (m p)) in
  exists h', free fuel (padd bp 1) h = Ret tt h' /\ freep h' = p /\ brk h' = brk h
    /\ forall x, hdr h' x = if x =? p then join_down m p bp hb else if x =? bp then hb else m x.
Proof using.
  intros Hsr Hpb Hnb m hb. unfold free. replace (padd (padd bp 1) (-1)) with bp by (unfold padd, sizeof_Header; lia).
  unfold get_freep, ptr, size, set_size, set_ptr, set_freep, set_hdr, mbind, M_bind, mret, M_ret, gets, modify. cbn [obind]. rewrite Hsr.
  cbn [obind]. fold m. unfold hb, join_up. set (next := s_ptr (m p)) in *.
  assert ((p =? bp) = false /\ (bp =? p) = false /\ (next =? bp) = false) as (N1 & N2 & N3) by (split_and!; apply Z.eqb_neq; done).
  unfold join_down. destruct (Z.eqb_spec (padd bp (s_size (m bp))) next) as [Eu|Nu].
  all: cbn [obind hdr freep brk s_ptr s_size]; rewrite ?N1, ?N3, ?Z.eqb_refl; fold m; cbn [s_ptr s_size].
  all: destruct (padd p (s_size (m p)) =? bp); cbn [obind hdr freep brk s_ptr s_size].
  all: eexists; split; [reflexivity|]; cbn [hdr freep brk]; split_and!; [done|done|]; intros x;
    destruct (Z.eqb_spec x p) as [->|]; rewrite ?N1, ?N2, ?N3, ?Z.eqb_refl; cbn [s_ptr s_size]; fold m next;
    rewrite ?N1, ?N2, ?N3, ?Z.eqb_refl; cbn [s_ptr s_size]; try done; destruct (Z.eqb_spec x bp) as [->|]; done.
Qed.

(** The block is joined with the next one if they touch. *)
Lemma join_up_spec m bp l2 hi :
  let s := s_size (m bp) in
  seg m l2 base -> spaced m l2 hi -> base < bp -> 0 <= bp -> 0 < s -> padd bp s < hi -> hi <= 2 ^ 36 ->
  (forall x, x ∈ l2 -> padd bp s <= x) ->
  exists l2m sz, join_up m bp (hd base l2) = Header (hd base l2m) sz /\ s <= sz /\ padd bp sz < hd hi l2m
    /\ seg m l2m base /\ spaced m l2m hi /\ (l2m = l2 \/ exists n, l2 = n :: l2m)
    /\ forall x, 0 < x.2 -> clear x (bp, s) -> (forall b, b ∈ l2 -> clear x (b, s_size (m b))) -> clear x (bp, sz).
Proof using.
  intros s Hs Hsp Hb H0 Hs0 Hhi H36 Hge. unfold join_up. fold s.
  destruct (Z.eqb_spec (padd bp s) (hd base l2)) as [E|Hne].
  - destruct l2 as [|n l2]; cbn [hd] in E |- *; [unfold padd, sizeof_Header in *; lia|].
    destruct Hs as [-> Hs]. destruct Hsp as (Hn & Hn0 & Hsp). exists l2, (s + s_size (m n)).
    assert (bend m n < hi) as Hbn by (apply (spaced_below m (n :: l2) hi); [done|by left]).
    rewrite wrapu_small by (unfold bend, padd, sizeof_Header in *; lia).
    split_and!; try done; [lia|unfold bend, padd, sizeof_Header in *; lia|right; by exists n|].
    intros x Hx H1 H2. specialize (H2 n ltac:(by left)). unfold clear, padd, sizeof_Header in *. cbn [fst snd] in *. lia.
  - exists l2, s. split_and!; try done; [|by left]. destruct l2 as [|n l2]; cbn [hd] in *; [done|].
    specialize (Hge n ltac:(by left)). lia.
Qed.

(** The previous block takes it in if they touch. *)
Lemma join_down_spec m m' l1 p bp l2 hi sz :
  let hb := Header (hd base l2) sz in
  seg m l1 p -> spaced m l1 p -> seg m l2 base -> spaced m l2 hi -> 0 <= s_size (m p) -> bend m p <= bp -> 0 < sz ->
  0 <= p -> padd bp sz < hd hi l2 -> padd bp sz < hi -> hi <= 2 ^ 36 ->
  (forall x, x ∈ l1 -> x <> p /\ x <> bp) -> (forall x, x ∈ l2 -> x <> p /\ x <> bp) -> p <> bp ->
  (forall x, m' x = if x =? p then join_down m p bp hb else if x =? bp then hb else m x) ->
  exists mid, (mid = [] \/ mid = [bp]) /\ seg m' (l1 ++ p :: mid ++ l2) base /\ spaced m' (l1 ++ p :: mid ++ l2) hi
    /\ (mid = [] -> p + s_size (m p) * 16 = bp /\ s_size (m' p) = s_size (m p) + sz) /\ (mid <> [] -> s_size (m' p) = s_size (m p))
    /\ (forall x, x ∈ l1 ++ l2 -> m' x = m x) /\ (bp ∈ mid -> s_size (m' bp) = sz).
Proof using.
  intros hb G1 S1 G2 S2 H0 Hpb Hsz Hp Hlt Hhi H36 N1 N2 Hne Hm.
  assert (forall x, x ∈ l1 ++ l2 -> m' x = m x) as Hsame.
  { intros x Hx. assert (x <> p /\ x <> bp) as [? ?] by (apply elem_of_app in Hx as [?|?]; auto). rewrite Hm. zcases; done. }
  assert (m' bp = hb) as Ebp by (rewrite Hm, Z.eqb_refl; zcases; done).
  assert (m' p = join_down m p bp hb) as Ep by (by rewrite Hm, Z.eqb_refl).
  assert (seg m' l1 p /\ spaced m' l1 p) as [G1' S1'].
  { split; [apply (seg_ext m); [|done]|apply (spaced_ext m); [|done]]; intros x Hx; apply Hsame; set_solver. }
  assert (seg m' l2 base /\ spaced m' l2 hi) as [G2' S2'].
  { split; [apply (seg_ext m); [|done]|apply (spaced_ext m); [|done]]; intros x Hx; apply Hsame; set_solver. }
  unfold join_down in Ep. destruct (Z.eqb_spec (padd p (s_size (m p))) bp) as [E|Hn].
  - cbn [hb s_ptr s_size] in Ep. rewrite wrapu_small in Ep by (unfold padd, sizeof_Header in *; lia).
    exists []. cbn [app]. split_and!; [by left| | | |done|done|by intros ?%elem_of_nil].
    + apply seg_app. split; [done|]. cbn [seg]. rewrite Ep. done.
    + apply spaced_app. split; [done|]. cbn [spaced]. unfold bend. rewrite Ep. cbn [s_size]. split_and!; [|lia|done].
      unfold padd, sizeof_Header in *. lia.
    + intros _. rewrite Ep. cbn. split; [unfold padd, sizeof_Header in E; lia|done].
  - exists [bp]. cbn [app]. split_and!; [by right| | |done| |done|].
    + apply seg_app. split; [done|]. cbn [seg hd]. rewrite Ep, Ebp. done.
    + apply spaced_app. split; [done|]. cbn [spaced hd]. unfold bend. rewrite Ep, Ebp. cbn [s_size hb].
      split_and!; try done; try lia. unfold bend, padd in *. lia.
    + intros _. by rewrite Ep.
    + intros _. by rewrite Ebp.
Qed.

Lemma clear_sym x y : clear x y -> clear y x.
Proof using. unfold clear. tauto. Qed.

(** The list after free() of [s] units at [bp]: the block, or what has become of
    it, is behind [p]. *)
Record freed_at (h : heap) (bs : list Z) (bp s : Z) (h' : heap) (l1 : list Z) (p : Z) (l2 mid l2m : list Z) (sz : Z) : Prop := {
  fa_list : base :: bs = l1 ++ p :: l2;
  fa_below : p < bp;
  fa_freep : freep h' = p;
  fa_brk : brk h' = brk h;
  fa_rest : l2m = l2 \/ exists n, l2 = n :: l2m;
  fa_mid : mid = [] \/ mid = [bp];
  fa_ring : seg (hdr h') (l1 ++ p :: mid ++ l2m) base;
  fa_order : spaced (hdr h') (l1 ++ p :: mid ++ l2m) (brk h + 1);
  fa_size : s <= sz;
  fa_joined : mid = [] -> padd p (s_size (hdr h p)) = bp /\ s_size (hdr h' p) = s_size (hdr h p) + sz;
  fa_alone : mid <> [] -> s_size (hdr h' p) = s_size (hdr h p) /\ s_size (hdr h' bp) = sz;
  fa_same : forall x, x <> p -> x <> bp -> hdr h' x = hdr h x;
  fa_clear : forall x, 0 < x.2 -> clear x (bp, s) -> (forall b, b ∈ l2 -> clear x (b, s_size (hdr h b))) -> clear x (bp, sz)
}.

Lemma free_shape h bs bp s A fuel :
  heap_inv h bs ((bp, s) :: A) -> (S (length bs) <= fuel)%nat ->
  exists h' l1 p l2 mid l2m sz, free fuel (padd bp 1) h = Ret tt h' /\ freed_at h bs bp s h' l1 p l2 mid l2m sz.
Proof using.
  intros [[B0 Bs] [Bk1 Bk2] Hr Ho Hf Hfp Ha Hc [Hap1 Hap2]] Hfu. set (m := hdr h) in *. set (hi := brk h + 1) in *.
  destruct (Ha bp s ltac:(by left)) as (A1 & A2 & A3 & A4). fold m in A4.
  assert (forall b, b ∈ bs -> padd bp s <= b \/ bend m b <= bp) as Hcl by (intros b Hb; apply (Hc (bp, s) b); [by left|done]).
  assert (base < bp) as Hbb by (unfold padd, sizeof_Header in *; lia).
  destruct (position m bp hi bs base Ho Hbb) as (l1 & p & l2 & E & Hp & Hl2).
  { intros x Hx ->. destruct (Hf bp Hx) as [_ ?]. destruct (Hcl bp Hx); unfold bend, padd, sizeof_Header in *; lia. }
  assert (p ∈ base :: bs) as Hpin by (rewrite E; set_solver).
  assert (forall x, x ∈ l2 -> x ∈ bs) as Hl2bs.
  { intros x Hx. assert (x ∈ base :: bs) as Hx' by (rewrite E; set_solver). apply elem_of_cons in Hx' as [->|]; [|done]. specialize (Hl2 base Hx). lia. }
  assert (bend m p <= bp) as Hpe.
  { apply elem_of_cons in Hpin as [->|Hpin]; [unfold bend; rewrite Bs; unfold padd; lia|].
    destruct (Hcl p Hpin); [unfold padd, sizeof_Header in *; lia|done]. }
  pose proof (free_search_run h bp l1 p l2 bs fuel E Hr Ho Hfp Hbb Hp Hl2 Hfu) as Hsr.
  pose proof Hr as Hr'. pose proof Ho as Ho'. rewrite E in Hr', Ho'. apply seg_app in Hr' as [G1 [Gp G2]]. cbn [hd] in G1.
  apply spaced_app in Ho' as [S1 (Sp & Sp0 & S2)]. cbn [hd] in S1.
  assert (forall x, x ∈ l2 -> padd bp s <= x) as Hge2.
  { intros x Hx. specialize (Hl2 x Hx). destruct (Hcl x (Hl2bs x Hx)); [done|]. destruct (Hf x (Hl2bs x Hx)) as [_ ?]. fold m in H0.
    pose proof (bend_ge m x ltac:(lia)). lia. }
  destruct (join_up_spec m bp l2 hi) as (l2m & sz & Eu & Hsz & Hend & G2m & S2m & Hl2m & Hclm); rewrite ?A4; try done; try (unfold hi; lia).
  rewrite A4 in Hsz, Hclm. assert (forall x, x ∈ l2m -> x ∈ l2) as Hsub by (destruct Hl2m as [->|(n & ->)]; [done|intros; by right]).
  assert (p <> bp) as Hpb by lia. assert (s_ptr (m p) <> bp) as Hnb.
  { rewrite Gp. destruct l2 as [|n l2']; cbn [hd]; [lia|]. specialize (Hl2 n ltac:(by left)). lia. }
  destruct (free_eval h fuel bp p Hsr Hpb Hnb) as (h' & Ef & Efp & Ebrk & Em). fold m in Em. rewrite Gp, Eu in Em.
  destruct (spaced_split m l1 p l2 hi) as [Hlt1 Hgt2]; [by apply spaced_app|].
  assert (forall x, x ∈ base :: bs -> base <= x /\ 0 <= s_size (m x) /\ bend m x < hi) as Hall.
  { intros x Hx. by destruct (spaced_below m _ hi Ho x Hx) as (? & ? & ?). }
  destruct (Hall p Hpin) as (Hpb0 & _ & Hphi).
  assert (hd hi l2m <= hi) as Hhd.
  { destruct l2m as [|n l2']; cbn [hd]; [lia|]. destruct (Hall n) as (_ & Hn0 & Hn1); [right; apply Hl2bs, Hsub; by left|]. pose proof (bend_ge m n Hn0). lia. }
  destruct (join_down_spec m (hdr h') l1 p bp l2m hi sz) as (mid & Hmid & Gn & Sn & Hm0 & Hm1 & Hsame & Hmb); try done; try (unfold hi in *; lia).
  { intros x Hx. specialize (Hlt1 x Hx). assert (0 <= s_size (m x)) by (apply Hall; rewrite E; set_solver). pose proof (bend_ge m x ltac:(done)). lia. }
  { intros x Hx. apply Hsub in Hx. specialize (Hl2 x Hx). lia. }
  exists h', l1, p, l2, mid, l2m, sz. split; [done|]. split; try done.
  - intros Hn. split; [by apply Hm1|]. apply Hmb. destruct Hmid as [->| ->]; [done|by left].
  - intros x N1 N2. rewrite Em. zcases; done.
Qed.

(** The invariant holds for the new list. *)
Lemma freed_inv h bs bp s A h' l1 p l2 mid l2m sz bs' :
  heap_inv h bs ((bp, s) :: A) -> freed_at h bs bp s h' l1 p l2 mid l2m sz -> l1 ++ p :: mid ++ l2m = base :: bs' ->
  (mid = [] -> p ∈ bs) -> p = base \/ p ∈ bs ->
  (forall b, b ∈ bs' -> b = bp /\ mid = [bp] \/ b = p /\ p ∈ bs \/ b ∈ bs /\ b <> p /\ b <> bp) ->
  (forall a t, (a, t) ∈ A -> a <> p /\ a <> bp /\ 0 < t) -> heap_inv h' bs' A.
Proof using.
  intros [[B0 Bs] Bk Hr Ho Hf Hfp Ha Hc [Hap1 Hap2]] [E Hp Efp Ebrk Hrest Hmid Gn Sn Hsz Hj Hal Hsame Hcl] EL Hmbs Hpbs Hcases HA.
  destruct (Ha bp s ltac:(by left)) as (A1 & A2 & A3 & A4). rewrite EL in Gn, Sn.
  assert (s_size (hdr h' p) = s_size (hdr h p) \/ p ∈ bs /\ padd p (s_size (hdr h p)) = bp /\ s_size (hdr h' p) = s_size (hdr h p) + sz) as Hps.
  { destruct Hmid as [->| ->]; [right; split; [auto|by apply Hj]|left; by apply Hal]. }
  assert (forall x, x ∈ A -> clear x (bp, sz)) as Hbp.
  { intros [a t] Hx. destruct (HA a t Hx) as (_ & _ & Ht). apply Hcl; [done|by apply clear_sym, Hap1|]. intros b Hb.
    assert (b ∈ base :: bs) as Hb' by (rewrite E; set_solver). apply elem_of_cons in Hb' as [->|]; [|apply Hc; [by right|done]].
    destruct (Ha a t ltac:(by right)) as (X & _). rewrite Bs. right. unfold padd, sizeof_Header in *. cbn. lia. }
  split; rewrite ?Ebrk; try done.
  - split; [done|]. destruct (decide (base = p)) as [<-|Hn].
    + destruct Hps as [->|(_ & X & _)]; [done|]. rewrite Bs in X. unfold padd, sizeof_Header in *. lia.
    + rewrite Hsame; [done|done|]. unfold padd, sizeof_Header in *. lia.
  - intros b Hb. destruct (Hcases b Hb) as [[-> Em]|[[-> Hpb]|(Hb' & N1 & N2)]].
    + split; [done|]. rewrite (proj2 (Hal ltac:(by rewrite Em))). lia.
    + destruct (Hf p Hpb) as [X1 X2]. split; [done|]. destruct Hps as [->|(_ & _ & ->)]; lia.
    + rewrite Hsame by done. auto.
  - rewrite Efp, <- EL. set_solver.
  - intros a t Hin. destruct (HA a t Hin) as (N1 & N2 & _). rewrite Hsame by done. apply Ha. by right.
  - intros x b Hx Hb. specialize (Hbp x Hx). destruct (Hcases b Hb) as [[-> Em]|[[-> Hpb]|(Hb' & N1 & N2)]].
    + by rewrite (proj2 (Hal ltac:(by rewrite Em))).
    + pose proof (Hc x p ltac:(by right) Hpb) as Hxp. destruct Hps as [->|(_ & X & ->)]; [done|].
      destruct x as [a t]. destruct (HA a t Hx) as (_ & _ & Ht). destruct (Hf p Hpb). unfold clear, padd, sizeof_Header in *. cbn [fst snd] in *. lia.
    + rewrite Hsame by done. apply Hc; [by right|done].
Qed.

(** free() puts the block back into the list. *)
Lemma free_inv h bs bp s A fuel :
  heap_inv h bs ((bp, s) :: A) -> (S (length bs) <= fuel)%nat ->
  exists h' bs', free fuel (padd bp 1) h = Ret tt h' /\ heap_inv h' bs' A /\ held_kept A h h' /\ (length bs' <= S (length bs))%nat
    /\ exists b, b ∈ bs' /\ s <= s_size (hdr h' b).
Proof using.
  intros Hi Hfu. destruct (free_shape h bs bp s A fuel Hi Hfu) as (h' & l1 & p & l2 & mid & l2m & sz & Ef & Hfa).
  pose proof Hi as Hi'. pose proof Hfa as [E Hp Efp Ebrk Hrest Hmid Gn Sn Hsz Hj Hal Hsame Hcl]. destruct Hi as [[B0 Bs] Bk Hr Ho Hf Hfp Ha Hc [Hap1 Hap2]].
  destruct (Ha bp s ltac:(by left)) as (A1 & A2 & A3 & A4). set (L := l1 ++ p :: mid ++ l2m) in *.
  assert (exists bs', L = base :: bs') as (bs' & EL) by (unfold L; destruct l1 as [|b0 l1]; injection E as <- E; eexists; reflexivity).
  assert (p = base \/ p ∈ bs) as Hpbs by (assert (p ∈ base :: bs) as Hx by (rewrite E; set_solver); by apply elem_of_cons in Hx).
  assert (mid = [] -> p ∈ bs) as Hmbs.
  { intros E0. destruct Hpbs as [->|]; [|done]. destruct (Hj E0) as [X _]. rewrite Bs in X. unfold padd, sizeof_Header in *. lia. }
  assert (forall x, x ∈ l1 ++ l2m -> x ∈ base :: bs) as Hold.
  { intros x Hx. rewrite E. destruct Hrest as [->|(n & ->)]; set_solver. }
  pose proof (spaced_nodup _ _ _ Sn) as Hnd.
  assert (bp ∉ base :: bs) as Nbp.
  { intros [->|Hx]%elem_of_cons; [unfold padd, sizeof_Header in *; lia|]. destruct (Hf bp Hx) as [_ X].
    destruct (Hc (bp, s) bp ltac:(by left) Hx); unfold padd, sizeof_Header in *; cbn in *; lia. }
  assert (forall b, b ∈ bs' -> b = bp /\ mid = [bp] \/ b = p /\ p ∈ bs \/ b ∈ bs /\ b <> p /\ b <> bp) as Hcases.
  { intros b Hb. assert (b <> base) as Nb by (rewrite EL in Hnd; apply NoDup_cons in Hnd as [Hx _]; congruence).
    assert (b ∈ L) as HbL by (rewrite EL; by right). unfold L in HbL. rewrite !elem_of_app, elem_of_cons, elem_of_app in HbL.
    destruct (decide (b = p)) as [->|Np]; [right; left; split; [done|]; by destruct Hpbs|].
    assert (b ∈ mid \/ b ∈ l1 ++ l2m) as [Hm|Ho'] by (rewrite elem_of_app; tauto).
    - left. destruct Hmid as [->| ->]; [by apply elem_of_nil in Hm|]. by apply list_elem_of_singleton in Hm.
    - right. right. apply Hold in Ho'. split_and!; [by apply elem_of_cons in Ho' as [|]|done|]. intros ->. done. }
  assert (forall a t, (a, t) ∈ A -> a <> p /\ a <> bp /\ 0 < t) as HA.
  { intros a t Hin. destruct (Ha a t ltac:(by right)) as (X1 & X2 & _). specialize (Hap1 (a, t) Hin). split_and!; [|..|done].
    - intros ->. destruct Hpbs as [->|Hx]; [unfold padd, sizeof_Header in *; lia|]. destruct (Hf p Hx) as [_ X].
      destruct (Hc (p, t) p ltac:(by right) Hx); unfold padd, sizeof_Header in *; cbn in *; lia.
    - intros ->. destruct Hap1; unfold padd, sizeof_Header in *; cbn in *; lia. }
  assert (held_kept A h h') as Hk.
  { intros a t x Hin Hx. assert ((a, t) ∈ (bp, s) :: A) as Hin' by (by right). apply Hsame.
    - apply (inside_free h bs _ a t x p Hi' Hin' Hx). rewrite E. set_solver.
    - intros ->. destruct (Hap1 (a, t) Hin); unfold padd, sizeof_Header in *; cbn in *; lia. }
  exists h', bs'. split_and!; [done| |done| |].
  - by apply (freed_inv h bs bp s A h' l1 p l2 mid l2m sz).
  - apply (f_equal length) in E, EL. unfold L in EL. rewrite !length_app in *. cbn [length] in *. rewrite length_app in EL.
    destruct Hrest as [->|(n & ->)], Hmid as [->| ->]; cbn [length] in *; lia.
  - destruct Hmid as [E0|E1].
    + exists p. destruct (Hj E0) as [_ ->]. destruct (Hf p (Hmbs E0)) as [_ ?]. split; [|lia]. assert (p ∈ L) as Hx by (unfold L; set_solver).
      rewrite EL in Hx. apply elem_of_cons in Hx as [->|]; [|done]. destruct (Hf base (Hmbs E0)). unfold padd, sizeof_Header in *. lia.
    + exists bp. assert (mid <> []) as Hn by (by rewrite E1). rewrite (proj2 (Hal Hn)). split; [|done].
      assert (bp ∈ L) as Hx by (unfold L; rewrite E1; set_solver). rewrite EL in Hx. apply elem_of_cons in Hx as [->|]; [|done].
      unfold padd, sizeof_Header in *. lia.
Qed.

(** ** Taking a block *)

(** The block [x] behind [prevp] has at least [n] units. *)
Definition take_block (n prevp x : Z) : HM Z :=
  psize ← size x;
  p ← (if psize =? n then
         next ← ptr x;
         set_ptr prevp next;;
         mret x
       else
         set_size x (u32 (psize - n));;
         psize ← size x;
         let p := padd x psize in
         set_size p n;;
         mret p);
  set_freep prevp;;
  mret (padd p 1).

Lemma take_exact h bs A prevp x :
  heap_inv h bs A -> x ∈ bs -> prevp ∈ base :: bs -> s_ptr (hdr h prevp) = x ->
  let n := s_size (hdr h x) in
  exists h' bs', take_block n prevp x h = Ret (padd x 1) h' /\ heap_inv h' bs' ((x, n) :: A) /\ held_kept A h h' /\ (length bs' <= length bs)%nat.
Proof using.
  intros Hi. pose proof Hi as Hi'. revert Hi. intros [[B0 Bs] Bk Hr Ho Hf Hfp Ha Hc Hap] Hx Hpr Hpx n. set (m := hdr h) in *.
  destruct (Hf x Hx) as [X1 X2]. fold m n in X2. assert (x <> base) as Nx by (unfold padd, sizeof_Header in *; lia).
  apply list_elem_of_split in Hpr as (l1 & l2x & E). rewrite E in Hr, Ho. pose proof Hr as [G1 [Gp G2]]%seg_app. rewrite Hpx in Gp.
  destruct l2x as [|x' l2]; cbn [hd] in Gp; [congruence|]. subst x'. destruct G2 as [Gx G2].
  pose proof Ho as [S1 (Sp & Sp0 & Sx & Sx0 & S2)]%spaced_app. cbn [hd] in *.
  destruct (spaced_split m (l1 ++ [prevp]) x l2 (brk h + 1)) as [Hlt Hgt]; [by rewrite <- app_assoc|].
  pose proof (spaced_nodup _ _ _ Ho) as Hnd. apply NoDup_app in Hnd as (_ & N1 & [N2 [N3 _]%NoDup_cons]%NoDup_cons).
  assert (prevp ∉ l1) as N0 by (intros Hi; apply (N1 _ Hi); by left).
  exists (set_hdr prevp (fun r => Header (s_ptr (m x)) (s_size r)) (Heap m prevp (brk h))).
  assert (exists bs', l1 ++ prevp :: l2 = base :: bs') as (bs' & EL) by (destruct l1 as [|b0 l1]; injection E as <- E; eexists; reflexivity).
  exists bs'. set (h' := set_hdr _ _ _). assert (forall a, a <> prevp -> hdr h' a = m a) as Hsame by (intros a Hne; cbn; zcases; done).
  assert (hdr h' prevp = Header (s_ptr (m x)) (s_size (m prevp))) as Ep by (cbn; by rewrite Z.eqb_refl).
  assert (forall a, s_size (hdr h' a) = s_size (m a)) as Hsz.
  { intros a. destruct (decide (a = prevp)) as [->|]; [by rewrite Ep|by rewrite Hsame]. }
  assert (spaced (hdr h') (base :: bs') (brk h + 1)) as So.
  { rewrite <- EL. apply spaced_app. split; [apply (spaced_ext m); [|done]; intros a Hi; apply Hsame; congruence|]. cbn [spaced]. unfold bend. rewrite Ep.
    cbn [s_size]. split_and!; [|done|apply (spaced_ext m); [|done]; intros a Hi; apply Hsame; intros ->; apply N2; by right].
    pose proof (bend_ge m x ltac:(lia)). unfold bend in *. lia. }
  assert (forall b, b ∈ bs' -> b ∈ bs /\ (b ∈ l1 ++ [prevp] \/ b ∈ l2)) as Hsub.
  { intros b Hb. apply spaced_nodup in So. apply NoDup_cons in So as [Nb _]. assert (b ∈ base :: bs') as Hb' by (by right).
    rewrite <- EL in Hb'. split; [|set_solver]. assert (b ∈ base :: bs) as Hx' by (rewrite E; set_solver). apply elem_of_cons in Hx' as [->|]; done. }
  split_and!; [|split|..].
  - unfold take_block, size, ptr, set_ptr, set_freep, mbind, M_bind, mret, M_ret, gets, modify. cbn [obind]. fold m n. rewrite Z.eqb_refl. done.
  - split; [done|]. by rewrite Hsz.
  - done.
  - rewrite <- EL. apply seg_app. split; [apply (seg_ext m); [|done]; intros a Hi; apply Hsame; congruence|]. cbn [seg]. rewrite Ep, Gx.
    split; [done|]. apply (seg_ext m); [|done]. intros a Hi. apply Hsame. intros ->. apply N2. by right.
  - exact So.
  - intros b Hb. rewrite Hsz. apply Hf, Hsub, Hb.
  - cbn. rewrite <- EL. set_solver.
  - intros a t [[= -> ->]|Hin]%elem_of_cons; rewrite Hsz; [|by apply Ha]. split_and!; [done|done| |done].
    destruct (spaced_below m _ _ Ho x ltac:(set_solver)) as [Hb _]. unfold bend in Hb. fold n in Hb. cbn. lia.
  - intros y b Hy Hb. rewrite Hsz. destruct (Hsub b Hb) as [Hbs Hpos]. apply elem_of_cons in Hy as [->|Hy]; [|by apply Hc].
    destruct Hpos as [Hb1|Hb2]; [right; specialize (Hlt b Hb1)|left; specialize (Hgt b Hb2); unfold bend in Hgt; fold n in Hgt]; unfold bend in *; cbn; lia.
  - split; [|done]. intros y Hy. by apply clear_sym, Hc.
  - intros a t z Hin Hz. apply Hsame. apply (inside_free h bs A a t z prevp Hi' Hin Hz). rewrite E. set_solver.
  - apply (f_equal length) in E, EL. rewrite !length_app in *. cbn [length] in *. lia.
Qed.

Lemma take_tail_inv h bs A prevp x n h' :
  let m := hdr h in
  let y := padd x (s_size (m x) - n) in
  heap_inv h bs A -> x ∈ bs -> prevp ∈ base :: bs -> 0 < n < s_size (m x) ->
  (forall b, b ∈ base :: bs -> b <> x -> bend m b < x \/ bend m x < b) -> (forall b, b ∈ base :: bs -> b <> y) ->
  freep h' = prevp -> brk h' = brk h -> hdr h' x = Header (s_ptr (m x)) (s_size (m x) - n) ->
  (forall b, b <> x -> b <> y -> hdr h' b = m b) -> s_size (hdr h' y) = n -> heap_inv h' bs ((y, n) :: A).
Proof using.
  intros m y [[B0 Bs] Bk Hr Ho Hf Hfp Ha Hc Hap] Hx Hpr Hn Hsep Hny E1 E2 Ex Hsame Ey. fold m in Bs, Hr, Ho, Hf, Ha, Hc.
  destruct (Hf x Hx) as [X1 X2]. destruct (spaced_below m _ _ Ho x ltac:(by right)) as [Xe _]. unfold bend in Xe.
  assert (x <> base) as Nxb by (unfold padd, sizeof_Header in *; lia).
  assert (forall a t, (a, t) ∈ A -> a <> x /\ a <> y /\ 0 < t) as HA.
  { intros a t Hin. destruct (Ha a t Hin) as (_ & Ht & _). pose proof (Hc (a, t) x Hin Hx) as Hcl. unfold clear, y, padd, sizeof_Header in *. cbn in Hcl. lia. }
  split; rewrite ?E1, ?E2; try done.
  - split; [done|]. rewrite Hsame; [done|congruence|]. apply Hny. by left.
  - apply (seg_ptr m); [|done]. intros a Hi. destruct (decide (a = x)) as [->|]; [by rewrite Ex|]. rewrite Hsame by (auto). done.
  - apply (spaced_le m); [|done]. intros a Hi. destruct (spaced_below m _ _ Ho a Hi) as (_ & H0 & _).
    destruct (decide (a = x)) as [->|]; [rewrite Ex; cbn; lia|]. rewrite Hsame by auto. lia.
  - intros b Hb. destruct (Hf b Hb) as [F1 F2]. split; [done|]. destruct (decide (b = x)) as [->|]; [rewrite Ex; cbn; lia|].
    rewrite Hsame; [done|done|]. apply Hny. by right.
  - intros a t [[= -> ->]|Hin]%elem_of_cons.
    + rewrite Ey. split_and!; [unfold y, padd, sizeof_Header in *; lia|lia| |done]. unfold y, padd, sizeof_Header in *. lia.
    + destruct (HA a t Hin) as (N1 & N2 & _). rewrite Hsame by done. by apply Ha.
  - intros z b Hz Hb. assert (b ∈ base :: bs) as Hb' by (by right). apply elem_of_cons in Hz as [->|Hz].
    + destruct (decide (b = x)) as [->|Hne]; [rewrite Ex; right; unfold y, padd; cbn; lia|]. rewrite Hsame by auto.
      destruct (Hsep b Hb' Hne); [right|left]; unfold y, bend, padd, sizeof_Header in *; cbn; lia.
    + pose proof (Hc z b Hz Hb) as Hcl. destruct (decide (b = x)) as [->|Hne]; [|by rewrite Hsame by auto].
      rewrite Ex. cbn. unfold clear, padd, sizeof_Header in *. cbn in *. lia.
  - split; [|done]. intros z Hz. pose proof (Hc z x Hz Hx) as Hcl. destruct z as [a t]. destruct (HA a t Hz) as (_ & _ & Ht).
    unfold clear, y, padd, sizeof_Header in *. cbn in *. lia.
Qed.

(** The tail of a larger block is handed out. *)
Lemma take_tail h bs A prevp x n :
  heap_inv h bs A -> x ∈ bs -> prevp ∈ base :: bs -> 0 < n < s_size (hdr h x) ->
  let y := padd x (s_size (hdr h x) - n) in
  exists h', take_block n prevp x h = Ret (padd y 1) h' /\ heap_inv h' bs ((y, n) :: A) /\ held_kept A h h'.
Proof using.
  intros Hi. pose proof Hi as Hi'. revert Hi. intros [[B0 Bs] Bk Hr Ho Hf Hfp Ha Hc Hap] Hx Hpr Hn y. set (m := hdr h) in *. destruct (Hf x Hx) as [X1 X2]. fold m in X2.
  destruct (spaced_below m _ _ Ho x ltac:(by right)) as [Xe _]. unfold bend in Xe.
  assert (forall b, b ∈ base :: bs -> b <> x -> bend m b < x \/ bend m x < b) as Hsep.
  { intros b Hb Hne. assert (x ∈ base :: bs) as Hx' by (by right). apply list_elem_of_split in Hx' as (l1 & l2 & E). rewrite E in Ho, Hb.
    destruct (spaced_split m l1 x l2 _ Ho) as [Hlt Hgt]. apply elem_of_app in Hb as [Hb|[->|Hb]%elem_of_cons]; [left; auto|done|right; auto]. }
  assert (forall b, b ∈ base :: bs -> b <> y) as Hny.
  { intros b Hb ->. destruct (decide (y = x)) as [Exy|Hne]; [unfold y, padd, sizeof_Header in *; lia|]. destruct (Hsep y Hb Hne) as [Hs|Hs];
      destruct (spaced_below m _ _ Ho y Hb) as (_ & H0 & _); pose proof (bend_ge m y H0); unfold y, bend, padd, sizeof_Header in *; lia. }
  assert (x <> y) as Nxy by (apply Hny; by right).
  assert (exists h', take_block n prevp x h = Ret (padd y 1) h' /\ freep h' = prevp /\ brk h' = brk h /\ forall a, hdr h' a =
    if a =? y then Header (s_ptr (m a)) n else if a =? x then Header (s_ptr (m a)) (s_size (m x) - n) else m a) as (h' & Et & E1 & E2 & E3).
  { unfold take_block, size, set_size, set_freep, set_hdr, mbind, M_bind, mret, M_ret, gets, modify. cbn [obind]. fold m.
    rewrite (proj2 (Z.eqb_neq (s_size (m x)) n)) by lia. cbn [obind hdr freep brk]. fold m. rewrite Z.eqb_refl. cbn [s_size].
    rewrite wrapu_small by (unfold padd, sizeof_Header in *; lia). fold y. eexists. split; [done|]. split_and!; [done..|].
    intros a. cbn [hdr]. fold m. destruct (Z.eqb_spec a y) as [->|]; [|done]. by rewrite (proj2 (Z.eqb_neq y x)) by done. }
  assert (hdr h' x = Header (s_ptr (m x)) (s_size (m x) - n)) as Ex by (rewrite E3, Z.eqb_refl; zcases; done).
  assert (forall b, b <> x -> b <> y -> hdr h' b = m b) as Hsame by (intros b N1 N2; rewrite E3; zcases; done).
  assert (s_size (hdr h' y) = n) as Ey by (by rewrite E3, Z.eqb_refl).
  exists h'. split_and!; [done|apply (take_tail_inv h bs A prevp x n h'); done|]. intros a t z Hin Hz.
  destruct (inside_free h bs A a t z x Hi' Hin Hz ltac:(by right)) as [N1 N2]. specialize (N2 Hx).
  apply Hsame; [done|]. intros ->. unfold y, bend, padd, sizeof_Header in *. fold m in N2. lia.
Qed.

(** A block that is large enough is handed out, whole or its tail. *)
Lemma take_inv h bs A prevp x n :
  heap_inv h bs A -> x ∈ base :: bs -> prevp ∈ base :: bs -> s_ptr (hdr h prevp) = x -> 0 < n <= s_size (hdr h x) ->
  exists y h' bs', take_block n prevp x h = Ret (padd y 1) h' /\ heap_inv h' bs' ((y, n) :: A) /\ held_kept A h h' /\ (length bs' <= length bs)%nat.
Proof using.
  intros Hi Hx Hp Hpx Hn. assert (x ∈ bs) as Hx'.
  { apply elem_of_cons in Hx as [->|]; [|done]. destruct Hi as [[_ Bs] _ _ _ _ _ _ _ _]. lia. }
  destruct (decide (s_size (hdr h x) = n)) as [<-|Hne].
  - destruct (take_exact h bs A prevp x Hi Hx' Hp Hpx) as (h' & bs' & E & H & Hk & Hl). by exists x, h', bs'.
  - destruct (take_tail h bs A prevp x n Hi Hx' Hp ltac:(lia)) as (h' & E & H & Hk). by eexists _, h', bs.
Qed.

(** The blocks handed out can be listed in any order. *)
Lemma apart_perm A A' : A ≡ₚ A' -> apart A -> apart A'.
Proof using.
  induction 1 as [|x l l' Hp IH|x y l|l l' l'' _ IH1 _ IH2]; cbn; [done|..|by auto].
  - intros [H1 H2]. split; [|auto]. intros z Hz. apply H1. by rewrite Hp.
  - intros (H1 & H2 & H3). split_and!; [|..|done].
    + intros z [->|Hz]%elem_of_cons; [apply clear_sym, H1; by left|by apply H2].
    + intros z Hz. apply H1. by right.
Qed.

Lemma heap_inv_perm h bs A A' : A ≡ₚ A' -> heap_inv h bs A -> heap_inv h bs A'.
Proof using.
  intros Hp [H1 H2 H3 H4 H5 H6 H7 H8 H9]. split; try done.
  - intros a s Hin. apply H7. by rewrite Hp.
  - intros x b Hin. apply H8. by rewrite Hp.
  - by apply (apart_perm A).
Qed.

(** The owner of a block writes past its header. *)
Lemma write_inv h bs A a s x f : heap_inv h bs A -> (a, s) ∈ A -> a < x < padd a s -> heap_inv (set_hdr x f h) bs A.
Proof using.
  intros Hi Hin Hx. assert (forall b, b ∈ base :: bs -> hdr (set_hdr x f h) b = hdr h b) as Hb.
  { intros b Hb. destruct (inside_free h bs A a s x b Hi Hin Hx Hb) as [Hne _]. cbn. zcases; done. }
  assert (forall a' s', (a', s') ∈ A -> a' <> x) as Ha.
  { intros a' s' Hin' ->. pose proof (hi_apart _ _ _ Hi) as Hap. destruct (hi_alloc _ _ _ Hi x s' Hin') as (_ & Hs' & _).
    apply list_elem_of_split in Hin as (A1 & A2 & ->). apply (apart_perm _ ((a, s) :: A1 ++ A2)) in Hap as [Hap _]; [|by rewrite Permutation_middle].
    assert ((x, s') ∈ A1 ++ A2) as Hin by (apply elem_of_app in Hin' as [?|[[= -> ->]|?]%elem_of_cons]; [set_solver|lia|set_solver]).
    destruct (Hap _ Hin); unfold padd, sizeof_Header in *; cbn in *; lia. }
  pose proof Hi as [H1 H2 H3 H4 H5 H6 H7 H8 H9]. split; try done.
  - by rewrite Hb by (by left).
  - by apply (seg_ext (hdr h)).
  - by apply (spaced_ext (hdr h)).
  - intros b Hin'. rewrite Hb by (by right). auto.
  - intros a' s' Hin'. destruct (H7 a' s' Hin') as (?&?&?&?). split_and!; [done..|]. cbn. specialize (Ha a' s' Hin'). zcases; done.
  - intros y b Hy Hin'. rewrite Hb by (by right). auto.
Qed.

(** The heap before the first call of malloc(). *)
Definition fresh (h : heap) : Prop := freep h = 0 /\ 0 < base /\ padd base 1 <= brk h < 2 ^ 36.

(** [bs] are the free blocks and [A] the blocks handed out, also before the first call. *)
Definition heap_ok (h : heap) (bs : list Z) (A : list (Z * Z)) : Prop :=
  fresh h /\ bs = [] /\ A = [] \/ heap_inv h bs A.

(** malloc() fails, or hands out a block of [n] units next to those of [A]. *)
Definition handed (n : Z) (A : list (Z * Z)) (h h' : heap) (bs' : list Z) (p : Z) : Prop :=
  (p = 0 /\ heap_inv h' bs' A \/ exists y, p = padd y 1 /\ heap_inv h' bs' ((y, n) :: A)) /\ held_kept A h h'.

Lemma take_run h bs A prev x n : heap_inv h bs A -> 0 < n -> x ∈ base :: bs -> prev ∈ base :: bs -> s_ptr (hdr h prev) = x -> n <= s_size (hdr h x) ->
  exists p h' bs', take_block n prev x h = Ret p h' /\ handed n A h h' bs' p /\ (length bs' <= length bs)%nat.
Proof using.
  intros Hi Hn Hx Hp Hpx Hsz. destruct (take_inv h bs A prev x n Hi Hx Hp Hpx ltac:(lia)) as (y & h' & bs' & Et & Hi' & Hk & Hl).
  exists (padd y 1), h', bs'. split_and!; [done| |done]. split; [|done]. right. by exists y.
Qed.

(** The first call makes the list of the static header. *)
Lemma first_inv h : fresh h -> heap_inv (set_hdr base (fun r => Header (s_ptr r) 0) (set_hdr base (fun r => Header base (s_size r)) (Heap (hdr h) base (brk h)))) [] [].
Proof using.
  intros (_ & B0 & Bk). set (h' := set_hdr _ _ _). assert (hdr h' base = Header base 0) as Eb by (cbn; rewrite !Z.eqb_refl; cbn; by rewrite ?Z.eqb_refl).
  split; rewrite ?Eb; cbn [seg spaced s_size s_ptr hd apart]; rewrite ?Eb; try done.
  - unfold bend. rewrite Eb. cbn. unfold padd, sizeof_Header in *. cbn. split_and!; [lia|done|done].
  - by intros b ?%elem_of_nil.
  - by left.
  - by intros a s ?%elem_of_nil.
  - by intros x b _ ?%elem_of_nil.
Qed.

Lemma freep_nonzero h bs A : heap_inv h bs A -> freep h <> 0.
Proof using.
  intros [[B0 _] _ _ _ F1 F2 _ _ _]. apply elem_of_cons in F2 as [->|F2]; [lia|]. destruct (F1 _ F2). unfold padd, sizeof_Header in *. lia.
Qed.

Lemma nunits_of_spec nbytes : 0 <= nbytes < 2 ^ 31 - 64 ->
  let n := nunits_of nbytes in 0 < n /\ n * 16 < 2 ^ 31 /\ nbytes <= (n - 1) * 16 < nbytes + 16.
Proof using.
  intros Hb n. unfold n, nunits_of, sizeof_Header. pose proof (Z.div_mod (nbytes + 16 - 1) 16 ltac:(lia)).
  pose proof (Z.mod_pos_bound (nbytes + 16 - 1) 16 ltac:(lia)). rewrite wrapu_small by lia. lia.
Qed.

Context {G : Grow}.

Definition more (fuel : nat) (n : Z) : HM Z :=
  p ← morecore fuel n;
  if p =? 0 then mret 0 else next ← ptr p; malloc_loop fuel n p next.

Lemma malloc_step fuel n prevp p h :
  malloc_loop (S fuel) n prevp p h =
    if n <=? s_size (hdr h p) then take_block n prevp p h
    else if p =? freep h then more fuel n h
    else malloc_loop fuel n p (s_ptr (hdr h p)) h.
Proof using.
  cbn [malloc_loop]. unfold take_block, more. rewrite (bind_Ret (size p) _ _ _ _ eq_refl).
  destruct (n <=? s_size (hdr h p)); [by rewrite (bind_Ret (size p) _ _ _ _ eq_refl)|].
  rewrite (bind_Ret get_freep _ _ _ _ eq_refl). destruct (p =? freep h); [done|].
  by rewrite (bind_Ret (ptr p) _ _ _ _ eq_refl).
Qed.

(** malloc() takes the first block that is large enough, or finds none in the
    whole list. *)
Lemma malloc_walk n h k : forall w prevp, freep h ∉ w -> seg (hdr h) (prevp :: w) (freep h) ->
  (exists x prev, x ∈ w ++ [freep h] /\ n <= s_size (hdr h x) /\ s_ptr (hdr h prev) = x /\ prev ∈ prevp :: w
     /\ malloc_loop (length w + S k) n prevp (hd (freep h) w) h = take_block n prev x h)
  \/ ((forall x, x ∈ w ++ [freep h] -> s_size (hdr h x) < n) /\ malloc_loop (length w + S k) n prevp (hd (freep h) w) h = more k n h).
Proof using.
  induction w as [|x w IH]; intros prevp Hf [Hp Hs]; cbn [length Nat.add hd] in *.
  - rewrite malloc_step. destruct (Z.leb_spec n (s_size (hdr h (freep h)))).
    + left. exists (freep h), prevp. split_and!; [by left|done|done|by left|done].
    + right. rewrite Z.eqb_refl. split; [|done]. intros x ->%list_elem_of_singleton. lia.
  - rewrite malloc_step. destruct (Z.leb_spec n (s_size (hdr h x))).
    + left. exists x, prevp. split_and!; [by left|done|done|by left|done].
    + rewrite (proj2 (Z.eqb_neq x (freep h))) by set_solver. pose proof Hs as [Hx _]. rewrite Hx.
      destruct (IH x ltac:(set_solver) Hs) as [(z & prev & H1 & H2 & H3 & H4 & H5)|[H1 H2]].
      * left. exists z, prev. split_and!; [by right|done|done|by right|done].
      * right. split; [|done]. intros z [->|Hz]%elem_of_cons; [done|auto].
Qed.

(** The list seen from [freep]. *)
Lemma rotate h bs A : heap_inv h bs A ->
  exists w, (freep h ∉ w) /\ seg (hdr h) (freep h :: w) (freep h) /\ length w = length bs /\ forall x, x ∈ (freep h :: w) <-> x ∈ (base :: bs).
Proof using.
  intros [_ _ Hr Ho _ Hfp _ _ _]. apply list_elem_of_split in Hfp as (a1 & a2 & E). exists (a2 ++ a1). rewrite E in Hr, Ho.
  apply seg_app in Hr as [G1 G2]. cbn [hd] in G1. pose proof (spaced_nodup _ _ _ Ho) as Hnd. apply NoDup_app in Hnd as (_ & N1 & [N2 _]%NoDup_cons).
  assert (length (a2 ++ a1) = length bs) as Hl.
  { apply (f_equal length) in E. rewrite length_app in *. cbn in E. lia. }
  split_and!; [|..|done|].
  - intros [Hx|Hx]%elem_of_app; [done|]. apply (N1 _ Hx). by left.
  - rewrite app_comm_cons. apply seg_app. split; [|done]. destruct a1 as [|b0 a1].
    + cbn [app] in E. injection E as Eb _. cbn [hd]. by rewrite <- Eb at 2.
    + injection E as <- _. done.
  - intros x. rewrite E. set_solver.
Qed.

(** The kernel keeps the heap below the limit of 32-bit sizes. *)
Context (Hgrow : forall b n, grow b n = true -> b + n < 2 ^ 36).

(** The heap after sbrk() has added [nu] units. *)
Lemma grown_inv h bs A nu :
  heap_inv h bs A -> 0 < nu -> padd (brk h) nu < 2 ^ 36 ->
  let h' := set_hdr (brk h) (fun r => Header (s_ptr r) nu) (Heap (hdr h) (freep h) (padd (brk h) nu)) in
  heap_inv h' bs ((brk h, nu) :: A) /\ held_kept A h h'.
Proof using.
  intros [[B0 Bs] Bk Hr Ho Hf Hfp Ha Hc Hap] Hnu Hlim h'. set (m := hdr h) in *. set (old := brk h) in *.
  assert (forall x, x <> old -> hdr h' x = m x) as Hsame by (intros x Hne; cbn; zcases; done).
  assert (forall x, x ∈ base :: bs -> bend m x <= old /\ x <= bend m x) as Hend.
  { intros x Hx. destruct (spaced_below m _ _ Ho x Hx) as (Hb & H0 & _). apply bend_ge in H0. lia. }
  assert (forall x, x ∈ base :: bs -> x <> old) as Hno.
  { intros x Hx ->. apply elem_of_cons in Hx as [Eb|Hx]; [unfold padd, sizeof_Header in *; lia|]. destruct (Hf old Hx) as [_ H0]. fold m in H0.
    destruct (Hend old ltac:(by right)). unfold bend, padd, sizeof_Header in *. lia. }
  split; [|intros a t x Hin Hx; apply Hsame; destruct (Ha a t Hin) as (_ & _ & H3 & _); fold old in H3; lia].
  split; cbn [brk h' set_hdr freep]; try done.
  - split; [done|]. rewrite Hsame; [done|]. apply Hno. by left.
  - unfold padd, sizeof_Header in *. lia.
  - apply (seg_ext m); [|done]. intros a Hi. apply Hsame. auto.
  - apply (spaced_ext m); [intros a Hi; apply Hsame; auto|]. eapply spaced_hi; [|exact Ho]. unfold padd, sizeof_Header. fold old. lia.
  - intros b Hb. rewrite Hsame by (apply Hno; by right). auto.
  - intros a t [[= -> ->]|Hin]%elem_of_cons.
    + split_and!; [unfold padd, sizeof_Header in *; lia|done|done|]. cbn. by rewrite Z.eqb_refl.
    + destruct (Ha a t Hin) as (H1 & H2 & H3 & H4). rewrite Hsame; [|unfold padd, sizeof_Header in *; lia].
      split_and!; [done|done| |done]. unfold padd, sizeof_Header in *. fold old in H3. lia.
  - intros x b Hx Hb. rewrite Hsame by (apply Hno; by right). apply elem_of_cons in Hx as [->|Hx]; [|by apply Hc].
    right. apply (Hend b). by right.
  - split; [|done]. intros [a t] Hin. right. destruct (Ha a t Hin) as (_ & _ & H3 & _). done.
Qed.

Lemma morecore_run h bs A n fuel :
  heap_inv h bs A -> 0 < n -> n * 16 < 2 ^ 31 -> (S (length bs) <= fuel)%nat ->
  morecore fuel n h = Ret 0 h \/
  exists h' bs', morecore fuel n h = Ret (freep h') h' /\ heap_inv h' bs' A /\ held_kept A h h' /\ (length bs' <= S (length bs))%nat /\ exists b, b ∈ bs' /\ n <= s_size (hdr h' b).
Proof using Hgrow.
  intros Hi Hn Hlim Hfu. set (nu := if n <? 4096 then 4096 else n).
  assert (0 < nu /\ n <= nu /\ nu * 16 < 2 ^ 31) as (Hnu & Hle & Hlim') by (unfold nu; zcases; lia).
  unfold morecore. fold nu. assert (s32 (nu * sizeof_Header) = nu * 16) as -> by (unfold sizeof_Header; apply wraps_small; lia).
  unfold sbrk. destruct (grow (brk h) (nu * 16)) eqn:Eg.
  2: { left. unfold mbind, M_bind, gets, mret, M_ret. cbn [obind]. rewrite Eg. cbn [obind]. by rewrite Z.eqb_refl. }
  right. apply Hgrow in Eg as Hlt. destruct (grown_inv h bs A nu Hi Hnu Hlt) as [Hi1 Hk1]. set (h1 := set_hdr _ _ _) in Hi1, Hk1.
  destruct (free_inv h1 bs (brk h) nu A fuel Hi1 Hfu) as (h' & bs' & Ef & Hi' & Hk & Hl & b & Hb & Hsz).
  exists h', bs'. split_and!; [|done|by apply (held_kept_trans A h h1)|done|exists b; split; [done|lia]].
  assert (brk h < 2 ^ 36) as Hb36 by (destruct Hi as [_ [_ ?] _ _ _ _ _ _ _]; done).
  unfold mbind, M_bind, gets, mret, M_ret, modify, set_size, modify. cbn [obind]. rewrite Eg. cbn [obind].
  rewrite (proj2 (Z.eqb_neq (brk h) (2 ^ 64 - 1))) by lia. cbn [obind]. change (set_hdr (brk h) _ _) with h1. rewrite Ef. done.
Qed.

(** ** malloc() *)

Lemma malloc_loop_run h bs A n fuel :
  heap_inv h bs A -> 0 < n -> n * 16 < 2 ^ 31 -> (2 * length bs + 3 <= fuel)%nat ->
  exists p h' bs', malloc_loop fuel n (freep h) (s_ptr (hdr h (freep h))) h = Ret p h' /\ handed n A h h' bs' p /\ (length bs' <= S (length bs))%nat.
Proof using Hgrow.
  intros Hi Hn Hlim Hfu. destruct (rotate h bs A Hi) as (w & Nw & Hs & Hl & Hin). pose proof Hs as [Hf _].
  set (k := (fuel - S (length w))%nat). replace fuel with (length w + S k)%nat by (unfold k; lia). rewrite Hf.
  destruct (malloc_walk n h k w (freep h) Nw Hs) as [(x & prev & Hx & Hsz & Hpx & Hp & ->)|[_ ->]].
  { destruct (take_run h bs A prev x n) as (p & h' & bs' & Et & Hh & Hl'); [done|done|apply Hin; set_solver|by apply Hin|done|done|].
    exists p, h', bs'. split_and!; [done|done|lia]. }
  unfold more. destruct (morecore_run h bs A n k Hi Hn Hlim ltac:(unfold k; lia)) as [Em|(h1 & bs1 & Em & Hi1 & Hk1 & Hl1 & b & Hb & Hbs)];
    rewrite (bind_Ret _ _ _ _ _ Em).
  { rewrite Z.eqb_refl. exists 0, h, bs. split_and!; [done| |lia]. split; [left; done|done]. }
  rewrite (proj2 (Z.eqb_neq _ _) (freep_nonzero _ _ _ Hi1)), (bind_Ret (ptr (freep h1)) _ _ _ _ eq_refl).
  destruct (rotate h1 bs1 A Hi1) as (w1 & Nw1 & Hs1 & Hlw1 & Hin1). pose proof Hs1 as [Hf1 _]. rewrite Hf1.
  set (k1 := (k - S (length w1))%nat). replace k with (length w1 + S k1)%nat by (unfold k1, k; lia).
  destruct (malloc_walk n h1 k1 w1 (freep h1) Nw1 Hs1) as [(x & prev & Hx & Hsz & Hpx & Hp & ->)|[Hno _]].
  - destruct (take_run h1 bs1 A prev x n) as (p & h' & bs' & Et & [Hh Hk] & Hl'); [done|done|apply Hin1; set_solver|by apply Hin1|done|done|].
    exists p, h', bs'. split_and!; [done| |lia]. split; [done|]. by apply (held_kept_trans A h h1).
  - exfalso. assert (b ∈ w1 ++ [freep h1]) as Hb' by (assert (b ∈ freep h1 :: w1) by (apply Hin1; by right); set_solver). specialize (Hno b Hb'). lia.
Qed.

Lemma malloc_run h bs A nbytes fuel :
  heap_ok h bs A -> 0 <= nbytes < 2 ^ 31 - 64 -> (2 * length bs + 3 <= fuel)%nat ->
  exists p h' bs', malloc fuel nbytes h = Ret p h' /\ handed (nunits_of nbytes) A h h' bs' p /\ (length bs' <= S (length bs))%nat.
Proof using Hgrow.
  intros Hok Hb Hfu. destruct (nunits_of_spec nbytes Hb) as (Hn & Hlim & _). unfold malloc.
  rewrite (bind_Ret get_freep _ _ _ _ eq_refl). destruct Hok as [(Hf & -> & ->)|Hi].
  - pose proof (first_inv h Hf) as Hi. set (h1 := set_hdr base _ _) in Hi. assert (freep h = 0) as -> by apply Hf.
    match goal with |- context [mbind _ ?m h] => assert (m h = Ret base h1) as E1 by done end. rewrite (bind_Ret _ _ _ _ _ E1), (bind_Ret (ptr base) _ _ _ _ eq_refl).
    destruct (malloc_loop_run h1 [] [] (nunits_of nbytes) fuel Hi Hn Hlim Hfu) as (p & h' & bs' & E & [Hh _] & Hl).
    exists p, h', bs'. split_and!; [exact E| |done]. split; [done|]. by intros a s x ?%elem_of_nil.
  - rewrite (proj2 (Z.eqb_neq _ _) (freep_nonzero _ _ _ Hi)).
    rewrite (bind_Ret (mret (freep h)) _ _ _ _ eq_refl), (bind_Ret (ptr (freep h)) _ _ _ _ eq_refl). by apply malloc_loop_run.
Qed.
End Inv.

(** ** A program that uses the heap *)

Inductive request : Type :=
| Malloc (nbytes : Z)
| Free (i : nat)
| Store (i : nat) (x : Z) (r : header).

Section Client.
Context {St : Static} {G : Grow}.

(** [A] are the blocks the program holds.  It stores only past their headers. *)
Definition serve (fuel : nat) (r : request) (A : list (Z * Z)) : HM (list (Z * Z)) :=
  match r with
  | Malloc nbytes =>
      p ← malloc fuel nbytes;
      mret (if p =? 0 then A else (padd p (-1), nunits_of nbytes) :: A)
  | Free i =>
      match A !! i with
      | Some (a, _) => free fuel (padd a 1);; mret (delete i A)
      | None => mret A
      end
  | Store i x v =>
      match A !! i with
      | Some (a, s) => when ((a <? x) && (x <? padd a s)) (modify (set_hdr x (fun _ => v)));; mret A
      | None => mret A
      end
  end.

Fixpoint serve_all (fuel : nat) (rs : list request) (A : list (Z * Z)) : HM (list (Z * Z)) :=
  match rs with
  | [] => mret A
  | r :: rs' => A' ← serve fuel r A; serve_all fuel rs' A'
  end.

Definition reasonable (r : request) : Prop := match r with Malloc n => 0 <= n < 2 ^ 31 - 64 | _ => True end.

Context (Hgrow : forall b n, grow b n = true -> b + n < 2 ^ 36).

Lemma padd_back y : padd (padd y 1) (-1) = y.
Proof using. unfold padd, sizeof_Header. lia. Qed.

Lemma handed_list n A h h' bs' p : handed n A h h' bs' p -> heap_inv h' bs' (if p =? 0 then A else (padd p (-1), n) :: A).
Proof using.
  intros [[[-> Hi]|(y & -> & Hi)] _]; [by rewrite Z.eqb_refl|]. rewrite padd_back.
  destruct (hi_alloc _ _ _ Hi y n ltac:(by left)) as (H1 & _). destruct (hi_base _ _ _ Hi) as [H0 _].
  rewrite (proj2 (Z.eqb_neq _ _)); [done|]. unfold padd, sizeof_Header in *. lia.
Qed.

Lemma serve_ok fuel r A h bs : heap_ok h bs A -> reasonable r -> (2 * length bs + 3 <= fuel)%nat ->
  exists A' h' bs', serve fuel r A h = Ret A' h' /\ heap_ok h' bs' A' /\ (length bs' <= S (length bs))%nat.
Proof using Hgrow.
  intros Hok Hr Hfu. destruct r as [nbytes|i|i x v]; cbn [serve].
  - destruct (malloc_run Hgrow h bs A nbytes fuel Hok Hr Hfu) as (p & h' & bs' & E & Hh & Hl). rewrite (bind_Ret _ _ _ _ _ E).
    eexists _, h', bs'. split_and!; [reflexivity| |done]. right. by apply (handed_list _ _ h).
  - destruct (A !! i) as [[a s]|] eqn:Ei; [|by exists A, h, bs; split_and!; [..|lia]].
    destruct Hok as [(_ & _ & ->)|Hi]; [by rewrite lookup_nil in Ei|].
    assert (heap_inv h bs ((a, s) :: delete i A)) as Hi1 by (eapply heap_inv_perm; [|exact Hi]; by apply delete_Permutation).
    destruct (free_inv h bs a s (delete i A) fuel Hi1 ltac:(lia)) as (h' & bs' & E & Hi' & _ & Hl & _). rewrite (bind_Ret _ _ _ _ _ E).
    exists (delete i A), h', bs'. split_and!; [done|by right|done].
  - destruct (A !! i) as [[a s]|] eqn:Ei; [|by exists A, h, bs; split_and!; [..|lia]].
    destruct Hok as [(_ & _ & ->)|Hi]; [by rewrite lookup_nil in Ei|]. destruct ((a <? x) && (x <? padd a s)) eqn:Ex; cbn [when].
    + exists A, (set_hdr x (fun _ => v) h), bs. split_and!; [done| |lia]. right. apply (write_inv h bs A a s); [done|by eapply list_elem_of_lookup_2|lia].
    + by exists A, h, bs; split_and!; [|right|lia].
Qed.

Lemma serve_all_ok fuel rs : forall A h bs, heap_ok h bs A -> Forall reasonable rs -> (2 * (length bs + length rs) + 3 <= fuel)%nat ->
  exists A' h' bs', serve_all fuel rs A h = Ret A' h' /\ heap_ok h' bs' A'.
Proof using Hgrow.
  induction rs as [|r rs IH]; intros A h bs Hok Hr Hfu; cbn [serve_all length] in *; [by exists A, h, bs|]. inversion_clear Hr.
  destruct (serve_ok fuel r A h bs) as (A1 & h1 & bs1 & E & Hok1 & Hl); [done|done|lia|]. rewrite (bind_Ret _ _ _ _ _ E).
  apply (IH A1 h1 bs1); [done|done|lia].
Qed.


End Client.

(** ** Concrete heaps *)

#[local] Instance demo_base : Static := 4096.
#[local] Instance demo_grow : Grow := fun b n => b + n <? 2 ^ 27.

Definition demo_heap : heap := Heap (fun _ => Header 0 0) 0 8192.

Lemma demo_grow_ok : forall b n, grow b n = true -> b + n < 2 ^ 36.
Proof. intros b n. unfold grow, demo_grow. lia. Qed.

Lemma demo_fresh : fresh demo_heap.
Proof. repeat split; vm_compute; congruence. Qed.


Definition demo_session : list request := [Malloc 100; Malloc 2000; Store 1 73616 (Header 1 2); Free 1; Malloc 48; Free 0; Malloc 70000].

