(* ===== verification/Sh.v ===== *)
(** * user/sh.c: the shell

    The state of the shell is the buffer with the command line, the command
    structures it has allocated, and the world of the system calls.  Pointers into
    the buffer are offsets, pointers to commands are indices into the list of the
    allocated ones, or null.  The parser keeps pointers to the start and the end of
    every word; nulterminate() then writes a 0 at the ends, in the buffer.  The
    recursive descent has a bound on its depth.  fork() gives the process that is
    modelled its own return value: both the parent and the child are runs of the
    same definition. *)

From S2P Require Import Prelude User Ulib.

Definition MAXARGS : nat := 10.

(** [struct cmd *] *)
Abbreviation cmdp := (option nat).

(** The structures behind [struct cmd], by their type field.  A null pointer in
    [argv] ends it. *)
Inductive cmd : Type :=
| EXEC (argv eargv : list (option nat))
| REDIR (cmd : cmdp) (file efile : nat) (mode fd : Z)
| PIPE (left right : cmdp)
| LIST (left right : cmdp)
| BACK (cmd : cmdp).

Record shell (W : Type) : Type := Shell { sh_buf : list Z; sh_cmds : list cmd; sh_os : W }.
Arguments Shell {W} sh_buf sh_cmds sh_os.
Arguments sh_buf {W} s.
Arguments sh_cmds {W} s.
Arguments sh_os {W} s.

Definition whitespace : list Z := [32; 9; 13; 10; 11].
Definition symbols : list Z := str "<|>&;()".

Definition is_white (c : Z) : bool := bool_decide (is_Some (strchr whitespace c)).
Definition is_symbol (c : Z) : bool := bool_decide (is_Some (strchr symbols c)).

(** [*s] *)
Definition char_at (buf : list Z) (s : nat) : Z := nth s buf 0.

(** [while(s < es && p( *s)) s++;], in the [n] bytes that are left. *)
Fixpoint skip (n : nat) (p : Z -> bool) (buf : list Z) (s : nat) : nat :=
  match n with
  | O => s
  | S n' => if p (char_at buf s) then skip n' p buf (S s) else s
  end.

(** The kind of token at [s], and its end. *)
Definition token_at (buf : list Z) (s es : nat) : Z * nat :=
  let c := char_at buf s in
  if c =? 0 then (0, s)
  else if bool_decide (is_Some (strchr (str "|();&<") c)) then (c, S s)
  else if c =? ch ">" then
    if char_at buf (S s) =? ch ">" then (ch "+", S (S s)) else (c, S s)
  else (ch "a", skip (es - s) (fun x => negb (is_white x) && negb (is_symbol x)) buf s).

(** The string that starts at an offset. *)
Definition str_at (buf : list Z) (s : nat) : list Z := cstr (drop s buf).

Section Sh.
Context {W : Type} {OS : Sys W}.

Abbreviation SH := (M (shell W)).

(** A computation of the library, on the world alone. *)
Definition os {A} (m : U A) : SH A := fun s =>
  match m (sh_os s) with
  | Ret a w => Ret a (Shell (sh_buf s) (sh_cmds s) w)
  | Panic msg w => Panic msg (Shell (sh_buf s) (sh_cmds s) w)
  | Swtch w _ | Spin w => Spin (Shell (sh_buf s) (sh_cmds s) w)
  | OutOfFuel w => OutOfFuel (Shell (sh_buf s) (sh_cmds s) w)
  end.

Definition get_buf : SH (list Z) := Prelude.gets sh_buf.
Definition put_buf (buf : list Z) : SH unit := modify (fun s => Shell buf (sh_cmds s) (sh_os s)).
Definition new_cmd (c : cmd) : SH cmdp := fun s =>
  Ret (Some (length (sh_cmds s))) (Shell (sh_buf s) (sh_cmds s ++ [c]) (sh_os s)).

(** The command behind a pointer; a null pointer faults. *)
Definition cmd_at (p : cmdp) : SH cmd := fun s =>
  match p ≫= fun i => sh_cmds s !! i with Some c => Ret c s | None => undef s end.
Definition put_cmd (p : cmdp) (c : cmd) : SH unit :=
  match p with
  | Some i => modify (fun s => Shell (sh_buf s) (<[i := c]> (sh_cmds s)) (sh_os s))
  | None => undef
  end.

Definition shpanic {A} (s : list Z) : SH A :=
  os (fprintf 2 (str "%s" ++ [10]) [UStr (Some s)]);;
  os (exit 1 EmptyString).

Definition fork1 : SH Z :=
  pid ← os (call os_fork);
  if pid =? -1 then shpanic (str "fork") else mret pid.

(** ** Constructors *)

Definition execcmd : SH cmdp := new_cmd (EXEC (replicate MAXARGS None) (replicate MAXARGS None)).
Definition redircmd (subcmd : cmdp) (file efile : nat) (mode fd : Z) : SH cmdp :=
  new_cmd (REDIR subcmd file efile mode fd).
Definition pipecmd (left right : cmdp) : SH cmdp := new_cmd (PIPE left right).
Definition listcmd (left right : cmdp) : SH cmdp := new_cmd (LIST left right).
Definition backcmd (subcmd : cmdp) : SH cmdp := new_cmd (BACK subcmd).

(** ** Parsing *)

(** [*ps] is an argument and a result; [*q] and [*eq] are the other results. *)
Definition gettoken (ps es : nat) : SH (Z * nat * nat * nat) :=
  buf ← get_buf;
  let q := skip (es - ps) is_white buf ps in
  let '(ret, eq) := token_at buf q es in
  mret (ret, q, eq, skip (es - eq) is_white buf eq).

Definition peek (ps es : nat) (toks : list Z) : SH (bool * nat) :=
  buf ← get_buf;
  let s := skip (es - ps) is_white buf ps in
  let c := char_at buf s in
  mret (nz c && bool_decide (is_Some (strchr toks c)), s).

(** [while(peek(ps, es, "<>"))]; the modes are O_RDONLY, O_WRONLY|O_CREATE|O_TRUNC
    and O_WRONLY|O_CREATE. *)
Fixpoint parseredirs (fuel : nat) (cmd : cmdp) (ps es : nat) : SH (cmdp * nat) :=
  match fuel with
  | O => nofuel
  | S fuel' =>
      '(more, ps) ← peek ps es (str "<>");
      if (more : bool) then
        '(tok, _, _, ps) ← gettoken ps es;
        '(tok2, q, eq, ps) ← gettoken ps es;
        if negb (tok2 =? ch "a") then shpanic (str "missing file for redirection")
        else
          cmd ← (if tok =? ch "<" then redircmd cmd q eq 0 0
                 else if tok =? ch ">" then redircmd cmd q eq 0x601 1
                 else if tok =? ch "+" then redircmd cmd q eq 0x201 1
                 else mret cmd);
          parseredirs fuel' cmd ps es
      else mret (cmd, ps)
  end.

(** [cmd->argv[argc] = q; cmd->eargv[argc] = eq;] *)
Definition set_arg (cmd : cmdp) (argc : nat) (q eq : option nat) : SH unit :=
  c ← cmd_at cmd;
  match c with
  | EXEC argv eargv => put_cmd cmd (EXEC (<[argc := q]> argv) (<[argc := eq]> eargv))
  | _ => undef
  end.

(** [while(!peek(ps, es, "|)&;"))] *)
Fixpoint parseargs (fuel : nat) (cmd ret : cmdp) (argc ps es : nat) : SH (cmdp * nat * nat) :=
  match fuel with
  | O => nofuel
  | S fuel' =>
      '(stop, ps) ← peek ps es (str "|)&;");
      if (stop : bool) then mret (ret, argc, ps)
      else
        '(tok, q, eq, ps) ← gettoken ps es;
        if tok =? 0 then mret (ret, argc, ps)
        else if negb (tok =? ch "a") then shpanic (str "syntax")
        else
          set_arg cmd argc (Some q) (Some eq);;
          if bool_decide (MAXARGS <= S argc)%nat then shpanic (str "too many args")
          else
            '(ret, ps) ← parseredirs fuel' ret ps es;
            parseargs fuel' cmd ret (S argc) ps es
  end.

(** The part of parseexec() that is not a block. *)
Definition parsesimple (fuel : nat) (ps es : nat) : SH (cmdp * nat) :=
  cmd ← execcmd;
  '(ret, ps) ← parseredirs fuel cmd ps es;
  '(ret, argc, ps) ← parseargs fuel cmd ret 0 ps es;
  set_arg cmd argc None None;;
  mret (ret, ps).

(** [while(peek(ps, es, "&"))] *)
Fixpoint parseback (fuel : nat) (cmd : cmdp) (ps es : nat) : SH (cmdp * nat) :=
  match fuel with
  | O => nofuel
  | S fuel' =>
      '(more, ps) ← peek ps es (str "&");
      if (more : bool) then
        '(_, _, _, ps) ← gettoken ps es;
        cmd ← backcmd cmd;
        parseback fuel' cmd ps es
      else mret (cmd, ps)
  end.

Fixpoint parseline (fuel : nat) (ps es : nat) : SH (cmdp * nat) :=
  match fuel with
  | O => nofuel
  | S fuel' =>
      '(cmd, ps) ← parsepipe fuel' ps es;
      '(cmd, ps) ← parseback fuel' cmd ps es;
      '(more, ps) ← peek ps es (str ";");
      if (more : bool) then
        '(_, _, _, ps) ← gettoken ps es;
        '(rest, ps) ← parseline fuel' ps es;
        cmd ← listcmd cmd rest;
        mret (cmd, ps)
      else mret (cmd, ps)
  end
with parsepipe (fuel : nat) (ps es : nat) : SH (cmdp * nat) :=
  match fuel with
  | O => nofuel
  | S fuel' =>
      '(cmd, ps) ← parseexec fuel' ps es;
      '(more, ps) ← peek ps es (str "|");
      if (more : bool) then
        '(_, _, _, ps) ← gettoken ps es;
        '(rest, ps) ← parsepipe fuel' ps es;
        cmd ← pipecmd cmd rest;
        mret (cmd, ps)
      else mret (cmd, ps)
  end
with parseblock (fuel : nat) (ps es : nat) : SH (cmdp * nat) :=
  match fuel with
  | O => nofuel
  | S fuel' =>
      '(opens, ps) ← peek ps es (str "(");
      if negb opens then shpanic (str "parseblock")
      else
        '(_, _, _, ps) ← gettoken ps es;
        '(cmd, ps) ← parseline fuel' ps es;
        '(closes, ps) ← peek ps es (str ")");
        if negb closes then shpanic (str "syntax - missing )")
        else
          '(_, _, _, ps) ← gettoken ps es;
          parseredirs fuel' cmd ps es
  end
with parseexec (fuel : nat) (ps es : nat) : SH (cmdp * nat) :=
  match fuel with
  | O => nofuel
  | S fuel' =>
      '(block, ps) ← peek ps es (str "(");
      if (block : bool) then parseblock fuel' ps es else parsesimple fuel' ps es
  end.

(** [*p = 0;] *)
Definition put_nul (p : nat) : SH unit := buf ← get_buf; put_buf (<[p := 0]> buf).

(** [for(i=0; ecmd->argv[i]; i++) *ecmd->eargv[i] = 0;] *)
Fixpoint nul_args (argv eargv : list (option nat)) : SH unit :=
  match argv, eargv with
  | Some _ :: argv', Some eq :: eargv' => put_nul eq;; nul_args argv' eargv'
  | None :: _, _ => mret tt
  | _, _ => undef
  end.

Fixpoint nulterminate (fuel : nat) (p : cmdp) : SH unit :=
  match fuel with
  | O => nofuel
  | S fuel' =>
      match p with
      | None => mret tt
      | Some _ =>
          c ← cmd_at p;
          match c with
          | EXEC argv eargv => nul_args argv eargv
          | REDIR sub _ efile _ _ => nulterminate fuel' sub;; put_nul efile
          | PIPE l r | LIST l r => nulterminate fuel' l;; nulterminate fuel' r
          | BACK sub => nulterminate fuel' sub
          end
      end
  end.

(** The line starts at the beginning of the buffer. *)
Definition parsecmd (fuel : nat) : SH cmdp :=
  buf ← get_buf;
  let es := length (cstr buf) in
  '(cmd, s) ← parseline fuel O es;
  '(_, s) ← peek s es [];
  if negb (bool_decide (s = es)) then
    buf ← get_buf;
    os (fprintf 2 (str "leftovers: %s" ++ [10]) [UStr (Some (str_at buf s))]);;
    shpanic (str "syntax")
  else
    nulterminate fuel cmd;;
    mret cmd.

(** ** Running commands *)

(** The strings of [argv], up to the null pointer. *)
Fixpoint argv_strings (buf : list Z) (argv : list (option nat)) : list (list Z) :=
  match argv with
  | Some q :: argv' => str_at buf q :: argv_strings buf argv'
  | _ => []
  end.

Definition do_exit {A} (status : Z) : SH A := os (exit status EmptyString).

(** runcmd() does not return. *)
Fixpoint runcmd (fuel : nat) (p : cmdp) : SH unit :=
  match fuel with
  | O => nofuel
  | S fuel' =>
      match p with
      | None => do_exit 1
      | Some _ =>
          c ← cmd_at p;
          buf ← get_buf;
          match c with
          | EXEC argv _ =>
              match argv_strings buf argv with
              | [] => do_exit 1
              | arg0 :: args =>
                  os (exec arg0 (arg0 :: args));;
                  os (fprintf 2 (str "exec %s failed" ++ [10]) [UStr (Some arg0)])
              end
          | REDIR sub file _ mode fd =>
              os (close fd);;
              r ← os (open (str_at buf file) mode);
              if r <? 0 then
                os (fprintf 2 (str "open %s failed" ++ [10]) [UStr (Some (str_at buf file))]);;
                do_exit 1
              else runcmd fuel' sub
          | LIST l r =>
              pid ← fork1;
              when (pid =? 0) (runcmd fuel' l);;
              os wait;;
              runcmd fuel' r
          | PIPE l r =>
              '(rc, (p0, p1)) ← os pipe;
              (if rc <? 0 then shpanic (str "pipe") else mret tt);;
              pid ← fork1;
              when (pid =? 0) (os (close 1);; os (call (os_dup p1));; os (close p0);; os (close p1);; runcmd fuel' l);;
              pid ← fork1;
              when (pid =? 0) (os (close 0);; os (call (os_dup p0));; os (close p0);; os (close p1);; runcmd fuel' r);;
              os (close p0);;
              os (close p1);;
              os wait;;
              os wait;;
              mret tt
          | BACK sub =>
              pid ← fork1;
              when (pid =? 0) (runcmd fuel' sub)
          end;;
          do_exit 0
      end
  end.

Definition getcmd (nbuf : Z) : SH Z :=
  os (write 2 (str "$ "));;
  bytes ← os (gets nbuf);
  put_buf (bytes ++ replicate (Z.to_nat nbuf - length bytes) 0);;
  mret (if char_at bytes 0 =? 0 then -1 else 0).

(** [while((fd = open("console", O_RDWR)) >= 0)] *)
Fixpoint open_console (fuel : nat) : SH unit :=
  match fuel with
  | O => nofuel
  | S fuel' =>
      fd ← os (open (str "console") 2);
      if 0 <=? fd then
        if 3 <=? fd then os (close fd);; mret tt else open_console fuel'
      else mret tt
  end.

(** [while(getcmd(buf, sizeof(buf)) >= 0)] *)
Fixpoint sh_loop (fuel : nat) : SH unit :=
  match fuel with
  | O => nofuel
  | S fuel' =>
      r ← getcmd 100;
      if r <? 0 then do_exit 0
      else
        buf ← get_buf;
        if (char_at buf 0 =? ch "c") && (char_at buf 1 =? ch "d") && (char_at buf 2 =? ch " ") then
          put_nul (length (cstr buf) - 1);;
          buf ← get_buf;
          r ← os (call (os_chdir (str_at buf 3)));
          when (r <? 0) (os (fprintf 2 (str "cannot cd %s" ++ [10]) [UStr (Some (str_at buf 3))]));;
          sh_loop fuel'
        else
          pid ← fork1;
          when (pid =? 0) (c ← parsecmd fuel'; runcmd fuel' c);;
          '(pid, exit_status, exit_msg) ← os wait_msg;
          os (printf (str "pid=%d: exited with status %d and message '%s'" ++ [10])
                [UInt pid; UInt exit_status; UStr (Some exit_msg)]);;
          sh_loop fuel'
  end.

Definition sh_main (fuel : nat) : SH unit :=
  open_console fuel;;
  sh_loop fuel.
End Sh.
