(* ===== verification/ShSpec.v ===== *)
(** * The parser of the shell

    A reference tokeniser and grammar of command lines.  On every line that is
    a sentence of the grammar, however it is spaced, parsecmd() builds the command
    the grammar assigns to it, with the words as strings in the buffer. *)

From S2P Require Import Prelude User Ulib UprintSpec Sh.

(** ** Tokens *)

Inductive tok : Type := TWord (w : list Z) | TSym (c : Z) | TApp.

Definition is_word (c : Z) : bool := negb (is_white c) && negb (is_symbol c).

Fixpoint takew (p : Z -> bool) (l : list Z) : list Z :=
  match l with c :: l' => if p c then c :: takew p l' else [] | [] => [] end.
Fixpoint dropw (p : Z -> bool) (l : list Z) : list Z :=
  match l with c :: l' => if p c then dropw p l' else l | [] => [] end.

Definition flush (w : list Z) (ts : list tok) : list tok := match w with [] => ts | _ => TWord w :: ts end.

(** The tokens of a line, after the characters [w] of a word. *)
Fixpoint lex (w s : list Z) : list tok :=
  match s with
  | [] => flush w []
  | c :: s' =>
      if is_white c then flush w (lex [] s')
      else if c =? ch ">" then
        flush w (match s' with
                 | d :: s'' => if d =? ch ">" then TApp :: lex [] s'' else TSym c :: lex [] s'
                 | [] => [TSym c]
                 end)
      else if is_symbol c then flush w (TSym c :: lex [] s')
      else lex (w ++ [c]) s'
  end.

Definition kind (t : tok) : Z := match t with TWord _ => ch "a" | TSym c => c | TApp => ch "+" end.

(** The first character of the rest of the line. *)
Definition first_char (s : list Z) : Z := match s with c :: _ => c | [] => 0 end.

Lemma takew_dropw p l : takew p l ++ dropw p l = l.
Proof. induction l as [|c l IH]; cbn; [done|]. destruct (p c); cbn; [by rewrite IH|done]. Qed.

Lemma takew_all p l : Forall (fun c => p c = true) (takew p l).
Proof. induction l as [|c l IH]; cbn; [constructor|]. destruct (p c) eqn:E; [by constructor|constructor]. Qed.

Lemma dropw_first p l : match dropw p l with c :: _ => p c = false | [] => True end.
Proof. induction l as [|c l IH]; cbn; [done|]. destruct (p c) eqn:E; [done|by rewrite E]. Qed.

Lemma lex_white s : lex [] (dropw is_white s) = lex [] s.
Proof. induction s as [|c s IH]; cbn; [done|]. destruct (is_white c) eqn:E; [done|]. cbn. by rewrite E. Qed.

Lemma not_gt c : is_word c = true -> is_white c = false /\ (c =? ch ">") = false /\ is_symbol c = false.
Proof.
  unfold is_word. intros [H1 H2]%andb_prop. apply negb_true_iff in H1, H2. split_and!; [done| |done].
  destruct (Z.eqb_spec c (ch ">")) as [->|]; [|done]. by vm_compute in H2.
Qed.

Lemma lex_word w s : w <> [] -> lex w s = TWord (w ++ takew is_word s) :: lex [] (dropw is_word s).
Proof.
  revert w. induction s as [|c s IH]; intros w Hw; [cbn; rewrite app_nil_r; by destruct w|]. destruct (is_word c) eqn:E.
  - destruct (not_gt c E) as (E1 & E2 & E3). cbn [lex takew dropw]. rewrite E1, E2, E3, E, IH by (by destruct w). by rewrite <- app_assoc.
  - cbn [takew dropw]. rewrite E, app_nil_r. assert (flush w (lex [] (c :: s)) = TWord w :: lex [] (c :: s)) as <- by (by destruct w).
    unfold is_word in E. cbn [lex]. destruct (is_white c) eqn:E1; [done|]. destruct (c =? ch ">"); [done|].
    destruct (is_symbol c); [done|]. done.
Qed.

(** The token at the start of [r], and what follows it. *)
Definition next_tok (r : list Z) : tok * list Z :=
  match r with
  | [] => (TApp, [])
  | c :: s =>
      if c =? ch ">" then
        match s with d :: s' => if d =? ch ">" then (TApp, s') else (TSym c, s) | [] => (TSym c, s) end
      else if is_symbol c then (TSym c, s)
      else (TWord (c :: takew is_word s), dropw is_word s)
  end.

Lemma lex_next c s : is_white c = false -> lex [] (c :: s) = (next_tok (c :: s)).1 :: lex [] (next_tok (c :: s)).2.
Proof.
  intros E. cbn [lex next_tok]. rewrite E. destruct (c =? ch ">") eqn:E2.
  { cbn [flush]. destruct s as [|d s]; [done|]. by destruct (d =? ch ">"). }
  destruct (is_symbol c) eqn:E3; [done|]. cbn [fst snd app]. by rewrite lex_word.
Qed.

(** The text of a token, and its first character. *)
Definition text (t : tok) : list Z := match t with TWord w => w | TSym c => [c] | TApp => str ">>" end.
Definition tchar (t : tok) : Z := first_char (text t).

Lemma next_tok_text c s : (text (next_tok (c :: s)).1 ++ (next_tok (c :: s)).2 = c :: s) /\ tchar (next_tok (c :: s)).1 = c.
Proof.
  cbn [next_tok]. destruct (Z.eqb_spec c (ch ">")) as [->|].
  { destruct s as [|d s]; [done|]. destruct (Z.eqb_spec d (ch ">")) as [->|]; done. }
  destruct (is_symbol c); [done|]. cbn. by rewrite takew_dropw.
Qed.

(** ** Positions in the line *)

(** [s] is the position of the suffix [r] of the line in the buffer. *)
Definition sits (buf : list Z) (s : nat) (r : list Z) : Prop := exists pre, cstr buf = pre ++ r /\ s = length pre.

(** The word [w] from [q] up to [eq], where it ends. *)
Definition word_at (buf : list Z) (q eq : nat) (w : list Z) : Prop :=
  exists r, sits buf q (w ++ r) /\ sits buf eq r /\ Forall (fun c => is_word c = true) w /\ (r = [] \/ is_word (first_char r) = false).

Lemma cstr_nonzero buf : Forall (fun c => c <> 0) (cstr buf).
Proof. induction buf as [|c buf IH]; cbn; [constructor|]. destruct (Z.eqb_spec c 0); by constructor. Qed.

Lemma cstr_split buf : exists rest, buf = cstr buf ++ rest /\ first_char rest = 0.
Proof.
  induction buf as [|c buf (rest & E & H)]; [by exists []|]. cbn. destruct (Z.eqb_spec c 0) as [->|]; [by exists (0 :: buf)|].
  exists rest. cbn. by rewrite <- E.
Qed.

Lemma sits_char buf s r : sits buf s r -> char_at buf s = first_char r.
Proof.
  intros (pre & E & ->). destruct (cstr_split buf) as (rest & Eb & H0). unfold char_at. rewrite Eb, E, <- app_assoc, app_nth2, Nat.sub_diag by lia.
  destruct r as [|c r]; [|done]. by destruct rest.
Qed.

Lemma sits_len buf s r : sits buf s r -> (length (cstr buf) - s = length r)%nat.
Proof. intros (pre & -> & ->). rewrite length_app. lia. Qed.

Lemma sits_app buf s u r : sits buf s (u ++ r) -> sits buf (s + length u) r.
Proof. intros (pre & E & ->). exists (pre ++ u). by rewrite <- app_assoc, length_app. Qed.

Lemma sits_nonzero buf s c r : sits buf s (c :: r) -> c <> 0.
Proof. intros (pre & E & _). pose proof (cstr_nonzero buf) as H. rewrite E in H. apply Forall_app in H as [_ H]. by inversion H. Qed.

Lemma skip_sits p buf r : forall s, sits buf s r ->
  skip (length (cstr buf) - s) p buf s = (s + length (takew p r))%nat /\ sits buf (s + length (takew p r)) (dropw p r).
Proof.
  intros s Hs. rewrite (sits_len _ _ _ Hs). split; [|apply sits_app; by rewrite takew_dropw].
  revert s Hs. induction r as [|c r IH]; intros s Hs; cbn [length skip takew]; [lia|].
  rewrite (sits_char _ _ _ Hs). cbn [first_char]. destruct (p c); cbn [length]; [|lia].
  rewrite IH; [lia|]. apply (sits_app _ _ [c]) in Hs. by replace (S s) with (s + length [c])%nat by (cbn; lia).
Qed.

(** The kinds of token gettoken() distinguishes. *)
Lemma symbol_cases c : is_symbol c = true -> c = ch ">" \/ bool_decide (is_Some (strchr (str "|();&<") c)) = true.
Proof.
  unfold is_symbol. rewrite !bool_decide_eq_true. cbn. intros [x H]. cbn in H. unfold fmap, option_fmap, option_map in *.
  repeat match goal with H : context [if ?a =? c then _ else _] |- _ => destruct (Z.eqb_spec a c) as [<-|]; [first [by left|right; by eexists]|] end. done.
Qed.

Lemma not_symbol c : is_symbol c = false -> c <> ch ">" /\ bool_decide (is_Some (strchr (str "|();&<") c)) = false.
Proof.
  intros H. split; [by intros ->|]. apply bool_decide_eq_false. intros Hs. apply bool_decide_eq_false in H. apply H. clear H. revert Hs.
  intros [x Hx]. cbn in *. unfold fmap, option_fmap, option_map in *.
  repeat match goal with H : context [if ?a =? c then _ else _] |- _ => destruct (Z.eqb_spec a c) as [<-|]; [by eexists|] end. done.
Qed.

Lemma token_at_sits buf s c r : is_white c = false -> sits buf s (c :: r) ->
  let '(t, r') := next_tok (c :: r) in
  token_at buf s (length (cstr buf)) = (kind t, (s + length (text t))%nat) /\ sits buf (s + length (text t)) r'.
Proof.
  intros Hw Hs. pose proof (next_tok_text c r) as [Ht _]. destruct (next_tok (c :: r)) as [t r'] eqn:En. cbn [fst snd] in Ht.
  split; [|apply sits_app; by rewrite Ht]. unfold token_at. rewrite (sits_char _ _ _ Hs). cbn [first_char].
  rewrite (proj2 (Z.eqb_neq c 0)) by (by eapply sits_nonzero). cbn [next_tok] in En.
  destruct (Z.eqb_spec c (ch ">")) as [->|Hgt].
  - assert (bool_decide (is_Some (strchr (str "|();&<") (ch ">"))) = false) as -> by (by vm_compute).
    assert (char_at buf (S s) = first_char r) as ->.
    { apply sits_char. apply (sits_app _ _ [ch ">"]) in Hs. by replace (S s) with (s + length [ch ">"])%nat by (cbn; lia). }
    destruct r as [|d r]; cbn [first_char].
    + injection En as <- <-. cbn [text length kind]. change (0 =? ch ">") with false. f_equal. lia.
    + destruct (Z.eqb_spec d (ch ">")) as [->|]; injection En as <- <-; cbn [text length kind str]; f_equal; lia.
  - destruct (is_symbol c) eqn:Es.
    + injection En as <- <-. destruct (symbol_cases c Es) as [|E]; [done|]. rewrite E. cbn. f_equal. lia.
    + injection En as <- <-. rewrite (proj2 (not_symbol c Es)). cbn [kind text].
      destruct (skip_sits is_word buf _ s Hs) as [E _]. cbn [takew] in E. assert (is_word c = true) as Hc by (unfold is_word; by rewrite Hw, Es).
      rewrite Hc in E. f_equal. exact E.
Qed.

(** ** peek() and gettoken() *)

Definition starts (toks : list Z) (ts : list tok) : bool :=
  match ts with [] => false | t :: _ => bool_decide (is_Some (strchr toks (tchar t))) end.

(** The tokens from a position on. *)
Definition ahead (buf : list Z) (s : nat) (ts : list tok) : Prop := exists r, sits buf s r /\ lex [] r = ts.

Lemma skip_white buf s r : sits buf s r ->
  let s' := skip (length (cstr buf) - s) is_white buf s in
  sits buf s' (dropw is_white r) /\ lex [] (dropw is_white r) = lex [] r.
Proof. intros Hs s'. destruct (skip_sits is_white buf r s Hs) as [E H]. unfold s'. rewrite E. split; [done|apply lex_white]. Qed.

Section Parse.
Context {W : Type} {OS : Sys W}.
Implicit Types (st : shell W).

Lemma peek_run st s ts toks : ahead (sh_buf st) s ts ->
  exists s', peek s (length (cstr (sh_buf st))) toks st = Ret (starts toks ts, s') st /\ ahead (sh_buf st) s' ts.
Proof.
  intros (r & Hs & <-). set (buf := sh_buf st) in *. destruct (skip_white buf s r Hs) as [Hs' Hl]. set (s' := skip _ _ _ _) in Hs'.
  exists s'. split; [|by eexists]. unfold peek. rewrite (bind_Ret get_buf _ _ _ _ eq_refl). fold buf. fold s'. rewrite (sits_char _ _ _ Hs'), <- Hl.
  pose proof (dropw_first is_white r) as Hf. destruct (dropw is_white r) as [|c r'] eqn:E; [done|]. cbn [first_char].
  rewrite (lex_next c r' Hf). cbn [starts]. rewrite (proj2 (next_tok_text c r')).
  assert (nz c = true) as -> by (apply sits_nonzero in Hs'; unfold nz; zcases; done). done.
Qed.

(** The kind, start and end of the next token. *)
Definition token_ok (buf : list Z) (ts : list tok) (k : Z) (q eq : nat) : Prop :=
  match ts with
  | [] => k = 0
  | t :: _ => k = kind t /\ match t with TWord w => word_at buf q eq w | _ => True end
  end.

Lemma gettoken_run st s ts : ahead (sh_buf st) s ts ->
  exists k q eq s', gettoken s (length (cstr (sh_buf st))) st = Ret (k, q, eq, s') st /\
    token_ok (sh_buf st) ts k q eq /\ ahead (sh_buf st) s' (tail ts).
Proof.
  intros (r & Hs & <-). set (buf := sh_buf st) in *. destruct (skip_white buf s r Hs) as [Hs' Hl]. set (s' := skip _ _ _ _) in Hs'.
  unfold gettoken. rewrite (bind_Ret get_buf _ _ _ _ eq_refl). fold buf. fold s'. rewrite <- Hl.
  pose proof (dropw_first is_white r) as Hf. destruct (dropw is_white r) as [|c r'] eqn:E.
  - unfold token_at. rewrite (sits_char _ _ _ Hs'). cbn [first_char Z.eqb]. eexists 0, s', s', _. split_and!; [reflexivity|done|].
    exists []. split; [|done]. by destruct (skip_white buf s' [] Hs').
  - pose proof (token_at_sits buf s' c r' Hf Hs') as Ht. rewrite (lex_next c r' Hf). pose proof (next_tok_text c r') as [Htx _].
    destruct (next_tok (c :: r')) as [t r2] eqn:En. cbn [fst snd] in *. destruct Ht as [-> Hs2].
    eexists _, s', _, _. split_and!; [reflexivity| |].
    + split; [done|]. destruct t as [w| |]; [|done..]. exists r2. cbn [text] in *. rewrite Htx. split_and!; [done|done|..]; cbn [next_tok] in En;
        destruct (c =? ch ">"), (is_symbol c) eqn:Es; try (destruct r' as [|d r']; [done|]; by destruct (d =? ch ">")); try done; injection En as <- <-.
      * constructor; [unfold is_word; by rewrite Hf, Es|apply takew_all].
      * pose proof (dropw_first is_word r') as Hd. destruct (dropw is_word r'); [by left|by right].
    + destruct (skip_white buf _ r2 Hs2) as [H1 H2]. by eexists.
Qed.

(** Every token of a line is a word or a symbol. *)
Definition tok_ok (t : tok) : Prop :=
  match t with TWord w => w <> [] /\ Forall (fun c => is_word c = true) w | TSym c => is_symbol c = true | TApp => True end.

Lemma lex_ok s : forall w, Forall (fun c => is_word c = true) w -> Forall tok_ok (lex w s).
Proof using.
  assert (forall w ts, Forall (fun c => is_word c = true) w -> Forall tok_ok ts -> Forall tok_ok (flush w ts)) as Hf.
  { intros [|c w] ts Hw Hts; [done|]. by constructor. }
  remember (length s) as n eqn:En. assert (length s <= n)%nat as Hn by lia. clear En. revert s Hn.
  induction n as [|n IH]; intros [|c s] Hn w Hw; cbn [length] in Hn; try lia; cbn [lex]; try (apply Hf; [done|constructor]).
  assert (Forall tok_ok (lex [] s)) as H0 by (apply IH; [lia|constructor]).
  destruct (is_white c) eqn:E1; [by apply Hf|]. destruct (Z.eqb_spec c (ch ">")) as [->|E2].
  - apply Hf; [done|]. destruct s as [|d s]; [by repeat constructor|]. destruct (d =? ch ">").
    + constructor; [done|]. apply IH; [cbn in Hn; lia|constructor].
    + by constructor.
  - destruct (is_symbol c) eqn:E3; [apply Hf; [done|by constructor]|]. apply IH; [lia|]. apply Forall_app. split; [done|].
    constructor; [|done]. unfold is_word. by rewrite E1, E3.
Qed.

Lemma ahead_ok buf s ts : ahead buf s ts -> Forall tok_ok ts.
Proof using. intros (r & _ & <-). apply lex_ok. constructor. Qed.

(** A word starts no other construct. *)
Lemma starts_word toks w ts : Forall (fun c => is_symbol c = true) toks -> tok_ok (TWord w) -> starts toks (TWord w :: ts) = false.
Proof using.
  intros Ht [Hne Hw]. destruct w as [|c w]; [done|]. cbn. apply bool_decide_eq_false. intros [x Hx]. apply Forall_cons in Hw as [Hc _].
  revert x Hx. induction Ht as [|d toks Hd _ IH]; cbn; [done|]. intros x. destruct (d =? 0); [done|]. destruct (Z.eqb_spec d c) as [->|].
  - unfold is_word in Hc. rewrite Hd in Hc. by rewrite andb_false_r in Hc.
  - destruct (strchr toks c) as [n0|]; [|done]. by destruct (IH n0 eq_refl).
Qed.
End Parse.

(** ** The grammar *)

Inductive rop : Type := RIn | ROut | RApp.
Record sredir : Type := SR { r_op : rop; r_file : list Z }.

Inductive sline : Type :=
| LEnd (p : spipe) (n : nat)
| LSeq (p : spipe) (n : nat) (l : sline)
with spipe : Type :=
| PEnd (e : sexec)
| PBar (e : sexec) (p : spipe)
with sexec : Type :=
| XSimple (rs : list sredir) (args : list (list Z * list sredir))
| XBlock (l : sline) (rs : list sredir).

Scheme sline_mut := Induction for sline Sort Prop
with spipe_mut := Induction for spipe Sort Prop
with sexec_mut := Induction for sexec Sort Prop.
Combined Scheme syntax_ind from sline_mut, spipe_mut, sexec_mut.

(** The tokens of a sentence. *)
Definition flat_redir (r : sredir) : list tok :=
  [match r_op r with RIn => TSym (ch "<") | ROut => TSym (ch ">") | RApp => TApp end; TWord (r_file r)].
Definition flat_redirs (rs : list sredir) : list tok := concat (flat_redir <$> rs).
Definition flat_arg (a : list Z * list sredir) : list tok := TWord a.1 :: flat_redirs a.2.

Fixpoint flat_line (l : sline) : list tok :=
  match l with
  | LEnd p n => flat_pipe p ++ replicate n (TSym (ch "&"))
  | LSeq p n l' => flat_pipe p ++ replicate n (TSym (ch "&")) ++ TSym (ch ";") :: flat_line l'
  end
with flat_pipe (p : spipe) : list tok :=
  match p with
  | PEnd e => flat_exec e
  | PBar e p' => flat_exec e ++ TSym (ch "|") :: flat_pipe p'
  end
with flat_exec (e : sexec) : list tok :=
  match e with
  | XSimple rs args => flat_redirs rs ++ concat (flat_arg <$> args)
  | XBlock l rs => TSym (ch "(") :: flat_line l ++ TSym (ch ")") :: flat_redirs rs
  end.

(** The commands, and the command of a sentence. *)
Inductive scmd : Type :=
| SExec (args : list (list Z))
| SRedir (c : scmd) (file : list Z) (mode fd : Z)
| SPipe (l r : scmd)
| SList (l r : scmd)
| SBack (c : scmd).

Definition r_mode (r : sredir) : Z := match r_op r with RIn => 0 | ROut => 0x601 | RApp => 0x201 end.
Definition r_fd (r : sredir) : Z := match r_op r with RIn => 0 | _ => 1 end.
Definition redirect (c : scmd) (r : sredir) : scmd := SRedir c (r_file r) (r_mode r) (r_fd r).

Fixpoint den_line (l : sline) : scmd :=
  match l with
  | LEnd p n => Nat.iter n SBack (den_pipe p)
  | LSeq p n l' => SList (Nat.iter n SBack (den_pipe p)) (den_line l')
  end
with den_pipe (p : spipe) : scmd :=
  match p with PEnd e => den_exec e | PBar e p' => SPipe (den_exec e) (den_pipe p') end
with den_exec (e : sexec) : scmd :=
  match e with
  | XSimple rs args => foldl redirect (SExec args.*1) (rs ++ concat args.*2)
  | XBlock l rs => foldl redirect (den_line l) rs
  end.

(** No command has more than nine words. *)
Fixpoint few_line (l : sline) : Prop :=
  match l with LEnd p _ => few_pipe p | LSeq p _ l' => few_pipe p /\ few_line l' end
with few_pipe (p : spipe) : Prop :=
  match p with PEnd e => few_exec e | PBar e p' => few_exec e /\ few_pipe p' end
with few_exec (e : sexec) : Prop :=
  match e with XSimple _ args => (length args < MAXARGS)%nat | XBlock l _ => few_line l end.

(** ** What the structures stand for *)

(** The words between the pointers of [argv] and [eargv]. *)
Definition args_to (buf : list Z) (argv eargv : list (option nat)) (ws : list (list Z)) : Prop :=
  length argv = MAXARGS /\ length eargv = MAXARGS /\
  forall k w, ws !! k = Some w -> exists q e, argv !! k = Some (Some q) /\ eargv !! k = Some (Some e) /\ word_at buf q e w.

Fixpoint points (buf : list Z) (cmds : list cmd) (p : cmdp) (c : scmd) : Prop :=
  match c with
  | SExec args => exists i argv eargv, p = Some i /\ cmds !! i = Some (EXEC argv eargv) /\
      args_to buf argv eargv args /\ argv !! length args = Some None
  | SRedir c' file mode fd => exists i sub q e, p = Some i /\ cmds !! i = Some (REDIR sub q e mode fd) /\
      word_at buf q e file /\ points buf cmds sub c'
  | SPipe l r => exists i lp rp, p = Some i /\ cmds !! i = Some (PIPE lp rp) /\ points buf cmds lp l /\ points buf cmds rp r
  | SList l r => exists i lp rp, p = Some i /\ cmds !! i = Some (LIST lp rp) /\ points buf cmds lp l /\ points buf cmds rp r
  | SBack c' => exists i sub, p = Some i /\ cmds !! i = Some (BACK sub) /\ points buf cmds sub c'
  end.

(** Redirections wrapped around a command. *)
Fixpoint wrapped (buf : list Z) (cmds : list cmd) (p : cmdp) (rs : list sredir) (p' : cmdp) : Prop :=
  match rs with
  | [] => p' = p
  | r :: rs' => exists i q e, cmds !! i = Some (REDIR p q e (r_mode r) (r_fd r)) /\ word_at buf q e (r_file r) /\ wrapped buf cmds (Some i) rs' p'
  end.

Lemma points_more buf cmds new c : forall p, points buf cmds p c -> points buf (cmds ++ new) p c.
Proof.
  induction c as [args|c IH file mode fd|l IHl r IHr|l IHl r IHr|c IH]; cbn; intros p.
  - intros (i & argv & eargv & -> & E & H). eexists i, argv, eargv. split; [done|]. split; [by apply lookup_app_l_Some|done].
  - intros (i & sub & q & e & -> & E & Hw & H). eexists i, sub, q, e. split; [done|]. split; [by apply lookup_app_l_Some|]. split; [done|auto].
  - intros (i & lp & rp & -> & E & H1 & H2). eexists i, lp, rp. split; [done|]. split; [by apply lookup_app_l_Some|]. split; auto.
  - intros (i & lp & rp & -> & E & H1 & H2). eexists i, lp, rp. split; [done|]. split; [by apply lookup_app_l_Some|]. split; auto.
  - intros (i & sub & -> & E & H). eexists i, sub. split; [done|]. split; [by apply lookup_app_l_Some|auto].
Qed.

(** The command that joins two others. *)
Lemma points_pipe buf cmds n1 n2 p1 p2 c1 c2 : points buf (cmds ++ n1) p1 c1 -> points buf (cmds ++ n1 ++ n2) p2 c2 ->
  points buf (cmds ++ n1 ++ n2 ++ [PIPE p1 p2]) (Some (length (cmds ++ n1 ++ n2))) (SPipe c1 c2).
Proof.
  intros H1 H2. exists (length (cmds ++ n1 ++ n2)), p1, p2. rewrite !app_assoc in *.
  split_and!; [done|by apply list_lookup_middle|rewrite <- app_assoc; by apply points_more|by apply points_more].
Qed.

Lemma points_list buf cmds n1 n2 p1 p2 c1 c2 : points buf (cmds ++ n1) p1 c1 -> points buf (cmds ++ n1 ++ n2) p2 c2 ->
  points buf (cmds ++ n1 ++ n2 ++ [LIST p1 p2]) (Some (length (cmds ++ n1 ++ n2))) (SList c1 c2).
Proof.
  intros H1 H2. exists (length (cmds ++ n1 ++ n2)), p1, p2. rewrite !app_assoc in *.
  split_and!; [done|by apply list_lookup_middle|rewrite <- app_assoc; by apply points_more|by apply points_more].
Qed.

(** What wrapping reads is not changed by more commands, nor in the EXEC command
    that is wrapped. *)
Definition same_redirs (cmds cmds' : list cmd) : Prop :=
  forall i sub q e mode fd, cmds !! i = Some (REDIR sub q e mode fd) -> cmds' !! i = Some (REDIR sub q e mode fd).

Lemma wrapped_same buf cmds cmds' rs p' : same_redirs cmds cmds' -> forall p, wrapped buf cmds p rs p' -> wrapped buf cmds' p rs p'.
Proof.
  intros Hs. induction rs as [|r rs IH]; cbn; [done|]. intros p (i & q & e & E & Hw & H). exists i, q, e. split_and!; [by apply Hs|done|auto].
Qed.

Lemma wrapped_app buf cmds rs1 rs2 p1 p2 : forall p, wrapped buf cmds p rs1 p1 -> wrapped buf cmds p1 rs2 p2 -> wrapped buf cmds p (rs1 ++ rs2) p2.
Proof.
  induction rs1 as [|r rs1 IH]; cbn; [by intros p ->|]. intros p (i & q & e & E & Hw & H) H2. exists i, q, e. split_and!; [done|done|auto].
Qed.

Lemma wrapped_points buf cmds rs p' : forall p c, points buf cmds p c -> wrapped buf cmds p rs p' -> points buf cmds p' (foldl redirect c rs).
Proof.
  induction rs as [|r rs IH]; cbn; [by intros p c H ->|]. intros p c Hp (i & q & e & E & Hw & H). apply (IH (Some i)); [|done].
  by exists i, p, q, e.
Qed.

(** ** Running the parser *)

Section Run.
Context {W : Type} {OS : Sys W}.
Implicit Types (st : shell W).

Definition grow (st : shell W) (new : list cmd) : shell W := Shell (sh_buf st) (sh_cmds st ++ new) (sh_os st).

Lemma grow_nil st : grow st [] = st.
Proof using. destruct st. unfold grow. cbn. by rewrite app_nil_r. Qed.

Lemma grow_grow st n1 n2 : grow (grow st n1) n2 = grow st (n1 ++ n2).
Proof using. unfold grow. cbn. by rewrite <- app_assoc. Qed.

Lemma new_cmd_run st c : new_cmd c st = Ret (Some (length (sh_cmds st))) (grow st [c]).
Proof using. done. Qed.

Lemma same_redirs_app cmds new : same_redirs cmds (cmds ++ new).
Proof using. intros i sub q e mode fd E. by apply lookup_app_l_Some. Qed.

Lemma flat_redirs_cons r rs : flat_redirs (r :: rs) = flat_redir r ++ flat_redirs rs.
Proof using. done. Qed.

Lemma length_flat_redirs rs : length (flat_redirs rs) = (2 * length rs)%nat.
Proof using. induction rs as [|r rs IH]; [done|]. rewrite flat_redirs_cons. cbn [length flat_redir app] in *. lia. Qed.

Lemma parseredirs_run rs : forall fuel st s ts p,
  ahead (sh_buf st) s (flat_redirs rs ++ ts) -> starts (str "<>") ts = false -> (length rs < fuel)%nat ->
  exists p' s' new, parseredirs fuel p s (length (cstr (sh_buf st))) st = Ret (p', s') (grow st new) /\
    ahead (sh_buf st) s' ts /\ wrapped (sh_buf st) (sh_cmds st ++ new) p rs p'.
Proof using.
  induction rs as [|r rs IH]; intros [|fuel] st s ts p Ha Hend Hfu; cbn [length] in Hfu; try lia; cbn [parseredirs].
  - change (flat_redirs [] ++ ts) with ts in Ha. destruct (peek_run st s _ (str "<>") Ha) as (s' & E & Ha'). rewrite (bind_Ret _ _ _ _ _ E), Hend.
    exists p, s', []. rewrite grow_nil. by split_and!.
  - rewrite flat_redirs_cons in Ha. destruct (peek_run st s _ (str "<>") Ha) as (s1 & E & Ha1). rewrite (bind_Ret _ _ _ _ _ E).
    assert (starts (str "<>") ((flat_redir r ++ flat_redirs rs) ++ ts) = true) as -> by (destruct r as [[| |] f]; by vm_compute).
    destruct (gettoken_run st s1 _ Ha1) as (k & q0 & e0 & s2 & E2 & Hk & Ha2). rewrite (bind_Ret _ _ _ _ _ E2).
    destruct (gettoken_run st s2 _ Ha2) as (k2 & q & e & s3 & E3 & Hk2 & Ha3). rewrite (bind_Ret _ _ _ _ _ E3).
    cbn [flat_redir app tail token_ok] in Hk, Hk2, Ha3. destruct Hk as [-> _], Hk2 as [-> Hw]. cbn [kind]. rewrite Z.eqb_refl. cbn [negb].
    assert ((if kind match r_op r with RIn => TSym (ch "<") | ROut => TSym (ch ">") | RApp => TApp end =? ch "<" then redircmd p q e 0 0
      else if kind match r_op r with RIn => TSym (ch "<") | ROut => TSym (ch ">") | RApp => TApp end =? ch ">" then redircmd p q e 0x601 1
      else if kind match r_op r with RIn => TSym (ch "<") | ROut => TSym (ch ">") | RApp => TApp end =? ch "+" then redircmd p q e 0x201 1
      else mret p) st = Ret (Some (length (sh_cmds st))) (grow st [REDIR p q e (r_mode r) (r_fd r)])) as E4 by (by destruct r as [[| |] f]).
    rewrite (bind_Ret _ _ _ _ _ E4). set (c := REDIR _ _ _ _ _) in *.
    destruct (IH fuel (grow st [c]) s3 ts (Some (length (sh_cmds st))) Ha3 Hend ltac:(lia)) as (p' & s' & new & E5 & Ha' & Hwr).
    exists p', s', (c :: new). rewrite grow_grow in E5. split_and!; [exact E5|done|]. cbn [wrapped]. cbn [grow sh_cmds sh_buf] in Hwr. rewrite <- app_assoc in Hwr.
    exists (length (sh_cmds st)), q, e. split_and!; [|done|done]. by apply list_lookup_middle.
Qed.

Lemma cmd_at_run st i c : sh_cmds st !! i = Some c -> cmd_at (Some i) st = Ret c st.
Proof using. intros E. unfold cmd_at. cbn. by rewrite E. Qed.

Definition upd_cmd (st : shell W) (i : nat) (c : cmd) : shell W := Shell (sh_buf st) (<[i := c]> (sh_cmds st)) (sh_os st).

Lemma set_arg_run st i argv eargv argc q e : sh_cmds st !! i = Some (EXEC argv eargv) ->
  set_arg (Some i) argc q e st = Ret tt (upd_cmd st i (EXEC (<[argc := q]> argv) (<[argc := e]> eargv))).
Proof using. intros E. unfold set_arg. by rewrite (bind_Ret _ _ _ _ _ (cmd_at_run _ _ _ E)). Qed.

Lemma same_redirs_upd cmds i argv eargv argv' eargv' : cmds !! i = Some (EXEC argv eargv) -> same_redirs cmds (<[i := EXEC argv' eargv']> cmds).
Proof using. intros E j sub q e mode fd Hj. rewrite list_lookup_insert_ne; [done|]. intros ->. congruence. Qed.

Lemma args_to_snoc buf argv eargv ws q e w : args_to buf argv eargv ws -> word_at buf q e w -> (length ws < MAXARGS)%nat ->
  args_to buf (<[length ws := Some q]> argv) (<[length ws := Some e]> eargv) (ws ++ [w]).
Proof using.
  intros (L1 & L2 & H) Hw Hl. split_and!; [by rewrite length_insert|by rewrite length_insert|]. intros k w' Hk.
  destruct (decide (k = length ws)) as [->|Hne].
  - rewrite list_lookup_middle in Hk by done. injection Hk as <-. exists q, e. by rewrite !list_lookup_insert_eq by lia.
  - assert (k < length ws)%nat as Hlt by (apply lookup_lt_Some in Hk; rewrite length_app in Hk; cbn in Hk; lia).
    rewrite lookup_app_l in Hk by done. rewrite !list_lookup_insert_ne by lia. auto.
Qed.

(** What may follow a command. *)
Definition follow (toks : list Z) (ts : list tok) : Prop := ts = [] \/ starts toks ts = true.

Lemma strchr_in toks c : is_Some (strchr toks c) -> c ∈ toks.
Proof using.
  induction toks as [|d toks IH]; cbn; [by intros [x ?]|]. destruct (d =? 0); [by intros [x ?]|]. destruct (Z.eqb_spec d c) as [->|]; [by left|].
  intros [x Hx]. right. apply IH. destruct (strchr toks c); [by eexists|done].
Qed.

Lemma follow_not toks toks' ts : Forall (fun c => bool_decide (is_Some (strchr toks' c)) = false) toks -> follow toks ts -> starts toks' ts = false.
Proof using.
  intros Hd [->|Hs]; [done|]. destruct ts as [|t ts]; [done|]. cbn in *. apply bool_decide_eq_true in Hs.
  rewrite Forall_forall in Hd. apply Hd, strchr_in, Hs.
Qed.

Lemma follow_in toks toks' ts : (forall c, c ∈ toks -> bool_decide (is_Some (strchr toks' c)) = true) -> follow toks ts -> follow toks' ts.
Proof using.
  intros Hd [->|Hs]; [by left|right]. destruct ts as [|t ts]; [done|]. cbn in *. apply bool_decide_eq_true in Hs. apply Hd, strchr_in, Hs.
Qed.

Lemma redirs_end args ts : Forall tok_ok (concat (flat_arg <$> args) ++ ts) -> follow (str "|)&;") ts -> starts (str "<>") (concat (flat_arg <$> args) ++ ts) = false.
Proof using.
  intros Hok Hf. destruct args as [|[w rs] args]; [eapply follow_not; [|exact Hf]; repeat constructor|].
  cbn [fmap list_fmap concat app flat_arg fst] in *. apply Forall_cons in Hok as [Hw _]. apply starts_word; [by repeat constructor|done].
Qed.

Lemma parseargs_end fuel st s ts p ret argc : ahead (sh_buf st) s ts -> follow (str "|)&;") ts ->
  exists s', parseargs (S fuel) p ret argc s (length (cstr (sh_buf st))) st = Ret (ret, argc, s') st /\ ahead (sh_buf st) s' ts.
Proof using.
  intros Ha Hf. cbn [parseargs]. destruct (peek_run st s _ (str "|)&;") Ha) as (s1 & E & Ha1). rewrite (bind_Ret _ _ _ _ _ E).
  destruct Hf as [->| ->]; [|by exists s1]. cbn [starts].
  destruct (gettoken_run st s1 _ Ha1) as (k & q & e & s2 & E2 & Hk & Ha2). rewrite (bind_Ret _ _ _ _ _ E2).
  cbn in Hk. rewrite Hk. exists s2. by split.
Qed.

Lemma parseargs_run args : forall fuel st s ts i ret rs ws argv eargv,
  ahead (sh_buf st) s (concat (flat_arg <$> args) ++ ts) -> follow (str "|)&;") ts ->
  sh_cmds st !! i = Some (EXEC argv eargv) -> args_to (sh_buf st) argv eargv ws -> wrapped (sh_buf st) (sh_cmds st) (Some i) rs ret ->
  (length ws + length args < MAXARGS)%nat -> (length (concat (flat_arg <$> args)) < fuel)%nat ->
  exists ret' s' st' argv' eargv', parseargs fuel (Some i) ret (length ws) s (length (cstr (sh_buf st))) st = Ret (ret', (length ws + length args)%nat, s') st' /\
    ahead (sh_buf st) s' ts /\ sh_cmds st' !! i = Some (EXEC argv' eargv') /\ args_to (sh_buf st) argv' eargv' (ws ++ args.*1) /\
    wrapped (sh_buf st) (sh_cmds st') (Some i) (rs ++ concat args.*2) ret' /\
    sh_buf st' = sh_buf st /\ sh_os st' = sh_os st /\ take i (sh_cmds st') = take i (sh_cmds st).
Proof using.
  induction args as [|[w rs1] args IH]; intros [|fuel] st s ts i ret rs ws argv eargv Ha Hf Ei Hargs Hwr Hlen Hfu; try (cbn in Hfu; lia).
  { change (concat (flat_arg <$> []) ++ ts) with ts in Ha. destruct (parseargs_end fuel st s ts (Some i) ret (length ws) Ha Hf) as (s' & E & Ha').
    exists ret, s', st, argv, eargv. rewrite E. cbn [length fmap list_fmap concat]. rewrite Nat.add_0_r, !app_nil_r. by split_and!. }
  cbn [fmap list_fmap concat flat_arg fst snd length] in Ha, Hfu, Hlen |- *. rewrite <- app_assoc in Ha. rewrite length_app in Hfu.
  change (flat_arg (w, rs1)) with (TWord w :: flat_redirs rs1) in Ha, Hfu. cbn [app length] in Ha, Hfu.
  cbn [parseargs]. destruct (peek_run st s _ (str "|)&;") Ha) as (s1 & E & Ha1). rewrite (bind_Ret _ _ _ _ _ E).
  pose proof (ahead_ok _ _ _ Ha) as Hok. apply Forall_cons in Hok as [Hw Hok]. rewrite starts_word; [|by repeat constructor|done].
  destruct (gettoken_run st s1 _ Ha1) as (k & q & e & s2 & E2 & [-> Hwd] & Ha2). rewrite (bind_Ret _ _ _ _ _ E2). cbn [kind tail] in *.
  change (ch "a" =? 0) with false. rewrite Z.eqb_refl. cbn [negb]. rewrite (bind_Ret _ _ _ _ _ (set_arg_run _ _ _ _ _ _ _ Ei)).
  rewrite bool_decide_eq_false_2 by lia. set (st1 := upd_cmd _ _ _).
  apply Forall_app in Hok as [_ Hok]. rewrite length_flat_redirs in Hfu.
  destruct (parseredirs_run rs1 fuel st1 s2 (concat (flat_arg <$> args) ++ ts) ret Ha2) as (ret1 & s3 & new & E3 & Ha3 & Hwr1); [by apply redirs_end|lia|].
  rewrite (bind_Ret _ _ _ _ _ E3). set (st2 := grow st1 new) in *. assert (i < length (sh_cmds st))%nat as Hi by (by eapply lookup_lt_Some).
  assert (sh_cmds st2 !! i = Some (EXEC (<[length ws := Some q]> argv) (<[length ws := Some e]> eargv))) as Ei2.
  { apply lookup_app_l_Some. cbn. by rewrite list_lookup_insert_eq. }
  assert (same_redirs (sh_cmds st) (sh_cmds st2)) as Hsr.
  { intros j sub a b mode fd Hj. apply same_redirs_app. by apply (same_redirs_upd _ i _ _ _ _ Ei). }
  destruct (IH fuel st2 s3 ts i ret1 (rs ++ rs1) (ws ++ [w]) _ _ Ha3 Hf Ei2) as (ret' & s' & st' & argv' & eargv' & E4 & Ha4 & Ei4 & Hargs4 & Hwr4 & Eb & Eo & Et).
  - apply args_to_snoc; [done|done|lia].
  - eapply wrapped_app; [by apply (wrapped_same _ (sh_cmds st))|done].
  - rewrite length_app. cbn [length]. lia.
  - lia.
  - exists ret', s', st', argv', eargv'. rewrite <- !app_assoc in *. rewrite length_app in E4. cbn [length app concat] in *.
    split_and!; [|done|done|done|done|done|done|].
    + replace (S (length ws)) with (length ws + 1)%nat by lia. change (sh_buf st2) with (sh_buf st) in E4. rewrite E4. do 2 f_equal. f_equal. lia.
    + rewrite Et. unfold st2, st1, grow, upd_cmd. cbn [sh_cmds]. rewrite take_app_le by (rewrite length_insert; lia). by rewrite take_insert_ge by lia.
Qed.

Lemma args_to_end buf argv eargv ws : args_to buf argv eargv ws -> (length ws < MAXARGS)%nat ->
  args_to buf (<[length ws := None]> argv) (<[length ws := None]> eargv) ws /\ <[length ws := None]> argv !! length ws = Some None.
Proof using.
  intros (L1 & L2 & H) Hl. split; [|apply list_lookup_insert_eq; lia]. split_and!; [by rewrite length_insert|by rewrite length_insert|].
  intros k w Hk. apply lookup_lt_Some in Hk as Hlt. rewrite !list_lookup_insert_ne by lia. auto.
Qed.

(** A state that has only more commands. *)
Lemma grow_of st st' : sh_buf st' = sh_buf st -> sh_os st' = sh_os st -> take (length (sh_cmds st)) (sh_cmds st') = sh_cmds st ->
  exists new, st' = grow st new.
Proof using.
  intros Eb Eo Et. exists (drop (length (sh_cmds st)) (sh_cmds st')). destruct st' as [b cs o]. cbn in *. subst b o. unfold grow.
  f_equal. set (n := length (sh_cmds st)) in *. rewrite <- Et. by rewrite take_drop.
Qed.

(** The last step of parseexec(): the null pointer behind the arguments. *)
Lemma exec_finish st st3 argv eargv rs args ret : let i := length (sh_cmds st) in
  sh_cmds st3 !! i = Some (EXEC argv eargv) -> args_to (sh_buf st) argv eargv args.*1 ->
  wrapped (sh_buf st) (sh_cmds st3) (Some i) (rs ++ concat args.*2) ret -> (length args < MAXARGS)%nat ->
  sh_buf st3 = sh_buf st -> sh_os st3 = sh_os st -> take i (sh_cmds st3) = sh_cmds st ->
  exists new, set_arg (Some i) (length args) None None st3 = Ret tt (grow st new) /\
    points (sh_buf st) (sh_cmds st ++ new) ret (den_exec (XSimple rs args)).
Proof using.
  intros i Ei Hargs Hwr Hn Eb Eo Et. rewrite (set_arg_run _ _ _ _ _ _ _ Ei). set (st4 := upd_cmd _ _ _).
  destruct (grow_of st st4) as (new & E4); [done|done| |].
  { unfold st4, upd_cmd. cbn [sh_cmds]. rewrite take_insert_ge by lia. exact Et. }
  exists new. rewrite E4. split; [done|]. change (sh_cmds st ++ new) with (sh_cmds (grow st new)). rewrite <- E4. cbn [den_exec]. eapply wrapped_points.
  - apply args_to_end in Hargs as [Hargs Hend]; rewrite length_fmap in *; [|done].
    cbn [points]. eexists i, _, _. split_and!; [done|unfold st4; cbn; apply list_lookup_insert_eq; by eapply lookup_lt_Some|exact Hargs|].
    by rewrite length_fmap.
  - eapply wrapped_same; [|exact Hwr]. unfold st4, upd_cmd. cbn [sh_cmds]. by eapply same_redirs_upd.
Qed.

Lemma parsesimple_run rs args fuel st s ts :
  ahead (sh_buf st) s (flat_exec (XSimple rs args) ++ ts) -> follow (str "|)&;") ts -> (length args < MAXARGS)%nat ->
  (length (flat_exec (XSimple rs args)) < fuel)%nat ->
  exists p s' new, parsesimple fuel s (length (cstr (sh_buf st))) st = Ret (p, s') (grow st new) /\ ahead (sh_buf st) s' ts /\
    points (sh_buf st) (sh_cmds st ++ new) p (den_exec (XSimple rs args)).
Proof using.
  cbn [flat_exec den_exec]. intros Ha Hf Hn Hfu. rewrite length_app, length_flat_redirs in Hfu. rewrite <- app_assoc in Ha.
  pose proof (ahead_ok _ _ _ Ha) as Hok. apply Forall_app in Hok as [_ Hok]. unfold parsesimple, execcmd.
  set (c0 := EXEC _ _). set (i := length (sh_cmds st)). rewrite (bind_Ret _ _ _ _ _ (new_cmd_run st c0)). fold i.
  destruct (parseredirs_run rs fuel (grow st [c0]) s _ (Some i) Ha) as (ret & s2 & new & E2 & Ha2 & Hwr); [by apply redirs_end|lia|].
  rewrite (bind_Ret _ _ _ _ _ E2). rewrite grow_grow. set (st2 := grow st _).
  assert (sh_cmds st2 !! i = Some c0) as Ei by (by apply list_lookup_middle).
  destruct (parseargs_run args fuel st2 s2 ts i ret rs [] _ _ Ha2 Hf Ei) as (ret' & s' & st3 & argv & eargv & E3 & Ha3 & Ei3 & Hargs & Hwr3 & Eb & Eo & Et).
  { split_and!; [done|done|]. intros k w Hk. by rewrite lookup_nil in Hk. }
  { cbn [grow sh_cmds sh_buf] in Hwr. unfold st2. cbn [grow sh_cmds]. by rewrite <- app_assoc in Hwr. }
  { cbn. lia. }
  { lia. }
  rewrite (bind_Ret _ _ _ _ _ E3). cbn [length Nat.add app] in *.
  destruct (exec_finish st st3 argv eargv rs args ret' Ei3 Hargs Hwr3 Hn Eb Eo) as (new4 & E4 & Hp).
  { fold i. rewrite Et. unfold st2, i. cbn. by rewrite take_app_length. }
  rewrite (bind_Ret _ _ _ _ _ E4). by exists ret', s', new4.
Qed.

Lemma parseback_run n : forall fuel st s ts p c,
  ahead (sh_buf st) s (replicate n (TSym (ch "&")) ++ ts) -> starts (str "&") ts = false -> (n < fuel)%nat ->
  points (sh_buf st) (sh_cmds st) p c ->
  exists p' s' new, parseback fuel p s (length (cstr (sh_buf st))) st = Ret (p', s') (grow st new) /\ ahead (sh_buf st) s' ts /\
    points (sh_buf st) (sh_cmds st ++ new) p' (Nat.iter n SBack c).
Proof using.
  induction n as [|n IH]; intros [|fuel] st s ts p c Ha Hend Hfu Hp; try lia; cbn [parseback];
    destruct (peek_run st s _ (str "&") Ha) as (s1 & E & Ha1); rewrite (bind_Ret _ _ _ _ _ E); cbn [replicate app] in *.
  - rewrite Hend. exists p, s1, []. by rewrite grow_nil, app_nil_r.
  - change (starts (str "&") (TSym (ch "&") :: replicate n (TSym (ch "&")) ++ ts)) with true.
    destruct (gettoken_run st s1 _ Ha1) as (k & q & e & s2 & E2 & _ & Ha2). rewrite (bind_Ret _ _ _ _ _ E2). cbn [tail] in Ha2.
    unfold backcmd. rewrite (bind_Ret _ _ _ _ _ (new_cmd_run st (BACK p))).
    destruct (IH fuel (grow st [BACK p]) s2 ts (Some (length (sh_cmds st))) (SBack c) Ha2 Hend ltac:(lia)) as (p' & s' & new & E3 & Ha3 & Hp3).
    { cbn [points]. exists (length (sh_cmds st)), p. split_and!; [done|by apply list_lookup_middle|by apply points_more]. }
    exists p', s', (BACK p :: new). rewrite grow_grow in E3. split_and!; [exact E3|done|]. cbn [grow sh_cmds sh_buf] in Hp3.
    rewrite <- app_assoc in Hp3. by rewrite Nat.iter_succ_r.
Qed.

(** A parser that reads [ts1] in front of [ts2] and builds [c]. *)
Definition parses (m : nat -> nat -> nat -> M (shell W) (cmdp * nat)) (need : nat) (stop : list Z) (ts1 : list tok) (c : scmd) : Prop :=
  forall fuel st s ts2, ahead (sh_buf st) s (ts1 ++ ts2) -> follow stop ts2 -> (4 * length (ts1 ++ ts2) + need <= fuel)%nat ->
  exists p s' new, m fuel s (length (cstr (sh_buf st))) st = Ret (p, s') (grow st new) /\ ahead (sh_buf st) s' ts2 /\
    points (sh_buf st) (sh_cmds st ++ new) p c.

Lemma simple_not_block rs args ts : Forall tok_ok (flat_exec (XSimple rs args) ++ ts) -> follow (str "|)&;") ts ->
  starts (str "(") (flat_exec (XSimple rs args) ++ ts) = false.
Proof using.
  cbn [flat_exec]. intros Hok Hf. destruct rs as [|[op f] rs].
  - change (flat_redirs [] ++ concat (flat_arg <$> args)) with (concat (flat_arg <$> args)) in *.
    destruct args as [|[w rs] args]; [eapply follow_not; [|exact Hf]; repeat constructor|].
    change (concat (flat_arg <$> (w, rs) :: args) ++ ts) with (TWord w :: (flat_redirs rs ++ concat (flat_arg <$> args)) ++ ts) in *.
    apply Forall_cons in Hok as [Hw _]. apply starts_word; [by repeat constructor|done].
  - by destruct op.
Qed.

Lemma parseexec_simple rs args : few_exec (XSimple rs args) -> parses parseexec 2 (str "|)&;") (flat_exec (XSimple rs args)) (den_exec (XSimple rs args)).
Proof using.
  intros Hn [|fuel] st s ts Ha Hf Hfu; [lia|]. cbn [parseexec]. destruct (peek_run st s _ (str "(") Ha) as (s1 & E & Ha1).
  rewrite (bind_Ret _ _ _ _ _ E), simple_not_block; [|by eapply ahead_ok|done]. apply parsesimple_run; [done|done|done|].
  rewrite length_app in Hfu. lia.
Qed.

Lemma parseexec_block l rs : parses parseline 4 (str ")") (flat_line l) (den_line l) ->
  parses parseexec 2 (str "|)&;") (flat_exec (XBlock l rs)) (den_exec (XBlock l rs)).
Proof using.
  intros IH [|[|fuel]] st s ts Ha Hf Hfu; cbn [flat_exec] in *; [cbn in Hfu; lia..|]. cbn [parseexec app] in *. rewrite <- app_assoc in Ha, Hfu. cbn [app length] in Ha, Hfu.
  destruct (peek_run st s _ (str "(") Ha) as (s1 & E & Ha1). rewrite (bind_Ret _ _ _ _ _ E).
  change (starts (str "(") (TSym (ch "(") :: flat_line l ++ TSym (ch ")") :: flat_redirs rs ++ ts)) with true. cbn [parseblock].
  destruct (peek_run st s1 _ (str "(") Ha1) as (s2 & E2 & Ha2). rewrite (bind_Ret _ _ _ _ _ E2).
  change (starts (str "(") (TSym (ch "(") :: flat_line l ++ TSym (ch ")") :: flat_redirs rs ++ ts)) with true. cbn [negb].
  destruct (gettoken_run st s2 _ Ha2) as (k & q & e & s3 & E3 & _ & Ha3). rewrite (bind_Ret _ _ _ _ _ E3). cbn [tail] in Ha3.
  destruct (IH fuel st s3 (TSym (ch ")") :: flat_redirs rs ++ ts) Ha3) as (p & s4 & new & E4 & Ha4 & Hp); [by right|lia|].
  rewrite (bind_Ret _ _ _ _ _ E4). set (st4 := grow st new) in *. change (sh_buf st) with (sh_buf st4) in *.
  destruct (peek_run st4 s4 _ (str ")") Ha4) as (s5 & E5 & Ha5). rewrite (bind_Ret _ _ _ _ _ E5).
  change (starts (str ")") (TSym (ch ")") :: flat_redirs rs ++ ts)) with true. cbn [negb].
  destruct (gettoken_run st4 s5 _ Ha5) as (k6 & q6 & e6 & s6 & E6 & _ & Ha6). rewrite (bind_Ret _ _ _ _ _ E6). cbn [tail] in Ha6.
  destruct (parseredirs_run rs fuel st4 s6 ts p Ha6) as (p' & s' & new' & E7 & Ha7 & Hwr).
  { eapply follow_not; [|exact Hf]. repeat constructor. }
  { rewrite !length_app in Hfu. cbn [length] in Hfu. rewrite length_app, length_flat_redirs in Hfu. lia. }
  exists p', s', (new ++ new'). unfold st4 in E7, Hwr. rewrite grow_grow in E7. split_and!; [exact E7|done|].
  cbn [grow sh_cmds sh_buf] in Hwr. rewrite app_assoc. cbn [den_exec]. eapply wrapped_points; [|exact Hwr]. by apply points_more.
Qed.

Lemma parsepipe_end e : parses parseexec 2 (str "|)&;") (flat_exec e) (den_exec e) -> parses parsepipe 3 (str ")&;") (flat_pipe (PEnd e)) (den_pipe (PEnd e)).
Proof using.
  intros IH [|fuel] st s ts Ha Hf Hfu; [lia|]. cbn [parsepipe flat_pipe den_pipe] in *.
  destruct (IH fuel st s ts Ha) as (p & s1 & new & E & Ha1 & Hp); [|lia|].
  { eapply follow_in; [|exact Hf]. apply Forall_forall. by repeat constructor. }
  rewrite (bind_Ret _ _ _ _ _ E). destruct (peek_run (grow st new) s1 _ (str "|") Ha1) as (s2 & E2 & Ha2). rewrite (bind_Ret _ _ _ _ _ E2).
  rewrite (follow_not (str ")&;")); [|by repeat constructor|done]. by exists p, s2, new.
Qed.

Lemma parsepipe_bar e p : parses parseexec 2 (str "|)&;") (flat_exec e) (den_exec e) -> parses parsepipe 3 (str ")&;") (flat_pipe p) (den_pipe p) ->
  parses parsepipe 3 (str ")&;") (flat_pipe (PBar e p)) (den_pipe (PBar e p)).
Proof using.
  intros IHe IHp [|fuel] st s ts Ha Hf Hfu; [lia|]. cbn [parsepipe flat_pipe den_pipe] in *. rewrite <- app_assoc in Ha, Hfu. cbn [app] in Ha, Hfu.
  destruct (IHe fuel st s _ Ha) as (p1 & s1 & new & E & Ha1 & Hp1); [by right|lia|]. rewrite (bind_Ret _ _ _ _ _ E).
  set (st1 := grow st new) in *. change (sh_buf st) with (sh_buf st1) in *.
  destruct (peek_run st1 s1 _ (str "|") Ha1) as (s2 & E2 & Ha2). rewrite (bind_Ret _ _ _ _ _ E2).
  change (starts (str "|") (TSym (ch "|") :: flat_pipe p ++ ts)) with true.
  destruct (gettoken_run st1 s2 _ Ha2) as (k & q & e3 & s3 & E3 & _ & Ha3). rewrite (bind_Ret _ _ _ _ _ E3). cbn [tail] in Ha3.
  destruct (IHp fuel st1 s3 ts Ha3 Hf) as (p2 & s4 & new2 & E4 & Ha4 & Hp2).
  { rewrite length_app in Hfu. cbn [length] in Hfu. lia. }
  rewrite (bind_Ret _ _ _ _ _ E4). unfold pipecmd. rewrite (bind_Ret _ _ _ _ _ (new_cmd_run _ (PIPE p1 p2))). unfold st1 in *. rewrite !grow_grow.
  eexists _, s4, _. split_and!; [reflexivity|done|]. cbn [grow sh_cmds sh_buf] in *. rewrite <- !app_assoc in *. by apply points_pipe.
Qed.

(** The part of parseline() before it looks for a semicolon. *)
Lemma parse_backed p n fuel st s ts : parses parsepipe 3 (str ")&;") (flat_pipe p) (den_pipe p) ->
  ahead (sh_buf st) s (flat_pipe p ++ replicate n (TSym (ch "&")) ++ ts) -> follow (str ");") ts ->
  (4 * length (flat_pipe p ++ replicate n (TSym (ch "&")) ++ ts) + 3 <= fuel)%nat ->
  exists p1 s1 new1 p2 s2 new2, parsepipe fuel s (length (cstr (sh_buf st))) st = Ret (p1, s1) (grow st new1) /\
    parseback fuel p1 s1 (length (cstr (sh_buf st))) (grow st new1) = Ret (p2, s2) (grow st new2) /\
    ahead (sh_buf st) s2 ts /\ points (sh_buf st) (sh_cmds st ++ new2) p2 (Nat.iter n SBack (den_pipe p)).
Proof using.
  intros IH Ha Hf Hfu. destruct (IH fuel st s _ Ha) as (p1 & s1 & new1 & E1 & Ha1 & Hp1); [|lia|].
  { destruct n; [|by right]. eapply follow_in; [|exact Hf]. apply Forall_forall. by repeat constructor. }
  exists p1, s1, new1. destruct (parseback_run n fuel (grow st new1) s1 ts p1 (den_pipe p) Ha1) as (p2 & s2 & new2 & E2 & Ha2 & Hp2).
  { eapply follow_not; [|exact Hf]. by repeat constructor. }
  { rewrite !length_app, length_replicate in Hfu. lia. }
  { done. }
  exists p2, s2, (new1 ++ new2). rewrite grow_grow in E2. cbn [grow sh_cmds sh_buf] in Hp2. rewrite <- app_assoc in Hp2. done.
Qed.

Lemma parseline_end p n : parses parsepipe 3 (str ")&;") (flat_pipe p) (den_pipe p) -> parses parseline 4 (str ")") (flat_line (LEnd p n)) (den_line (LEnd p n)).
Proof using.
  intros IH [|fuel] st s ts Ha Hf Hfu; [lia|]. cbn [parseline flat_line den_line] in *. rewrite <- app_assoc in Ha, Hfu.
  destruct (parse_backed p n fuel st s ts IH Ha) as (p1 & s1 & new1 & p2 & s2 & new2 & E1 & E2 & Ha2 & Hp2); [|lia|].
  { eapply follow_in; [|exact Hf]. apply Forall_forall. by repeat constructor. }
  rewrite (bind_Ret _ _ _ _ _ E1), (bind_Ret _ _ _ _ _ E2).
  destruct (peek_run (grow st new2) s2 _ (str ";") Ha2) as (s3 & E3 & Ha3). rewrite (bind_Ret _ _ _ _ _ E3).
  rewrite (follow_not (str ")")); [|by repeat constructor|done]. by exists p2, s3, new2.
Qed.

Lemma parseline_seq p n l : parses parsepipe 3 (str ")&;") (flat_pipe p) (den_pipe p) -> parses parseline 4 (str ")") (flat_line l) (den_line l) ->
  parses parseline 4 (str ")") (flat_line (LSeq p n l)) (den_line (LSeq p n l)).
Proof using.
  intros IHp IHl [|fuel] st s ts Ha Hf Hfu; [lia|]. cbn [parseline flat_line den_line] in *. rewrite <- !app_assoc in Ha, Hfu. cbn [app] in Ha, Hfu.
  destruct (parse_backed p n fuel st s _ IHp Ha) as (p1 & s1 & new1 & p2 & s2 & new2 & E1 & E2 & Ha2 & Hp2); [by right|lia|].
  rewrite (bind_Ret _ _ _ _ _ E1), (bind_Ret _ _ _ _ _ E2). set (st2 := grow st new2) in *. change (sh_buf st) with (sh_buf st2) in *.
  destruct (peek_run st2 s2 _ (str ";") Ha2) as (s3 & E3 & Ha3). rewrite (bind_Ret _ _ _ _ _ E3).
  change (starts (str ";") (TSym (ch ";") :: flat_line l ++ ts)) with true.
  destruct (gettoken_run st2 s3 _ Ha3) as (k & q & e4 & s4 & E4 & _ & Ha4). rewrite (bind_Ret _ _ _ _ _ E4). cbn [tail] in Ha4.
  destruct (IHl fuel st2 s4 ts Ha4 Hf) as (p5 & s5 & new5 & E5 & Ha5 & Hp5).
  { rewrite !length_app in Hfu. cbn [length] in Hfu. rewrite !length_app in *. lia. }
  rewrite (bind_Ret _ _ _ _ _ E5). unfold listcmd. rewrite (bind_Ret _ _ _ _ _ (new_cmd_run _ (LIST p2 p5))). unfold st2 in *. rewrite !grow_grow.
  eexists _, s5, _. split_and!; [reflexivity|done|]. cbn [grow sh_cmds sh_buf] in *. rewrite <- !app_assoc in *. by apply points_list.
Qed.

Lemma parser_complete :
  (forall l, few_line l -> parses parseline 4 (str ")") (flat_line l) (den_line l)) /\
  (forall p, few_pipe p -> parses parsepipe 3 (str ")&;") (flat_pipe p) (den_pipe p)) /\
  (forall e, few_exec e -> parses parseexec 2 (str "|)&;") (flat_exec e) (den_exec e)).
Proof using.
  apply syntax_ind.
  - intros p IH n H. by apply parseline_end, IH.
  - intros p IHp n l IHl [H1 H2]. by apply parseline_seq; [apply IHp|apply IHl].
  - intros e IH H. by apply parsepipe_end, IH.
  - intros e IHe p IHp [H1 H2]. by apply parsepipe_bar; [apply IHe|apply IHp].
  - intros rs args H. by apply parseexec_simple.
  - intros l IH rs H. by apply parseexec_block, IH.
Qed.
End Run.

(** ** Terminating the words *)

(** What a command structure is read as: its words are strings in the buffer. *)
Fixpoint reads (buf : list Z) (cmds : list cmd) (p : cmdp) (c : scmd) : Prop :=
  match c with
  | SExec args => exists i argv eargv, p = Some i /\ cmds !! i = Some (EXEC argv eargv) /\ argv_strings buf argv = args
  | SRedir c' file mode fd => exists i sub q e, p = Some i /\ cmds !! i = Some (REDIR sub q e mode fd) /\
      str_at buf q = file /\ reads buf cmds sub c'
  | SPipe l r => exists i lp rp, p = Some i /\ cmds !! i = Some (PIPE lp rp) /\ reads buf cmds lp l /\ reads buf cmds rp r
  | SList l r => exists i lp rp, p = Some i /\ cmds !! i = Some (LIST lp rp) /\ reads buf cmds lp l /\ reads buf cmds rp r
  | SBack c' => exists i sub, p = Some i /\ cmds !! i = Some (BACK sub) /\ reads buf cmds sub c'
  end.

(** No word goes on at [j]. *)
Definition ends (buf : list Z) (j : nat) : Prop := exists r, sits buf j r /\ (r = [] \/ is_word (first_char r) = false).

(** [buf1] is [buf0] with some ends of words overwritten by 0. *)
Definition nulled (buf0 buf1 : list Z) : Prop :=
  forall j, char_at buf1 j = char_at buf0 j \/ ends buf0 j /\ char_at buf1 j = 0.

(** Every 0 of [buf1] is one of [buf2]. *)
Definition zeros (buf1 buf2 : list Z) : Prop := forall j, char_at buf1 j = 0 -> char_at buf2 j = 0.

Lemma char_at_insert buf e j : char_at (<[e := 0]> buf) j = if decide (j = e) then 0 else char_at buf j.
Proof.
  unfold char_at. rewrite !nth_lookup. destruct (decide (j = e)) as [->|Hne].
  - destruct (decide (e < length buf)%nat); [by rewrite list_lookup_insert_eq|]. by rewrite lookup_ge_None_2 by (rewrite length_insert; lia).
  - by rewrite list_lookup_insert_ne.
Qed.

Lemma drop_char buf q : drop q buf = [] /\ char_at buf q = 0 \/ drop q buf = char_at buf q :: drop (S q) buf.
Proof.
  unfold char_at. destruct (buf !! q) as [c|] eqn:E.
  - right. rewrite (nth_lookup_Some _ _ _ _ E). by apply drop_S.
  - left. rewrite nth_lookup, E. apply lookup_ge_None in E. split; [by apply drop_ge|done].
Qed.

Lemma str_at_eq buf w : forall q, (forall i c, w !! i = Some c -> char_at buf (q + i) = c /\ c <> 0) -> char_at buf (q + length w) = 0 -> str_at buf q = w.
Proof.
  unfold str_at. induction w as [|c w IH]; intros q Hw He.
  - cbn [length] in He. rewrite Nat.add_0_r in He. destruct (drop_char buf q) as [[-> _]| ->]; [done|]. cbn. by rewrite He.
  - destruct (Hw O c eq_refl) as [Hc Hne]. rewrite Nat.add_0_r in Hc. destruct (drop_char buf q) as [[_ ?]| ->]; [congruence|]. cbn.
    rewrite Hc, (proj2 (Z.eqb_neq c 0) Hne). f_equal. apply IH.
    + intros i d Hi. replace (S q + i)%nat with (q + S i)%nat by lia. by apply Hw.
    + by replace (S q + length w)%nat with (q + length (c :: w))%nat by (cbn; lia).
Qed.

Lemma word_ends buf q e w : word_at buf q e w -> ends buf e.
Proof. intros (r & _ & Hs & _ & Hr). by exists r. Qed.

Lemma sits_suffix buf q e r r' : sits buf q r -> sits buf e r' -> q = e -> r = r'.
Proof. intros (pre & E & ->) (pre' & E' & ->) Hl. rewrite E in E'. by apply app_inj_1 in E' as [_ ?]. Qed.

Lemma word_read buf0 buf q e w : word_at buf0 q e w -> nulled buf0 buf -> char_at buf e = 0 -> str_at buf q = w.
Proof.
  intros (r & Hq & He & Hw & _) Hn H0. pose proof (sits_app _ _ _ _ Hq) as He'.
  assert (e = q + length w)%nat as Ee.
  { destruct He as (pre & E & ->), He' as (pre' & E' & El). rewrite El. rewrite E in E'. by apply app_inv_tail in E' as ->. }
  apply str_at_eq; [|by rewrite <- Ee]. intros i c Hi. apply list_elem_of_split_length in Hi as (w1 & w2 & -> & ->).
  apply Forall_app in Hw as [_ [Hc _]%Forall_cons]. rewrite <- app_assoc in Hq. apply sits_app in Hq as Hi. cbn [app] in Hi.
  pose proof (sits_char _ _ _ Hi) as Hch. cbn [first_char] in Hch. split; [|by eapply sits_nonzero].
  destruct (Hn (q + length w1)%nat) as [->|[(r' & Hr' & Hend) _]]; [done|].
  pose proof (sits_suffix _ _ _ _ _ Hi Hr' eq_refl) as <-. cbn in Hend. destruct Hend; [done|congruence].
Qed.

Lemma nulled_refl buf : nulled buf buf.
Proof. intros j. by left. Qed.

Lemma nulled_put buf0 buf e : nulled buf0 buf -> ends buf0 e -> nulled buf0 (<[e := 0]> buf).
Proof. intros Hn He j. rewrite char_at_insert. destruct (decide (j = e)) as [->|]; [by right|apply Hn]. Qed.

Lemma zeros_put buf e : zeros buf (<[e := 0]> buf).
Proof. intros j Hj. rewrite char_at_insert. by destruct (decide (j = e)). Qed.

Lemma zeros_trans b1 b2 b3 : zeros b1 b2 -> zeros b2 b3 -> zeros b1 b3.
Proof. unfold zeros. auto. Qed.

(** At the end of the tokens only white space is left. *)
Lemma lex_nil r : lex [] r = [] -> dropw is_white r = [].
Proof.
  rewrite <- lex_white. intros H. pose proof (dropw_first is_white r) as Hf. destruct (dropw is_white r) as [|c r']; [done|].
  by rewrite lex_next in H.
Qed.

Lemma skip_end {W} (st : shell W) s : ahead (sh_buf st) s [] ->
  exists s', peek s (length (cstr (sh_buf st))) [] st = Ret (false, s') st /\ s' = length (cstr (sh_buf st)).
Proof.
  intros (r & Hs & Hl). set (buf := sh_buf st) in *. destruct (skip_white buf s r Hs) as [Hs' _]. set (s' := skip _ _ _ _) in Hs'. exists s'.
  rewrite (lex_nil r Hl) in Hs'. split.
  - unfold peek. rewrite (bind_Ret get_buf _ _ _ _ eq_refl). fold buf. fold s'. by rewrite (sits_char _ _ _ Hs').
  - destruct Hs' as (pre & -> & ->). by rewrite app_nil_r.
Qed.

Section Nul.
Context {W : Type} {OS : Sys W}.
Implicit Types (st : shell W).

(** [buf'] is what is in the buffer of [st] after a run of nulterminate(), which
    leaves the rest of the state alone; from then on [c] can be read. *)
Definition terminated (buf0 : list Z) (st : shell W) (buf' : list Z) (read : list Z -> Prop) : Prop :=
  nulled buf0 buf' /\ zeros (sh_buf st) buf' /\ forall buf, nulled buf0 buf -> zeros buf' buf -> read buf.

Definition with_buf (st : shell W) (buf : list Z) : shell W := Shell buf (sh_cmds st) (sh_os st).

Lemma nul_args_run buf0 ws : forall argv eargv st, nulled buf0 (sh_buf st) ->
  (forall k w, ws !! k = Some w -> exists q e, argv !! k = Some (Some q) /\ eargv !! k = Some (Some e) /\ word_at buf0 q e w) ->
  argv !! length ws = Some None ->
  exists buf', nul_args argv eargv st = Ret tt (with_buf st buf') /\ terminated buf0 st buf' (fun buf => argv_strings buf argv = ws).
Proof using.
  induction ws as [|w ws IH]; intros argv eargv st Hn Hw Hend.
  - destruct argv as [|a argv]; [done|]. injection Hend as ->. exists (sh_buf st). split; [by destruct st|]. split_and!; [done|by intros j|done].
  - destruct (Hw O w eq_refl) as (q & e & Hq & He & Hwd). destruct argv as [|a argv]; [done|]. destruct eargv as [|b eargv]; [done|].
    injection Hq as ->. injection He as ->. cbn [nul_args].
    set (st1 := with_buf st (<[e := 0]> (sh_buf st))). assert (put_nul e st = Ret tt st1) as E1 by done. rewrite (bind_Ret _ _ _ _ _ E1).
    destruct (IH argv eargv st1) as (buf' & E2 & Hn2 & Hz2 & Hr2); [apply nulled_put; [done|by eapply word_ends]|intros k w' Hk; by apply (Hw (S k) w')|done|].
    exists buf'. split; [exact E2|]. split_and!; [done|eapply zeros_trans; [apply zeros_put|exact Hz2]|]. intros buf Hb Hz. cbn [argv_strings].
    rewrite Hr2 by done. f_equal. eapply word_read; [done|done|]. apply Hz, Hz2. cbn [st1 with_buf sh_buf]. rewrite char_at_insert. by rewrite decide_True.
Qed.

Fixpoint depth (c : scmd) : nat :=
  match c with
  | SExec _ => 1
  | SRedir c' _ _ _ | SBack c' => S (depth c')
  | SPipe l r | SList l r => S (Nat.max (depth l) (depth r))
  end.

Lemma nulterminate_two buf0 st (m1 m2 : M (shell W) unit) (R1 R2 : list Z -> Prop) :
  (exists buf', m1 st = Ret tt (with_buf st buf') /\ terminated buf0 st buf' R1) ->
  (forall buf1, nulled buf0 buf1 -> exists buf', m2 (with_buf st buf1) = Ret tt (with_buf st buf') /\ terminated buf0 (with_buf st buf1) buf' R2) ->
  exists buf', (m1;; m2) st = Ret tt (with_buf st buf') /\ terminated buf0 st buf' (fun buf => R1 buf /\ R2 buf).
Proof using.
  intros (b1 & E1 & Hn1 & Hz1 & Hr1) H2. destruct (H2 b1 Hn1) as (b2 & E2 & Hn2 & Hz2 & Hr2). exists b2.
  rewrite (bind_Ret _ _ _ _ _ E1). split; [done|]. split_and!; [done|by eapply zeros_trans|]. intros buf Hb Hz. split; [|by apply Hr2].
  apply Hr1; [done|]. by eapply zeros_trans.
Qed.

Lemma nulterminate_run buf0 c : forall fuel p st, points buf0 (sh_cmds st) p c -> nulled buf0 (sh_buf st) -> (depth c <= fuel)%nat ->
  exists buf', nulterminate fuel p st = Ret tt (with_buf st buf') /\ terminated buf0 st buf' (fun buf => reads buf (sh_cmds st) p c).
Proof using.
  assert (forall st p i c (k : cmd -> M (shell W) unit), p = Some i -> sh_cmds st !! i = Some c -> (c ← cmd_at p; k c) st = k c st) as Hat.
  { intros st p i c' k -> E. by rewrite (bind_Ret _ _ _ _ _ (cmd_at_run _ _ _ E)). }
  induction c as [args|c IH file mode fd|l IHl r IHr|l IHl r IHr|c IH]; cbn [points depth]; intros [|fuel] p st Hp Hn Hfu; try lia; cbn [nulterminate].
  - destruct Hp as (i & argv & eargv & -> & E & (_ & _ & Hw) & Hend). rewrite (Hat _ _ i _ _ eq_refl E).
    destruct (nul_args_run buf0 args argv eargv st Hn Hw Hend) as (buf' & Er & Hn' & Hz & Hr). exists buf'. split; [done|]. split_and!; [done|done|].
    intros buf Hb Hzb. exists i, argv, eargv. by split_and!; [..|apply Hr].
  - destruct Hp as (i & sub & q & e & -> & E & Hw & Hp). rewrite (Hat _ _ i _ _ eq_refl E).
    destruct (nulterminate_two buf0 st (nulterminate fuel sub) (put_nul e) _ (fun buf => str_at buf q = file) (IH fuel sub st Hp Hn ltac:(lia))) as (b & Eb & Hn' & Hz & Hr).
    { intros buf1 Hn1. exists (<[e := 0]> buf1). split; [done|]. split_and!; [apply nulled_put; [done|by eapply word_ends]|apply zeros_put|].
      intros buf Hb Hz. eapply word_read; [done|done|]. apply Hz. rewrite char_at_insert. by rewrite decide_True. }
    exists b. split; [exact Eb|]. split_and!; [done|done|]. intros buf Hb Hzb. destruct (Hr buf Hb Hzb). by exists i, sub, q, e.
  - destruct Hp as (i & lp & rp & -> & E & Hl & Hr). rewrite (Hat _ _ i _ _ eq_refl E).
    destruct (nulterminate_two buf0 st (nulterminate fuel lp) (nulterminate fuel rp) _ (fun buf => reads buf (sh_cmds st) rp r)
      (IHl fuel lp st Hl Hn ltac:(lia))) as (b & Eb & Hn' & Hz & Hrd); [intros b1 Hb1; apply (IHr fuel rp (with_buf st b1)); [done|done|lia]|].
    exists b. split; [exact Eb|]. split_and!; [done|done|]. intros buf Hb Hzb. destruct (Hrd buf Hb Hzb). by exists i, lp, rp.
  - destruct Hp as (i & lp & rp & -> & E & Hl & Hr). rewrite (Hat _ _ i _ _ eq_refl E).
    destruct (nulterminate_two buf0 st (nulterminate fuel lp) (nulterminate fuel rp) _ (fun buf => reads buf (sh_cmds st) rp r)
      (IHl fuel lp st Hl Hn ltac:(lia))) as (b & Eb & Hn' & Hz & Hrd); [intros b1 Hb1; apply (IHr fuel rp (with_buf st b1)); [done|done|lia]|].
    exists b. split; [exact Eb|]. split_and!; [done|done|]. intros buf Hb Hzb. destruct (Hrd buf Hb Hzb). by exists i, lp, rp.
  - destruct Hp as (i & sub & -> & E & Hp). rewrite (Hat _ _ i _ _ eq_refl E).
    destruct (IH fuel sub st Hp Hn ltac:(lia)) as (b & Eb & Hn' & Hz & Hr). exists b. split; [done|]. split_and!; [done|done|].
    intros buf Hb Hzb. exists i, sub. by split_and!; [..|apply Hr].
Qed.

Lemma depth_redirs rs : forall c, depth (foldl redirect c rs) = (length rs + depth c)%nat.
Proof using. induction rs as [|r rs IH]; intros c; cbn; [done|]. rewrite IH. cbn. lia. Qed.

Lemma depth_back n c : depth (Nat.iter n SBack c) = (n + depth c)%nat.
Proof using. induction n as [|n IH]; [done|]. change (depth (Nat.iter (S n) SBack c)) with (S (depth (Nat.iter n SBack c))). lia. Qed.

Lemma length_flat_args args : (length (concat args.*2) <= length (concat (flat_arg <$> args)))%nat.
Proof using.
  induction args as [|[w rs] args IH]; [done|]. change (concat ((w, rs) :: args).*2) with (rs ++ concat args.*2).
  change (concat (flat_arg <$> (w, rs) :: args)) with (TWord w :: flat_redirs rs ++ concat (flat_arg <$> args)).
  cbn [length]. rewrite !length_app, length_flat_redirs. lia.
Qed.

Lemma depth_flat :
  (forall l, depth (den_line l) <= S (length (flat_line l)))%nat /\ (forall p, depth (den_pipe p) <= S (length (flat_pipe p)))%nat /\
  (forall e, depth (den_exec e) <= S (length (flat_exec e)))%nat.
Proof using.
  apply syntax_ind; cbn [den_line den_pipe den_exec flat_line flat_pipe flat_exec depth]; intros;
    rewrite ?depth_back, ?depth_redirs, ?length_app, ?length_replicate; cbn [length depth]; rewrite ?length_app, ?length_flat_redirs; cbn [length];
    rewrite ?length_flat_redirs; try lia.
  pose proof (length_flat_args args). lia.
Qed.

(** parsecmd() accepts the sentences of the grammar. *)
Lemma parsecmd_complete l fuel st :
  lex [] (cstr (sh_buf st)) = flat_line l -> few_line l -> (4 * length (flat_line l) + 4 <= fuel)%nat ->
  exists p st', parsecmd fuel st = Ret p st' /\ sh_os st' = sh_os st /\ reads (sh_buf st') (sh_cmds st') p (den_line l).
Proof using.
  intros Hl Hfew Hfu. unfold parsecmd. rewrite (bind_Ret get_buf _ _ _ _ eq_refl). set (buf := sh_buf st) in *.
  assert (ahead buf 0 (flat_line l ++ [])) as Ha by (exists (cstr buf); split; [by exists []|by rewrite app_nil_r]).
  destruct (proj1 parser_complete l Hfew fuel st 0%nat [] Ha) as (p & s & new & E & Ha' & Hp); [by left|rewrite app_nil_r; lia|].
  rewrite (bind_Ret _ _ _ _ _ E). set (st1 := grow st new) in *. change (sh_buf st) with (sh_buf st1) in *.
  destruct (skip_end st1 s Ha') as (s' & E2 & Es). rewrite (bind_Ret _ _ _ _ _ E2), bool_decide_eq_true_2 by done. cbn [negb].
  destruct (nulterminate_run buf (den_line l) fuel p st1 Hp (nulled_refl _)) as (buf' & E3 & Hn & _ & Hr).
  { pose proof (proj1 depth_flat l). lia. }
  rewrite (bind_Ret _ _ _ _ _ E3). exists p, (with_buf st1 buf'). split_and!; [done|done|]. cbn [with_buf sh_buf sh_cmds]. apply Hr; [done|by intros j].
Qed.

(** ** Lines that are not sentences *)

Definition exits {A} (o : out (shell W) A) : Prop := exists st', o = Panic "exit" st'.

Lemma exits_bind {A B} (m : M (shell W) A) (k : A -> M (shell W) B) st : exits (m st) -> exits ((m ≫= k) st).
Proof using. intros (st' & E). exists st'. by rewrite (bind_Panic _ _ _ _ _ E). Qed.

Lemma shpanic_exits {A} msg st : exits (@shpanic W OS A msg st).
Proof using.
  unfold shpanic. assert (os (fprintf 2 (str "%s" ++ [10]) [UStr (Some msg)]) st = Ret tt
    (Shell (sh_buf st) (sh_cmds st) (emit 2 (sh_os st) (render false (str "%s" ++ [10]) [UStr (Some msg)])))) as E.
  { unfold os, fprintf, vprintf. pose proof (vprintf_run 2 (str "%s" ++ [10]) 0 [UStr (Some msg)] ltac:(by left) eq_refl (sh_os st)) as E. by rewrite E. }
  rewrite (bind_Ret _ _ _ _ _ E). by eexists.
Qed.

(** Leftovers are reported before the exit. *)
Lemma complains {A} line st : exits ((os (fprintf 2 (str "leftovers: %s" ++ [10]) [UStr (Some line)]);; @shpanic W OS A (str "syntax")) st).
Proof using.
  assert (exists st', os (fprintf 2 (str "leftovers: %s" ++ [10]) [UStr (Some line)]) st = Ret tt st') as (st' & E).
  { unfold os, fprintf, vprintf. pose proof (vprintf_run 2 (str "leftovers: %s" ++ [10]) 0 [UStr (Some line)] ltac:(by left) eq_refl (sh_os st)) as E.
    rewrite E. by eexists. }
  rewrite (bind_Ret _ _ _ _ _ E). apply shpanic_exits.
Qed.

(** The token a redirection starts with. *)
Lemma starts_redir ts : Forall tok_ok ts -> starts (str "<>") ts = true ->
  exists op ts', ts = match op with RIn => TSym (ch "<") | ROut => TSym (ch ">") | RApp => TApp end :: ts'.
Proof using.
  intros Hok Hs. destruct ts as [|t ts]; [done|]. apply Forall_cons in Hok as [Ht _]. destruct t as [w|c|].
  - by rewrite starts_word in Hs; [|repeat constructor|].
  - cbn [starts tchar text first_char] in Hs. apply bool_decide_eq_true, strchr_in in Hs. change (str "<>") with [ch "<"; ch ">"] in Hs.
    apply elem_of_cons in Hs as [->|[->|?%elem_of_nil]%elem_of_cons]; [by exists RIn, ts|by exists ROut, ts|done].
  - by exists RApp, ts.
Qed.

Lemma starts_sym c ts : Forall tok_ok ts -> starts [c] ts = true -> is_symbol c = true -> c <> ch ">" -> exists ts', ts = TSym c :: ts'.
Proof using.
  intros Hok Hs Hc Hne. destruct ts as [|t ts]; [done|]. apply Forall_cons in Hok as [Ht _]. destruct t as [w|c'|].
  - by rewrite starts_word in Hs; [|repeat constructor|].
  - cbn [starts tchar text first_char] in Hs. apply bool_decide_eq_true, strchr_in, list_elem_of_singleton in Hs as ->. by exists ts.
  - cbn [starts] in Hs. apply bool_decide_eq_true, strchr_in, list_elem_of_singleton in Hs. by rewrite <- Hs in Hne.
Qed.

(** Only a word is of kind ['a']. *)
Lemma word_kind buf ts k q e : Forall tok_ok ts -> token_ok buf ts k q e -> k = ch "a" -> exists w ts', ts = TWord w :: ts' /\ word_at buf q e w.
Proof using.
  intros Hok Hk ->. destruct ts as [|t ts]; [done|]. apply Forall_cons in Hok as [Ht _]. destruct t as [w|c|], Hk as [Hk Hw]; [by exists w, ts| |done].
  cbn [kind] in Hk. cbn [tok_ok] in Ht. rewrite <- Hk in Ht. by vm_compute in Ht.
Qed.

Lemma parseredirs_any fuel : forall st s ts p, ahead (sh_buf st) s ts -> (length ts < fuel)%nat ->
  exits (parseredirs fuel p s (length (cstr (sh_buf st))) st) \/
  exists rs ts2 p' s' new, parseredirs fuel p s (length (cstr (sh_buf st))) st = Ret (p', s') (grow st new) /\ ts = flat_redirs rs ++ ts2 /\
    ahead (sh_buf st) s' ts2 /\ wrapped (sh_buf st) (sh_cmds st ++ new) p rs p'.
Proof using.
  induction fuel as [|fuel IH]; intros st s ts p Ha Hfu; [lia|]. cbn [parseredirs].
  destruct (peek_run st s _ (str "<>") Ha) as (s1 & E1 & Ha1). rewrite (bind_Ret _ _ _ _ _ E1). destruct (starts (str "<>") ts) eqn:Es.
  2: { right. exists [], ts, p, s1, []. rewrite grow_nil. by split_and!. }
  pose proof (ahead_ok _ _ _ Ha) as Hok. destruct (starts_redir ts Hok Es) as (op & ts1 & ->). apply Forall_cons in Hok as [_ Hok].
  destruct (gettoken_run st s1 _ Ha1) as (k & q0 & e0 & s2 & E2 & [-> _] & Ha2). rewrite (bind_Ret _ _ _ _ _ E2). cbn [tail] in Ha2.
  destruct (gettoken_run st s2 _ Ha2) as (k2 & q & e & s3 & E3 & Hk2 & Ha3). rewrite (bind_Ret _ _ _ _ _ E3).
  destruct (Z.eqb_spec k2 (ch "a")) as [Ek|]; cbn [negb]; [|left; apply shpanic_exits].
  destruct (word_kind _ _ _ _ _ Hok Hk2 Ek) as (f & ts2 & -> & Hw). cbn [tail length] in *.
  set (r := SR op f). set (c := REDIR p q e (r_mode r) (r_fd r)).
  match goal with |- context [mbind _ ?m st] => assert (m st = Ret (Some (length (sh_cmds st))) (grow st [c])) as E4 by (by destruct op) end.
  rewrite (bind_Ret _ _ _ _ _ E4).
  destruct (IH (grow st [c]) s3 ts2 (Some (length (sh_cmds st))) Ha3 ltac:(lia)) as [?|(rs & ts3 & p' & s' & new & E5 & -> & Ha5 & Hwr)]; [by left|right].
  exists (r :: rs), ts3, p', s', (c :: new). rewrite grow_grow in E5. split_and!; [exact E5|by destruct op|done|].
  cbn [wrapped]. cbn [grow sh_cmds sh_buf] in Hwr. rewrite <- app_assoc in Hwr. exists (length (sh_cmds st)), q, e.
  split_and!; [|done|done]. by apply list_lookup_middle.
Qed.

(** What parseargs() returns: the arguments [args] and their redirections, after the
    words [ws] and the redirections [rs]. *)
Definition args_parsed (st : shell W) (i : nat) (ws : list (list Z)) (rs : list sredir) (ts : list tok) (o : out (shell W) (cmdp * nat * nat)) : Prop :=
  exists args ts2 ret' s' st' argv' eargv', o = Ret (ret', (length ws + length args)%nat, s') st' /\
    ts = concat (flat_arg <$> args) ++ ts2 /\ (length ws + length args < MAXARGS)%nat /\
    ahead (sh_buf st) s' ts2 /\ sh_cmds st' !! i = Some (EXEC argv' eargv') /\ args_to (sh_buf st) argv' eargv' (ws ++ args.*1) /\
    wrapped (sh_buf st) (sh_cmds st') (Some i) (rs ++ concat args.*2) ret' /\
    sh_buf st' = sh_buf st /\ sh_os st' = sh_os st /\ take i (sh_cmds st') = take i (sh_cmds st).

Lemma parseargs_any fuel : forall st s ts i ret rs ws argv eargv,
  ahead (sh_buf st) s ts -> sh_cmds st !! i = Some (EXEC argv eargv) -> args_to (sh_buf st) argv eargv ws ->
  wrapped (sh_buf st) (sh_cmds st) (Some i) rs ret -> (length ws < MAXARGS)%nat -> (S (length ts) < fuel)%nat ->
  let o := parseargs fuel (Some i) ret (length ws) s (length (cstr (sh_buf st))) st in exits o \/ args_parsed st i ws rs ts o.
Proof using.
  induction fuel as [|fuel IH]; intros st s ts i ret rs ws argv eargv Ha Ei Hargs Hwr Hlen Hfu; [lia|]. cbn [parseargs].
  destruct (peek_run st s _ (str "|)&;") Ha) as (s1 & E1 & Ha1). rewrite (bind_Ret _ _ _ _ _ E1).
  assert (forall s', ahead (sh_buf st) s' ts -> args_parsed st i ws rs ts (Ret (ret, length ws, s') st)) as Hstop.
  { intros s' Hs'. exists [], ts, ret, s', st, argv, eargv. cbn [length fmap list_fmap concat]. rewrite Nat.add_0_r, !app_nil_r. by split_and!. }
  destruct (starts (str "|)&;") ts); [right; by apply Hstop|].
  destruct (gettoken_run st s1 _ Ha1) as (k & q & e & s2 & E2 & Hk & Ha2). rewrite (bind_Ret _ _ _ _ _ E2).
  destruct (Z.eqb_spec k 0) as [Ek0|Ek0].
  { right. destruct ts as [|t ts]; [by apply Hstop|]. exfalso. destruct Hk as [Hk _]. pose proof (ahead_ok _ _ _ Ha) as Hok.
    apply Forall_cons in Hok as [Ht _]. rewrite Ek0 in Hk. destruct t as [w|c|]; cbn [kind] in Hk; [done| |done]. cbn [tok_ok] in Ht. rewrite <- Hk in Ht. by vm_compute in Ht. }
  destruct (Z.eqb_spec k (ch "a")) as [Ek|]; cbn [negb]; [|left; apply shpanic_exits].
  destruct (word_kind _ _ _ _ _ (ahead_ok _ _ _ Ha) Hk Ek) as (w & ts1 & -> & Hwd). cbn [tail length] in *.
  rewrite (bind_Ret _ _ _ _ _ (set_arg_run _ _ _ _ _ _ _ Ei)). destruct (bool_decide (MAXARGS <= S (length ws))%nat) eqn:Em; [left; apply shpanic_exits|].
  apply bool_decide_eq_false in Em. set (st1 := upd_cmd _ _ _).
  destruct (parseredirs_any fuel st1 s2 ts1 ret Ha2 ltac:(lia)) as [?|(rs1 & ts2 & ret1 & s3 & new & E3 & -> & Ha3 & Hwr1)]; [left; by apply exits_bind|].
  rewrite (bind_Ret _ _ _ _ _ E3). set (st2 := grow st1 new) in *. assert (i < length (sh_cmds st))%nat as Hi by (by eapply lookup_lt_Some).
  assert (sh_cmds st2 !! i = Some (EXEC (<[length ws := Some q]> argv) (<[length ws := Some e]> eargv))) as Ei2.
  { apply lookup_app_l_Some. cbn. by rewrite list_lookup_insert_eq. }
  assert (same_redirs (sh_cmds st) (sh_cmds st2)) as Hsr.
  { intros j sub a b mode fd Hj. apply same_redirs_app. by apply (same_redirs_upd _ i _ _ _ _ Ei). }
  assert (args_to (sh_buf st) (<[length ws := Some q]> argv) (<[length ws := Some e]> eargv) (ws ++ [w])) as Hargs2 by (by apply args_to_snoc).
  assert (wrapped (sh_buf st) (sh_cmds st2) (Some i) (rs ++ rs1) ret1) as Hwr2 by (eapply wrapped_app; [by apply (wrapped_same _ (sh_cmds st))|done]).
  rewrite length_app in Hfu. specialize (IH st2 s3 ts2 i ret1 (rs ++ rs1) (ws ++ [w]) _ _ Ha3 Ei2 Hargs2 Hwr2).
  assert (length (ws ++ [w]) = S (length ws)) as Elen by (rewrite length_app; cbn; lia). unfold args_parsed in IH. rewrite Elen in IH.
  destruct IH as [?|(args & ts3 & ret' & s' & st' & argv' & eargv' & E4 & -> & Hl4 & Ha4 & Ei4 & Hargs4 & Hwr4 & Eb & Eo & Et)]; [lia|lia|by left|right].
  exists ((w, rs1) :: args), ts3, ret', s', st', argv', eargv'. cbn [length fmap list_fmap fst snd concat]. rewrite <- !app_assoc in *. cbn [app] in *.
  split_and!; [|done|lia|done|done|done|done|done|done|].
  - change (sh_buf st2) with (sh_buf st) in E4. rewrite E4. do 2 f_equal. f_equal. lia.
  - rewrite Et. unfold st2, st1, grow, upd_cmd. cbn [sh_cmds]. rewrite take_app_le by (rewrite length_insert; lia). by rewrite take_insert_ge by lia.
Qed.

Lemma parsesimple_any fuel st s ts : ahead (sh_buf st) s ts -> (S (length ts) < fuel)%nat ->
  exits (parsesimple fuel s (length (cstr (sh_buf st))) st) \/
  exists rs args ts2 p s' new, parsesimple fuel s (length (cstr (sh_buf st))) st = Ret (p, s') (grow st new) /\
    ts = flat_exec (XSimple rs args) ++ ts2 /\ few_exec (XSimple rs args) /\ ahead (sh_buf st) s' ts2 /\
    points (sh_buf st) (sh_cmds st ++ new) p (den_exec (XSimple rs args)).
Proof using.
  intros Ha Hfu. unfold parsesimple, execcmd. set (c0 := EXEC _ _). set (i := length (sh_cmds st)). rewrite (bind_Ret _ _ _ _ _ (new_cmd_run st c0)). fold i.
  destruct (parseredirs_any fuel (grow st [c0]) s ts (Some i) Ha ltac:(lia)) as [?|(rs & ts1 & ret & s2 & new & E2 & -> & Ha2 & Hwr)]; [left; by apply exits_bind|].
  rewrite (bind_Ret _ _ _ _ _ E2). rewrite grow_grow. set (st2 := grow st _).
  assert (sh_cmds st2 !! i = Some c0) as Ei by (by apply list_lookup_middle). rewrite length_app in Hfu.
  destruct (parseargs_any fuel st2 s2 ts1 i ret rs [] _ _ Ha2 Ei) as [?|(args & ts2 & ret' & s' & st3 & argv & eargv & E3 & -> & Hn & Ha3 & Ei3 & Hargs & Hwr3 & Eb & Eo & Et)].
  { split_and!; [done|done|]. intros k w Hk. by rewrite lookup_nil in Hk. }
  { cbn [grow sh_cmds sh_buf] in Hwr. unfold st2. cbn [grow sh_cmds]. by rewrite <- app_assoc in Hwr. }
  { unfold MAXARGS. cbn. lia. }
  { lia. }
  { left. by apply exits_bind. }
  right. cbn [length Nat.add app] in *. rewrite (bind_Ret _ _ _ _ _ E3).
  destruct (exec_finish st st3 argv eargv rs args ret' Ei3 Hargs Hwr3 Hn Eb Eo) as (new4 & E4 & Hp).
  { fold i. rewrite Et. unfold st2, i. cbn. by rewrite take_app_length. }
  rewrite (bind_Ret _ _ _ _ _ E4). exists rs, args, ts2, ret', s', new4. cbn [flat_exec]. rewrite <- app_assoc. by split_and!.
Qed.

Lemma parseback_any fuel : forall st s ts p c, ahead (sh_buf st) s ts -> (length ts < fuel)%nat -> points (sh_buf st) (sh_cmds st) p c ->
  exists n ts2 p' s' new, parseback fuel p s (length (cstr (sh_buf st))) st = Ret (p', s') (grow st new) /\ ts = replicate n (TSym (ch "&")) ++ ts2 /\
    ahead (sh_buf st) s' ts2 /\ points (sh_buf st) (sh_cmds st ++ new) p' (Nat.iter n SBack c).
Proof using.
  induction fuel as [|fuel IH]; intros st s ts p c Ha Hfu Hp; [lia|]. cbn [parseback].
  destruct (peek_run st s _ (str "&") Ha) as (s1 & E1 & Ha1). rewrite (bind_Ret _ _ _ _ _ E1). destruct (starts (str "&") ts) eqn:Es.
  2: { exists O, ts, p, s1, []. by rewrite grow_nil, app_nil_r. }
  destruct (starts_sym (ch "&") ts (ahead_ok _ _ _ Ha) Es eq_refl ltac:(done)) as (ts1 & ->). cbn [length] in Hfu.
  destruct (gettoken_run st s1 _ Ha1) as (k & q & e & s2 & E2 & _ & Ha2). rewrite (bind_Ret _ _ _ _ _ E2). cbn [tail] in Ha2.
  unfold backcmd. rewrite (bind_Ret _ _ _ _ _ (new_cmd_run st (BACK p))).
  destruct (IH (grow st [BACK p]) s2 ts1 (Some (length (sh_cmds st))) (SBack c) Ha2 ltac:(lia)) as (n & ts2 & p' & s' & new & E3 & -> & Ha3 & Hp3).
  { cbn [points]. exists (length (sh_cmds st)), p. split_and!; [done|by apply list_lookup_middle|by apply points_more]. }
  exists (S n), ts2, p', s', (BACK p :: new). rewrite grow_grow in E3. split_and!; [exact E3|done|done|]. cbn [grow sh_cmds sh_buf] in Hp3.
  rewrite <- app_assoc in Hp3. by rewrite Nat.iter_succ_r.
Qed.

(** A parser that exits, or reads some sentence. *)
Definition parses_some {X} (m : nat -> nat -> nat -> M (shell W) (cmdp * nat)) (need : nat)
    (flat : X -> list tok) (few : X -> Prop) (den : X -> scmd) (fuel : nat) : Prop :=
  forall st s ts, ahead (sh_buf st) s ts -> (4 * length ts + need <= fuel)%nat ->
  exits (m fuel s (length (cstr (sh_buf st))) st) \/
  exists x ts2 p s' new, m fuel s (length (cstr (sh_buf st))) st = Ret (p, s') (grow st new) /\ ts = flat x ++ ts2 /\ few x /\
    ahead (sh_buf st) s' ts2 /\ points (sh_buf st) (sh_cmds st ++ new) p (den x).

Abbreviation some_line := (parses_some parseline 5 flat_line few_line den_line).
Abbreviation some_pipe := (parses_some parsepipe 4 flat_pipe few_pipe den_pipe).
Abbreviation some_exec := (parses_some parseexec 3 flat_exec few_exec den_exec).

Lemma some_exec_step fuel : (forall f, (f < fuel)%nat -> some_line f) -> some_exec fuel.
Proof using.
  intros IH st s ts Ha Hfu. destruct fuel as [|[|fuel]]; [lia..|]. cbn [parseexec].
  destruct (peek_run st s _ (str "(") Ha) as (s1 & E1 & Ha1). rewrite (bind_Ret _ _ _ _ _ E1). destruct (starts (str "(") ts) eqn:Es.
  2: { destruct (parsesimple_any (S fuel) st s1 ts Ha1 ltac:(lia)) as [?|(rs & args & H)]; [by left|right; by exists (XSimple rs args)]. }
  destruct (starts_sym (ch "(") ts (ahead_ok _ _ _ Ha) Es eq_refl ltac:(done)) as (ts1 & ->). cbn [length] in Hfu. cbn [parseblock].
  destruct (peek_run st s1 _ (str "(") Ha1) as (s2 & E2 & Ha2). rewrite (bind_Ret _ _ _ _ _ E2), Es. cbn [negb].
  destruct (gettoken_run st s2 _ Ha2) as (k & q & e & s3 & E3 & _ & Ha3). rewrite (bind_Ret _ _ _ _ _ E3). cbn [tail] in Ha3.
  destruct (IH fuel ltac:(lia) st s3 ts1 Ha3 ltac:(lia)) as [?|(l & ts2 & p & s4 & new & E4 & -> & Hfew & Ha4 & Hp)]; [left; by apply exits_bind|].
  rewrite (bind_Ret _ _ _ _ _ E4). set (st4 := grow st new) in *. change (sh_buf st) with (sh_buf st4) in *.
  destruct (peek_run st4 s4 _ (str ")") Ha4) as (s5 & E5 & Ha5). rewrite (bind_Ret _ _ _ _ _ E5).
  destruct (starts (str ")") ts2) eqn:Es5; cbn [negb]; [|left; apply shpanic_exits].
  destruct (starts_sym (ch ")") ts2 (ahead_ok _ _ _ Ha4) Es5 eq_refl ltac:(done)) as (ts3 & ->).
  destruct (gettoken_run st4 s5 _ Ha5) as (k6 & q6 & e6 & s6 & E6 & _ & Ha6). rewrite (bind_Ret _ _ _ _ _ E6). cbn [tail] in Ha6.
  rewrite length_app in Hfu. cbn [length] in Hfu.
  destruct (parseredirs_any fuel st4 s6 ts3 p Ha6 ltac:(lia)) as [?|(rs & ts4 & p' & s' & new' & E7 & -> & Ha7 & Hwr)]; [by left|right].
  exists (XBlock l rs), ts4, p', s', (new ++ new'). unfold st4 in E7, Hwr. rewrite grow_grow in E7. cbn [flat_exec app]. rewrite <- app_assoc.
  split_and!; [exact E7|done|done|done|]. cbn [grow sh_cmds sh_buf] in Hwr. rewrite app_assoc. cbn [den_exec].
  eapply wrapped_points; [|exact Hwr]. by apply points_more.
Qed.

Lemma some_pipe_step fuel : (forall f, (f < fuel)%nat -> some_exec f /\ some_pipe f) -> some_pipe fuel.
Proof using.
  intros IH st s ts Ha Hfu. destruct fuel as [|fuel]; [lia|]. cbn [parsepipe]. destruct (IH fuel ltac:(lia)) as [IHe IHp].
  destruct (IHe st s ts Ha ltac:(lia)) as [?|(e & ts1 & p1 & s1 & new1 & E1 & -> & Hfe & Ha1 & Hp1)]; [left; by apply exits_bind|].
  rewrite (bind_Ret _ _ _ _ _ E1). set (st1 := grow st new1) in *. change (sh_buf st) with (sh_buf st1) in *.
  destruct (peek_run st1 s1 _ (str "|") Ha1) as (s2 & E2 & Ha2). rewrite (bind_Ret _ _ _ _ _ E2). destruct (starts (str "|") ts1) eqn:Es.
  2: { right. by exists (PEnd e), ts1, p1, s2, new1. }
  destruct (starts_sym (ch "|") ts1 (ahead_ok _ _ _ Ha1) Es eq_refl ltac:(done)) as (ts2 & ->).
  destruct (gettoken_run st1 s2 _ Ha2) as (k & q & e3 & s3 & E3 & _ & Ha3). rewrite (bind_Ret _ _ _ _ _ E3). cbn [tail] in Ha3.
  rewrite length_app in Hfu. cbn [length] in Hfu.
  destruct (IHp st1 s3 ts2 Ha3 ltac:(lia)) as [?|(p & ts3 & p2 & s4 & new2 & E4 & -> & Hfp & Ha4 & Hp2)]; [left; by apply exits_bind|right].
  rewrite (bind_Ret _ _ _ _ _ E4). unfold pipecmd. rewrite (bind_Ret _ _ _ _ _ (new_cmd_run _ (PIPE p1 p2))). unfold st1 in *. rewrite !grow_grow.
  eexists (PBar e p), ts3, _, s4, _. cbn [flat_pipe few_pipe den_pipe]. split_and!; [reflexivity|by rewrite <- app_assoc|done|done|done|].
  cbn [grow sh_cmds sh_buf] in *. rewrite <- !app_assoc in *. by apply points_pipe.
Qed.

Lemma some_line_step fuel : (forall f, (f < fuel)%nat -> some_pipe f /\ some_line f) -> some_line fuel.
Proof using.
  intros IH st s ts Ha Hfu. destruct fuel as [|fuel]; [lia|]. cbn [parseline]. destruct (IH fuel ltac:(lia)) as [IHp IHl].
  destruct (IHp st s ts Ha ltac:(lia)) as [?|(p & ts1 & p1 & s1 & new1 & E1 & -> & Hfp & Ha1 & Hp1)]; [left; by apply exits_bind|].
  rewrite (bind_Ret _ _ _ _ _ E1). rewrite length_app in Hfu.
  destruct (parseback_any fuel (grow st new1) s1 ts1 p1 (den_pipe p) Ha1 ltac:(lia) Hp1) as (n & ts2 & p2 & s2 & new2 & E2 & -> & Ha2 & Hp2).
  rewrite (bind_Ret _ _ _ _ _ E2). rewrite grow_grow. set (st2 := grow st (new1 ++ new2)) in *. change (sh_buf (grow st new1)) with (sh_buf st2) in *.
  change (sh_buf st) with (sh_buf st2) in *. destruct (peek_run st2 s2 _ (str ";") Ha2) as (s3 & E3 & Ha3). rewrite (bind_Ret _ _ _ _ _ E3).
  destruct (starts (str ";") ts2) eqn:Es.
  2: { right. exists (LEnd p n), ts2, p2, s3, (new1 ++ new2). cbn [flat_line few_line den_line]. rewrite <- app_assoc. split_and!; [done|done|done|done|].
       cbn [grow sh_cmds sh_buf] in Hp2. by rewrite <- app_assoc in Hp2. }
  destruct (starts_sym (ch ";") ts2 (ahead_ok _ _ _ Ha2) Es eq_refl ltac:(done)) as (ts3 & ->).
  destruct (gettoken_run st2 s3 _ Ha3) as (k & q & e4 & s4 & E4 & _ & Ha4). rewrite (bind_Ret _ _ _ _ _ E4). cbn [tail] in Ha4.
  rewrite length_app in Hfu. cbn [length] in Hfu.
  destruct (IHl st2 s4 ts3 Ha4 ltac:(lia)) as [?|(l & ts4 & p5 & s5 & new5 & E5 & -> & Hfl & Ha5 & Hp5)]; [left; by apply exits_bind|right].
  rewrite (bind_Ret _ _ _ _ _ E5). unfold listcmd. rewrite (bind_Ret _ _ _ _ _ (new_cmd_run _ (LIST p2 p5))). unfold st2 in *. rewrite !grow_grow.
  eexists (LSeq p n l), ts4, _, s5, _. cbn [flat_line few_line den_line]. split_and!; [reflexivity|by rewrite <- !app_assoc|done|done|done|].
  cbn [grow sh_cmds sh_buf] in *. pose proof (points_list (sh_buf st) (sh_cmds st) (new1 ++ new2) new5 p2 p5 (Nat.iter n SBack (den_pipe p)) (den_line l)) as Hl.
  rewrite <- !app_assoc in *. by apply Hl.
Qed.

Lemma parser_sound fuel : some_line fuel /\ some_pipe fuel /\ some_exec fuel.
Proof using.
  induction fuel as [fuel IH] using lt_wf_ind. split_and!.
  - apply some_line_step. intros f Hf. by destruct (IH f Hf) as (? & ? & ?).
  - apply some_pipe_step. intros f Hf. by destruct (IH f Hf) as (? & ? & ?).
  - apply some_exec_step. intros f Hf. by destruct (IH f Hf) as (? & ? & ?).
Qed.

Lemma parsecmd_sound fuel st : (4 * length (lex [] (cstr (sh_buf st))) + 5 <= fuel)%nat ->
  exits (parsecmd fuel st) \/ exists l p st', parsecmd fuel st = Ret p st' /\ lex [] (cstr (sh_buf st)) = flat_line l /\ few_line l /\
    sh_os st' = sh_os st /\ reads (sh_buf st') (sh_cmds st') p (den_line l).
Proof using.
  intros Hfu. unfold parsecmd. rewrite (bind_Ret get_buf _ _ _ _ eq_refl). set (buf := sh_buf st) in *.
  assert (ahead buf 0 (lex [] (cstr buf))) as Ha by (exists (cstr buf); split; [by exists []|done]).
  destruct (proj1 (parser_sound fuel) st 0%nat _ Ha Hfu) as [?|(l & ts2 & p & s & new & E & El & Hfew & Ha' & Hp)]; [left; by apply exits_bind|].
  rewrite (bind_Ret _ _ _ _ _ E). set (st1 := grow st new) in *. change (sh_buf st) with (sh_buf st1) in *.
  destruct (peek_run st1 s _ [] Ha') as (s' & E2 & Ha2). rewrite (bind_Ret _ _ _ _ _ E2). case_bool_decide as Es; cbn [negb].
  2: { left. rewrite (bind_Ret get_buf _ _ _ _ eq_refl). apply complains. }
  assert (ts2 = []) as ->.
  { destruct Ha2 as (r & (pre & Er & ->) & <-). fold buf in Es. change (sh_buf st1) with buf in Er. rewrite Er, length_app in Es. by destruct r; [|cbn in Es; lia]. }
  rewrite app_nil_r in El. right. destruct (nulterminate_run buf (den_line l) fuel p st1 Hp (nulled_refl _)) as (buf' & E3 & Hn & _ & Hr).
  { pose proof (proj1 depth_flat l). rewrite El in Hfu. lia. }
  rewrite (bind_Ret _ _ _ _ _ E3). exists l, p, (with_buf st1 buf'). split_and!; [done|done|done|done|]. cbn [with_buf sh_buf sh_cmds].
  apply Hr; [done|by intros j].
Qed.

(** C7: On every line parsecmd() returns or exits.  It returns exactly on the lines whose
    tokens, however they are spaced, are a sentence of the grammar with at most nine
    words in a command; then it has made no system call and the structure it returns
    reads as the command of the sentence: a pipe or a list of what is on both
    sides, background, redirections with their file, mode and descriptor, from the
    innermost outwards, and arguments, all words as strings in the buffer. *)
Theorem parsecmd_spec fuel st :
  (4 * length (lex [] (cstr (sh_buf st))) + 5 <= fuel)%nat ->
  (exists l p st', lex [] (cstr (sh_buf st)) = flat_line l /\ few_line l /\ parsecmd fuel st = Ret p st' /\
     sh_os st' = sh_os st /\ reads (sh_buf st') (sh_cmds st') p (den_line l)) \/
  (forall l, few_line l -> lex [] (cstr (sh_buf st)) <> flat_line l) /\ exists st', parsecmd fuel st = Panic "exit" st'.
Proof using.
  intros Hfu. destruct (parsecmd_sound fuel st Hfu) as [(st' & E)|(l & p & st' & E & El & Hfew & Ho & Hr)]; [right|left; exists l, p, st'; by split_and!].
  split; [|by exists st']. intros l Hfew El. rewrite El in Hfu.
  destruct (parsecmd_complete l fuel st El Hfew ltac:(lia)) as (p & st2 & E2 & _). congruence.
Qed.
End Nul.

(** ** A command line *)

#[local] Existing Instance print_sys.

Definition demo_line : sline :=
  LSeq (PBar (XSimple [] [(str "ls", []); (str "-l", [])])
        (PEnd (XBlock (LSeq (PEnd (XSimple [SR RIn (str "f")] [(str "grep", []); (str "x", [])])) 0 (LEnd (PEnd (XSimple [] [(str "wc", [])])) 1))
                 [SR RApp (str "out")]))) 1
    (LEnd (PEnd (XSimple [] [(str "echo", [SR ROut (str "g")]); (str "done", [])])) 0).

Definition demo_shell : shell (list Z) := Shell (str "ls  -l|( <f grep x;wc & )>>out& ; echo>g done" ++ [10; 0; 0]) [] [].

Lemma parsecmd_spec_witness :
  flat_line demo_line = lex [] (cstr (sh_buf demo_shell)) /\
  ((exists l p st', lex [] (cstr (sh_buf demo_shell)) = flat_line l /\ few_line l /\ parsecmd 120 demo_shell = Ret p st' /\
      sh_os st' = [] /\ reads (sh_buf st') (sh_cmds st') p (den_line l)) \/
   (forall l, few_line l -> lex [] (cstr (sh_buf demo_shell)) <> flat_line l) /\ exists st', parsecmd 120 demo_shell = Panic "exit" st').
Proof. split; [vm_compute; reflexivity|]. apply (parsecmd_spec 120 demo_shell). vm_compute. lia. Defined.
