(* ===== verification/Programs.v ===== *)
(** * The small user programs

    One definition per main() and per function of cat.c, echo.c, wc.c, kill.c,
    ln.c, mkdir.c, rm.c, ls.c, init.c, zombie.c, policy.c, cfs.c, helloworld.c,
    goodbye.c, memsize_test.c, forktest.c, stressfs.c and test5.c, on top of the
    system calls.  [argv] is the list of the arguments without the null pointer
    that ends it.  Loops that depend on what the calls return have a bound on their
    rounds. *)

From S2P Require Import Prelude User Ulib.

Section Programs.
Context {W : Type} {OS : Sys W}.

(** ** cat.c *)

(** [while((n = read(fd, buf, sizeof(buf))) > 0)] *)
Fixpoint cat (fuel : nat) (fd : Z) : U unit :=
  match fuel with
  | O => nofuel
  | S fuel' =>
      '(n, buf) ← read fd 512;
      if 0 <? n then
        r ← write 1 buf;
        if negb (r =? n) then fprintf 2 (line "cat: write error") [];; exit 1 EmptyString
        else cat fuel' fd
      else if n <? 0 then fprintf 2 (line "cat: read error") [];; exit 1 EmptyString
      else mret tt
  end.

Fixpoint cat_files (fuel : nat) (files : list (list Z)) : U unit :=
  match files with
  | [] => exit 0 EmptyString
  | f :: files' =>
      fd ← open f 0;
      if fd <? 0 then fprintf 2 (line "cat: cannot open %s") [UStr (Some f)];; exit 1 EmptyString
      else cat fuel fd;; close fd;; cat_files fuel files'
  end.

Definition cat_main (fuel : nat) (argv : list (list Z)) : U unit :=
  match tail argv with
  | [] => cat fuel 0;; exit 0 EmptyString
  | files => cat_files fuel files
  end.

(** ** wc.c *)

Record counts : Type := Counts { wc_l : Z; wc_w : Z; wc_c : Z; wc_inword : bool }.

(** The body of the loop over the bytes of [buf]. *)
Definition wc_byte (k : counts) (b : Z) : counts :=
  let c := s32 (wc_c k + 1) in
  let l := if b =? 10 then s32 (wc_l k + 1) else wc_l k in
  if bool_decide (is_Some (strchr [32; 13; 9; 10; 11] b)) then Counts l (wc_w k) c false
  else if negb (wc_inword k) then Counts l (s32 (wc_w k + 1)) c true
  else Counts l (wc_w k) c (wc_inword k).

Fixpoint wc_loop (fuel : nat) (fd : Z) (k : counts) : U counts :=
  match fuel with
  | O => nofuel
  | S fuel' =>
      '(n, buf) ← read fd 512;
      if 0 <? n then wc_loop fuel' fd (foldl wc_byte k buf)
      else if n <? 0 then printf (line "wc: read error") [];; exit 1 EmptyString
      else mret k
  end.

Definition wc (fuel : nat) (fd : Z) (name : list Z) : U unit :=
  k ← wc_loop fuel fd (Counts 0 0 0 false);
  printf (line "%d %d %d %s") [UInt (wc_l k); UInt (wc_w k); UInt (wc_c k); UStr (Some name)].

Fixpoint wc_files (fuel : nat) (files : list (list Z)) : U unit :=
  match files with
  | [] => exit 0 EmptyString
  | f :: files' =>
      fd ← open f 0;
      if fd <? 0 then printf (line "wc: cannot open %s") [UStr (Some f)];; exit 1 EmptyString
      else wc fuel fd f;; close fd;; wc_files fuel files'
  end.

Definition wc_main (fuel : nat) (argv : list (list Z)) : U unit :=
  match tail argv with
  | [] => wc fuel 0 [];; exit 0 EmptyString
  | files => wc_files fuel files
  end.

(** ** echo.c, kill.c, ln.c, mkdir.c, rm.c *)

Fixpoint echo_args (args : list (list Z)) : U unit :=
  match args with
  | [] => exit 0 EmptyString
  | a :: args' =>
      write 1 a;;
      write 1 (match args' with [] => [10] | _ => str " " end);;
      echo_args args'
  end.

Definition echo_main (argv : list (list Z)) : U unit := echo_args (tail argv).

Definition kill_main (argv : list (list Z)) : U unit :=
  when (bool_decide (length argv < 2)%nat) (fprintf 2 (line "usage: kill pid...") [];; exit 1 EmptyString);;
  for_each (tail argv) (fun a => call (os_kill (atoi a));; mret tt);;
  exit 0 EmptyString.

Definition ln_main (argv : list (list Z)) : U unit :=
  match argv with
  | [_; old; new] =>
      r ← call (os_link old new);
      when (r <? 0) (fprintf 2 (line "link %s %s: failed") [UStr (Some old); UStr (Some new)]);;
      exit 0 EmptyString
  | _ => fprintf 2 (line "Usage: ln old new") [];; exit 1 EmptyString
  end.

(** The loop leaves at the first call that fails. *)
Fixpoint mkdir_args (args : list (list Z)) : U unit :=
  match args with
  | [] => exit 0 EmptyString
  | a :: args' =>
      r ← call (os_mkdir a);
      if r <? 0 then fprintf 2 (line "mkdir: %s failed to create") [UStr (Some a)];; exit 0 EmptyString
      else mkdir_args args'
  end.

Definition mkdir_main (argv : list (list Z)) : U unit :=
  when (bool_decide (length argv < 2)%nat) (fprintf 2 (line "Usage: mkdir files...") [];; exit 1 EmptyString);;
  mkdir_args (tail argv).

Fixpoint rm_args (args : list (list Z)) : U unit :=
  match args with
  | [] => exit 0 EmptyString
  | a :: args' =>
      r ← call (os_unlink a);
      if r <? 0 then fprintf 2 (line "rm: %s failed to delete") [UStr (Some a)];; exit 0 EmptyString
      else rm_args args'
  end.

Definition rm_main (argv : list (list Z)) : U unit :=
  when (bool_decide (length argv < 2)%nat) (fprintf 2 (line "Usage: rm files...") [];; exit 1 EmptyString);;
  rm_args (tail argv).

(** ** ls.c *)

(** [for(p=path+strlen(path); p >= path && *p != '/'; p--); p++;]: the offset behind
    the last slash before [p]. *)
Fixpoint behind_slash (path : list Z) (p : nat) : nat :=
  match p with
  | O => O
  | S p' => if nth p' path 0 =? ch "/" then p else behind_slash path p'
  end.

(** DIRSIZ is 14. *)
Definition fmtname (path : list Z) : list Z :=
  let p := drop (behind_slash path (length path)) path in
  if bool_decide (14 <= length p)%nat then p else p ++ replicate (14 - length p) (ch " ").

Fixpoint ls_dir (fuel : nat) (fd : Z) (path : list Z) : U unit :=
  match fuel with
  | O => nofuel
  | S fuel' =>
      '(n, de) ← read fd 16;
      if n =? 16 then
        (if (nth 0 de 0 =? 0) && (nth 1 de 0 =? 0) then mret tt
         else
           let buf := path ++ str "/" ++ cstr (take 14 (drop 2 de)) in
           '(r, st) ← stat buf;
           if r <? 0 then printf (line "ls: cannot stat %s") [UStr (Some buf)]
           else printf (line "%s %d %d %d") [UStr (Some (fmtname buf)); UInt (st_type st); UInt (s32 (st_ino st)); ULong (st_size st)]);;
        ls_dir fuel' fd path
      else mret tt
  end.

Definition ls (fuel : nat) (path : list Z) : U unit :=
  fd ← open path 0;
  if fd <? 0 then fprintf 2 (line "ls: cannot open %s") [UStr (Some path)]
  else
    '(r, st) ← fstat fd;
    if r <? 0 then
      fprintf 2 (line "ls: cannot stat %s") [UStr (Some path)];;
      close fd;;
      mret tt
    else
      (if (st_type st =? 3) || (st_type st =? 2) then
         printf (line "%s %d %d %l") [UStr (Some (fmtname path)); UInt (st_type st); UInt (s32 (st_ino st)); ULong (st_size st)]
       else if st_type st =? 1 then
         if bool_decide (512 < length path + 1 + 14 + 1)%nat then printf (line "ls: path too long") []
         else ls_dir fuel fd path
       else mret tt);;
      close fd;;
      mret tt.

Definition ls_main (fuel : nat) (argv : list (list Z)) : U unit :=
  match tail argv with
  | [] => ls fuel (str ".");; exit 0 EmptyString
  | paths => for_each paths (ls fuel);; exit 0 EmptyString
  end.

(** ** init.c, zombie.c *)

(** [for(;;) wpid = wait(...)]: until the shell with [pid] has exited. *)
Fixpoint init_wait (fuel : nat) (pid : Z) : U unit :=
  match fuel with
  | O => nofuel
  | S fuel' =>
      wpid ← wait;
      if wpid =? pid then mret tt
      else if wpid <? 0 then printf (line "init: wait returned an error") [];; exit 1 EmptyString
      else init_wait fuel' pid
  end.

Fixpoint init_loop (fuel : nat) : U unit :=
  match fuel with
  | O => nofuel
  | S fuel' =>
      printf (line "init: starting sh") [];;
      pid ← call os_fork;
      when (pid <? 0) (printf (line "init: fork failed") [];; exit 1 EmptyString);;
      when (pid =? 0) (exec (str "sh") [str "sh"];; printf (line "init: exec sh failed") [];; exit 1 EmptyString);;
      init_wait fuel' pid;;
      init_loop fuel'
  end.

(** CONSOLE is 1, O_RDWR 2. *)
Definition init_main (fuel : nat) : U unit :=
  fd ← open (str "console") 2;
  when (fd <? 0) (call (os_mknod (str "console") 1 0);; open (str "console") 2;; mret tt);;
  call (os_dup 0);;
  call (os_dup 0);;
  init_loop fuel.

Definition zombie_main : U unit :=
  pid ← call os_fork;
  when (0 <? pid) (call (os_sleep 5);; mret tt);;
  exit 0 EmptyString.

(** ** policy.c, cfs.c, helloworld.c, goodbye.c, memsize_test.c, test5.c *)

Definition policy_main (argv : list (list Z)) : U Z :=
  match argv with
  | [_; a] =>
      i ← call (os_set_policy (atoi a));
      printf (line "policy succecfuly changed to:%d") [UInt (atoi a)];;
      mret i
  | _ => printf (line "no argument inserted") [];; mret (-1)
  end.

(** [for (j = 0; j < 1000000; j++) if (j % 100000 == 0) sleep(10);], with [n] rounds to go. *)
Fixpoint cfs_work (n : nat) (j : Z) : U unit :=
  match n with
  | O => mret tt
  | S n' => when (j mod 100000 =? 0) (call (os_sleep 10);; mret tt);; cfs_work n' (j + 1)
  end.

Definition cfs_child (i : Z) : U unit :=
  when ((i =? 0) || (i =? 1) || (i =? 2)) (call (os_set_cfs_priority i);; mret tt);;
  cfs_work (Z.to_nat 1000000) 0;;
  pid ← call os_getpid;
  '(r, ans) ← get_cfs_stats pid;
  (if r <? 0 then
     call (os_sleep 100);;
     fprintf 1 (line "Error getting process statistics") []
   else
     call (os_sleep 100);;
     pid ← call os_getpid;
     fprintf 1 (line "Child (pid %d) finished,CFS priority: %d,Run time: %d ticks,Sleep time: %d ticks, Runnable time: %d ticks ")
       [UInt pid; UInt (nth 0 ans 0); UInt (nth 1 ans 0); UInt (nth 2 ans 0); UInt (nth 3 ans 0)]);;
  exit 0 EmptyString.

Definition cfs_main : U unit :=
  for_each [0; 1; 2] (fun i =>
    pid ← call os_fork;
    (if pid =? 0 then cfs_child i
     else when (pid <? 0) (fprintf 1 (line "Fork failed") []));;
    wait;;
    mret tt);;
  exit 0 EmptyString.

Definition helloworld_main : U unit :=
  write 1 (str "Hello World xv6");;
  write 1 [10];;
  exit 0 EmptyString.

Definition goodbye_main : U unit := exit 0 "Goodbye World xv6".

(** A pointer is an address: it is not negative, also when malloc() has failed. *)
Definition memsize_main : U unit :=
  n ← call os_memsize;
  fprintf 1 (line "The process starting size: %d") [UInt n];;
  p ← call (os_malloc 20000);
  let ptr := u64 p in
  when (ptr <? 0) (fprintf 1 (line "ERROR") [];; exit (-1) EmptyString);;
  n ← call os_memsize;
  fprintf 1 (line "The process size after allocation: %d") [UInt n];;
  modify (os_free ptr);;
  n ← call os_memsize;
  fprintf 1 (line "The process size after allocation and free:%d") [UInt n];;
  exit 0 EmptyString.

(** Both processes end in [for(;;);]. *)
Definition test5_main : U unit :=
  pid ← call os_fork;
  call (os_set_ps_priority (if pid =? 0 then 10 else 1));;
  spin.

(** ** forktest.c, stressfs.c *)

Definition print (s : list Z) : U unit := write 1 s;; mret tt.

(** [for(n=0; n<N; n++)]: the [n] at which the loop is left, of [N]. *)
Fixpoint fork_all (todo : nat) (n : Z) : U Z :=
  match todo with
  | O => mret n
  | S todo' =>
      pid ← call os_fork;
      if pid <? 0 then mret n
      else if pid =? 0 then exit 0 EmptyString
      else fork_all todo' (n + 1)
  end.

(** [for(; n > 0; n--)] *)
Fixpoint wait_all (n : nat) : U unit :=
  match n with
  | O => mret tt
  | S n' =>
      r ← wait;
      if r <? 0 then print (line "wait stopped early");; exit 1 EmptyString
      else wait_all n'
  end.

Definition forktest : U unit :=
  print (line "fork test");;
  n ← fork_all (Z.to_nat 1000) 0;
  when (n =? 1000) (print (line "fork claimed to work N times!");; exit 1 EmptyString);;
  wait_all (Z.to_nat n);;
  r ← wait;
  when (negb (r =? -1)) (print (line "wait got too many");; exit 1 EmptyString);;
  print (line "fork test OK").

Definition forktest_main : U unit := forktest;; exit 0 EmptyString.

(** [for(i = 0; i < 4; i++) if(fork() > 0) break;]: the value of [i]. *)
Fixpoint stress_fork (todo : nat) (i : Z) : U Z :=
  match todo with
  | O => mret i
  | S todo' =>
      pid ← call os_fork;
      if 0 <? pid then mret i else stress_fork todo' (i + 1)
  end.

(** O_CREATE|O_RDWR is 0x202. *)
Definition stressfs_main : U unit :=
  printf (line "stressfs starting") [];;
  let data := replicate 512 (ch "a") in
  i ← stress_fork 4 0;
  printf (line "write %d") [UInt i];;
  let path := str "stressfs" ++ [u8 (ch "0" + i)] in
  fd ← open path 0x202;
  for_each (seq 0 20) (fun _ => write fd data;; mret tt);;
  close fd;;
  printf (line "read") [];;
  fd ← open path 0;
  for_each (seq 0 20) (fun _ => read fd 512;; mret tt);;
  close fd;;
  wait;;
  exit 0 EmptyString.
End Programs.
