(* ===== verification/Utools.v ===== *)
(** * What the test programs of user/ use besides the plain system calls

    usertests.c and grind.c pass wild pointers to system calls and touch memory they
    may not touch.  The interface [Wild] has the calls with a raw address as their
    argument, the loads and stores of the process itself, which end the process when the
    address is not mapped, the word a local variable without initialiser has
    ([at_stack]) and the bytes such an array has ([at_local]), the address of the static
    array of usertests.c that is never assigned, and sbrk().  A string argument is either an object of the
    program, the list of its bytes, or an address. *)

From S2P Require Import Prelude User.

Class Wild (W : Type) : Type := {
  at_read : Z -> Z -> Z -> W -> Z * W;
  at_write : Z -> Z -> Z -> W -> Z * W;
  at_open : Z -> Z -> W -> Z * W;
  at_unlink : Z -> W -> Z * W;
  at_link : list Z + Z -> list Z + Z -> W -> Z * W;
  at_exec : list Z + Z -> list (list Z + Z) -> W -> Z * W;
  at_pipe : Z -> W -> Z * W;
  at_load : nat -> Z -> W -> option Z;
  at_store : nat -> Z -> Z -> W -> option W;
  at_fetch : W -> bool;
  at_sp : W -> Z;
  at_stack : W -> Z;
  at_local : nat -> W -> list Z;
  at_uninit : Z;
  os_sbrk : Z -> W -> Z * W
}.

Section Utools.
Context {W : Type} {OS : Sys W} {WS : Wild W}.

(** [if(c){ printf(...); exit(1, ...); }] *)
Definition oops (c : bool) (fmt : list Z) (args : list uarg) : U unit :=
  when c (printf fmt args;; exit 1 EmptyString).

(** A loop that leaves with [inr]. *)
Fixpoint loop {A R : Type} (fuel : nat) (body : A -> M W (A + R)) (a : A) : M W R :=
  match fuel with
  | O => nofuel
  | S fuel' =>
      r ← body a;
      match r with inl a' => loop fuel' body a' | inr x => mret x end
  end.

(** A [for] loop that updates a variable. *)
Fixpoint for_acc {A B : Type} (xs : list A) (body : A -> B -> M W B) (b : B) : M W B :=
  match xs with
  | [] => mret b
  | x :: xs' => b' ← body x b; for_acc xs' body b'
  end.

(** [for(i = a; i < b; i += step)] *)
Definition upto (a b step : Z) : list Z := map (fun k => a + step * k) (seqZ 0 ((b - a + step - 1) / step)).

Definition fork : U Z := call os_fork.
Definition unlink (path : list Z) : U Z := call (os_unlink path).
Definition link (old new : list Z) : U Z := call (os_link old new).
Definition mkdir (path : list Z) : U Z := call (os_mkdir path).
Definition chdir (path : list Z) : U Z := call (os_chdir path).
Definition kill (pid : Z) : U Z := call (os_kill pid).
Definition sleep (n : Z) : U Z := call (os_sleep n).
Definition dup (fd : Z) : U Z := call (os_dup fd).
Definition getpid : U Z := call os_getpid.

(** The argument is an int, the result a pointer. *)
Definition sbrk (n : Z) : U Z := r ← call (os_sbrk (s32 n)); mret (u64 r).

Definition malloc (n : Z) : U Z := call (os_malloc n).
Definition free (p : Z) : U unit := modify (os_free p).

(** [close(open(...))] *)
Definition touch (path : list Z) (omode : Z) : U unit := fd ← open path omode; close fd;; mret tt.

(** The calls with an address. *)
Definition read_at (fd a n : Z) : U Z := call (at_read fd a n).
Definition write_at (fd a n : Z) : U Z := call (at_write fd a n).
Definition open_at (a omode : Z) : U Z := call (at_open a omode).
Definition unlink_at (a : Z) : U Z := call (at_unlink a).
Definition link_at (old new : list Z + Z) : U Z := call (at_link old new).
Definition pipe_at (a : Z) : U Z := call (at_pipe a).
Definition local (n : nat) : U (list Z) := fun w => Ret (at_local n w) w.
Definition stack_int : U Z := fun w => Ret (s32 (at_stack w)) w.

(** What sbrk() returns when it fails. *)
Definition nowhere : Z := 0xffffffffffffffff.

(** [wait(&st, ...)]: the pid and the status of the child; the variable keeps its value
    when there is none. *)
Definition wait_status (st : Z) : U (Z * Z) :=
  '(pid, status, _) ← wait_msg;
  mret (pid, if pid <? 0 then st else status).

(** [int xstatus; wait(&xstatus, ...)]: the variable holds what the stack held before. *)
Definition wait_child : U (Z * Z) := st ← stack_int; wait_status st.

Definition wild_exec (path : list Z + Z) (argv : list (list Z + Z)) : U Z :=
  fun w => let '(r, w') := at_exec path argv w in if r <? 0 then Ret r w' else Panic "exec" w'.

(** A load or store of [n] bytes; the kernel kills the process when there is no such page. *)
Definition peek (n : nat) (a : Z) : U Z :=
  fun w => match at_load n a w with Some v => Ret v w | None => Panic "killed" w end.
Definition poke (n : nat) (a v : Z) : U unit :=
  fun w => match at_store n a v w with Some w' => Ret tt w' | None => Panic "killed" w end.

(** The next instruction, when the page of the program may be gone. *)
Definition fetch : U unit := fun w => if at_fetch w then Ret tt w else Panic "killed" w.
Definition r_sp : U Z := fun w => Ret (at_sp w) w.

(** [%s] with an address: the bytes are read as they are printed. *)
Definition print_at (fuel : nat) (a : Z) : U unit :=
  loop fuel (fun a => c ← peek 1 a; if c =? 0 then mret (inr tt) else putc 1 c;; mret (inl (a + 1))) a.
End Utools.
