(* ===== verification/UtFiles.v ===== *)
(** * user/usertests.c: the tests of files and directories

    Every test runs in a process of its own, with the name of the test as its argument,
    so the static buffer [buf] is all 0 when it starts; [xstatus] of a wait() that fails
    keeps what the stack held.  O_RDONLY is 0, O_WRONLY 1,
    O_RDWR 2, O_CREATE 0x200 and O_TRUNC 0x400; BSIZE is 1024, MAXFILE 268, NINODE 50 and
    the size of [buf] 12288.  A loop that ends by what a call returns has a bound on its
    rounds. *)

From S2P Require Import Prelude Mem User Ulib Utools.

(** A byte computed as a number. *)
Definition char (x : Z) : Z := u8 x.

(** [((int* )buf)[0]] *)
Definition int_at (l : list Z) : Z := s32 (nth 0 l 0 + 256 * nth 1 l 0 + 65536 * nth 2 l 0 + 16777216 * nth 3 l 0).

(** A buffer whose first bytes are overwritten. *)
Definition into (buf bytes : list Z) : list Z := bytes ++ drop (length bytes) buf.

(** [buf], when the test has not used it. *)
Definition zeros : list Z := replicate (Z.to_nat 12288) 0.

Section Files.
Context {W : Type} {OS : Sys W} {WS : Wild W}.

Definition truncate1 (s : list Z) : U unit :=
  unlink (str "truncfile");;
  fd1 ← open (str "truncfile") 0x601;
  write fd1 (str "abcd");;
  close fd1;;
  fd2 ← open (str "truncfile") 0;
  '(n, _) ← read fd2 32;
  oops (negb (n =? 4)) (line "%s: read %d bytes, wanted 4") [UStr (Some s); UInt n];;
  fd1 ← open (str "truncfile") 0x401;
  fd3 ← open (str "truncfile") 0;
  '(n, _) ← read fd3 32;
  when (negb (n =? 0)) (printf (line "aaa fd3=%d") [UInt fd3]);;
  oops (negb (n =? 0)) (line "%s: read %d bytes, wanted 0") [UStr (Some s); UInt n];;
  '(n, _) ← read fd2 32;
  when (negb (n =? 0)) (printf (line "bbb fd2=%d") [UInt fd2]);;
  oops (negb (n =? 0)) (line "%s: read %d bytes, wanted 0") [UStr (Some s); UInt n];;
  write fd1 (str "abcdef");;
  '(n, _) ← read fd3 32;
  oops (negb (n =? 6)) (line "%s: read %d bytes, wanted 6") [UStr (Some s); UInt n];;
  '(n, _) ← read fd2 32;
  oops (negb (n =? 2)) (line "%s: read %d bytes, wanted 2") [UStr (Some s); UInt n];;
  unlink (str "truncfile");;
  close fd1;;
  close fd2;;
  close fd3;;
  mret tt.

Definition truncate2 (s : list Z) : U unit :=
  unlink (str "truncfile");;
  fd1 ← open (str "truncfile") 0x601;
  write fd1 (str "abcd");;
  fd2 ← open (str "truncfile") 0x401;
  n ← write fd1 (str "x");
  oops (negb (n =? -1)) (line "%s: write returned %d, expected -1") [UStr (Some s); UInt n];;
  unlink (str "truncfile");;
  close fd1;;
  close fd2;;
  mret tt.

Definition truncate3 (s : list Z) : U unit :=
  fd ← open (str "truncfile") 0x601;
  close fd;;
  pid ← fork;
  oops (pid <? 0) (line "%s: fork failed") [UStr (Some s)];;
  when (pid =? 0)
    (for_each (seqZ 0 100) (fun _ =>
       fd ← open (str "truncfile") 1;
       oops (fd <? 0) (line "%s: open failed") [UStr (Some s)];;
       n ← write fd (str "1234567890");
       oops (negb (n =? 10)) (line "%s: write got %d, expected 10") [UStr (Some s); UInt n];;
       close fd;;
       fd ← open (str "truncfile") 0;
       read fd 32;;
       close fd;;
       mret tt);;
     exit 0 EmptyString);;
  for_each (seqZ 0 150) (fun _ =>
    fd ← open (str "truncfile") 0x601;
    oops (fd <? 0) (line "%s: open failed") [UStr (Some s)];;
    n ← write fd (str "xxx");
    oops (negb (n =? 3)) (line "%s: write got %d, expected 3") [UStr (Some s); UInt n];;
    close fd;;
    mret tt);;
  '(_, xstatus) ← wait_child;
  unlink (str "truncfile");;
  exit xstatus EmptyString.

Definition iputtest (s : list Z) : U unit :=
  r ← mkdir (str "iputdir");
  oops (r <? 0) (line "%s: mkdir failed") [UStr (Some s)];;
  r ← chdir (str "iputdir");
  oops (r <? 0) (line "%s: chdir iputdir failed") [UStr (Some s)];;
  r ← unlink (str "../iputdir");
  oops (r <? 0) (line "%s: unlink ../iputdir failed") [UStr (Some s)];;
  r ← chdir (str "/");
  oops (r <? 0) (line "%s: chdir / failed") [UStr (Some s)].

Definition exitiputtest (s : list Z) : U unit :=
  pid ← fork;
  oops (pid <? 0) (line "%s: fork failed") [UStr (Some s)];;
  when (pid =? 0)
    (r ← mkdir (str "iputdir");
     oops (r <? 0) (line "%s: mkdir failed") [UStr (Some s)];;
     r ← chdir (str "iputdir");
     oops (r <? 0) (line "%s: child chdir failed") [UStr (Some s)];;
     r ← unlink (str "../iputdir");
     oops (r <? 0) (line "%s: unlink ../iputdir failed") [UStr (Some s)];;
     exit 0 EmptyString);;
  '(_, xstatus) ← wait_child;
  exit xstatus EmptyString.

Definition openiputtest (s : list Z) : U unit :=
  r ← mkdir (str "oidir");
  oops (r <? 0) (line "%s: mkdir oidir failed") [UStr (Some s)];;
  pid ← fork;
  oops (pid <? 0) (line "%s: fork failed") [UStr (Some s)];;
  when (pid =? 0)
    (fd ← open (str "oidir") 2;
     oops (0 <=? fd) (line "%s: open directory for write succeeded") [UStr (Some s)];;
     exit 0 EmptyString);;
  sleep 1;;
  r ← unlink (str "oidir");
  oops (negb (r =? 0)) (line "%s: unlink failed") [UStr (Some s)];;
  '(_, xstatus) ← wait_child;
  exit xstatus EmptyString.

Definition opentest (s : list Z) : U unit :=
  fd ← open (str "echo") 0;
  oops (fd <? 0) (line "%s: open echo failed!") [UStr (Some s)];;
  close fd;;
  fd ← open (str "doesnotexist") 0;
  oops (0 <=? fd) (line "%s: open doesnotexist succeeded!") [UStr (Some s)].

Definition writetest (s : list Z) : U unit :=
  fd ← open (str "small") 0x202;
  oops (fd <? 0) (line "%s: error: creat small failed!") [UStr (Some s)];;
  for_each (seqZ 0 100) (fun i =>
    r ← write fd (str "aaaaaaaaaa");
    oops (negb (r =? 10)) (line "%s: error: write aa %d new file failed") [UStr (Some s); UInt i];;
    r ← write fd (str "bbbbbbbbbb");
    oops (negb (r =? 10)) (line "%s: error: write bb %d new file failed") [UStr (Some s); UInt i]);;
  close fd;;
  fd ← open (str "small") 0;
  oops (fd <? 0) (line "%s: error: open small failed!") [UStr (Some s)];;
  '(i, _) ← read fd 2000;
  oops (negb (i =? 2000)) (line "%s: read failed") [UStr (Some s)];;
  close fd;;
  r ← unlink (str "small");
  oops (r <? 0) (line "%s: unlink small failed") [UStr (Some s)].

Definition writebig (fuel : nat) (s : list Z) : U unit :=
  fd ← open (str "big") 0x202;
  oops (fd <? 0) (line "%s: error: creat big failed!") [UStr (Some s)];;
  for_each (seqZ 0 268) (fun i =>
    r ← write fd (le_bytes 4 i ++ replicate 1020 0);
    oops (negb (r =? 1024)) (line "%s: error: write big file failed") [UStr (Some s); UInt i]);;
  close fd;;
  fd ← open (str "big") 0;
  oops (fd <? 0) (line "%s: error: open big failed!") [UStr (Some s)];;
  loop fuel (fun n =>
    '(i, buf) ← read fd 1024;
    if i =? 0 then
      oops (n =? 267) (str "%s: read only %d blocks from big") [UStr (Some s); UInt n];;
      mret (inr tt)
    else
      oops (negb (i =? 1024)) (line "%s: read failed %d") [UStr (Some s); UInt i];;
      oops (negb (int_at buf =? n)) (line "%s: read content of block %d is %d") [UStr (Some s); UInt n; UInt (int_at buf)];;
      mret (inl (n + 1))) 0;;
  close fd;;
  r ← unlink (str "big");
  oops (r <? 0) (line "%s: unlink big failed") [UStr (Some s)].

Definition createtest (s : list Z) : U unit :=
  for_each (seqZ 0 52) (fun i =>
    fd ← open [ch "a"; char (ch "0" + i)] 0x202;
    close fd;;
    mret tt);;
  for_each (seqZ 0 52) (fun i => unlink [ch "a"; char (ch "0" + i)];; mret tt).

Definition dirtest (s : list Z) : U unit :=
  r ← mkdir (str "dir0");
  oops (r <? 0) (line "%s: mkdir failed") [UStr (Some s)];;
  r ← chdir (str "dir0");
  oops (r <? 0) (line "%s: chdir dir0 failed") [UStr (Some s)];;
  r ← chdir (str "..");
  oops (r <? 0) (line "%s: chdir .. failed") [UStr (Some s)];;
  r ← unlink (str "dir0");
  oops (r <? 0) (line "%s: unlink dir0 failed") [UStr (Some s)].

Definition linktest (s : list Z) : U unit :=
  unlink (str "lf1");;
  unlink (str "lf2");;
  fd ← open (str "lf1") 0x202;
  oops (fd <? 0) (line "%s: create lf1 failed") [UStr (Some s)];;
  r ← write fd (str "hello");
  oops (negb (r =? 5)) (line "%s: write lf1 failed") [UStr (Some s)];;
  close fd;;
  r ← link (str "lf1") (str "lf2");
  oops (r <? 0) (line "%s: link lf1 lf2 failed") [UStr (Some s)];;
  unlink (str "lf1");;
  r ← open (str "lf1") 0;
  oops (0 <=? r) (line "%s: unlinked lf1 but it is still there!") [UStr (Some s)];;
  fd ← open (str "lf2") 0;
  oops (fd <? 0) (line "%s: open lf2 failed") [UStr (Some s)];;
  '(r, got) ← read fd 12288;
  oops (negb (r =? 5)) (line "%s: read lf2 failed") [UStr (Some s)];;
  close fd;;
  r ← link (str "lf2") (str "lf2");
  oops (0 <=? r) (line "%s: link lf2 lf2 succeeded! oops") [UStr (Some s)];;
  unlink (str "lf2");;
  r ← link (str "lf2") (str "lf1");
  oops (0 <=? r) (line "%s: link non-existent succeeded! oops") [UStr (Some s)];;
  r ← link (str ".") (str "lf1");
  oops (0 <=? r) (line "%s: link . lf1 succeeded! oops") [UStr (Some s)].

Definition subdir (s : list Z) : U unit :=
  unlink (str "ff");;
  r ← mkdir (str "dd");
  oops (negb (r =? 0)) (line "%s: mkdir dd failed") [UStr (Some s)];;
  fd ← open (str "dd/ff") 0x202;
  oops (fd <? 0) (line "%s: create dd/ff failed") [UStr (Some s)];;
  write fd (str "ff");;
  close fd;;
  r ← unlink (str "dd");
  oops (0 <=? r) (line "%s: unlink dd (non-empty dir) succeeded!") [UStr (Some s)];;
  r ← mkdir (str "/dd/dd");
  oops (negb (r =? 0)) (line "subdir mkdir dd/dd failed") [UStr (Some s)];;
  fd ← open (str "dd/dd/ff") 0x202;
  oops (fd <? 0) (line "%s: create dd/dd/ff failed") [UStr (Some s)];;
  write fd (str "FF");;
  close fd;;
  fd ← open (str "dd/dd/../ff") 0;
  oops (fd <? 0) (line "%s: open dd/dd/../ff failed") [UStr (Some s)];;
  '(cc, got) ← read fd 12288;
  oops (negb (cc =? 2) || negb (nth 0 got 0 =? ch "f")) (line "%s: dd/dd/../ff wrong content") [UStr (Some s)];;
  close fd;;
  r ← link (str "dd/dd/ff") (str "dd/dd/ffff");
  oops (negb (r =? 0)) (line "link dd/dd/ff dd/dd/ffff failed") [UStr (Some s)];;
  r ← unlink (str "dd/dd/ff");
  oops (negb (r =? 0)) (line "%s: unlink dd/dd/ff failed") [UStr (Some s)];;
  r ← open (str "dd/dd/ff") 0;
  oops (0 <=? r) (line "%s: open (unlinked) dd/dd/ff succeeded") [UStr (Some s)];;
  r ← chdir (str "dd");
  oops (negb (r =? 0)) (line "%s: chdir dd failed") [UStr (Some s)];;
  r ← chdir (str "dd/../../dd");
  oops (negb (r =? 0)) (line "%s: chdir dd/../../dd failed") [UStr (Some s)];;
  r ← chdir (str "dd/../../../dd");
  oops (negb (r =? 0)) (line "chdir dd/../../dd failed") [UStr (Some s)];;
  r ← chdir (str "./..");
  oops (negb (r =? 0)) (line "%s: chdir ./.. failed") [UStr (Some s)];;
  fd ← open (str "dd/dd/ffff") 0;
  oops (fd <? 0) (line "%s: open dd/dd/ffff failed") [UStr (Some s)];;
  '(r, got) ← read fd 12288;
  oops (negb (r =? 2)) (line "%s: read dd/dd/ffff wrong len") [UStr (Some s)];;
  close fd;;
  r ← open (str "dd/dd/ff") 0;
  oops (0 <=? r) (line "%s: open (unlinked) dd/dd/ff succeeded!") [UStr (Some s)];;
  r ← open (str "dd/ff/ff") 0x202;
  oops (0 <=? r) (line "%s: create dd/ff/ff succeeded!") [UStr (Some s)];;
  r ← open (str "dd/xx/ff") 0x202;
  oops (0 <=? r) (line "%s: create dd/xx/ff succeeded!") [UStr (Some s)];;
  r ← open (str "dd") 0x200;
  oops (0 <=? r) (line "%s: create dd succeeded!") [UStr (Some s)];;
  r ← open (str "dd") 2;
  oops (0 <=? r) (line "%s: open dd rdwr succeeded!") [UStr (Some s)];;
  r ← open (str "dd") 1;
  oops (0 <=? r) (line "%s: open dd wronly succeeded!") [UStr (Some s)];;
  r ← link (str "dd/ff/ff") (str "dd/dd/xx");
  oops (r =? 0) (line "%s: link dd/ff/ff dd/dd/xx succeeded!") [UStr (Some s)];;
  r ← link (str "dd/xx/ff") (str "dd/dd/xx");
  oops (r =? 0) (line "%s: link dd/xx/ff dd/dd/xx succeeded!") [UStr (Some s)];;
  r ← link (str "dd/ff") (str "dd/dd/ffff");
  oops (r =? 0) (line "%s: link dd/ff dd/dd/ffff succeeded!") [UStr (Some s)];;
  r ← mkdir (str "dd/ff/ff");
  oops (r =? 0) (line "%s: mkdir dd/ff/ff succeeded!") [UStr (Some s)];;
  r ← mkdir (str "dd/xx/ff");
  oops (r =? 0) (line "%s: mkdir dd/xx/ff succeeded!") [UStr (Some s)];;
  r ← mkdir (str "dd/dd/ffff");
  oops (r =? 0) (line "%s: mkdir dd/dd/ffff succeeded!") [UStr (Some s)];;
  r ← unlink (str "dd/xx/ff");
  oops (r =? 0) (line "%s: unlink dd/xx/ff succeeded!") [UStr (Some s)];;
  r ← unlink (str "dd/ff/ff");
  oops (r =? 0) (line "%s: unlink dd/ff/ff succeeded!") [UStr (Some s)];;
  r ← chdir (str "dd/ff");
  oops (r =? 0) (line "%s: chdir dd/ff succeeded!") [UStr (Some s)];;
  r ← chdir (str "dd/xx");
  oops (r =? 0) (line "%s: chdir dd/xx succeeded!") [UStr (Some s)];;
  r ← unlink (str "dd/dd/ffff");
  oops (negb (r =? 0)) (line "%s: unlink dd/dd/ff failed") [UStr (Some s)];;
  r ← unlink (str "dd/ff");
  oops (negb (r =? 0)) (line "%s: unlink dd/ff failed") [UStr (Some s)];;
  r ← unlink (str "dd");
  oops (r =? 0) (line "%s: unlink non-empty dd succeeded!") [UStr (Some s)];;
  r ← unlink (str "dd/dd");
  oops (r <? 0) (line "%s: unlink dd/dd failed") [UStr (Some s)];;
  r ← unlink (str "dd");
  oops (r <? 0) (line "%s: unlink dd failed") [UStr (Some s)].

Definition unlinkread (s : list Z) : U unit :=
  fd ← open (str "unlinkread") 0x202;
  oops (fd <? 0) (line "%s: create unlinkread failed") [UStr (Some s)];;
  write fd (str "hello");;
  close fd;;
  fd ← open (str "unlinkread") 2;
  oops (fd <? 0) (line "%s: open unlinkread failed") [UStr (Some s)];;
  r ← unlink (str "unlinkread");
  oops (negb (r =? 0)) (line "%s: unlink unlinkread failed") [UStr (Some s)];;
  fd1 ← open (str "unlinkread") 0x202;
  write fd1 (str "yyy");;
  close fd1;;
  '(r, got) ← read fd 12288;
  oops (negb (r =? 5)) (str "%s: unlinkread read failed") [UStr (Some s)];;
  oops (negb (nth 0 got 0 =? ch "h")) (line "%s: unlinkread wrong data") [UStr (Some s)];;
  r ← write fd (take 10 (into zeros got));
  oops (negb (r =? 10)) (line "%s: unlinkread write failed") [UStr (Some s)];;
  close fd;;
  unlink (str "unlinkread");;
  mret tt.

Definition fourteen (s : list Z) : U unit :=
  r ← mkdir (str "12345678901234");
  oops (negb (r =? 0)) (line "%s: mkdir 12345678901234 failed") [UStr (Some s)];;
  r ← mkdir (str "12345678901234/123456789012345");
  oops (negb (r =? 0)) (line "%s: mkdir 12345678901234/123456789012345 failed") [UStr (Some s)];;
  fd ← open (str "123456789012345/123456789012345/123456789012345") 0x200;
  oops (fd <? 0) (line "%s: create 123456789012345/123456789012345/123456789012345 failed") [UStr (Some s)];;
  close fd;;
  fd ← open (str "12345678901234/12345678901234/12345678901234") 0;
  oops (fd <? 0) (line "%s: open 12345678901234/12345678901234/12345678901234 failed") [UStr (Some s)];;
  close fd;;
  r ← mkdir (str "12345678901234/12345678901234");
  oops (r =? 0) (line "%s: mkdir 12345678901234/12345678901234 succeeded!") [UStr (Some s)];;
  r ← mkdir (str "123456789012345/12345678901234");
  oops (r =? 0) (line "%s: mkdir 12345678901234/123456789012345 succeeded!") [UStr (Some s)];;
  unlink (str "123456789012345/12345678901234");;
  unlink (str "12345678901234/12345678901234");;
  unlink (str "12345678901234/12345678901234/12345678901234");;
  unlink (str "123456789012345/123456789012345/123456789012345");;
  unlink (str "12345678901234/123456789012345");;
  unlink (str "12345678901234");;
  mret tt.

Definition rmdot (s : list Z) : U unit :=
  r ← mkdir (str "dots");
  oops (negb (r =? 0)) (line "%s: mkdir dots failed") [UStr (Some s)];;
  r ← chdir (str "dots");
  oops (negb (r =? 0)) (line "%s: chdir dots failed") [UStr (Some s)];;
  r ← unlink (str ".");
  oops (r =? 0) (line "%s: rm . worked!") [UStr (Some s)];;
  r ← unlink (str "..");
  oops (r =? 0) (line "%s: rm .. worked!") [UStr (Some s)];;
  r ← chdir (str "/");
  oops (negb (r =? 0)) (line "%s: chdir / failed") [UStr (Some s)];;
  r ← unlink (str "dots/.");
  oops (r =? 0) (line "%s: unlink dots/. worked!") [UStr (Some s)];;
  r ← unlink (str "dots/..");
  oops (r =? 0) (line "%s: unlink dots/.. worked!") [UStr (Some s)];;
  r ← unlink (str "dots");
  oops (negb (r =? 0)) (line "%s: unlink dots failed!") [UStr (Some s)].

Definition dirfile (s : list Z) : U unit :=
  fd ← open (str "dirfile") 0x200;
  oops (fd <? 0) (line "%s: create dirfile failed") [UStr (Some s)];;
  close fd;;
  r ← chdir (str "dirfile");
  oops (r =? 0) (line "%s: chdir dirfile succeeded!") [UStr (Some s)];;
  fd ← open (str "dirfile/xx") 0;
  oops (0 <=? fd) (line "%s: create dirfile/xx succeeded!") [UStr (Some s)];;
  fd ← open (str "dirfile/xx") 0x200;
  oops (0 <=? fd) (line "%s: create dirfile/xx succeeded!") [UStr (Some s)];;
  r ← mkdir (str "dirfile/xx");
  oops (r =? 0) (line "%s: mkdir dirfile/xx succeeded!") [UStr (Some s)];;
  r ← unlink (str "dirfile/xx");
  oops (r =? 0) (line "%s: unlink dirfile/xx succeeded!") [UStr (Some s)];;
  r ← link (str "README") (str "dirfile/xx");
  oops (r =? 0) (line "%s: link to dirfile/xx succeeded!") [UStr (Some s)];;
  r ← unlink (str "dirfile");
  oops (negb (r =? 0)) (line "%s: unlink dirfile failed!") [UStr (Some s)];;
  fd ← open (str ".") 2;
  oops (0 <=? fd) (line "%s: open . for writing succeeded!") [UStr (Some s)];;
  fd ← open (str ".") 0;
  r ← write fd (str "x");
  oops (0 <? r) (line "%s: write . succeeded!") [UStr (Some s)];;
  close fd;;
  mret tt.

Definition exectest (s : list Z) : U unit :=
  unlink (str "echo-ok");;
  pid ← fork;
  oops (pid <? 0) (line "%s: fork failed") [UStr (Some s)];;
  when (pid =? 0)
    (close 1;;
     fd ← open (str "echo-ok") 0x201;
     oops (fd <? 0) (line "%s: create failed") [UStr (Some s)];;
     oops (negb (fd =? 1)) (line "%s: wrong fd") [UStr (Some s)];;
     r ← exec (str "echo") [str "echo"; str "OK"];
     oops (r <? 0) (line "%s: exec echo failed") [UStr (Some s)]);;
  '(r, xstatus) ← wait_child;
  when (negb (r =? pid)) (printf (line "%s: wait failed!") [UStr (Some s)]);;
  when (negb (xstatus =? 0)) (exit xstatus EmptyString);;
  fd ← open (str "echo-ok") 0;
  oops (fd <? 0) (line "%s: open failed") [UStr (Some s)];;
  '(r, buf) ← read fd 2;
  oops (negb (r =? 2)) (line "%s: read failed") [UStr (Some s)];;
  unlink (str "echo-ok");;
  if (nth 0 buf 0 =? ch "O") && (nth 1 buf 0 =? ch "K") then exit 0 EmptyString
  else printf (line "%s: wrong output") [UStr (Some s)];; exit 1 EmptyString.

Definition count (c : Z) (l : list Z) : Z := Z.of_nat (length (filter (fun x => x = c) l)).

(** The whole buffer is counted after every read(), a short one included. *)
Definition sharedfd (fuel : nat) (s : list Z) : U unit :=
  unlink (str "sharedfd");;
  fd ← open (str "sharedfd") 0x202;
  oops (fd <? 0) (str "%s: cannot open sharedfd for writing") [UStr (Some s)];;
  pid ← fork;
  let buf := replicate 10 (if pid =? 0 then ch "c" else ch "p") in
  for_each (seqZ 0 1000) (fun _ =>
    r ← write fd buf;
    oops (negb (r =? 10)) (line "%s: write sharedfd failed") [UStr (Some s)]);;
  when (pid =? 0) (exit 0 EmptyString);;
  '(_, xstatus) ← wait_child;
  when (negb (xstatus =? 0)) (exit xstatus EmptyString);;
  close fd;;
  fd ← open (str "sharedfd") 0;
  oops (fd <? 0) (line "%s: cannot open sharedfd for reading") [UStr (Some s)];;
  '(nc, np) ← loop fuel (fun '(buf, nc, np) =>
    '(n, got) ← read fd 10;
    let buf := into buf got in
    if 0 <? n then mret (inl (buf, nc + count (ch "c") buf, np + count (ch "p") buf))
    else mret (inr (nc, np))) (buf, 0, 0);
  close fd;;
  unlink (str "sharedfd");;
  if (nc =? 10000) && (np =? 10000) then exit 0 EmptyString
  else printf (line "%s: nc/np test fails") [UStr (Some s)];; exit 1 EmptyString.

(** [for(...) { wait(&xstatus, ...); if(xstatus != 0) exit(e, ...); }] *)
Definition wait_all (n : Z) (e : Z -> Z) : U unit :=
  st ← stack_int;
  for_acc (seqZ 0 n) (fun _ st =>
    '(_, st) ← wait_status st;
    when (negb (st =? 0)) (exit (e st) EmptyString);;
    mret st) st;;
  mret tt.

Definition fourfiles (fuel : nat) (s : list Z) : U unit :=
  let names i := [ch "f"; ch "0" + i] in
  for_each (seqZ 0 4) (fun pi =>
    unlink (names pi);;
    pid ← fork;
    oops (pid <? 0) (line "fork failed") [UStr (Some s)];;
    when (pid =? 0)
      (fd ← open (names pi) 0x202;
       oops (fd <? 0) (line "create failed") [UStr (Some s)];;
       for_each (seqZ 0 12) (fun _ =>
         n ← write fd (replicate 500 (ch "0" + pi));
         oops (negb (n =? 500)) (line "write failed %d") [UInt n]);;
       exit 0 EmptyString));;
  wait_all 4 (fun st => st);;
  for_each (seqZ 0 4) (fun i =>
    fd ← open (names i) 0;
    total ← loop fuel (fun total =>
      '(n, got) ← read fd 12288;
      if 0 <? n then
        for_each (take (Z.to_nat n) got) (fun c =>
          oops (negb (c =? ch "0" + i)) (line "wrong char") [UStr (Some s)]);;
        mret (inl (s32 (total + n)))
      else mret (inr total)) 0;
    close fd;;
    oops (negb (total =? 6000)) (line "wrong length %d") [UInt total];;
    unlink (names i);;
    mret tt).

(** The last loop names the files with [i] for [pi]. *)
Definition createdelete (s : list Z) : U unit :=
  for_each (seqZ 0 4) (fun pi =>
    pid ← fork;
    oops (pid <? 0) (line "fork failed") [UStr (Some s)];;
    when (pid =? 0)
      (for_each (seqZ 0 20) (fun i =>
         fd ← open [char (ch "p" + pi); char (ch "0" + i)] 0x202;
         oops (fd <? 0) (line "%s: create failed") [UStr (Some s)];;
         close fd;;
         when ((0 <? i) && (i mod 2 =? 0))
           (r ← unlink [char (ch "p" + pi); char (ch "0" + i / 2)];
            oops (r <? 0) (line "%s: unlink failed") [UStr (Some s)]));;
       exit 0 EmptyString));;
  wait_all 4 (fun _ => 1);;
  for_each (seqZ 0 20) (fun i => for_each (seqZ 0 4) (fun pi =>
    let name := [char (ch "p" + pi); char (ch "0" + i)] in
    fd ← open name 0;
    (if ((i =? 0) || (10 <=? i)) && (fd <? 0) then
       printf (line "%s: oops createdelete %s didn't exist") [UStr (Some s); UStr (Some name)];;
       exit 1 EmptyString
     else if ((1 <=? i) && (i <? 10)) && (0 <=? fd) then
       printf (line "%s: oops createdelete %s did exist") [UStr (Some s); UStr (Some name)];;
       exit 1 EmptyString
     else mret tt);;
    when (0 <=? fd) (close fd;; mret tt)));;
  for_each (seqZ 0 20) (fun i => for_each (seqZ 0 4) (fun _ =>
    unlink [char (ch "p" + i); char (ch "0" + i)];; mret tt)).

Definition repeat (n : Z) (m : M W unit) : M W unit := for_each (seqZ 0 n) (fun _ => m).

(** The scan of the directory: [de] is the struct, [fa] the files seen, [n] their number. *)
Definition concreate_scan (fuel : nat) (s : list Z) (fd : Z) (de : list Z) : U Z :=
  loop fuel (fun '(de, fa, n) =>
    '(r, got) ← read fd 16;
    let de := into de got in
    if negb (0 <? r) then mret (inr n)
    else
      let name := drop 2 de in
      if nth 0 de 0 + 256 * nth 1 de 0 =? 0 then mret (inl (de, fa, n))
      else if (nth 0 name 0 =? ch "C") && (nth 2 name 0 =? 0) then
        let i := nth 1 name 0 - ch "0" in
        oops ((i <? 0) || (40 <=? i)) (line "%s: concreate weird file %s") [UStr (Some s); UStr (Some (cstr name))];;
        oops (nz (nth (Z.to_nat i) fa 0)) (line "%s: concreate duplicate file %s") [UStr (Some s); UStr (Some (cstr name))];;
        mret (inl (de, <[Z.to_nat i := 1]> fa, n + 1))
      else mret (inl (de, fa, n))) (de, replicate 40 0, 0).

Definition concreate (fuel : nat) (s : list Z) : U unit :=
  for_each (seqZ 0 40) (fun i =>
    let file := [ch "C"; char (ch "0" + i)] in
    unlink file;;
    pid ← fork;
    (if nz pid && (i mod 3 =? 1) then link (str "C0") file;; mret tt
     else if (pid =? 0) && (i mod 5 =? 1) then link (str "C0") file;; mret tt
     else
       fd ← open file 0x202;
       oops (fd <? 0) (line "concreate create %s failed") [UStr (Some file)];;
       close fd;;
       mret tt);;
    when (pid =? 0) (exit 0 EmptyString);;
    '(_, xstatus) ← wait_child;
    when (negb (xstatus =? 0)) (exit 1 EmptyString));;
  de ← local 16;
  fd ← open (str ".") 0;
  n ← concreate_scan fuel s fd de;
  close fd;;
  oops (negb (n =? 40)) (line "%s: concreate not enough files in directory listing") [UStr (Some s)];;
  for_each (seqZ 0 40) (fun i =>
    let file := [ch "C"; char (ch "0" + i)] in
    pid ← fork;
    oops (pid <? 0) (line "%s: fork failed") [UStr (Some s)];;
    (if ((i mod 3 =? 0) && (pid =? 0)) || ((i mod 3 =? 1) && nz pid) then repeat 6 (touch file 0)
     else repeat 6 (unlink file;; mret tt));;
    when (pid =? 0) (exit 0 EmptyString);;
    wait;;
    mret tt).

Definition linkunlink (s : list Z) : U unit :=
  unlink (str "x");;
  pid ← fork;
  oops (pid <? 0) (line "%s: fork failed") [UStr (Some s)];;
  for_acc (seqZ 0 100) (fun _ x =>
    let x := u32 (x * 1103515245 + 12345) in
    (if x mod 3 =? 0 then touch (str "x") 0x202
     else if x mod 3 =? 1 then link (str "cat") (str "x");; mret tt
     else unlink (str "x");; mret tt);;
    mret x) (if nz pid then 1 else 97);;
  if nz pid then wait;; mret tt else exit 0 EmptyString.

Definition bigwrite (s : list Z) : U unit :=
  unlink (str "bigwrite");;
  for_each (upto 499 12288 471) (fun sz =>
    fd ← open (str "bigwrite") 0x202;
    oops (fd <? 0) (line "%s: cannot create bigwrite") [UStr (Some s)];;
    repeat 2
      (cc ← write fd (take (Z.to_nat sz) zeros);
       oops (negb (cc =? sz)) (line "%s: write(%d) ret %d") [UStr (Some s); UInt sz; UInt cc]);;
    close fd;;
    unlink (str "bigwrite");;
    mret tt).

Definition bigfile (fuel : nat) (s : list Z) : U unit :=
  unlink (str "bigfile.dat");;
  fd ← open (str "bigfile.dat") 0x202;
  oops (fd <? 0) (str "%s: cannot create bigfile") [UStr (Some s)];;
  for_each (seqZ 0 20) (fun i =>
    r ← write fd (replicate 600 (char i));
    oops (negb (r =? 600)) (line "%s: write bigfile failed") [UStr (Some s)]);;
  close fd;;
  fd ← open (str "bigfile.dat") 0;
  oops (fd <? 0) (line "%s: cannot open bigfile") [UStr (Some s)];;
  total ← loop fuel (fun '(i, total) =>
    '(cc, buf) ← read fd 300;
    oops (cc <? 0) (line "%s: read bigfile failed") [UStr (Some s)];;
    if cc =? 0 then mret (inr total)
    else
      oops (negb (cc =? 300)) (line "%s: short read bigfile") [UStr (Some s)];;
      oops (negb (nth 0 buf 0 =? i / 2) || negb (nth 299 buf 0 =? i / 2)) (line "%s: read bigfile wrong data") [UStr (Some s)];;
      mret (inl (i + 1, s32 (total + cc)))) (0, 0);
  close fd;;
  oops (negb (total =? 12000)) (line "%s: read bigfile wrong total") [UStr (Some s)];;
  unlink (str "bigfile.dat");;
  mret tt.

Definition iref (s : list Z) : U unit :=
  repeat 51
    (r ← mkdir (str "irefd");
     oops (negb (r =? 0)) (line "%s: mkdir irefd failed") [UStr (Some s)];;
     r ← chdir (str "irefd");
     oops (negb (r =? 0)) (line "%s: chdir irefd failed") [UStr (Some s)];;
     mkdir [];;
     link (str "README") [];;
     fd ← open [] 0x200;
     when (0 <=? fd) (close fd;; mret tt);;
     fd ← open (str "xx") 0x200;
     when (0 <=? fd) (close fd;; mret tt);;
     unlink (str "xx");;
     mret tt);;
  repeat 51 (chdir (str "..");; unlink (str "irefd");; mret tt);;
  chdir (str "/");;
  mret tt.

(** The four digits of a file name. *)
Definition fsfull_name (n : Z) : list Z :=
  [ch "f"; char (ch "0" + n / 1000); char (ch "0" + n mod 1000 / 100);
   char (ch "0" + n mod 100 / 10); char (ch "0" + n mod 10)].

Definition fsfull (fuel : nat) : U unit :=
  printf (line "fsfull test") [];;
  nfiles ← loop fuel (fun nfiles =>
    let name := cstr (fsfull_name nfiles) in
    printf (line "writing %s") [UStr (Some name)];;
    fd ← open name 0x202;
    if fd <? 0 then
      printf (line "open %s failed") [UStr (Some name)];;
      mret (inr nfiles)
    else
      total ← loop fuel (fun total =>
        cc ← write fd (take 1024 zeros);
        if cc <? 1024 then mret (inr total) else mret (inl (s32 (total + cc)))) 0;
      printf (line "wrote %d bytes") [UInt total];;
      close fd;;
      if total =? 0 then mret (inr nfiles) else mret (inl (nfiles + 1))) 0;
  for_each (rev (seqZ 0 (nfiles + 1))) (fun n => unlink (cstr (fsfull_name n));; mret tt);;
  printf (line "fsfull test finished") [].

Definition bigdir (s : list Z) : U unit :=
  let name i := [ch "x"; char (ch "0" + i / 64); char (ch "0" + i mod 64)] in
  unlink (str "bd");;
  fd ← open (str "bd") 0x200;
  oops (fd <? 0) (line "%s: bigdir create failed") [UStr (Some s)];;
  close fd;;
  for_each (seqZ 0 500) (fun i =>
    r ← link (str "bd") (name i);
    oops (negb (r =? 0)) (line "%s: bigdir link(bd, %s) failed") [UStr (Some s); UStr (Some (name i))]);;
  unlink (str "bd");;
  for_each (seqZ 0 500) (fun i =>
    r ← unlink (name i);
    oops (negb (r =? 0)) (str "%s: bigdir unlink failed") [UStr (Some s)]).

Definition manywrites (s : list Z) : U unit :=
  for_each (seqZ 0 4) (fun ci =>
    pid ← fork;
    oops (pid <? 0) (line "fork failed") [];;
    when (pid =? 0)
      (let name := [ch "b"; char (ch "a" + ci)] in
       unlink name;;
       repeat 30
         (repeat (ci + 1)
            (fd ← open name 0x202;
             oops (fd <? 0) (line "%s: cannot create %s") [UStr (Some s); UStr (Some name)];;
             cc ← write fd zeros;
             oops (negb (cc =? 12288)) (line "%s: write(%d) ret %d") [UStr (Some s); UInt 12288; UInt cc];;
             close fd;;
             mret tt);;
          unlink name;;
          mret tt);;
       unlink name;;
       exit 0 EmptyString));;
  repeat 4
    ('(_, st) ← wait_status 0;
     when (negb (st =? 0)) (exit st EmptyString));;
  exit 0 EmptyString.

Definition badwrite (s : list Z) : U unit :=
  unlink (str "junk");;
  repeat 600
    (fd ← open (str "junk") 0x201;
     oops (fd <? 0) (line "open junk failed") [];;
     write_at fd 0xffffffffff 1;;
     close fd;;
     unlink (str "junk");;
     mret tt);;
  fd ← open (str "junk") 0x201;
  oops (fd <? 0) (line "open junk failed") [];;
  r ← write fd (str "x");
  oops (negb (r =? 1)) (line "write failed") [];;
  close fd;;
  unlink (str "junk");;
  exit 0 EmptyString.

Definition zz (i : Z) : list Z := [ch "z"; ch "z"; char (ch "0" + i / 32); char (ch "0" + i mod 32)].

(** Create the files [zz], up to the first that cannot be created. *)
Definition fill_zz (n : Z) : U unit :=
  loop (S (Z.to_nat n)) (fun i =>
    if i <? n then
      unlink (zz i);;
      fd ← open (zz i) 0x602;
      if fd <? 0 then mret (inr tt) else close fd;; mret (inl (i + 1))
    else mret (inr tt)) 0.

(** The printf() of the mkdir() that should fail has no argument for its [%s]. *)
Definition diskfull (fuel : nat) (s : list Z) : U unit :=
  let big i := cstr (str "big" ++ [char (ch "0" + i)]) in
  unlink (str "diskfulldir");;
  fi ← loop fuel (fun fi =>
    unlink (big fi);;
    fd ← open (big fi) 0x602;
    if fd <? 0 then
      printf (line "%s: could not create file %s") [UStr (Some s); UStr (Some (big fi))];;
      mret (inr fi)
    else
      stop ← loop 269 (fun i =>
        if i <? 268 then
          buf ← local 1024;
          r ← write fd buf;
          if negb (r =? 1024) then close fd;; mret (inr true) else mret (inl (i + 1))
        else mret (inr false)) 0;
      close fd;;
      mret (if stop : bool then inr (fi + 1) else inl (fi + 1))) 0;
  fill_zz 128;;
  r ← mkdir (str "diskfulldir");
  when (r =? 0) (printf (line "%s: mkdir(diskfulldir) unexpectedly succeeded!") []);;
  unlink (str "diskfulldir");;
  for_each (seqZ 0 128) (fun i => unlink (zz i);; mret tt);;
  for_each (seqZ 0 fi) (fun i => unlink (big i);; mret tt).

Definition outofinodes (s : list Z) : U unit :=
  fill_zz 1024;;
  for_each (seqZ 0 1024) (fun i => unlink (zz i);; mret tt).
End Files.
