(* ===== verification/UtProcs.v ===== *)
(** * user/usertests.c: the tests of pointers, processes and memory

    PGSIZE is 4096, KERNBASE 0x80000000, MAXVA 2^38, MAXPATH 128 and MAXARG 32.  A child
    that loops for ever is [spin] when its loop does nothing, and a loop with a bound on
    its rounds when it makes system calls. *)

From S2P Require Import Prelude User Ulib Utools UtFiles.

Section Procs.
Context {W : Type} {OS : Sys W} {WS : Wild W}.

Definition wild_addrs : list Z := [0x80000000; 0xffffffffffffffff].

Definition copyin (s : list Z) : U unit :=
  for_each wild_addrs (fun addr =>
    fd ← open (str "copyin1") 0x201;
    oops (fd <? 0) (line "open(copyin1) failed") [];;
    n ← write_at fd addr 8192;
    oops (0 <=? n) (line "write(fd, %p, 8192) returned %d, not -1") [ULong addr; UInt n];;
    close fd;;
    unlink (str "copyin1");;
    n ← write_at 1 addr 8192;
    oops (0 <? n) (line "write(1, %p, 8192) returned %d, not -1 or 0") [ULong addr; UInt n];;
    '(r, (fds0, fds1)) ← pipe;
    oops (r <? 0) (line "pipe() failed") [];;
    n ← write_at fds1 addr 8192;
    oops (0 <? n) (line "write(pipe, %p, 8192) returned %d, not -1 or 0") [ULong addr; UInt n];;
    close fds0;;
    close fds1;;
    mret tt).

Definition copyout (s : list Z) : U unit :=
  for_each wild_addrs (fun addr =>
    fd ← open (str "README") 0;
    oops (fd <? 0) (line "open(README) failed") [];;
    n ← read_at fd addr 8192;
    oops (0 <? n) (line "read(fd, %p, 8192) returned %d, not -1 or 0") [ULong addr; UInt n];;
    close fd;;
    '(r, (fds0, fds1)) ← pipe;
    oops (r <? 0) (line "pipe() failed") [];;
    n ← write fds1 (str "x");
    oops (negb (n =? 1)) (line "pipe write failed") [];;
    n ← read_at fds0 addr 8192;
    oops (0 <? n) (line "read(pipe, %p, 8192) returned %d, not -1 or 0") [ULong addr; UInt n];;
    close fds0;;
    close fds1;;
    mret tt).

Definition copyinstr1 (s : list Z) : U unit :=
  for_each wild_addrs (fun addr =>
    fd ← open_at addr 0x201;
    oops (0 <=? fd) (line "open(%p) returned %d, not -1") [ULong addr; UInt fd]).

(** The messages after an exec() print [fd]. *)
Definition copyinstr2 (s : list Z) : U unit :=
  let b := replicate 128 (ch "x") in
  ret ← unlink b;
  oops (negb (ret =? -1)) (line "unlink(%s) returned %d, not -1") [UStr (Some b); UInt ret];;
  fd ← open b 0x201;
  oops (negb (fd =? -1)) (line "open(%s) returned %d, not -1") [UStr (Some b); UInt fd];;
  ret ← link b b;
  oops (negb (ret =? -1)) (line "link(%s, %s) returned %d, not -1") [UStr (Some b); UStr (Some b); UInt ret];;
  ret ← exec b [str "xx"];
  oops (negb (ret =? -1)) (line "exec(%s) returned %d, not -1") [UStr (Some b); UInt fd];;
  pid ← fork;
  oops (pid <? 0) (line "fork failed") [];;
  when (pid =? 0)
    (let big := replicate 4096 (ch "x") in
     ret ← exec (str "echo") [big; big; big];
     oops (negb (ret =? -1)) (line "exec(echo, BIG) returned %d, not -1") [UInt fd];;
     exit 747 EmptyString);;
  '(_, st) ← wait_status 0;
  oops (negb (st =? 747)) (line "exec(echo, BIG) succeeded, should have failed") [].

(** [printf] of a format in which [%s] stands for an address: the text before it, the
    bytes at the address, and the rest. *)
Definition oops_at (fuel : nat) (c : bool) (before : string) (b : Z) (rest : U unit) : U unit :=
  when c (printf (str before) [];; print_at fuel b;; rest;; exit 1 EmptyString).

Definition copyinstr3 (fuel : nat) (s : list Z) : U unit :=
  sbrk 8192;;
  top ← sbrk 0;
  when (negb (top mod 4096 =? 0)) (sbrk (4096 - top mod 4096);; mret tt);;
  top ← sbrk 0;
  oops (nz (top mod 4096)) (line "oops") [];;
  let b := u64 (top - 1) in
  poke 1 b (ch "x");;
  ret ← unlink_at b;
  oops_at fuel (negb (ret =? -1)) "unlink(" b (printf (line ") returned %d, not -1") [UInt ret]);;
  fd ← open_at b 0x201;
  oops_at fuel (negb (fd =? -1)) "open(" b (printf (line ") returned %d, not -1") [UInt fd]);;
  ret ← link_at (inr b) (inr b);
  oops_at fuel (negb (ret =? -1)) "link(" b
    (printf (str ", ") [];; print_at fuel b;; printf (line ") returned %d, not -1") [UInt ret]);;
  ret ← wild_exec (inr b) [inl (str "xx")];
  oops_at fuel (negb (ret =? -1)) "exec(" b (printf (line ") returned %d, not -1") [UInt fd]).

Definition rwsbrk : U unit :=
  a ← sbrk 8192;
  oops (a =? nowhere) (line "sbrk(rwsbrk) failed") [];;
  r ← sbrk (-8192);
  oops (r =? nowhere) (line "sbrk(rwsbrk) shrink failed") [];;
  fd ← open (str "rwsbrk") 0x201;
  oops (fd <? 0) (line "open(rwsbrk) failed") [];;
  n ← write_at fd (u64 (a + 4096)) 1024;
  oops (0 <=? n) (line "write(fd, %p, 1024) returned %d, not -1") [ULong (u64 (a + 4096)); UInt n];;
  close fd;;
  unlink (str "rwsbrk");;
  fd ← open (str "README") 0;
  oops (fd <? 0) (line "open(rwsbrk) failed") [];;
  n ← read_at fd (u64 (a + 4096)) 10;
  oops (0 <=? n) (line "read(fd, %p, 10) returned %d, not -1") [ULong (u64 (a + 4096)); UInt n];;
  close fd;;
  exit 0 EmptyString.

(** The bytes count up from [seq]. *)
Fixpoint counts (seq : Z) (l : list Z) : bool :=
  match l with [] => true | c :: l' => (c =? u8 seq) && counts (seq + 1) l' end.

(** The last message has no argument for its [%s]. *)
Definition pipe1 (fuel : nat) (s : list Z) : U unit :=
  '(r, (fds0, fds1)) ← pipe;
  oops (negb (r =? 0)) (line "%s: pipe() failed") [UStr (Some s)];;
  pid ← fork;
  if pid =? 0 then
    close fds0;;
    for_each (seqZ 0 5) (fun n =>
      r ← write fds1 (map u8 (seqZ (n * 1033) 1033));
      oops (negb (r =? 1033)) (line "%s: pipe1 oops 1") [UStr (Some s)]);;
    exit 0 EmptyString
  else if 0 <? pid then
    close fds1;;
    total ← loop fuel (fun '(seq, total, cc) =>
      '(n, buf) ← read fds0 cc;
      if 0 <? n then
        if counts seq (take (Z.to_nat n) buf) then
          mret (inl (seq + n, s32 (total + n), if 12288 <? cc * 2 then 12288 else cc * 2))
        else printf (line "%s: pipe1 oops 2") [UStr (Some s)];; mret (inr None)
      else mret (inr (Some total))) (0, 0, 1);
    match total with
    | None => mret tt
    | Some total =>
        oops (negb (total =? 5165)) (line "%s: pipe1 oops 3 total %d") [UInt total];;
        close fds0;;
        '(_, xstatus) ← wait_child;
        exit xstatus EmptyString
    end
  else
    printf (line "%s: fork() failed") [UStr (Some s)];;
    exit 1 EmptyString.

Definition killstatus (fuel : nat) (s : list Z) : U unit :=
  xst ← stack_int;
  for_acc (seqZ 0 100) (fun _ xst =>
    pid1 ← fork;
    oops (pid1 <? 0) (line "%s: fork failed") [UStr (Some s)];;
    when (pid1 =? 0) (loop fuel (fun _ => getpid;; mret (inl tt)) tt);;
    sleep 1;;
    kill pid1;;
    '(_, xst) ← wait_status xst;
    oops (negb (xst =? -1)) (line "%s: status should be -1") [UStr (Some s)];;
    mret xst) xst;;
  exit 0 EmptyString.

Definition preempt (s : list Z) : U unit :=
  pid1 ← fork;
  oops (pid1 <? 0) (str "%s: fork failed") [UStr (Some s)];;
  when (pid1 =? 0) spin;;
  pid2 ← fork;
  oops (pid2 <? 0) (line "%s: fork failed") [UStr (Some s)];;
  when (pid2 =? 0) spin;;
  '(_, (pfds0, pfds1)) ← pipe;
  pid3 ← fork;
  oops (pid3 <? 0) (line "%s: fork failed") [UStr (Some s)];;
  when (pid3 =? 0)
    (close pfds0;;
     r ← write pfds1 (str "x");
     when (negb (r =? 1)) (printf (str "%s: preempt write error") [UStr (Some s)]);;
     close pfds1;;
     spin);;
  close pfds1;;
  '(r, _) ← read pfds0 12288;
  if negb (r =? 1) then printf (str "%s: preempt read error") [UStr (Some s)]
  else
    close pfds0;;
    printf (str "kill... ") [];;
    kill pid1;;
    kill pid2;;
    kill pid3;;
    printf (str "wait... ") [];;
    wait;;
    wait;;
    wait;;
    mret tt.

Definition exitwait (s : list Z) : U unit :=
  for_each (seqZ 0 100) (fun i =>
    pid ← fork;
    oops (pid <? 0) (line "%s: fork failed") [UStr (Some s)];;
    if nz pid then
      '(r, xstate) ← wait_child;
      oops (negb (r =? pid)) (line "%s: wait wrong pid") [UStr (Some s)];;
      oops (negb (i =? xstate)) (line "%s: wait wrong exit status") [UStr (Some s)]
    else exit i EmptyString).

Definition reparent (s : list Z) : U unit :=
  master_pid ← getpid;
  repeat 200
    (pid ← fork;
     oops (pid <? 0) (line "%s: fork failed") [UStr (Some s)];;
     if nz pid then
       r ← wait;
       oops (negb (r =? pid)) (line "%s: wait wrong pid") [UStr (Some s)]
     else
       pid2 ← fork;
       when (pid2 <? 0) (kill master_pid;; exit 1 EmptyString);;
       exit 0 EmptyString);;
  exit 0 EmptyString.

Definition twochildren (s : list Z) : U unit :=
  repeat 1000
    (pid1 ← fork;
     oops (pid1 <? 0) (line "%s: fork failed") [UStr (Some s)];;
     if pid1 =? 0 then exit 0 EmptyString
     else
       pid2 ← fork;
       oops (pid2 <? 0) (line "%s: fork failed") [UStr (Some s)];;
       if pid2 =? 0 then exit 0 EmptyString
       else wait;; wait;; mret tt).

Definition forkfork (s : list Z) : U unit :=
  repeat 2
    (pid ← fork;
     oops (pid <? 0) (str "%s: fork failed") [UStr (Some s)];;
     when (pid =? 0)
       (repeat 200
          (pid1 ← fork;
           when (pid1 <? 0) (exit 1 EmptyString);;
           when (pid1 =? 0) (exit 0 EmptyString);;
           wait;;
           mret tt);;
        exit 0 EmptyString));;
  xstatus ← stack_int;
  for_acc (seqZ 0 2) (fun _ xstatus =>
    '(_, xstatus) ← wait_status xstatus;
    oops (negb (xstatus =? 0)) (str "%s: fork in child failed") [UStr (Some s)];;
    mret xstatus) xstatus;;
  mret tt.

Definition forkforkfork (fuel : nat) (s : list Z) : U unit :=
  unlink (str "stopforking");;
  pid ← fork;
  oops (pid <? 0) (str "%s: fork failed") [UStr (Some s)];;
  when (pid =? 0)
    (loop fuel (fun _ =>
       fd ← open (str "stopforking") 0;
       when (0 <=? fd) (exit 0 EmptyString);;
       r ← fork;
       when (r <? 0) (touch (str "stopforking") 0x202);;
       mret (inl tt)) tt);;
  sleep 20;;
  touch (str "stopforking") 0x202;;
  wait;;
  sleep 10;;
  mret tt.

Definition reparent2 (s : list Z) : U unit :=
  repeat 800
    (pid1 ← fork;
     oops (pid1 <? 0) (line "fork failed") [];;
     when (pid1 =? 0) (fork;; fork;; exit 0 EmptyString);;
     wait;;
     mret tt);;
  exit 0 EmptyString.

Definition mem (fuel : nat) (s : list Z) : U unit :=
  pid ← fork;
  if pid =? 0 then
    m1 ← loop fuel (fun m1 =>
      m2 ← malloc 10001;
      if m2 =? 0 then mret (inr m1) else poke 8 m2 m1;; mret (inl m2)) 0;
    loop fuel (fun m1 =>
      if m1 =? 0 then mret (inr tt)
      else m2 ← peek 8 m1; free m1;; mret (inl m2)) m1;;
    m1 ← malloc 20480;
    oops (m1 =? 0) (line "couldn't allocate mem?!!") [UStr (Some s)];;
    free m1;;
    exit 0 EmptyString
  else
    '(_, xstatus) ← wait_child;
    when (xstatus =? -1) (exit 0 EmptyString);;
    exit xstatus EmptyString.

Definition forktest (s : list Z) : U unit :=
  n ← loop 1001 (fun n =>
    if n <? 1000 then
      pid ← fork;
      if pid <? 0 then mret (inr n)
      else when (pid =? 0) (exit 0 EmptyString);; mret (inl (n + 1))
    else mret (inr n)) 0;
  oops (n =? 0) (line "%s: no fork at all!") [UStr (Some s)];;
  oops (n =? 1000) (line "%s: fork claimed to work 1000 times!") [UStr (Some s)];;
  repeat n
    (r ← wait;
     oops (r <? 0) (line "%s: wait stopped early") [UStr (Some s)]);;
  r ← wait;
  oops (negb (r =? -1)) (line "%s: wait got too many") [UStr (Some s)].
End Procs.
