(* ===== verification/UtMem.v ===== *)
(** * user/usertests.c: the tests of sbrk() and of memory a process may not touch

    An address is a 64-bit number; sbrk() takes an int, to which its argument is cut.
    After a call that may unmap the page of the program the next instruction is fetched
    again. *)

From S2P Require Import Prelude User Ulib Utools UtFiles.

Section Memory.
Context {W : Type} {OS : Sys W} {WS : Wild W}.

Definition sbrkbasic (s : list Z) : U unit :=
  pid ← fork;
  oops (pid <? 0) (line "fork failed in sbrkbasic") [];;
  when (pid =? 0)
    (a ← sbrk 0x40000000;
     when (a =? nowhere) (exit 0 EmptyString);;
     for_each (upto a (a + 0x40000000) 4096) (fun b => poke 1 b 99);;
     exit 1 EmptyString);;
  st ← stack_int;
  '(_, xstatus) ← wait_status st;
  oops (xstatus =? 1) (line "%s: too much memory allocated!") [UStr (Some s)];;
  a ← sbrk 0;
  a ← for_acc (seqZ 0 5000) (fun i a =>
    b ← sbrk 1;
    oops (negb (b =? a)) (line "%s: sbrk test failed %d %x %x") [UStr (Some s); UInt i; ULong a; ULong b];;
    poke 1 b 1;;
    mret (u64 (b + 1))) a;
  pid ← fork;
  oops (pid <? 0) (line "%s: sbrk test fork failed") [UStr (Some s)];;
  sbrk 1;;
  c ← sbrk 1;
  oops (negb (c =? u64 (a + 1))) (line "%s: sbrk test failed post-fork") [UStr (Some s)];;
  when (pid =? 0) (exit 0 EmptyString);;
  '(_, xstatus) ← wait_status xstatus;
  exit xstatus EmptyString.

Definition BIG : Z := 100 * 1024 * 1024.

Definition sbrkmuch (s : list Z) : U unit :=
  oldbrk ← sbrk 0;
  a ← sbrk 0;
  let amt := u64 (BIG - a) in
  p ← sbrk amt;
  oops (negb (p =? a)) (line "%s: sbrk test failed to grow big address space; enough phys mem?") [UStr (Some s)];;
  eee ← sbrk 0;
  for_each (upto a eee 4096) (fun pp => poke 1 pp 1);;
  let lastaddr := BIG - 1 in
  poke 1 lastaddr 99;;
  a ← sbrk 0;
  c ← sbrk (-4096);
  oops (c =? nowhere) (line "%s: sbrk could not deallocate") [UStr (Some s)];;
  c ← sbrk 0;
  oops (negb (c =? u64 (a - 4096))) (line "%s: sbrk deallocation produced wrong address, a %x c %x") [UStr (Some s); ULong a; ULong c];;
  a ← sbrk 0;
  c ← sbrk 4096;
  bad ← (if negb (c =? a) then mret true
         else d ← sbrk 0; mret (negb (d =? u64 (a + 4096))));
  oops bad (line "%s: sbrk re-allocation failed, a %x c %x") [UStr (Some s); ULong a; ULong c];;
  v ← peek 1 lastaddr;
  oops (v =? 99) (line "%s: sbrk de-allocation didn't really deallocate") [UStr (Some s)];;
  a ← sbrk 0;
  d ← sbrk 0;
  c ← sbrk (- (d - oldbrk));
  oops (negb (c =? a)) (line "%s: sbrk downsize failed, a %x c %x") [UStr (Some s); ULong a; ULong c].

Definition kernmem (s : list Z) : U unit :=
  for_each (upto 0x80000000 (0x80000000 + 2000000) 50000) (fun a =>
    pid ← fork;
    oops (pid <? 0) (line "%s: fork failed") [UStr (Some s)];;
    when (pid =? 0)
      (v ← peek 1 a;
       printf (line "%s: oops could read %x = %x") [UStr (Some s); ULong a; UInt v];;
       exit 1 EmptyString);;
    '(_, xstatus) ← wait_child;
    when (negb (xstatus =? -1)) (exit 1 EmptyString)).

(** [for(a = MAXVA; a != 0; a <<= 1)]: the 64-bit powers of 2 from 2^38. *)
Definition MAXVAplus (s : list Z) : U unit :=
  for_each (map (fun k => 2 ^ (38 + k)) (seqZ 0 26)) (fun a =>
    pid ← fork;
    oops (pid <? 0) (line "%s: fork failed") [UStr (Some s)];;
    when (pid =? 0)
      (poke 1 a 99;;
       printf (line "%s: oops wrote %x") [UStr (Some s); ULong a];;
       exit 1 EmptyString);;
    '(_, xstatus) ← wait_child;
    when (negb (xstatus =? -1)) (exit 1 EmptyString)).

Definition sbrkfail (fuel : nat) (s : list Z) : U unit :=
  '(r, (fds0, fds1)) ← pipe;
  oops (negb (r =? 0)) (line "%s: pipe() failed") [UStr (Some s)];;
  pids ← for_acc (seqZ 0 10) (fun _ pids =>
    pid ← fork;
    when (pid =? 0)
      (a ← sbrk 0;
       sbrk (u64 (BIG - a));;
       write fds1 (str "x");;
       loop fuel (fun _ => sleep 1000;; mret (inl tt)) tt);;
    when (negb (pid =? -1)) (read fds0 1;; mret tt);;
    mret (pids ++ [pid])) [];
  c ← sbrk 4096;
  for_each pids (fun pid =>
    when (negb (pid =? -1)) (kill pid;; wait;; mret tt));;
  oops (c =? nowhere) (line "%s: failed sbrk leaked memory") [UStr (Some s)];;
  pid ← fork;
  oops (pid <? 0) (line "%s: fork failed") [UStr (Some s)];;
  when (pid =? 0)
    (a ← sbrk 0;
     sbrk (10 * BIG);;
     n ← for_acc (upto 0 (10 * BIG) 4096) (fun i n =>
       v ← peek 1 (u64 (a + i)); mret (s32 (n + v))) 0;
     printf (line "%s: allocate a lot of memory succeeded %d") [UStr (Some s); UInt n];;
     exit 1 EmptyString);;
  '(_, xstatus) ← wait_child;
  when (negb (xstatus =? -1) && negb (xstatus =? 2)) (exit 1 EmptyString).

Definition sbrkarg (s : list Z) : U unit :=
  a ← sbrk 4096;
  fd ← open (str "sbrk") 0x201;
  unlink (str "sbrk");;
  oops (fd <? 0) (line "%s: open sbrk failed") [UStr (Some s)];;
  n ← write_at fd a 4096;
  oops (n <? 0) (line "%s: write sbrk failed") [UStr (Some s)];;
  close fd;;
  a ← sbrk 4096;
  r ← pipe_at a;
  oops (negb (r =? 0)) (line "%s: pipe() failed") [UStr (Some s)].

Definition validatetest (s : list Z) : U unit :=
  for_each (upto 0 (1100 * 1024 + 1) 4096) (fun p =>
    r ← link_at (inl (str "nosuchfile")) (inr p);
    oops (negb (r =? -1)) (line "%s: link should not succeed") [UStr (Some s)]).

Definition bsstest (s : list Z) : U unit :=
  for_each (seqZ 0 10000) (fun i =>
    c ← peek 1 (at_uninit + i);
    oops (negb (c =? 0)) (line "%s: bss test failed") [UStr (Some s)]).

Definition bigargtest (s : list Z) : U unit :=
  unlink (str "bigarg-ok");;
  pid ← fork;
  (if pid =? 0 then
     exec (str "echo") (replicate 31 (line "bigargs test: failed" ++ replicate 199 (ch " ")));;
     fd ← open (str "bigarg-ok") 0x200;
     close fd;;
     exit 0 EmptyString
   else oops (pid <? 0) (line "%s: bigargtest: fork failed") [UStr (Some s)]);;
  '(_, xstatus) ← wait_child;
  when (negb (xstatus =? 0)) (exit xstatus EmptyString);;
  fd ← open (str "bigarg-ok") 0;
  oops (fd <? 0) (line "%s: bigarg test failed!") [UStr (Some s)];;
  close fd;;
  mret tt.

Definition argptest (s : list Z) : U unit :=
  fd ← open (str "init") 0;
  oops (fd <? 0) (line "%s: open failed") [UStr (Some s)];;
  top ← sbrk 0;
  read_at fd (u64 (top - 1)) (-1);;
  close fd;;
  mret tt.

(** The status of the child that the kernel should have killed. *)
Definition exit_killed : U unit :=
  '(_, xstatus) ← wait_child;
  if xstatus =? -1 then exit 0 EmptyString else exit xstatus EmptyString.

(** [%p] with a char. *)
Definition stacktest (s : list Z) : U unit :=
  pid ← fork;
  (if pid =? 0 then
     sp ← r_sp;
     v ← peek 1 (u64 (sp - 4096));
     printf (line "%s: stacktest: read below stack %p") [UStr (Some s); UInt v];;
     exit 1 EmptyString
   else oops (pid <? 0) (line "%s: fork failed") [UStr (Some s)]);;
  exit_killed.

Definition textwrite (s : list Z) : U unit :=
  pid ← fork;
  (if pid =? 0 then
     poke 4 0 10;;
     exit 1 EmptyString
   else oops (pid <? 0) (line "%s: fork failed") [UStr (Some s)]);;
  exit_killed.

Definition pgbug (s : list Z) : U unit :=
  let big := 0xeaeb0b5b00002f5e in
  wild_exec (inr big) [];;
  pipe_at big;;
  exit 0 EmptyString.

Definition sbrkbugs (s : list Z) : U unit :=
  pid ← fork;
  oops (pid <? 0) (line "fork failed") [];;
  when (pid =? 0)
    (sz ← sbrk 0;
     sbrk (- s32 sz);;
     fetch;;
     exit 0 EmptyString);;
  wait;;
  pid ← fork;
  oops (pid <? 0) (line "fork failed") [];;
  when (pid =? 0)
    (sz ← sbrk 0;
     sbrk (- (s32 sz - 3500));;
     fetch;;
     exit 0 EmptyString);;
  wait;;
  pid ← fork;
  oops (pid <? 0) (line "fork failed") [];;
  when (pid =? 0)
    (sz ← sbrk 0;
     sbrk (u64 (10 * 4096 + 2048 - sz));;
     fetch;;
     sbrk (-10);;
     fetch;;
     exit 0 EmptyString);;
  wait;;
  exit 0 EmptyString.

Definition sbrklast (s : list Z) : U unit :=
  top ← sbrk 0;
  when (negb (top mod 4096 =? 0)) (sbrk (4096 - top mod 4096);; mret tt);;
  sbrk 4096;;
  sbrk 10;;
  sbrk (-20);;
  top ← sbrk 0;
  let p := u64 (top - 64) in
  poke 1 p (ch "x");;
  poke 1 (u64 (p + 1)) 0;;
  fd ← open_at p 0x202;
  write_at fd p 1;;
  close fd;;
  fd ← open_at p 2;
  poke 1 p 0;;
  read_at fd p 1;;
  c ← peek 1 p;
  when (negb (c =? ch "x")) (exit 1 EmptyString).

Definition sbrk8000 (s : list Z) : U unit :=
  sbrk 0x80000004;;
  top ← sbrk 0;
  c ← peek 1 (u64 (top - 1));
  poke 1 (u64 (top - 1)) (u8 (c + 1)).

Definition badarg (s : list Z) : U unit :=
  repeat 50000 (wild_exec (inl (str "echo")) [inr 0xffffffff];; mret tt);;
  exit 0 EmptyString.

Definition execout (fuel : nat) (s : list Z) : U unit :=
  for_each (seqZ 0 15) (fun avail =>
    pid ← fork;
    if pid <? 0 then printf (line "fork failed") [];; exit 1 EmptyString
    else if pid =? 0 then
      loop fuel (fun _ =>
        a ← sbrk 4096;
        if a =? nowhere then mret (inr tt) else poke 1 (u64 (a + 4096 - 1)) 1;; mret (inl tt)) tt;;
      repeat avail (sbrk (-4096);; mret tt);;
      close 1;;
      exec (str "echo") [str "echo"; str "x"];;
      exit 0 EmptyString
    else wait;; mret tt);;
  exit 0 EmptyString.
End Memory.
