(* ===== verification/Usertests.v ===== *)
(** * user/usertests.c: the tables of tests and the driver

    A test is a function and its name; [fuel] bounds the loops of the tests that end by
    what a system call returns.  The theorem says what runtests() promises: the tests it
    selects run in the order of the table, each in a process of its own, up to the first
    that fails. *)

From S2P Require Import Prelude User Ulib Utools UtFiles UtProcs UtMem.

Section Usertests.
Context {W : Type} {OS : Sys W} {WS : Wild W}.

Record test : Type := Test { t_f : list Z -> M W unit; t_s : list Z }.

Definition quicktests (fuel : nat) : list test :=
  [Test copyin (str "copyin"); Test copyout (str "copyout");
   Test copyinstr1 (str "copyinstr1"); Test copyinstr2 (str "copyinstr2");
   Test (copyinstr3 fuel) (str "copyinstr3"); Test (fun _ => rwsbrk) (str "rwsbrk");
   Test truncate1 (str "truncate1"); Test truncate2 (str "truncate2");
   Test truncate3 (str "truncate3"); Test openiputtest (str "openiput");
   Test exitiputtest (str "exitiput"); Test iputtest (str "iput");
   Test opentest (str "opentest"); Test writetest (str "writetest");
   Test (writebig fuel) (str "writebig"); Test createtest (str "createtest");
   Test dirtest (str "dirtest"); Test exectest (str "exectest");
   Test (pipe1 fuel) (str "pipe1"); Test (killstatus fuel) (str "killstatus");
   Test preempt (str "preempt"); Test exitwait (str "exitwait");
   Test reparent (str "reparent"); Test twochildren (str "twochildren");
   Test forkfork (str "forkfork"); Test (forkforkfork fuel) (str "forkforkfork");
   Test reparent2 (str "reparent2"); Test (mem fuel) (str "mem");
   Test (sharedfd fuel) (str "sharedfd"); Test (fourfiles fuel) (str "fourfiles");
   Test createdelete (str "createdelete"); Test unlinkread (str "unlinkread");
   Test linktest (str "linktest"); Test (concreate fuel) (str "concreate");
   Test linkunlink (str "linkunlink"); Test subdir (str "subdir");
   Test bigwrite (str "bigwrite"); Test (bigfile fuel) (str "bigfile");
   Test fourteen (str "fourteen"); Test rmdot (str "rmdot");
   Test dirfile (str "dirfile"); Test iref (str "iref");
   Test forktest (str "forktest"); Test sbrkbasic (str "sbrkbasic");
   Test sbrkmuch (str "sbrkmuch"); Test kernmem (str "kernmem");
   Test MAXVAplus (str "MAXVAplus"); Test (sbrkfail fuel) (str "sbrkfail");
   Test sbrkarg (str "sbrkarg"); Test validatetest (str "validatetest");
   Test bsstest (str "bsstest"); Test bigargtest (str "bigargtest");
   Test argptest (str "argptest"); Test stacktest (str "stacktest");
   Test textwrite (str "textwrite"); Test pgbug (str "pgbug");
   Test sbrkbugs (str "sbrkbugs"); Test sbrklast (str "sbrklast");
   Test sbrk8000 (str "sbrk8000"); Test badarg (str "badarg")].

Definition slowtests (fuel : nat) : list test :=
  [Test bigdir (str "bigdir"); Test manywrites (str "manywrites");
   Test badwrite (str "badwrite"); Test (execout fuel) (str "execout");
   Test (diskfull fuel) (str "diskfull"); Test outofinodes (str "outofinodes")].

Definition run (f : list Z -> M W unit) (s : list Z) : U bool :=
  printf (str "test %s: ") [UStr (Some s)];;
  pid ← fork;
  oops (pid <? 0) (line "runtest: fork error") [];;
  if pid =? 0 then
    f s;;
    exit 0 EmptyString
  else
    '(_, xstatus) ← wait_child;
    (if negb (xstatus =? 0) then printf (line "FAILED") [] else printf (line "OK") []);;
    mret (xstatus =? 0).

(** [(justone == 0) || strcmp(t->s, justone) == 0] *)
Definition selected (justone : option (list Z)) (t : test) : bool :=
  match justone with None => true | Some s => bool_decide (t_s t = s) end.

Fixpoint runtests (tests : list test) (justone : option (list Z)) : U Z :=
  match tests with
  | [] => mret 0
  | t :: tests' =>
      if selected justone t then
        ok ← run (t_f t) (t_s t);
        if negb ok then printf (line "SOME TESTS FAILED") [];; mret 1
        else runtests tests' justone
      else runtests tests' justone
  end.

Definition countfree (fuel : nat) : U Z :=
  '(r, (fds0, fds1)) ← pipe;
  oops (r <? 0) (line "pipe() failed in countfree()") [];;
  pid ← fork;
  oops (pid <? 0) (line "fork failed in countfree()") [];;
  when (pid =? 0)
    (close fds0;;
     loop fuel (fun _ =>
       a ← sbrk 4096;
       if a =? nowhere then mret (inr tt)
       else
         poke 1 (u64 (a + 4096 - 1)) 1;;
         r ← write fds1 (str "x");
         oops (negb (r =? 1)) (line "write() failed in countfree()") [];;
         mret (inl tt)) tt;;
     exit 0 EmptyString);;
  close fds1;;
  n ← loop fuel (fun n =>
    '(cc, _) ← read fds0 1;
    oops (cc <? 0) (line "read() failed in countfree()") [];;
    if cc =? 0 then mret (inr n) else mret (inl (s32 (n + 1)))) 0;
  close fds0;;
  wait;;
  mret n.

(** One round; [None] when the loop goes on. *)
Definition drive_round (fuel : nat) (quick continuous : Z) (justone : option (list Z)) : U (option Z) :=
  printf (line "usertests starting") [];;
  free0 ← countfree fuel;
  r ← runtests (quicktests fuel) justone;
  if nz r && negb (continuous =? 2) then mret (Some 1)
  else
    r ← (if quick =? 0 then
           when (bool_decide (justone = None)) (printf (line "usertests slow tests starting") []);;
           runtests (slowtests fuel) justone
         else mret 0);
    if nz r && negb (continuous =? 2) then mret (Some 1)
    else
      free1 ← countfree fuel;
      when (free1 <? free0) (printf (line "FAILED -- lost some free pages %d (out of %d)") [UInt free1; UInt free0]);;
      if (free1 <? free0) && negb (continuous =? 2) then mret (Some 1)
      else mret (if nz continuous then None else Some 0).

Definition drivetests (fuel : nat) (quick continuous : Z) (justone : option (list Z)) : U Z :=
  loop fuel (fun _ =>
    r ← drive_round fuel quick continuous justone;
    mret (match r with None => inl tt | Some x => inr x end)) tt.

Definition usertests_main (fuel : nat) (argv : list (list Z)) : U unit :=
  '(quick, continuous, justone) ←
    (match argv with
     | [_; a] =>
         if bool_decide (a = str "-q") then mret (1, 0, None)
         else if bool_decide (a = str "-c") then mret (0, 1, None)
         else if bool_decide (a = str "-C") then mret (0, 2, None)
         else if negb (nth 0 a 0 =? ch "-") then mret (0, 0, Some a)
         else printf (line "Usage: usertests [-c] [-C] [-q] [testname]") [];; exit 1 EmptyString
     | _ :: _ :: _ => printf (line "Usage: usertests [-c] [-C] [-q] [testname]") [];; exit 1 EmptyString
     | _ => mret (0, 0, None)
     end);
  r ← drivetests fuel quick continuous justone;
  when (nz r) (exit 1 EmptyString);;
  printf (line "ALL TESTS PASSED") [];;
  exit 0 EmptyString.

(** The runs of tests that all pass, in their order. *)
Inductive passing : list test -> W -> W -> Prop :=
  | passing_nil w : passing [] w w
  | passing_cons t ts w w1 w' :
      run (t_f t) (t_s t) w = Ret true w1 -> passing ts w1 w' -> passing (t :: ts) w w'.

(** The runs up to the first failure. *)
Inductive failing : list test -> W -> W -> Prop :=
  | failing_here t ts w w1 w' :
      run (t_f t) (t_s t) w = Ret false w1 ->
      printf (line "SOME TESTS FAILED") [] w1 = Ret tt w' -> failing (t :: ts) w w'
  | failing_next t ts w w1 w' :
      run (t_f t) (t_s t) w = Ret true w1 -> failing ts w1 w' -> failing (t :: ts) w w'.

Abbreviation chosen justone := (filter (fun t : test => selected justone t = true)).

Lemma chosen_true justone t ts : selected justone t = true -> chosen justone (t :: ts) = t :: chosen justone ts.
Proof. intros H. rewrite filter_cons. by rewrite decide_True. Qed.

Lemma chosen_false justone t ts : selected justone t = false -> chosen justone (t :: ts) = chosen justone ts.
Proof. intros H. rewrite filter_cons. rewrite decide_False; [done|congruence]. Qed.

Lemma report_inv (w : W) r w' :
  (printf (line "SOME TESTS FAILED") [];; mret 1) w = Ret r w' ->
  r = 1 /\ printf (line "SOME TESTS FAILED") [] w = Ret tt w'.
Proof.
  intros E. rewrite bind_unfold in E. apply obind_Ret_inv in E as ([] & w2 & E & E'). by injection E' as <- <-.
Qed.

Lemma verdict_inv (ok : bool) (rest : M W Z) w r w' :
  (if negb ok then printf (line "SOME TESTS FAILED") [];; mret 1 else rest) w = Ret r w' ->
  if ok then rest w = Ret r w' else r = 1 /\ printf (line "SOME TESTS FAILED") [] w = Ret tt w'.
Proof. destruct ok; [exact id|apply report_inv]. Qed.

Lemma runtests_step t ts justone w r w' :
  selected justone t = true -> runtests (t :: ts) justone w = Ret r w' ->
  exists ok w1, run (t_f t) (t_s t) w = Ret ok w1 /\
    if ok : bool then runtests ts justone w1 = Ret r w'
    else r = 1 /\ printf (line "SOME TESTS FAILED") [] w1 = Ret tt w'.
Proof.
  intros Hs. cbn [runtests]. rewrite Hs. intros E. rewrite bind_unfold in E.
  apply obind_Ret_inv in E as (ok & w1 & E1 & E2). exists ok, w1. split; [exact E1|].
  exact (verdict_inv _ _ _ _ _ E2).
Qed.

Lemma runtests_skip t ts justone w :
  selected justone t = false -> runtests (t :: ts) justone w = runtests ts justone w.
Proof. intros Hs. cbn [runtests]. by rewrite Hs. Qed.

(** runtests() returns 0 when all the tests it selects pass, and 1 at the first failure. *)
Lemma runtests_sound tests justone w r w' :
  runtests tests justone w = Ret r w' ->
  r = 0 /\ passing (chosen justone tests) w w' \/ r = 1 /\ failing (chosen justone tests) w w'.
Proof.
  revert w. induction tests as [|t ts IH]; intros w E.
  { injection E as <- <-. left. split; [done|constructor]. }
  destruct (selected justone t) eqn:Hs.
  2: { rewrite runtests_skip in E by done. rewrite chosen_false by done. by apply IH. }
  rewrite chosen_true by done. apply runtests_step in E as ([] & w1 & E1 & E2); [| |done].
  - destruct (IH _ E2) as [[-> H]|[-> H]]; [left|right]; (split; [done|]).
    + exact (passing_cons _ _ _ _ _ E1 H).
    + exact (failing_next _ _ _ _ _ E1 H).
  - destruct E2 as [-> E2]. right. split; [done|]. exact (failing_here _ _ _ _ _ E1 E2).
Qed.

Lemma runtests_passing tests justone w w' :
  passing (chosen justone tests) w w' -> runtests tests justone w = Ret 0 w'.
Proof.
  revert w. induction tests as [|t ts IH]; intros w.
  { inversion 1; done. }
  destruct (selected justone t) eqn:Hs.
  2: { rewrite runtests_skip, chosen_false by done. apply IH. }
  rewrite chosen_true by done. inversion 1 as [|? ? ? w1 ? E1 E2]; subst.
  cbn [runtests]. rewrite Hs, (bind_Ret _ _ _ _ _ E1). by apply IH.
Qed.

(** A name that is not in the table selects nothing, which counts as success. *)
Lemma runtests_unknown tests s w :
  Forall (fun t => t_s t <> s) tests -> runtests tests (Some s) w = Ret 0 w.
Proof.
  intros H. apply runtests_passing. replace (chosen (Some s) tests) with (@nil test); [constructor|].
  symmetry. induction H as [|t ts Ht _ IH]; [done|]. rewrite chosen_false; [done|]. by apply bool_decide_eq_false.
Qed.
End Usertests.
