(* ===== verification/Grind.v ===== *)
(** * user/grind.c: random system calls

    The generator of random numbers, the loop that makes the calls it picks, and the
    processes that run it.  [rand_next] and what go() keeps from one round to the next,
    its open file, its buffer and the number of rounds, are passed explicitly.  The loops
    have no end: they have a bound on their rounds.  do_rand() computes a product modulo
    2^31 - 1 without leaving 32 bits; the theorem says that it is that product. *)

From S2P Require Import Prelude User Ulib Utools.

(** The new [*ctx], and the int that is returned. *)
Definition do_rand (ctx : Z) : Z * Z :=
  let x := ctx mod 0x7ffffffe + 1 in
  let hi := Z.quot x 127773 in
  let lo := Z.rem x 127773 in
  let x := 16807 * lo - 2836 * hi in
  let x := if x <? 0 then x + 0x7fffffff else x in
  let x := x - 1 in
  (u64 x, s32 x).

Record grind : Type := Grind { rand_next : Z; g_fd : Z; g_buf : list Z; iters : Z }.

Definition rand (g : grind) : Z * grind :=
  let '(ctx, x) := do_rand (rand_next g) in (x, Grind ctx (g_fd g) (g_buf g) (iters g)).

Section Grind.
Context {W : Type} {OS : Sys W} {WS : Wild W}.

(** [if(pid == 0){ ... } else if(pid < 0){ printf(...); exit(1, ...); }] after a fork(). *)
Definition in_child (pid : Z) (child : M W unit) : U unit :=
  if pid =? 0 then child else oops (pid <? 0) (line "grind: fork failed") [].

(** [what] from 1 to 12: files and directories; the result is the new [fd] and [buf]. *)
Definition go_files (what fd : Z) (buf : list Z) : U (Z * list Z) :=
  if what =? 1 then touch (str "grindir/../a") 0x202;; mret (fd, buf)
  else if what =? 2 then touch (str "grindir/../grindir/../b") 0x202;; mret (fd, buf)
  else if what =? 3 then unlink (str "grindir/../a");; mret (fd, buf)
  else if what =? 4 then
    r ← chdir (str "grindir");
    oops (negb (r =? 0)) (line "grind: chdir grindir failed") [];;
    unlink (str "../b");;
    chdir (str "/");;
    mret (fd, buf)
  else if what =? 5 then
    close fd;;
    fd ← open (str "/grindir/../a") 0x202;
    mret (fd, buf)
  else if what =? 6 then
    close fd;;
    fd ← open (str "/./grindir/./../b") 0x202;
    mret (fd, buf)
  else if what =? 7 then write fd buf;; mret (fd, buf)
  else if what =? 8 then
    '(_, got) ← read fd 999;
    mret (fd, got ++ drop (length got) buf)
  else if what =? 9 then
    mkdir (str "grindir/../a");;
    touch (str "a/../a/./a") 0x202;;
    unlink (str "a/a");;
    mret (fd, buf)
  else if what =? 10 then
    mkdir (str "/../b");;
    touch (str "grindir/../b/b") 0x202;;
    unlink (str "b/b");;
    mret (fd, buf)
  else if what =? 11 then
    unlink (str "b");;
    link (str "../grindir/./../a") (str "../b");;
    mret (fd, buf)
  else if what =? 12 then
    unlink (str "../grindir/../a");;
    link (str ".././b") (str "/grindir/../a");;
    mret (fd, buf)
  else mret (fd, buf).

(** [what] from 13 to 20: processes and memory. *)
Definition go_procs (what break0 : Z) : U unit :=
  if what =? 13 then
    pid ← fork;
    in_child pid (exit 0 EmptyString);;
    wait;;
    mret tt
  else if what =? 14 then
    pid ← fork;
    in_child pid (fork;; fork;; exit 0 EmptyString);;
    wait;;
    mret tt
  else if what =? 15 then sbrk 6011;; mret tt
  else if what =? 16 then
    a ← sbrk 0;
    when (break0 <? a) (b ← sbrk 0; sbrk (- (b - break0));; mret tt)
  else if what =? 17 then
    pid ← fork;
    in_child pid (touch (str "a") 0x202;; exit 0 EmptyString);;
    r ← chdir (str "../grindir/..");
    oops (negb (r =? 0)) (line "grind: chdir failed") [];;
    kill pid;;
    wait;;
    mret tt
  else if what =? 18 then
    pid ← fork;
    in_child pid (me ← getpid; kill me;; exit 0 EmptyString);;
    wait;;
    mret tt
  else if what =? 19 then
    '(r, (fds0, fds1)) ← pipe;
    oops (r <? 0) (line "grind: pipe failed") [];;
    pid ← fork;
    in_child pid
      (fork;;
       fork;;
       r ← write fds1 (str "x");
       when (negb (r =? 1)) (printf (line "grind: pipe write failed") []);;
       '(r, _) ← read fds0 1;
       when (negb (r =? 1)) (printf (line "grind: pipe read failed") []);;
       exit 0 EmptyString);;
    close fds0;;
    close fds1;;
    wait;;
    mret tt
  else if what =? 20 then
    pid ← fork;
    in_child pid
      (unlink (str "a");;
       mkdir (str "a");;
       chdir (str "a");;
       unlink (str "../a");;
       open (str "x") 0x202;;
       unlink (str "x");;
       exit 0 EmptyString);;
    wait;;
    mret tt
  else mret tt.

(** [what == 21] *)
Definition go_check : U unit :=
  unlink (str "c");;
  fd1 ← open (str "c") 0x202;
  oops (fd1 <? 0) (line "grind: create c failed") [];;
  r ← write fd1 (str "x");
  oops (negb (r =? 1)) (line "grind: write c failed") [];;
  '(r, st) ← fstat fd1;
  oops (negb (r =? 0)) (line "grind: fstat failed") [];;
  oops (negb (st_size st =? 1)) (line "grind: fstat reports wrong size %d") [UInt (s32 (st_size st))];;
  oops (200 <? st_ino st) (line "grind: fstat reports crazy i-number %d") [UInt (s32 (st_ino st))];;
  close fd1;;
  unlink (str "c");;
  mret tt.

(** [if(c){ fprintf(2, ...); exit(status, ...); }] *)
Definition fail (c : bool) (msg : string) (status : Z) : U unit :=
  when c (fprintf 2 (line msg) [];; exit status EmptyString).

(** [read(fd, &c, 1)] of a [c] that is 0. *)
Definition read1 (fd : Z) : U Z := '(_, got) ← read fd 1; mret (nth 0 got 0).

(** [what == 22]: echo hi | cat *)
Definition go_pipeline : U unit :=
  '(r, (aa0, aa1)) ← pipe;
  fail (r <? 0) "grind: pipe failed" 1;;
  '(r, (bb0, bb1)) ← pipe;
  fail (r <? 0) "grind: pipe failed" 1;;
  pid1 ← fork;
  (if pid1 =? 0 then
     close bb0;;
     close bb1;;
     close aa0;;
     close 1;;
     r ← dup aa1;
     fail (negb (r =? 1)) "grind: dup failed" 1;;
     close aa1;;
     exec (str "grindir/../echo") [str "echo"; str "hi"];;
     fail true "grind: echo: not found" 2
   else fail (pid1 <? 0) "grind: fork failed" 3);;
  pid2 ← fork;
  (if pid2 =? 0 then
     close aa1;;
     close bb0;;
     close 0;;
     r ← dup aa0;
     fail (negb (r =? 0)) "grind: dup failed" 4;;
     close aa0;;
     close 1;;
     r ← dup bb1;
     fail (negb (r =? 1)) "grind: dup failed" 5;;
     close bb1;;
     exec (str "/cat") [str "cat"];;
     fail true "grind: cat: not found" 6
   else fail (pid2 <? 0) "grind: fork failed" 7);;
  close aa0;;
  close aa1;;
  close bb1;;
  c0 ← read1 bb0;
  c1 ← read1 bb0;
  c2 ← read1 bb0;
  close bb0;;
  '(_, st1) ← wait_child;
  '(_, st2) ← wait_child;
  let buf := cstr [c0; c1; c2] in
  oops (negb (st1 =? 0) || negb (st2 =? 0) || negb (bool_decide (buf = line "hi")))
    (str "grind: exec pipeline failed %d %d " ++ [34] ++ str "%s" ++ [34; 10])
    [UInt st1; UInt st2; UStr (Some buf)].

(** One round of the loop of go(). *)
Definition go_round (which_child break0 : Z) (g : grind) : U grind :=
  let iters := u64 (iters g + 1) in
  when (iters mod 500 =? 0) (write 1 (if nz which_child then str "B" else str "A");; mret tt);;
  let '(x, g) := rand g in
  let what := Z.rem x 23 in
  '(fd, buf) ← go_files what (g_fd g) (g_buf g);
  go_procs what break0;;
  when (what =? 21) go_check;;
  when (what =? 22) go_pipeline;;
  mret (Grind (rand_next g) fd buf iters).

Definition go (fuel : nat) (which_child next : Z) : U unit :=
  break0 ← sbrk 0;
  mkdir (str "grindir");;
  r ← chdir (str "grindir");
  oops (negb (r =? 0)) (line "grind: chdir grindir failed") [];;
  chdir (str "/");;
  loop fuel (fun g => g' ← go_round which_child break0 g; mret (inl g'))
    (Grind next (-1) (replicate 999 0) 0).

Definition iter (fuel : nat) (next : Z) : U unit :=
  unlink (str "a");;
  unlink (str "b");;
  pid1 ← fork;
  oops (pid1 <? 0) (line "grind: fork failed") [];;
  when (pid1 =? 0) (go fuel 0 (Z.lxor next 31);; exit 0 EmptyString);;
  pid2 ← fork;
  oops (pid2 <? 0) (line "grind: fork failed") [];;
  when (pid2 =? 0) (go fuel 1 (Z.lxor next 7177);; exit 0 EmptyString);;
  '(_, st1) ← wait_status (-1);
  when (negb (st1 =? 0)) (kill pid1;; kill pid2;; mret tt);;
  wait_status (-1);;
  exit 0 EmptyString.

Definition grind_main (fuel : nat) : U unit :=
  loop fuel (fun next =>
    pid ← fork;
    when (pid =? 0) (iter fuel next;; exit 0 EmptyString);;
    when (0 <? pid) (wait;; mret tt);;
    sleep 20;;
    mret (inl (u64 (next + 1)))) 1.
End Grind.

(** Schrage's decomposition: the difference is congruent to the product, and in range. *)
Lemma schrage x hi lo :
  x = 127773 * hi + lo -> 0 <= lo < 127773 -> 1 <= x <= 0x7ffffffe ->
  let v := 16807 * lo - 2836 * hi in
  16807 * x = 0x7fffffff * hi + v /\ - 0x7fffffff < v < 0x7fffffff /\ v <> 0.
Proof. intros -> Hlo Hx v. unfold v. split_and!; lia. Qed.

(** C29: do_rand() is the generator x := 7^5 * x mod (2^31 - 1) of its comment, on the state
    moved from [0, 0x7ffffffd] to [1, 0x7ffffffe]: the new state and the result are the
    same number, which is in that range again whatever the state was. *)
Theorem do_rand_spec (ctx : Z) :
  let y := 16807 * (ctx mod 0x7ffffffe + 1) mod 0x7fffffff in
  do_rand ctx = (y - 1, y - 1) /\ 0 <= y - 1 <= 0x7ffffffd.
Proof.
  unfold do_rand. set (x := ctx mod 0x7ffffffe + 1).
  assert (1 <= x <= 0x7ffffffe) as Hx by (unfold x; pose proof (Z.mod_pos_bound ctx 0x7ffffffe); lia).
  rewrite Z.quot_div_nonneg, Z.rem_mod_nonneg by lia.
  destruct (schrage x (x / 127773) (x mod 127773)) as (E & Hv & Hnz); [apply Z.div_mod; lia|by apply Z.mod_pos_bound|done|].
  set (v := 16807 * (x mod 127773) - 2836 * (x / 127773)) in *.
  assert (16807 * x mod 0x7fffffff = if v <? 0 then v + 0x7fffffff else v) as ->.
  { rewrite E, Z.add_comm, Z.mul_comm, Z_mod_plus_full. destruct (Z.ltb_spec v 0) as [Hn|Hn].
    - rewrite <- (Z_mod_plus_full v 1), Z.mod_small by lia. lia.
    - rewrite Z.mod_small by lia. done. }
  cbv zeta. destruct (Z.ltb_spec v 0); (split; [|lia]); f_equal; unfold wrapu, wraps; rewrite Z.mod_small; lia.
Qed.
