(* ===== verification/Mkfs.v ===== *)
(** * mkfs/mkfs.c: building the file system image

    mkfs runs on the host.  Its state is the image, a block per sector, the next
    free inode and block, and the superblock.  A struct dinode is the part of a
    struct inode that is on the disk, and its copies to and from a block are those
    of the kernel.  The host is a parameter: which sectors of the image it can read
    and write, and what read() returns, call by call, for the files named on the
    command line.  assert() and die() end the program; what it prints is left out.
    The host is little-endian. *)

From S2P Require Import Prelude Mem KString Riscv State Bio Fs InodeSpec.

(** [xshort] and [xint]: the bytes of the number, least significant first, read as a
    number of the host. *)
Definition xshort (x : Z) : Z := u8 x + 256 * u8 (Z.shiftr x 8).
Definition xint (x : Z) : Z :=
  u8 x + 256 * u8 (Z.shiftr x 8) + 65536 * u8 (Z.shiftr x 16) + 16777216 * u8 (Z.shiftr x 24).

Definition NINODES : Z := 200.
Definition nbitmap : Z := FSSIZE / (BSIZE * 8) + 1.
Definition ninodeblocks : Z := NINODES / IPB + 1.
Definition nlog : Z := LOGSIZE.

(** Computed in main() *)
Definition nmeta : Z := 2 + nlog + ninodeblocks + nbitmap.
Definition nblocks : Z := FSSIZE - nmeta.

Definition mkfs_sb : superblock :=
  Superblock FSMAGIC (xint FSSIZE) (xint nblocks) (xint NINODES) (xint nlog) (xint 2) (xint (2 + nlog)) (xint (2 + nlog + ninodeblocks)).

(** The superblock as the bytes of the struct. *)
Definition sb_bytes (sb : superblock) : list Z :=
  concat (map (le_bytes 4) [sb_magic sb; sb_size sb; sb_nblocks sb; sb_ninodes sb; sb_nlog sb; sb_logstart sb; sb_inodestart sb; sb_bmapstart sb]).

Class Host : Type := {
  sector_ok : Z -> bool;
  host_file : list Z -> option (list (list Z))
}.

Record image : Type := Img { img : Z -> list Z; freeinode : Z; freeblock : Z; img_sb : superblock }.

Abbreviation MK := (M image).

Definition set_img (f : Z -> list Z) : MK unit := modify (fun s => Img f (freeinode s) (freeblock s) (img_sb s)).
Definition set_freeinode (v : Z) : MK unit := modify (fun s => Img (img s) v (freeblock s) (img_sb s)).
Definition set_freeblock (v : Z) : MK unit := modify (fun s => Img (img s) (freeinode s) v (img_sb s)).

Definition die {A} : MK A := panic "exit".
Definition assert (b : bool) : MK unit := if b then mret tt else panic "assert".

Section Mkfs.
Context {H : Host}.

Definition wsect (sec : Z) (buf : list Z) : MK unit :=
  if sector_ok sec then
    f ← gets img;
    set_img (fun x => if x =? sec then buf else f x)
  else die.

Definition rsect (sec : Z) : MK (list Z) :=
  if sector_ok sec then gets (fun s => img s sec) else die.

Definition winode (inum : Z) (ip : inode) : MK unit :=
  sb ← gets img_sb;
  let bn := IBLOCK inum sb in
  buf ← rsect bn;
  wsect bn (store_dinode buf (dinode_at inum) ip).

(** The fields that are not on the disk. *)
Definition no_inode (inum : Z) : inode := Inode ROOTDEV inum 0 0 0 0 0 0 0 [].

Definition rinode (inum : Z) : MK inode :=
  sb ← gets img_sb;
  let bn := IBLOCK inum sb in
  buf ← rsect bn;
  mret (load_dinode buf (dinode_at inum) (no_inode inum)).

Definition mk_ialloc (type : Z) : MK Z :=
  inum ← gets freeinode;
  set_freeinode (u32 (inum + 1));;
  winode inum (Inode ROOTDEV inum 0 0 (s16 (xshort type)) 0 0 (s16 (xshort 1)) (xint 0) (replicate (Z.to_nat (NDIRECT + 1)) 0));;
  mret inum.

(** [for(i = 0; i < used; i++) buf[i/8] = buf[i/8] | (0x1 << (i%8));], [n] rounds from [i] on. *)
Fixpoint mark_used (n : nat) (i : Z) (buf : list Z) : list Z :=
  match n with
  | O => buf
  | S n' =>
      let k := Z.to_nat (i / 8) in
      mark_used n' (i + 1) (<[k := u8 (Z.lor (buf !!! k) (Z.shiftl 1 (i mod 8)))]> buf)
  end.

Definition mk_balloc (used : Z) : MK unit :=
  assert (used <? BSIZE * 8);;
  let buf := mark_used (Z.to_nat used) 0 (replicate (Z.to_nat BSIZE) 0) in
  sb ← gets img_sb;
  wsect (sb_bmapstart sb) buf.

(** [freeblock++] *)
Definition take_block : MK Z :=
  b ← gets freeblock;
  set_freeblock (u32 (b + 1));;
  mret b.

Definition set_daddr (din : inode) (k v : Z) : inode := set_i_addrs (<[Z.to_nat k := v]> (i_addrs din)) din.

(** [if(xint(din.addrs[k]) == 0) din.addrs[k] = xint(freeblock++);] *)
Definition need_addr (din : inode) (k : Z) : MK inode :=
  if xint (i_addrs din !!! Z.to_nat k) =? 0 then
    b ← take_block;
    mret (set_daddr din k (xint b))
  else mret din.

(** The block [x] of the file for [fbn], and the inode with it. *)
Definition block_for (din : inode) (fbn : Z) : MK (inode * Z) :=
  if fbn <? NDIRECT then
    din ← need_addr din fbn;
    mret (din, xint (i_addrs din !!! Z.to_nat fbn))
  else
    din ← need_addr din NDIRECT;
    let ind := xint (i_addrs din !!! Z.to_nat NDIRECT) in
    indirect ← rsect ind;
    let o := 4 * (fbn - NDIRECT) in
    if get32 indirect o =? 0 then
      b ← take_block;
      let indirect := put32 indirect o (xint b) in
      wsect ind indirect;;
      mret (din, xint (get32 indirect o))
    else mret (din, xint (get32 indirect o)).

(** [while(n > 0)], where [p] are the [n] bytes that are left. *)
Fixpoint iappend_loop (fuel : nat) (din : inode) (p : list Z) (off : Z) : MK (inode * Z) :=
  match fuel with
  | O => nofuel
  | S fuel' =>
      match p with
      | [] => mret (din, off)
      | _ =>
          let fbn := off / BSIZE in
          assert (fbn <? MAXFILE);;
          '(din, x) ← block_for din fbn;
          let n1 := Z.min (Z.of_nat (length p)) ((fbn + 1) * BSIZE - off) in
          buf ← rsect x;
          wsect x (put_bytes buf (off - fbn * BSIZE) (take (Z.to_nat n1) p));;
          iappend_loop fuel' din (drop (Z.to_nat n1) p) (off + n1)
      end
  end.

Definition iappend (inum : Z) (xp : list Z) : MK unit :=
  din ← rinode inum;
  '(din, off) ← iappend_loop (S (length xp)) din xp (xint (i_size din));
  winode inum (set_i_size (xint off) din).

(** A struct dirent; the name is cut or filled up to DIRSIZ bytes. *)
Definition dirent (inum : Z) (name : list Z) : list Z :=
  le_bytes 2 (xshort inum) ++ take (Z.to_nat DIRSIZ) (cstr name ++ replicate (Z.to_nat DIRSIZ) 0).

(** [for(i = 0; i < FSSIZE; i++) wsect(i, zeroes);] *)
Definition zero_image : MK unit :=
  for_each (seqZ 0 FSSIZE) (fun i => wsect i (replicate (Z.to_nat BSIZE) 0)).

(** The name of a file of the host in the image. *)
Definition shortname (arg : list Z) : list Z :=
  if bool_decide (take 5 arg = str "user/") then drop 5 arg else arg.

(** [while((cc = read(fd, buf, sizeof(buf))) > 0) iappend(inum, buf, cc);] *)
Fixpoint copy_chunks (inum : Z) (chunks : list (list Z)) : MK unit :=
  match chunks with
  | [] => mret tt
  | c :: chunks' => iappend inum c;; copy_chunks inum chunks'
  end.

(** The body of the loop over the arguments. *)
Definition add_file (rootino : Z) (arg : list Z) : MK unit :=
  let name := shortname arg in
  assert (bool_decide (ch "/" ∉ name));;
  match host_file arg with
  | None => die
  | Some chunks =>
      let name := match name with c :: name' => if c =? ch "_" then name' else name | [] => name end in
      inum ← mk_ialloc T_FILE;
      iappend rootino (dirent inum name);;
      copy_chunks inum chunks
  end.

(** main(), from the superblock on; [args] are the names of the files. *)
Definition mkfs_main (args : list (list Z)) : MK unit :=
  modify (fun s => Img (img s) (freeinode s) (freeblock s) mkfs_sb);;
  set_freeblock nmeta;;
  zero_image;;
  sb ← gets img_sb;
  wsect 1 (put_bytes (replicate (Z.to_nat BSIZE) 0) 0 (sb_bytes sb));;
  rootino ← mk_ialloc T_DIR;
  assert (rootino =? ROOTINO);;
  iappend rootino (dirent rootino (str "."));;
  iappend rootino (dirent rootino (str ".."));;
  for_each args (add_file rootino);;
  din ← rinode rootino;
  let off := xint (i_size din) in
  let off := (off / BSIZE + 1) * BSIZE in
  winode rootino (set_i_size (xint off) din);;
  fb ← gets freeblock;
  mk_balloc fb.
End Mkfs.
