(* ===== verification/MkfsSpec.v ===== *)
(** * The image mkfs builds

    Through every step the image, with the bitmap mkfs writes at the end, satisfies
    what the kernel relies on, and every file holds the bytes appended to it. *)

From Stdlib Require Import FunctionalExtensionality.
From S2P Require Import Prelude Mem KString Riscv State Spinlock Proc Bio Blocks BioSpec Log LogSpec Printf Fs FsSpec InodeSpec ContentSpec DirSpec Mkfs PageTable.

#[local] Ltac Zify.zify_post_hook ::= Z.to_euclidean_division_equations.

(** ** The layout *)

Abbreviation sb := mkfs_sb.

Lemma sb_eq : sb = Superblock 0x10203040 2000 1954 200 30 2 32 45.
Proof. by vm_compute. Qed.

Lemma xint_id x : 0 <= x < 2 ^ 32 -> xint x = x.
Proof. intros Hx. unfold xint, wrapu. rewrite !Z.shiftr_div_pow2 by lia. change (2 ^ 8) with 256. change (2 ^ 16) with 65536. change (2 ^ 24) with 16777216. lia. Qed.

Lemma xshort_id x : 0 <= x < 2 ^ 16 -> xshort x = x.
Proof. intros Hx. unfold xshort, wrapu. rewrite !Z.shiftr_div_pow2 by lia. change (2 ^ 8) with 256. lia. Qed.

Lemma mk_IBLOCK inum : 0 <= inum < 200 -> IBLOCK inum sb = inum / 16 + 32 /\ 32 <= IBLOCK inum sb < 45.
Proof. intros Hi. rewrite sb_eq. unfold IBLOCK, IPB, BSIZE, DINODE_SIZE. cbn [sb_inodestart]. change (1024 / 64) with 16. rewrite wrapu_small; lia. Qed.

Lemma mk_BBLOCK j : 0 <= j < 2000 -> BBLOCK j sb = 45.
Proof. intros Hj. rewrite sb_eq. unfold BBLOCK, BPB, BSIZE. cbn [sb_bmapstart]. rewrite wrapu_small; lia. Qed.

(** ** The bitmap *)

Definition zeros_block : list Z := replicate (Z.to_nat BSIZE) 0.

Definition bitmap (n : Z) : list Z := mark_used (Z.to_nat n) 0 zeros_block.

Lemma length_mark n : forall i buf, length (mark_used n i buf) = length buf.
Proof. induction n as [|n IH]; intros i buf; cbn [mark_used]; [done|]. by rewrite IH, length_insert. Qed.

Lemma mark_spec n : forall i buf, 0 <= i -> i + Z.of_nat n <= 8 * Z.of_nat (length buf) -> Forall (fun b => 0 <= b < 256) buf ->
  forall j, 0 <= j < 8 * Z.of_nat (length buf) -> used (mark_used n i buf) j = used buf j || ((i <=? j) && (j <? i + Z.of_nat n)).
Proof.
  induction n as [|n IH]; intros i buf Hi Hn Hb j Hj; cbn [mark_used].
  { destruct (Z.leb_spec i j), (Z.ltb_spec j (i + Z.of_nat 0)); cbn [andb]; rewrite ?orb_false_r; done || lia. }
  set (k := Z.to_nat (i / 8)). assert (k < length buf)%nat as Hk by (unfold k; lia).
  assert (0 <= buf !!! k < 256) as Hbk by (rewrite Forall_lookup in Hb; apply (Hb k); apply list_lookup_lookup_total_lt; lia).
  assert (0 <= i mod 8 < 8) as Hm by lia.
  assert (0 <= Z.lor (buf !!! k) (Z.shiftl 1 (i mod 8)) < 256) as Hlor.
  { rewrite Z.shiftl_1_l. split; [apply Z.lor_nonneg; lia|]. change 256 with (2 ^ 8). apply lor_bound; [lia..|].
    change 256 with (2 ^ 8). split; [lia|]. apply Z.pow_lt_mono_r; lia. }
  rewrite IH; rewrite ?length_insert; [|lia|lia| |done].
  2: { apply Forall_insert; [done|]. rewrite wrapu_small by done. done. }
  unfold used. rewrite wrapu_small by done. destruct (decide (Z.to_nat (j / 8) = k)) as [Ejk|Ejk].
  - rewrite Ejk, list_lookup_total_insert_eq by done. rewrite Z.lor_spec, Z.shiftl_1_l, Z.pow2_bits_eqb by lia.
    assert (j / 8 = i / 8) by (unfold k in Ejk; lia). destruct (Z.eqb_spec (i mod 8) (j mod 8)).
    + assert (i = j) by lia. subst j. rewrite !orb_true_r. cbn [orb]. destruct (Z.leb_spec i i), (Z.ltb_spec i (i + Z.of_nat (S n))); cbn [andb]; rewrite ?orb_true_r; done || lia.
    + rewrite orb_false_r. assert (i <> j) by congruence. f_equal. zcases; done || lia.
  - rewrite list_lookup_total_insert_ne by done. f_equal. assert (i <> j) by (intros ->; done). zcases; done || lia.
Qed.

Lemma used_bitmap n j : 0 <= n <= 8192 -> 0 <= j < 8192 -> used (bitmap n) j = (j <? n).
Proof.
  intros Hn Hj. unfold bitmap. assert (length zeros_block = 1024%nat) as Hl by done. rewrite mark_spec; rewrite ?Hl; [|lia|lia| |lia].
  - assert (used zeros_block j = false) as ->.
    { unfold used, zeros_block. rewrite lookup_total_replicate_2 by (unfold BSIZE; lia). apply Z.bits_0. }
    cbn [orb]. zcases; done || lia.
  - apply Forall_replicate. lia.
Qed.

(** ** The image with its bitmap *)

Definition view (s : image) : Z -> list Z := bupd (img s) 45 (bitmap (freeblock s)).

(** What holds of every state of mkfs. *)
Record base (s : image) : Prop := {
  ba_sb : img_sb s = sb;
  ba_free : 46 <= freeblock s <= 2000;
  ba_len : forall a, 0 <= a < 2000 -> length (img s a) = Z.to_nat BSIZE;
  ba_zero : forall a, freeblock s <= a < 2000 -> img s a = zeros_block
}.

Lemma view_ne s a : a <> 45 -> view s a = img s a.
Proof. intros Ha. unfold view. by rewrite bupd_ne. Qed.

Lemma view_used s j : base s -> 0 <= j < 2000 -> used_at (view s) sb j = (j <? freeblock s).
Proof.
  intros Hb Hj. unfold used_at. rewrite mk_BBLOCK by done. unfold view. rewrite bupd_eq. unfold BPB, BSIZE. rewrite Z.mod_small by lia.
  apply used_bitmap; [|lia]. destruct Hb as [_ H _ _]. lia.
Qed.

Lemma view_len s a : base s -> 0 <= a < 2000 -> length (view s a) = Z.to_nat BSIZE.
Proof.
  intros Hb Ha. destruct (decide (a = 45)) as [->|]; [|rewrite view_ne by done; by apply Hb]. unfold view. rewrite bupd_eq. unfold bitmap. by rewrite length_mark.
Qed.

Lemma plain_data a : 46 <= a -> plain 2 sb a.
Proof.
  intros Ha. split.
  - unfold in_log. change LOGSIZE with 30. lia.
  - intros j Hj. change (sb_size sb) with 2000 in Hj. rewrite mk_BBLOCK by done. lia.
  - intros inum Hi. change (sb_ninodes sb) with 200 in Hi. destruct (mk_IBLOCK inum Hi). lia.
Qed.

Lemma base_fs_ok s : base s -> fs_ok 2 sb (view s).
Proof.
  intros Hb. split; [split|..]; change (sb_size sb) with 2000; change (sb_ninodes sb) with 200.
  - lia.
  - by vm_compute.
  - intros b Hj. rewrite mk_BBLOCK by done. unfold in_log. change LOGSIZE with 30. lia.
  - intros b Hj. rewrite mk_BBLOCK by done. apply view_len; [done|lia].
  - intros j Hj. rewrite view_used by done. intros Hu. destruct Hb as [_ H _ _]. assert (46 <= j) by lia. split; [lia|by apply plain_data].
  - intros inum j Hi Hj. rewrite mk_BBLOCK by done. destruct (mk_IBLOCK inum Hi). lia.
Qed.

Lemma inuse_of s a : base s -> 46 <= a < freeblock s -> inuse 2 sb (view s) a.
Proof.
  intros Hb Ha. pose proof (ba_free _ Hb). split; change (sb_size sb) with 2000; [lia|rewrite view_used by (done || lia); lia|apply plain_data; lia|apply view_len; [done|lia]].
Qed.

Lemma inuse_ne C a : inuse 2 sb C a -> a <> 45 /\ 0 <= a < 2000.
Proof.
  intros [H1 _ [_ P2 _] _]. change (sb_size sb) with 2000 in *. split; [|done]. intros ->. apply (P2 0); [lia|]. by rewrite mk_BBLOCK.
Qed.

(** ** Taking a block *)

Definition taken (s : image) : image := Img (img s) (freeinode s) (freeblock s + 1) (img_sb s).

Lemma take_block_run s : base s -> freeblock s < 2000 -> take_block s = Ret (freeblock s) (taken s).
Proof.
  intros Hb Hf. pose proof (ba_free _ Hb). unfold take_block, gets, set_freeblock, modify, mbind, M_bind, mret, M_ret. cbn [obind].
  rewrite wrapu_small by lia. done.
Qed.

Lemma taken_base s : base s -> freeblock s < 2000 -> base (taken s).
Proof. intros [H1 H2 H3 H4] Hf. split; cbn; [done|lia|done|]. intros a Ha. apply H4. lia. Qed.

Lemma taken_view s a : a <> 45 -> view (taken s) a = view s a.
Proof. intros Ha. by rewrite !view_ne. Qed.

Lemma taken_allocated s : base s -> freeblock s < 2000 -> allocated 2 sb (view s) (view (taken s)) (freeblock s).
Proof.
  intros Hb Hf. pose proof (taken_base s Hb Hf) as Hb'. pose proof (ba_free _ Hb) as Hr. split.
  - lia.
  - rewrite view_used by (done || lia). lia.
  - apply inuse_of; [done|]. cbn. lia.
  - rewrite taken_view, view_ne by lia. apply Hb. lia.
  - intros a Ha. destruct (inuse_ne _ _ Ha) as [H45 Hra]. split; [by apply taken_view|]. destruct Ha as [H1 H2 H3 H4].
    split; [done| |done|by rewrite taken_view]. rewrite view_used in H2 |- * by done. cbn. lia.
  - intros inum Hi. change (sb_ninodes sb) with 200 in Hi. destruct (mk_IBLOCK inum Hi). apply taken_view. lia.
  - by apply base_fs_ok.
Qed.

(** ** Writing a sector *)

Definition written (s : image) (sec : Z) (buf : list Z) : image := Img (fun x => if x =? sec then buf else img s x) (freeinode s) (freeblock s) (img_sb s).

Section Steps.
Context {H : Host} (Hio : forall x, 0 <= x < 2000 -> sector_ok x = true).

Lemma wsect_run s sec buf : 0 <= sec < 2000 -> wsect sec buf s = Ret tt (written s sec buf).
Proof using Hio. intros Hs. unfold wsect. by rewrite Hio. Qed.

Lemma rsect_run s sec : 0 <= sec < 2000 -> rsect sec s = Ret (img s sec) s.
Proof using Hio. intros Hs. unfold rsect. by rewrite Hio. Qed.

Lemma written_base s sec buf : base s -> sec < freeblock s -> length buf = Z.to_nat BSIZE -> base (written s sec buf).
Proof using.
  clear Hio. intros [H1 H2 H3 H4] Hs Hl. split; cbn; [done|done|..].
  - intros a Ha. destruct (a =? sec); [done|auto].
  - intros a Ha. rewrite (proj2 (Z.eqb_neq a sec)) by lia. auto.
Qed.

Lemma written_view s sec buf a : sec <> 45 -> view (written s sec buf) a = bupd (view s) sec buf a.
Proof using.
  clear Hio. intros Hs. unfold view, bupd. cbn. destruct (decide (a = 45)) as [->|]; [by rewrite decide_False by done|].
  destruct (Z.eqb_spec a sec) as [->|]; [by rewrite decide_True|]. by rewrite decide_False.
Qed.

(** ** The blocks of a file *)

(** A file whose blocks are data blocks. *)
Record filed (s : image) (i : inode) : Prop := {
  fd_owned : owned 2 sb (view s) i;
  fd_data : forall k, 0 <= k <= MAXFILE -> own (view s) i k <> 0 -> 46 <= own (view s) i k
}.

(** One more block for a file: slot [s0], if it has none, takes the next free block. *)
Record got_block (s : image) (i : inode) (s' : image) (i' : inode) (new : Z -> Prop) : Prop := {
  gb_base : base s';
  gb_file : filed s' i';
  gb_evolves : evolves 2 sb (view s) i (view s') i';
  gb_slots : forall k, 0 <= k <= MAXFILE -> own (view s') i' k <> 0 <-> own (view s) i k <> 0 \/ new k;
  gb_zero : forall k, 0 <= k < MAXFILE -> own (view s) i k = 0 -> own (view s') i' k <> 0 -> view s' (own (view s') i' k) = zeros_block;
  gb_new : forall a, freeblock s <= a < freeblock s' -> exists k, 0 <= k <= MAXFILE /\ own (view s') i' k = a;
  gb_next : freeinode s' = freeinode s;
  gb_low : forall a, 0 <= a < 46 -> img s' a = img s a
}.

Lemma need_addr_run s i k : base s -> filed s i -> 0 <= k <= NDIRECT -> freeblock s + b2z (own (view s) i (slot k) =? 0) <= 2000 ->
  exists s' i', need_addr i k s = Ret i' s' /\ got_block s i s' i' (fun x => x = slot k) /\
    freeblock s' = freeblock s + b2z (own (view s) i (slot k) =? 0).
Proof using.
  clear Hio. intros Hb [How Hda] Hk Hf. unfold need_addr. rewrite own_slot in * by done.
  assert (0 <= i_addrs i !!! Z.to_nat k < 2 ^ 32) as Hr.
  { rewrite <- (own_slot (view s)) by done. destruct (decide (own (view s) i (slot k) = 0)) as [->|Hn]; [lia|].
    destruct (ow_block _ _ _ _ How (slot k) (slot_range k Hk) Hn) as [Hr _ _ _]. change (sb_size sb) with 2000 in Hr. lia. }
  rewrite xint_id by done. destruct (Z.eqb_spec (i_addrs i !!! Z.to_nat k) 0) as [E0|E0]; cbn [b2z] in *.
  - assert (freeblock s < 2000) as Hf' by lia. clear Hf. rename Hf' into Hf. rewrite (bind_Ret _ _ _ _ _ (take_block_run s Hb Hf)). rewrite xint_id by (pose proof (ba_free _ Hb); lia).
    pose proof (taken_allocated s Hb Hf) as Ha. set (i' := set_daddr i k (freeblock s)).
    pose proof (add_addr _ _ _ _ _ k _ Ha How Hk E0) as Hown. cbn zeta in Hown. fold (set_daddr i k (freeblock s)) in Hown. fold i' in Hown.
    destruct (add_slot 2 sb (view s) (view (taken s)) i (view (taken s)) i' (slot k) (freeblock s) Ha How (slot_range k Hk)) as (Ho' & Hev & _ & _ & _).
    { by rewrite own_slot. }
    { unfold i', set_daddr. by destruct i. }
    { unfold i', set_daddr. cbn. rewrite length_insert. apply How. }
    { exact Hown. }
    { done. }
    { done. }
    exists (taken s), i'. pose proof (ba_free _ Hb). split_and!; [done| |cbn; lia]. split; [by apply taken_base| |done| | | |done|done].
    + split; [done|]. intros x Hx. rewrite Hown by done. destruct (Z.eqb_spec x (slot k)); [lia|auto].
    + intros x Hx. rewrite Hown by done. destruct (Z.eqb_spec x (slot k)) as [->|]; [split; [by right|lia]|].
      split; [by left|]. intros [?|?]; done.
    + intros x Hx Hz. rewrite Hown by lia. destruct (x =? slot k); [|done]. intros _. exact (al_zero _ _ _ _ _ Ha).
    + cbn. intros a Ha'. exists (slot k). split; [by apply slot_range|]. rewrite Hown, Z.eqb_refl by (by apply slot_range). lia.
  - exists s, i. split_and!; [done| |cbn; lia]. split; [done|done|apply evolves_refl| |done|lia|done|done].
    intros x Hx. split; [by left|]. intros [?| ->]; [done|by rewrite own_slot].
Qed.

Lemma got_trans s i s1 i1 s2 i2 P Q : base s -> got_block s i s1 i1 P -> got_block s1 i1 s2 i2 Q -> got_block s i s2 i2 (fun x => P x \/ Q x).
Proof using.
  clear Hio. intros Hb [A1 A2 A3 A4 A7 A8 A5 A6] [B1 B2 B3 B4 B7 B8 B5 B6]. split; [done|done|by eapply evolves_trans| | | |congruence|].
  - intros k Hk. rewrite B4, A4 by done. tauto.
  - intros k Hk H0 Hn. destruct (decide (own (view s1) i1 k = 0)) as [H1|H1]; [by apply B7|]. rewrite (ev_own _ _ _ _ _ _ B3) by (done || lia).
    rewrite own_blk, (ev_data _ _ _ _ _ _ B3), <- own_blk by (done || by rewrite <- own_blk). by apply A7.
  - intros a Ha. destruct (decide (a < freeblock s1)) as [Hlt|]; [|apply B8; lia]. destruct (A8 a ltac:(lia)) as (k & Hk & E).
    exists k. split; [done|]. rewrite (ev_own _ _ _ _ _ _ B3); [done|done|]. pose proof (ba_free _ Hb). lia.
  - intros a Ha. by rewrite B6, A6.
Qed.

Lemma MAXFILE_eq : MAXFILE = 268.
Proof using. done. Qed.

Lemma own_range s i k : owned 2 sb (view s) i -> 0 <= k <= MAXFILE -> 0 <= own (view s) i k < 2000.
Proof using.
  clear Hio. intros How Hk. destruct (decide (own (view s) i k = 0)) as [->|Hn]; [lia|].
  by destruct (ow_block _ _ _ _ How k Hk Hn) as [Hr _ _ _].
Qed.

(** An entry of the indirect block. *)
Lemma listed_run s i fbn : base s -> filed s i -> NDIRECT <= fbn < MAXFILE -> ind_of i <> 0 -> freeblock s + b2z (own (view s) i fbn =? 0) <= 2000 ->
  let o := 4 * (fbn - NDIRECT) in let ind := ind_of i in
  exists s' x, (indirect ← rsect ind;
      if get32 indirect o =? 0 then
        b ← take_block;
        let indirect := put32 indirect o (xint b) in
        wsect ind indirect;;
        mret (i, xint (get32 indirect o))
      else mret (i, xint (get32 indirect o))) s = Ret (i, x) s' /\ x = own (view s') i fbn /\
    got_block s i s' i (fun k => k = fbn) /\ freeblock s' = freeblock s + b2z (own (view s) i fbn =? 0).
Proof using Hio.
  intros Hb [How Hda] Hfbn Hi Hf o ind. assert (12 <= fbn < 268) as Hfb by (rewrite MAXFILE_eq in Hfbn; unfold NDIRECT in *; lia).
  assert (0 <= MAXFILE <= MAXFILE /\ 0 <= fbn < MAXFILE /\ 0 <= fbn <= MAXFILE) as (HM & HM1 & HM2) by (rewrite MAXFILE_eq; lia).
  pose proof (ba_free _ Hb) as Hfr.
  assert (inuse 2 sb (view s) ind) as Hind.
  { unfold ind. rewrite <- (own_ind (view s)). apply How; [done|]. by rewrite own_ind. }
  assert (46 <= ind) as Hind46 by (unfold ind; rewrite <- (own_ind (view s)); apply Hda; [done|by rewrite own_ind]).
  destruct (inuse_ne _ _ Hind) as [H45 Hra]. rewrite (bind_Ret _ _ _ _ _ (rsect_run s ind Hra)).
  assert (get32 (img s ind) o = own (view s) i fbn) as Eg.
  { rewrite own_blk by done. unfold blk_of. rewrite (proj2 (Z.ltb_ge fbn NDIRECT)) by lia. rewrite (proj2 (Z.eqb_neq _ 0) Hi).
    by rewrite view_ne. }
  rewrite Eg. pose proof (own_range s i fbn How HM2) as Hor.
  destruct (Z.eqb_spec (own (view s) i fbn) 0) as [E0|E0]; cbn [b2z] in *.
  - rewrite (bind_Ret _ _ _ _ _ (take_block_run s Hb ltac:(lia))). cbv zeta. rewrite (bind_Ret _ _ _ _ _ (wsect_run (taken s) ind _ Hra)).
    rewrite (xint_id (freeblock s)) by lia. set (buf := put32 (img s ind) o (freeblock s)). set (s2 := written (taken s) ind buf).
    pose proof (taken_base s Hb ltac:(lia)) as Hb1. pose proof (taken_allocated s Hb ltac:(lia)) as Ha.
    assert (length (img s ind) = Z.to_nat BSIZE) as Hlen by (apply Hb; lia).
    assert (base s2) as Hb2.
    { apply written_base; [done| |unfold buf; by rewrite length_put32]. destruct Hind as [_ Hu _ _]. rewrite view_used in Hu by done. cbn. lia. }
    assert (forall a, view s2 a = bupd (view (taken s)) ind buf a) as Hv2 by (intros a; by apply written_view).
    assert (view (taken s) ind = img s ind) as Hvi by (by rewrite view_ne).
    pose proof (add_listed 2 sb (view s) (view (taken s)) i fbn (freeblock s) Ha How Hfbn Hi ltac:(lia)) as Hown. cbn zeta in Hown.
    assert (forall k, own (view s2) i k = own (bupd (view (taken s)) (ind_of i) (put32 (view (taken s) (ind_of i)) (4 * (fbn - NDIRECT)) (freeblock s))) i k) as Ho2.
    { intros k. unfold own, blk_of. rewrite Hv2. fold ind. rewrite Hvi. done. }
    destruct (add_slot 2 sb (view s) (view (taken s)) i (view s2) i fbn (freeblock s) Ha How HM2 E0) as (Ho' & Hev & _ & _ & _).
    { by rewrite set_addrs_same. }
    { apply How. }
    { intros k Hk. rewrite Ho2. by apply Hown. }
    { intros a Hna. rewrite Hv2. apply bupd_ne. by apply Hna. }
    { intros a. rewrite Hv2. unfold bupd. destruct (decide (a = ind)) as [->|]; [|done]. rewrite Hvi. unfold buf. by rewrite length_put32. }
    eexists s2, _. split_and!; [reflexivity| | |cbn; lia].
    + unfold buf. rewrite get32_put32_eq by (rewrite ?Hlen; unfold o, BSIZE, NDIRECT in *; lia). rewrite (wrapu_small 32 (freeblock s)) by lia.
      rewrite xint_id by lia. rewrite Ho2, Hown by done. by rewrite Z.eqb_refl.
    + split; [done| |done| | | |done|].
      * split; [done|]. intros k Hk. rewrite Ho2, Hown by done. destruct (Z.eqb_spec k fbn); [lia|auto].
      * intros k Hk. rewrite Ho2, Hown by done. destruct (Z.eqb_spec k fbn) as [->|]; [split; [by right|lia]|]. split; [by left|]. intros [?|?]; done.
      * intros k Hk Hz. rewrite Ho2, Hown by lia. destruct (k =? fbn); [|done]. intros _. rewrite Hv2. rewrite bupd_ne; [exact (al_zero _ _ _ _ _ Ha)|].
        intros Efi. rewrite Efi in *. destruct Hind as [_ Hu _ _]. rewrite view_used in Hu by done. lia.
      * cbn. intros a Ha'. exists fbn. split; [done|]. rewrite Ho2, Hown, Z.eqb_refl by done. lia.
      * intros a Ha'. cbn. rewrite (proj2 (Z.eqb_neq a ind)); [done|]. lia.
  - exists s, (own (view s) i fbn). split_and!; [by rewrite xint_id by lia|done| |lia]. split; [done|done|apply evolves_refl| |done|lia|done|done].
    intros k Hk. split; [by left|]. intros [?| ->]; done.
Qed.

(** The blocks that block number [fbn] of a file still needs. *)
Definition lacks (s : image) (i : inode) (fbn : Z) : Z :=
  b2z (own (view s) i fbn =? 0) + b2z ((NDIRECT <=? fbn) && (ind_of i =? 0)).

Lemma got_weaken s i s' i' P Q : (forall k, 0 <= k <= MAXFILE -> P k <-> Q k) -> got_block s i s' i' P -> got_block s i s' i' Q.
Proof using. clear Hio. intros HPQ [A1 A2 A3 A4 A7 A8 A5 A6]. split; [done|done|done| |done|done|done|done]. intros k Hk. rewrite A4, HPQ by done. done. Qed.

Lemma block_for_run s i fbn : base s -> filed s i -> 0 <= fbn < MAXFILE -> freeblock s + lacks s i fbn <= 2000 ->
  exists s' i', block_for i fbn s = Ret (i', own (view s') i' fbn) s' /\ got_block s i s' i' (fun k => k = fbn \/ k = MAXFILE /\ NDIRECT <= fbn) /\
    freeblock s' = freeblock s + lacks s i fbn.
Proof using Hio.
  intros Hb Hfd Hfbn Hf. pose proof MAXFILE_eq as HM. pose proof (ba_free _ Hb) as Hfr. unfold block_for, lacks in *.
  destruct (Z.ltb_spec fbn NDIRECT) as [Hd|Hd].
  - rewrite (proj2 (Z.leb_gt NDIRECT fbn)) in * by lia. cbn [andb b2z] in *.
    assert (slot fbn = fbn) as Es by (unfold slot; rewrite (proj2 (Z.eqb_neq fbn NDIRECT)) by lia; done).
    destruct (need_addr_run s i fbn Hb Hfd ltac:(lia)) as (s' & i' & E & Hg & Ef); rewrite Es in *; [lia|]. rewrite (bind_Ret _ _ _ _ _ E).
    pose proof (own_range s' i' fbn (fd_owned _ _ (gb_file _ _ _ _ _ Hg)) ltac:(lia)) as Hor.
    exists s', i'. rewrite Z.add_0_r. split_and!; [|eapply got_weaken; [|exact Hg]; intros k Hk; lia|done].
    rewrite <- (own_slot (view s')) by lia. rewrite Es, xint_id by lia. done.
  - rewrite (proj2 (Z.leb_le NDIRECT fbn)) in * by lia. cbn [andb] in *.
    assert (slot NDIRECT = MAXFILE) as Es by done. assert (own (view s) i MAXFILE = ind_of i) as Ei by apply own_ind.
    assert (0 <= b2z (own (view s) i fbn =? 0)) by (destruct (own (view s) i fbn =? 0); cbn; lia).
    destruct (need_addr_run s i NDIRECT Hb Hfd ltac:(unfold NDIRECT; lia)) as (s1 & i1 & E1 & Hg1 & Ef1); rewrite Es, Ei in *; [lia|].
    rewrite (bind_Ret _ _ _ _ _ E1). pose proof Hg1 as [Hb1 Hfd1 _ Hs1 _ _ _ _].
    assert (own (view s1) i1 MAXFILE <> 0) as Hi1 by (apply Hs1; [lia|by right]). rewrite own_ind in Hi1.
    assert ((own (view s1) i1 fbn =? 0) = (own (view s) i fbn =? 0)) as Ez.
    { specialize (Hs1 fbn ltac:(lia)). destruct (Z.eqb_spec (own (view s1) i1 fbn) 0), (Z.eqb_spec (own (view s) i fbn) 0); try done; exfalso; lia. }
    destruct (listed_run s1 i1 fbn Hb1 Hfd1 ltac:(lia) Hi1) as (s2 & x & E2 & -> & Hg2 & Ef2); [rewrite Ez; lia|].
    pose proof (own_range s1 i1 MAXFILE (fd_owned _ _ Hfd1) ltac:(lia)) as Hor. rewrite own_ind in Hor.
    assert (xint (i_addrs i1 !!! Z.to_nat NDIRECT) = ind_of i1) as -> by (apply xint_id; fold (ind_of i1); lia).
    exists s2, i1. cbv zeta in E2 |- *. rewrite E2. split_and!; [done| |rewrite Ef2, Ez; lia].
    eapply got_weaken; [|eapply got_trans; [done|exact Hg1|exact Hg2]]. intros k Hk. tauto.
Qed.

(** ** Appending *)

(** The blocks a file of [n] bytes takes, the one that lists the others included. *)
Definition blocks (n : Z) : Z := (n + 1023) / 1024 + b2z (12288 <? n).

(** The file has the blocks of its first [off] bytes and no others; what follows them is 0. *)
Record tight (s : image) (i : inode) (off : Z) : Prop := {
  ti_blk : forall k, 0 <= k < MAXFILE -> own (view s) i k <> 0 <-> k * BSIZE < off;
  ti_ind : own (view s) i MAXFILE <> 0 <-> NDIRECT * BSIZE < off;
  ti_zero : forall j, off <= j < MAXFILE * BSIZE -> blk_of (view s) i (j / BSIZE) <> 0 -> byte_at (view s) i j = 0
}.

Lemma lacks_blocks s i off n : tight s i off -> 0 <= off < MAXFILE * BSIZE -> 0 < n -> off mod BSIZE + n <= BSIZE ->
  lacks s i (off / BSIZE) = blocks (off + n) - blocks off.
Proof using.
  clear Hio. intros [H1 H2 _] Hoff Hn Hm. pose proof (blk_range off Hoff) as Hr. specialize (H1 _ Hr). unfold lacks, blocks. rewrite <- own_ind with (C := view s).
  rewrite MAXFILE_eq in *. unfold NDIRECT, BSIZE in *.
  destruct (Z.eqb_spec (own (view s) i (off / 1024)) 0), (Z.eqb_spec (own (view s) i 268) 0), (Z.leb_spec 12 (off / 1024)), (Z.ltb_spec 12288 (off + n)), (Z.ltb_spec 12288 off); cbn [andb b2z]; lia.
Qed.

(** The bytes [src] have been appended to a file of [off] bytes. *)
Record grown (s : image) (i : inode) (s' : image) (i' : inode) (off : Z) (src : list Z) : Prop := {
  gr_base : base s';
  gr_file : filed s' i';
  gr_tight : tight s' i' (off + Z.of_nat (length src));
  gr_ext : extends 2 sb (view s) i (view s') i';
  gr_free : freeblock s' = freeblock s + blocks (off + Z.of_nat (length src)) - blocks off;
  gr_new : forall a, freeblock s <= a < freeblock s' -> exists k, 0 <= k <= MAXFILE /\ own (view s') i' k = a;
  gr_next : freeinode s' = freeinode s;
  gr_low : forall a, 0 <= a < 46 -> img s' a = img s a;
  gr_bytes : forall j, 0 <= j < off + Z.of_nat (length src) -> byte_at (view s') i' j = over src off (byte_at (view s) i) j
}.

Lemma written_view_eq s sec buf : sec <> 45 -> view (written s sec buf) = bupd (view s) sec buf.
Proof using. clear Hio. intros Hs. apply functional_extensionality. intros a. by apply written_view. Qed.

Lemma tight_after s i s1 i1 s' off bytes :
  tight s i off -> 0 <= off < MAXFILE * BSIZE -> (0 < length bytes)%nat -> off mod BSIZE + Z.of_nat (length bytes) <= BSIZE ->
  (forall k, 0 <= k <= MAXFILE -> own (view s1) i1 k <> 0 <-> own (view s) i k <> 0 \/ (k = off / BSIZE \/ k = MAXFILE /\ NDIRECT <= off / BSIZE)) ->
  (forall k, own (view s') i1 k = own (view s1) i1 k) ->
  (forall j, 0 <= j < MAXFILE * BSIZE -> blk_of (view s) i (j / BSIZE) <> 0 \/ off <= j < off + Z.of_nat (length bytes) ->
    byte_at (view s') i1 j = over bytes off (byte_at (view s) i) j) ->
  (forall j, off + Z.of_nat (length bytes) <= j < MAXFILE * BSIZE -> blk_of (view s') i1 (j / BSIZE) <> 0 -> blk_of (view s) i (j / BSIZE) = 0 ->
    byte_at (view s') i1 j = 0) ->
  tight s' i1 (off + Z.of_nat (length bytes)).
Proof using.
  clear Hio. intros [T1 T2 T3] Hoff Hlen Hm Hsl Eo Hby Hz. pose proof (blk_range off Hoff) as Hr. split.
  - intros k Hk. rewrite Eo, Hsl, T1 by lia. rewrite MAXFILE_eq in *. unfold BSIZE in *. lia.
  - rewrite Eo, Hsl, T2 by (rewrite MAXFILE_eq; lia). rewrite MAXFILE_eq in *. unfold BSIZE, NDIRECT in *. lia.
  - intros j Hj Hn. destruct (decide (blk_of (view s) i (j / BSIZE) = 0)) as [|Hn']; [by apply Hz|].
    rewrite Hby; [|lia|by left]. unfold over. rewrite (proj2 (Z.ltb_ge j _)) by lia. rewrite andb_false_r. apply T3; [lia|done].
Qed.

Lemma append_round s i off bytes :
  base s -> filed s i -> tight s i off -> 0 <= off < MAXFILE * BSIZE -> (0 < length bytes)%nat -> off mod BSIZE + Z.of_nat (length bytes) <= BSIZE ->
  freeblock s + blocks (off + Z.of_nat (length bytes)) - blocks off <= 2000 ->
  exists s1 i' x s', block_for i (off / BSIZE) s = Ret (i', x) s1 /\ rsect x s1 = Ret (img s1 x) s1 /\
    wsect x (put_bytes (img s1 x) (off - off / BSIZE * BSIZE) bytes) s1 = Ret tt s' /\ grown s i s' i' off bytes.
Proof using Hio.
  intros Hb Hfd Ht Hoff Hlen Hm Hf. pose proof (blk_range off Hoff) as Hbn. pose proof (lacks_blocks s i off (Z.of_nat (length bytes)) Ht Hoff ltac:(lia) Hm) as Hla.
  destruct (block_for_run s i (off / BSIZE) Hb Hfd Hbn ltac:(lia)) as (s1 & i1 & E1 & [Hb1 Hfd1 Hev Hsl Hz Hnew Hnx Hlow] & Ef).
  set (x := own (view s1) i1 (off / BSIZE)) in *. assert (x <> 0) as Hx by (apply Hsl; [lia|by right; left]).
  assert (46 <= x) as Hx46 by (apply Hfd1; [lia|done]).
  pose proof (ow_block _ _ _ _ (fd_owned _ _ Hfd1) (off / BSIZE) ltac:(lia) Hx) as Hin. fold x in Hin. destruct (inuse_ne _ _ Hin) as [Hx45 Hxr].
  assert (x < freeblock s1) as Hxf by (destruct Hin as [_ Hu _ _]; rewrite view_used in Hu by done; lia).
  replace (off - off / BSIZE * BSIZE) with (off mod BSIZE) by (unfold BSIZE; lia). set (v := put_bytes (img s1 x) (off mod BSIZE) bytes).
  exists s1, i1, x, (written s1 x v). split_and!; [done|by apply rsect_run|by apply wsect_run|].
  assert (x = blk_of (view s1) i1 (off / BSIZE)) as Exb by (unfold x; by rewrite own_blk).
  assert (length v = Z.to_nat BSIZE) as Hv by (unfold v; rewrite length_put_bytes; by apply Hb1).
  pose proof (fd_owned _ _ Hfd1) as How1. assert (blk_of (view s1) i1 (off / BSIZE) <> 0) as Hxb by (by rewrite <- Exb).
  assert (view (written s1 x v) = bupd (view s1) (blk_of (view s1) i1 (off / BSIZE)) v) as Ev by (rewrite <- Exb; by apply written_view_eq).
  assert (forall k, own (view (written s1 x v)) i1 k = own (view s1) i1 k) as Eo by (intros k; rewrite Ev; by apply (data_own 2 sb)).
  assert (forall j, 0 <= j < MAXFILE * BSIZE -> blk_of (view s) i (j / BSIZE) <> 0 \/ off <= j < off + Z.of_nat (length bytes) ->
    byte_at (view (written s1 x v)) i1 j = over bytes off (byte_at (view s) i) j) as Hby.
  { intros j Hj Hor. rewrite Ev. unfold v. rewrite <- (view_ne s1 x Hx45), Exb. by apply (write_over 2 sb _ _ _ _ sb). }
  split.
  - by apply written_base.
  - split; [rewrite Ev; by apply data_owned|]. intros k. rewrite Eo. apply Hfd1.
  - apply (tight_after s i s1 i1); try done. intros j Hj Hjb Hz0. rewrite Ev in Hjb |- *. rewrite (data_blk 2 sb) in Hjb by done. pose proof (blk_range j ltac:(lia)) as Hjr.
    assert (j / BSIZE = off / BSIZE) as Ejo by (rewrite <- own_blk in Hjb, Hz0 by done; apply Hsl in Hjb; [|lia]; lia).
    rewrite (data_byte 2 sb) by (done || lia). rewrite (proj2 (Z.eqb_eq _ _) Ejo). unfold v. rewrite put_bytes_out by (unfold BSIZE in *; lia).
    rewrite <- (view_ne s1 x Hx45). unfold x. rewrite Hz; [|done|by rewrite <- Ejo, own_blk|done]. apply lookup_total_replicate_2. unfold BSIZE; lia.
  - rewrite Ev. eapply extends_trans; [by apply evolves_extends|]. by apply data_extends.
  - cbn. lia.
  - cbn. intros a Ha. destruct (Hnew a Ha) as (k & Hk & E). exists k. by rewrite Eo.
  - done.
  - intros a Ha. cbn. rewrite (proj2 (Z.eqb_neq a x)) by lia. by apply Hlow.
  - intros j Hj. assert (j < MAXFILE * BSIZE) by (rewrite MAXFILE_eq in *; unfold BSIZE in *; lia). apply Hby; [lia|].
    destruct (decide (off <= j)); [right; lia|left]. pose proof (blk_range j ltac:(lia)). rewrite <- own_blk by done. apply Ht; [done|]. unfold BSIZE in *; lia.
Qed.

Lemma blocks_mono a b : a <= b -> blocks a <= blocks b.
Proof using. clear Hio. intros Hab. unfold blocks. destruct (Z.ltb_spec 12288 a), (Z.ltb_spec 12288 b); cbn [b2z]; lia. Qed.

Lemma grown_nil s i off : base s -> filed s i -> tight s i off -> grown s i s i off [].
Proof using.
  clear Hio. intros Hb Hf Ht. split; cbn [length Z.of_nat]; rewrite ?Z.add_0_r; try done; [apply extends_refl|lia|lia|].
  intros j Hj. unfold over. cbn [length Z.of_nat]. destruct (Z.leb_spec off j); [lia|done].
Qed.

Lemma grown_trans s i s1 i1 s2 i2 off a b :
  base s -> grown s i s1 i1 off a -> grown s1 i1 s2 i2 (off + Z.of_nat (length a)) b -> grown s i s2 i2 off (a ++ b).
Proof using.
  clear Hio. intros Hb [A1 A2 A3 A4 A5 A6 A7 A8 A9] [B1 B2 B3 B4 B5 B6 B7 B8 B9].
  assert (off + Z.of_nat (length (a ++ b)) = off + Z.of_nat (length a) + Z.of_nat (length b)) as El by (rewrite length_app; lia).
  split; rewrite ?El; try done; [by eapply extends_trans|lia| |congruence| |].
  - intros x Hx. destruct (decide (x < freeblock s1)); [|apply B6; lia]. destruct (A6 x ltac:(lia)) as (k & Hk & E).
    exists k. split; [done|]. pose proof (ba_free _ Hb). rewrite (ex_own _ _ _ _ _ _ B4); [done|done|lia].
  - intros x Hx. by rewrite B8, A8.
  - intros j Hj. rewrite B9 by done. rewrite <- over_app. unfold over at 1 2. destruct (_ && _) eqn:Ec; [done|].
    apply A9. destruct (Z.leb_spec (off + Z.of_nat (length a)) j), (Z.ltb_spec j (off + Z.of_nat (length a) + Z.of_nat (length b))); cbn [andb] in Ec; done || lia.
Qed.

Lemma iappend_loop_run : forall fuel s i p off,
  base s -> filed s i -> tight s i off -> 0 <= off -> off + Z.of_nat (length p) <= MAXFILE * BSIZE ->
  freeblock s + blocks (off + Z.of_nat (length p)) - blocks off <= 2000 -> (length p < fuel)%nat ->
  exists s' i', iappend_loop fuel i p off s = Ret (i', off + Z.of_nat (length p)) s' /\ grown s i s' i' off p.
Proof using Hio.
  induction fuel as [|fuel IH]; intros s i p off Hb Hf Ht H0 Hm Hfree Hfu; [lia|].
  destruct p as [|c p0] eqn:Ep; [exists s, i; cbn [length Z.of_nat iappend_loop]; rewrite Z.add_0_r; split; [done|by apply grown_nil]|].
  cbn [iappend_loop]. rewrite <- Ep in *. assert (0 < length p)%nat as Hlp by (rewrite Ep; cbn; lia). clear Ep.
  set (n1 := Z.min _ _). set (bytes := take (Z.to_nat n1) p). set (rest := drop (Z.to_nat n1) p).
  assert (0 < n1 <= Z.of_nat (length p) /\ off mod BSIZE + n1 <= BSIZE) as [Hn1 Hm1] by (unfold n1, BSIZE; lia).
  assert (Z.of_nat (length bytes) = n1) as Hlb by (unfold bytes; rewrite length_take; lia).
  assert (Z.of_nat (length p) = n1 + Z.of_nat (length rest)) as Hlr by (unfold rest; rewrite length_drop; lia).
  pose proof (blk_range off ltac:(lia)) as Hbr. unfold assert. rewrite (proj2 (Z.ltb_lt _ _)) by lia.
  pose proof (blocks_mono (off + n1) (off + Z.of_nat (length p)) ltac:(lia)) as Hmo.
  destruct (append_round s i off bytes) as (s1 & i1 & x & s2 & E1 & E2 & E3 & Hg); try done; try (rewrite ?Hlb; lia).
  assert (forall s, (mret () : MK unit) s = Ret tt s) as Em by done. rewrite (bind_Ret _ _ _ _ _ (Em s)).
  rewrite (bind_Ret _ _ _ _ _ E1), (bind_Ret _ _ _ _ _ E2), (bind_Ret _ _ _ _ _ E3).
  pose proof (gr_free _ _ _ _ _ _ Hg) as Ef. rewrite Hlb in Ef. rewrite Hlr, Z.add_assoc in Hfree.
  destruct (IH s2 i1 rest (off + n1)) as (s' & i' & E4 & Hg'); [apply Hg|apply Hg|rewrite <- Hlb; apply Hg|lia..|].
  exists s', i'. rewrite E4. split; [do 2 f_equal; lia|]. replace p with (bytes ++ rest) by apply take_drop.
  eapply grown_trans; [done|exact Hg|by rewrite Hlb].
Qed.

(** ** Inodes *)

(** Inode [inum] as it is on the disk. *)
Definition dino (s : image) (inum : Z) : inode := load_dinode (img s (IBLOCK inum sb)) (dinode_at inum) (no_inode inum).

Lemma rinode_run s inum : base s -> 0 <= inum < 200 -> rinode inum s = Ret (dino s inum) s.
Proof using Hio.
  intros Hb Hi. unfold rinode. destruct (mk_IBLOCK inum Hi) as [_ Hr].
  assert (gets img_sb s = Ret sb s) as E by (unfold gets; by rewrite (ba_sb _ Hb)). rewrite (bind_Ret _ _ _ _ _ E).
  by rewrite (bind_Ret _ _ _ _ _ (rsect_run s (IBLOCK inum sb) ltac:(lia))).
Qed.

Lemma dino_fields s inum : dino s inum = with_fields (dino s inum) (no_inode inum).
Proof using. done. Qed.

Lemma dino_grown s inum l sz : with_fields (set_i_size sz (set_i_addrs l (dino s inum))) (no_inode inum) = set_i_size sz (set_i_addrs l (dino s inum)).
Proof using. clear Hio. rewrite (dino_fields s inum). generalize (dino s inum). by intros []. Qed.

(** Only the inodes differ. *)
Record reinoded (s s' : image) : Prop := {
  ri_base : base s';
  ri_block : freeblock s' = freeblock s;
  ri_inode : freeinode s' = freeinode s;
  ri_img : forall a, ~ 32 <= a < 45 -> img s' a = img s a
}.

Lemma winode_run s inum i : base s -> 0 <= inum < 200 -> inode_ok i ->
  exists s', winode inum i s = Ret tt s' /\ reinoded s s' /\ dino s' inum = with_fields i (no_inode inum) /\
    forall j, 0 <= j < 200 -> j <> inum -> dino s' j = dino s j.
Proof using Hio.
  intros Hb Hi Hok. unfold winode. destruct (mk_IBLOCK inum Hi) as [Ei Hr].
  assert (gets img_sb s = Ret sb s) as E by (unfold gets; by rewrite (ba_sb _ Hb)). rewrite (bind_Ret _ _ _ _ _ E).
  rewrite (bind_Ret _ _ _ _ _ (rsect_run s (IBLOCK inum sb) ltac:(lia))). rewrite wsect_run by lia.
  set (v := store_dinode _ _ _). assert (length (img s (IBLOCK inum sb)) = Z.to_nat BSIZE) as Hlen by (apply Hb; lia).
  destruct (dinode_range inum ltac:(lia)) as [Hd1 Hd2]. pose proof (ba_free _ Hb) as Hfr.
  exists (written s (IBLOCK inum sb) v). split_and!; [done|split|..].
  - apply written_base; [done|lia|]. unfold v. by rewrite length_store.
  - done.
  - done.
  - intros a Ha. cbn. rewrite (proj2 (Z.eqb_neq a _)) by lia. done.
  - unfold dino. cbn [img written]. rewrite Z.eqb_refl. apply load_store; [done|done|]. rewrite Hlen. unfold BSIZE in *; lia.
  - intros j Hj Hne. unfold dino. cbn [img written]. destruct (mk_IBLOCK j Hj) as [Ej _].
    destruct (Z.eqb_spec (IBLOCK j sb) (IBLOCK inum sb)) as [Eq|]; [|done]. rewrite Eq. unfold v.
    apply load_store_ne; [done|done|apply (dinode_range j); lia|]. unfold dinode_at, IPB, DINODE_SIZE, BSIZE. change (1024 / 64) with 16. lia.
Qed.

(** ** The files of the image *)

(** Inode [i] is a file of type [ty] that holds [bytes]. *)
Record holds (s : image) (i : inode) (ty : Z) (bytes : list Z) : Prop := {
  ho_file : filed s i;
  ho_tight : tight s i (Z.of_nat (length bytes));
  ho_type : i_type i = ty;
  ho_major : i_major i = 0;
  ho_minor : i_minor i = 0;
  ho_nlink : i_nlink i = 1;
  ho_size : i_size i = Z.of_nat (length bytes);
  ho_bytes : file_bytes (view s) i = bytes
}.

Lemma own_same s s' i : base s -> base s' -> filed s i ->
  (forall k, 0 <= k <= MAXFILE -> own (view s) i k <> 0 -> img s' (own (view s) i k) = img s (own (view s) i k)) ->
  (forall k, 0 <= k <= MAXFILE -> own (view s') i k = own (view s) i k) /\
  (forall k, 0 <= k <= MAXFILE -> own (view s) i k <> 0 -> view s' (own (view s) i k) = view s (own (view s) i k)).
Proof using.
  clear Hio. intros Hb Hb' [How Hda] Hsame.
  assert (forall k, 0 <= k <= MAXFILE -> own (view s) i k <> 0 -> view s' (own (view s) i k) = view s (own (view s) i k)) as Hv.
  { intros k Hk Hn. specialize (Hda k Hk Hn). rewrite !view_ne by lia. by apply Hsame. }
  split; [|done]. intros k Hk. unfold own. destruct (k =? MAXFILE) eqn:Ek; [done|]. unfold blk_of. destruct (k <? NDIRECT); [done|].
  destruct (Z.eqb_spec (ind_of i) 0) as [|Hx]; [done|]. f_equal. rewrite <- (own_ind (view s)) in Hx |- *.
  apply Hv; [rewrite MAXFILE_eq; lia|done].
Qed.

Lemma own_below s i k : base s -> filed s i -> 0 <= k <= MAXFILE -> own (view s) i k <> 0 -> 46 <= own (view s) i k < freeblock s.
Proof using.
  clear Hio. intros Hb [How Hda] Hk Hn. split; [by apply Hda|]. destruct (ow_block _ _ _ _ How k Hk Hn) as [Hr Hu _ _].
  change (sb_size sb) with 2000 in Hr. rewrite view_used in Hu by done. lia.
Qed.

(** A file whose blocks are left alone. *)
Lemma holds_frame s s' i ty bytes : base s -> base s' -> freeblock s <= freeblock s' -> holds s i ty bytes ->
  (forall k, 0 <= k <= MAXFILE -> own (view s) i k <> 0 -> img s' (own (view s) i k) = img s (own (view s) i k)) ->
  holds s' i ty bytes /\ forall k, 0 <= k <= MAXFILE -> own (view s') i k = own (view s) i k.
Proof using.
  clear Hio. intros Hb Hb' Hfr [Hf [T1 T2 T3] H3 H4 H5 H6 H7 H8] Hsame. destruct (own_same s s' i Hb Hb' Hf Hsame) as [Eo Ev]. split; [|done].
  assert (0 <= MAXFILE) as HM by (rewrite MAXFILE_eq; lia).
  assert (forall n, 0 <= n < MAXFILE -> blk_of (view s') i n = blk_of (view s) i n) as Eb by (intros n Hn; rewrite <- !own_blk by done; apply Eo; lia).
  assert (forall j, 0 <= j < MAXFILE * BSIZE -> blk_of (view s) i (j / BSIZE) <> 0 -> byte_at (view s') i j = byte_at (view s) i j) as Ey.
  { intros j Hj Hn. pose proof (blk_range j Hj) as Hjb. unfold byte_at. rewrite Eb by done. rewrite <- own_blk in * by done. rewrite Ev; [done|lia|done]. }
  pose proof (fd_owned _ _ Hf) as [O1 O2 O3 O4 O5 O6].
  split; [split; [split|]|split|..]; try done.
  - intros bn H0 Hn. rewrite Eb; [auto|]. unfold BSIZE in *. lia.
  - intros k Hk. rewrite Eo by done. intros Hn. apply inuse_of; [done|]. pose proof (own_below s i k Hb Hf Hk Hn). lia.
  - intros k k' Hk Hk'. rewrite !Eo by done. auto.
  - intros k Hk. rewrite Eo by done. by apply Hf.
  - intros k Hk. rewrite Eo by lia. auto.
  - intros j Hj. pose proof (blk_range j ltac:(lia)). rewrite Eb by done. intros Hn. rewrite Ey by (done || lia). auto.
  - rewrite <- H8. apply list_fmap_ext. intros j x Hx. apply lookup_seqZ in Hx as [-> Hx]. apply Ey; [lia|]. apply O4; unfold BSIZE in *; lia.
Qed.

(** The blocks of all files. *)
Definition total (fs : list (Z * list Z)) : Z := foldr (fun f n => blocks (Z.of_nat (length f.2)) + n) 0 fs.

(** The image holds the files [fs], inode 1 the first of them. *)
Record mk_inv (s : image) (fs : list (Z * list Z)) : Prop := {
  mi_base : base s;
  mi_count : freeinode s = 1 + Z.of_nat (length fs) /\ 1 + Z.of_nat (length fs) <= 200;
  mi_blocks : freeblock s = 46 + total fs;
  mi_file : forall n ty bytes, fs !! n = Some (ty, bytes) -> - 2 ^ 15 <= ty < 2 ^ 15 /\ holds s (dino s (1 + Z.of_nat n)) ty bytes;
  mi_apart : forall n m k k', (n < length fs)%nat -> (m < length fs)%nat -> n <> m -> 0 <= k <= MAXFILE -> 0 <= k' <= MAXFILE ->
    own (view s) (dino s (1 + Z.of_nat n)) k <> 0 -> own (view s) (dino s (1 + Z.of_nat n)) k <> own (view s) (dino s (1 + Z.of_nat m)) k';
  mi_cover : forall a, 46 <= a < freeblock s -> exists n k, (n < length fs)%nat /\ 0 <= k <= MAXFILE /\ own (view s) (dino s (1 + Z.of_nat n)) k = a;
  mi_free : forall inum, 1 + Z.of_nat (length fs) <= inum < 200 -> i_type (dino s inum) = 0;
  mi_sb : img s 1 = put_bytes zeros_block 0 (sb_bytes sb);
  mi_log : forall a, 2 <= a < 32 -> img s a = zeros_block
}.

Lemma set_size_own C i sz k : own C (set_i_size sz i) k = own C i k.
Proof using. done. Qed.

(** The blocks are in place and the size is set. *)
Lemma grown_holds s i s' i' ty bytes src : holds s i ty bytes -> grown s i s' i' (Z.of_nat (length bytes)) src ->
  Z.of_nat (length bytes) + Z.of_nat (length src) <= MAXFILE * BSIZE ->
  holds s' (set_i_size (Z.of_nat (length bytes) + Z.of_nat (length src)) i') ty (bytes ++ src).
Proof using.
  clear Hio. intros [Hf [T1 T2 T3] H3 H4 H5 H6 H7 H8] [G1 G2 G3 G4 G5 G6 G7 G8 G9] Hm. pose proof (ex_fields _ _ _ _ _ _ G4) as Ei.
  assert (Z.of_nat (length (bytes ++ src)) = Z.of_nat (length bytes) + Z.of_nat (length src)) as El by (rewrite length_app; lia).
  destruct G2 as [O D]. split; rewrite ?El; try done; try (rewrite Ei; done).
  - split; [|done]. apply owned_size; [done|lia|]. intros bn H0 Hb. rewrite <- own_blk by (unfold BSIZE in *; lia).
    apply G3; [unfold BSIZE in *; lia|done].
  - destruct G3 as [X1 X2 X3]. by split.
  - rewrite (over_file (view s) i _ _ src (Z.of_nat (length bytes))); cbn [i_size set_i_size]; [|lia|lia|done].
    rewrite H8, Nat2Z.id, take_ge, drop_ge by lia. by rewrite app_nil_r.
Qed.

Lemma total_insert fs n f g : fs !! n = Some f -> total (<[n := g]> fs) = total fs - blocks (Z.of_nat (length f.2)) + blocks (Z.of_nat (length g.2)).
Proof using.
  clear Hio. revert n. induction fs as [|h fs IH]; intros [|n] E; try done.
  - injection E as ->. unfold total. cbn [foldr list_insert insert]. lia.
  - specialize (IH n E). change (<[S n := g]> (h :: fs)) with (h :: <[n := g]> fs). unfold total in *. cbn [foldr]. lia.
Qed.

(** The file whose inode is [i] has become [i2]. *)
Section Regrown.
Context (s : image) (fs : list (Z * list Z)) (n : nat) (ty : Z) (bytes src : list Z) (s1 s2 : image) (i1 : inode).

Let i : inode := dino s (1 + Z.of_nat n).
Let i2 : inode := set_i_size (Z.of_nat (length bytes) + Z.of_nat (length src)) i1.

Context (Hinv : mk_inv s fs) (Hn : fs !! n = Some (ty, bytes)) (Hg : grown s i s1 i1 (Z.of_nat (length bytes)) src).
Context (Hsz : Z.of_nat (length bytes) + Z.of_nat (length src) <= MAXFILE * BSIZE).
Context (Hre : reinoded s1 s2) (Hi2 : dino s2 (1 + Z.of_nat n) = i2).
Context (Hdino : forall j, 0 <= j < 200 -> j <> 1 + Z.of_nat n -> dino s2 j = dino s1 j).

Lemma regrown_more : freeblock s <= freeblock s2.
Proof using Hinv Hn Hg Hsz Hre Hi2 Hdino.
  clear Hio. rewrite (ri_block _ _ Hre), (gr_free _ _ _ _ _ _ Hg). pose proof (blocks_mono (Z.of_nat (length bytes)) (Z.of_nat (length bytes) + Z.of_nat (length src)) ltac:(lia)). lia.
Qed.

Lemma regrown_dino j : 0 <= j < 200 -> j <> 1 + Z.of_nat n -> dino s2 j = dino s j.
Proof using Hinv Hn Hg Hsz Hre Hi2 Hdino.
  clear Hio. intros Hj Hne. rewrite Hdino by done. unfold dino. destruct (mk_IBLOCK j Hj). by rewrite (gr_low _ _ _ _ _ _ Hg) by lia.
Qed.

Lemma regrown_self : holds s2 i2 ty (bytes ++ src) /\ forall k, 0 <= k <= MAXFILE -> own (view s2) i2 k = own (view s1) i1 k.
Proof using Hinv Hn Hg Hsz Hre Hi2 Hdino.
  clear Hio. destruct (mi_file _ _ Hinv n ty bytes Hn) as [_ Hh]. pose proof (grown_holds _ _ _ _ _ _ _ Hh Hg Hsz) as Hh1. fold i2 in Hh1.
  destruct (holds_frame s1 s2 i2 ty (bytes ++ src)) as [A B]; [apply Hg|apply Hre|rewrite (ri_block _ _ Hre); lia|done| |by split].
  intros k Hk Hnz. apply (ri_img _ _ Hre). pose proof (fd_data _ _ (ho_file _ _ _ _ Hh1) k Hk Hnz). lia.
Qed.

Lemma regrown_other m ty' bytes' : m <> n -> fs !! m = Some (ty', bytes') ->
  holds s2 (dino s2 (1 + Z.of_nat m)) ty' bytes' /\ (forall k, 0 <= k <= MAXFILE -> own (view s2) (dino s2 (1 + Z.of_nat m)) k = own (view s) (dino s (1 + Z.of_nat m)) k)
  /\ forall k k', 0 <= k <= MAXFILE -> 0 <= k' <= MAXFILE -> own (view s) (dino s (1 + Z.of_nat m)) k <> 0 -> own (view s2) i2 k' <> own (view s) (dino s (1 + Z.of_nat m)) k.
Proof using Hinv Hn Hg Hsz Hre Hi2 Hdino.
  clear Hio. intros Hne Hm. destruct (mi_file _ _ Hinv m ty' bytes' Hm) as [_ Hh]. set (j := dino s (1 + Z.of_nat m)) in *. pose proof (mi_base _ _ Hinv) as Hb.
  pose proof (lookup_lt_Some _ _ _ Hm) as Hlm. pose proof (lookup_lt_Some _ _ _ Hn) as Hln. destruct (mi_count _ _ Hinv) as [_ Hc].
  assert (forall k, 0 <= k <= MAXFILE -> own (view s) j k <> 0 ->
    view s1 (own (view s) j k) = view s (own (view s) j k) /\ forall k', 0 <= k' <= MAXFILE -> own (view s1) i1 k' <> own (view s) j k) as Hout.
  { intros k Hk Hnz. destruct (ex_other _ _ _ _ _ _ (gr_ext _ _ _ _ _ _ Hg) (own (view s) j k)) as (E & _ & Hno); [by apply Hh| |done].
    intros k' Hk'. apply not_eq_sym. by apply (mi_apart _ _ Hinv m n k k'). }
  rewrite (regrown_dino (1 + Z.of_nat m)) by lia. fold j. destruct (holds_frame s s2 j ty' bytes' Hb (ri_base _ _ Hre) regrown_more Hh) as [A B].
  { intros k Hk Hnz. destruct (Hout k Hk Hnz) as [E _]. pose proof (own_below s j k Hb (ho_file _ _ _ _ Hh) Hk Hnz).
    rewrite !view_ne in E by lia. rewrite (ri_img _ _ Hre) by lia. done. }
  split_and!; [done|done|]. intros k k' Hk Hk' Hnz. rewrite (proj2 regrown_self) by done. by apply Hout.
Qed.

Lemma regrown_inv : mk_inv s2 (<[n := (ty, bytes ++ src)]> fs).
Proof using Hinv Hn Hg Hsz Hre Hi2 Hdino.
  clear Hio. pose proof (lookup_lt_Some _ _ _ Hn) as Hln. destruct (mi_count _ _ Hinv) as [Hfi Hc]. destruct regrown_self as [Hself Eself].
  assert (forall m, (m < length fs)%nat -> exists ty' bytes', fs !! m = Some (ty', bytes')) as Hsome.
  { intros m Hm. destruct (lookup_lt_is_Some_2 _ _ Hm) as [[ty' bytes'] E]. eauto. }
  split; rewrite ?length_insert.
  - apply Hre.
  - by rewrite (ri_inode _ _ Hre), (gr_next _ _ _ _ _ _ Hg).
  - rewrite (total_insert _ _ _ _ Hn). cbn [snd]. rewrite (ri_block _ _ Hre), (gr_free _ _ _ _ _ _ Hg), (mi_blocks _ _ Hinv), length_app, Nat2Z.inj_add. lia.
  - intros m ty' bytes'. destruct (decide (m = n)) as [->|Hne].
    + rewrite list_lookup_insert_eq by done. intros [= <- <-]. rewrite Hi2. split; [by eapply mi_file|done].
    + rewrite list_lookup_insert_ne by done. intros E. split; [by eapply mi_file|]. by apply regrown_other.
  - intros m m' k k' Hm Hm' Hne Hk Hk'. destruct (Hsome m Hm) as (tm & bm & Em), (Hsome m' Hm') as (tm' & bm' & Em').
    destruct (decide (m = n)) as [->|Hmn]; [|destruct (decide (m' = n)) as [->|Hmn']].
    + destruct (regrown_other m' tm' bm' ltac:(done) Em') as (_ & Eo & Hno). rewrite Hi2. intros Hnz Heq. rewrite (Eo k' Hk') in Heq.
      apply (Hno k' k Hk' Hk); [|done]. by rewrite <- Heq.
    + destruct (regrown_other m tm bm Hmn Em) as (_ & Eo & Hno). rewrite Hi2. rewrite (Eo k Hk). intros Hnz. apply not_eq_sym. by apply Hno.
    + destruct (regrown_other m tm bm Hmn Em) as (_ & Eo & _), (regrown_other m' tm' bm' Hmn' Em') as (_ & Eo' & _).
      rewrite (Eo k Hk), (Eo' k' Hk'). by apply (mi_apart _ _ Hinv).
  - intros a Ha. destruct (decide (a < freeblock s)) as [Hlt|Hge].
    + destruct (mi_cover _ _ Hinv a ltac:(lia)) as (m & k & Hm & Hk & E). exists m, k. split_and!; [done|lia|lia|].
      destruct (decide (m = n)) as [->|Hmn].
      * rewrite Hi2, Eself by done. rewrite (ex_own _ _ _ _ _ _ (gr_ext _ _ _ _ _ _ Hg)); [done|done|]. fold i in E. lia.
      * destruct (Hsome m Hm) as (tm & bm & Em). destruct (regrown_other m tm bm Hmn Em) as (_ & Eo & _). by rewrite (Eo k Hk).
    + destruct (gr_new _ _ _ _ _ _ Hg a) as (k & Hk & E); [rewrite <- (ri_block _ _ Hre); lia|]. exists n, k. rewrite Hi2, Eself by done. done.
  - intros inum Hinum. rewrite regrown_dino by lia. by apply (mi_free _ _ Hinv).
  - rewrite (ri_img _ _ Hre), (gr_low _ _ _ _ _ _ Hg) by lia. apply Hinv.
  - intros a Ha. rewrite (ri_img _ _ Hre), (gr_low _ _ _ _ _ _ Hg) by lia. by apply (mi_log _ _ Hinv).
Qed.
End Regrown.

(** iappend() adds to the end of a file and changes no other. *)
Lemma iappend_run s fs n ty bytes src : mk_inv s fs -> fs !! n = Some (ty, bytes) ->
  Z.of_nat (length (bytes ++ src)) <= MAXFILE * BSIZE -> 46 + total (<[n := (ty, bytes ++ src)]> fs) <= 2000 ->
  exists s', iappend (1 + Z.of_nat n) src s = Ret tt s' /\ mk_inv s' (<[n := (ty, bytes ++ src)]> fs).
Proof using Hio.
  intros Hinv Hn Hsz Hfree. pose proof (mi_base _ _ Hinv) as Hb. destruct (mi_file _ _ Hinv n ty bytes Hn) as [Hty Hh].
  pose proof (lookup_lt_Some _ _ _ Hn) as Hln. destruct (mi_count _ _ Hinv) as [_ Hc]. set (inum := 1 + Z.of_nat n) in *.
  rewrite length_app, Nat2Z.inj_add in Hsz. rewrite (total_insert _ _ _ _ Hn) in Hfree. cbn [snd] in Hfree. rewrite length_app, Nat2Z.inj_add in Hfree.
  unfold iappend. rewrite (bind_Ret _ _ _ _ _ (rinode_run s inum Hb ltac:(lia))).
  rewrite xint_id by (rewrite (ho_size _ _ _ _ Hh); rewrite MAXFILE_eq in Hsz; unfold BSIZE in Hsz; lia). rewrite (ho_size _ _ _ _ Hh).
  destruct (iappend_loop_run (S (length src)) s (dino s inum) src (Z.of_nat (length bytes))) as (s1 & i1 & E1 & Hg); try apply Hh; [done|lia|done| |lia|].
  { rewrite (mi_blocks _ _ Hinv). lia. }
  rewrite (bind_Ret _ _ _ _ _ E1). rewrite xint_id by (rewrite MAXFILE_eq in Hsz; unfold BSIZE in Hsz; lia).
  pose proof (grown_holds _ _ _ _ _ _ _ Hh Hg Hsz) as Hh1. set (i2 := set_i_size _ i1) in *.
  destruct (winode_run s1 inum i2) as (s2 & E2 & Hre & Ei2 & Hd); [apply Hg|lia| |].
  { apply (owned_inode_ok 2 sb (view s1)); [apply Hh1|apply base_fs_ok, Hg|..]; rewrite ?(ho_type _ _ _ _ Hh1), ?(ho_major _ _ _ _ Hh1), ?(ho_minor _ _ _ _ Hh1), ?(ho_nlink _ _ _ _ Hh1); lia. }
  exists s2. split; [done|]. eapply (regrown_inv s fs n ty bytes src s1 s2 i1); try done. fold inum. rewrite Ei2. unfold i2.
  pose proof (ex_fields _ _ _ _ _ _ (gr_ext _ _ _ _ _ _ Hg)) as Ef. set (l := i_addrs i1) in Ef. clearbody l. rewrite Ef. apply dino_grown.
Qed.

(** ** A new inode *)

Definition new_inode (inum ty : Z) : inode := Inode ROOTDEV inum 0 0 ty 0 0 1 0 (replicate 13 0).

Lemma new_own C inum ty k : 0 <= k <= MAXFILE -> own C (new_inode inum ty) k = 0.
Proof using.
  clear Hio. intros Hk. unfold own, blk_of, ind_of. cbn [i_addrs new_inode]. change (replicate 13 0 !!! Z.to_nat NDIRECT) with 0. cbn [Z.eqb].
  destruct (k =? MAXFILE); [done|]. destruct (Z.ltb_spec k NDIRECT); [|done]. apply lookup_total_replicate_2. unfold NDIRECT in *. lia.
Qed.

Lemma new_holds s inum ty : holds s (new_inode inum ty) ty [].
Proof using.
  clear Hio. assert (MAXFILE = 268) as HM by done. split; try done; [split; [split|]|split]; try done; cbn [length i_size new_inode].
  - intros bn H0 Hbn. unfold BSIZE in *. lia.
  - intros k Hk. by rewrite new_own.
  - intros k k' Hk Hk'. by rewrite new_own.
  - intros k Hk. by rewrite new_own.
  - intros k Hk. rewrite new_own by lia. unfold BSIZE. lia.
  - intros j Hj. pose proof (blk_range j ltac:(lia)). rewrite <- own_blk, new_own by lia. done.
Qed.

Lemma total_app fs gs : total (fs ++ gs) = total fs + total gs.
Proof using. clear Hio. induction fs as [|f fs IH]; [done|]. unfold total in *. cbn [app foldr]. lia. Qed.

(** Inode [inum] is new; the others, and all blocks but those of the inodes, stay. *)
Lemma new_inv s fs s2 ty : mk_inv s fs -> 1 + Z.of_nat (length fs) < 200 -> - 2 ^ 15 <= ty < 2 ^ 15 -> base s2 ->
  freeblock s2 = freeblock s -> freeinode s2 = freeinode s + 1 -> (forall a, ~ 32 <= a < 45 -> img s2 a = img s a) ->
  dino s2 (1 + Z.of_nat (length fs)) = new_inode (1 + Z.of_nat (length fs)) ty ->
  (forall j, 0 <= j < 200 -> j <> 1 + Z.of_nat (length fs) -> dino s2 j = dino s j) -> mk_inv s2 (fs ++ [(ty, [])]).
Proof using.
  clear Hio. intros Hinv Hlt Hty Hb2 Efb Efi Himg Enew Eold. pose proof (mi_base _ _ Hinv) as Hb. destruct (mi_count _ _ Hinv) as [Hfi Hc].
  assert (forall n ty' bytes', fs !! n = Some (ty', bytes') -> holds s2 (dino s (1 + Z.of_nat n)) ty' bytes' /\
    forall k, 0 <= k <= MAXFILE -> own (view s2) (dino s (1 + Z.of_nat n)) k = own (view s) (dino s (1 + Z.of_nat n)) k) as Hkeep.
  { intros n ty' bytes' E. destruct (mi_file _ _ Hinv n ty' bytes' E) as [_ Hh]. apply (holds_frame s); try done; [lia|].
    intros k Hk Hnz. apply Himg. pose proof (fd_data _ _ (ho_file _ _ _ _ Hh) k Hk Hnz). lia. }
  assert (forall n, (n < length fs)%nat -> dino s2 (1 + Z.of_nat n) = dino s (1 + Z.of_nat n) /\
    forall k, 0 <= k <= MAXFILE -> own (view s2) (dino s (1 + Z.of_nat n)) k = own (view s) (dino s (1 + Z.of_nat n)) k) as Hown.
  { intros n Hn. destruct (lookup_lt_is_Some_2 _ _ Hn) as [[ty' bytes'] E]. split; [apply Eold; lia|by eapply Hkeep]. }
  split; rewrite ?length_app; cbn [length].
  - done.
  - lia.
  - rewrite total_app, Efb, (mi_blocks _ _ Hinv). change (total [(ty, [])]) with 0. lia.
  - intros n ty' bytes' [E|[Hge E]]%lookup_app_Some.
    + rewrite (proj1 (Hown n (lookup_lt_Some _ _ _ E))). split; [by eapply mi_file|by apply Hkeep].
    + apply list_lookup_singleton_Some in E as [Hn [= <- <-]]. replace n with (length fs) by lia. rewrite Enew. split; [done|apply new_holds].
  - intros n m k k' Hn Hm Hne Hk Hk'. destruct (decide (n < length fs)%nat) as [Hn'|].
    2: { replace n with (length fs) by lia. rewrite Enew, new_own by done. done. }
    destruct (Hown n Hn') as [-> En]. rewrite En by done. intros Hnz. destruct (decide (m < length fs)%nat) as [Hm'|].
    + destruct (Hown m Hm') as [-> Em]. rewrite Em by done. by apply (mi_apart _ _ Hinv).
    + replace m with (length fs) by lia. by rewrite Enew, new_own.
  - rewrite Efb. intros a Ha. destruct (mi_cover _ _ Hinv a Ha) as (n & k & Hn & Hk & E). destruct (Hown n Hn) as [E1 E2].
    exists n, k. split_and!; [lia|lia|lia|]. rewrite E1, E2 by done. done.
  - intros inum Hi. rewrite Eold by lia. apply (mi_free _ _ Hinv). lia.
  - rewrite Himg by lia. apply Hinv.
  - intros a Ha. rewrite Himg by lia. by apply (mi_log _ _ Hinv).
Qed.

Lemma mk_ialloc_run s fs ty : mk_inv s fs -> 1 + Z.of_nat (length fs) < 200 -> 0 <= ty < 2 ^ 15 ->
  exists s', mk_ialloc ty s = Ret (1 + Z.of_nat (length fs)) s' /\ mk_inv s' (fs ++ [(ty, [])]).
Proof using Hio.
  intros Hinv Hlt Hty. destruct (mi_count _ _ Hinv) as [Hfi Hc]. set (inum := 1 + Z.of_nat (length fs)) in *.
  set (s0 := Img (img s) (inum + 1) (freeblock s) (img_sb s)). pose proof (mi_base _ _ Hinv) as Hb.
  assert (base s0) as Hb0 by (destruct Hb; by split).
  destruct (winode_run s0 inum (new_inode inum ty) Hb0 ltac:(lia)) as (s' & E & [R1 R2 R3 R4] & Ei & Ho).
  { split; cbn -[replicate]; try done; try lia. by apply Forall_replicate. }
  exists s'. split.
  - unfold mk_ialloc, set_freeinode, modify, gets, mbind, M_bind, mret, M_ret in *. cbn [obind]. rewrite Hfi in *. rewrite (wrapu_small 32) by lia.
    assert (s16 (xshort ty) = ty) as -> by (rewrite xshort_id by lia; rewrite <- (wrapu_small 16 ty) at 1 by lia; apply s16_u16; lia).
    match goal with |- obind ?x _ = _ => change x with (winode inum (new_inode inum ty) s0) end. rewrite E. done.
  - apply (new_inv s); try done; [lia|]. by rewrite R3, Hfi.
Qed.

(** ** The root directory *)

(** The name a file of the host gets. *)
Definition entry_name (arg : list Z) : list Z :=
  let name := shortname arg in match name with c :: name' => if c =? ch "_" then name' else name | [] => name end.

Fixpoint number (k : Z) (names : list (list Z)) : list (Z * list Z) :=
  match names with [] => [] | name :: names' => (k, name) :: number (k + 1) names' end.

(** The entries of the root directory: an inode number and a name each. *)
Definition root_entries (names : list (list Z)) : list (Z * list Z) :=
  [(ROOTINO, str "."); (ROOTINO, str "..")] ++ number 2 names.

Definition dir_bytes (es : list (Z * list Z)) : list Z := concat (map (fun e => dirent e.1 e.2) es).

(** The first entry of that name, with its offset. *)
Fixpoint find_entry (name : list Z) (es : list (Z * list Z)) (off : Z) : option (Z * Z) :=
  match es with
  | [] => None
  | (inum, n) :: es' => if bool_decide (cname (Z.to_nat DIRSIZ) name = cname (Z.to_nat DIRSIZ) n) then Some (inum, off) else find_entry name es' (off + DE_SIZE)
  end.

Lemma cname_zeros n m : cname n (replicate m 0) = [].
Proof using. by destruct n, m. Qed.

Lemma cname_field name : forall n m, (n <= m)%nat -> cname n (take n (cstr name ++ replicate m 0)) = cname n name.
Proof using.
  clear Hio. induction name as [|c name IH]; intros n m Hm; cbn [cstr].
  - cbn [app]. rewrite take_replicate, cname_zeros. by destruct n.
  - destruct (Z.eqb_spec c 0) as [->|Hc]; [cbn [app]; rewrite take_replicate, cname_zeros; by destruct n|].
    destruct n as [|n]; [done|]. cbn [app take cname]. destruct (u8 c =? 0); [done|]. f_equal. apply IH. lia.
Qed.

Lemma length_dirent inum name : length (dirent inum name) = desize.
Proof using. clear Hio. unfold dirent. rewrite length_app, length_le_bytes, length_take, length_app, length_replicate. unfold desize, DIRSIZ, DE_SIZE. lia. Qed.

Lemma dirent_entry inum name : 0 < inum < 2 ^ 16 -> is_entry (dirent inum name) name inum.
Proof using.
  clear Hio. intros Hi. split_and!; [apply length_dirent| |lia|].
  - unfold dirent, de_inum. rewrite xshort_id by lia. rewrite le_bytes2. unfold get16. set (l := [_; _] ++ _). change (l !!! Z.to_nat 0) with (u8 inum).
    change (l !!! Z.to_nat (0 + 1)) with (u8 (inum / 256)). clear l. unfold wrapu. change (2 ^ 8) with 256. lia.
  - unfold dirent, de_name. rewrite le_bytes2. by apply cname_field.
Qed.

Lemma find_padding n : forall name z off, (n * desize <= z)%nat -> dir_find n name (replicate z 0) off = None.
Proof using.
  clear Hio. induction n as [|n IH]; intros name z off Hz; [done|]. cbn [dir_find]. cbn [Nat.mul] in Hz. rewrite take_replicate, Nat.min_l by lia.
  change (de_inum (replicate desize 0)) with 0. cbn [Z.eqb orb]. rewrite drop_replicate. apply IH. lia.
Qed.

(** A directory of such entries, filled up with zeroes, is searched like the list. *)
Lemma find_entries name z : forall es off, Forall (fun e => 0 < e.1 < 2 ^ 16) es ->
  dir_find (length (dir_bytes es ++ replicate z 0) / desize) name (dir_bytes es ++ replicate z 0) off = find_entry name es off.
Proof using.
  clear Hio. induction es as [|[inum n] es IH]; intros off Hes; [cbn [dir_bytes map concat app]; apply find_padding; rewrite length_replicate, Nat.mul_comm; apply Nat.Div0.mul_div_le|].
  apply Forall_cons in Hes as [He Hes]. destruct (dirent_entry inum n He) as (E1 & E2 & E3 & E4).
  unfold dir_bytes. cbn [map concat]. fold (dir_bytes es). rewrite <- app_assoc, dir_find_cons by apply length_dirent. cbn [fst snd find_entry].
  rewrite E2, E4, (proj2 (Z.eqb_neq _ _) E3). cbn [orb]. case_bool_decide; cbn [negb]; [done|]. by apply IH.
Qed.

(** ** main() *)

Lemma blocks_nonneg n : 0 <= n -> 0 <= blocks n.
Proof using. clear Hio. intros Hn. unfold blocks. destruct (12288 <? n); cbn [b2z]; lia. Qed.

Lemma total_nonneg fs : 0 <= total fs.
Proof using. clear Hio. induction fs as [|f fs IH]; [done|]. unfold total in *. cbn [foldr]. pose proof (blocks_nonneg (Z.of_nat (length f.2)) ltac:(lia)). lia. Qed.

Lemma copy_chunks_run : forall chunks s fs n ty bytes, mk_inv s fs -> fs !! n = Some (ty, bytes) ->
  Z.of_nat (length (bytes ++ concat chunks)) <= MAXFILE * BSIZE -> 46 + total (<[n := (ty, bytes ++ concat chunks)]> fs) <= 2000 ->
  exists s', copy_chunks (1 + Z.of_nat n) chunks s = Ret tt s' /\ mk_inv s' (<[n := (ty, bytes ++ concat chunks)]> fs).
Proof using Hio.
  induction chunks as [|c chunks IH]; intros s fs n ty bytes Hinv Hn Hsz Hfr; cbn [copy_chunks concat] in *.
  { exists s. rewrite app_nil_r, list_insert_id by done. done. }
  rewrite app_assoc in Hsz, Hfr |- *. pose proof Hfr as Hfr'. rewrite (total_insert _ _ _ _ Hn) in Hfr'. cbn [snd] in Hfr'.
  pose proof (blocks_mono (Z.of_nat (length (bytes ++ c))) (Z.of_nat (length ((bytes ++ c) ++ concat chunks)))) as Hmo.
  pose proof (length_app (bytes ++ c) (concat chunks)) as Hl.
  destruct (iappend_run s fs n ty bytes c Hinv Hn) as (s1 & E1 & Hinv1); [lia|rewrite (total_insert _ _ _ _ Hn); cbn [snd]; lia|].
  rewrite (bind_Ret _ _ _ _ _ E1). pose proof (lookup_lt_Some _ _ _ Hn) as Hln.
  destruct (IH s1 _ n ty (bytes ++ c) Hinv1) as (s2 & E2 & Hinv2); rewrite ?list_insert_insert_eq in *; try done; [by rewrite list_lookup_insert_eq|].
  exists s2. done.
Qed.

(** A file of the host that mkfs can read and that is not too large. *)
Record source (arg bytes : list Z) : Prop := {
  so_name : ch "/" ∉ shortname arg;
  so_read : exists chunks, host_file arg = Some chunks /\ concat chunks = bytes;
  so_size : Z.of_nat (length bytes) <= MAXFILE * BSIZE
}.

Lemma add_file_run s d fs arg bytes : mk_inv s ((T_DIR, d) :: fs) -> source arg bytes -> 2 + Z.of_nat (length fs) < 200 ->
  Z.of_nat (length d) + DE_SIZE <= MAXFILE * BSIZE ->
  let d' := d ++ dirent (2 + Z.of_nat (length fs)) (entry_name arg) in
  46 + total ((T_DIR, d') :: fs ++ [(T_FILE, bytes)]) <= 2000 ->
  exists s', add_file ROOTINO arg s = Ret tt s' /\ mk_inv s' ((T_DIR, d') :: fs ++ [(T_FILE, bytes)]).
Proof using Hio.
  intros Hinv [Hname (chunks & Ec & <-) Hsz] Hc Hd d' Hfr. unfold add_file. rewrite bool_decide_eq_true_2 by done.
  assert (forall s, assert true s = Ret tt s) as Ea by done. rewrite (bind_Ret _ _ _ _ _ (Ea s)). rewrite Ec.
  destruct (mk_ialloc_run s _ T_FILE Hinv) as (s1 & E1 & Hinv1); [cbn [length]; lia|done|].
  rewrite (bind_Ret _ _ _ _ _ E1). cbn [length] in *. replace (1 + Z.of_nat (S (length fs))) with (2 + Z.of_nat (length fs)) in * by lia.
  match goal with |- context [dirent _ ?n] => change n with (entry_name arg) end.
  assert (total ((T_DIR, d') :: fs ++ [(T_FILE, [])]) <= total ((T_DIR, d') :: fs ++ [(T_FILE, concat chunks)])) as Hmo.
  { rewrite !(app_comm_cons fs), !total_app. pose proof (total_nonneg [(T_FILE, concat chunks)]). change (total [(T_FILE, [])]) with 0. lia. }
  destruct (iappend_run s1 _ 0 T_DIR d (dirent (2 + Z.of_nat (length fs)) (entry_name arg)) Hinv1 eq_refl) as (s2 & E2 & Hinv2).
  { rewrite length_app, length_dirent. unfold desize, DE_SIZE in *. lia. }
  { cbn [insert list_insert app]. fold d'. lia. }
  change ROOTINO with (1 + Z.of_nat 0). rewrite (bind_Ret _ _ _ _ _ E2). cbn [insert list_insert app] in Hinv2. fold d' in Hinv2.
  assert (((T_DIR, d') :: fs ++ [(T_FILE, [])]) !! S (length fs) = Some (T_FILE, [])) as Hl.
  { rewrite lookup_cons_ne_0 by done. cbn [Nat.pred]. by rewrite lookup_app_r, Nat.sub_diag. }
  assert (<[S (length fs) := (T_FILE, concat chunks)]> ((T_DIR, d') :: fs ++ [(T_FILE, [])]) = (T_DIR, d') :: fs ++ [(T_FILE, concat chunks)]) as El.
  { change (<[S (length fs) := ?x]> (?y :: ?l)) with (y :: <[length fs := x]> l). f_equal. rewrite <- (Nat.add_0_r (length fs)). by rewrite insert_app_r. }
  destruct (copy_chunks_run chunks s2 _ (S (length fs)) T_FILE [] Hinv2 Hl) as (s3 & E3 & Hinv3); cbn [app] in *; rewrite ?El in *; [done|done|].
  exists s3. replace (2 + Z.of_nat (length fs)) with (1 + Z.of_nat (S (length fs))) by lia. done.
Qed.

Definition plain_files (files : list (list Z)) : list (Z * list Z) := map (fun b => (T_FILE, b)) files.

Lemma length_dir es : Z.of_nat (length (dir_bytes es)) = DE_SIZE * Z.of_nat (length es).
Proof using.
  clear Hio. induction es as [|e es IH]; [done|]. unfold dir_bytes in *. cbn [map concat length]. rewrite length_app, length_dirent. unfold desize, DE_SIZE in *. lia.
Qed.

Lemma length_number names : forall k, length (number k names) = length names.
Proof using. clear Hio. induction names as [|x names IH]; intros k; cbn [number length]; [done|]. by rewrite IH. Qed.

Lemma add_files_run : forall args files s d fs, Forall2 source args files -> mk_inv s ((T_DIR, d) :: fs) -> 2 + Z.of_nat (length fs + length args) <= 200 ->
  Z.of_nat (length d) + DE_SIZE * Z.of_nat (length args) <= MAXFILE * BSIZE ->
  let d' := d ++ dir_bytes (number (2 + Z.of_nat (length fs)) (map entry_name args)) in
  46 + total ((T_DIR, d') :: fs ++ plain_files files) <= 2000 ->
  exists s', for_each args (add_file ROOTINO) s = Ret tt s' /\ mk_inv s' ((T_DIR, d') :: fs ++ plain_files files).
Proof using Hio.
  induction args as [|arg args IH]; intros files s d fs Hs Hinv Hc Hd d' Hfr.
  { apply Forall2_nil_inv_l in Hs as ->. exists s. unfold d', plain_files in *. cbn [map number dir_bytes concat] in *. rewrite !app_nil_r in *. done. }
  apply Forall2_cons_inv_l in Hs as (bytes & files' & Hsrc & Hs & ->). cbn [for_each length] in *.
  set (e := dirent (2 + Z.of_nat (length fs)) (entry_name arg)). set (rest := dir_bytes (number (2 + Z.of_nat (length fs) + 1) (map entry_name args))).
  assert (d' = (d ++ e) ++ rest) as Ed by (unfold d'; cbn [map number]; rewrite <- app_assoc; done).
  assert (fs ++ plain_files (bytes :: files') = (fs ++ [(T_FILE, bytes)]) ++ plain_files files') as Ef by (rewrite <- app_assoc; done).
  rewrite Ed, Ef in *. assert (total ((T_DIR, d ++ e) :: fs ++ [(T_FILE, bytes)]) <= total ((T_DIR, (d ++ e) ++ rest) :: (fs ++ [(T_FILE, bytes)]) ++ plain_files files')) as Hmo.
  { rewrite (app_comm_cons (fs ++ [(T_FILE, bytes)])), total_app. pose proof (total_nonneg (plain_files files')). unfold total in *. cbn [foldr snd].
    pose proof (blocks_mono (Z.of_nat (length (d ++ e))) (Z.of_nat (length ((d ++ e) ++ rest)))). rewrite (length_app (d ++ e)) in *. lia. }
  destruct (add_file_run s d fs arg bytes Hinv Hsrc) as (s1 & E1 & Hinv1); [lia|unfold DE_SIZE in *; lia|fold e; lia|]. fold e in Hinv1.
  rewrite (bind_Ret _ _ _ _ _ E1). assert (length e = desize) as Hle by apply length_dirent.
  assert (Z.of_nat (length (fs ++ [(T_FILE, bytes)])) = Z.of_nat (length fs) + 1) as Hlf by (rewrite length_app; cbn [length]; lia).
  destruct (IH files' s1 (d ++ e) (fs ++ [(T_FILE, bytes)]) Hs Hinv1) as (s2 & E2 & Hinv2).
  - rewrite length_app. cbn [length]. lia.
  - rewrite length_app, Hle. unfold desize, DE_SIZE in *. lia.
  - rewrite Hlf, Z.add_assoc. fold rest. lia.
  - exists s2. split; [done|]. rewrite Hlf, Z.add_assoc in Hinv2. done.
Qed.

Lemma zero_run : forall l s, Forall (fun x => 0 <= x < 2000) l ->
  exists s', for_each l (fun i => wsect i zeros_block) s = Ret tt s' /\ freeinode s' = freeinode s /\ freeblock s' = freeblock s /\ img_sb s' = img_sb s /\
    forall a, img s' a = if bool_decide (a ∈ l) then zeros_block else img s a.
Proof using Hio.
  induction l as [|x l IH]; intros s Hl; cbn [for_each].
  { exists s. split_and!; try done. }
  apply Forall_cons in Hl as [Hx Hl]. rewrite (bind_Ret _ _ _ _ _ (wsect_run s x zeros_block Hx)).
  destruct (IH (written s x zeros_block) Hl) as (s' & E & E1 & E2 & E3 & E4). exists s'. split_and!; try done.
  intros a. rewrite E4. cbn [img written]. destruct (bool_decide (a ∈ l)) eqn:Ea.
  - rewrite bool_decide_eq_true in Ea. rewrite bool_decide_eq_true_2 by (by right). done.
  - rewrite bool_decide_eq_false in Ea. destruct (Z.eqb_spec a x) as [->|Hne].
    + rewrite bool_decide_eq_true_2 by (by left). done.
    + rewrite bool_decide_eq_false_2 by (by rewrite elem_of_cons; intros [?|?]). done.
Qed.

Lemma zero_inv s : img_sb s = sb -> freeinode s = 1 -> freeblock s = 46 -> (forall a, 0 <= a < 2000 -> a <> 1 -> img s a = zeros_block) ->
  img s 1 = put_bytes zeros_block 0 (sb_bytes sb) -> mk_inv s [].
Proof using.
  clear Hio. intros H1 H2 H3 H4 H5. split; try done; cbn [length].
  - split; [done|lia| |intros a Ha; apply H4; lia]. intros a Ha. destruct (decide (a = 1)) as [->|]; [rewrite H5|rewrite H4 by done; done].
    by rewrite length_put_bytes.
  - lia.
  - cbn. lia.
  - intros inum Hi. unfold dino, load_dinode. destruct (mk_IBLOCK inum ltac:(lia)) as [_ Hr]. destruct (dinode_range inum ltac:(lia)) as [Hd1 Hd2].
    rewrite H4 by lia. cbn [i_type set_i_type set_i_major set_i_minor set_i_nlink set_i_size set_i_addrs]. unfold get16, zeros_block, DINODE_SIZE, DI_type, BSIZE in *.
    rewrite !lookup_total_replicate_2 by lia. done.
  - intros a Ha. apply H4; lia.
Qed.

(** *** The image *)

Definition disk_inode (C : Z -> list Z) (inum : Z) : inode := load_dinode (C (IBLOCK inum sb)) (dinode_at inum) (no_inode inum).

(** The blocks [C] are a file system whose files, from inode 1 on, are [fs]. *)
Record image_ok (C : Z -> list Z) (fs : list (Z * list Z)) : Prop := {
  im_fs : fs_ok 2 sb C;
  im_sb : superblock_of (C 1) = sb;
  im_log : forall a, 2 <= a < 32 -> C a = zeros_block;
  im_file : forall n ty bytes, fs !! n = Some (ty, bytes) ->
    let i := disk_inode C (1 + Z.of_nat n) in owned 2 sb C i /\ i_type i = ty /\ i_nlink i = 1 /\ file_bytes C i = bytes;
  im_apart : forall n m k k', (n < length fs)%nat -> (m < length fs)%nat -> n <> m -> 0 <= k <= MAXFILE -> 0 <= k' <= MAXFILE ->
    own C (disk_inode C (1 + Z.of_nat n)) k <> 0 -> own C (disk_inode C (1 + Z.of_nat n)) k <> own C (disk_inode C (1 + Z.of_nat m)) k';
  im_free : forall inum, 1 + Z.of_nat (length fs) <= inum < 200 -> i_type (disk_inode C inum) = 0;
  im_bitmap : forall a, 0 <= a < 2000 ->
    used_at C sb a = true <-> a < 46 \/ exists n k, (n < length fs)%nat /\ 0 <= k <= MAXFILE /\ own C (disk_inode C (1 + Z.of_nat n)) k = a
}.

(** A directory filled up to the end of its last block. *)
Definition padded (d : list Z) : list Z := d ++ replicate (Z.to_nat ((Z.of_nat (length d) / BSIZE + 1) * BSIZE - Z.of_nat (length d))) 0.

Lemma sb_read : superblock_of (put_bytes zeros_block 0 (sb_bytes sb)) = sb.
Proof using. by vm_compute. Qed.

Lemma disk_dino s inum : 0 <= inum < 200 -> disk_inode (view s) inum = dino s inum.
Proof using. clear Hio. intros Hi. unfold disk_inode, dino. destruct (mk_IBLOCK inum Hi). by rewrite view_ne by lia. Qed.

(** The size of the root directory is rounded up. *)
Lemma padded_root s i d sz : holds s i T_DIR d -> Z.of_nat (length d) mod BSIZE <> 0 -> sz = (Z.of_nat (length d) / BSIZE + 1) * BSIZE -> sz <= MAXFILE * BSIZE ->
  owned 2 sb (view s) (set_i_size sz i) /\ file_bytes (view s) (set_i_size sz i) = padded d.
Proof using.
  clear Hio. intros [Hf [T1 T2 T3] H3 H4 H5 H6 H7 H8] Hm Esz Hmax.
  assert (forall bn, 0 <= bn -> bn * BSIZE < sz -> blk_of (view s) i bn <> 0) as Hb.
  { intros bn H0 Hbn. assert (bn < MAXFILE) by (unfold BSIZE in *; lia). rewrite <- own_blk by lia. apply T1; [lia|]. unfold BSIZE in *. lia. }
  split; [apply owned_size; [apply Hf|unfold BSIZE in *; lia|done]|].
  unfold padded. rewrite <- Esz. unfold file_bytes. cbn [i_size set_i_size]. set (n := Z.of_nat (length d)) in *. assert (0 <= n < sz) as Hn by (unfold BSIZE in *; lia).
  assert (seqZ 0 sz = seqZ 0 n ++ seqZ (0 + n) (sz - n)) as -> by (rewrite <- seqZ_app by lia; f_equal; lia). rewrite fmap_app. f_equal.
  - rewrite <- H8. unfold file_bytes. by rewrite H7.
  - apply list_eq. intros j. rewrite list_lookup_fmap. destruct (decide (Z.of_nat j < sz - n)) as [Hj|Hj].
    + rewrite lookup_seqZ_lt, lookup_replicate_2 by lia. cbn. f_equal. change (byte_at (view s) i (0 + n + Z.of_nat j) = 0).
      apply T3; [lia|]. apply Hb; unfold BSIZE in *; lia.
    + rewrite lookup_seqZ_ge by lia. symmetry. apply lookup_replicate_None. lia.
Qed.

Lemma image_end s s2 d fs sz : mk_inv s ((T_DIR, d) :: fs) -> Z.of_nat (length d) mod BSIZE <> 0 -> sz = (Z.of_nat (length d) / BSIZE + 1) * BSIZE ->
  sz <= MAXFILE * BSIZE -> reinoded s s2 -> dino s2 1 = set_i_size sz (dino s 1) -> (forall j, 0 <= j < 200 -> j <> 1 -> dino s2 j = dino s j) ->
  image_ok (view s2) ((T_DIR, padded d) :: fs).
Proof using.
  clear Hio. intros Hinv Hm Esz Hmax [R1 R2 R3 R4] E1 Eo. pose proof (mi_base _ _ Hinv) as Hb. destruct (mi_count _ _ Hinv) as [Hfi Hc]. cbn [length] in *.
  assert (forall n ty bytes, ((T_DIR, d) :: fs) !! n = Some (ty, bytes) -> holds s2 (dino s (1 + Z.of_nat n)) ty bytes /\
    forall k, 0 <= k <= MAXFILE -> own (view s2) (dino s (1 + Z.of_nat n)) k = own (view s) (dino s (1 + Z.of_nat n)) k) as Hkeep.
  { intros n ty bytes E. destruct (mi_file _ _ Hinv n ty bytes E) as [_ Hh]. apply (holds_frame s); try done; [lia|].
    intros k Hk Hnz. apply R4. pose proof (fd_data _ _ (ho_file _ _ _ _ Hh) k Hk Hnz). lia. }
  assert (forall n k, (n < S (length fs))%nat -> 0 <= k <= MAXFILE ->
    own (view s2) (disk_inode (view s2) (1 + Z.of_nat n)) k = own (view s) (dino s (1 + Z.of_nat n)) k) as Hown.
  { intros n k Hn Hk. destruct (lookup_lt_is_Some_2 ((T_DIR, d) :: fs) n Hn) as [[ty bytes] E]. rewrite <- (proj2 (Hkeep n ty bytes E)) by done.
    rewrite disk_dino by lia. destruct n as [|n]; [change (1 + Z.of_nat 0) with 1; rewrite E1; apply set_size_own|]. by rewrite Eo by lia. }
  split; cbn [length].
  - by apply base_fs_ok.
  - rewrite view_ne, R4, (mi_sb _ _ Hinv) by lia. apply sb_read.
  - intros a Ha. rewrite view_ne, R4 by lia. by apply (mi_log _ _ Hinv).
  - intros [|n] ty bytes E; cbv zeta.
    + assert (Some (T_DIR, padded d) = Some (ty, bytes)) as E' by exact E. assert (ty = T_DIR /\ bytes = padded d) as [-> ->] by (split; congruence). destruct (Hkeep 0%nat T_DIR d eq_refl) as [Hh _]. rewrite disk_dino by lia. change (1 + Z.of_nat 0) with 1 in *. rewrite E1.
      destruct (padded_root s2 (dino s 1) d sz Hh Hm Esz Hmax) as [A B]. split_and!; [done|apply (ho_type _ _ _ _ Hh)|apply (ho_nlink _ _ _ _ Hh)|done].
    + pose proof (lookup_lt_Some _ _ _ E) as Hl. cbn [length] in Hl. destruct (Hkeep (S n) ty bytes E) as [Hh _]. rewrite disk_dino, Eo by lia.
      split_and!; [apply (fd_owned _ _ (ho_file _ _ _ _ Hh))|apply (ho_type _ _ _ _ Hh)|apply (ho_nlink _ _ _ _ Hh)|apply (ho_bytes _ _ _ _ Hh)].
  - intros n m k k' Hn Hm' Hne Hk Hk'. rewrite !Hown by done. by apply (mi_apart _ _ Hinv).
  - intros inum Hi. rewrite disk_dino, Eo by lia. by apply (mi_free _ _ Hinv).
  - intros a Ha. rewrite view_used, R2 by done. rewrite Z.ltb_lt. split.
    + intros Hlt. destruct (decide (a < 46)) as [Hlow|Hlow]; [by left|right]. destruct (mi_cover _ _ Hinv a ltac:(lia)) as (n & k & Hn & Hk & E).
      exists n, k. rewrite Hown by done. done.
    + intros [Hlt|(n & k & Hn & Hk & E)]; [pose proof (ba_free _ Hb); lia|]. rewrite Hown in E by done.
      destruct (lookup_lt_is_Some_2 ((T_DIR, d) :: fs) n Hn) as [[ty bytes] El]. destruct (mi_file _ _ Hinv n ty bytes El) as [_ Hh].
      destruct (decide (a = 0)) as [->|Hz]; [pose proof (ba_free _ Hb); lia|].
      pose proof (own_below s _ k Hb (ho_file _ _ _ _ Hh) Hk ltac:(lia)). lia.
Qed.

(** The files of the image mkfs makes of [args]. *)
Definition layout (args files : list (list Z)) : list (Z * list Z) :=
  (T_DIR, padded (dir_bytes (root_entries (map entry_name args)))) :: plain_files files.

(** Everything fits: the inodes, the blocks, and the directory does not end with a block. *)
Record fits (args files : list (list Z)) : Prop := {
  fi_source : Forall2 source args files;
  fi_inodes : 2 + Z.of_nat (length args) <= 200;
  fi_end : (2 + Z.of_nat (length args)) mod 64 <> 0;
  fi_blocks : 46 + total (layout args files) <= 2000
}.

Lemma layout_total args files : fits args files ->
  total (layout args files) = total ((T_DIR, dir_bytes (root_entries (map entry_name args))) :: plain_files files).
Proof using.
  clear Hio. intros [_ Hc He _]. unfold layout, total. cbn [foldr snd]. f_equal. unfold padded. rewrite length_app, length_replicate.
  pose proof (length_dir (root_entries (map entry_name args))) as Hd. unfold root_entries in *. rewrite length_app, length_number, length_map in Hd. cbn [length] in Hd.
  set (n := length (dir_bytes _)) in *. unfold blocks, BSIZE, DE_SIZE in *.
  destruct (Z.ltb_spec 12288 (Z.of_nat n)), (Z.ltb_spec 12288 (Z.of_nat (n + Z.to_nat ((Z.of_nat n / 1024 + 1) * 1024 - Z.of_nat n)))); cbn [b2z]; lia.
Qed.

(** main() up to the files. *)
Lemma root_run s : freeinode s = 1 ->
  exists s', (modify (fun s => Img (img s) (freeinode s) (freeblock s) mkfs_sb);; set_freeblock nmeta;; zero_image;; sb ← gets img_sb;
    wsect 1 (put_bytes (replicate (Z.to_nat BSIZE) 0) 0 (sb_bytes sb))) s = Ret tt s' /\ mk_inv s' [].
Proof using Hio.
  intros Hi. unfold modify, set_freeblock, modify, mbind, M_bind. cbn [obind img freeinode freeblock img_sb].
  destruct (zero_run (seqZ 0 FSSIZE) (Img (img s) (freeinode s) nmeta sb)) as (s1 & E & E1 & E2 & E3 & E4).
  { apply Forall_forall. intros x Hx%elem_of_seqZ. unfold FSSIZE in Hx. lia. }
  unfold zero_image. fold zeros_block. rewrite E. unfold gets. cbn [obind]. rewrite E3. cbn [img_sb]. rewrite wsect_run by lia.
  eexists. split; [done|]. apply zero_inv; cbn [img_sb written freeinode freeblock img].
  - done.
  - by rewrite E1.
  - by rewrite E2.
  - intros a Ha Hne. rewrite (proj2 (Z.eqb_neq a 1)), E4, bool_decide_eq_true_2 by (done || apply elem_of_seqZ; unfold FSSIZE; lia). done.
  - by rewrite Z.eqb_refl.
Qed.

(** The end of main(). *)
Lemma finish_run s d fs : mk_inv s ((T_DIR, d) :: fs) -> Z.of_nat (length d) mod BSIZE <> 0 -> (Z.of_nat (length d) / BSIZE + 1) * BSIZE <= MAXFILE * BSIZE ->
  exists s', (din ← rinode ROOTINO;
    let off := xint (i_size din) in
    let off := (off / BSIZE + 1) * BSIZE in
    winode ROOTINO (set_i_size (xint off) din);;
    fb ← gets freeblock;
    mk_balloc fb) s = Ret tt s' /\ image_ok (img s') ((T_DIR, padded d) :: fs).
Proof using Hio.
  intros Hinv Hm Hmax. pose proof (mi_base _ _ Hinv) as Hb. destruct (mi_file _ _ Hinv 0%nat T_DIR d eq_refl) as [_ Hh].
  change (1 + Z.of_nat 0) with ROOTINO in Hh. rewrite (bind_Ret _ _ _ _ _ (rinode_run s ROOTINO Hb ltac:(unfold ROOTINO; lia))). cbv zeta.
  pose proof (ho_size _ _ _ _ Hh) as Es. assert (Z.of_nat (length d) <= MAXFILE * BSIZE) as Hl by (rewrite <- Es; apply Hh).
  rewrite Es. rewrite (xint_id (Z.of_nat (length d))) by (rewrite MAXFILE_eq in Hl; unfold BSIZE in Hl; lia). set (sz := _ * BSIZE) in *.
  assert (0 <= sz) as Hsz by (unfold sz, BSIZE; lia). rewrite xint_id by (rewrite MAXFILE_eq in Hmax; unfold BSIZE in Hmax; lia).
  destruct (padded_root s (dino s ROOTINO) d sz Hh Hm eq_refl Hmax) as [How _].
  destruct (winode_run s ROOTINO (set_i_size sz (dino s ROOTINO)) Hb ltac:(unfold ROOTINO; lia)) as (s2 & E2 & Hre & Ei & Ho).
  { apply (owned_inode_ok 2 sb (view s)); [done|by apply base_fs_ok|..]; cbn [i_type i_major i_minor i_nlink set_i_size];
      rewrite ?(ho_type _ _ _ _ Hh), ?(ho_major _ _ _ _ Hh), ?(ho_minor _ _ _ _ Hh), ?(ho_nlink _ _ _ _ Hh); unfold T_DIR; lia. }
  rewrite (bind_Ret _ _ _ _ _ E2). unfold mk_balloc, gets, mbind, M_bind. cbn [obind]. pose proof (ri_base _ _ Hre) as Hb2. pose proof (ba_free _ Hb2) as Hfr.
  unfold assert. rewrite (proj2 (Z.ltb_lt _ _)) by (unfold BSIZE; lia). cbn [obind mret M_ret]. unfold mret, M_ret. cbn [obind]. rewrite (ba_sb _ Hb2).
  change (sb_bmapstart sb) with 45. rewrite wsect_run by lia. eexists. split; [done|]. cbn [img written].
  assert ((fun x => if x =? 45 then mark_used (Z.to_nat (freeblock s2)) 0 (replicate (Z.to_nat BSIZE) 0) else img s2 x) = view s2) as ->.
  { apply functional_extensionality. intros a. unfold view, bupd. destruct (Z.eqb_spec a 45) as [->|]; [by rewrite decide_True|by rewrite decide_False]. }
  by eapply (image_end s s2 d fs sz).
Qed.

Lemma root_entries_range names k : 0 < k -> k + Z.of_nat (length names) <= 2 ^ 16 -> Forall (fun e => 0 < e.1 < 2 ^ 16) (number k names).
Proof using.
  clear Hio. revert k. induction names as [|name names IH]; intros k Hk Hl; cbn [number length] in *; [done|].
  apply Forall_cons. split; [cbn [fst]; lia|]. apply IH; lia.
Qed.

End Steps.

(** ** An image *)

(** Two files on the host, the second read in two parts. *)
Definition demo_host : Host := {|
  sector_ok := fun _ => true;
  host_file := fun arg => if bool_decide (arg = str "user/_cat") then Some [[127; 69; 76; 70]]
    else if bool_decide (arg = str "README") then Some [str "xv6 is "; str "a re-implementation"] else None
|}.
#[local] Existing Instance demo_host.

Lemma demo_source arg bytes : ch "/" ∉ shortname arg -> (exists chunks, host_file arg = Some chunks /\ concat chunks = bytes) ->
  Z.of_nat (length bytes) <= MAXFILE * BSIZE -> source arg bytes.
Proof. by split. Qed.

